(* ===== verification/_CoqProject ===== *)
-Q . S2P
Prelude.v
GoError.v
GoString.v
GoNum.v
Strconv.v
GoContext.v
GoJson.v
JsonSyntax.v
Model.v
MetricsJson.v
GoMap.v
Instances.v
Storage.v
MemStorage.v
FileStore.v
Service.v
Sha256.v
Retry.v
Protocol.v
NetIP.v
Log.v
Http.v
Base64.v
AesGcm.v
Encryption.v
Middleware.v
AuditTrail.v
Handler.v
HTTPSender.v
Router.v
Pipeline.v
GoFlag.v
AgentConfig.v
ServerConfig.v
AgentService.v
AgentRuntime.v
PostgresStorage.v
Grpc.v
GrpcPipeline.v
Availability.v
Delivery.v
GoText.v
TestKeys.v
GoAst.v
ResetGen.v
ResetSemantics.v
ResetCorrect.v
ResetFiles.v
ServerSetup.v
ServerRuntime.v
Pool.v
Noosexit.v
Commands.v
