(* ===== verification/Prelude.v ===== *)
(** * Metrics collection service: verification library (root file)

    The repository is a client and a server for runtime metrics, with three
    development tools.  The _agent_ ([src/cmd/agent], [src/internal/agent]) polls
    gauges and a poll counter and reports them in batches over HTTP or gRPC.  The
    _server_ ([src/cmd/server], [src/internal/server]) applies batches to a storage
    in memory or in PostgreSQL, keeps a metrics file, serves values and audits
    updates.  The _tools_ are the generator of [Reset] methods ([src/cmd/reset]), an
    object pool for such types ([src/pkg/pool]) and a static analyser
    ([src/cmd/staticlint]).

    ** How the code is modelled

    A Go function becomes a function of the same name.  Functions that can fail
    return [outcome] (below): a result, an [error] value or a panic.  Functions
    with effects are in the state monad [St] (below), on the state they touch; a
    method on an object of the program has the object as its first argument, or
    inside the state when the method changes it.  Error values keep the tree
    [errors.Is] and [errors.As] search (GoError.v).  [int64] is [Z] with [wrap64]
    written out, [float64] a canonical [spec_float], [string] a byte string, a map
    a [gmap] whose iteration order is an oracle of the class [MapRange], time a
    clock of nanoseconds, a [select] with several ready cases an oracle of
    [SelectOrder].  Goroutines are transition systems: one constructor per action on
    shared state (AgentRuntime.v, ServerRuntime.v); elsewhere one call under a
    mutex is one atomic function, and concurrent calls are sequences of calls.

    What the program gets from elsewhere is a class, and the class with suffix
    [Laws] is what the code relies on: [Gzip], [Crypto] (RSA-OAEP and the entropy),
    [KeyFormats], [KeyWriters], [Chi], [RestClient], [MetricsClient], [SqlDB] (a server
    that may lose replies, with the table and the statements' meaning defined in
    PostgresStorage.v), [PgErrCode], [SqlDriver], [Migrate], [Zap], [GoSyntax] (parser and
    printer), [Host] (readings of the machine), [NetInterfaces].  Instances.v and
    the witnesses instantiate every one of them.  The standard library's own
    algorithms are defined, not assumed: the texts of floats (Strconv.v) and of JSON
    (JsonSyntax.v), whose instances discharge [FloatTextLaws] and [JsonTextLaws],
    SHA-256, AES-GCM (AesGcm.v), base64, IP addresses, flags, durations, quoting,
    paths.

    ** Files and what they model

    Foundations: Prelude.v (outcomes, the monad, tactics), GoError.v, GoString.v,
    GoNum.v, Strconv.v ([ParseFloat], [FormatFloat]), GoContext.v (contexts,
    [waitRetry]), GoJson.v (JSON trees and decoding
    into structs), JsonSyntax.v (scanner, parser and printer of JSON texts),
    GoMap.v, GoText.v, Log.v, Http.v (requests, response writers, handlers),
    NetIP.v, Base64.v, AesGcm.v, Instances.v.

    Data: Model.v and MetricsJson.v ([internal/model]), Protocol.v
    ([internal/protocol]).

    Server, storage side: Storage.v (the interface [MetricsStorage] and the
    abstract [View] with [apply_batch]), MemStorage.v, PostgresStorage.v, FileStore.v
    ([internal/repository]), Service.v ([internal/server/service]; its contract for
    the transports is the class [ServiceLaws]).

    Server, transports: Middleware.v, Handler.v, Router.v
    ([internal/server/transport/http]), Grpc.v, Module GRPCServer
    ([internal/server/transport/grpc]), AuditTrail.v ([internal/server/audit]),
    Sha256.v ([internal/hash]), Encryption.v and TestKeys.v ([internal/encryption]);
    Availability.v puts the whole HTTP server together.

    Server, process: ServerConfig.v over GoFlag.v ([internal/server/config]),
    ServerSetup.v ([New], [Close] and everything they call), ServerRuntime.v ([Run]:
    both transports, the periodic saver, the requests, shutdown), Commands.v (the
    [main] packages, the logger, the build information).

    Agent: AgentConfig.v, AgentService.v ([internal/agent/service]), AgentRuntime.v
    ([internal/agent/agent.go], [report.go]), HTTPSender.v over Retry.v and Grpc.v,
    Module GRPCSender ([internal/agent/transport]); Pipeline.v and GrpcPipeline.v run
    a sender against the server over a network that may lose messages, Delivery.v the
    agent's goroutines against it (the interface between them is [Channel]).

    Tools: GoAst.v, ResetGen.v (the generator), ResetSemantics.v (an interpreter
    for the statements it writes), ResetCorrect.v, ResetFiles.v, Pool.v, Noosexit.v.

    ** What the theorems show

    - End to end: every poll the agent counts as delivered is in the server's
      counter, over either transport ([polls_reach_server]); a batch the agent posts is applied and answered under every
      configuration both sides share ([agent_batch_delivered]); over a lossy network
      a report is applied whole, at most four times, at least once on success, and
      over HTTP exactly as often as the losses let it through
      ([send_at_least_once], [grpc_send_at_least_once]).
    - The server as a whole: no request makes it panic or changes the metrics other
      than by one valid batch ([every_request_answered]); it is built whole or not at all ([new_releases]), can
      always stop ([stop_possible]), and has saved every acknowledged update when it
      stops cleanly ([clean_stop_saves_all]); the next start finds them
      ([restart_restores]).
    - The agent as a whole: no poll is lost or counted twice ([polls_accounted]), it
      can always stop ([shutdown_possible]) and has reported everything when it stops
      cleanly ([clean_shutdown]).
    - Storage: a batch is the fold of its metrics ([batch_update_correct]), in any
      schedule ([counters_schedule_independent]), all or nothing in the database
      ([update_metrics_atomic], [counter_overflow_refused]); the file restores what
      was saved ([save_load_roundtrip], [sync_update_durable]).
    - Each transport and layer: statuses and their meaning ([updates_json_outcome],
      [update_outcome], [grpc_update_outcome]), signatures, encryption and
      compression ([with_hash_outcome], [with_decryption_outcome],
      [gzip_response_outcome], [decrypt_encrypt], [decrypt_accepts]), keys on disk
      ([generated_keys_load]), the subnet check over gRPC ([grpc_chain_outcome]),
      converters ([grpc_batch_roundtrip]), bounds on the retries ([send_effort]).
    - Configuration: every value comes from the environment, the flags, the file or
      the defaults, in this order ([agent_config_precedence],
      [server_config_precedence]).
    - Tools: what the generator writes leaves every object as the reset rules of
      README's increment 21 say, with the three exceptions below ([generated_reset_correct]),
      in exactly the right files ([generate_outcome]); what the analyser reports
      ([noosexit_reports]).
    - Behaviour that departs from the intention, each with the inputs that show it:
      [restore_failure_panics], [sync_saves_race], [nan_update_poisons_server],
      [file_observer_sticky], [tickers_outcome], [periodic_ticker_overflows],
      [invalid_name_rewritten], [cyclic_reset_overflows], [pointer_left_alone],
      [foreign_reset_not_called], [embedded_field_ignored], [misses_parentheses].

    Theorems about transports are proved against [ServiceLaws], theorems about the
    service against [MetricsStorageLaws]; MemStorage.v and PostgresStorage.v prove
    instances of the latter, Service.v derives the former.

    ** Bounds and fuel

    Recursion is structural, with these exceptions.  [ParseDuration], [TrimSpace] and
    SHA-256 use the length of their input as fuel, which is enough
    ([duration_terms_fuel], [trim_go_done], [blocks_fuel]).  The parsers of IP
    addresses count down the digits of a field and the groups of an address: the
    bounds are those of the format, and a text that exceeds them is refused, as [net]
    refuses it.  The shortest text of a float is searched up to the number of digits
    of its exact expansion, which reads back ([shortest_reads]).  The call depth of the
    interpreter for generated methods is a parameter: [generated_reset_correct] says how
    much is enough, [cyclic_reset_overflows] that no depth is for a cycle.  The retries are bounded
    by the list of their delays, which is the program's.
    Transition systems have no bound: invariants hold in every reachable state, and
    the liveness theorems exhibit the steps that lead to the end.

    ** Not modelled

    The wire format of gRPC and protobuf, TLS, and the code [protoc] and [mockgen]
    generate; the meaning of SQL beyond the program's statements; the inside of
    zap, chi, resty, golang-migrate and the third-party analysers; the log lines of
    the two [Run] functions and of the goroutines they start; the signal handler of
    the [main] functions, which is the step that cancels the context; other clients of
    the database ([SqlDBLaws] is sequential); bytes of two saves of the metrics file
    mixed with each other; the closing of served connections by [Close], which owns no
    other resource; an audit file at the path of the metrics file.
    Bytes of a response are modelled up to what handlers write: [net/http]'s own
    headers and chunking are not. *)

From Stdlib Require Export Ascii ZArith Lia.
From stdpp Require Export base gmap strings list fin_maps option pretty sorting.

(** ** Outcomes

    A call of a Go function either returns, returns a non-nil [error] as its
    last result, or panics.  [E] is the type of error values. *)

Inductive outcome (E A : Type) : Type :=
| Ret (a : A)
| Fail (e : E)
| Panic (why : string).
Arguments Ret {E A} _.
Arguments Fail {E A} _.
Arguments Panic {E A} _.

Section Outcome.
Context {E A : Type}.

Definition is_ret (o : outcome E A) : bool :=
  match o with Ret _ => true | _ => false end.

Definition outcome_value (o : outcome E A) : option A :=
  match o with Ret a => Some a | _ => None end.

#[export] Instance outcome_eq_dec `{EqDecision E} `{EqDecision A} :
  EqDecision (outcome E A).
Proof. solve_decision. Defined.
End Outcome.

(** ** Stateful computations

    [St E S A] is a computation that may update the state [S].  A panic keeps
    the state as it was when it happened: deferred calls run, but no update is
    undone. *)

Definition St (E S A : Type) : Type := S -> outcome E A * S.

Section Monad.
Context {E S : Type}.

#[export] Instance St_ret : MRet (St E S) := fun A a s => (Ret a, s).

#[export] Instance St_bind : MBind (St E S) := fun A B f m s =>
  match m s with
  | (Ret a, s') => f a s'
  | (Fail e, s') => (Fail e, s')
  | (Panic p, s') => (Panic p, s')
  end.

Definition throw {A} (e : E) : St E S A := fun s => (Fail e, s).
Definition panic {A} (p : string) : St E S A := fun s => (Panic p, s).
Definition get_state : St E S S := fun s => (Ret s, s).
Definition put_state (s' : S) : St E S unit := fun _ => (Ret tt, s').
Definition modify (f : S -> S) : St E S unit := fun s => (Ret tt, f s).
Definition gets {A} (f : S -> A) : St E S A := fun s => (Ret (f s), s).

(** [v, err := m(); if err != nil { return wrap(err) }] *)
Definition map_err {A} (wrap : E -> E) (m : St E S A) : St E S A := fun s =>
  match m s with
  | (Fail e, s') => (Fail (wrap e), s')
  | r => r
  end.

(** [v, err := m()]: both results as a value, a panic still propagates. *)
Definition attempt {A} (m : St E S A) : St E S (A + E) := fun s =>
  match m s with
  | (Ret a, s') => (Ret (inl a), s')
  | (Fail e, s') => (Ret (inr e), s')
  | (Panic p, s') => (Panic p, s')
  end.

(** [return v, err] from a value that already is an outcome. *)
Definition lift_outcome {A} (o : outcome E A) : St E S A := fun s => (o, s).

(** [for _, x := range l { body }] where [body] may return an error or panic. *)
Fixpoint for_range {A} (l : list A) (body : A -> St E S unit) : St E S unit :=
  match l with
  | [] => mret tt
  | x :: l' => _ ← body x; for_range l' body
  end.

Definition when (b : bool) (m : St E S unit) : St E S unit :=
  if b then m else mret tt.
End Monad.

(** Running a computation on a part of a larger state. *)
Definition on_fst {E S T A} (m : St E S A) : St E (S * T) A := fun st =>
  let '(r, s') := m st.1 in (r, (s', st.2)).
Definition on_snd {E S T A} (m : St E T A) : St E (S * T) A := fun st =>
  let '(r, t') := m st.2 in (r, (st.1, t')).

(** ** Reference lemmas of the monad *)
Section MonadLemmas.
Context {E S : Type}.

Lemma bind_ret {A B} (a : A) (f : A -> St E S B) s : (mret a ≫= f) s = f a s.
Proof. done. Qed.

Lemma bind_Ret {A B} (m : St E S A) (f : A -> St E S B) s a s' :
  m s = (Ret a, s') -> (m ≫= f) s = f a s'.
Proof. unfold mbind, St_bind. by intros ->. Qed.

Lemma bind_Fail {A B} (m : St E S A) (f : A -> St E S B) s e s' :
  m s = (Fail e, s') -> (m ≫= f) s = (Fail e, s').
Proof. unfold mbind, St_bind. by intros ->. Qed.

Lemma bind_Panic {A B} (m : St E S A) (f : A -> St E S B) s p s' :
  m s = (Panic p, s') -> (m ≫= f) s = (Panic p, s').
Proof. unfold mbind, St_bind. by intros ->. Qed.

(** A successful bind decomposes. *)
Lemma bind_Ret_inv {A B} (m : St E S A) (f : A -> St E S B) s b s' :
  (m ≫= f) s = (Ret b, s') ->
  exists a s1, m s = (Ret a, s1) /\ f a s1 = (Ret b, s').
Proof. unfold mbind, St_bind. destruct (m s) as [[] ?]; naive_solver. Qed.

Lemma map_err_Ret_inv {A} (w : E -> E) (m : St E S A) s a s' :
  map_err w m s = (Ret a, s') -> m s = (Ret a, s').
Proof. unfold map_err. destruct (m s) as [[] ?]; naive_solver. Qed.

Lemma map_err_Ret {A} (w : E -> E) (m : St E S A) s a s' :
  m s = (Ret a, s') -> map_err w m s = (Ret a, s').
Proof. unfold map_err. by intros ->. Qed.

Lemma map_err_Fail {A} (w : E -> E) (m : St E S A) s e s' :
  m s = (Fail e, s') -> map_err w m s = (Fail (w e), s').
Proof. unfold map_err. by intros ->. Qed.

(** A loop whose body always returns is a fold over the state. *)
Lemma for_range_pure {A} (l : list A) (body : A -> St E S unit) (f : S -> A -> S) s :
  (forall x s, x ∈ l -> body x s = (Ret tt, f s x)) ->
  for_range l body s = (Ret tt, foldl f s l).
Proof.
  revert s. induction l as [|x l IH]; intros s Hb; [done|].
  cbn [for_range foldl]. unfold mbind, St_bind.
  rewrite Hb by left. apply IH. intros y s' Hy. apply Hb. by right.
Qed.

Lemma for_range_app {A} (l1 l2 : list A) (body : A -> St E S unit) s :
  for_range (l1 ++ l2) body s = (for_range l1 body ≫= (fun _ => for_range l2 body)) s.
Proof.
  revert s. induction l1 as [|x l1 IH]; intros s; [done|].
  cbn [for_range app]. unfold mbind, St_bind in *.
  by destruct (body x s) as [[] s1].
Qed.

End MonadLemmas.

(** ** Step sequences *)
Section Steps.
Context {A : Type} (step : A -> A -> Prop).

(** Everything that holds initially and is kept by each step holds in every
    reachable state. *)
Lemma rtc_invariant (P : A -> Prop) :
  (forall a b, P a -> step a b -> P b) ->
  forall a b, rtc step a b -> P a -> P b.
Proof. intros Hstep a b Hab. induction Hab; eauto. Qed.
End Steps.

(** ** Generic lemmas on lists *)
Section Lists.
Lemma foldl_invariant {A B} (P : A -> Prop) (f : A -> B -> A) (l : list B) a :
  P a -> (forall a b, b ∈ l -> P a -> P (f a b)) -> P (foldl f a l).
Proof.
  revert a. induction l as [|b l IH]; intros a Ha Hf; [done|]. cbn.
  apply IH; [apply Hf; [left|done]|]. intros a' b' Hin. apply Hf. by right.
Qed.

End Lists.

(** ** Automation *)

Create HintDb go.
Create Rewrite HintDb go_num.
Create Rewrite HintDb go_errors.
Create Rewrite HintDb go_http.
#[export] Hint Resolve bind_ret map_err_Ret map_err_Fail : go.

(** Case analysis on the guard of the innermost [match] or [if] of the goal. *)
Ltac split_guard :=
  match goal with
  | |- context [match ?x with _ => _ end] =>
      lazymatch x with
      | context [match _ with _ => _ end] => fail
      | _ => destruct x eqn:?
      end
  end.

(** Unfold the monad and compute. *)
Ltac run :=
  repeat (progress (unfold mbind, St_bind, mret, St_ret, map_err, attempt, throw,
    panic, gets, modify, get_state, put_state, when, lift_outcome, on_fst, on_snd in *;
    cbn in *)).

(** Invert the equations a monadic run leaves in the context. *)
Ltac inv_run :=
  repeat match goal with
  | H : (_ ≫= _) _ = (Ret _, _) |- _ =>
      apply bind_Ret_inv in H as (? & ? & ? & ?)
  | H : map_err _ _ _ = (Ret _, _) |- _ => apply map_err_Ret_inv in H
  | H : (mret _) _ = (_, _) |- _ => unfold mret, St_ret in H; simplify_eq
  end; simplify_eq/=.
