(* ===== verification/GoError.v ===== *)
(** * Go error values

    Values of the [error] interface as the program builds and inspects them:
    sentinels ([errors.New] variables compared by identity), typed errors that
    carry data ([*pgconn.PgError], gRPC statuses, [*unexpectedStatusError]),
    [fmt.Errorf] with [%w], and [errors.Join].  [Is], [As] and [status.Code]
    walk the wrap tree in the pre-order the [errors] package documents. *)

From S2P Require Import Prelude.

(** [google.golang.org/grpc/codes]: the numbering of the wire protocol. *)
Inductive codes : Type :=
| OK | Canceled | Unknown | InvalidArgument | DeadlineExceeded | NotFound
| AlreadyExists | PermissionDenied | ResourceExhausted | FailedPrecondition
| Aborted | OutOfRange | Unimplemented | Internal | Unavailable | DataLoss
| Unauthenticated.

#[export] Instance codes_eq_dec : EqDecision codes.
Proof. solve_decision. Defined.

#[warnings="-register-all"]
Inductive error : Type :=
(** sentinels *)
| ErrMetricNotFound
| ErrContextCanceled
| ErrContextDeadlineExceeded
| ErrNoRows
| ErrNotExist
| ErrHTTPServerClosed
| ErrGRPCServerStopped
| ErrHelp
(** typed errors *)
| ErrPg (code : string)
| ErrStatus (code : codes) (msg : string)
| ErrUnexpectedStatus (statusCode : Z)
| ErrNet (msg : string)
(** [fmt.Errorf] without [%w], [errors.New] in place, library errors the code
    only forwards *)
| ErrNew (msg : string)
(** [fmt.Errorf("ctx: %w", inner)] and [errors.Join] *)
| ErrWrap (ctx : string) (inner : error)
| ErrJoin (errs : list error).

(** The pre-order list of an error's tree: the order in which [errors.Is] and
    [errors.As] visit it. *)
Fixpoint error_tree (e : error) : list error :=
  match e with
  | ErrWrap _ inner => e :: error_tree inner
  | ErrJoin errs => e :: flat_map error_tree errs
  | _ => [e]
  end.

(** Identity of sentinels; other values are never the target of [errors.Is]. *)
Definition same_sentinel (target e : error) : bool :=
  match target, e with
  | ErrMetricNotFound, ErrMetricNotFound
  | ErrContextCanceled, ErrContextCanceled
  | ErrContextDeadlineExceeded, ErrContextDeadlineExceeded
  | ErrNoRows, ErrNoRows
  | ErrNotExist, ErrNotExist
  | ErrHTTPServerClosed, ErrHTTPServerClosed
  | ErrGRPCServerStopped, ErrGRPCServerStopped
  | ErrHelp, ErrHelp => true
  | _, _ => false
  end.

(** [errors.Is] *)
Definition Is (e target : error) : bool := existsb (same_sentinel target) (error_tree e).

Fixpoint first_some {A B} (f : A -> option B) (l : list A) : option B :=
  match l with
  | [] => None
  | x :: l' => match f x with Some y => Some y | None => first_some f l' end
  end.

(** [errors.As] for a target type, given by its dynamic-type test. *)
Definition As {A} (sel : error -> option A) (e : error) : option A :=
  first_some sel (error_tree e).

Definition sel_pg (e : error) : option string :=
  match e with ErrPg c => Some c | _ => None end.
Definition sel_unexpected_status (e : error) : option Z :=
  match e with ErrUnexpectedStatus c => Some c | _ => None end.

(** Types with [Timeout] and [Temporary] methods satisfy [net.Error]; so does
    [context.DeadlineExceeded]. *)
Definition sel_net (e : error) : option unit :=
  match e with ErrNet _ | ErrContextDeadlineExceeded => Some tt | _ => None end.

Definition sel_status (e : error) : option codes :=
  match e with ErrStatus c _ => Some c | _ => None end.

(** [status.Code]: the code of the first status in the tree, [Unknown] when
    there is none, [OK] for a nil error. *)
Definition status_Code (e : option error) : codes :=
  match e with
  | None => OK
  | Some e => default Unknown (As sel_status e)
  end.

(** [codes.Code.String] *)
Definition codes_String (c : codes) : string :=
  match c with
  | OK => "OK" | Canceled => "Canceled" | Unknown => "Unknown"
  | InvalidArgument => "InvalidArgument" | DeadlineExceeded => "DeadlineExceeded"
  | NotFound => "NotFound" | AlreadyExists => "AlreadyExists"
  | PermissionDenied => "PermissionDenied" | ResourceExhausted => "ResourceExhausted"
  | FailedPrecondition => "FailedPrecondition" | Aborted => "Aborted"
  | OutOfRange => "OutOfRange" | Unimplemented => "Unimplemented"
  | Internal => "Internal" | Unavailable => "Unavailable" | DataLoss => "DataLoss"
  | Unauthenticated => "Unauthenticated"
  end.

(** The text of an error, as far as the program shows it to a client. *)
Fixpoint error_text (e : error) : string :=
  match e with
  | ErrMetricNotFound => "metric not found"
  | ErrContextCanceled => "context canceled"
  | ErrContextDeadlineExceeded => "context deadline exceeded"
  | ErrNoRows => "sql: no rows in result set"
  | ErrNotExist => "file does not exist"
  | ErrHTTPServerClosed => "http: Server closed"
  | ErrGRPCServerStopped => "grpc: the server has been stopped"
  | ErrHelp => "flag: help requested"
  | ErrPg c => c
  | ErrStatus c m => "rpc error: code = " +:+ codes_String c +:+ " desc = " +:+ m
  | ErrUnexpectedStatus c => "unexpected status code: " +:+ pretty c
  | ErrNet m => m
  | ErrNew m => m
  | ErrWrap c i => c +:+ ": " +:+ error_text i
  | ErrJoin es => String.concat (String "010"%char EmptyString) (map error_text es)
  end.

(** [errors.Join]: nil errors are dropped, the result is nil when none is left. *)
Definition Join (errs : list (option error)) : option error :=
  match omap id errs with
  | [] => None
  | es => Some (ErrJoin es)
  end.

(** ** Lemmas *)

Lemma Is_wrap c e target :
  Is (ErrWrap c e) target = Is e target.
Proof. by destruct target. Qed.

Lemma Is_join es target :
  Is (ErrJoin es) target = existsb (fun e => Is e target) es.
Proof.
  unfold Is. cbn. replace (same_sentinel target (ErrJoin es)) with false by by destruct target.
  cbn. induction es as [|e es IH]; [done|]. cbn. by rewrite existsb_app, IH.
Qed.

Lemma Join_None errs : Join errs = None <-> Forall (fun e => e = None) errs.
Proof.
  unfold Join. split.
  - induction errs as [|[e|] errs IH]; cbn; [done|done|]. intros H. constructor; [done|].
    by apply IH.
  - induction 1 as [|? errs -> ? IH]; [done|]. exact IH.
Qed.

Lemma Join_Is errs e target :
  Join errs = Some e ->
  Is e target = existsb (fun o => match o with Some e => Is e target | None => false end) errs.
Proof.
  unfold Join. intros H.
  assert (Heq : e = ErrJoin (omap id errs)) by (destruct (omap id errs); naive_solver).
  subst e. clear H. rewrite Is_join.
  induction errs as [|[e|] errs IH]; cbn; [done| |exact IH]. by rewrite IH.
Qed.

#[export] Hint Rewrite Is_wrap Is_join : go_errors.

(** Computations that fail with a Go error. *)
Abbreviation M := (St error).
