(* ===== verification/GoString.v ===== *)
(** * Strings

    The functions of [strings], [html], [net] and [net/textproto] the program
    calls, on byte strings ([string] is a list of 8-bit characters).  [ToLower]
    and [EqualFold] are only used against ASCII text; they treat the two
    non-ASCII letters that map to ASCII ones and leave other bytes alone, which
    decides every such comparison as Go does. *)

From S2P Require Import Prelude.
Local Open Scope char_scope.

Definition byte_between (lo hi : nat) (c : ascii) : bool :=
  let n := nat_of_ascii c in (lo <=? n)%nat && (n <=? hi)%nat.

Definition is_upper : ascii -> bool := byte_between 65 90.
Definition is_lower : ascii -> bool := byte_between 97 122.
Definition is_digit : ascii -> bool := byte_between 48 57.

Definition lower_ascii (c : ascii) : ascii :=
  if is_upper c then ascii_of_nat (nat_of_ascii c + 32) else c.
Definition upper_ascii (c : ascii) : ascii :=
  if is_lower c then ascii_of_nat (nat_of_ascii c - 32) else c.

Definition byte (n : nat) : ascii := ascii_of_nat n.

Definition hex_char (n : nat) : ascii := if (n <? 10)%nat then byte (48 + n) else byte (87 + n).

(** One byte of [strconv.Quote].  Bytes from 128 on are copied: the letters of
    valid text; [Quote] would escape the unprintable and invalid ones. *)
Definition quote_byte (c : ascii) : string :=
  let n := nat_of_ascii c in
  if (n =? 34)%nat || (n =? 92)%nat then String (byte 92) (String c EmptyString)
  else if (n =? 7)%nat then "\a"
  else if (n =? 8)%nat then "\b"
  else if (n =? 12)%nat then "\f"
  else if (n =? 10)%nat then "\n"
  else if (n =? 13)%nat then "\r"
  else if (n =? 9)%nat then "\t"
  else if (n =? 11)%nat then "\v"
  else if (n <? 32)%nat || (n =? 127)%nat
  then "\x" +:+ String (hex_char (n / 16)) (String (hex_char (n mod 16)) EmptyString)
  else String c EmptyString.

Fixpoint quote_bytes (s : string) : string :=
  match s with
  | EmptyString => EmptyString
  | String c s => quote_byte c +:+ quote_bytes s
  end.

(** [%q] of [fmt] *)
Definition Quote (s : string) : string :=
  String (byte 34) (quote_bytes s +:+ String (byte 34) EmptyString).

(** [strings.ToLower]: U+0130 lowers to i, U+212A (Kelvin sign) to k. *)
Fixpoint ToLower (s : string) : string :=
  match s with
  | EmptyString => EmptyString
  | String c s1 =>
      match s1 with
      | String c2 s2 =>
          if bool_decide (c = byte 196 /\ c2 = byte 176) then String "i" (ToLower s2)
          else match s2 with
               | String c3 s3 =>
                   if bool_decide (c = byte 226 /\ c2 = byte 132 /\ c3 = byte 170)
                   then String "k" (ToLower s3)
                   else String (lower_ascii c) (ToLower s1)
               | EmptyString => String (lower_ascii c) (ToLower s1)
               end
      | EmptyString => String (lower_ascii c) EmptyString
      end
  end.

(** Simple case folding against ASCII: U+017F folds with s, U+212A with k. *)
Fixpoint fold_ascii (s : string) : string :=
  match s with
  | EmptyString => EmptyString
  | String c s1 =>
      match s1 with
      | String c2 s2 =>
          if bool_decide (c = byte 197 /\ c2 = byte 191) then String "s" (fold_ascii s2)
          else match s2 with
               | String c3 s3 =>
                   if bool_decide (c = byte 226 /\ c2 = byte 132 /\ c3 = byte 170)
                   then String "k" (fold_ascii s3)
                   else String (lower_ascii c) (fold_ascii s1)
               | EmptyString => String (lower_ascii c) (fold_ascii s1)
               end
      | EmptyString => String (lower_ascii c) EmptyString
      end
  end.

(** [strings.EqualFold(s, t)] for an ASCII [t]. *)
Definition EqualFold (s t : string) : bool := bool_decide (fold_ascii s = fold_ascii t).

(** [strings.HasPrefix] *)
Fixpoint HasPrefix (s p : string) : bool :=
  match p, s with
  | EmptyString, _ => true
  | String a p', String b s' => bool_decide (a = b) && HasPrefix s' p'
  | String _ _, EmptyString => false
  end.

Fixpoint string_rev_app (s acc : string) : string :=
  match s with
  | EmptyString => acc
  | String c s' => string_rev_app s' (String c acc)
  end.
Definition string_rev (s : string) : string := string_rev_app s "".

(** [strings.HasSuffix] *)
Definition HasSuffix (s p : string) : bool := HasPrefix (string_rev s) (string_rev p).

(** [strings.Contains] *)
Fixpoint Contains (s sub : string) : bool :=
  HasPrefix s sub ||
  match s with
  | EmptyString => false
  | String _ s' => Contains s' sub
  end.

(** [html.EscapeString] *)
Fixpoint EscapeString (s : string) : string :=
  match s with
  | EmptyString => EmptyString
  | String c s' =>
      (if decide (c = "&"%char) then "&amp;"
       else if decide (c = "'"%char) then "&#39;"
       else if decide (c = "<"%char) then "&lt;"
       else if decide (c = ">"%char) then "&gt;"
       else if decide (c = byte 34) then "&#34;"
       else String c EmptyString)%string +:+ EscapeString s'
  end.

(** [strings.IndexByte] and [strings.LastIndexByte] *)
Fixpoint IndexByte (s : string) (b : ascii) : option nat :=
  match s with
  | EmptyString => None
  | String c s' => if decide (c = b) then Some O else S <$> IndexByte s' b
  end.

Fixpoint LastIndexByte (s : string) (b : ascii) : option nat :=
  match s with
  | EmptyString => None
  | String c s' =>
      match LastIndexByte s' b with
      | Some i => Some (S i)
      | None => if decide (c = b) then Some O else None
      end
  end.

Fixpoint string_take (n : nat) (s : string) : string :=
  match n, s with
  | S n', String c s' => String c (string_take n' s')
  | _, _ => EmptyString
  end.

Fixpoint string_drop (n : nat) (s : string) : string :=
  match n, s with
  | S n', String _ s' => string_drop n' s'
  | _, _ => s
  end.

(** [net.SplitHostPort], the host only; [None] for every error. *)
Definition SplitHost (hostport : string) : option string :=
  match LastIndexByte hostport ":" with
  | None => None
  | Some i =>
      let check (host : string) (j k : nat) : option string :=
        match IndexByte (string_drop j hostport) "[",
              IndexByte (string_drop k hostport) "]" with
        | None, None => Some host
        | _, _ => None
        end in
      match hostport with
      | String "[" _ =>
          match IndexByte hostport "]" with
          | None => None
          | Some e =>
              if decide (S e = i)
              then check (string_take (e - 1) (string_drop 1 hostport)) 1%nat (S e)
              else None
          end
      | _ =>
          let host := string_take i hostport in
          match IndexByte host ":" with
          | Some _ => None
          | None => check host O O
          end
      end
  end.

(** [textproto.CanonicalMIMEHeaderKey] on a valid header name: upper case for
    the first letter and after a hyphen, lower case elsewhere. *)
Fixpoint canonical_go (up : bool) (s : string) : string :=
  match s with
  | EmptyString => EmptyString
  | String c s' =>
      String (if up then upper_ascii c else lower_ascii c)
             (canonical_go (bool_decide (c = "-")) s')
  end.
Definition CanonicalKey (s : string) : string := canonical_go true s.

(** ** Lemmas *)

Lemma string_app_cons c s t : String c s +:+ t = String c (s +:+ t).
Proof. done. Qed.

Lemma string_app_nil_r s : s +:+ EmptyString = s.
Proof. induction s as [|c s IH]; [done|]. by rewrite string_app_cons, IH. Qed.

Lemma string_app_assoc (s t u : string) : (s +:+ t) +:+ u = s +:+ (t +:+ u).
Proof. induction s as [|c s IH]; [done|]. rewrite !string_app_cons. by rewrite IH. Qed.

Lemma HasPrefix_cons a s p :
  HasPrefix (String a s) (String a p) = HasPrefix s p.
Proof. cbn [HasPrefix]. by rewrite bool_decide_true. Qed.

Lemma HasPrefix_app p s : HasPrefix (p +:+ s) p = true.
Proof.
  induction p as [|c p IH]; [by destruct s|]. by rewrite string_app_cons, HasPrefix_cons.
Qed.

(** The characters that open markup never survive escaping. *)
Fixpoint string_forallb (p : ascii -> bool) (s : string) : bool :=
  match s with
  | EmptyString => true
  | String c s' => p c && string_forallb p s'
  end.

Lemma string_forallb_app p s t :
  string_forallb p (s +:+ t) = string_forallb p s && string_forallb p t.
Proof.
  induction s as [|c s IH]; [done|]. rewrite string_app_cons. cbn [string_forallb].
  by rewrite IH, andb_assoc.
Qed.

Definition not_markup (c : ascii) : bool :=
  negb (bool_decide (c ∈ ["<"; ">"; "'"; byte 34])).

Lemma EscapeString_no_markup s : string_forallb not_markup (EscapeString s) = true.
Proof.
  induction s as [|c s IH]; [done|]. cbn [EscapeString].
  rewrite string_forallb_app, IH, andb_true_r.
  repeat case_decide; try done.
  cbn [string_forallb]. rewrite andb_true_r. unfold not_markup.
  rewrite bool_decide_false; [done|]. rewrite !elem_of_cons, elem_of_nil. tauto.
Qed.

(** How often a byte occurs. *)
Fixpoint string_count (b : ascii) (s : string) : nat :=
  match s with
  | EmptyString => O
  | String c s' => (if decide (c = b) then 1 else 0) + string_count b s'
  end.

Lemma string_count_app b s t : string_count b (s +:+ t) = (string_count b s + string_count b t)%nat.
Proof.
  induction s as [|c s IH]; [done|]. rewrite string_app_cons. cbn [string_count]. rewrite IH. lia.
Qed.

Lemma string_count_concat b l :
  string_count b (String.concat EmptyString l) = foldr (fun s n => (string_count b s + n)%nat) O l.
Proof.
  induction l as [|s l IH]; [done|]. destruct l as [|s' l]; [cbn; lia|].
  change (String.concat EmptyString (s :: s' :: l))
    with (s +:+ (EmptyString +:+ String.concat EmptyString (s' :: l))).
  by rewrite !string_count_app, IH.
Qed.

Lemma no_markup_count s : string_forallb not_markup s = true -> string_count "<" s = O.
Proof.
  induction s as [|c s IH]; [done|]. cbn [string_forallb string_count].
  intros [Hc Hs]%andb_true_iff. rewrite IH by done.
  destruct (decide (c = "<"%char)) as [->|]; [discriminate Hc|done].
Qed.

Example SplitHost_v4 : SplitHost "192.168.1.7:5031" = Some "192.168.1.7"%string.
Proof. vm_compute. reflexivity. Qed.
Example SplitHost_v6 : SplitHost "[::1]:80" = Some "::1"%string.
Proof. vm_compute. reflexivity. Qed.
Example SplitHost_bad : SplitHost "::1" = None.
Proof. vm_compute. reflexivity. Qed.
Example CanonicalKey_hash : CanonicalKey "HashSHA256" = "Hashsha256"%string.
Proof. vm_compute. reflexivity. Qed.
