(* ===== verification/GoNum.v ===== *)
(** * Machine integers, floats and their texts

    [int64] is [Z] with wrap-around written out; [float64] is the binary64 of
    the Standard Library's [SpecFloat] (sign, mantissa, exponent; no NaN
    payload).  [ParseInt], [Atoi], [ParseBool] and [FormatInt] are translated
    from [strconv]; the conversions of floats are the interface [FloatText], whose
    law is the documented round trip and whose instance is Strconv.v. *)

From Stdlib Require Export SpecFloat.
From S2P Require Import Prelude GoError GoString.
Local Open Scope Z_scope.

(** ** [int64] *)

Definition two63 : Z := 2 ^ 63.
Definition two64 : Z := 2 ^ 64.

Definition in_int64 (z : Z) : Prop := - two63 <= z < two63.
#[export] Instance in_int64_dec z : Decision (in_int64 z).
Proof. unfold in_int64. apply _. Defined.

(** The result of an [int64] operation: two's complement wrap-around. *)
Definition wrap64 (z : Z) : Z := (z + two63) mod two64 - two63.

Lemma wrap64_range z : in_int64 (wrap64 z).
Proof.
  unfold in_int64, wrap64.
  pose proof (Z.mod_pos_bound (z + two63) two64 eq_refl) as H.
  change two64 with (two63 + two63) in *. lia.
Qed.

Lemma wrap64_id z : in_int64 z -> wrap64 z = z.
Proof.
  unfold in_int64, wrap64. intros H. rewrite Z.mod_small; [lia|].
  change two64 with (two63 + two63). lia.
Qed.

Lemma wrap64_add_mul z k : wrap64 (z + k * two64) = wrap64 z.
Proof.
  unfold wrap64. replace (z + k * two64 + two63) with (z + two63 + k * two64) by lia.
  by rewrite Z.mod_add.
Qed.

Lemma wrap64_decompose z : exists k, wrap64 z = z + k * two64.
Proof.
  unfold wrap64. exists (- ((z + two63) / two64)).
  pose proof (Z.div_mod (z + two63) two64 ltac:(done)). lia.
Qed.

(** Wrapping early or late makes no difference to a sum. *)
Lemma wrap64_add_l a b : wrap64 (wrap64 a + b) = wrap64 (a + b).
Proof.
  destruct (wrap64_decompose a) as [k ->].
  replace (a + k * two64 + b) with (a + b + k * two64) by lia. apply wrap64_add_mul.
Qed.

Lemma wrap64_add_r a b : wrap64 (a + wrap64 b) = wrap64 (a + b).
Proof. rewrite Z.add_comm, wrap64_add_l. f_equal. lia. Qed.

Lemma wrap64_wrap64 a : wrap64 (wrap64 a) = wrap64 a.
Proof. apply wrap64_id, wrap64_range. Qed.

#[export] Hint Rewrite wrap64_add_l wrap64_add_r wrap64_wrap64 : go_num.
#[export] Hint Resolve wrap64_range wrap64_id : go.

(** ** Decimal text of integers *)

Definition digit_value (c : Ascii.ascii) : option Z :=
  match Ascii.is_nat c with Some n => Some (Z.of_nat n) | None => None end.

Fixpoint parse_digits (acc : Z) (s : string) : option Z :=
  match s with
  | EmptyString => Some acc
  | String c s' =>
      match digit_value c with
      | Some d => parse_digits (acc * 10 + d) s'
      | None => None
      end
  end.

(** [strconv.ParseUint(s, 10, 64)] up to its range check: a non-empty run of
    decimal digits. *)
Definition ParseUint10 (s : string) : option Z :=
  match s with EmptyString => None | _ => parse_digits 0 s end.

(** [strconv.ParseInt(s, 10, 64)]: optional sign, digits, range check. *)
Definition ParseInt (s : string) : option Z :=
  let '(neg, body) :=
    match s with
    | String "+" s' => (false, s')
    | String "-" s' => (true, s')
    | _ => (false, s)
    end%char in
  match ParseUint10 body with
  | None => None
  | Some un =>
      if neg
      then if decide (two63 < un) then None else Some (- un)
      else if decide (two63 <= un) then None else Some un
  end.

(** [strconv.Atoi]: [int] is 64 bits wide. *)
Definition Atoi (s : string) : option Z := ParseInt s.

(** [strconv.FormatInt(i, 10)] *)
Definition FormatInt (z : Z) : string := pretty z.

(** [strconv.ParseBool] *)
Definition ParseBool (s : string) : option bool :=
  if decide (s ∈ ["1"; "t"; "T"; "TRUE"; "true"; "True"]) then Some true
  else if decide (s ∈ ["0"; "f"; "F"; "FALSE"; "false"; "False"]) then Some false
  else None.

Lemma digit_value_pretty n :
  (n < 10)%N -> digit_value (pretty_N_char n) = Some (Z.of_N n).
Proof.
  intros H.
  assert (n ∈ [0; 1; 2; 3; 4; 5; 6; 7; 8; 9]%N) as Hin by (rewrite !elem_of_cons; lia).
  rewrite !elem_of_cons, elem_of_nil in Hin.
  repeat (destruct Hin as [->|Hin]; [done|]); done.
Qed.

(** Printing [n] in front of [s] and reading it back leaves [s] to read, with
    the accumulator shifted by the digits of [n]. *)
Lemma parse_digits_pretty_go n s :
  exists k, (n < 10 ^ k)%N /\
    forall acc, parse_digits acc (pretty_N_go n s)
                = parse_digits (acc * Z.of_N (10 ^ k) + Z.of_N n) s.
Proof.
  revert s. induction (N.lt_wf_0 n) as [n _ IH]. intros s.
  destruct (decide (n = 0)%N) as [->|Hn].
  - exists 0%N. split; [done|]. intros acc. rewrite pretty_N_go_0. f_equal. cbn. lia.
  - rewrite pretty_N_go_step by lia.
    destruct (IH (n `div` 10)%N ltac:(apply N.div_lt; lia)
      (String (pretty_N_char (n `mod` 10)) s)) as (k & Hk & Hp).
    exists (N.succ k). rewrite N.pow_succ_r'.
    pose proof (N.div_mod n 10 ltac:(done)).
    pose proof (N.mod_lt n 10 ltac:(done)).
    split; [lia|]. intros acc. rewrite Hp. cbn [parse_digits].
    rewrite digit_value_pretty by done. f_equal. lia.
Qed.

Lemma ParseUint10_pretty (n : N) : ParseUint10 (pretty n) = Some (Z.of_N n).
Proof.
  unfold pretty, pretty_N. case_decide as Hn; [by subst|].
  destruct (parse_digits_pretty_go n "") as (k & _ & Hp).
  specialize (Hp 0). unfold ParseUint10.
  destruct (pretty_N_go n "") as [|c s] eqn:E; [|rewrite Hp; cbn; f_equal; lia].
  exfalso. cbn in Hp. injection Hp. lia.
Qed.

Lemma pretty_N_head_digit (n : N) :
  exists c s, pretty n = String c s /\ c <> "+"%char /\ c <> "-"%char.
Proof.
  pose proof (ParseUint10_pretty n) as H. destruct (pretty n) as [|c s]; [done|].
  exists c, s. split; [done|]. split; intros ->; by cbn in H.
Qed.

(** Reading back a printed [int64]. *)
Lemma ParseInt_FormatInt z : in_int64 z -> ParseInt (FormatInt z) = Some z.
Proof.
  unfold in_int64, FormatInt, ParseInt. intros Hz.
  assert (Hpos : forall n : N, (Z.of_N n < two63) -> ParseInt (pretty n) = Some (Z.of_N n)).
  { intros n Hn. unfold ParseInt.
    destruct (pretty_N_head_digit n) as (c & s & E & Hp & Hm).
    pose proof (ParseUint10_pretty n) as Hparse. rewrite E in *.
    replace (match c with "+" => _ | "-" => _ | _ => _ end)%char
      with (false, String c s)
      by (destruct c as [[] [] [] [] [] [] [] []]; done).
    rewrite Hparse. by rewrite decide_False by lia. }
  destruct z as [|p|p].
  - done.
  - apply (Hpos (Npos p)). lia.
  - change (pretty (Z.neg p)) with (String "-"%char (pretty (N.pos p))).
    cbn beta iota. rewrite ParseUint10_pretty, decide_False by lia. done.
Qed.

(** Whatever is parsed fits. *)
Lemma parse_digits_nonneg acc s z : 0 <= acc -> parse_digits acc s = Some z -> 0 <= z.
Proof.
  revert acc. induction s as [|c s IH]; cbn; intros acc Hacc H; [naive_solver lia|].
  unfold digit_value in H. destruct (Ascii.is_nat c); [|done]. eapply IH, H. lia.
Qed.

Lemma ParseInt_range s z : ParseInt s = Some z -> in_int64 z.
Proof.
  unfold ParseInt, in_int64. intros H.
  match type of H with (let '(_, _) := ?p in _) = _ => destruct p as [neg body] end.
  destruct (ParseUint10 body) as [un|] eqn:E; [|done].
  assert (0 <= un).
  { unfold ParseUint10 in E. destruct body; [done|]. by eapply parse_digits_nonneg in E. }
  assert (0 < two63) by done.
  destruct neg; case_decide; simplify_eq; lia.
Qed.

(** ** JSON number literals *)

Local Open Scope nat_scope.

(** The number grammar of JSON, as the scanner's states. *)
Inductive num_state := NBegin | NNeg | N0 | N1 | NDot | NDot0 | NE | NESign | NE0.

Definition num_step (st : num_state) (c : ascii) : option num_state :=
  let n := nat_of_ascii c in
  let digit := is_digit c in
  let expo := (n =? 101) || (n =? 69) in
  match st with
  | NBegin => if n =? 45 then Some NNeg else if n =? 48 then Some N0
              else if digit then Some N1 else None
  | NNeg => if n =? 48 then Some N0 else if digit then Some N1 else None
  | N0 => if n =? 46 then Some NDot else if expo then Some NE else None
  | N1 => if digit then Some N1 else if n =? 46 then Some NDot
          else if expo then Some NE else None
  | NDot => if digit then Some NDot0 else None
  | NDot0 => if digit then Some NDot0 else if expo then Some NE else None
  | NE => if (n =? 43) || (n =? 45) then Some NESign
          else if digit then Some NE0 else None
  | NESign | NE0 => if digit then Some NE0 else None
  end.

Fixpoint num_go (st : num_state) (s : string) : bool :=
  match s with
  | EmptyString => match st with N0 | N1 | NDot0 | NE0 => true | _ => false end
  | String c s' => match num_step st c with Some st' => num_go st' s' | None => false end
  end.
Definition json_number (s : string) : bool := num_go NBegin s.

Lemma num_digit st n :
  (n < 10)%N -> st = N1 -> num_step st (pretty_N_char n) = Some N1.
Proof.
  intros H ->.
  assert (n ∈ [0; 1; 2; 3; 4; 5; 6; 7; 8; 9]%N) as Hin by (rewrite !elem_of_cons; lia).
  rewrite !elem_of_cons, elem_of_nil in Hin.
  repeat (destruct Hin as [->|Hin]; [done|]); done.
Qed.

Lemma num_first_digit st n :
  (0 < n < 10)%N -> st = NBegin \/ st = NNeg -> num_step st (pretty_N_char n) = Some N1.
Proof.
  intros H Hst.
  assert (n ∈ [1; 2; 3; 4; 5; 6; 7; 8; 9]%N) as Hin by (rewrite !elem_of_cons; lia).
  rewrite !elem_of_cons, elem_of_nil in Hin.
  repeat (destruct Hin as [->|Hin]; [by destruct Hst as [-> | ->]|]); done.
Qed.

Lemma num_pretty_go st n s :
  (0 < n)%N -> st = NBegin \/ st = NNeg -> num_go st (pretty_N_go n s) = num_go N1 s.
Proof.
  intros Hn Hst. revert s Hn. induction (N.lt_wf_0 n) as [n _ IH]. intros s Hn.
  rewrite pretty_N_go_step by done.
  pose proof (N.mod_lt n 10 ltac:(done)) as Hm.
  destruct (decide (n < 10)%N) as [Hs|Hs].
  - rewrite (N.div_small n 10) by done. rewrite pretty_N_go_0.
    cbn [num_go]. rewrite N.mod_small by done. by rewrite num_first_digit.
  - rewrite IH.
    + cbn [num_go]. by rewrite num_digit.
    + by apply N.div_lt.
    + apply N.div_str_pos. lia.
Qed.

(** Printed integers are JSON numbers. *)
Lemma json_number_FormatInt z : json_number (FormatInt z) = true.
Proof.
  unfold json_number, FormatInt.
  destruct z as [|p|p]; [done| |].
  - change (pretty (Z.pos p)) with (pretty_N_go (N.pos p) "").
    by rewrite num_pretty_go; [|lia|left].
  - change (pretty (Z.neg p)) with (String "-"%char (pretty_N_go (N.pos p) "")).
    cbn [num_go]. change (num_step NBegin "-") with (Some NNeg). cbn iota.
    by rewrite num_pretty_go; [|lia|right].
Qed.

(** Numbers hold no markup. *)
Lemma num_step_not_markup st c st' : num_step st c = Some st' -> not_markup c = true.
Proof.
  assert (Hall : forallb (fun st => forallb (fun n =>
      match num_step st (ascii_of_nat n) with Some _ => not_markup (ascii_of_nat n) | None => true end)
      (seq 0 256)) [NBegin; NNeg; N0; N1; NDot; NDot0; NE; NESign; NE0] = true)
    by (vm_compute; reflexivity).
  intros E. rewrite forallb_forall in Hall.
  assert (Hst : In st [NBegin; NNeg; N0; N1; NDot; NDot0; NE; NESign; NE0]) by (destruct st; cbn; tauto).
  specialize (Hall st Hst). rewrite forallb_forall in Hall.
  specialize (Hall (nat_of_ascii c)). rewrite ascii_nat_embedding, E in Hall. apply Hall.
  apply in_seq. pose proof (nat_ascii_bounded c). lia.
Qed.

Lemma json_number_no_markup s : json_number s = true -> string_forallb not_markup s = true.
Proof.
  unfold json_number. generalize NBegin. induction s as [|c s IH]; intros st; [done|].
  cbn [num_go string_forallb]. destruct (num_step st c) as [st'|] eqn:E; [|done].
  intros Hs. by rewrite (num_step_not_markup _ _ _ E), (IH st').
Qed.

Local Close Scope nat_scope.

(** ** [float64] *)

(** A binary64 datum: a [spec_float] in canonical form. *)
Record float64 : Type := Float64 {
  float_repr : spec_float;
  float_valid : valid_binary 53 1024 float_repr = true;
}.

#[export] Instance spec_float_eq_dec : EqDecision spec_float.
Proof. solve_decision. Defined.

Lemma float64_eq f g : float_repr f = float_repr g -> f = g.
Proof.
  destruct f as [f Hf], g as [g Hg]. cbn. intros ->. f_equal.
  apply (Eqdep_dec.UIP_dec bool_dec).
Qed.

#[export] Instance float64_eq_dec : EqDecision float64.
Proof.
  intros f g. destruct (decide (float_repr f = float_repr g)) as [H|H].
  - left. by apply float64_eq.
  - right. by intros ->.
Defined.

Definition NaN : float64 := Float64 S754_nan eq_refl.
Definition PosInf : float64 := Float64 (S754_infinity false) eq_refl.
Definition FloatZero : float64 := Float64 (S754_zero false) eq_refl.

(** The datum of a [spec_float] the arithmetic of [SpecFloat] produced. *)
Definition mk_float64 (f : spec_float) : float64 :=
  match decide (valid_binary 53 1024 f = true) with
  | left H => Float64 f H
  | right _ => NaN
  end.

(** [float64(n)] for an unsigned machine integer: rounding to nearest even. *)
Definition float64_of_Z (n : Z) : float64 := mk_float64 (binary_normalize 53 1024 n 0 false).

(** Neither NaN nor an infinity: the values [encoding/json] can encode. *)
Definition is_finite (f : float64) : bool :=
  match float_repr f with S754_zero _ | S754_finite _ _ _ => true | _ => false end.

(** [strconv.ParseFloat(s, 64)], [strconv.FormatFloat(f, 'f', -1, 64)] and the
    number literal [encoding/json] prints for a finite float. *)
Class FloatText := {
  ParseFloat : string -> option float64;
  FormatFloat : float64 -> string;
  FormatFloatJSON : float64 -> string;
}.

(** The shortest representation reads back as the same value. *)
Class FloatTextLaws `{FloatText} := {
  ParseFloat_FormatFloat f : is_finite f = true -> ParseFloat (FormatFloat f) = Some f;
  ParseFloat_FormatFloatJSON f :
    is_finite f = true -> ParseFloat (FormatFloatJSON f) = Some f;
  FormatFloatJSON_number f : is_finite f = true -> json_number (FormatFloatJSON f) = true;
  FormatFloat_no_markup f : string_forallb not_markup (FormatFloat f) = true;
}.
