(* ===== verification/Strconv.v ===== *)
(** * Texts of floats: [strconv.ParseFloat] and [strconv.FormatFloat]

    [ParseFloat] reads the syntax of Go's floating-point literals and rounds the
    exact value to the nearest binary64, ties to even.  [FormatFloat] with
    precision [-1] prints the fewest digits that read back as the same float, and
    [encoding/json] prints the same digits in one of two layouts.  They form the
    instance of [FloatText]; its laws are proved here. *)

From S2P Require Import Prelude GoString GoNum.
Local Open Scope Z_scope.

(** ** Rounding *)

(** The binary64 nearest to [n / d], in units of [2 ^ -1074], the smallest
    subnormal: [q] units, of which the low [s] bits do not fit. *)
Definition round_up (q r d s : Z) : bool :=
  match 2 * (q mod 2 ^ s * d + r) ?= d * 2 ^ s with
  | Lt => false
  | Gt => true
  | Eq => Z.odd (Z.shiftr q s)
  end.

Definition pack (m s : Z) : spec_float :=
  let '(m, s) := if m =? 2 ^ 53 then (2 ^ 52, s + 1) else (m, s) in
  match m with
  | Zpos p => if 971 <? s - 1074 then S754_infinity false else S754_finite false p (s - 1074)
  | _ => S754_zero false
  end.

Definition round_ratio (n d : Z) : spec_float :=
  let scaled := Z.shiftl n 1074 in
  let q := scaled / d in
  let r := scaled mod d in
  let s := Z.max 0 (Z.log2 q - 52) in
  pack (Z.shiftr q s + if round_up q r d s then 1 else 0) s.

(** The binary64 nearest to [m * base ^ e]. *)
Definition round_exp (m base e : Z) : spec_float :=
  if 0 <=? e then round_ratio (m * base ^ e) 1 else round_ratio m (base ^ (- e)).

Definition with_sign (neg : bool) (f : spec_float) : spec_float := if neg then SFopp f else f.

(** ** Reading *)

Definition lower (c : ascii) : ascii := ascii_of_nat (Nat.lor (nat_of_ascii c) 32).

Definition hex_digit_value (c : ascii) : option Z :=
  let n := Z.of_nat (nat_of_ascii c) in
  if decide (48 <= n <= 57) then Some (n - 48)
  else if decide (97 <= n <= 102) then Some (n - 87)
  else if decide (65 <= n <= 70) then Some (n - 55)
  else None.

(** [optional sign] *)
Definition split_sign (s : string) : bool * string :=
  match s with
  | String "-" s' => (true, s')
  | String "+" s' => (false, s')
  | _ => (false, s)
  end%char.

(** What the loop over the mantissa has seen: its digits as one number, how many of
    them stood behind the dot. *)
Record mantissa : Type := MkMantissa {
  digits : Z;
  fraction : Z;
  sawdot : bool;
  sawdigits : bool;
  underscores : bool;
}.

Definition no_mantissa : mantissa := MkMantissa 0 0 false false false.

Definition push_digit (base d : Z) (st : mantissa) : mantissa :=
  MkMantissa (digits st * base + d) (if sawdot st then fraction st + 1 else fraction st) (sawdot st) true
    (underscores st).

Fixpoint read_mantissa (hex : bool) (st : mantissa) (s : string) : mantissa * string :=
  match s with
  | EmptyString => (st, s)
  | String c s' =>
      if decide (c = "_"%char) then
        read_mantissa hex (MkMantissa (digits st) (fraction st) (sawdot st) (sawdigits st) true) s'
      else if decide (c = "."%char) then
        if sawdot st then (st, s)
        else read_mantissa hex (MkMantissa (digits st) (fraction st) true (sawdigits st) (underscores st)) s'
      else
        match (if hex then hex_digit_value c else digit_value c) with
        | Some d => read_mantissa hex (push_digit (if hex then 16 else 10) d st) s'
        | None => (st, s)
        end
  end.

(** The digits of an exponent; it stops growing at 10000. *)
Fixpoint read_exponent (e : Z) (underscores : bool) (s : string) : Z * bool * string :=
  match s with
  | EmptyString => (e, underscores, s)
  | String c s' =>
      if decide (c = "_"%char) then read_exponent e true s'
      else
        match digit_value c with
        | Some d => read_exponent (if decide (e < 10000) then e * 10 + d else e) underscores s'
        | None => (e, underscores, s)
        end
  end.

(** [underscoreOK]: underscores only between digits, or after a base prefix.
    [saw] is the last character: a digit, an underscore, or something else. *)
Fixpoint underscores_ok (hex : bool) (saw : ascii) (s : string) : bool :=
  match s with
  | EmptyString => negb (bool_decide (saw = "_"%char))
  | String c s' =>
      if is_digit c || (hex && byte_between 97 102 (lower c)) then underscores_ok hex "0" s'
      else if decide (c = "_"%char) then bool_decide (saw = "0"%char) && underscores_ok hex "_" s'
      else negb (bool_decide (saw = "_"%char)) && underscores_ok hex "!" s'
  end.

Definition underscoreOK (s : string) : bool :=
  match (split_sign s).2 with
  | String "0" (String x s') =>
      let b := lower x in
      if decide (b = "b"%char \/ b = "o"%char \/ b = "x"%char)
      then underscores_ok (bool_decide (b = "x"%char)) "0" s'
      else underscores_ok false "^" (String "0" (String x s'))
  | body => underscores_ok false "^" body
  end%char.

(** The prefix [0x], with something behind it. *)
Definition split_hex (s : string) : bool * string :=
  match s with
  | String "0" (String x (String c s')) =>
      if decide (lower x = "x"%char) then (true, String c s') else (false, s)
  | _ => (false, s)
  end%char.

(** [readFloat] on a text it reads to the end: hexadecimal or not, and the value
    [m * base ^ e], with [base] 2 or 10. *)
Definition readFloat (s : string) : option (bool * Z * Z) :=
  let '(hex, body) := split_hex (split_sign s).2 in
  let '(st, rest) := read_mantissa hex no_mantissa body in
  let e0 := - (if hex then 4 * fraction st else fraction st) in
  let finish (underscores : bool) (e : Z) :=
    if underscores && negb (underscoreOK s) then None else Some (hex, digits st, e) in
  if negb (sawdigits st) then None
  else
    match rest with
    | EmptyString => if hex then None else finish (underscores st) e0
    | String c rest' =>
        if decide (lower c = (if hex then "p" else "e")%char) then
          let '(esign, rest'') := split_sign rest' in
          match rest'' with
          | String d _ =>
              if is_digit d then
                let '(e, us, rest) := read_exponent 0 (underscores st) rest'' in
                if decide (rest = "") then finish us (e0 + if esign then - e else e) else None
              else None
          | EmptyString => None
          end
        else None
    end.

Fixpoint map_string (f : ascii -> ascii) (s : string) : string :=
  match s with EmptyString => EmptyString | String c s' => String (f c) (map_string f s') end.

(** [special]: infinities and NaN, in any case; only an infinity may have a sign. *)
Definition special (s : string) : option spec_float :=
  let '(neg, body) := split_sign s in
  let body := map_string lower body in
  if decide (body = "inf" \/ body = "infinity") then Some (S754_infinity neg)
  else if decide (map_string lower s = "nan") then Some S754_nan
  else None.

(** [ParseFloat(s, 64)]: [None] for a syntax error and for a value out of range. *)
Definition parse_float (s : string) : option float64 :=
  match special s with
  | Some f => Some (mk_float64 f)
  | None =>
      '(hex, m, e) ← readFloat s;
      match round_exp m (if hex : bool then 2 else 10) e with
      | S754_infinity _ => None
      | f => Some (mk_float64 (with_sign (split_sign s).1 f))
      end
  end.

(** ** Shortest digits *)

(** [m * 2 ^ -e] as [d * 10 ^ x], exactly. *)
Fixpoint exact_fraction (m : positive) (e : nat) : Z * Z :=
  match m, e with
  | xO m', S e' => exact_fraction m' e'
  | _, _ => (Zpos m * 5 ^ Z.of_nat e, - Z.of_nat e)
  end.

Definition exact_decimal (m : positive) (e : Z) : Z * Z :=
  if 0 <=? e then (Zpos m * 2 ^ e, 0) else exact_fraction m (Z.to_nat (- e)).

Definition reads_as (f : spec_float) (c : Z * Z) : bool := bool_decide (round_exp c.1 10 c.2 = f).

(** [roundShortest]: of the [nd] digits of [d], the first [n], rounded down or up;
    the first [n] at which one of them reads as [f].  When both do, the nearer. *)
Definition rounded_down (nd d x n : Z) : Z * Z := (d / 10 ^ (nd - n), x + (nd - n)).
Definition rounded_up (nd d x n : Z) : Z * Z :=
  let d' := d / 10 ^ (nd - n) + 1 in
  if d' =? 10 ^ n then (1, x + nd) else (d', x + (nd - n)).
Definition nearer_up (nd d n : Z) : bool :=
  match 2 * (d mod 10 ^ (nd - n)) ?= 10 ^ (nd - n) with
  | Lt => false
  | Gt => true
  | Eq => Z.odd (d / 10 ^ (nd - n))
  end.

Fixpoint shortest_from (f : spec_float) (nd d x : Z) (n : Z) (fuel : nat) : Z * Z :=
  match fuel with
  | O => (d, x)
  | S fuel' =>
      let lo := rounded_down nd d x n in
      let hi := rounded_up nd d x n in
      match reads_as f lo, reads_as f hi with
      | true, true => if nearer_up nd d n then hi else lo
      | true, false => lo
      | false, true => hi
      | false, false => shortest_from f nd d x (n + 1) fuel'
      end
  end.

(** All digits but the last are tried; all of them are the float itself. *)
Definition shortest (m : positive) (e : Z) : Z * Z :=
  let '(d, x) := exact_decimal m e in
  let nd := Z.of_nat (String.length (FormatInt d)) in
  shortest_from (S754_finite false m e) nd d x 1 (Z.to_nat (nd - 1)).

(** ** Printing *)

Fixpoint zeros (n : nat) : string := match n with O => "" | S n' => String "0" (zeros n') end.

Fixpoint split_at (n : nat) (s : string) : string * string :=
  match n, s with
  | S n', String c s' => let '(a, b) := split_at n' s' in (String c a, b)
  | _, _ => ("", s)
  end.

(** [%f] of [d * 10 ^ x]: the point stands behind the first [dp] digits. *)
Definition format_f (d x : Z) : string :=
  let s := FormatInt d in
  let dp := Z.of_nat (String.length s) + x in
  if decide (dp <= 0) then "0." +:+ zeros (Z.to_nat (- dp)) +:+ s
  else if decide (0 <= x) then s +:+ zeros (Z.to_nat x)
  else let '(a, b) := split_at (Z.to_nat dp) s in a +:+ "." +:+ b.

(** [%e] as [encoding/json] leaves it: an exponent of one digit is not padded. *)
Definition format_e (d x : Z) : string :=
  let s := FormatInt d in
  let '(a, b) := split_at 1 s in
  let e := Z.of_nat (String.length s) + x - 1 in
  a +:+ (if decide (b = "") then "" else "." +:+ b) +:+ "e"
  +:+ (if decide (e < 0) then "-" else "+") +:+ FormatInt (Z.abs e).

Definition sign_text (neg : bool) : string := if neg then "-" else "".

(** [FormatFloat(f, 'f', -1, 64)] *)
Definition format_float (f : float64) : string :=
  match float_repr f with
  | S754_nan => "NaN"
  | S754_infinity neg => if neg then "-Inf" else "+Inf"
  | S754_zero neg => sign_text neg +:+ "0"
  | S754_finite neg m e => let '(d, x) := shortest m e in sign_text neg +:+ format_f d x
  end.

(** [encoding/json]: exponents below 1e-6 and from 1e21 up. *)
Definition json_exponent (m : positive) (e : Z) : bool :=
  let abs := S754_finite false m e in
  SFltb abs (round_exp 1 10 (-6)) || SFleb (round_exp 1 10 21) abs.

Definition format_json (f : float64) : string :=
  match float_repr f with
  | S754_finite neg m e =>
      let '(d, x) := shortest m e in
      sign_text neg +:+ if json_exponent m e then format_e d x else format_f d x
  | S754_zero neg => sign_text neg +:+ "0"
  | _ => format_float f
  end.


(** ** Rounding is exact on floats, and always gives a float *)

Lemma digits2_log2 p : Zpos (digits2_pos p) = Z.log2 (Zpos p) + 1.
Proof.
  induction p as [p IH|p IH|]; [| |done]; cbn [digits2_pos].
  - change (Zpos p~1) with (2 * Zpos p + 1). rewrite Z.log2_succ_double by lia. lia.
  - change (Zpos p~0) with (2 * Zpos p). rewrite Z.log2_double by lia. lia.
Qed.

(** What makes a mantissa and an exponent the canonical ones of a float. *)
Lemma valid_canonical p e :
  valid_binary 53 1024 (S754_finite false p e) = true <->
  e = Z.max (Z.log2 (Zpos p) - 52 + e) (-1074) /\ e <= 971.
Proof.
  unfold valid_binary, bounded, canonical_mantissa, fexp, emin. rewrite andb_true_iff, digits2_log2.
  rewrite <-Zeq_is_eq_bool. change (1024 - 53) with 971. rewrite Z.leb_le. lia.
Qed.

Lemma valid_sign neg neg' p e :
  valid_binary 53 1024 (S754_finite neg p e) = valid_binary 53 1024 (S754_finite neg' p e).
Proof. done. Qed.

Lemma canonical_bound p e : valid_binary 53 1024 (S754_finite false p e) = true ->
  Zpos p < 2 ^ 53 /\ -1074 <= e <= 971.
Proof.
  intros [H1 H2]%valid_canonical. split; [|lia].
  apply Z.log2_lt_pow2; lia.
Qed.

Lemma round_ratio_exact p e n d :
  valid_binary 53 1024 (S754_finite false p e) = true -> 0 < d ->
  Z.shiftl n 1074 = Zpos p * 2 ^ (e + 1074) * d -> round_ratio n d = S754_finite false p e.
Proof.
  intros Hv Hd En. destruct (canonical_bound _ _ Hv) as [Hp He]. apply valid_canonical in Hv as [Hc He'].
  unfold round_ratio. rewrite En, Z.div_mul, Z.mod_mul by lia.
  rewrite Z.log2_mul_pow2 by lia.
  replace (Z.max 0 (e + 1074 + Z.log2 (Zpos p) - 52)) with (e + 1074) by lia.
  rewrite Z.shiftr_div_pow2, Z.div_mul by lia.
  assert (Hup : round_up (Zpos p * 2 ^ (e + 1074)) 0 d (e + 1074) = false).
  { unfold round_up. rewrite Z.mod_mul by lia.
    assert (0 < d * 2 ^ (e + 1074)) by (apply Z.mul_pos_pos; [done|apply Z.pow_pos_nonneg; lia]).
    by replace (2 * (0 * d + 0) ?= d * 2 ^ (e + 1074)) with Lt by (symmetry; apply Z.compare_lt_iff; lia). }
  rewrite Hup, Z.add_0_r. unfold pack. rewrite (proj2 (Z.eqb_neq _ _)) by lia.
  rewrite (proj2 (Z.ltb_ge _ _)) by lia. f_equal. lia.
Qed.

Lemma round_ratio_zero d : 0 < d -> round_ratio 0 d = S754_zero false.
Proof.
  intros Hd. unfold round_ratio. rewrite Z.shiftl_0_l, Zdiv_0_l, Zmod_0_l. cbn [Z.log2].
  change (Z.max 0 (0 - 52)) with 0. unfold round_up. change (2 * (0 mod 2 ^ 0 * d + 0)) with 0.
  by rewrite (proj2 (Z.compare_lt_iff 0 (d * 2 ^ 0))) by lia.
Qed.

(** Whatever is rounded, the result is a float. *)
Lemma pack_valid m s : 0 <= m <= 2 ^ 53 -> 0 <= s -> s = 0 \/ 2 ^ 52 <= m -> valid_binary 53 1024 (pack m s) = true.
Proof.
  intros Hm Hs Hms. unfold pack. destruct (Z.eqb_spec m (2 ^ 53)) as [->|Hne].
  - change (2 ^ 52) with (Zpos 4503599627370496). cbv iota beta.
    destruct (Z.ltb_spec 971 (s + 1 - 1074)); [done|]. apply valid_canonical.
    change (Z.log2 4503599627370496) with 52. lia.
  - destruct m as [|p|p]; [done| |lia]. destruct (Z.ltb_spec 971 (s - 1074)); [done|]. apply valid_canonical.
    assert (Z.log2 (Zpos p) < 53) by (apply Z.log2_lt_pow2; lia).
    destruct Hms as [->|H52]; [lia|]. assert (52 <= Z.log2 (Zpos p)) by (apply Z.log2_le_pow2; lia). lia.
Qed.

Lemma round_ratio_valid n d : 0 <= n -> 0 < d -> valid_binary 53 1024 (round_ratio n d) = true.
Proof.
  intros Hn Hd. unfold round_ratio. set (q := Z.shiftl n 1074 / d).
  assert (Hq : 0 <= q) by (apply Z.div_pos; [by apply Z.shiftl_nonneg|done]).
  set (s := Z.max 0 (Z.log2 q - 52)). rewrite Z.shiftr_div_pow2 by lia.
  assert (Hb : 0 <= q / 2 ^ s < 2 ^ 53 /\ (s = 0 \/ 2 ^ 52 <= q / 2 ^ s)).
  { assert (0 < 2 ^ s) by (apply Z.pow_pos_nonneg; lia). destruct (decide (q = 0)) as [->|Hq0]; [by split; [|left]|].
    destruct (Z.log2_spec q) as [Hlo Hhi]; [lia|]. split; [split; [by apply Z.div_pos; lia|]|].
    - apply Z.div_lt_upper_bound; [done|]. rewrite <-Z.pow_add_r by lia.
      eapply Z.lt_le_trans; [exact Hhi|]. apply Z.pow_le_mono_r; lia.
    - destruct (decide (s = 0)) as [|Hs]; [by left|right]. apply Z.div_le_lower_bound; [done|].
      rewrite <-Z.pow_add_r by lia. replace (s + 52) with (Z.log2 q) by lia. done. }
  destruct Hb as [Hb1 Hb2]. apply pack_valid; [|lia|]; destruct (round_up _ _ _ _); lia.
Qed.

Lemma round_exp_valid m base e : 0 <= m -> 0 < base -> valid_binary 53 1024 (round_exp m base e) = true.
Proof.
  intros Hm Hb. unfold round_exp. destruct (Z.leb_spec 0 e); apply round_ratio_valid; try lia.
Qed.

(** The exact decimal expansion reads as the float. *)
Lemma exact_fraction_value m e : exists k,
  (exact_fraction m e).1 = Zpos k * 5 ^ (- (exact_fraction m e).2) /\ - Z.of_nat e <= (exact_fraction m e).2 <= 0 /\
  Zpos m = Zpos k * 2 ^ (Z.of_nat e + (exact_fraction m e).2).
Proof.
  revert e. induction m as [m IH|m IH|]; intros e.
  - exists m~1%positive. cbn [exact_fraction]. cbn [fst snd].
    rewrite Z.opp_involutive, Z.add_opp_diag_r. split_and!; try done; try lia.
  - destruct e as [|e]; cbn [exact_fraction].
    + exists m~0%positive. cbn [fst snd]. split_and!; try done; lia.
    + destruct (IH e) as (k & H1 & H2 & H3). exists k. split_and!; [done|lia|lia|].
      change (Zpos m~0) with (2 * Zpos m). rewrite H3.
      replace (Z.of_nat (S e) + (exact_fraction m e).2) with (Z.succ (Z.of_nat e + (exact_fraction m e).2)) by lia.
      rewrite Z.pow_succ_r by lia. lia.
  - exists 1%positive. cbn [exact_fraction]. cbn [fst snd].
    rewrite Z.opp_involutive, Z.add_opp_diag_r. split_and!; try done; try lia.
Qed.

Lemma exact_decimal_reads m e :
  valid_binary 53 1024 (S754_finite false m e) = true ->
  round_exp (exact_decimal m e).1 10 (exact_decimal m e).2 = S754_finite false m e.
Proof.
  intros Hv. destruct (canonical_bound _ _ Hv) as [_ He]. unfold exact_decimal, round_exp.
  destruct (Z.leb_spec 0 e) as [He0|He0]; cbn [fst snd].
  - cbn [Z.leb Z.compare]. apply round_ratio_exact; [done|lia|].
    rewrite Z.shiftl_mul_pow2, Z.pow_add_r by lia. lia.
  - destruct (exact_fraction_value m (Z.to_nat (- e))) as (k & H1 & H2 & H3).
    rewrite Z2Nat.id in H2, H3 by lia.
    destruct (exact_fraction m (Z.to_nat (- e))) as [d x]. cbn [fst snd] in *. subst d.
    assert (Hm : Zpos m * 2 ^ (e + 1074) = Zpos k * 2 ^ (1074 + x))
      by (rewrite H3, <-Z.mul_assoc, <-Z.pow_add_r by lia; do 2 f_equal; lia).
    destruct (Z.leb_spec 0 x) as [Hx|Hx].
    + replace x with 0 in * by lia. apply round_ratio_exact; [done|lia|].
      rewrite Hm, Z.shiftl_mul_pow2 by lia. cbn. lia.
    + apply round_ratio_exact; [done|apply Z.pow_pos_nonneg; lia|].
      rewrite Hm, Z.shiftl_mul_pow2 by lia. change 10 with (2 * 5).
      rewrite Z.pow_mul_l. replace 1074 with (1074 + x + - x) at 1 by lia.
      rewrite (Z.pow_add_r 2 (1074 + x)) by lia. lia.
Qed.

(** ** What the search returns *)

(** It reads as the float, and is not far from the exact expansion. *)
Lemma shortest_from_reads f nd d x n fuel :
  round_exp d 10 x = f -> 0 <= d -> 1 <= n -> n + Z.of_nat fuel <= nd ->
  let c := shortest_from f nd d x n fuel in
  round_exp c.1 10 c.2 = f /\ 0 <= c.1 <= d + 1 /\ x <= c.2 <= x + nd.
Proof.
  intros Hf Hd. revert n. induction fuel as [|fuel IH]; intros n Hn Hfuel; cbn zeta;
    [cbn [shortest_from fst snd]; split_and!; [done|lia..]|].
  cbn [shortest_from]. set (u := 10 ^ (nd - n)). assert (0 < u) by (apply Z.pow_pos_nonneg; lia).
  assert (Hlo : round_exp (rounded_down nd d x n).1 10 (rounded_down nd d x n).2 = f ->
    round_exp (rounded_down nd d x n).1 10 (rounded_down nd d x n).2 = f /\
    0 <= (rounded_down nd d x n).1 <= d + 1 /\ x <= (rounded_down nd d x n).2 <= x + nd).
  { intros ?. split; [done|]. unfold rounded_down. fold u. cbn [fst snd].
    pose proof (Z.div_pos d u Hd). pose proof (Z.div_le_upper_bound d u d). nia. }
  assert (Hhi : round_exp (rounded_up nd d x n).1 10 (rounded_up nd d x n).2 = f ->
    round_exp (rounded_up nd d x n).1 10 (rounded_up nd d x n).2 = f /\
    0 <= (rounded_up nd d x n).1 <= d + 1 /\ x <= (rounded_up nd d x n).2 <= x + nd).
  { intros ?. split; [done|]. unfold rounded_up. fold u.
    pose proof (Z.div_pos d u Hd). pose proof (Z.div_le_upper_bound d u d).
    destruct (_ =? _); cbn [fst snd]; nia. }
  destruct (reads_as f (rounded_down nd d x n)) eqn:E1; destruct (reads_as f (rounded_up nd d x n)) eqn:E2;
    unfold reads_as in *; rewrite ?bool_decide_eq_true in *; [destruct (nearer_up nd d n)|..]; auto.
  apply IH; lia.
Qed.

(** ** The digits of a positive number *)

Lemma digit_value_is_digit c : is_digit c = match digit_value c with Some _ => true | None => false end.
Proof. by destruct c as [[] [] [] [] [] [] [] []]. Qed.

Lemma digit_value_range c v : digit_value c = Some v -> 0 <= v <= 9.
Proof. by destruct c as [[] [] [] [] [] [] [] []]; intros [= <-]. Qed.

Lemma parse_digits_app acc s t : parse_digits acc (s +:+ t) = parse_digits acc s ≫= fun a => parse_digits a t.
Proof.
  revert acc. induction s as [|c s IH]; intros acc; [done|].
  rewrite string_app_cons. cbn [parse_digits]. destruct (digit_value c); [apply IH|done].
Qed.

Lemma parse_digits_is_digit acc s z : parse_digits acc s = Some z -> string_forallb is_digit s = true.
Proof.
  revert acc. induction s as [|c s IH]; intros acc; cbn [parse_digits string_forallb]; [done|].
  rewrite digit_value_is_digit. destruct (digit_value c); [apply IH|done].
Qed.

Lemma pretty_N_go_length n s k : (n < 2 ^ N.of_nat k)%N ->
  (String.length (pretty_N_go n s) <= String.length s + k)%nat.
Proof.
  revert s k. induction (N.lt_wf_0 n) as [n _ IH]. intros s k Hk.
  destruct (decide (n = 0)%N) as [->|Hn]; [rewrite pretty_N_go_0; lia|].
  rewrite pretty_N_go_step by lia. destruct k as [|k]; [cbn in Hk; lia|].
  rewrite Nat2N.inj_succ, N.pow_succ_r' in Hk.
  specialize (IH (n `div` 10)%N ltac:(apply N.div_lt; lia) (String (pretty_N_char (n `mod` 10)) s) k).
  cbn [String.length] in IH. enough (n `div` 10 < 2 ^ N.of_nat k)%N by (specialize (IH H); lia).
  apply N.Div0.div_lt_upper_bound. lia.
Qed.

Lemma FormatInt_pos d : 0 < d -> exists p, d = Zpos p /\ FormatInt d = pretty_N_go (Npos p) "".
Proof. destruct d as [|p|p]; try lia. intros _. by exists p. Qed.

Lemma FormatInt_value d : 0 < d -> parse_digits 0 (FormatInt d) = Some d.
Proof.
  intros Hd. destruct (FormatInt_pos d Hd) as (p & -> & E).
  pose proof (ParseUint10_pretty (Npos p)) as H. unfold ParseUint10 in H.
  change (pretty (N.pos p)) with (FormatInt (Zpos p)) in H. by destruct (FormatInt (Zpos p)).
Qed.

Lemma FormatInt_length d : 0 < d -> 1 <= Z.of_nat (String.length (FormatInt d)) <= Z.log2 d + 1.
Proof.
  intros Hd. pose proof (FormatInt_value d Hd) as Hv. split.
  - destruct (FormatInt d); [cbn in Hv; injection Hv; lia|cbn; lia].
  - destruct (FormatInt_pos d Hd) as (p & -> & ->). pose proof (Z.log2_nonneg (Zpos p)).
    pose proof (pretty_N_go_length (Npos p) "" (Z.to_nat (Z.log2 (Zpos p) + 1))) as H1.
    cbn [String.length] in H1. enough (Npos p < 2 ^ N.of_nat (Z.to_nat (Z.log2 (Zpos p) + 1)))%N by (specialize (H1 H0); lia).
    rewrite Z_nat_N. apply N2Z.inj_lt. rewrite N2Z.inj_pow, Z2N.id by lia.
    change (Z.of_N (Npos p)) with (Zpos p). change (Z.of_N 2) with 2.
    apply (Z.log2_spec (Zpos p)). lia.
Qed.

(** The first digit is not a zero. *)
Lemma FormatInt_head d : 0 < d -> exists c s, FormatInt d = String c s /\
  is_digit c = true /\ c <> "0"%char /\ string_forallb is_digit s = true.
Proof.
  intros Hd. pose proof (FormatInt_value d Hd) as Hv. pose proof (json_number_FormatInt d) as Hj.
  pose proof (parse_digits_is_digit _ _ _ Hv) as Hall.
  destruct (FormatInt d) as [|c s]; [cbn in Hv; injection Hv; lia|].
  cbn [string_forallb] in Hall. apply andb_true_iff in Hall as [Hc Hs]. exists c, s. split_and!; try done.
  intros ->. unfold json_number in Hj. cbn in Hj. destruct s as [|c' s]; [cbn in Hv; injection Hv; lia|].
  cbn [string_forallb] in Hs. apply andb_true_iff in Hs as [Hc' _].
  revert Hj Hc'. cbn [num_go]. by destruct c' as [[] [] [] [] [] [] [] []].
Qed.

(** ** Reading what was printed *)

(** The characters of a printed number. *)
Definition plain (c : ascii) : bool :=
  let n := nat_of_ascii c in is_digit c || (n =? 46)%nat || (n =? 101)%nat || (n =? 43)%nat || (n =? 45)%nat.

Lemma every_ascii (P : ascii -> bool) :
  forallb (fun n => P (ascii_of_nat n)) (seq 0 256) = true -> forall c, P c = true.
Proof.
  intros H c. rewrite forallb_forall in H. rewrite <-(ascii_nat_embedding c). apply H, in_seq.
  pose proof (nat_ascii_bounded c). lia.
Qed.

Lemma plain_facts c : plain c = true ->
  lower c <> "x"%char /\ lower c <> "i"%char /\ lower c <> "n"%char /\ not_markup c = true.
Proof.
  pose proof (every_ascii (fun c => implb (plain c) (negb (Ascii.eqb (lower c) "x") && negb (Ascii.eqb (lower c) "i")
    && negb (Ascii.eqb (lower c) "n") && not_markup c)) ltac:(vm_compute; reflexivity) c) as H.
  cbn beta in H. intros Hc. rewrite Hc in H. cbn [implb] in H.
  rewrite !andb_true_iff, !negb_true_iff, !Ascii.eqb_neq in H. tauto.
Qed.

Lemma digit_plain c : is_digit c = true -> plain c = true.
Proof. unfold plain. by intros ->. Qed.

Lemma string_forallb_impl (P Q : ascii -> bool) s :
  (forall c, P c = true -> Q c = true) -> string_forallb P s = true -> string_forallb Q s = true.
Proof.
  intros H. induction s as [|c s IH]; [done|]. cbn [string_forallb].
  intros [Hc Hs]%andb_true_iff. by rewrite H, IH.
Qed.

Lemma digit_head_sign neg t c s : t = String c s -> is_digit c = true ->
  split_sign (sign_text neg +:+ t) = (neg, t).
Proof. intros ->. destruct neg; [done|]. by destruct c as [[] [] [] [] [] [] [] []]. Qed.

Lemma split_hex_plain s : string_forallb plain s = true -> split_hex s = (false, s).
Proof.
  destruct s as [|c0 [|x [|c s]]]; intros Hs; [done|by destruct c0 as [[] [] [] [] [] [] [] []]..|].
  cbn [string_forallb] in Hs. apply andb_true_iff in Hs as [_ [Hx _]%andb_true_iff].
  apply plain_facts in Hx as [Hx _]. cbn [split_hex]. rewrite decide_False by done.
  by destruct c0 as [[] [] [] [] [] [] [] []].
Qed.

Lemma split_sign_plain s : string_forallb plain s = true -> string_forallb plain (split_sign s).2 = true.
Proof.
  destruct s as [|c s]; [done|]. cbn [string_forallb]. intros [Hc Hs]%andb_true_iff.
  assert (Hcs : string_forallb plain (String c s) = true) by (cbn [string_forallb]; by rewrite Hc).
  revert Hcs. by destruct c as [[] [] [] [] [] [] [] []].
Qed.

Lemma lower_plain s t : string_forallb plain s = true ->
  (exists r, t = String "i" r \/ t = String "n" r) -> map_string lower s <> t.
Proof.
  intros Hs (r & Hr). destruct s as [|c s]; [by destruct Hr as [-> | ->]|].
  cbn [string_forallb] in Hs. apply andb_true_iff in Hs as [Hc _].
  apply plain_facts in Hc as (_ & Hi & Hn & _). cbn [map_string]. destruct Hr as [-> | ->]; congruence.
Qed.

Lemma special_plain s : string_forallb plain s = true -> special s = None.
Proof.
  intros Hs. unfold special. pose proof (split_sign_plain s Hs) as Hb.
  destruct (split_sign s) as [neg body]. cbn [snd] in Hb.
  rewrite decide_False by (intros [E|E]; revert E; apply lower_plain; eauto).
  rewrite decide_False; [done|]. apply lower_plain; eauto.
Qed.

Definition pushed (z n : Z) (st : mantissa) : mantissa :=
  MkMantissa z (if sawdot st then fraction st + n else fraction st) (sawdot st) (sawdigits st || (0 <? n)) (underscores st).

Lemma read_mantissa_digits st s t z : parse_digits (digits st) s = Some z ->
  read_mantissa false st (s +:+ t) = read_mantissa false (pushed z (Z.of_nat (String.length s)) st) t.
Proof.
  revert st. induction s as [|c s IH]; intros st.
  - cbn [parse_digits]. intros [= <-]. unfold pushed. destruct st as [d f [] [] []]; cbn; by rewrite ?Z.add_0_r.
  - cbn [parse_digits]. destruct (digit_value c) as [v|] eqn:Ev; [|done]. intros Hz.
    rewrite string_app_cons. cbn [read_mantissa].
    rewrite decide_False by (by intros ->). rewrite decide_False by (by intros ->). rewrite Ev.
    rewrite IH by done. f_equal. unfold pushed, push_digit. cbn [digits fraction sawdot sawdigits underscores String.length].
    destruct st as [d f [] sd us]; cbn [sawdot sawdigits fraction underscores];
      rewrite ?orb_true_l, (proj2 (Z.ltb_lt 0 _)), ?orb_true_r by lia; f_equal; lia.
Qed.

Lemma read_mantissa_end st s z : parse_digits (digits st) s = Some z ->
  read_mantissa false st s = (pushed z (Z.of_nat (String.length s)) st, "").
Proof. intros H. by rewrite <-(string_app_nil_r s) at 1; rewrite (read_mantissa_digits st s "" z). Qed.

Lemma read_mantissa_dot st t : sawdot st = false ->
  read_mantissa false st (String "." t)
  = read_mantissa false (MkMantissa (digits st) (fraction st) true (sawdigits st) (underscores st)) t.
Proof. intros H. cbn [read_mantissa]. by rewrite decide_False, decide_True, H by done. Qed.

Lemma parse_digits_grows acc s z : 0 <= acc -> parse_digits acc s = Some z -> acc <= z.
Proof.
  revert acc. induction s as [|c s IH]; intros acc Ha; cbn [parse_digits]; [intros [= <-]; lia|].
  destruct (digit_value c) as [v|] eqn:Ev; [|done]. intros H. pose proof (digit_value_range _ _ Ev).
  apply IH in H; lia.
Qed.

Lemma read_exponent_digits e us s z : 0 <= e -> z < 100000 -> parse_digits e s = Some z ->
  read_exponent e us s = (z, us, "").
Proof.
  revert e. induction s as [|c s IH]; intros e He Hz; cbn [parse_digits read_exponent]; [by intros [= <-]|].
  destruct (digit_value c) as [v|] eqn:Ev; [|done]. intros H. pose proof (digit_value_range _ _ Ev).
  rewrite decide_False by (by intros ->).
  assert (e * 10 + v <= z) by (eapply parse_digits_grows, H; lia).
  rewrite decide_True by lia. apply IH; [lia|done|done].
Qed.

Lemma string_length_cat s t : String.length (s +:+ t) = (String.length s + String.length t)%nat.
Proof. induction s as [|c s IH]; [done|]. rewrite string_app_cons. cbn [String.length]. by rewrite IH. Qed.

Lemma split_at_app n s : let '(a, b) := split_at n s in s = a +:+ b /\
  ((n <= String.length s)%nat -> String.length a = n).
Proof.
  revert s. induction n as [|n IH]; intros s; cbn [split_at]; [by split|].
  destruct s as [|c s]; [split; [done|cbn; lia]|]. specialize (IH s). destruct (split_at n s) as [a b].
  destruct IH as [-> Hl]. split; [done|]. cbn [String.length]. intros. rewrite Hl by lia. done.
Qed.

Lemma zeros_value acc n : parse_digits acc (zeros n) = Some (acc * 10 ^ Z.of_nat n).
Proof.
  revert acc. induction n as [|n IH]; intros acc; cbn [zeros]; [cbn; f_equal; lia|].
  cbn [parse_digits]. change (digit_value "0") with (Some 0). cbn iota. rewrite IH. f_equal.
  rewrite Nat2Z.inj_succ, Z.pow_succ_r by lia. lia.
Qed.

Lemma zeros_length n : String.length (zeros n) = n.
Proof. induction n as [|n IH]; [done|]. cbn. by rewrite IH. Qed.

Lemma string_forallb_cat P s t : string_forallb P (s +:+ t) = string_forallb P s && string_forallb P t.
Proof. apply string_forallb_app. Qed.

(** The text has a value, starts with a digit and holds nothing but plain characters. *)
Record prints (t : string) (neg : bool) (m e : Z) : Prop := {
  prints_head : exists c r, t = String c r /\ is_digit c = true;
  prints_plain : string_forallb plain t = true;
  prints_reads : readFloat (sign_text neg +:+ t) = Some (false, m, e);
}.

Lemma readFloat_digits neg t d f dot :
  (exists c r, t = String c r /\ is_digit c = true) -> string_forallb plain t = true ->
  read_mantissa false no_mantissa t = (MkMantissa d f dot true false, "") ->
  prints t neg d (- f).
Proof.
  intros Hh Hp Hr. split; [done..|]. destruct Hh as (c & r & Et & Hc). unfold readFloat.
  rewrite (digit_head_sign neg t c r Et Hc). cbn [snd]. rewrite split_hex_plain, Hr by done. done.
Qed.

Lemma format_f_prints d x neg : 0 < d -> exists m e,
  prints (format_f d x) neg m e /\ round_exp m 10 e = round_exp d 10 x.
Proof.
  intros Hd. pose proof (FormatInt_value d Hd) as Hv. pose proof (FormatInt_length d Hd) as Hl.
  destruct (FormatInt_head d Hd) as (c & r & Ecr & Hc & _ & Hr).
  pose proof (string_forallb_impl _ _ _ digit_plain (parse_digits_is_digit _ _ _ Hv)) as Hplain.
  assert (Hz : forall n, string_forallb plain (zeros n) = true).
  { intros n. eapply string_forallb_impl; [exact digit_plain|]. eapply parse_digits_is_digit, (zeros_value 0). }
  unfold format_f. case_decide as Hdp; [|case_decide as Hx].
  - eexists _, _. split.
    + eapply readFloat_digits; [by eexists _, _|by rewrite !string_forallb_cat, Hz, Hplain|].
      match goal with |- context [zeros ?k] =>
        change ("0." +:+ zeros k +:+ FormatInt d) with ("0" +:+ String "." (zeros k +:+ FormatInt d)) end.
      rewrite (read_mantissa_digits _ "0" _ 0), read_mantissa_dot by done.
      rewrite (read_mantissa_digits _ (zeros _) _ 0) by (rewrite zeros_value; done).
      rewrite (read_mantissa_end _ (FormatInt d) d) by done. unfold pushed. cbn. rewrite zeros_length. reflexivity.
    + f_equal. lia.
  - eexists _, _. split.
    + eapply readFloat_digits; [rewrite Ecr; by eexists _, _|by rewrite string_forallb_cat, Hz, Hplain|].
      rewrite (read_mantissa_digits _ (FormatInt d) _ d) by done.
      rewrite (read_mantissa_end _ (zeros _) (d * 10 ^ x))
        by (rewrite zeros_value; cbn [digits pushed]; by rewrite Z2Nat.id by lia).
      unfold pushed. cbn. rewrite (proj2 (Z.ltb_lt _ _)) by lia. reflexivity.
    + unfold round_exp. cbn [Z.opp Z.leb Z.compare]. rewrite (proj2 (Z.leb_le 0 x)) by lia. f_equal. lia.
  - pose proof (split_at_app (Z.to_nat (Z.of_nat (String.length (FormatInt d)) + x)) (FormatInt d)) as Hs.
    destruct (split_at _ _) as [a b]. destruct Hs as [Es Hla]. specialize (Hla ltac:(lia)).
    pose proof (string_length_cat a b) as Hlen. rewrite <-Es in Hlen.
    rewrite Es, parse_digits_app in Hv. destruct (parse_digits 0 a) as [da|] eqn:Ea; [|done]. cbn [mbind option_bind] in Hv.
    rewrite Es, string_forallb_cat in Hplain. apply andb_true_iff in Hplain as [Hpa Hpb].
    destruct a as [|c' a]; [cbn in Hla; lia|]. rewrite Es in Ecr. injection Ecr as -> _.
    eexists _, _. split.
    + eapply readFloat_digits; [by eexists _, _|rewrite !string_forallb_cat; by rewrite Hpa, Hpb|].
      rewrite (read_mantissa_digits _ (String c a) (String "." b) da), read_mantissa_dot by done.
      rewrite (read_mantissa_end _ b d) by done.
      unfold pushed. cbn. reflexivity.
    + f_equal. lia.
Qed.

Lemma FormatInt_nonneg z : 0 <= z -> parse_digits 0 (FormatInt z) = Some z /\
  exists c r, FormatInt z = String c r /\ is_digit c = true.
Proof.
  intros Hz. destruct (decide (z = 0)) as [->|Hne]; [split; [done|by eexists _, _]|].
  split; [apply FormatInt_value; lia|]. destruct (FormatInt_head z) as (c & r & -> & Hc & _); [lia|]. by eexists _, _.
Qed.

Lemma readFloat_exponent neg t d f dot (eneg : bool) k :
  (exists c r, t = String c r /\ is_digit c = true) -> string_forallb plain t = true ->
  0 <= k < 100000 ->
  read_mantissa false no_mantissa t = (MkMantissa d f dot true false,
    String "e" (String (if eneg then "-" else "+")%char (FormatInt k))) ->
  prints t neg d (- f + if eneg then - k else k).
Proof.
  intros Hh Hp Hk Hr. split; [done..|]. destruct Hh as (c & r & Et & Hc). unfold readFloat.
  rewrite (digit_head_sign neg t c r Et Hc). cbn [snd]. rewrite split_hex_plain, Hr by done.
  cbn [sawdigits negb fraction]. rewrite decide_True by done.
  destruct (FormatInt_nonneg k) as (Hv & c' & r' & E & Hc'); [lia|].
  assert (Hs : split_sign (String (if eneg then "-" else "+")%char (FormatInt k)) = (eneg, FormatInt k)) by by destruct eneg.
  rewrite Hs, E, Hc', <-E. rewrite (read_exponent_digits 0 _ _ k) by (done || lia). by rewrite decide_True.
Qed.

Lemma format_e_prints d x neg : 0 < d -> Z.abs (Z.of_nat (String.length (FormatInt d)) + x - 1) < 100000 ->
  prints (format_e d x) neg d x.
Proof.
  intros Hd He. pose proof (FormatInt_value d Hd) as Hv.
  destruct (FormatInt_head d Hd) as (c & r & Ecr & Hc & _ & Hr). unfold format_e.
  set (e := Z.of_nat (String.length (FormatInt d)) + x - 1) in *.
  rewrite Ecr. cbn [split_at]. rewrite Ecr in Hv. cbn [parse_digits] in Hv.
  destruct (digit_value c) as [v|] eqn:Ev; [|done]. change (0 * 10 + v) with v in Hv.
  destruct (FormatInt_nonneg (Z.abs e) ltac:(lia)) as (Hke & _).
  pose proof (string_forallb_impl _ _ _ digit_plain (parse_digits_is_digit _ _ _ Hke)) as Hpe.
  pose proof (string_forallb_impl _ _ _ digit_plain Hr) as Hpr.
  replace x with (- Z.of_nat (String.length r) + if bool_decide (e < 0) then - Z.abs e else Z.abs e)
    by (subst e; rewrite Ecr; cbn [String.length]; case_bool_decide; lia).
  set (tail := "e" +:+ (if decide (e < 0) then "-" else "+") +:+ FormatInt (Z.abs e)).
  assert (Htail : tail = String "e" (String (if bool_decide (e < 0) then "-" else "+")%char (FormatInt (Z.abs e)))).
  { subst tail. by destruct (decide (e < 0)) as [H|H]; [rewrite bool_decide_true by done|rewrite bool_decide_false by done]. }
  eapply (readFloat_exponent neg _ d _ (negb (bool_decide (r = "")))).
  - by eexists _, _.
  - rewrite string_forallb_cat. cbn [string_forallb]. rewrite (digit_plain c) by done. cbn [andb].
    rewrite string_forallb_cat, Htail. destruct (decide (r = "")); cbn [string_forallb];
      rewrite ?string_forallb_cat, ?Hpr; cbn [string_forallb]; rewrite Hpe; by case_bool_decide.
  - lia.
  - rewrite (read_mantissa_digits _ (String c "") _ v) by (cbn [parse_digits digits no_mantissa]; by rewrite Ev).
    destruct (decide (r = "")) as [->|Hne].
    + cbn [parse_digits] in Hv. injection Hv as ->. by rewrite Htail.
    + rewrite bool_decide_false by done. rewrite string_app_assoc.
      change ("." +:+ r +:+ tail) with (String "." (r +:+ tail)). rewrite read_mantissa_dot by done.
      rewrite (read_mantissa_digits _ r _ d) by done. by rewrite Htail.
Qed.

(** ** The shortest digits read back *)

Lemma log2_lt_pow d k : 0 <= k -> 0 < d < 2 ^ k -> Z.log2 d < k.
Proof. intros Hk [H1 H2]. by apply Z.log2_lt_pow2. Qed.

(** Crude bounds on the exact expansion, for the size of an exponent. *)
Lemma exact_decimal_bounds m e : valid_binary 53 1024 (S754_finite false m e) = true ->
  0 < (exact_decimal m e).1 < 2 ^ 4000 /\ -1074 <= (exact_decimal m e).2 <= 0.
Proof.
  intros Hv. destruct (canonical_bound _ _ Hv) as [Hm He]. unfold exact_decimal.
  destruct (Z.leb_spec 0 e) as [H0|H0]; cbn [fst snd].
  - split; [|lia]. assert (0 < 2 ^ e <= 2 ^ 971) by (split; [apply Z.pow_pos_nonneg|apply Z.pow_le_mono_r]; lia).
    split; [lia|]. apply Z.lt_le_trans with (2 ^ 53 * 2 ^ 971); [nia|].
    rewrite <-Z.pow_add_r by lia. apply Z.pow_le_mono_r; lia.
  - destruct (exact_fraction_value m (Z.to_nat (- e))) as (k & H1 & H2 & H3).
    rewrite Z2Nat.id in H2, H3 by lia. destruct (exact_fraction _ _) as [d x]. cbn [fst snd] in *. subst d.
    split; [|lia]. assert (Hk : Zpos k <= Zpos m).
    { rewrite H3. rewrite <-(Z.mul_1_r (Zpos k)) at 1. apply Z.mul_le_mono_nonneg_l; [lia|].
      assert (0 < 2 ^ (- e + x)) by (apply Z.pow_pos_nonneg; lia). lia. }
    assert (0 < 5 ^ (- x)) by (apply Z.pow_pos_nonneg; lia).
    assert (5 ^ (- x) <= 8 ^ 1074).
    { apply Z.le_trans with (8 ^ (- x)); [apply Z.pow_le_mono_l; lia|apply Z.pow_le_mono_r; lia]. }
    split; [nia|]. apply Z.lt_le_trans with (2 ^ 53 * 8 ^ 1074); [nia|].
    change 8 with (2 ^ 3). rewrite <-Z.pow_mul_r, <-Z.pow_add_r by lia. apply Z.pow_le_mono_r; lia.
Qed.

Lemma shortest_reads m e : valid_binary 53 1024 (S754_finite false m e) = true ->
  let c := shortest m e in
  round_exp c.1 10 c.2 = S754_finite false m e /\ 0 < c.1 /\
  Z.abs (Z.of_nat (String.length (FormatInt c.1)) + c.2 - 1) < 100000.
Proof.
  intros Hv. pose proof (exact_decimal_reads m e Hv) as Hr. destruct (exact_decimal_bounds m e Hv) as [Hd Hx].
  unfold shortest. destruct (exact_decimal m e) as [d x]. cbn [fst snd] in *.
  destruct (FormatInt_length d) as [Hl1 Hl2]; [lia|].
  pose proof (log2_lt_pow d 4000 ltac:(lia) Hd) as Hlog.
  destruct (shortest_from_reads (S754_finite false m e) (Z.of_nat (String.length (FormatInt d))) d x 1
    (Z.to_nat (Z.of_nat (String.length (FormatInt d)) - 1))) as (H1 & H2 & H3); [done|lia..|].
  destruct (shortest_from _ _ _ _ _ _) as [d' x']. cbn [fst snd] in *. split; [done|].
  assert (Hd' : 0 < d').
  { destruct (decide (d' = 0)) as [->|]; [|lia]. exfalso. revert H1. unfold round_exp.
    destruct (Z.leb_spec 0 x'); rewrite ?Z.mul_0_l, round_ratio_zero; try done; apply Z.pow_pos_nonneg; lia. }
  split; [done|]. destruct (FormatInt_length d' Hd') as [Hl3 Hl4].
  assert (Z.log2 d' < 4001).
  { apply log2_lt_pow; [lia|]. split; [done|]. change 4001 with (Z.succ 4000). rewrite Z.pow_succ_r by lia. lia. }
  lia.
Qed.

(** ** The laws *)

Lemma mk_float64_repr f : mk_float64 (float_repr f) = f.
Proof.
  unfold mk_float64. destruct (decide _) as [H|H]; [by apply float64_eq|].
  destruct f. done.
Qed.

Lemma parse_float_prints t neg m e p ex : prints t neg m e -> round_exp m 10 e = S754_finite false p ex ->
  parse_float (sign_text neg +:+ t) = Some (mk_float64 (S754_finite neg p ex)).
Proof.
  intros [(c & r & Et & Hc) Hp Hr] Hf. unfold parse_float.
  rewrite special_plain by (rewrite string_forallb_cat, Hp; by destruct neg).
  rewrite Hr. cbn [mbind option_bind]. rewrite Hf, (digit_head_sign neg t c r Et Hc). by destruct neg.
Qed.

Lemma parse_float_zero neg : parse_float (sign_text neg +:+ "0") = Some (mk_float64 (S754_zero neg)).
Proof. by destruct neg; vm_compute. Qed.

Lemma float_finite_valid f neg m e : float_repr f = S754_finite neg m e ->
  valid_binary 53 1024 (S754_finite false m e) = true.
Proof. intros E. rewrite (valid_sign false neg), <-E. apply float_valid. Qed.

Lemma parse_format_float f : is_finite f = true -> parse_float (format_float f) = Some f.
Proof.
  rewrite <-(mk_float64_repr f) at 3. unfold is_finite, format_float. destruct (float_repr f) as [neg|neg| |neg m e] eqn:E;
    try done; intros _; [apply parse_float_zero|].
  destruct (shortest_reads m e (float_finite_valid f neg m e E)) as (H1 & H2 & _).
  destruct (shortest m e) as [d x]. cbn [fst snd] in *.
  destruct (format_f_prints d x neg H2) as (m' & e' & Hp & Hr). eapply parse_float_prints; [exact Hp|congruence].
Qed.

Lemma parse_format_json f : is_finite f = true -> parse_float (format_json f) = Some f.
Proof.
  rewrite <-(mk_float64_repr f) at 3. unfold is_finite, format_json. destruct (float_repr f) as [neg|neg| |neg m e] eqn:E;
    try done; intros _; [apply parse_float_zero|].
  destruct (shortest_reads m e (float_finite_valid f neg m e E)) as (H1 & H2 & H3).
  destruct (shortest m e) as [d x]. cbn [fst snd] in *. destruct (json_exponent m e).
  - eapply parse_float_prints; [by apply format_e_prints|done].
  - destruct (format_f_prints d x neg H2) as (m' & e' & Hp & Hr). eapply parse_float_prints; [exact Hp|congruence].
Qed.

(** *** The grammar of JSON numbers *)

Lemma num_go_digits st s t : st = N1 \/ st = NDot0 \/ st = NE0 -> string_forallb is_digit s = true ->
  num_go st (s +:+ t) = num_go st t.
Proof.
  intros Hst. induction s as [|c s IH]; [done|]. cbn [string_forallb]. intros [Hc Hs]%andb_true_iff.
  rewrite string_app_cons. cbn [num_go].
  assert (num_step st c = Some st) as -> by (unfold num_step; destruct Hst as [-> | [-> | ->]]; by rewrite Hc). by apply IH.
Qed.

Lemma num_go_head st st' c s t : num_step st c = Some st' -> st' = N1 \/ st' = NDot0 \/ st' = NE0 ->
  string_forallb is_digit s = true -> num_go st (String c s +:+ t) = num_go st' t.
Proof. intros H Hst Hs. rewrite string_app_cons. cbn [num_go]. rewrite H. by apply num_go_digits. Qed.

Lemma num_first neg c : is_digit c = true -> c <> "0"%char ->
  num_step (if neg : bool then NNeg else NBegin) c = Some N1.
Proof. by destruct neg, c as [[] [] [] [] [] [] [] []]. Qed.

Lemma num_digit_step c : is_digit c = true ->
  num_step NDot c = Some NDot0 /\ num_step NESign c = Some NE0.
Proof. intros Hc. unfold num_step. by rewrite Hc. Qed.

(** The first digits of a fraction and of an exponent. *)
Lemma num_go_fraction c s t : is_digit c = true -> string_forallb is_digit s = true ->
  num_go NDot (String c s +:+ t) = num_go NDot0 t.
Proof. intros Hc Hs. apply num_go_head; [by apply num_digit_step|auto|done]. Qed.

Lemma num_go_exponent c s t : is_digit c = true -> string_forallb is_digit s = true ->
  num_go NESign (String c s +:+ t) = num_go NE0 t.
Proof. intros Hc Hs. apply num_go_head; [by apply num_digit_step|auto|done]. Qed.

(** The state after the sign. *)
Lemma json_number_sign neg t :
  json_number (sign_text neg +:+ t) = num_go (if neg then NNeg else NBegin) t.
Proof. by destruct neg. Qed.

Lemma json_number_f neg d x : 0 < d -> json_number (sign_text neg +:+ format_f d x) = true.
Proof.
  intros Hd. rewrite json_number_sign. pose proof (FormatInt_value d Hd) as Hv.
  destruct (FormatInt_head d Hd) as (c & r & Ecr & Hc & Hc0 & Hr).
  pose proof (parse_digits_is_digit _ _ _ Hv) as Hall.
  assert (Hz : forall n, string_forallb is_digit (zeros n) = true)
    by (intros n; eapply parse_digits_is_digit, (zeros_value 0)).
  unfold format_f. case_decide as Hdp; [|case_decide as Hx].
  - assert (Hne : forall k, exists c1 s1, zeros k +:+ FormatInt d = String c1 s1 /\
      is_digit c1 = true /\ string_forallb is_digit s1 = true).
    { intros [|k]; [exists c, r; by rewrite Ecr|]. exists "0"%char, (zeros k +:+ FormatInt d).
      by rewrite string_forallb_cat, Hz, Hall. }
    match goal with |- context [zeros ?k] => destruct (Hne k) as (c1 & s1 & -> & H1 & H2) end.
    transitivity (num_go NDot (String c1 s1)); [by destruct neg|].
    rewrite <-(string_app_nil_r (String c1 s1)).
    by rewrite num_go_fraction.
  - rewrite Ecr. rewrite (num_go_head _ N1) by (auto using num_first).
    rewrite <-(string_app_nil_r (zeros _)). by rewrite num_go_digits by auto.
  - pose proof (split_at_app (Z.to_nat (Z.of_nat (String.length (FormatInt d)) + x)) (FormatInt d)) as Hs.
    destruct (split_at _ _) as [a b]. destruct Hs as [Es Hla]. specialize (Hla ltac:(lia)).
    pose proof (string_length_cat a b) as Hlen. rewrite <-Es in Hlen.
    rewrite Es, string_forallb_cat in Hall. apply andb_true_iff in Hall as [Ha Hb].
    destruct a as [|c' a]; [cbn in Hla; lia|]. destruct b as [|c2 b]; [cbn in Hlen, Hla; lia|].
    rewrite Es in Ecr. injection Ecr as -> _. cbn [string_forallb] in Ha, Hb.
    apply andb_true_iff in Ha as [_ Ha], Hb as [Hc2 Hb]. rewrite (num_go_head _ N1) by (auto using num_first).
    transitivity (num_go NDot (String c2 b)); [done|].
    rewrite <-(string_app_nil_r (String c2 b)).
    by rewrite num_go_fraction.
Qed.

Lemma json_number_e neg d x : 0 < d -> json_number (sign_text neg +:+ format_e d x) = true.
Proof.
  intros Hd. rewrite json_number_sign. destruct (FormatInt_head d Hd) as (c & r & Ecr & Hc & Hc0 & Hr).
  unfold format_e. set (e := Z.of_nat (String.length (FormatInt d)) + x - 1).
  rewrite Ecr. cbn [split_at].
  destruct (FormatInt_nonneg (Z.abs e) ltac:(lia)) as (Hke & c2 & r2 & E2 & Hc2).
  pose proof (parse_digits_is_digit _ _ _ Hke) as Hall. rewrite E2 in Hall. cbn [string_forallb] in Hall.
  apply andb_true_iff in Hall as [_ Hr2]. rewrite E2.
  assert (Htail : forall st, st = N1 \/ st = NDot0 ->
    num_go st ("e" +:+ (if decide (e < 0) then "-" else "+") +:+ String c2 r2) = true).
  { intros st Hst. transitivity (num_go NESign (String c2 r2)).
    - by destruct Hst as [-> | ->], (decide (e < 0)).
    - rewrite <-(string_app_nil_r (String c2 r2)).
      by rewrite num_go_exponent. }
  rewrite (num_go_head _ N1) by (auto using num_first).
  destruct r as [|c1 r]; [by rewrite decide_True; auto|]. rewrite decide_False by done.
  cbn [string_forallb] in Hr. apply andb_true_iff in Hr as [Hc1 Hr].
  rewrite string_app_assoc.
  transitivity (num_go NDot (String c1 r +:+ "e" +:+ (if decide (e < 0) then "-" else "+") +:+ String c2 r2)); [done|].
  rewrite num_go_fraction by done. apply Htail. by right.
Qed.

Lemma json_number_json f : is_finite f = true -> json_number (format_json f) = true.
Proof.
  unfold is_finite, format_json. destruct (float_repr f) as [neg|neg| |neg m e] eqn:E; try done; intros _; [by destruct neg|].
  destruct (shortest_reads m e (float_finite_valid f neg m e E)) as (_ & H2 & _).
  destruct (shortest m e) as [d x]. destruct (json_exponent m e); [by apply json_number_e|by apply json_number_f].
Qed.

Lemma format_float_no_markup f : string_forallb not_markup (format_float f) = true.
Proof.
  unfold format_float. destruct (float_repr f) as [neg|neg| |neg m e] eqn:E; [by destruct neg..|done|].
  destruct (shortest_reads m e (float_finite_valid f neg m e E)) as (_ & H2 & _).
  destruct (shortest m e) as [d x]. by apply json_number_no_markup, json_number_f.
Qed.

#[export] Instance strconv_floats : FloatText := {|
  ParseFloat := parse_float;
  FormatFloat := format_float;
  FormatFloatJSON := format_json;
|}.

#[export] Instance strconv_floats_laws : FloatTextLaws.
Proof.
  split; [exact parse_format_float|exact parse_format_json|exact json_number_json|exact format_float_no_markup].
Qed.

(** A number reads as a finite float: only the three names read as anything else. *)
Lemma read_mantissa_nonneg hex st s : 0 <= digits st -> 0 <= digits (read_mantissa hex st s).1.
Proof.
  revert st. induction s as [|c s IH]; intros st H; [done|]. cbn [read_mantissa].
  case_decide; [by apply IH|]. case_decide; [destruct (sawdot st); [done|by apply IH]|].
  destruct (if hex then hex_digit_value c else digit_value c) as [v|] eqn:E; [|done]. apply IH. cbn [digits push_digit].
  assert (0 <= v); [|destruct hex; lia]. destruct hex; [|apply digit_value_range in E; lia].
  unfold hex_digit_value in E. repeat case_decide; try done; injection E as <-; lia.
Qed.

Lemma readFloat_nonneg s hex m e : readFloat s = Some (hex, m, e) -> 0 <= m.
Proof.
  unfold readFloat. destruct (split_hex _) as [hx body].
  pose proof (read_mantissa_nonneg hx no_mantissa body ltac:(done)) as Hn.
  destruct (read_mantissa hx no_mantissa body) as [st rest]. cbn [fst] in Hn.
  intros H. repeat (case_match; try done); by simplify_eq.
Qed.

Lemma float_repr_mk f : valid_binary 53 1024 f = true -> float_repr (mk_float64 f) = f.
Proof. intros Hv. unfold mk_float64. by destruct (decide _). Qed.

Lemma round_exp_not_nan m base e : round_exp m base e <> S754_nan.
Proof.
  assert (H : forall m s, pack m s <> S754_nan).
  { intros m0 s. unfold pack. destruct (m0 =? 2 ^ 53); [by destruct (971 <? _)|].
    destruct m0; [done|by destruct (971 <? _)|done]. }
  unfold round_exp. destruct (0 <=? e); apply H.
Qed.

Lemma parse_float_finite s f : special s = None -> parse_float s = Some f -> is_finite f = true.
Proof.
  intros Hs. unfold parse_float. rewrite Hs. destruct (readFloat s) as [[[hex m] e]|] eqn:E; [|done].
  cbn [mbind option_bind]. pose proof (readFloat_nonneg _ _ _ _ E) as Hm.
  pose proof (round_exp_valid m (if hex then 2 else 10) e Hm ltac:(by destruct hex)) as Hv.
  pose proof (round_exp_not_nan m (if hex then 2 else 10) e) as Hn.
  destruct (round_exp m _ e) as [b|b| |b p ex]; intros H; try done; injection H as <-;
    unfold is_finite; rewrite float_repr_mk; destruct (split_sign s).1; done.
Qed.

(** ** Examples *)

Definition float_of_text (s : string) : float64 := default NaN (parse_float s).

Example format_samples :
  map (fun s => format_float (float_of_text s))
    ["0.1"; "1e21"; "123456789012345678901234567890"; "-0"; "1e23"; "9007199254740993"; "-12.5e-3"; "+Inf"; "nan"]
  = ["0.1"; "1000000000000000000000"; "123456789012345680000000000000"; "-0"; "100000000000000000000000";
     "9007199254740992"; "-0.0125"; "+Inf"; "NaN"].
Proof. vm_compute. reflexivity. Qed.

Example json_samples :
  map (fun s => format_json (float_of_text s)) ["0.1"; "1e21"; "1e20"; "1e-7"; "1.5e-6"; "123456789e-20"]
  = ["0.1"; "1e+21"; "100000000000000000000"; "1e-7"; "0.0000015"; "1.23456789e-12"].
Proof. vm_compute. reflexivity. Qed.

(** Hexadecimal, underscores, halfway cases, overflow, and texts that are refused. *)
Example parse_samples :
  map (fun s => option_map float_repr (parse_float s))
    ["0x1.8p1"; "0x_1p-2"; "1_0"; "1__0"; "_1"; "1_e2"; "1e400"; "+nan"; "infin"; "1e"; "."; "0x1"; "";
     "1.7976931348623159e308"; "2.4703282292062327e-324"; "2.4703282292062328e-324"; "-INFINITY"]
  = [Some (S754_finite false 6755399441055744 (-51)); Some (S754_finite false 4503599627370496 (-54));
     Some (S754_finite false 5629499534213120 (-49)); None; None; None; None; None; None; None; None; None; None;
     None; Some (S754_zero false); Some (S754_finite false 1 (-1074)); Some (S754_infinity true)].
Proof. vm_compute. reflexivity. Qed.

