(* ===== verification/GoContext.v ===== *)
(** * Contexts, time and waiting

    A [context.Context] is known by the instant it is done and whether it is a
    deadline that passes then or a cancellation.  Instants and durations are nanoseconds ([time.Duration]). *)

From S2P Require Import Prelude GoError.
Local Open Scope Z_scope.

Record Context : Type := MkContext {
  ctx_done_at : option Z;
  ctx_timed_out : bool;
}.

(** The error a done context reports. *)
Definition ctx_reason (ctx : Context) : error :=
  if ctx_timed_out ctx then ErrContextDeadlineExceeded else ErrContextCanceled.

Definition Background : Context := MkContext None false.

Definition Second : Z := 1000000000.

(** [ctx.Err()] at an instant *)
Definition ctx_Err (ctx : Context) (now : Z) : option error :=
  match ctx_done_at ctx with
  | Some t => if decide (t <= now) then Some (ctx_reason ctx) else None
  | None => None
  end.

(** When a [select] finds two channels ready at the same instant, Go picks one
    at random: [done_first t] is the pick at instant [t]. *)
Class SelectOrder := done_first : Z -> bool.

(** [waitRetry]: the same function in [postgresstorage.go], [http_sender.go] and
    [sender.go].  The state is the clock. *)
Definition waitRetry `{SelectOrder} (ctx : Context) (delay : Z) : M Z unit := fun now =>
  match ctx_done_at ctx with
  | Some t =>
      if decide (t < now + delay \/ (t = now + delay /\ done_first t = true))
      then (Fail (ctx_reason ctx), Z.max now t)
      else (Ret tt, now + delay)
  | None => (Ret tt, now + delay)
  end.

(** Waiting never takes longer than the delay, and never goes back in time. *)
Lemma waitRetry_bounds `{SelectOrder} ctx delay now :
  0 <= delay -> now <= (waitRetry ctx delay now).2 <= now + delay.
Proof.
  intros Hd. unfold waitRetry. destruct (ctx_done_at ctx) as [t|]; cbn; [|lia].
  case_decide; cbn; lia.
Qed.

