(* ===== verification/GoJson.v ===== *)
(** * JSON values

    [encoding/json] between Go values and JSON trees, as far as the program uses
    it: structs whose fields are strings, pointers and slices, with [omitempty].
    The text of a tree is the interface [JsonText]: what [Marshal] prints,
    [Unmarshal] and [Decoder.Decode] read back. *)

From S2P Require Import Prelude GoError GoNum GoString.
Local Open Scope nat_scope.

#[warnings="-register-all"]
Inductive json : Type :=
| JNull
| JBool (b : bool)
| JNum (lit : string)
| JStr (s : string)
| JArr (l : list json)
| JObj (l : list (string * json)).

(** ** Induction on trees *)

Section JsonInd.
Variable P : json -> Prop.
Hypothesis HNull : P JNull.
Hypothesis HBool : forall b, P (JBool b).
Hypothesis HNum : forall l, P (JNum l).
Hypothesis HStr : forall s, P (JStr s).
Hypothesis HArr : forall l, Forall P l -> P (JArr l).
Hypothesis HObj : forall l, Forall (fun kv => P kv.2) l -> P (JObj l).

Fixpoint json_nested_ind (j : json) : P j :=
  match j with
  | JNull => HNull
  | JBool b => HBool b
  | JNum l => HNum l
  | JStr s => HStr s
  | JArr l => HArr l ((fix go (l : list json) : Forall P l :=
      match l with
      | [] => List.Forall_nil _
      | x :: l => List.Forall_cons _ _ _ (json_nested_ind x) (go l)
      end) l)
  | JObj l => HObj l ((fix go (l : list (string * json)) : Forall (fun kv => P kv.2) l :=
      match l with
      | [] => List.Forall_nil _
      | kv :: l => List.Forall_cons _ _ _ (json_nested_ind kv.2) (go l)
      end) l)
  end.
End JsonInd.

(** ** Well-formed trees: the ones the encoder prints without alteration *)

(** [utf8.ValidString], with the byte ranges still expected. *)
Fixpoint utf8_go (pending : list (nat * nat)) (s : string) : bool :=
  match s with
  | EmptyString => match pending with [] => true | _ => false end
  | String c s' =>
      let n := nat_of_ascii c in
      match pending with
      | (lo, hi) :: rest => (lo <=? n) && (n <=? hi) && utf8_go rest s'
      | [] =>
          if n <? 128 then utf8_go [] s'
          else if (194 <=? n) && (n <=? 223) then utf8_go [(128, 191)] s'
          else if n =? 224 then utf8_go [(160, 191); (128, 191)] s'
          else if n =? 237 then utf8_go [(128, 159); (128, 191)] s'
          else if (225 <=? n) && (n <=? 239) then utf8_go [(128, 191); (128, 191)] s'
          else if n =? 240 then utf8_go [(144, 191); (128, 191); (128, 191)] s'
          else if (241 <=? n) && (n <=? 243)
          then utf8_go [(128, 191); (128, 191); (128, 191)] s'
          else if n =? 244 then utf8_go [(128, 143); (128, 191); (128, 191)] s'
          else false
      end
  end.
Definition utf8_valid (s : string) : bool := utf8_go [] s.

Fixpoint json_wf (j : json) : bool :=
  match j with
  | JNull | JBool _ => true
  | JNum lit => json_number lit
  | JStr s => utf8_valid s
  | JArr l => forallb json_wf l
  | JObj l => forallb (fun kv => utf8_valid kv.1 && json_wf kv.2) l
  end.

(** Scalars have depth 0. *)
Fixpoint json_depth (j : json) : nat :=
  match j with
  | JArr l => S (foldr Nat.max 0 (map json_depth l))
  | JObj l => S (foldr Nat.max 0 (map (fun kv => json_depth kv.2) l))
  | _ => 0
  end.

(** [maxNestingDepth]: the scanner refuses deeper documents. *)
Definition max_nesting : Z := 10000.
Definition shallow (j : json) : Prop := (Z.of_nat (json_depth j) <= max_nesting)%Z.

(** ** Texts *)

Class JsonText := {
  (** [json.Marshal] of a value with this tree *)
  json_print : json -> string;
  (** [json.Unmarshal]: the whole text is one value *)
  json_parse : string -> option json;
  (** [Decoder.Decode]: the first value of a stream *)
  json_parse_first : string -> option json;
}.

Class JsonTextLaws `{JsonText} := {
  json_parse_print j : json_wf j = true -> shallow j -> json_parse (json_print j) = Some j;
  json_parse_first_print j : json_wf j = true -> shallow j -> json_parse_first (json_print j) = Some j;
  json_print_nonempty j : json_wf j = true -> json_print j <> EmptyString;
}.

(** ** Decoding into Go values

    A decoder takes the old value of the destination; [None] is an
    [UnmarshalTypeError], after which the caller gets an error. *)

Definition decoder (A : Type) : Type := A -> json -> option A.

Definition decode_string : decoder string := fun old j =>
  match j with JNull => Some old | JStr s => Some s | _ => None end.

Definition decode_bool : decoder bool := fun old j =>
  match j with JNull => Some old | JBool b => Some b | _ => None end.

Definition decode_int : decoder Z := fun old j =>
  match j with JNull => Some old | JNum lit => ParseInt lit | _ => None end.

Definition decode_float `{FloatText} : decoder float64 := fun old j =>
  match j with JNull => Some old | JNum lit => ParseFloat lit | _ => None end.

(** A pointer: [null] sets it to nil, anything else decodes into the pointee,
    allocated if needed. *)
Definition decode_ptr {A} (zero : A) (dec : decoder A) : decoder (option A) := fun old j =>
  match j with
  | JNull => Some None
  | _ => Some <$> dec (default zero old) j
  end.

(** The fields of a struct: name and decoder into the struct. *)
Definition field (T : Type) : Type := (string * decoder T)%type.

(** The exact name wins, then the first field that is equal under folding. *)
Definition find_field {T} (fields : list (field T)) (key : string) : option (decoder T) :=
  match List.find (fun f => bool_decide (f.1 = key)) fields with
  | Some f => Some f.2
  | None => snd <$> List.find (fun f => EqualFold key f.1) fields
  end.

Definition decode_member {T} (fields : list (field T)) (t : T) (kv : string * json) : option T :=
  match find_field fields kv.1 with
  | Some dec => dec t kv.2
  | None => Some t
  end.

Definition decode_members {T} (fields : list (field T)) (t : T) (l : list (string * json)) : option T :=
  foldl (fun acc kv => t ← acc; decode_member fields t kv) (Some t) l.

Definition decode_struct {T} (fields : list (field T)) : decoder T := fun t j =>
  match j with
  | JNull => Some t
  | JObj l => decode_members fields t l
  | _ => None
  end.

Definition decode_slice {A} (zero : A) (dec : decoder A) (j : json) : option (list A) :=
  match j with
  | JNull => Some []
  | JArr l => mapM (dec zero) l
  | _ => None
  end.

