(* ===== verification/JsonSyntax.v ===== *)
(** * The text of JSON values

    [encoding/json] on texts: how [Marshal] prints a tree (compact, with HTML
    escaping), the scanner, and the parser behind [Unmarshal] and
    [Decoder.Decode].  The scanner and the parser are machines that read one byte
    and one token at a time, as in the library.  The instance [encoding_json] of
    the interface [JsonText] satisfies its laws. *)

From S2P Require Import Prelude GoError GoNum GoString GoJson.
Local Open Scope string_scope.
Local Open Scope list_scope.

(** ** Runes *)

(** The ranges the bytes after a first byte must lie in; [None] when no rune
    starts with it. *)
Definition rune_tail (n : nat) : option (list (nat * nat)) :=
  (if n <? 128 then Some []
   else if (194 <=? n) && (n <=? 223) then Some [(128, 191)]
   else if n =? 224 then Some [(160, 191); (128, 191)]
   else if n =? 237 then Some [(128, 159); (128, 191)]
   else if (225 <=? n) && (n <=? 239) then Some [(128, 191); (128, 191)]
   else if n =? 240 then Some [(144, 191); (128, 191); (128, 191)]
   else if (241 <=? n) && (n <=? 243) then Some [(128, 191); (128, 191); (128, 191)]
   else if n =? 244 then Some [(128, 143); (128, 191); (128, 191)]
   else None)%nat.

(** The bytes of [s] in the ranges [p], or [None]. *)
Fixpoint tail_bytes (p : list (nat * nat)) (s : string) : option string :=
  match p, s with
  | [], _ => Some ""
  | (lo, hi) :: p, String c s =>
      if ((lo <=? nat_of_ascii c) && (nat_of_ascii c <=? hi))%nat
      then String c <$> tail_bytes p s else None
  | _ :: _, EmptyString => None
  end.

(** [utf8.DecodeRuneInString]: the bytes of the first rune, [None] when they
    encode none. *)
Definition first_rune (s : string) : option string :=
  match s with
  | EmptyString => None
  | String c s => p ← rune_tail (nat_of_ascii c); String c <$> tail_bytes p s
  end.

(** The runes of a string; a byte that starts none stands alone as [None]. *)
Fixpoint runes_go (skip : nat) (s : string) : list (option string) :=
  match s, skip with
  | EmptyString, _ => []
  | String _ s, S skip => runes_go skip s
  | String c s', O =>
      let r := first_rune (String c s') in
      r :: runes_go (pred (String.length (default "." r))) s'
  end.
Definition runes (s : string) : list (option string) := runes_go 0 s.

Definition utf8_of (r : N) : string :=
  let b (n : N) := ascii_of_N n in
  (if r <? 128 then String (b r) ""
   else if r <? 2048 then String (b (192 + r / 64)) (String (b (128 + r mod 64)) "")
   else if r <? 65536 then
     String (b (224 + r / 4096)) (String (b (128 + r / 64 mod 64)) (String (b (128 + r mod 64)) ""))
   else String (b (240 + r / 262144)) (String (b (128 + r / 4096 mod 64))
          (String (b (128 + r / 64 mod 64)) (String (b (128 + r mod 64)) ""))))%N.

(** [unicode.ReplacementChar] *)
Definition RuneError : string := utf8_of 65533.

Definition concat_strings (l : list string) : string := String.concat "" l.

(** Invalid bytes become the replacement character. *)
Definition to_valid (s : string) : string := concat_strings (map (default RuneError) (runes s)).

(** ** Printing *)

Definition hex_digit (n : N) : ascii :=
  ascii_of_N (if (n <? 10)%N then 48 + n else 87 + n).

(** [appendString], one rune at a time. *)
Definition escape_byte (c : ascii) : string :=
  let n := N_of_ascii c in
  if (n =? 34)%N then "\" +:+ String c ""
  else if (n =? 92)%N then "\\"
  else if (n =? 8)%N then "\b"
  else if (n =? 12)%N then "\f"
  else if (n =? 10)%N then "\n"
  else if (n =? 13)%N then "\r"
  else if (n =? 9)%N then "\t"
  else if ((n <? 32) || (n =? 60) || (n =? 62) || (n =? 38))%N
  then "\u00" +:+ String (hex_digit (n / 16)) (String (hex_digit (n mod 16)) "")
  else String c "".

Definition escape_rune (r : option string) : string :=
  match r with
  | None => "\ufffd"
  | Some (String c EmptyString) => escape_byte c
  | Some r => if decide (r = utf8_of 8232) then "\u2028"
              else if decide (r = utf8_of 8233) then "\u2029" else r
  end.

Definition dquote : ascii := ascii_of_nat 34.
Definition quoted (s : string) : string := String dquote (s +:+ String dquote "").
Definition print_string (s : string) : string := quoted (concat_strings (map escape_rune (runes s))).

Fixpoint print_json (j : json) : string :=
  match j with
  | JNull => "null"
  | JBool b => if b then "true" else "false"
  | JNum lit => lit
  | JStr s => print_string s
  | JArr l => "[" +:+ String.concat "," (map print_json l) +:+ "]"
  | JObj l => "{" +:+ String.concat "," (map (fun kv => print_string kv.1 +:+ ":" +:+ print_json kv.2) l) +:+ "}"
  end.

(** ** The scanner *)

Inductive token :=
| TNull | TBool (b : bool) | TNum (lit : string) | TStr (s : string)
| TOpenArr | TCloseArr | TOpenObj | TCloseObj | TComma | TColon | TBad.

(** Inside a string: plain text, after a backslash, or with [k] digits of a
    [\u] escape to come and the value [v] so far. *)
Inductive str_state := SPlain | SEscape | SHex (k : nat) (v : N).

Inductive lex_state :=
| LStart
| LWord (rest : string) (t : token)
| LNum (st : num_state) (lit : string)
| LStr (st : str_state) (high : option N) (text : string)
| LDead.

Definition is_space (c : ascii) : bool :=
  let n := nat_of_ascii c in ((n =? 32) || (n =? 9) || (n =? 13) || (n =? 10))%nat.

Definition lex_begin (c : ascii) : list token * lex_state :=
  if is_space c then ([], LStart)
  else if decide (c = "["%char) then ([TOpenArr], LStart)
  else if decide (c = "]"%char) then ([TCloseArr], LStart)
  else if decide (c = "{"%char) then ([TOpenObj], LStart)
  else if decide (c = "}"%char) then ([TCloseObj], LStart)
  else if decide (c = ","%char) then ([TComma], LStart)
  else if decide (c = ":"%char) then ([TColon], LStart)
  else if decide (c = dquote) then ([], LStr SPlain None "")
  else if decide (c = "n"%char) then ([], LWord "ull" TNull)
  else if decide (c = "t"%char) then ([], LWord "rue" (TBool true))
  else if decide (c = "f"%char) then ([], LWord "alse" (TBool false))
  else match num_step NBegin c with
       | Some st => ([], LNum st (String c ""))
       | None => ([TBad], LDead)
       end.

Definition num_accepting (st : num_state) : bool := num_go st "".

Definition hex_value (c : ascii) : option N :=
  let n := N_of_ascii c in
  (if (48 <=? n) && (n <=? 57) then Some (n - 48)
   else if (97 <=? n) && (n <=? 102) then Some (n - 87)
   else if (65 <=? n) && (n <=? 70) then Some (n - 55)
   else None)%N.

(** A high surrogate that no low one follows is a replacement character. *)
Definition settle (high : option N) (text : string) : string :=
  match high with Some _ => text +:+ RuneError | None => text end.

Definition simple_escape (c : ascii) : option ascii :=
  if decide (c = dquote) then Some c
  else if decide (c = "\"%char \/ c = "/"%char) then Some c
  else if decide (c = "b"%char) then Some (ascii_of_nat 8)
  else if decide (c = "f"%char) then Some (ascii_of_nat 12)
  else if decide (c = "n"%char) then Some (ascii_of_nat 10)
  else if decide (c = "r"%char) then Some (ascii_of_nat 13)
  else if decide (c = "t"%char) then Some (ascii_of_nat 9)
  else None.

(** The code unit [v] of a [\u] escape. *)
Definition lex_unit (v : N) (high : option N) (text : string) : lex_state :=
  match high with
  | Some h =>
      if ((56320 <=? v) && (v <? 57344))%N
      then LStr SPlain None (text +:+ utf8_of (65536 + (h - 55296) * 1024 + (v - 56320)))
      else if ((55296 <=? v) && (v <? 56320))%N
      then LStr SPlain (Some v) (text +:+ RuneError)
      else LStr SPlain None ((text +:+ RuneError) +:+ utf8_of v)
  | None =>
      if ((55296 <=? v) && (v <? 56320))%N then LStr SPlain (Some v) text
      else if ((56320 <=? v) && (v <? 57344))%N then LStr SPlain None (text +:+ RuneError)
      else LStr SPlain None (text +:+ utf8_of v)
  end.

Definition lex_in_string (st : str_state) (high : option N) (text : string) (c : ascii)
    : list token * lex_state :=
  match st with
  | SPlain =>
      if decide (c = dquote) then ([TStr (to_valid (settle high text))], LStart)
      else if decide (c = "\"%char) then ([], LStr SEscape high text)
      else if (nat_of_ascii c <? 32)%nat then ([TBad], LDead)
      else ([], LStr SPlain None (settle high text +:+ String c ""))
  | SEscape =>
      if decide (c = "u"%char) then ([], LStr (SHex 4 0) high text)
      else match simple_escape c with
           | Some c => ([], LStr SPlain None (settle high text +:+ String c ""))
           | None => ([TBad], LDead)
           end
  | SHex k v =>
      match hex_value c with
      | Some d =>
          match k with
          | S (S k) => ([], LStr (SHex (S k) (16 * v + d)) high text)
          | _ => ([], lex_unit (16 * v + d) high text)
          end
      | None => ([TBad], LDead)
      end
  end.

(** One byte: the tokens it completes and the next state. *)
Definition lex_step (st : lex_state) (c : ascii) : list token * lex_state :=
  match st with
  | LStart => lex_begin c
  | LWord (String x rest) t =>
      if decide (c = x) then
        match rest with EmptyString => ([t], LStart) | _ => ([], LWord rest t) end
      else ([TBad], LDead)
  | LWord EmptyString _ => ([TBad], LDead)
  | LNum ns lit =>
      match num_step ns c with
      | Some ns => ([], LNum ns (lit +:+ String c ""))
      | None => if num_accepting ns
                then let '(ts, st) := lex_begin c in (TNum lit :: ts, st)
                else ([TBad], LDead)
      end
  | LStr st high text => lex_in_string st high text c
  | LDead => ([], LDead)
  end.

Definition lex_end (st : lex_state) : list token :=
  match st with
  | LStart | LDead => []
  | LNum ns lit => if num_accepting ns then [TNum lit] else [TBad]
  | LWord _ _ | LStr _ _ _ => [TBad]
  end.

Fixpoint lex (st : lex_state) (s : string) : list token :=
  match s with
  | EmptyString => lex_end st
  | String c s => let '(ts, st) := lex_step st c in ts ++ lex st s
  end.

(** ** The parser *)

(** A container that is open: an array with its elements, an object with its
    members and the key of the member that is being read. *)
Inductive frame :=
| FArr (elements : list json)
| FObj (members : list (string * json)) (key : string).

(** What comes next; [WFirst] and [WFirstKey] also accept the end of the
    container that was just opened. *)
Inductive want := WValue | WFirst | WKey | WFirstKey | WColon | WNext.

Inductive progress := PWant (w : want) (open : list frame) | PDone (j : json) | PError.

(** A value has been read. *)
Definition complete (j : json) (open : list frame) : progress :=
  match open with
  | [] => PDone j
  | FArr l :: open => PWant WNext (FArr (l ++ [j]) :: open)
  | FObj l k :: open => PWant WNext (FObj (l ++ [(k, j)]) k :: open)
  end.

(** [maxNestingDepth] *)
Definition can_nest (open : list frame) : bool := (Z.of_nat (List.length open) <? max_nesting)%Z.

Definition parse_value (t : token) (open : list frame) : progress :=
  match t with
  | TNull => complete JNull open
  | TBool b => complete (JBool b) open
  | TNum lit => complete (JNum lit) open
  | TStr s => complete (JStr s) open
  | TOpenArr => if can_nest open then PWant WFirst (FArr [] :: open) else PError
  | TOpenObj => if can_nest open then PWant WFirstKey (FObj [] "" :: open) else PError
  | _ => PError
  end.

Definition parse_key (t : token) (open : list frame) : progress :=
  match t, open with
  | TStr k, FObj l _ :: open => PWant WColon (FObj l k :: open)
  | _, _ => PError
  end.

Definition parse_next (t : token) (open : list frame) : progress :=
  match t, open with
  | TComma, FArr _ :: _ => PWant WValue open
  | TComma, FObj _ _ :: _ => PWant WKey open
  | TCloseArr, FArr l :: open => complete (JArr l) open
  | TCloseObj, FObj l _ :: open => complete (JObj l) open
  | _, _ => PError
  end.

Definition parse_step (w : want) (open : list frame) (t : token) : progress :=
  match w, t with
  | WValue, _ => parse_value t open
  | WFirst, TCloseArr | WFirstKey, TCloseObj => parse_next t open
  | WFirst, _ => parse_value t open
  | WKey, _ | WFirstKey, _ => parse_key t open
  | WColon, TColon => PWant WValue open
  | WColon, _ => PError
  | WNext, _ => parse_next t open
  end.

(** The first value of the tokens, and the tokens after it. *)
Fixpoint parse_tokens (w : want) (open : list frame) (ts : list token) : option (json * list token) :=
  match ts with
  | [] => None
  | t :: ts =>
      match parse_step w open t with
      | PDone j => Some (j, ts)
      | PWant w open => parse_tokens w open ts
      | PError => None
      end
  end.

Definition parse_first (s : string) : option json := fst <$> parse_tokens WValue [] (lex LStart s).

Definition parse_all (s : string) : option json :=
  match parse_tokens WValue [] (lex LStart s) with
  | Some (j, []) => Some j
  | _ => None
  end.

#[local] Instance encoding_json : JsonText := {|
  json_print := print_json;
  json_parse := parse_all;
  json_parse_first := parse_first;
|}.

Example parse_sample :
  parse_all (" { " +:+ quoted "a" +:+ " : [1, -2.5e3 ,true],"
    +:+ quoted "b" +:+ ":" +:+ quoted "x\u00e9\ud83d\u0041\n" +:+ "} ")
  = Some (JObj [("a", JArr [JNum "1"; JNum "-2.5e3"; JBool true]);
      ("b", JStr ("x" +:+ utf8_of 233 +:+ RuneError +:+ "A" +:+ String (ascii_of_nat 10) ""))]).
Proof. vm_compute. reflexivity. Qed.

Example parse_sample_bad :
  map parse_all ["[1,]"; "01"; "{}x"; "1."; "nul"; ""; "[1"; "[}"] = replicate 8 None.
Proof. vm_compute. reflexivity. Qed.

Example parse_first_sample : parse_first "{}x" = Some (JObj []).
Proof. vm_compute. reflexivity. Qed.

(** ** The scanner reads back what is printed *)

(** The tokens and the state after a text. *)
Fixpoint feed (st : lex_state) (s : string) : list token * lex_state :=
  match s with
  | EmptyString => ([], st)
  | String c s =>
      let '(ts, st) := lex_step st c in
      let '(ts', st) := feed st s in (ts ++ ts', st)
  end.

Lemma lex_feed st s t ts st' : feed st s = (ts, st') -> lex st (s +:+ t) = ts ++ lex st' t.
Proof.
  revert st ts. induction s as [|c s IH]; intros st ts; cbn [feed]; [by intros [= <- <-]|].
  rewrite string_app_cons. cbn [lex]. destruct (lex_step st c) as [ts1 st1].
  destruct (feed st1 s) as [ts2 st2] eqn:E. intros [= <- <-]. by rewrite (IH _ _ E), app_assoc.
Qed.

Lemma feed_app st s t ts1 st1 ts2 st2 :
  feed st s = (ts1, st1) -> feed st1 t = (ts2, st2) -> feed st (s +:+ t) = (ts1 ++ ts2, st2).
Proof.
  revert st ts1. induction s as [|c s IH]; intros st ts1; cbn [feed]; [by intros [= <- <-]|].
  rewrite string_app_cons. cbn [feed]. destruct (lex_step st c) as [us st'].
  destruct (feed st' s) as [us' st''] eqn:E.
  intros [= <- <-] Ht. by rewrite (IH _ _ E Ht), app_assoc.
Qed.

(** *** Runes *)

Lemma utf8_go_tail p s : utf8_go p s = true ->
  exists a b, tail_bytes p s = Some a /\ s = a +:+ b /\ String.length a = List.length p /\ utf8_valid b = true.
Proof.
  revert s. induction p as [|[lo hi] p IH]; intros s Hs; [by exists "", s|].
  destruct s as [|c s]; [done|]. cbn in Hs.
  apply andb_true_iff in Hs as [Hc Hs]. destruct (IH s Hs) as (a & b & E & -> & Hl & Hb).
  exists (String c a), b. cbn. rewrite Hc, E. cbn. by rewrite Hl.
Qed.

Lemma utf8_go_start c s : utf8_go [] (String c s) =
  match rune_tail (nat_of_ascii c) with Some p => utf8_go p s | None => false end.
Proof. cbn [utf8_go]. unfold rune_tail. repeat case_match; done. Qed.

Lemma runes_go_skip a b : runes_go (String.length a) (a +:+ b) = runes b.
Proof. induction a as [|c a IH]; [by destruct b|done]. Qed.

Definition wide_byte (c : ascii) : bool := (128 <=? nat_of_ascii c)%nat.

(** The bytes of a rune: one below 128, or several above. *)
Definition rune_bytes (r : string) : Prop :=
  (exists c, r = String c "" /\ wide_byte c = false) \/
  (exists c d r', r = String c (String d r') /\ string_forallb wide_byte r = true).

Lemma rune_tail_spec n p : rune_tail n = Some p ->
  ((n < 128)%nat /\ p = []) \/ ((128 <= n)%nat /\ p <> [] /\ Forall (fun r => 128 <= r.1)%nat p).
Proof.
  unfold rune_tail. intros H.
  repeat case_match; simplify_eq; rewrite ?Nat.ltb_lt, ?Nat.ltb_ge, ?Nat.eqb_eq in *;
    (by left) || (right; split; [lia|split; [done|repeat constructor; cbn; lia]]).
Qed.

Lemma tail_bytes_wide p s a : Forall (fun r => 128 <= r.1)%nat p -> tail_bytes p s = Some a ->
  string_forallb wide_byte a = true.
Proof.
  intros Hp. revert s a. induction Hp as [|[lo hi] p Hlo _ IH]; intros s a; cbn; [by intros [= <-]|].
  destruct s as [|c s]; [done|]. case_match eqn:E; [|done].
  intros (b & Hb & ->)%fmap_Some. cbn in Hlo.
  change (wide_byte c && string_forallb wide_byte b = true). rewrite (IH _ _ Hb), andb_true_r.
  apply andb_true_iff in E as [E _]. apply Nat.leb_le in E. apply Nat.leb_le. lia.
Qed.

(** A valid string starts with a rune, unless it is empty. *)
Lemma utf8_first_rune c s : utf8_valid (String c s) = true -> exists a b,
  first_rune (String c s) = Some (String c a) /\ s = a +:+ b /\ utf8_valid b = true /\ rune_bytes (String c a).
Proof.
  unfold utf8_valid. rewrite utf8_go_start. destruct (rune_tail _) as [p|] eqn:E; [|done].
  intros Hs. destruct (utf8_go_tail _ _ Hs) as (a & b & Ha & -> & Hl & Hb).
  exists a, b. cbn [first_rune]. rewrite E. cbn [mbind option_bind]. rewrite Ha. split_and!; [done..|].
  destruct (rune_tail_spec _ _ E) as [[Hn ->]|(Hn & Hne & Hp)].
  - left. exists c. destruct a; [|done]. split; [done|]. apply Nat.leb_gt. lia.
  - right. destruct a as [|d a]; [by destruct p|]. exists c, d, a. split; [done|].
    cbn [string_forallb]. change (wide_byte c && string_forallb wide_byte (String d a) = true).
    rewrite (tail_bytes_wide _ _ _ Hp Ha), andb_true_r. by apply Nat.leb_le.
Qed.

Lemma string_length_app (a b : string) : String.length (a +:+ b) = (String.length a + String.length b)%nat.
Proof. induction a as [|c a IH]; [done|]. rewrite string_app_cons. cbn. by rewrite IH. Qed.

(** A valid string is the sequence of its runes. *)
Lemma runes_valid s : utf8_valid s = true ->
  exists l, runes s = map Some l /\ s = concat_strings l /\ Forall rune_bytes l.
Proof.
  induction s as [s IH] using (induction_ltof1 _ String.length). unfold ltof in IH. intros Hs.
  destruct s as [|c s]; [by exists []|].
  destruct (utf8_first_rune _ _ Hs) as (a & b & Hr & -> & Hb & Hw).
  destruct (IH b) as (l & Hl & Hc & Hf); [cbn; rewrite string_length_app; lia|done|].
  exists (String c a :: l). split_and!.
  - unfold runes. cbn [runes_go]. rewrite Hr. cbn [default option_map from_option String.length pred].
    change (Some (String c a) :: runes_go (String.length a) (a +:+ b) = map Some (String c a :: l)).
    rewrite runes_go_skip, Hl. done.
  - rewrite Hc. unfold concat_strings. destruct l; cbn; by rewrite ?string_app_nil_r.
  - by constructor.
Qed.

Lemma concat_strings_cons x l : concat_strings (x :: l) = x +:+ concat_strings l.
Proof. unfold concat_strings. destruct l; cbn; by rewrite ?string_app_nil_r. Qed.

Lemma to_valid_valid s : utf8_valid s = true -> to_valid s = s.
Proof.
  intros (l & Hl & Hs & _)%runes_valid. unfold to_valid. rewrite Hl, map_map. cbn. by rewrite map_id, <-Hs.
Qed.

(** *** Strings *)

Lemma feed_ascii c text : wide_byte c = false ->
  feed (LStr SPlain None text) (escape_byte c) = ([], LStr SPlain None (text +:+ String c "")).
Proof.
  destruct c as [b0 b1 b2 b3 b4 b5 b6 b7]. intros H.
  destruct b7; [destruct b0, b1, b2, b3, b4, b5, b6; discriminate H|].
  destruct b0, b1, b2, b3, b4, b5, b6; vm_compute; reflexivity.
Qed.

Lemma feed_wide r text : string_forallb wide_byte r = true ->
  feed (LStr SPlain None text) r = ([], LStr SPlain None (text +:+ r)).
Proof.
  revert text. induction r as [|c r IH]; intros text; [by rewrite string_app_nil_r|].
  cbn [string_forallb]. intros [Hc Hr]%andb_true_iff.
  assert (E : lex_step (LStr SPlain None text) c = ([], LStr SPlain None (text +:+ String c ""))).
  { cbn [lex_step lex_in_string].
    rewrite decide_False by (intros ->; discriminate Hc).
    rewrite decide_False by (intros ->; discriminate Hc).
    apply Nat.leb_le in Hc. by rewrite (proj2 (Nat.ltb_ge _ _)) by lia. }
  cbn [feed]. rewrite E, IH by done. cbn [app]. by rewrite string_app_assoc.
Qed.

Lemma feed_rune r text : rune_bytes r ->
  feed (LStr SPlain None text) (escape_rune (Some r)) = ([], LStr SPlain None (text +:+ r)).
Proof.
  intros [(c & -> & Hc)|(c & d & r' & -> & Hw)]; [by apply feed_ascii|]. cbn [escape_rune].
  destruct (decide (String c (String d r') = utf8_of 8232)) as [->|_]; [vm_compute; reflexivity|].
  destruct (decide (String c (String d r') = utf8_of 8233)) as [->|_]; [vm_compute; reflexivity|].
  by apply feed_wide.
Qed.

Lemma feed_runes l text : Forall rune_bytes l ->
  feed (LStr SPlain None text) (concat_strings (map escape_rune (map Some l)))
  = ([], LStr SPlain None (text +:+ concat_strings l)).
Proof.
  intros Hl. revert text. induction Hl as [|r l Hr _ IH]; intros text; [by rewrite string_app_nil_r|].
  cbn [map]. rewrite !concat_strings_cons, <-string_app_assoc.
  apply (feed_app _ _ _ [] _ []  _ (feed_rune r text Hr)), IH.
Qed.

Lemma feed_string s : utf8_valid s = true -> feed LStart (print_string s) = ([TStr s], LStart).
Proof.
  intros Hv. destruct (runes_valid s Hv) as (l & Hl & Hs & Hw). unfold print_string, quoted. rewrite Hl.
  cbn [feed]. change (lex_step LStart dquote) with (@nil token, LStr SPlain None "").
  cbv beta iota.
  rewrite (feed_app _ _ _ [] _ [TStr s] LStart (feed_runes l "" Hw)); [done|].
  rewrite <-Hs. change (feed (LStr SPlain None ("" +:+ s)) (String dquote "")) with ([TStr (to_valid s)], LStart).
  by rewrite to_valid_valid.
Qed.

(** *** Values *)

(** [l] with [sep] between its members. *)
Definition joined {A} (sep : A) (l : list (list A)) : list A :=
  match l with
  | [] => []
  | x :: l => x ++ concat (map (cons sep) l)
  end.

(** The tokens of a printed tree. *)
Fixpoint json_tokens (j : json) : list token :=
  match j with
  | JNull => [TNull]
  | JBool b => [TBool b]
  | JNum lit => [TNum lit]
  | JStr s => [TStr s]
  | JArr l => TOpenArr :: joined TComma (map json_tokens l) ++ [TCloseArr]
  | JObj l => TOpenObj :: joined TComma (map (fun kv => TStr kv.1 :: TColon :: json_tokens kv.2) l) ++ [TCloseObj]
  end.

(** A byte that may follow a value: it ends a number. *)
Definition delimiter (c : ascii) : Prop := c = ","%char \/ c = "]"%char \/ c = "}"%char.

Lemma delimiter_no_number c st : delimiter c -> num_step st c = None.
Proof. intros [-> | [-> | ->]]; by destruct st. Qed.

(** What may follow a value: nothing, or a delimiter. *)
Definition ends_value (t : string) : Prop :=
  match t with EmptyString => True | String c _ => delimiter c end.

(** The text [s] is scanned to the tokens [ts], whatever ends it. *)
Definition scans (s : string) (ts : list token) : Prop := forall t, ends_value t ->
  lex LStart (s +:+ t) = ts ++ lex LStart t.

Lemma scans_feed s ts : feed LStart s = (ts, LStart) -> scans s ts.
Proof. intros H t _. by apply lex_feed. Qed.

Lemma feed_number st lit s : num_go st s = true -> exists st',
  feed (LNum st lit) s = ([], LNum st' (lit +:+ s)) /\ num_accepting st' = true.
Proof.
  revert st lit. induction s as [|c s IH]; intros st lit; cbn [num_go feed].
  - intros H. exists st. by rewrite string_app_nil_r.
  - cbn [lex_step]. destruct (num_step st c) as [st1|]; [|done]. intros H.
    destruct (IH st1 (lit +:+ String c "") H) as (st' & E & Ha). exists st'. cbv beta iota.
    rewrite E. split; [|done]. by rewrite string_app_assoc.
Qed.

(** A number's first byte starts nothing else. *)
Lemma lex_begin_number c st : num_step NBegin c = Some st -> lex_begin c = ([], LNum st (String c "")).
Proof. by destruct c as [[] [] [] [] [] [] [] []]; vm_compute; intros [= <-]. Qed.

Lemma lex_number lit t : json_number lit = true -> exists st,
  num_accepting st = true /\ lex LStart (lit +:+ t) = lex (LNum st lit) t.
Proof.
  unfold json_number. destruct lit as [|c s]; [done|]. cbn [num_go].
  destruct (num_step NBegin c) as [st|] eqn:E; [|done]. intros H.
  destruct (feed_number st (String c "") s H) as (st' & Ef & Ha). exists st'. split; [done|].
  rewrite string_app_cons. cbn [lex lex_step]. rewrite (lex_begin_number _ _ E). cbv beta iota.
  cbn [app]. by rewrite (lex_feed _ _ t _ _ Ef).
Qed.

Lemma scans_number lit : json_number lit = true -> scans lit [TNum lit].
Proof.
  intros H t Ht. destruct (lex_number lit t H) as (st & Ha & ->).
  destruct t as [|c t]; cbn [lex lex_end lex_step]; [by rewrite Ha|].
  rewrite delimiter_no_number, Ha by done. by destruct (lex_begin c).
Qed.

Lemma scans_word w c t rest : lex_begin c = ([], LWord rest t) -> w = String c rest -> rest <> "" -> scans w [t].
Proof.
  intros Hc -> Hr. apply scans_feed. cbn [feed]. change (lex_step LStart c) with (lex_begin c).
  rewrite Hc. cbv beta iota. clear Hc. induction rest as [|d rest IH]; [done|].
  cbn [feed lex_step]. rewrite decide_True by done. destruct rest; [done|]. by rewrite IH.
Qed.

Lemma scans_joined ss tss t : Forall2 scans ss tss -> ends_value t ->
  lex LStart (String.concat "," ss +:+ t) = joined TComma tss ++ lex LStart t.
Proof.
  intros H Ht. destruct H as [|s ts ss tss Hs H]; [done|]. cbn [joined]. revert s ts Hs.
  induction H as [|s' ts' ss tss Hs' _ IH]; intros s ts Hs.
  - cbn [String.concat map concat]. by rewrite app_nil_r, Hs.
  - change (String.concat "," (s :: s' :: ss)) with (s +:+ "," +:+ String.concat "," (s' :: ss)).
    rewrite !string_app_assoc, Hs by (left; done).
    change (lex LStart ("," +:+ String.concat "," (s' :: ss) +:+ t))
      with (TComma :: lex LStart (String.concat "," (s' :: ss) +:+ t)).
    rewrite (IH s' ts' Hs'). cbn [map concat]. by rewrite <-!app_assoc.
Qed.

(** What is printed for a well-formed tree is scanned to its tokens. *)
Lemma scans_json j : json_wf j = true -> scans (print_json j) (json_tokens j).
Proof.
  induction j as [|b|lit|s|l IH|l IH] using json_nested_ind; cbn [json_wf print_json json_tokens]; intros Hw.
  - by apply (scans_word _ "n" _ "ull").
  - destruct b; [by apply (scans_word _ "t" _ "rue")|by apply (scans_word _ "f" _ "alse")].
  - by apply scans_number.
  - by apply scans_feed, feed_string.
  - intros t _. rewrite !string_app_assoc. cbn [app]. rewrite <-app_assoc.
    change (lex LStart ("[" +:+ ?x)) with (TOpenArr :: lex LStart x).
    rewrite (scans_joined _ (map json_tokens l)); [done| |by right; left].
    apply Forall2_fmap, Forall_Forall2_diag, Forall_forall. intros x Hx.
    rewrite Forall_forall in IH. apply IH; [done|]. rewrite forallb_forall in Hw. by apply Hw, list_elem_of_In.
  - intros t _. rewrite !string_app_assoc. cbn [app]. rewrite <-app_assoc.
    change (lex LStart ("{" +:+ ?x)) with (TOpenObj :: lex LStart x).
    rewrite (scans_joined _ (map (fun kv => TStr kv.1 :: TColon :: json_tokens kv.2) l));
      [done| |by right; right].
    apply Forall2_fmap, Forall_Forall2_diag, Forall_forall. intros [k v] Hx.
    rewrite forallb_forall in Hw. pose proof Hx as Hin. apply list_elem_of_In, Hw, andb_true_iff in Hin.
    destruct Hin as [Hk Hv]. rewrite Forall_forall in IH.
    intros u Hu. cbn [fst snd]. rewrite !string_app_assoc.
    rewrite (lex_feed _ _ _ _ _ (feed_string k Hk)).
    change (lex LStart (":" +:+ ?x)) with (TColon :: lex LStart x). 
    pose proof (IH _ Hx Hv u Hu) as E. cbn [snd] in E. by rewrite E.
Qed.

(** ** The parser reads back the tokens of a tree *)

Definition resume (p : progress) (ts : list token) : option (json * list token) :=
  match p with
  | PDone j => Some (j, ts)
  | PWant w open => parse_tokens w open ts
  | PError => None
  end.

Lemma parse_tokens_cons w open t ts :
  parse_tokens w open (t :: ts) = resume (parse_step w open t) ts.
Proof. by cbn; destruct (parse_step w open t). Qed.

(** Right after an opening bracket a value is read as anywhere else. *)
Lemma parse_first_value open j ts :
  parse_tokens WFirst open (json_tokens j ++ ts) = parse_tokens WValue open (json_tokens j ++ ts).
Proof. by destruct j. Qed.

(** What is to be shown of a tree that is nested in [open]. *)
Definition reads (j : json) : Prop := forall open ts,
  (Z.of_nat (json_depth j) + Z.of_nat (List.length open) <= max_nesting)%Z ->
  parse_tokens WValue open (json_tokens j ++ ts) = resume (complete j open) ts.

Lemma map_max_le {A} (f : A -> nat) l n :
  (foldr Nat.max 0 (map f l) <= n)%nat -> Forall (fun x => f x <= n)%nat l.
Proof. induction l as [|x l IH]; cbn; constructor; [lia|apply IH; lia]. Qed.

Lemma read_elements l : Forall reads l -> forall acc open ts n,
  Forall (fun j => json_depth j <= n)%nat l ->
  (Z.of_nat n + Z.of_nat (S (List.length open)) <= max_nesting)%Z ->
  parse_tokens WNext (FArr acc :: open) (concat (map (cons TComma) (map json_tokens l)) ++ TCloseArr :: ts)
  = resume (complete (JArr (acc ++ l)) open) ts.
Proof.
  induction 1 as [|j l Hj _ IH]; intros acc open ts n Hn Ho; cbn [map concat app].
  - by rewrite parse_tokens_cons, app_nil_r.
  - inversion_clear Hn as [|? ? Hjn Hln]. rewrite parse_tokens_cons. cbn [parse_step parse_next resume].
    rewrite <-app_assoc, Hj by (cbn [List.length]; lia). cbn [complete resume].
    rewrite (IH _ _ _ n) by done. by rewrite <-app_assoc.
Qed.

Definition member_tokens (kv : string * json) : list token := TStr kv.1 :: TColon :: json_tokens kv.2.

Lemma read_member k v acc k0 open ts : reads v ->
  (Z.of_nat (json_depth v) + Z.of_nat (S (List.length open)) <= max_nesting)%Z ->
  parse_tokens WKey (FObj acc k0 :: open) (member_tokens (k, v) ++ ts)
  = parse_tokens WNext (FObj (acc ++ [(k, v)]) k :: open) ts.
Proof. intros Hv Hd. cbn. by rewrite Hv. Qed.

Lemma read_members l : Forall (fun kv => reads kv.2) l -> forall acc k0 open ts n,
  Forall (fun kv => json_depth kv.2 <= n)%nat l ->
  (Z.of_nat n + Z.of_nat (S (List.length open)) <= max_nesting)%Z ->
  parse_tokens WNext (FObj acc k0 :: open) (concat (map (cons TComma) (map member_tokens l)) ++ TCloseObj :: ts)
  = resume (complete (JObj (acc ++ l)) open) ts.
Proof.
  induction 1 as [|[k v] l Hj _ IH]; intros acc k0 open ts n Hn Ho; cbn [map concat app].
  - by rewrite parse_tokens_cons, app_nil_r.
  - inversion_clear Hn as [|? ? Hjn Hln]. rewrite parse_tokens_cons. cbn [parse_step parse_next resume].
    cbn [snd] in *. rewrite <-app_assoc, read_member by (done || lia).
    rewrite (IH _ _ _ _ n) by done. by rewrite <-app_assoc.
Qed.

Lemma read_json j : reads j.
Proof.
  induction j as [|b|lit|s|l IH|l IH] using json_nested_ind; intros open ts Hd; [done..| |].
  - cbn [json_depth] in Hd. cbn [json_tokens app]. rewrite parse_tokens_cons. cbn [parse_step parse_value].
    unfold can_nest. rewrite (proj2 (Z.ltb_lt _ _)) by lia. cbn [resume]. rewrite <-app_assoc.
    set (n := foldr Nat.max 0%nat (map json_depth l)) in Hd.
    assert (Hn : Forall (fun j => json_depth j <= n)%nat l)
      by (by apply map_max_le).
    clearbody n. destruct IH as [|j l Hj Hl]; [done|]. cbn [map joined]. rewrite <-app_assoc.
    inversion_clear Hn as [|? ? Hjn Hln].
    rewrite parse_first_value, Hj by (cbn [List.length]; lia). cbn [complete resume].
    cbn [app]. by rewrite (read_elements l Hl _ _ _ n) by (done || lia).
  - cbn [json_depth] in Hd. cbn [json_tokens app]. rewrite parse_tokens_cons. cbn [parse_step parse_value].
    unfold can_nest. rewrite (proj2 (Z.ltb_lt _ _)) by lia. cbn [resume]. rewrite <-app_assoc.
    set (n := foldr Nat.max 0%nat (map (fun kv => json_depth kv.2) l)) in Hd.
    assert (Hn : Forall (fun kv => json_depth kv.2 <= n)%nat l)
      by (by apply (map_max_le (fun kv => json_depth kv.2))).
    clearbody n. destruct IH as [|[k v] l Hj Hl]; [done|]. cbn [map joined]. rewrite <-app_assoc.
    inversion_clear Hn as [|? ? Hjn Hln]. cbn [snd] in *.
    change (parse_tokens WFirstKey ?o (_ ++ ?r)) with (parse_tokens WKey o (member_tokens (k, v) ++ r)).
    rewrite read_member by (done || lia).
    cbn [app]. by rewrite (read_members l Hl _ _ _ _ n) by (done || lia).
Qed.

(** The texts of [encoding/json] satisfy the laws the program's theorems ask for:
    what is printed is read back, alone or in front of more text. *)
#[local] Instance encoding_json_laws : JsonTextLaws.
Proof.
  assert (H : forall j, json_wf j = true -> shallow j ->
    parse_tokens WValue [] (lex LStart (print_json j)) = Some (j, [])).
  { intros j Hw Hd. pose proof (scans_json j Hw "" I) as E. rewrite string_app_nil_r in E.
    rewrite E. cbn [lex lex_end]. apply (read_json j []). unfold shallow in Hd. cbn. lia. }
  split; intros j; cbn.
  - intros Hw Hd. unfold parse_all. by rewrite H.
  - intros Hw Hd. unfold parse_first. by rewrite H.
  - destruct j as [|[]|[]| | |]; done.
Qed.
