(* ===== verification/Model.v ===== *)
(** * The metric model: [internal/model/metrics.go] *)

From S2P Require Import Prelude GoError GoNum.

Definition Counter : string := "counter".
Definition Gauge : string := "gauge".

(** Pointer fields are options: nothing in the program writes through them. *)
Record Metrics : Type := MkMetrics {
  ID : string;
  MType : string;
  Delta : option Z;
  Value : option float64;
  Hash : string;
}.

#[export] Instance Metrics_eq_dec : EqDecision Metrics.
Proof. solve_decision. Defined.

(** The composite literals the program writes. *)
Definition gauge_metric (name : string) (v : float64) : Metrics :=
  MkMetrics name Gauge None (Some v) "".
Definition counter_metric (name : string) (d : Z) : Metrics :=
  MkMetrics name Counter (Some d) None "".

(** The two metric types are different strings; used by every [switch]. *)
Lemma Gauge_neq_Counter : Gauge <> Counter.
Proof. done. Qed.

(** A metric whose value can be dereferenced: the precondition of
    [UpdateMetrics]. *)
Definition dereferenceable (m : Metrics) : Prop :=
  (MType m = Gauge -> is_Some (Value m)) /\ (MType m = Counter -> is_Some (Delta m)).

#[export] Instance dereferenceable_dec m : Decision (dereferenceable m).
Proof. unfold dereferenceable. apply _. Defined.

Lemma gauge_metric_dereferenceable n v : dereferenceable (gauge_metric n v).
Proof. by split; cbn; eauto. Qed.
Lemma counter_metric_dereferenceable n d : dereferenceable (counter_metric n d).
Proof. by split; cbn; eauto. Qed.
#[export] Hint Resolve gauge_metric_dereferenceable counter_metric_dereferenceable : go.
