(* ===== verification/MetricsJson.v ===== *)
(** * JSON of metrics: the field tags of [internal/model/metrics.go]

    The encoder and the decoder [encoding/json] derives from the struct tags of
    [model.Metrics], with the texts of whole documents. *)

From S2P Require Import Prelude GoError GoNum GoString GoJson Model.

Section MetricsJson.
Context `{FloatText}.

(** [delta,omitempty], [value,omitempty] and [hash,omitempty] disappear when
    nil or empty; NaN and the infinities have no JSON form. *)
Definition json_of_metric (m : Metrics) : option json :=
  value ← match Value m with
          | None => Some []
          | Some v => if is_finite v then Some [("value", JNum (FormatFloatJSON v))] else None
          end;
  Some (JObj ([("id", JStr (ID m)); ("type", JStr (MType m))]
    ++ match Delta m with Some d => [("delta", JNum (FormatInt d))] | None => [] end
    ++ value
    ++ if decide (Hash m = "") then [] else [("hash", JStr (Hash m))])).

Definition zero_metric : Metrics := MkMetrics "" "" None None "".

Definition metric_fields : list (field Metrics) := [
  ("id", fun t j => (fun s => MkMetrics s (MType t) (Delta t) (Value t) (Hash t))
                      <$> decode_string (ID t) j);
  ("type", fun t j => (fun s => MkMetrics (ID t) s (Delta t) (Value t) (Hash t))
                      <$> decode_string (MType t) j);
  ("delta", fun t j => (fun d => MkMetrics (ID t) (MType t) d (Value t) (Hash t))
                      <$> decode_ptr 0%Z decode_int (Delta t) j);
  ("value", fun t j => (fun v => MkMetrics (ID t) (MType t) (Delta t) v (Hash t))
                      <$> decode_ptr FloatZero decode_float (Value t) j);
  ("hash", fun t j => (fun s => MkMetrics (ID t) (MType t) (Delta t) (Value t) s)
                      <$> decode_string (Hash t) j)
].

Definition metric_of_json (j : json) : option Metrics :=
  decode_struct metric_fields zero_metric j.

Definition metrics_of_json (j : json) : option (list Metrics) :=
  decode_slice zero_metric (decode_struct metric_fields) j.

Definition json_of_metrics (l : list Metrics) : option json := JArr <$> mapM json_of_metric l.

(** [json.Marshal] of a metric or of a slice of metrics. *)
Definition unsupported_value : error := ErrNew "json: unsupported value".

Definition Marshal_metric `{JsonText} (m : Metrics) : outcome error string :=
  match json_of_metric m with
  | Some j => Ret (json_print j)
  | None => Fail unsupported_value
  end.

Definition Marshal_metrics `{JsonText} (l : list Metrics) : outcome error string :=
  match json_of_metrics l with
  | Some j => Ret (json_print j)
  | None => Fail unsupported_value
  end.

(** [json.Unmarshal(data, &metrics)] *)
Definition Unmarshal_metrics `{JsonText} (data : string) : outcome error (list Metrics) :=
  match json_parse data ≫= metrics_of_json with
  | Some l => Ret l
  | None => Fail (ErrNew "json: cannot unmarshal")
  end.

(** ** Round trip *)

(** A metric the encoder prints without loss. *)
Definition encodable (m : Metrics) : Prop :=
  utf8_valid (ID m) = true /\ utf8_valid (MType m) = true /\ utf8_valid (Hash m) = true /\
  (forall d, Delta m = Some d -> in_int64 d) /\
  (forall v, Value m = Some v -> is_finite v = true).

Context `{!FloatTextLaws}.

Lemma decode_id t s :
  decode_member metric_fields t ("id", JStr s)
  = Some (MkMetrics s (MType t) (Delta t) (Value t) (Hash t)).
Proof. reflexivity. Qed.
Lemma decode_type t s :
  decode_member metric_fields t ("type", JStr s)
  = Some (MkMetrics (ID t) s (Delta t) (Value t) (Hash t)).
Proof. reflexivity. Qed.
Lemma decode_hash t s :
  decode_member metric_fields t ("hash", JStr s)
  = Some (MkMetrics (ID t) (MType t) (Delta t) (Value t) s).
Proof. reflexivity. Qed.
Lemma decode_delta t d :
  in_int64 d ->
  decode_member metric_fields t ("delta", JNum (FormatInt d))
  = Some (MkMetrics (ID t) (MType t) (Some d) (Value t) (Hash t)).
Proof.
  intros Hd.
  change (((fun d => MkMetrics (ID t) (MType t) d (Value t) (Hash t))
    <$> (Some <$> ParseInt (FormatInt d)))
    = Some (MkMetrics (ID t) (MType t) (Some d) (Value t) (Hash t))).
  by rewrite ParseInt_FormatInt.
Qed.
Lemma decode_value t v :
  is_finite v = true ->
  decode_member metric_fields t ("value", JNum (FormatFloatJSON v))
  = Some (MkMetrics (ID t) (MType t) (Delta t) (Some v) (Hash t)).
Proof.
  intros Hv.
  change (((fun v => MkMetrics (ID t) (MType t) (Delta t) v (Hash t))
    <$> (Some <$> ParseFloat (FormatFloatJSON v)))
    = Some (MkMetrics (ID t) (MType t) (Delta t) (Some v) (Hash t))).
  by rewrite ParseFloat_FormatFloatJSON.
Qed.

Lemma metric_of_json_of_metric m j :
  encodable m -> json_of_metric m = Some j -> metric_of_json j = Some m.
Proof.
  intros (_ & _ & _ & Hd & Hv) Hj. destruct m as [id ty d v h]. unfold json_of_metric in Hj.
  cbn [Model.Value Model.Delta Model.Hash Model.ID Model.MType] in *.
  destruct v as [v|]; [specialize (Hv v eq_refl); rewrite Hv in Hj|];
    cbn [mbind option_bind] in Hj; injection Hj as <-;
    (destruct d as [d|]; [specialize (Hd d eq_refl)|]);
    (destruct (decide (h = "")) as [->|Hh]);
    unfold metric_of_json, decode_struct, decode_members, zero_metric;
    cbn [foldl mbind option_bind app];
    repeat (first [rewrite decode_id | rewrite decode_type | rewrite decode_hash
      | rewrite decode_delta by done | rewrite decode_value by done]; cbn [mbind option_bind]);
    done.
Qed.

Lemma json_of_metric_Some m :
  (forall v, Value m = Some v -> is_finite v = true) -> exists j, json_of_metric m = Some j.
Proof.
  intros Hv. unfold json_of_metric. destruct (Value m) as [v|]; [|cbn; eauto].
  rewrite (Hv v eq_refl). cbn. eauto.
Qed.

Lemma json_of_metric_None m v :
  Value m = Some v -> is_finite v = false -> json_of_metric m = None.
Proof. intros Hv Hf. unfold json_of_metric. by rewrite Hv, Hf. Qed.

(** A slice fails to encode as soon as one value is not finite. *)
Lemma json_of_metrics_None l m v :
  m ∈ l -> Value m = Some v -> is_finite v = false -> json_of_metrics l = None.
Proof.
  intros Hin Hv Hf. unfold json_of_metrics.
  destruct (mapM json_of_metric l) as [js|] eqn:E; [|done]. exfalso.
  apply mapM_Some in E. apply list_elem_of_lookup in Hin as [i Hi].
  destruct (Forall2_lookup_l _ _ _ _ _ E Hi) as (j & _ & Hj).
  by rewrite (json_of_metric_None m v) in Hj.
Qed.

Lemma json_of_metric_wf m j : encodable m -> json_of_metric m = Some j -> json_wf j = true.
Proof.
  intros (Hi & Ht & Hh & _ & Hv) Hj. destruct m as [id ty d v h]. unfold json_of_metric in Hj.
  cbn [Model.Value Model.Delta Model.Hash Model.ID Model.MType] in *.
  destruct v as [v|]; [specialize (Hv v eq_refl); rewrite Hv in Hj|];
    cbn [mbind option_bind] in Hj; injection Hj as <-;
    destruct d as [d|]; destruct (decide (h = "")) as [->|Hne];
    cbn -[utf8_valid json_number];
    rewrite ?Hi, ?Ht, ?Hh, ?json_number_FormatInt, ?FormatFloatJSON_number by done; done.
Qed.

Lemma json_of_metric_depth m j : json_of_metric m = Some j -> json_depth j = 1%nat.
Proof.
  unfold json_of_metric. intros Hj. repeat case_match; simplify_eq; cbn in Hj; by injection Hj as <-.
Qed.

Lemma json_of_metrics_Some l :
  Forall encodable l -> exists js, json_of_metrics l = Some (JArr js) /\
    json_wf (JArr js) = true /\ (json_depth (JArr js) <= 2)%nat /\ metrics_of_json (JArr js) = Some l.
Proof.
  intros Hl. unfold json_of_metrics, metrics_of_json. cbn [decode_slice].
  induction Hl as [|m l Hm _ (js & E & W & N & D)]; [exists []; cbn; auto|].
  destruct (json_of_metric_Some m) as [j Hj]; [apply Hm|].
  apply fmap_Some in E as (? & E & [= <-]).
  exists (j :: js). cbn. rewrite Hj, E. split; [done|].
  split; [cbn in W; by rewrite (json_of_metric_wf m j), W|].
  split; [cbn in N; pose proof (json_of_metric_depth m j Hj); lia|].
  pose proof (metric_of_json_of_metric m j Hm Hj) as Hdec. unfold metric_of_json in Hdec.
  rewrite Hdec. cbn. by rewrite D.
Qed.

(** What [Marshal] prints, [Unmarshal] and [Decode] read back. *)
Lemma Marshal_metrics_roundtrip `{!JsonText, !JsonTextLaws} l :
  Forall encodable l -> exists data, Marshal_metrics l = Ret data /\
    data <> EmptyString /\ Unmarshal_metrics data = Ret l /\
    json_parse_first data ≫= metrics_of_json = Some l.
Proof.
  intros Hl. destruct (json_of_metrics_Some l Hl) as (js & E & W & N & D).
  assert (Hs : shallow (JArr js)) by (unfold shallow, max_nesting; lia).
  exists (json_print (JArr js)). unfold Marshal_metrics, Unmarshal_metrics.
  rewrite E, json_parse_print, json_parse_first_print by done. cbn [mbind option_bind].
  rewrite D. split_and!; try done. by apply json_print_nonempty.
Qed.
End MetricsJson.
