(* ===== verification/GoMap.v ===== *)
(** * Ranging over a Go map

    [for k, v := range m] visits every entry once, in an unspecified order.  The
    order is a parameter: every theorem holds for all of them. *)

From S2P Require Import Prelude.

Class MapRange := {
  range_map : forall {V : Type}, gmap string V -> list (string * V);
  range_map_perm : forall V (m : gmap string V), range_map m ≡ₚ map_to_list m;
}.

(** One possible order, for evaluation. *)
Definition insertion_range : MapRange :=
  {| range_map := fun V m => map_to_list m; range_map_perm := fun V m => reflexivity _ |}.

(** [copy := make(map[string]V); for k, v := range m { copy[k] = v }] *)
Definition copy_map `{MapRange} {V} (m : gmap string V) : gmap string V :=
  foldl (fun acc kv => <[kv.1 := kv.2]> acc) ∅ (range_map m).

Section Range.
Context `{MapRange} {V : Type}.

Lemma range_map_NoDup (m : gmap string V) : NoDup (range_map m).*1.
Proof. rewrite range_map_perm. apply NoDup_fst_map_to_list. Qed.

Lemma elem_of_range_map (m : gmap string V) k v : (k, v) ∈ range_map m <-> m !! k = Some v.
Proof. rewrite range_map_perm. apply elem_of_map_to_list. Qed.

(** Inserting every entry of a duplicate-free list into a map. *)
Lemma foldl_insert_lookup (l : list (string * V)) (acc : gmap string V) k :
  NoDup l.*1 ->
  foldl (fun acc kv => <[kv.1 := kv.2]> acc) acc l !! k
  = match (list_to_map l : gmap string V) !! k with
    | Some v => Some v
    | None => acc !! k
    end.
Proof.
  revert acc. induction l as [|[k' v'] l IH]; intros acc Hnd; cbn in *.
  - by rewrite lookup_empty.
  - apply NoDup_cons in Hnd as [Hn Hnd]. rewrite IH by done.
    destruct (decide (k = k')) as [->|Hk].
    + rewrite lookup_insert_eq, (not_elem_of_list_to_map_1 l k' Hn).
      by rewrite lookup_insert_eq.
    + by rewrite !lookup_insert_ne.
Qed.

Lemma copy_map_id (m : gmap string V) : copy_map m = m.
Proof.
  apply map_eq. intros k. unfold copy_map.
  rewrite foldl_insert_lookup by apply range_map_NoDup.
  rewrite (list_to_map_proper (range_map m) (map_to_list m)).
  - rewrite list_to_map_to_list, lookup_empty. by destruct (m !! k).
  - apply range_map_NoDup.
  - apply range_map_perm.
Qed.
End Range.
