(* ===== verification/Instances.v ===== *)
(** * Concrete instances of the interfaces

    Used to evaluate the theorems at concrete inputs.  JSON texts are those of
    [JsonSyntax], texts of floats those of [Strconv]. *)

From S2P Require Import Prelude GoError GoNum Strconv GoString GoJson JsonSyntax GoMap GoContext.

#[export] Existing Instance insertion_range.
#[export] Existing Instance strconv_floats.
#[export] Existing Instance strconv_floats_laws.
#[export] Existing Instance encoding_json.
#[export] Existing Instance encoding_json_laws.

(** Ties of a [select] go to the timer. *)
#[export] Instance timer_first : SelectOrder := fun _ => false.

(** A float to evaluate with: 1.5. *)
Definition float_1_5 : float64 := mk_float64 (S754_finite false 6755399441055744 (-52)).
Example float_1_5_finite : is_finite float_1_5 = true.
Proof. vm_compute. reflexivity. Qed.
