(* ===== verification/Storage.v ===== *)
(** * The storage interface

    [service.MetricsStorage] ([internal/server/service/metrics.go]) as a class of
    operations over a storage state, and the contract every implementation
    promises the service: an abstract view of the state (two finite maps), the
    effect of each operation on it, and failure atomicity.  [MemStorage.v] and
    [PostgresStorage.v] discharge the contract; [Service.v] is proved against
    it. *)

From S2P Require Import Prelude GoError GoNum GoContext Model.
Local Open Scope Z_scope.

(** ** The abstract state *)

Record View : Type := MkView {
  view_gauges : gmap string float64;
  view_counters : gmap string Z;
}.

#[export] Instance View_eq_dec : EqDecision View.
Proof. solve_decision. Defined.

Definition set_gauge (name : string) (v : float64) (w : View) : View :=
  MkView (<[name := v]> (view_gauges w)) (view_counters w).

Definition counter_total (name : string) (w : View) : Z :=
  default 0 (view_counters w !! name).

Definition add_counter (name : string) (d : Z) (w : View) : View :=
  MkView (view_gauges w) (<[name := wrap64 (counter_total name w + d)]> (view_counters w)).

(** One element of a batch; a metric of another type has no effect. *)
Definition apply_metric (w : View) (m : Metrics) : View :=
  if decide (MType m = Gauge) then
    match Value m with Some v => set_gauge (ID m) v w | None => w end
  else if decide (MType m = Counter) then
    match Delta m with Some d => add_counter (ID m) d w | None => w end
  else w.

Definition apply_batch (l : list Metrics) (w : View) : View := foldl apply_metric w l.

(** What [int64] guarantees of a received delta. *)
Definition int64_delta (m : Metrics) : Prop := forall d, Delta m = Some d -> in_int64 d.

Definition storable (m : Metrics) : Prop := dereferenceable m /\ int64_delta m.

Lemma gauge_metric_storable n v : storable (gauge_metric n v).
Proof. split; [auto with go|]. by intros d [=]. Qed.
Lemma counter_metric_storable n d : in_int64 d -> storable (counter_metric n d).
Proof. split; [auto with go|]. by intros ? [= <-]. Qed.
#[export] Hint Resolve gauge_metric_storable counter_metric_storable : go.

(** ** The interface *)

Class MetricsStorage (S : Type) := {
  UpdateGauge : Context -> string -> float64 -> M S unit;
  UpdateCounter : Context -> string -> Z -> M S Z;
  UpdateMetrics : Context -> list Metrics -> M S unit;
  GetGauge : Context -> string -> M S float64;
  GetCounter : Context -> string -> M S Z;
  Snapshot : Context -> M S (gmap string float64 * gmap string Z);
}.

(** [storage_reliable] is the part of the contract the environment owes: it is
    [True] for the in-memory storage, and for the database it excludes failures
    after which it is unknown whether a statement took effect. *)
Class MetricsStorageLaws (S : Type) `{!MetricsStorage S} := {
  storage_view : S -> View;
  storage_reliable : S -> Prop;
  UpdateGauge_spec ctx n v s r s' :
    storage_reliable s -> UpdateGauge ctx n v s = (r, s') ->
    storage_reliable s' /\
    match r with
    | Ret _ => storage_view s' = set_gauge n v (storage_view s)
    | Fail _ => storage_view s' = storage_view s
    | Panic _ => False
    end;
  UpdateCounter_spec ctx n d s r s' :
    in_int64 d -> storage_reliable s -> UpdateCounter ctx n d s = (r, s') ->
    storage_reliable s' /\
    match r with
    | Ret total =>
        storage_view s' = add_counter n d (storage_view s) /\
        view_counters (storage_view s') !! n = Some total
    | Fail _ => storage_view s' = storage_view s
    | Panic _ => False
    end;
  UpdateMetrics_spec ctx l s r s' :
    Forall storable l -> storage_reliable s -> UpdateMetrics ctx l s = (r, s') ->
    storage_reliable s' /\
    match r with
    | Ret _ => storage_view s' = apply_batch l (storage_view s)
    | Fail _ => storage_view s' = storage_view s
    | Panic _ => False
    end;
  GetGauge_spec ctx n s r s' :
    storage_reliable s -> GetGauge ctx n s = (r, s') ->
    storage_reliable s' /\ storage_view s' = storage_view s /\
    match r with
    | Ret v => view_gauges (storage_view s) !! n = Some v
    | Fail e => Is e ErrMetricNotFound = true -> view_gauges (storage_view s) !! n = None
    | Panic _ => False
    end;
  GetCounter_spec ctx n s r s' :
    storage_reliable s -> GetCounter ctx n s = (r, s') ->
    storage_reliable s' /\ storage_view s' = storage_view s /\
    match r with
    | Ret t => view_counters (storage_view s) !! n = Some t
    | Fail e => Is e ErrMetricNotFound = true -> view_counters (storage_view s) !! n = None
    | Panic _ => False
    end;
  Snapshot_spec ctx s r s' :
    storage_reliable s -> Snapshot ctx s = (r, s') ->
    storage_reliable s' /\ storage_view s' = storage_view s /\
    match r with
    | Ret (g, c) => storage_view s = MkView g c
    | Fail _ => True
    | Panic _ => False
    end;
}.
Arguments storage_reliable {S _ _} _ : simpl never.

(** ** Lemmas on the abstract operations *)

Lemma apply_batch_cons m l w : apply_batch (m :: l) w = apply_batch l (apply_metric w m).
Proof. done. Qed.
Lemma apply_batch_app l1 l2 w : apply_batch (l1 ++ l2) w = apply_batch l2 (apply_batch l1 w).
Proof. apply foldl_app. Qed.

(** The deltas a batch carries for one counter. *)
Definition deltas_of (name : string) (l : list Metrics) : list Z :=
  omap (fun m => if decide (MType m = Counter /\ ID m = name) then Delta m else None) l.

Definition sumZ (l : list Z) : Z := foldr Z.add 0 l.

Lemma deltas_of_cons name m l :
  deltas_of name (m :: l)
  = match (if decide (MType m = Counter /\ ID m = name) then Delta m else None) with
    | Some d => d :: deltas_of name l
    | None => deltas_of name l
    end.
Proof. done. Qed.

(** The gauge values a batch carries for one name, in order. *)
Definition values_of (name : string) (l : list Metrics) : list float64 :=
  omap (fun m => if decide (MType m = Gauge /\ ID m = name) then Value m else None) l.

Lemma counter_total_add n n' d w :
  counter_total n (add_counter n' d w)
  = if decide (n' = n) then wrap64 (counter_total n w + d) else counter_total n w.
Proof.
  unfold counter_total at 1, add_counter. cbn. rewrite lookup_insert.
  case_decide; [by subst|done].
Qed.

Definition in_range_view (w : View) : Prop := map_Forall (fun _ t => in_int64 t) (view_counters w).

Lemma counter_total_range n w : in_range_view w -> in_int64 (counter_total n w).
Proof.
  intros Hw. unfold counter_total. destruct (view_counters w !! n) eqn:E; cbn.
  - by eapply Hw.
  - unfold in_int64, two63. lia.
Qed.

Lemma counter_total_apply_metric n w m :
  counter_total n (apply_metric w m)
  = match (if decide (MType m = Counter /\ ID m = n) then Delta m else None) with
    | Some d => wrap64 (counter_total n w + d)
    | None => counter_total n w
    end.
Proof.
  unfold apply_metric.
  destruct (decide (MType m = Gauge)) as [Hg|Hg].
  - rewrite (decide_False (P := MType m = Counter /\ ID m = n)) by (rewrite Hg; naive_solver).
    by destruct (Value m).
  - destruct (decide (MType m = Counter)) as [Hc|Hc]; [|by rewrite decide_False by tauto].
    destruct (Delta m) as [d|]; [rewrite counter_total_add|by case_decide].
    repeat case_decide; naive_solver.
Qed.

(** After a batch, each counter is the old total plus the sum of its deltas,
    modulo wrap-around. *)
Lemma counter_total_apply_batch n l w :
  in_range_view w ->
  counter_total n (apply_batch l w) = wrap64 (counter_total n w + sumZ (deltas_of n l)).
Proof.
  intros Hw. assert (Hr : in_int64 (counter_total n w)) by by apply counter_total_range.
  clear Hw. revert w Hr. induction l as [|m l IH]; intros w Hr.
  - cbn. by rewrite Z.add_0_r, wrap64_id.
  - rewrite apply_batch_cons. rewrite deltas_of_cons.
    pose proof (counter_total_apply_metric n w m) as Hm.
    destruct (if decide (MType m = Counter /\ ID m = n) then Delta m else None) as [d|].
    + rewrite IH by (rewrite Hm; apply wrap64_range).
      rewrite Hm, wrap64_add_l. f_equal. unfold sumZ. cbn [foldr]. lia.
    + rewrite IH by by rewrite Hm. by rewrite Hm.
Qed.

(** After a batch, a gauge is the last value the batch carries for it. *)
Lemma gauge_apply_batch n l w :
  view_gauges (apply_batch l w) !! n
  = match last (values_of n l) with
    | Some v => Some v
    | None => view_gauges w !! n
    end.
Proof.
  induction l as [|m l IH] using rev_ind; [done|].
  rewrite apply_batch_app. unfold values_of. rewrite omap_app. cbn.
  rewrite last_app.
  unfold apply_metric. fold (values_of n l).
  destruct (decide (MType m = Gauge)) as [Hg|Hg].
  - destruct (Value m) as [v|]; [|case_decide; cbn; by rewrite IH].
    cbn. rewrite lookup_insert. repeat case_decide; naive_solver.
  - rewrite (decide_False (P := MType m = Gauge /\ ID m = n)) by tauto. cbn.
    rewrite <-IH. by destruct (decide (MType m = Counter)); [destruct (Delta m)|].
Qed.

(** A batch that never mentions a counter leaves it alone; otherwise the counter
    exists afterwards. *)
Lemma counter_apply_metric_lookup n w m :
  view_counters (apply_metric w m) !! n
  = match (if decide (MType m = Counter /\ ID m = n) then Delta m else None) with
    | Some d => Some (wrap64 (counter_total n w + d))
    | None => view_counters w !! n
    end.
Proof.
  unfold apply_metric.
  destruct (decide (MType m = Gauge)) as [Hg|Hg].
  - rewrite (decide_False (P := MType m = Counter /\ ID m = n)) by (rewrite Hg; naive_solver).
    by destruct (Value m).
  - destruct (decide (MType m = Counter)) as [Hc|Hc]; [|by rewrite decide_False by tauto].
    destruct (Delta m) as [d|]; [|by case_decide].
    unfold add_counter. cbn. rewrite lookup_insert. repeat case_decide; naive_solver.
Qed.

Lemma counter_apply_batch_untouched n l w :
  deltas_of n l = [] -> view_counters (apply_batch l w) !! n = view_counters w !! n.
Proof.
  revert w. induction l as [|m l IH]; intros w; [done|].
  rewrite deltas_of_cons, apply_batch_cons. intros Hd.
  pose proof (counter_apply_metric_lookup n w m) as Hm.
  destruct (if decide (MType m = Counter /\ ID m = n) then Delta m else None) as [d|]; [done|].
  by rewrite IH.
Qed.

Lemma counter_apply_batch_present n l w :
  deltas_of n l <> [] \/ is_Some (view_counters w !! n) ->
  is_Some (view_counters (apply_batch l w) !! n).
Proof.
  revert w. induction l as [|m l IH]; intros w; [by intros [?|?]|].
  rewrite deltas_of_cons, apply_batch_cons. intros Hd. apply IH.
  pose proof (counter_apply_metric_lookup n w m) as Hm.
  destruct (if decide (MType m = Counter /\ ID m = n) then Delta m else None) as [d|].
  - right. rewrite Hm. eauto.
  - by rewrite Hm.
Qed.

(** The counters after a batch, as a map lookup. *)
Lemma counter_apply_batch n l w :
  in_range_view w ->
  view_counters (apply_batch l w) !! n
  = match deltas_of n l with
    | [] => view_counters w !! n
    | ds => Some (wrap64 (counter_total n w + sumZ ds))
    end.
Proof.
  intros Hw. destruct (deltas_of n l) as [|d ds] eqn:E.
  - by apply counter_apply_batch_untouched.
  - rewrite <-E, <-counter_total_apply_batch by done.
    destruct (counter_apply_batch_present n l w) as [t Ht]; [left; by rewrite E|].
    unfold counter_total. by rewrite Ht.
Qed.

Lemma sumZ_perm l1 l2 : l1 ≡ₚ l2 -> sumZ l1 = sumZ l2.
Proof. unfold sumZ. induction 1; cbn [foldr]; lia. Qed.

Lemma deltas_of_perm n l1 l2 : l1 ≡ₚ l2 -> deltas_of n l1 ≡ₚ deltas_of n l2.
Proof. intros H. unfold deltas_of. by rewrite H. Qed.

(** The order in which increments arrive does not matter. *)
Lemma counters_apply_batch_perm l1 l2 w :
  in_range_view w -> l1 ≡ₚ l2 ->
  view_counters (apply_batch l1 w) = view_counters (apply_batch l2 w).
Proof.
  intros Hw Hp. apply map_eq. intros n. rewrite !counter_apply_batch by done.
  pose proof (deltas_of_perm n _ _ Hp) as Hd.
  destruct (deltas_of n l1) as [|d ds], (deltas_of n l2) as [|d' ds'].
  - done.
  - by apply Permutation_nil_l in Hd.
  - by apply Permutation_nil_r in Hd.
  - by rewrite (sumZ_perm _ _ Hd).
Qed.

Lemma in_range_view_apply_metric w m : in_range_view w -> in_range_view (apply_metric w m).
Proof.
  intros Hw n t Ht. rewrite counter_apply_metric_lookup in Ht.
  destruct (if decide (MType m = Counter /\ ID m = n) then Delta m else None).
  - simplify_eq. apply wrap64_range.
  - by apply (Hw n).
Qed.

Lemma in_range_view_apply_batch l w : in_range_view w -> in_range_view (apply_batch l w).
Proof.
  intros Hw. unfold apply_batch. apply foldl_invariant; [done|]. intros. by apply in_range_view_apply_metric.
Qed.
#[export] Hint Resolve in_range_view_apply_metric in_range_view_apply_batch : go.
