(* ===== verification/MemStorage.v ===== *)
(** * The in-memory storage: [internal/repository/memstorage.go]

    Every method holds the mutex from its first to its last access, so a method
    is one atomic step on the two maps; a program of several goroutines is some
    sequence of such steps. *)

From S2P Require Import Prelude GoError GoNum GoContext GoMap Model Instances Storage.
Local Open Scope Z_scope.

Module MemStorage.

Record t : Type := Mk {
  gauges : gmap string float64;
  counters : gmap string Z;
}.

Definition NewMemStorage : t := Mk ∅ ∅.

(** [m.gauges[name] = v] *)
Definition put_gauge (name : string) (v : float64) (m : t) : t :=
  Mk (<[name := v]> (gauges m)) (counters m).

(** [m.counters[name] = v] *)
Definition put_counter (name : string) (v : Z) (m : t) : t :=
  Mk (gauges m) (<[name := v]> (counters m)).

(** [m.counters[name] += delta]: a missing key reads as zero, [int64] wraps. *)
Definition incr_counter (name : string) (delta : Z) (m : t) : t :=
  put_counter name (wrap64 (default 0 (counters m !! name) + delta)) m.

Section Operations.
Context `{MapRange}.

Definition UpdateGauge (_ : Context) (metricName : string) (value : float64) : M t unit :=
  modify (put_gauge metricName value).

Definition UpdateCounter (_ : Context) (metricName : string) (delta : Z) : M t Z :=
  _ ← modify (incr_counter metricName delta);
  gets (fun m => default 0 (counters m !! metricName)).

Definition UpdateMetrics (_ : Context) (metrics : list Metrics) : M t unit :=
  for_range metrics (fun metric =>
    if decide (MType metric = Gauge) then
      match Value metric with
      | Some v => modify (put_gauge (ID metric) v)
      | None => panic "nil pointer dereference"
      end
    else if decide (MType metric = Counter) then
      match Delta metric with
      | Some d => modify (incr_counter (ID metric) d)
      | None => panic "nil pointer dereference"
      end
    else mret tt).

Definition GetGauge (_ : Context) (metricName : string) : M t float64 :=
  saved ← gets (fun m => gauges m !! metricName);
  match saved with
  | Some value => mret value
  | None => throw ErrMetricNotFound
  end.

Definition GetCounter (_ : Context) (metricName : string) : M t Z :=
  saved ← gets (fun m => counters m !! metricName);
  match saved with
  | Some total => mret total
  | None => throw ErrMetricNotFound
  end.

Definition Snapshot (_ : Context) : M t (gmap string float64 * gmap string Z) :=
  gets (fun m => (copy_map (gauges m), copy_map (counters m))).

Definition SetGauge (metricName : string) (value : float64) : M t unit :=
  modify (put_gauge metricName value).

Definition SetCounter (metricName : string) (delta : Z) : M t unit :=
  modify (put_counter metricName delta).

#[global] Instance mem_storage : MetricsStorage t := {|
  Storage.UpdateGauge := UpdateGauge;
  Storage.UpdateCounter := UpdateCounter;
  Storage.UpdateMetrics := UpdateMetrics;
  Storage.GetGauge := GetGauge;
  Storage.GetCounter := GetCounter;
  Storage.Snapshot := Snapshot;
|}.

(** ** Refinement of the storage contract *)

Definition view (m : t) : View := MkView (gauges m) (counters m).

Lemma view_incr_counter n d m : view (incr_counter n d m) = add_counter n d (view m).
Proof. done. Qed.

Lemma UpdateCounter_run ctx n d m :
  UpdateCounter ctx n d m
  = (Ret (wrap64 (default 0 (counters m !! n) + d)), incr_counter n d m).
Proof. unfold UpdateCounter. run. by rewrite lookup_insert_eq. Qed.

(** The fold a batch of dereferenceable metrics performs. *)
Definition put_metric (m : t) (metric : Metrics) : t :=
  if decide (MType metric = Gauge) then
    match Value metric with Some v => put_gauge (ID metric) v m | None => m end
  else if decide (MType metric = Counter) then
    match Delta metric with Some d => incr_counter (ID metric) d m | None => m end
  else m.

Lemma view_put_metric m metric : view (put_metric m metric) = apply_metric (view m) metric.
Proof.
  unfold put_metric, apply_metric. repeat case_decide; [| |done];
    repeat case_match; done.
Qed.

Lemma UpdateMetrics_run ctx l m :
  Forall dereferenceable l -> UpdateMetrics ctx l m = (Ret tt, foldl put_metric m l).
Proof.
  intros Hl. unfold UpdateMetrics. apply for_range_pure. intros x s Hx.
  rewrite Forall_forall in Hl. destruct (Hl x Hx) as [Hg Hc]. unfold put_metric.
  repeat case_decide; [destruct Hg as [? ->]|destruct Hc as [? ->]|]; done.
Qed.

Lemma view_foldl_put_metric l m : view (foldl put_metric m l) = apply_batch l (view m).
Proof.
  revert m. induction l as [|x l IH]; intros m; [done|]. cbn [foldl].
  by rewrite IH, view_put_metric.
Qed.

#[global] Program Instance mem_storage_laws : MetricsStorageLaws t := {|
  storage_view := view;
  storage_reliable := fun _ => True;
|}.
Next Obligation. by intros ctx n v s r s' _ [= <- <-]. Qed.
Next Obligation.
  intros ctx n d s r s' Hd _. cbn. rewrite UpdateCounter_run. intros [= <- <-].
  split; [done|]. split; [done|]. cbn. by rewrite lookup_insert_eq.
Qed.
Next Obligation.
  intros ctx l s r s' Hl _. cbn.
  rewrite UpdateMetrics_run by (eapply Forall_impl; [done|]; by intros ? []).
  intros [= <- <-]. split; [done|]. apply view_foldl_put_metric.
Qed.
Next Obligation.
  intros ctx n s r s' _. cbn. unfold GetGauge. run.
  destruct (gauges s !! n) eqn:E; intros [= <- <-]; naive_solver.
Qed.
Next Obligation.
  intros ctx n s r s' _. cbn. unfold GetCounter. run.
  destruct (counters s !! n) eqn:E; intros [= <- <-]; naive_solver.
Qed.
Next Obligation.
  intros ctx s r s' _. cbn. unfold Snapshot. run. intros [= <- <-].
  by rewrite !copy_map_id.
Qed.

(** The goroutines' calls, as the sequence in which they take the lock. *)
Inductive op : Type :=
| OpGauge (name : string) (v : float64)
| OpCounter (name : string) (d : Z)
| OpBatch (l : list Metrics).

Definition run_op (o : op) : M t unit :=
  match o with
  | OpGauge n v => UpdateGauge Background n v
  | OpCounter n d => _ ← UpdateCounter Background n d; mret tt
  | OpBatch l => UpdateMetrics Background l
  end.

Definition op_metrics (o : op) : list Metrics :=
  match o with
  | OpGauge n v => [gauge_metric n v]
  | OpCounter n d => [counter_metric n d]
  | OpBatch l => l
  end.

Definition op_ok (o : op) : Prop := Forall dereferenceable (op_metrics o).

Lemma run_op_batch o m :
  op_ok o -> run_op o m = (Ret tt, foldl put_metric m (op_metrics o)).
Proof.
  destruct o as [n v|n d|l]; intros Ho; [done| |by apply UpdateMetrics_run].
  cbn [run_op]. unfold mbind, St_bind. by rewrite UpdateCounter_run.
Qed.

Lemma run_ops_batch ops m :
  Forall op_ok ops ->
  for_range ops run_op m = (Ret tt, foldl put_metric m (ops ≫= op_metrics)).
Proof.
  intros Ho. rewrite (for_range_pure _ _ (fun m o => foldl put_metric m (op_metrics o))).
  - f_equal. clear Ho. revert m. induction ops as [|o ops IH]; intros m; [done|].
    cbn. by rewrite foldl_app, IH.
  - intros o s Hin. apply run_op_batch. rewrite Forall_forall in Ho. by apply Ho.
Qed.

(** C12: a batch of metrics that carry their values succeeds, leaves for every
    gauge name the last value the batch gives it, and adds to every counter the
    sum of its deltas with [int64] wrap-around; names the batch does not mention
    keep their entry (or absence). *)
Theorem batch_update_correct ctx l (m : t) :
  Forall dereferenceable l -> in_range_view (view m) ->
  exists m', UpdateMetrics ctx l m = (Ret tt, m') /\
    (forall n, gauges m' !! n
       = match last (values_of n l) with Some v => Some v | None => gauges m !! n end) /\
    (forall n, counters m' !! n
       = match deltas_of n l with
         | [] => counters m !! n
         | ds => Some (wrap64 (default 0 (counters m !! n) + sumZ ds))
         end).
Proof.
  intros Hl Hr. exists (foldl put_metric m l). split; [by apply UpdateMetrics_run|].
  pose proof (view_foldl_put_metric l m) as Hv.
  split; intros n.
  - pose proof (gauge_apply_batch n l (view m)) as E. by rewrite <-Hv in E.
  - pose proof (counter_apply_batch n l (view m) Hr) as E. by rewrite <-Hv in E.
Qed.

(** A batch that reaches a metric whose value pointer is nil panics there:
    the metrics before it have been applied, the ones after it have not, and the
    lock is not held across the panic (the state is the one other goroutines
    see). *)
Theorem batch_update_nil_pointer ctx l bad rest (m : t) :
  Forall dereferenceable l -> ~ dereferenceable bad ->
  UpdateMetrics ctx (l ++ bad :: rest) m
  = (Panic "nil pointer dereference", foldl put_metric m l).
Proof.
  intros Hl Hbad. unfold UpdateMetrics. rewrite for_range_app.
  change (for_range l _) with (UpdateMetrics ctx l).
  rewrite (bind_Ret _ _ _ _ _ (UpdateMetrics_run ctx l m Hl)).
  cbn [for_range]. apply bind_Panic. unfold dereferenceable in Hbad.
  destruct (decide (MType bad = Gauge)) as [Hg|Hg].
  - destruct (Value bad) eqn:E; [|done]. exfalso. apply Hbad.
    split; [eauto|]. intros Hc. by rewrite Hg in Hc.
  - destruct (decide (MType bad = Counter)) as [Hc|Hc]; [|tauto].
    destruct (Delta bad) eqn:E; [|done]. exfalso. apply Hbad. by split; [|eauto].
Qed.

(** The increments a call makes to one counter. *)
Definition increments (n : string) (o : op) : list Z :=
  match o with
  | OpGauge _ _ => []
  | OpCounter n' d => if decide (n' = n) then [d] else []
  | OpBatch l => deltas_of n l
  end.

Lemma deltas_of_ops n ops : deltas_of n (ops ≫= op_metrics) = ops ≫= increments n.
Proof.
  induction ops as [|o ops IH]; [done|]. rewrite !bind_cons, <-IH. unfold deltas_of. rewrite omap_app.
  f_equal. destruct o as [n' v|n' d|l]; [|cbn [op_metrics increments]|done].
  - cbn. rewrite decide_False; [done|]. by intros [E _].
  - cbn. destruct (decide (n' = n)) as [->|Hn]; [by rewrite decide_True|]. rewrite decide_False; [done|tauto].
Qed.

(** C13: no increment is lost.  Each update of the storage holds its lock throughout,
    so a schedule of concurrent calls is an order of them.  In every schedule of the
    same calls (whose metrics carry their values), every counter ends as its old
    value, or zero, plus the sum of all the increments of all the calls, with [int64]
    wrap-around; a counter nobody increments keeps its entry.  So any two schedules
    end with the same counters. *)
Theorem counters_schedule_independent ops ops' (m : t) :
  Forall op_ok ops -> ops ≡ₚ ops' -> in_range_view (view m) ->
  exists m1 m2, for_range ops run_op m = (Ret tt, m1) /\
    for_range ops' run_op m = (Ret tt, m2) /\ counters m1 = counters m2 /\
    forall n, counters m2 !! n
      = match ops ≫= increments n with
        | [] => counters m !! n
        | ds => Some (wrap64 (default 0 (counters m !! n) + sumZ ds))
        end.
Proof.
  intros Ho Hp Hr.
  assert (Ho' : Forall op_ok ops') by by rewrite <-Hp.
  set (m1 := foldl put_metric m (ops ≫= op_metrics)). set (m2 := foldl put_metric m (ops' ≫= op_metrics)).
  assert (counters m1 = counters m2) as E.
  { change (view_counters (view m1) = view_counters (view m2)). subst m1 m2.
    rewrite !view_foldl_put_metric. apply counters_apply_batch_perm; [done|]. by rewrite Hp. }
  exists m1, m2. split_and!; [by apply run_ops_batch|by apply run_ops_batch|exact E|].
  intros n. rewrite <-E. change (counters m1) with (view_counters (view m1)).
  subst m1. rewrite view_foldl_put_metric, counter_apply_batch, deltas_of_ops by done. done.
Qed.
End Operations.

(** ** Witnesses *)

Definition sample : t := Mk ∅ {["hits" := 2 ^ 63 - 1]}.

Lemma sample_in_range : in_range_view (view sample).
Proof.
  intros k v Hk. cbn in Hk. apply lookup_singleton_Some in Hk as [<- <-].
  unfold in_int64, two63. lia.
Qed.

Lemma batch_update_correct_witness :
  exists m', UpdateMetrics Background
      [counter_metric "hits" 1; gauge_metric "load" float_1_5; counter_metric "hits" 2] sample
      = (Ret tt, m') /\
    gauges m' !! "load" = Some float_1_5 /\ counters m' !! "hits" = Some (- 2 ^ 63 + 2).
Proof.
  destruct (batch_update_correct Background
    [counter_metric "hits" 1; gauge_metric "load" float_1_5; counter_metric "hits" 2] sample)
    as (m' & E & Hg & Hc).
  - repeat constructor; auto with go; cbn; eauto; discriminate.
  - exact sample_in_range.
  - exists m'. split; [exact E|]. rewrite (Hg "load"), (Hc "hits"). split; reflexivity.
Defined.

Lemma batch_update_nil_pointer_witness :
  UpdateMetrics Background ([counter_metric "hits" 1] ++
      [MkMetrics "load" Gauge None None ""]) sample
  = (Panic "nil pointer dereference", Mk ∅ {["hits" := - 2 ^ 63]}).
Proof.
  rewrite (batch_update_nil_pointer Background [counter_metric "hits" 1]
    (MkMetrics "load" Gauge None None "") [] sample).
  - vm_compute. reflexivity.
  - repeat constructor; auto with go; cbn; eauto; discriminate.
  - intros [H _]. destruct (H eq_refl). discriminate.
Defined.

Lemma counters_schedule_independent_witness :
  exists m1 m2,
    for_range [OpCounter "a" 3; OpBatch [counter_metric "a" 4]; OpCounter "hits" 1] run_op sample = (Ret tt, m1) /\
    for_range [OpBatch [counter_metric "a" 4]; OpCounter "a" 3; OpCounter "hits" 1] run_op sample = (Ret tt, m2) /\
    counters m1 = counters m2 /\ counters m2 !! "a" = Some 7 /\ counters m2 !! "hits" = Some (- 2 ^ 63).
Proof.
  destruct (counters_schedule_independent [OpCounter "a" 3; OpBatch [counter_metric "a" 4]; OpCounter "hits" 1]
    [OpBatch [counter_metric "a" 4]; OpCounter "a" 3; OpCounter "hits" 1] sample) as (m1 & m2 & H1 & H2 & H3 & Hn).
  - repeat constructor; cbn; eauto; discriminate.
  - apply Permutation_swap.
  - exact sample_in_range.
  - exists m1, m2. split; [exact H1|]. split; [exact H2|]. split; [exact H3|].
    rewrite (Hn "a"), (Hn "hits"). split; reflexivity.
Defined.

End MemStorage.
