(* ===== verification/FileStore.v ===== *)
(** * The metrics file: [internal/repository/filestore.go]

    [Save] writes a full snapshot as a JSON array, [Load] restores it.  The file
    system is a finite map with the failures [os.ReadFile] and [os.WriteFile]
    can have; [os.WriteFile] truncates before it writes, so a failed write may
    leave a prefix of the new contents. *)

From S2P Require Import Prelude GoError GoString GoNum GoContext GoMap GoJson JsonSyntax Model MetricsJson Storage MemStorage Instances.
Local Open Scope Z_scope.

(** ** The file system *)

Inductive write_fault : Type :=
| OpenFails (e : error)
| WriteStops (written : nat) (e : error).

Record FS : Type := MkFS {
  files : gmap string string;
  read_fault : string -> option error;
  write_fault_at : string -> option write_fault;
}.

Definition set_file (path data : string) (fs : FS) : FS :=
  MkFS (<[path := data]> (files fs)) (read_fault fs) (write_fault_at fs).

(** [os.ReadFile] *)
Definition ReadFile (path : string) : M FS string := fun fs =>
  match read_fault fs path with
  | Some e => (Fail e, fs)
  | None =>
      match files fs !! path with
      | Some data => (Ret data, fs)
      | None => (Fail (ErrWrap ("open " +:+ path) ErrNotExist), fs)
      end
  end.

(** [os.WriteFile(path, data, 0o666)]: open with create and truncate, write, close. *)
Definition WriteFile (path data : string) : M FS unit := fun fs =>
  match write_fault_at fs path with
  | Some (OpenFails e) => (Fail e, fs)
  | Some (WriteStops n e) => (Fail e, set_file path (GoString.string_take n data) fs)
  | None => (Ret tt, set_file path data fs)
  end.

(** ** Interfaces *)

Class Snapshotter (S : Type) :=
  snapshot : Context -> M S (gmap string float64 * gmap string Z).

Class Restorer (S : Type) := {
  SetGauge : string -> float64 -> M S unit;
  SetCounter : string -> Z -> M S unit;
}.

#[export] Instance storage_snapshotter {T : Type} `{!MetricsStorage T} : Snapshotter T := Snapshot.

#[export] Instance mem_restorer : Restorer MemStorage.t := {|
  SetGauge := MemStorage.SetGauge;
  SetCounter := MemStorage.SetCounter;
|}.

Module FileStore.

Record t : Type := Mk { path : string }.

Definition NewFileStore (p : string) : t := Mk p.

Section Operations.
Context `{MapRange} `{FloatText} `{JsonText}.

(** The slice [Save] builds: the gauges, then the counters, each in range order. *)
Definition file_metrics (gauges : gmap string float64) (counters : gmap string Z) : list Metrics :=
  map (fun kv => gauge_metric kv.1 kv.2) (range_map gauges)
  ++ map (fun kv => counter_metric kv.1 kv.2) (range_map counters).

Definition Save {R : Type} `{!Snapshotter R} (f : t) (ctx : Context) : M (R * FS) unit :=
  snap ← on_fst (snapshot ctx);
  data ← lift_outcome (Marshal_metrics (file_metrics snap.1 snap.2));
  on_snd (WriteFile (path f) data).

Definition restore_metric {R : Type} `{!Restorer R} (metric : Metrics) : M R unit :=
  if decide (MType metric = Gauge) then
    match Value metric with
    | Some v => SetGauge (ID metric) v
    | None => mret tt
    end
  else if decide (MType metric = Counter) then
    match Delta metric with
    | Some d => SetCounter (ID metric) d
    | None => mret tt
    end
  else mret tt.

Definition Load {R : Type} `{!Restorer R} (f : t) : M (R * FS) unit :=
  data ← attempt (on_snd (ReadFile (path f)));
  match data with
  | inr err => if Is err ErrNotExist then mret tt else throw err
  | inl data =>
      if decide (data = "") then mret tt
      else
        metrics ← lift_outcome (Unmarshal_metrics data);
        on_fst (for_range metrics restore_metric)
  end.

(** ** Lemmas *)

Definition wf_snapshot (g : gmap string float64) (c : gmap string Z) : Prop :=
  (forall k v, g !! k = Some v -> utf8_valid k = true /\ is_finite v = true) /\
  (forall k d, c !! k = Some d -> utf8_valid k = true /\ in_int64 d).

Definition wf_store (m : MemStorage.t) : Prop :=
  wf_snapshot (MemStorage.gauges m) (MemStorage.counters m).

Lemma file_metrics_encodable g c : wf_snapshot g c -> Forall encodable (file_metrics g c).
Proof.
  intros [Hg Hc]. apply Forall_app_2; apply Forall_forall; intros m Hm.
  - apply list_elem_of_fmap in Hm as ([k v] & -> & Hin).
    apply elem_of_range_map in Hin. destruct (Hg _ _ Hin).
    split_and!; cbn; try done; naive_solver.
  - apply list_elem_of_fmap in Hm as ([k d] & -> & Hin).
    apply elem_of_range_map in Hin. destruct (Hc _ _ Hin).
    split_and!; cbn; try done; naive_solver.
Qed.

(** What restoring a list of metrics does to the in-memory storage. *)
Definition set_metric (m : MemStorage.t) (metric : Metrics) : MemStorage.t :=
  if decide (MType metric = Gauge) then
    match Value metric with Some v => MemStorage.put_gauge (ID metric) v m | None => m end
  else if decide (MType metric = Counter) then
    match Delta metric with Some d => MemStorage.put_counter (ID metric) d m | None => m end
  else m.

Lemma restore_run l (m : MemStorage.t) :
  for_range l restore_metric m = (Ret tt, foldl set_metric m l).
Proof.
  apply for_range_pure. intros x s _. unfold restore_metric, set_metric.
  repeat case_decide; repeat case_match; done.
Qed.

Lemma foldl_set_gauges l m :
  foldl set_metric m (map (fun kv => gauge_metric kv.1 kv.2) l)
  = MemStorage.Mk (foldl (fun acc kv => <[kv.1 := kv.2]> acc) (MemStorage.gauges m) l)
      (MemStorage.counters m).
Proof. revert m. induction l as [|kv l IH]; intros m; [by destruct m|]. cbn. by rewrite IH. Qed.

Lemma foldl_set_counters l m :
  foldl set_metric m (map (fun kv => counter_metric kv.1 kv.2) l)
  = MemStorage.Mk (MemStorage.gauges m)
      (foldl (fun acc kv => <[kv.1 := kv.2]> acc) (MemStorage.counters m) l).
Proof. revert m. induction l as [|kv l IH]; intros m; [by destruct m|]. cbn. by rewrite IH. Qed.

(** Restoring a snapshot overwrites what is there, entry by entry. *)
Lemma restore_file_metrics g c m :
  foldl set_metric m (file_metrics g c)
  = MemStorage.Mk (g ∪ MemStorage.gauges m) (c ∪ MemStorage.counters m).
Proof.
  unfold file_metrics. rewrite foldl_app, foldl_set_gauges, foldl_set_counters. cbn.
  assert (Hunion : forall V (x y : gmap string V),
    foldl (fun acc kv => <[kv.1 := kv.2]> acc) y (range_map x) = x ∪ y).
  { intros V x y. apply map_eq. intros k.
    rewrite foldl_insert_lookup by apply range_map_NoDup.
    rewrite (list_to_map_proper (range_map x) (map_to_list x))
      by (apply range_map_NoDup || apply range_map_perm).
    rewrite list_to_map_to_list, lookup_union.
    by destruct (x !! k), (y !! k). }
  by rewrite !Hunion.
Qed.

Context `{!FloatTextLaws} `{!JsonTextLaws}.

Lemma Load_run (f : t) (m : MemStorage.t) fs data l :
  read_fault fs (path f) = None -> files fs !! path f = Some data ->
  data <> EmptyString -> Unmarshal_metrics data = Ret l ->
  Load f (m, fs) = (Ret tt, (foldl set_metric m l, fs)).
Proof.
  intros Hr Hf Hne U. unfold Load, ReadFile. run. rewrite Hr, Hf. cbn.
  rewrite decide_False by done. rewrite U. cbn.
  by rewrite restore_run.
Qed.

(** A save of a snapshot with an unencodable value stops at [json.Marshal]. *)
Lemma Save_unsupported (f : t) ctx (m : MemStorage.t) fs name v :
  MemStorage.gauges m !! name = Some v -> is_finite v = false ->
  Save f ctx (m, fs) = (Fail unsupported_value, (m, fs)).
Proof.
  intros Hg Hv. unfold Save, snapshot, storage_snapshotter. cbn.
  unfold MemStorage.Snapshot. run. rewrite !copy_map_id. unfold Marshal_metrics.
  rewrite (json_of_metrics_None _ (gauge_metric name v) v); try done.
  unfold file_metrics. apply elem_of_app. left.
  apply (list_elem_of_fmap_2 (fun kv => gauge_metric kv.1 kv.2) _ (name, v)).
  by apply elem_of_range_map.
Qed.

(** Every name is UTF-8, as JSON text can hold it, and every counter an [int64]. *)
Definition names_ok (m : MemStorage.t) : Prop :=
  map_Forall (fun k _ => utf8_valid k = true) (MemStorage.gauges m) /\
  map_Forall (fun k d => utf8_valid k = true /\ in_int64 d) (MemStorage.counters m).

Definition finite_gauges (m : MemStorage.t) : Prop :=
  map_Forall (fun _ v => is_finite v = true) (MemStorage.gauges m).

#[export] Instance finite_gauges_dec m : Decision (finite_gauges m).
Proof. unfold finite_gauges. apply _. Defined.

Lemma wf_store_parts m : names_ok m -> finite_gauges m -> wf_store m.
Proof. intros [Hg Hc] Hf. split; intros k v Hk; [split; [by eapply Hg|by eapply Hf]|by eapply Hc]. Qed.

(** The file after a save restores the storage, over whatever it is loaded into. *)
Definition restores (f : t) (m : MemStorage.t) (fs : FS) : Prop :=
  forall m1, Load f (m1, fs) =
    (Ret tt, (MemStorage.Mk (MemStorage.gauges m ∪ MemStorage.gauges m1)
                (MemStorage.counters m ∪ MemStorage.counters m1), fs)).

Lemma restores_empty f m fs : restores f m fs -> Load f (MemStorage.NewMemStorage, fs) = (Ret tt, (m, fs)).
Proof. intros Hl. rewrite Hl. cbn. rewrite !(right_id_L ∅ (∪)). by destruct m. Qed.

Lemma Save_outcome (f : t) ctx (m : MemStorage.t) fs :
  names_ok m -> read_fault fs (path f) = None ->
  exists r fs', Save f ctx (m, fs) = (r, (m, fs')) /\
    (r = Ret tt -> finite_gauges m /\ restores f m fs') /\
    (finite_gauges m -> write_fault_at fs (path f) = None -> r = Ret tt) /\
    (~ finite_gauges m -> r = Fail unsupported_value /\ fs' = fs).
Proof.
  intros Hn Hr. destruct (decide (finite_gauges m)) as [Hf|Hf].
  - destruct (Marshal_metrics_roundtrip _ (file_metrics_encodable _ _ (wf_store_parts m Hn Hf)))
      as (data & E & Hne & U & _).
    destruct (WriteFile (path f) data fs) as [r fs'] eqn:Ew. exists r, fs'. split_and!; [|intros ->; split; [done|]|..|done].
    + unfold Save, snapshot, storage_snapshotter. cbn. unfold MemStorage.Snapshot. run.
      by rewrite !copy_map_id, E, Ew.
    + unfold WriteFile in Ew. destruct (write_fault_at fs (path f)) as [[]|]; simplify_eq.
      intros m1. erewrite Load_run; [by rewrite restore_file_metrics|done| |done|done].
      cbn. apply lookup_insert_eq.
    + intros _ Hw. unfold WriteFile in Ew. rewrite Hw in Ew. by injection Ew as <- <-.
  - assert (exists name v, MemStorage.gauges m !! name = Some v /\ is_finite v = false) as (name & v & Hg & Hv).
    { apply map_not_Forall in Hf as (k & v & Hk & Hv); [|apply _]. exists k, v. split; [done|].
      by destruct (is_finite v). }
    exists (Fail unsupported_value), fs. split_and!; [by eapply Save_unsupported|done|done|done].
Qed.

(** C10: what [Save] writes, [Load] restores, for every storage whose names are valid
    UTF-8 and every file that can be read: when [Save] reports success, loading the file into any in-memory storage
    succeeds and overlays exactly the saved gauges and counters on it (values are
    set, not accumulated), so a fresh storage becomes equal to the saved one.  [Save]
    does succeed when the gauges are finite and the file can be written; with a gauge
    that is NaN or infinite it fails and leaves the file as it was.  This holds for
    every iteration order of Go maps.  (JSON text cannot carry names that are not
    UTF-8: they are rewritten, see [invalid_name_rewritten].) *)
Theorem save_load_roundtrip (f : t) ctx (m : MemStorage.t) fs :
  names_ok m -> read_fault fs (path f) = None ->
  exists r fs', Save f ctx (m, fs) = (r, (m, fs')) /\
    (r = Ret tt ->
       Load f (MemStorage.NewMemStorage, fs') = (Ret tt, (m, fs')) /\
       forall m1, Load f (m1, fs') =
         (Ret tt, (MemStorage.Mk (MemStorage.gauges m ∪ MemStorage.gauges m1)
                     (MemStorage.counters m ∪ MemStorage.counters m1), fs'))) /\
    (finite_gauges m -> write_fault_at fs (path f) = None -> r = Ret tt) /\
    (~ finite_gauges m -> r = Fail unsupported_value /\ fs' = fs).
Proof.
  intros Hn Hr. destruct (Save_outcome f ctx m fs Hn Hr) as (r & fs' & E & Hok & Hrest).
  exists r, fs'. split; [done|]. split; [|done]. intros Hret. destruct (Hok Hret) as [_ Hl].
  split; [by apply restores_empty|exact Hl].
Qed.

(** [Load] never panics and is all-or-nothing on the storage: on any error
    (unreadable file, malformed JSON) the storage is left untouched, and the
    file itself is never modified; a missing or empty file is a successful
    no-op. *)
Theorem load_all_or_nothing (f : t) (m m' : MemStorage.t) fs fs' r :
  Load f (m, fs) = (r, (m', fs')) ->
  fs' = fs /\
  match r with Ret _ => True | Fail _ => m' = m | Panic _ => False end /\
  (read_fault fs (path f) = None ->
   files fs !! path f = None \/ files fs !! path f = Some EmptyString ->
   r = Ret tt /\ m' = m).
Proof.
  unfold Load, ReadFile. run. destruct (read_fault fs (path f)) as [e|]; cbn.
  - destruct (Is e ErrNotExist); intros [= <- <- <-]; naive_solver.
  - destruct (files fs !! path f) as [data|]; cbn; [|intros [= <- <- <-]; naive_solver].
    case_decide as Hd; cbn; [intros [= <- <- <-]; naive_solver|].
    unfold Unmarshal_metrics. destruct (json_parse data ≫= metrics_of_json) as [l|]; cbn.
    + rewrite restore_run. intros [= <- <- <-]. naive_solver.
    + intros [= <- <- <-]. naive_solver.
Qed.
End Operations.

(** ** Witnesses *)

Definition sample_store : MemStorage.t :=
  MemStorage.Mk {["Alloc" := float_1_5]} {["PollCount" := 7]}.
Definition empty_fs : FS := MkFS ∅ (fun _ => None) (fun _ => None).

Lemma sample_store_names : names_ok sample_store.
Proof.
  split; intros k v Hk; cbn in Hk; apply lookup_singleton_Some in Hk as [<- <-]; [reflexivity|].
  split; [reflexivity|unfold in_int64, two63; lia].
Qed.

Lemma sample_store_finite : finite_gauges sample_store.
Proof. intros k v Hk. cbn in Hk. apply lookup_singleton_Some in Hk as [<- <-]. vm_compute. reflexivity. Qed.

Lemma save_load_roundtrip_witness :
  exists fs', Save (NewFileStore "metrics-db.json") Background (sample_store, empty_fs)
      = (Ret tt, (sample_store, fs')) /\
    Load (NewFileStore "metrics-db.json") (MemStorage.NewMemStorage, fs')
      = (Ret tt, (sample_store, fs')).
Proof.
  destruct (save_load_roundtrip (NewFileStore "metrics-db.json") Background sample_store empty_fs
    sample_store_names eq_refl) as (r & fs' & H & Hok & Hs & _).
  assert (r = Ret tt) as Hr by (apply Hs; [exact sample_store_finite|reflexivity]).
  exists fs'. split; [by rewrite <-Hr|]. apply (Hok Hr).
Defined.

Lemma load_all_or_nothing_witness :
  Load (NewFileStore "missing.json") (sample_store, empty_fs)
    = (Ret tt, (sample_store, empty_fs)) /\
  (Ret tt : outcome error unit) = Ret tt /\ sample_store = sample_store.
Proof.
  split; [reflexivity|].
  refine (proj2 (proj2 (load_all_or_nothing (NewFileStore "missing.json") sample_store sample_store
    empty_fs empty_fs (Ret tt) eq_refl)) eq_refl _).
  left. reflexivity.
Defined.

(** A name that is not UTF-8 is saved as the replacement character. *)
Definition invalid_name : string := String (byte 255) EmptyString.

Example invalid_name_rewritten :
  let '(r, (m, fs)) := Save (NewFileStore "metrics-db.json") Background
    (MemStorage.Mk ∅ {[invalid_name := 7]}, empty_fs) in
  r = Ret tt /\
  Load (NewFileStore "metrics-db.json") (MemStorage.NewMemStorage, fs)
  = (Ret tt, (MemStorage.Mk ∅ {[RuneError := 7]}, fs)).
Proof. vm_compute. split; reflexivity. Qed.

End FileStore.
