(* ===== verification/Service.v ===== *)
(** * The metrics service: [internal/server/service/metrics.go]

    [MetricsService] sits between the transports and a storage: it forwards each
    operation, wraps the storage's errors, and, when a synchronous saver is
    enabled, saves after every update.  It is written against the storage
    interface and proved against the storage contract.  The interface the
    handlers use ([handler.Service]) is the class [Service], whose laws the
    service discharges. *)

From S2P Require Import Prelude GoError GoNum GoContext GoMap GoJson Model MetricsJson Instances Storage MemStorage FileStore.
Local Open Scope Z_scope.

(** ** The interface offered to the transports *)

Class Service (W : Type) := {
  svc_UpdateGauge : Context -> string -> float64 -> M W unit;
  svc_UpdateCounter : Context -> string -> Z -> M W Z;
  svc_UpdateMetrics : Context -> list Metrics -> M W unit;
  svc_GetGauge : Context -> string -> M W float64;
  svc_GetCounter : Context -> string -> M W Z;
  svc_Snapshot : Context -> M W (gmap string float64 * gmap string Z);
}.

(** What the transports may rely on.  A failed update may have been applied (the
    save after it failed) or not (the storage failed), never in part. *)
Class ServiceLaws (W : Type) `{!Service W} := {
  svc_view : W -> View;
  svc_reliable : W -> Prop;
  svc_UpdateGauge_spec ctx n v w r w' :
    svc_reliable w -> svc_UpdateGauge ctx n v w = (r, w') ->
    svc_reliable w' /\
    match r with
    | Ret _ => svc_view w' = set_gauge n v (svc_view w)
    | Fail _ => svc_view w' = svc_view w \/ svc_view w' = set_gauge n v (svc_view w)
    | Panic _ => False
    end;
  svc_UpdateCounter_spec ctx n d w r w' :
    in_int64 d -> svc_reliable w -> svc_UpdateCounter ctx n d w = (r, w') ->
    svc_reliable w' /\
    match r with
    | Ret total => svc_view w' = add_counter n d (svc_view w) /\
        view_counters (svc_view w') !! n = Some total
    | Fail _ => svc_view w' = svc_view w \/ svc_view w' = add_counter n d (svc_view w)
    | Panic _ => False
    end;
  svc_UpdateMetrics_spec ctx l w r w' :
    Forall storable l -> svc_reliable w -> svc_UpdateMetrics ctx l w = (r, w') ->
    svc_reliable w' /\
    match r with
    | Ret _ => svc_view w' = apply_batch l (svc_view w)
    | Fail _ => svc_view w' = svc_view w \/ svc_view w' = apply_batch l (svc_view w)
    | Panic _ => False
    end;
  svc_GetGauge_spec ctx n w r w' :
    svc_reliable w -> svc_GetGauge ctx n w = (r, w') ->
    svc_reliable w' /\ svc_view w' = svc_view w /\
    match r with
    | Ret v => view_gauges (svc_view w) !! n = Some v
    | Fail e => Is e ErrMetricNotFound = true -> view_gauges (svc_view w) !! n = None
    | Panic _ => False
    end;
  svc_GetCounter_spec ctx n w r w' :
    svc_reliable w -> svc_GetCounter ctx n w = (r, w') ->
    svc_reliable w' /\ svc_view w' = svc_view w /\
    match r with
    | Ret t => view_counters (svc_view w) !! n = Some t
    | Fail e => Is e ErrMetricNotFound = true -> view_counters (svc_view w) !! n = None
    | Panic _ => False
    end;
  svc_Snapshot_spec ctx w r w' :
    svc_reliable w -> svc_Snapshot ctx w = (r, w') ->
    svc_reliable w' /\ svc_view w' = svc_view w /\
    match r with
    | Ret (g, c) => svc_view w = MkView g c
    | Fail _ => True
    | Panic _ => False
    end;
}.

(** The service refuses this batch in this state, in some context. *)
Definition svc_fails {W : Type} `{!Service W} (l : list Metrics) (w : W) : Prop :=
  exists ctx e w', svc_UpdateMetrics ctx l w = (Fail e, w').

(** A service that never refuses a batch: a storage in memory, not saved to a file. *)
Definition svc_infallible (W : Type) `{!Service W} : Prop := forall l (w : W), Forall storable l -> ~ svc_fails l w.

(** [service.Saver]: saves the storage into the outside world [X]. *)
Record Saver (T X : Type) : Type := MkSaver { saver_Save : Context -> M (T * X) unit }.
Arguments MkSaver {T X} _.
Arguments saver_Save {T X} _ _.

(** [*repository.FileStore] as a [Saver]. *)
Definition file_saver `{MapRange} `{FloatText} `{JsonText} {T : Type} `{!MetricsStorage T}
  (f : FileStore.t) : Saver T FS := MkSaver (FileStore.Save f).

Module MetricsService.

Section Operations.
Context {T X : Type} `{!MetricsStorage T}.

(** The storage [repo] is the [T] of the state. *)
Record t : Type := Mk { syncPersistence : option (Saver T X) }.

Definition NewMetricsService : t := Mk None.

Definition EnableSyncSave (m : t) (s : Saver T X) : t := Mk (Some s).

Definition saveIfSync (m : t) (ctx : Context) : M (T * X) unit :=
  match syncPersistence m with
  | None => mret tt
  | Some s => saver_Save s ctx
  end.

Definition UpdateGauge (m : t) (ctx : Context) (metricName : string) (value : float64) : M (T * X) unit :=
  _ ← map_err (ErrWrap "update gauge") (on_fst (Storage.UpdateGauge ctx metricName value));
  map_err (ErrWrap "sync save failed") (saveIfSync m ctx).

Definition UpdateMetrics (m : t) (ctx : Context) (metrics : list Metrics) : M (T * X) unit :=
  _ ← map_err (ErrWrap "update metrics") (on_fst (Storage.UpdateMetrics ctx metrics));
  map_err (ErrWrap "sync save failed") (saveIfSync m ctx).

Definition UpdateCounter (m : t) (ctx : Context) (metricName : string) (delta : Z) : M (T * X) Z :=
  total ← map_err (ErrWrap "update counter") (on_fst (Storage.UpdateCounter ctx metricName delta));
  _ ← map_err (ErrWrap "sync save failed") (saveIfSync m ctx);
  mret total.

Definition GetGauge (_ : t) (ctx : Context) (metricName : string) : M (T * X) float64 :=
  map_err (fun err => if Is err ErrMetricNotFound then err else ErrWrap "get gauge" err)
    (on_fst (Storage.GetGauge ctx metricName)).

Definition GetCounter (_ : t) (ctx : Context) (metricName : string) : M (T * X) Z :=
  map_err (fun err => if Is err ErrMetricNotFound then err else ErrWrap "get counter" err)
    (on_fst (Storage.GetCounter ctx metricName)).

Definition Snapshot (_ : t) (ctx : Context) : M (T * X) (gmap string float64 * gmap string Z) :=
  on_fst (Storage.Snapshot ctx).

Definition service_of (m : t) : Service (T * X) := {|
  svc_UpdateGauge := UpdateGauge m;
  svc_UpdateCounter := UpdateCounter m;
  svc_UpdateMetrics := UpdateMetrics m;
  svc_GetGauge := GetGauge m;
  svc_GetCounter := GetCounter m;
  svc_Snapshot := Snapshot m;
|}.

(** ** The laws *)

Context `{!MetricsStorageLaws T}.

Definition view (w : T * X) : View := storage_view w.1.
Definition reliable (w : T * X) : Prop := storage_reliable w.1.

(** A saver reads the storage: it does not panic and does not change the view. *)
Definition save_ok (m : t) : Prop :=
  forall s ctx w r w', syncPersistence m = Some s -> reliable w -> saver_Save s ctx w = (r, w') ->
    reliable w' /\ view w' = view w /\ (forall p, r <> Panic p).

Lemma saveIfSync_ok m ctx w r w' :
  save_ok m -> reliable w -> saveIfSync m ctx w = (r, w') ->
  reliable w' /\ view w' = view w /\ (forall p, r <> Panic p).
Proof.
  intros Hs Hw. unfold saveIfSync. destruct (syncPersistence m) as [s|] eqn:E.
  - intros H. by eapply (Hs s).
  - intros [= <- <-]. done.
Qed.

(** Every update is a storage update followed by the optional save. *)
Lemma update_then_save {A} m ctx c1 (op : M T A) w r w' (post : A -> View -> Prop) :
  save_ok m -> reliable w ->
  (forall r1 s1, op w.1 = (r1, s1) ->
    storage_reliable s1 /\
    match r1 with
    | Ret a => post a (storage_view s1)
    | Fail _ => storage_view s1 = storage_view w.1
    | Panic _ => False
    end) ->
  (a ← map_err (ErrWrap c1) (on_fst op);
   _ ← map_err (ErrWrap "sync save failed") (saveIfSync m ctx); mret a) w = (r, w') ->
  reliable w' /\
  match r with
  | Ret a => post a (view w')
  | Fail _ => view w' = view w \/ exists a, post a (view w')
  | Panic _ => False
  end.
Proof.
  intros Hs Hw Hop. unfold mbind, St_bind, mret, St_ret, map_err, on_fst.
  destruct (op w.1) as [r1 s1] eqn:E1. destruct (Hop _ _ eq_refl) as [Hr1 Hv1].
  destruct r1 as [a|e|p]; [|intros [= <- <-]; by auto|done].
  destruct (saveIfSync m ctx (s1, w.2)) as [r2 w2] eqn:E2.
  destruct (saveIfSync_ok m ctx (s1, w.2) r2 w2 Hs Hr1 E2) as (Hr2 & Hv2 & Hp).
  assert (Hv : view w2 = storage_view s1) by exact Hv2. rewrite <-Hv in Hv1.
  destruct r2 as [[]|e|p]; [| |by destruct (Hp p)]; intros [= <- <-]; eauto.
Qed.

Lemma update_then_save_tt m ctx c1 (op : M T unit) w r w' (post : View -> Prop) :
  save_ok m -> reliable w ->
  (forall r1 s1, op w.1 = (r1, s1) ->
    storage_reliable s1 /\
    match r1 with
    | Ret _ => post (storage_view s1)
    | Fail _ => storage_view s1 = storage_view w.1
    | Panic _ => False
    end) ->
  (_ ← map_err (ErrWrap c1) (on_fst op);
   map_err (ErrWrap "sync save failed") (saveIfSync m ctx)) w = (r, w') ->
  reliable w' /\
  match r with
  | Ret _ => post (view w')
  | Fail _ => view w' = view w \/ post (view w')
  | Panic _ => False
  end.
Proof.
  intros Hs Hw Hop Hrun.
  destruct (update_then_save m ctx c1 op w r w' (fun _ => post) Hs Hw Hop) as [Hr Hv].
  - rewrite <-Hrun. unfold mbind, St_bind, mret, St_ret.
    destruct (map_err (ErrWrap c1) (on_fst op) w) as [[[]|e|p] w1]; try done.
    by destruct (map_err (ErrWrap "sync save failed") (saveIfSync m ctx) w1) as [[[]|e|p] w2].
  - split; [done|]. destruct r as [|e|p]; [done| |done].
    destruct Hv as [|[? ?]]; auto.
Qed.

Lemma map_err_on_fst {A} (f : error -> error) (op : M T A) (w w' : T * X) r :
  map_err f (on_fst op) w = (r, w') ->
  exists r0 s', op w.1 = (r0, s') /\ w' = (s', w.2) /\
    r = match r0 with Fail e => Fail (f e) | r0 => r0 end.
Proof.
  unfold map_err, on_fst. destruct (op w.1) as [r0 s']. intros H. exists r0, s'.
  destruct r0; simplify_eq/=; naive_solver.
Qed.

Definition service_laws (m : t) (Hm : save_ok m) :
  @ServiceLaws (T * X) (service_of m).
Proof.
  refine (@Build_ServiceLaws (T * X) (service_of m) view reliable _ _ _ _ _ _).
  - intros ctx n v w r w' Hw Hrun.
    eapply (update_then_save_tt m ctx "update gauge" _ w r w' (fun x => x = set_gauge n v (view w)));
      [done|done| |exact Hrun].
    intros r1 s1 E. by destruct (UpdateGauge_spec _ _ _ _ _ _ Hw E).
  - intros ctx n d w r w' Hd Hw Hrun.
    eapply (update_then_save m ctx "update counter" _ w r w'
      (fun total x => x = add_counter n d (view w) /\ view_counters x !! n = Some total)) in Hrun
      as [Hr Hv]; [|done|done|].
    + split; [done|]. destruct r as [|e|p]; [done| |done].
      destruct Hv as [|(? & ? & _)]; auto.
    + intros r1 s1 E. by destruct (UpdateCounter_spec _ _ _ _ _ _ Hd Hw E).
  - intros ctx l w r w' Hl Hw Hrun.
    eapply (update_then_save_tt m ctx "update metrics" _ w r w' (fun x => x = apply_batch l (view w)));
      [done|done| |exact Hrun].
    intros r1 s1 E. by destruct (UpdateMetrics_spec _ _ _ _ _ Hl Hw E).
  - intros ctx n w r w' Hw Hrun. apply map_err_on_fst in Hrun as (r0 & s' & E & -> & ->).
    destruct (GetGauge_spec _ _ _ _ _ Hw E) as (Hr & Hv & H0). split_and!; [done|done|].
    destruct r0 as [v|e|p]; [done| |done].
    destruct (Is e ErrMetricNotFound) eqn:Ee; [auto|]. rewrite Is_wrap. by rewrite Ee.
  - intros ctx n w r w' Hw Hrun. apply map_err_on_fst in Hrun as (r0 & s' & E & -> & ->).
    destruct (GetCounter_spec _ _ _ _ _ Hw E) as (Hr & Hv & H0). split_and!; [done|done|].
    destruct r0 as [v|e|p]; [done| |done].
    destruct (Is e ErrMetricNotFound) eqn:Ee; [auto|]. rewrite Is_wrap. by rewrite Ee.
  - intros ctx w r w' Hw Hrun. cbn in Hrun. unfold Snapshot, on_fst in Hrun.
    destruct (Storage.Snapshot ctx w.1) as [r0 s'] eqn:E. simplify_eq.
    by destruct (Snapshot_spec _ _ _ _ Hw E).
Defined.

(** C14: an update of a batch whose metrics carry their values (as the transports
    check before they call the service), over a storage that keeps its contract and
    with a saver that only reads it, either succeeds with exactly the batch applied,
    or fails in one of two ways the error tells apart: the storage refused it and
    nothing changed, or the storage applied the whole batch and only the synchronous
    save after it failed.  Such a batch is never applied in part, and never panics. *)
Theorem update_metrics_outcome m ctx l w r w' :
  save_ok m -> reliable w -> Forall storable l ->
  UpdateMetrics m ctx l w = (r, w') ->
  reliable w' /\
  ((r = Ret tt /\ view w' = apply_batch l (view w)) \/
   (exists e, r = Fail (ErrWrap "update metrics" e) /\ view w' = view w) \/
   (exists e, r = Fail (ErrWrap "sync save failed" e) /\ view w' = apply_batch l (view w))).
Proof.
  intros Hs Hw Hl. unfold UpdateMetrics, mbind, St_bind, map_err, on_fst.
  destruct (Storage.UpdateMetrics ctx l w.1) as [r1 s1] eqn:E1.
  destruct (UpdateMetrics_spec _ _ _ _ _ Hl Hw E1) as [Hr1 Hv1].
  destruct r1 as [[]|e|p]; [|intros [= <- <-]; eauto 6|done].
  destruct (saveIfSync m ctx (s1, w.2)) as [r2 w2] eqn:E2.
  destruct (saveIfSync_ok m ctx (s1, w.2) r2 w2 Hs Hr1 E2) as (Hr2 & Hv2 & Hp).
  assert (Hv : view w2 = apply_batch l (view w)) by (etrans; [exact Hv2|exact Hv1]).
  destruct r2 as [[]|e|p]; [| |by destruct (Hp p)]; intros [= <- <-]; eauto 8.
Qed.

(** Reads report the storage's entry and leave it alone; the sentinel
    [ErrMetricNotFound] stays visible to [errors.Is] through the service, and is
    only reported when the metric is absent. *)
Theorem get_counter_outcome m ctx n w r w' :
  reliable w -> GetCounter m ctx n w = (r, w') ->
  view w' = view w /\
  match r with
  | Ret total => view_counters (view w) !! n = Some total
  | Fail e => Is e ErrMetricNotFound = true -> view_counters (view w) !! n = None
  | Panic _ => False
  end /\
  (forall s', Storage.GetCounter ctx n w.1 = (Fail ErrMetricNotFound, s') ->
     exists e, r = Fail e /\ Is e ErrMetricNotFound = true).
Proof.
  intros Hw Hrun. apply map_err_on_fst in Hrun as (r0 & s' & E & -> & ->).
  destruct (GetCounter_spec _ _ _ _ _ Hw E) as (Hr & Hv & H0). split_and!; [done| |].
  - destruct r0 as [v|e|p]; [done| |done].
    destruct (Is e ErrMetricNotFound) eqn:Ee; [auto|]. rewrite Is_wrap. by rewrite Ee.
  - intros s'' E'. rewrite E in E'. simplify_eq. by eexists.
Qed.
End Operations.
Arguments t : clear implicits.

(** ** With the in-memory storage and the metrics file *)

Section FileBacked.
Context `{MapRange} `{FloatText} `{JsonText}.

Lemma WriteFile_not_panic p data fs r fs' : WriteFile p data fs = (r, fs') -> forall q, r <> Panic q.
Proof. unfold WriteFile. repeat case_match; naive_solver. Qed.

(** The file store reads the storage it saves. *)
Lemma file_saver_ok {T : Type} `{!MetricsStorage T} `{!MetricsStorageLaws T} f :
  save_ok (EnableSyncSave (T := T) NewMetricsService (file_saver f)).
Proof.
  intros s ctx w r w' [= <-] Hw. cbn. unfold FileStore.Save, snapshot, storage_snapshotter.
  unfold mbind, St_bind, on_fst, on_snd, lift_outcome.
  destruct (Storage.Snapshot ctx w.1) as [r1 s1] eqn:E1.
  destruct (Snapshot_spec _ _ _ _ Hw E1) as (Hr1 & Hv1 & Hp).
  destruct r1 as [[g c]|e|p]; [|intros [= <- <-]; by split_and!|done].
  unfold Marshal_metrics. destruct (json_of_metrics _); [|intros [= <- <-]; by split_and!].
  cbn. destruct (WriteFile _ _ _) as [r2 fs2] eqn:E2. intros [= <- <-].
  split_and!; [done|done|]. by eapply WriteFile_not_panic.
Qed.

(** The service of a server with [StoreInterval = 0]. *)
Definition sync_service (f : FileStore.t) : t MemStorage.t FS :=
  EnableSyncSave NewMetricsService (file_saver f).

(** An update of the in-memory storage followed by the save. *)
Lemma sync_update_run f ctx l (m : MemStorage.t) fs :
  Forall dereferenceable l ->
  UpdateMetrics (sync_service f) ctx l (m, fs)
  = map_err (ErrWrap "sync save failed") (FileStore.Save f ctx)
      (foldl MemStorage.put_metric m l, fs).
Proof.
  intros Hl. unfold UpdateMetrics.
  erewrite (bind_Ret _ _ _ tt (foldl MemStorage.put_metric m l, fs)); [done|].
  apply map_err_Ret. unfold on_fst.
  change (Storage.UpdateMetrics ctx l (m, fs).1) with (MemStorage.UpdateMetrics ctx l m).
  by rewrite MemStorage.UpdateMetrics_run.
Qed.

Lemma put_metrics_names l (m : MemStorage.t) :
  Forall (fun x => utf8_valid (ID x) = true) l -> FileStore.names_ok m ->
  FileStore.names_ok (foldl MemStorage.put_metric m l).
Proof.
  intros Hl Hm. apply foldl_invariant; [done|]. intros m' x Hx [Hg Hc].
  rewrite Forall_forall in Hl. specialize (Hl x Hx).
  unfold MemStorage.put_metric. repeat case_decide; repeat case_match; try done; (split; [try done|try done]);
    apply map_Forall_insert_2; try done. split; [done|apply wrap64_range].
Qed.

(** C11: with synchronous saving, a batch update that reports success is durable, as
    long as the names are valid UTF-8 and the file can be read: loading the file into
    an empty storage right after it gives exactly the contents of the memory storage,
    with the batch applied.  Every batch whose metrics carry their values is applied
    in memory, and the update does report success when all gauges are then finite and
    the file can be written. *)
Theorem sync_update_durable `{!FloatTextLaws} `{!JsonTextLaws} f ctx l (m : MemStorage.t) fs :
  Forall dereferenceable l -> Forall (fun x => utf8_valid (ID x) = true) l -> FileStore.names_ok m ->
  read_fault fs (FileStore.path f) = None ->
  exists r m' fs', UpdateMetrics (sync_service f) ctx l (m, fs) = (r, (m', fs')) /\
    MemStorage.UpdateMetrics ctx l m = (Ret tt, m') /\
    (r = Ret tt -> FileStore.Load f (MemStorage.NewMemStorage, fs') = (Ret tt, (m', fs'))) /\
    (FileStore.finite_gauges m' -> write_fault_at fs (FileStore.path f) = None -> r = Ret tt).
Proof.
  intros Hd Hl Hm Hr.
  destruct (FileStore.Save_outcome f ctx _ fs (put_metrics_names l m Hl Hm) Hr) as (r & fs' & E & Hok & Hs & _).
  exists (match r with Fail e => Fail (ErrWrap "sync save failed" e) | r => r end), (foldl MemStorage.put_metric m l), fs'.
  rewrite sync_update_run by done. unfold map_err. rewrite E. split_and!.
  - by destruct r.
  - by apply MemStorage.UpdateMetrics_run.
  - intros Hret. apply FileStore.restores_empty, Hok. by destruct r as [[]| |].
  - intros Hf Hw. by rewrite (Hs Hf Hw).
Qed.

(** One gauge that is NaN or infinite disables synchronous saving for good: while
    it is in the storage, every batch update that does not overwrite it is applied
    in memory, reported as an error, and never reaches the file. *)
Lemma nonfinite_gauge_blocks_saving f ctx l name v (m : MemStorage.t) fs :
  Forall dereferenceable l -> values_of name l = [] ->
  MemStorage.gauges m !! name = Some v -> is_finite v = false ->
  UpdateMetrics (sync_service f) ctx l (m, fs)
  = (Fail (ErrWrap "sync save failed" unsupported_value), (foldl MemStorage.put_metric m l, fs))
  /\ MemStorage.gauges (foldl MemStorage.put_metric m l) !! name = Some v.
Proof.
  intros Hd Hn Hg Hv.
  assert (Hg' : MemStorage.gauges (foldl MemStorage.put_metric m l) !! name = Some v).
  { pose proof (gauge_apply_batch name l (MemStorage.view m)) as E.
    rewrite <-MemStorage.view_foldl_put_metric, Hn in E. by rewrite <-Hg. }
  split; [|done]. rewrite sync_update_run by done. apply map_err_Fail.
  by eapply FileStore.Save_unsupported.
Qed.

(** The update that stores it is already reported as a failure. *)
Lemma nonfinite_gauge_update f ctx name v (m : MemStorage.t) fs :
  is_finite v = false ->
  UpdateGauge (sync_service f) ctx name v (m, fs)
  = (Fail (ErrWrap "sync save failed" unsupported_value), (MemStorage.put_gauge name v m, fs)).
Proof.
  intros Hv. unfold UpdateGauge.
  erewrite (bind_Ret _ _ _ tt (MemStorage.put_gauge name v m, fs)) by done.
  apply map_err_Fail. eapply FileStore.Save_unsupported; [|exact Hv]. cbn. apply lookup_insert_eq.
Qed.
End FileBacked.

(** ** A service that keeps the metrics in memory only *)

Definition memory_service : Service (MemStorage.t * FS) :=
  service_of NewMetricsService.

Lemma memory_save_ok : save_ok (T := MemStorage.t) (X := FS) NewMetricsService.
Proof. by intros s ctx w r w' [=]. Qed.

Definition memory_laws : ServiceLaws (MemStorage.t * FS) :=
  service_laws NewMetricsService memory_save_ok.

(** It refuses no batch. *)
Lemma memory_infallible : @svc_infallible (MemStorage.t * FS) memory_service.
Proof.
  intros l [m fs] Hl (ctx & e & w' & E). revert E. cbn. unfold UpdateMetrics.
  assert (Hd : Forall dereferenceable l) by (eapply Forall_impl; [exact Hl|by intros ? [? _]]).
  erewrite (bind_Ret _ _ _ tt (foldl MemStorage.put_metric m l, fs)); [done|].
  apply map_err_Ret. unfold on_fst. cbn [fst snd].
  change (Storage.UpdateMetrics ctx l m) with (MemStorage.UpdateMetrics ctx l m).
  by rewrite MemStorage.UpdateMetrics_run.
Qed.

(** ** Witnesses *)

Definition sample_file : FileStore.t := FileStore.NewFileStore "metrics-db.json".

Lemma sample_batch_dereferenceable :
  Forall dereferenceable [counter_metric "PollCount" 5; gauge_metric "Alloc" float_1_5].
Proof. repeat constructor; cbn; eauto; discriminate. Qed.

Lemma sample_batch_names :
  Forall (fun x => utf8_valid (ID x) = true) [counter_metric "PollCount" 5; gauge_metric "Alloc" float_1_5].
Proof. repeat constructor. Qed.

Lemma sample_reliable : reliable (FileStore.sample_store, FileStore.empty_fs).
Proof. exact I. Qed.

(** The disk is full: the batch is in memory, the save is what fails. *)
Definition full_disk : FS := MkFS ∅ (fun _ => None) (fun _ => Some (WriteStops 0 (ErrNew "no space left on device"))).

Lemma update_metrics_outcome_witness :
  exists e w', UpdateMetrics (sync_service sample_file) Background
      [counter_metric "PollCount" 5] (FileStore.sample_store, full_disk)
      = (Fail (ErrWrap "sync save failed" e), w') /\
    view w' = apply_batch [counter_metric "PollCount" 5] (view (FileStore.sample_store, full_disk)).
Proof.
  destruct (UpdateMetrics (sync_service sample_file) Background
    [counter_metric "PollCount" 5] (FileStore.sample_store, full_disk)) as [r w'] eqn:E.
  destruct (update_metrics_outcome (sync_service sample_file) Background [counter_metric "PollCount" 5]
    (FileStore.sample_store, full_disk) r w') as (_ & [[H _]|[(e & H & _)|(e & H & Hv)]]).
  - apply file_saver_ok.
  - exact I.
  - apply Forall_singleton, counter_metric_storable. unfold in_int64, two63. lia.
  - exact E.
  - subst r. vm_compute in E. discriminate E.
  - subst r. vm_compute in E. discriminate E.
  - exists e, w'. split; [by rewrite H|exact Hv].
Defined.

Lemma get_counter_outcome_witness :
  exists e, GetCounter (sync_service sample_file) Background "absent"
      (FileStore.sample_store, FileStore.empty_fs)
      = (Fail e, (FileStore.sample_store, FileStore.empty_fs)) /\
    Is e ErrMetricNotFound = true.
Proof.
  destruct (get_counter_outcome (sync_service sample_file) Background "absent"
    (FileStore.sample_store, FileStore.empty_fs) (Fail ErrMetricNotFound)
    (FileStore.sample_store, FileStore.empty_fs) sample_reliable eq_refl) as (_ & _ & H).
  destruct (H FileStore.sample_store eq_refl) as (e & He & Hi).
  exists e. split; [|exact Hi]. injection He as <-. reflexivity.
Defined.

Lemma sync_update_durable_witness :
  exists m' fs', UpdateMetrics (sync_service sample_file) Background
      [counter_metric "PollCount" 5; gauge_metric "Alloc" float_1_5]
      (FileStore.sample_store, FileStore.empty_fs) = (Ret tt, (m', fs')) /\
    FileStore.Load sample_file (MemStorage.NewMemStorage, fs') = (Ret tt, (m', fs')).
Proof.
  destruct (sync_update_durable sample_file Background
    [counter_metric "PollCount" 5; gauge_metric "Alloc" float_1_5]
    FileStore.sample_store FileStore.empty_fs) as (r & m' & fs' & H1 & H2 & H3 & H4).
  - exact sample_batch_dereferenceable.
  - exact sample_batch_names.
  - exact FileStore.sample_store_names.
  - reflexivity.
  - assert (r = Ret tt) as Hr.
    { apply H4; [|reflexivity]. injection H2 as <-. apply (bool_decide_unpack _). vm_compute. exact I. }
    exists m', fs'. split; [by rewrite <-Hr|by apply H3].
Defined.

End MetricsService.
