(* ===== verification/Sha256.v ===== *)
(** * SHA-256 and the signature of bodies: [internal/hash/hash.go]

    [crypto/sha256] and [encoding/hex] as executable functions, and [CalcHash],
    the signature every HTTP body carries. *)

From S2P Require Import Prelude GoString.
Local Open Scope Z_scope.

(** ** SHA-256 (FIPS 180-4) on lists of bytes *)

Definition mask32 : Z := 4294967295.
Definition add32 (a b : Z) : Z := Z.land (a + b) mask32.
Definition rotr (x n : Z) : Z :=
  Z.land (Z.lor (Z.shiftr x n) (Z.shiftl x (32 - n))) mask32.
Definition not32 (x : Z) : Z := Z.lxor x mask32.

Definition Ch (x y z : Z) : Z := Z.lxor (Z.land x y) (Z.land (not32 x) z).
Definition Maj (x y z : Z) : Z := Z.lxor (Z.lxor (Z.land x y) (Z.land x z)) (Z.land y z).
Definition Sigma0 (x : Z) : Z := Z.lxor (Z.lxor (rotr x 2) (rotr x 13)) (rotr x 22).
Definition Sigma1 (x : Z) : Z := Z.lxor (Z.lxor (rotr x 6) (rotr x 11)) (rotr x 25).
Definition sigma0 (x : Z) : Z := Z.lxor (Z.lxor (rotr x 7) (rotr x 18)) (Z.shiftr x 3).
Definition sigma1 (x : Z) : Z := Z.lxor (Z.lxor (rotr x 17) (rotr x 19)) (Z.shiftr x 10).

(** The constants are the first 32 bits of the fractional parts of the cube and
    square roots of the first primes (FIPS 180-4, 4.2.2 and 5.3.3), so they are
    computed rather than listed. *)
Definition is_prime (n : Z) : bool :=
  forallb (fun d => negb (n mod Z.of_nat d =? 0)) (seq 2 (Z.to_nat n - 2)).
Definition primes : list Z :=
  Eval vm_compute in filter (fun n => is_prime n) (map Z.of_nat (seq 2 310)).

(** The integer [k]-th root of [n], bit by bit from [2^bits]. *)
Fixpoint root (k n : Z) (bits : nat) (r : Z) : Z :=
  match bits with
  | O => r
  | S bits' =>
      let r' := r + 2 ^ Z.of_nat bits' in
      root k n bits' (if r' ^ k <=? n then r' else r)
  end.
Definition root_fraction (k p : Z) : Z := Z.land (root k (p * 2 ^ (32 * k)) 37 0) mask32.

Definition round_constants : list Z := Eval vm_compute in map (root_fraction 3) (take 64 primes).
Definition initial_hash : list Z := Eval vm_compute in map (root_fraction 2) (take 8 primes).

Example round_constants_ends :
  length primes = 64%nat /\ head round_constants = Some 0x428a2f98 /\
  last round_constants = Some 0xc67178f2 /\ last initial_hash = Some 0x5be0cd19.
Proof. done. Qed.

Definition be_bytes (n : nat) (z : Z) : list Z :=
  map (fun i => Z.land (Z.shiftr z (8 * Z.of_nat i)) 255) (rev (seq 0 n)).

Definition pad (msg : list Z) : list Z :=
  let len := Z.of_nat (length msg) in
  msg ++ [128] ++ replicate (Z.to_nat ((55 - len) mod 64)) 0 ++ be_bytes 8 (8 * len).

(** Big-endian 32-bit words. *)
Fixpoint words (l : list Z) : list Z :=
  match l with
  | a :: b :: c :: d :: l' =>
      Z.lor (Z.shiftl a 24) (Z.lor (Z.shiftl b 16) (Z.lor (Z.shiftl c 8) d)) :: words l'
  | _ => []
  end.

(** The message schedule, most recent word first. *)
Fixpoint extend (n : nat) (w : list Z) : list Z :=
  match n with
  | O => w
  | S n' =>
      let nth i := nth i w 0 in
      extend n' (add32 (add32 (sigma1 (nth 1%nat)) (nth 6%nat))
                       (add32 (sigma0 (nth 14%nat)) (nth 15%nat)) :: w)
  end.
Definition schedule (block : list Z) : list Z := rev (extend 48 (rev block)).

Definition round (h : list Z) (kw : Z * Z) : list Z :=
  match h with
  | [a; b; c; d; e; f; g; hh] =>
      let t1 := add32 (add32 hh (Sigma1 e)) (add32 (Ch e f g) (add32 kw.1 kw.2)) in
      let t2 := add32 (Sigma0 a) (Maj a b c) in
      [add32 t1 t2; a; b; c; add32 d t1; e; f; g]
  | _ => h
  end.

Definition compress (h block : list Z) : list Z :=
  zip_with add32 h (foldl round h (zip round_constants (schedule block))).

(** Split into blocks of 16 words; the fuel is the number of words. *)
Fixpoint blocks (fuel : nat) (l : list Z) : list (list Z) :=
  match fuel, l with
  | S fuel', _ :: _ => take 16 l :: blocks fuel' (drop 16 l)
  | _, _ => []
  end.

(** That is enough: a step takes at least one word. *)
Lemma blocks_fuel n m l : (length l <= n)%nat -> (length l <= m)%nat -> blocks n l = blocks m l.
Proof.
  revert m l. induction n as [|n IH]; intros m l Hn Hm; (destruct l; [by destruct m|cbn in Hn, Hm; try lia]).
  destruct m as [|m]; [lia|]. cbn [blocks]. f_equal. apply IH; rewrite length_drop; cbn; lia.
Qed.

Definition sha256 (msg : list Z) : list Z :=
  let w := words (pad msg) in
  foldl compress initial_hash (blocks (length w) w) ≫= be_bytes 4.

(** ** Strings and bytes *)

Fixpoint bytes_of (s : string) : list Z :=
  match s with
  | EmptyString => []
  | String c s' => Z.of_nat (nat_of_ascii c) :: bytes_of s'
  end.

Definition hex_digit (n : Z) : ascii :=
  if decide (n < 10) then ascii_of_nat (48 + Z.to_nat n) else ascii_of_nat (87 + Z.to_nat n).

(** [hex.EncodeToString] *)
Fixpoint hex_encode (l : list Z) : string :=
  match l with
  | [] => EmptyString
  | b :: l' => String (hex_digit (Z.shiftr b 4)) (String (hex_digit (Z.land b 15)) (hex_encode l'))
  end.

Definition Sum256 (data : string) : list Z := sha256 (bytes_of data).

(** ** [hash.CalcHash] *)

Definition CalcHash (body key : string) : string :=
  if decide (key = "") then ""
  else hex_encode (Sum256 (body +:+ key)).

(** The test vectors of FIPS 180-4. *)
Example sha256_abc :
  hex_encode (Sum256 "abc") = "ba7816bf8f01cfea414140de5dae2223b00361a396177a9cb410ff61f20015ad".
Proof. vm_compute. reflexivity. Qed.
Example sha256_two_blocks :
  hex_encode (Sum256 "abcdbcdecdefdefgefghfghighijhijkijkljklmklmnlmnomnopnopq")
  = "248d6a61d20638b8e5c026930c3e6039a33ce45964ff2167f6ecedd419db06c1".
Proof. vm_compute. reflexivity. Qed.

(** ** Shape of the signature *)

Lemma length_compress h block : length h = 8%nat -> length (compress h block) = 8%nat.
Proof.
  intros Hh. unfold compress. rewrite length_zip_with, Hh.
  enough (length (foldl round h (zip round_constants (schedule block))) = 8%nat) as -> by done.
  apply foldl_invariant; [done|]. intros l kw _ Hl. unfold round.
  by do 8 (destruct l as [|? l]; [done|]); destruct l.
Qed.

Lemma length_be_bytes n z : length (be_bytes n z) = n.
Proof. unfold be_bytes. by rewrite length_map, length_rev, length_seq. Qed.

Lemma length_sha256 msg : length (sha256 msg) = 32%nat.
Proof.
  unfold sha256. set (bs := blocks _ _).
  assert (Hlen : length (foldl compress initial_hash bs) = 8%nat).
  { apply foldl_invariant; [done|]. intros h b _. apply length_compress. }
  revert Hlen. generalize (foldl compress initial_hash bs). intros l Hl.
  do 8 (destruct l as [|? l]; [done|]). destruct l; [|done].
  by rewrite !bind_cons, !length_app, !length_be_bytes.
Qed.

Lemma be_bytes_range n z : Forall (fun b => 0 <= b < 256) (be_bytes n z).
Proof.
  unfold be_bytes. apply Forall_forall. intros b Hb.
  apply list_elem_of_fmap in Hb as (i & -> & _).
  change 255 with (Z.ones 8). rewrite Z.land_ones by lia. by apply Z.mod_pos_bound.
Qed.

Lemma sha256_range msg : Forall (fun b => 0 <= b < 256) (sha256 msg).
Proof.
  unfold sha256. induction (foldl _ _ _) as [|x l IH]; [done|].
  rewrite bind_cons. apply Forall_app_2; [apply be_bytes_range|exact IH].
Qed.

(** Lower-case hexadecimal digits. *)
Definition is_hex (c : ascii) : bool := is_digit c || byte_between 97 102 c.

Lemma hex_digit_is_hex n : 0 <= n < 16 -> is_hex (hex_digit n) = true.
Proof.
  intros Hn.
  assert (n ∈ [0; 1; 2; 3; 4; 5; 6; 7; 8; 9; 10; 11; 12; 13; 14; 15]) as Hin
    by (rewrite !elem_of_cons; lia).
  rewrite !elem_of_cons, elem_of_nil in Hin.
  repeat (destruct Hin as [->|Hin]; [done|]); done.
Qed.

Lemma hex_digit_inj n m : 0 <= n < 16 -> 0 <= m < 16 -> hex_digit n = hex_digit m -> n = m.
Proof.
  intros Hn Hm H. apply (f_equal nat_of_ascii) in H. unfold hex_digit in H.
  repeat case_decide; rewrite !nat_ascii_embedding in H by lia; lia.
Qed.

Lemma nibbles b : 0 <= b < 256 -> 0 <= Z.shiftr b 4 < 16 /\ 0 <= Z.land b 15 < 16.
Proof.
  intros Hb. change 15 with (Z.ones 4). rewrite Z.land_ones, Z.shiftr_div_pow2 by lia.
  split; [|by apply Z.mod_pos_bound].
  split; [apply Z.div_pos; lia|apply Z.div_lt_upper_bound; lia].
Qed.

Lemma nibbles_inj a b :
  Z.shiftr a 4 = Z.shiftr b 4 -> Z.land a 15 = Z.land b 15 -> a = b.
Proof.
  change 15 with (Z.ones 4). rewrite !Z.land_ones, !Z.shiftr_div_pow2 by lia. intros H1 H2.
  rewrite (Z.div_mod a (2 ^ 4)), (Z.div_mod b (2 ^ 4)) by lia. congruence.
Qed.

Lemma hex_encode_shape l :
  Forall (fun b => 0 <= b < 256) l ->
  String.length (hex_encode l) = (2 * length l)%nat /\
  string_forallb is_hex (hex_encode l) = true.
Proof.
  induction 1 as [|b l Hb _ [IHl IHh]]; [done|]. destruct (nibbles b Hb).
  cbn [hex_encode String.length length string_forallb]. rewrite IHl, IHh.
  rewrite !hex_digit_is_hex by done. split; [lia|done].
Qed.

Lemma hex_encode_inj l1 l2 :
  Forall (fun b => 0 <= b < 256) l1 -> Forall (fun b => 0 <= b < 256) l2 ->
  hex_encode l1 = hex_encode l2 -> l1 = l2.
Proof.
  intros H1. revert l2. induction H1 as [|a l1 Ha _ IH]; intros l2 H2.
  - by destruct H2.
  - destruct H2 as [|b l2 Hb H2]; [done|]. cbn [hex_encode]. intros [= Hx Hy Hl].
    destruct (nibbles a Ha), (nibbles b Hb).
    f_equal; [|by apply IH]. apply nibbles_inj; by apply hex_digit_inj.
Qed.

Lemma CalcHash_nonempty body key : key <> "" -> CalcHash body key <> "".
Proof.
  intros Hk Heq. unfold CalcHash in Heq. rewrite decide_False in Heq by done.
  destruct (hex_encode_shape _ (sha256_range (bytes_of (body +:+ key)))) as [Hlen _].
  unfold Sum256 in Heq. rewrite Heq, length_sha256 in Hlen. done.
Qed.

(** A signature is absent exactly when the key is empty; otherwise it is 64
    lower-case hexadecimal digits, and two bodies signed with the same key get the
    same signature only if their keyed messages collide under SHA-256. *)
Theorem CalcHash_shape body key :
  (CalcHash body key = "" <-> key = "") /\
  (key <> "" ->
   String.length (CalcHash body key) = 64%nat /\
   string_forallb is_hex (CalcHash body key) = true /\
   forall body', CalcHash body' key = CalcHash body key ->
     Sum256 (body' +:+ key) = Sum256 (body +:+ key)).
Proof.
  split.
  - split; [|by intros ->]. intros H. destruct (decide (key = "")) as [|Hk]; [done|].
    by destruct (CalcHash_nonempty body key Hk).
  - intros Hk. unfold CalcHash. rewrite !decide_False by done.
    destruct (hex_encode_shape _ (sha256_range (bytes_of (body +:+ key)))) as [Hlen Hhex].
    unfold Sum256. rewrite Hlen, length_sha256. split_and!; [done|done|].
    intros body'. rewrite decide_False by done. intros H.
    by apply hex_encode_inj in H; [|apply sha256_range|apply sha256_range].
Qed.

(** The key is appended without a separator, so a signature does not say
    where the body ends: moving the key's first part into the body gives the same
    signature under the rest of the key. *)
Lemma CalcHash_no_separator body k1 k2 :
  k2 <> "" -> CalcHash (body +:+ k1) k2 = CalcHash body (k1 +:+ k2).
Proof.
  intros Hk. unfold CalcHash. rewrite !decide_False; [|by destruct k1|done].
  by rewrite string_app_assoc.
Qed.

Lemma CalcHash_shape_witness :
  String.length (CalcHash "body" "key") = 64%nat /\
  string_forallb is_hex (CalcHash "body" "key") = true.
Proof.
  destruct (proj2 (CalcHash_shape "body" "key")) as (H1 & H2 & _); [discriminate|].
  split; [exact H1|exact H2].
Defined.
