(* ===== verification/Retry.v ===== *)
(** * Retrying an operation

    The loop [postgresstorage.go], [http_sender.go] and [sender.go] share: run
    the operation, give up on success, on an error that is not worth retrying, or
    when the delays are used up, and otherwise wait for the next delay and start
    again.  The recursion is on the delays left, so the loop always ends. *)

From S2P Require Import Prelude GoError GoContext.
Local Open Scope Z_scope.

(** [time.Second * 1, time.Second * 3, time.Second * 5] *)
Definition retryDelays : list Z := [Second * 1; Second * 3; Second * 5].

Section Retry.
Context {S A : Type} (before : M S unit) (retriable : error -> bool) (wait : Z -> M S unit).

Fixpoint retry (delays : list Z) (op : M S A) : M S A :=
  _ ← before;
  r ← attempt op;
  match r with
  | inl a => mret a
  | inr err =>
      match delays with
      | [] => throw err
      | d :: delays =>
          if retriable err then _ ← wait d; retry delays op else throw err
      end
  end.

(** The operation succeeded at once. *)
Lemma retry_Ret delays (op : M S A) s s1 a s2 :
  before s = (Ret tt, s1) -> op s1 = (Ret a, s2) -> retry delays op s = (Ret a, s2).
Proof.
  intros E1 E2. destruct delays; cbn [retry]; unfold mbind, St_bind, attempt, mret, St_ret;
    by rewrite E1, E2.
Qed.

(** An error that is not retried ends the loop. *)
Lemma retry_Fail delays (op : M S A) s s1 e s2 :
  before s = (Ret tt, s1) -> op s1 = (Fail e, s2) -> retriable e = false ->
  retry delays op s = (Fail e, s2).
Proof.
  intros E1 E2 E3. destruct delays; cbn [retry]; unfold mbind, St_bind, attempt, mret, St_ret, throw;
    rewrite E1, E2; by rewrite ?E3.
Qed.

(** A success is the success of some attempt, the last thing the loop does. *)
Lemma retry_Ret_inv delays (op : M S A) s a s' :
  retry delays op s = (Ret a, s') -> exists s1, op s1 = (Ret a, s').
Proof.
  revert s. induction delays as [|d delays IH]; intros s; cbn [retry];
    unfold mbind, St_bind, attempt, mret, St_ret, throw;
    (destruct (before s) as [[[]|e|p] s1]; [|done..]);
    destruct (op s1) as [[a1|e|p] s2] eqn:E; try done; try (intros [= <- <-]; by exists s1).
  destruct (retriable e); [|done].
  destruct (wait d s2) as [[[]|e'|p] s3]; [apply IH|done..].
Qed.

(** What a failed attempt keeps and a successful one establishes, the loop does:
    [P] is kept by everything but a success, which leads to [Q]; [F] holds of every
    error. *)
Lemma retry_spec (P : S -> Prop) (Q : A -> S -> Prop) (F : error -> Prop) delays (op : M S A) s r s' :
  (forall s o s', P s -> before s = (o, s') ->
     P s' /\ match o with Ret _ => True | Fail e => F e | Panic _ => False end) ->
  (forall d s o s', P s -> wait d s = (o, s') ->
     P s' /\ match o with Ret _ => True | Fail e => F e | Panic _ => False end) ->
  (forall s o s', P s -> op s = (o, s') ->
     match o with Ret a => Q a s' | Fail e => P s' /\ F e | Panic _ => False end) ->
  P s -> retry delays op s = (r, s') ->
  match r with Ret a => Q a s' | Fail e => P s' /\ F e | Panic _ => False end.
Proof.
  intros Hb Hw Ho. revert s. induction delays as [|d delays IH]; intros s Hs; cbn [retry];
    unfold mbind, St_bind, attempt, mret, St_ret, throw;
    destruct (before s) as [o1 s1] eqn:E1; destruct (Hb _ _ _ Hs E1) as [H1 F1];
    (destruct o1 as [[]|e|p]; [|by intros [= <- <-]|done]);
    destruct (op s1) as [o2 s2] eqn:E2; specialize (Ho _ _ _ H1 E2) as H2;
    (destruct o2 as [a|e|p]; [by intros [= <- <-]| |done]).
  - by intros [= <- <-].
  - destruct (retriable e); [|by intros [= <- <-]]. destruct H2 as [H2 _].
    destruct (wait d s2) as [o3 s3] eqn:E3. destruct (Hw _ _ _ _ H2 E3) as [H3 F3].
    destruct o3 as [[]|e'|p]; [by apply IH|by intros [= <- <-]|done].
Qed.

(** An attempt applies [g] to the view once or not at all, and does apply it when
    it succeeds: then the loop applies it at most once per attempt, and at least
    once when it succeeds. *)
Lemma retry_applies {B : Type} (f : S -> B) (g : B -> B) (P : S -> Prop) delays (op : M S A) s r s' :
  (forall s o s', P s -> before s = (o, s') -> P s' /\ f s' = f s) ->
  (forall d s o s', P s -> wait d s = (o, s') -> P s' /\ f s' = f s) ->
  (forall s o s', P s -> op s = (o, s') -> P s' /\
     match o with Ret _ => f s' = g (f s) | _ => f s' = f s \/ f s' = g (f s) end) ->
  P s -> retry delays op s = (r, s') ->
  P s' /\ exists k, (k <= length delays + 1)%nat /\ f s' = Nat.iter k g (f s) /\
    (forall a, r = Ret a -> (1 <= k)%nat).
Proof.
  intros Hb Hw Ho. revert s. induction delays as [|d delays IH]; intros s Hs; cbn [retry];
    unfold mbind, St_bind, attempt, mret, St_ret, throw;
    destruct (before s) as [o1 s1] eqn:E1; destruct (Hb _ _ _ Hs E1) as [H1 F1];
    (destruct o1 as [[]|e|p]; [|intros [= <- <-]; split; [done|]; exists 0%nat; by split_and!; [lia|..]..]);
    destruct (op s1) as [o2 s2] eqn:E2; destruct (Ho _ _ _ H1 E2) as [H2 F2]; rewrite F1 in F2;
    (destruct o2 as [a|e|p];
      [intros [= <- <-]; split; [done|]; exists 1%nat; split_and!; [cbn; lia|done|lia]| |
       intros [= <- <-]; split; [done|];
       destruct F2 as [F2|F2]; [exists 0%nat|exists 1%nat]; by split_and!; [cbn; lia|..]]).
  - intros [= <- <-]. split; [done|].
    destruct F2 as [F2|F2]; [exists 0%nat|exists 1%nat]; by split_and!; [cbn; lia|..].
  - destruct (retriable e).
    2: { intros [= <- <-]. split; [done|].
         destruct F2 as [F2|F2]; [exists 0%nat|exists 1%nat]; by split_and!; [cbn; lia|..]. }
    destruct (wait d s2) as [o3 s3] eqn:E3. destruct (Hw _ _ _ _ H2 E3) as [H3 F3]. rewrite <-F3 in F2.
    destruct o3 as [[]|e'|p].
    2,3: intros [= <- <-]; split; [done|];
         destruct F2 as [F2|F2]; [exists 0%nat|exists 1%nat]; by split_and!; [cbn; lia|..].
    intros Hr. destruct (IH _ H3 Hr) as (H' & k & Hk & Fk & Hk1). split; [done|].
    destruct F2 as [F2|F2]; rewrite F2 in Fk.
    + exists k. split_and!; [cbn; lia|done|done].
    + exists (1 + k)%nat. split_and!; [cbn; lia| |lia]. rewrite Fk. by rewrite Nat.iter_succ_r.
Qed.
End Retry.

(** ** Counting attempts *)

(** The operation with a counter of its runs. *)
Definition counted {T A : Type} (op : M T A) : M (T * nat) A := fun st =>
  let '(r, s') := op st.1 in (r, (s', S st.2)).

Section Count.
Context {T A : Type} (before : M T unit) (retriable : error -> bool) (wait : Z -> M T unit).

Lemma retry_counted delays (op : M T A) s n :
  let '(r, s') := retry before retriable wait delays op s in
  exists k, retry (on_fst before) retriable (fun d => on_fst (wait d)) delays (counted op) (s, n)
      = (r, (s', (n + k)%nat)) /\ (k <= length delays + 1)%nat.
Proof.
  revert s n. induction delays as [|d delays IH]; intros s n; cbn [retry];
    unfold mbind, St_bind, attempt, on_fst, counted, mret, St_ret, throw in *; cbn [fst snd];
    (destruct (before s) as [[[]|e|p] s1];
      [|exists 0%nat; rewrite Nat.add_0_r; split; [done|cbn; lia]..]); cbn [fst snd];
    (destruct (op s1) as [[a|e|p] s2];
      [exists 1%nat; rewrite Nat.add_1_r; split; [done|cbn; lia]| |
       exists 1%nat; rewrite Nat.add_1_r; split; [done|cbn; lia]]).
  - exists 1%nat. rewrite Nat.add_1_r. split; [done|cbn; lia].
  - destruct (retriable e); [|exists 1%nat; rewrite Nat.add_1_r; split; [done|cbn; lia]].
    cbn [fst snd].
    destruct (wait d s2) as [[[]|e'|p] s3];
      [|exists 1%nat; rewrite Nat.add_1_r; split; [done|cbn; lia]..].
    specialize (IH s3 (n + 1)%nat). rewrite Nat.add_1_r in IH.
    destruct (retry _ _ _ delays op s3) as [r s'].
    destruct IH as (k & E & Hk). exists (1 + k)%nat. rewrite E.
    split; [by replace (n + (1 + k))%nat with (S n + k)%nat by lia|cbn; lia].
Qed.
End Count.

(** ** Recording attempts *)

(** The operation with the list of its results. *)
Definition traced {T A : Type} (op : M T A) : M (T * list (outcome error A)) A := fun st =>
  let '(r, s') := op st.1 in (r, (s', st.2 ++ [r])).

(** The results of the attempts of a loop that ended with [r]: each but the last is a
    failure worth retrying, and the loop reports a last one that is not. *)
Record retry_trace {A : Type} (retriable : error -> bool) (n : nat) (r : outcome error A)
    (tr : list (outcome error A)) : Prop := {
  rt_length : (length tr <= n + 1)%nat;
  rt_retried i o : tr !! i = Some o -> (S i < length tr)%nat -> exists e, o = Fail e /\ retriable e = true;
  rt_last o : last tr = Some o -> (forall e, o = Fail e -> retriable e = false) -> r = o;
  rt_success a : r = Ret a -> last tr = Some (Ret a);
}.

(** Nothing but the operation ended the loop: its result is that of the last attempt,
    and a failure worth retrying is the last only when the delays are used up. *)
Definition runs_out {A : Type} (retriable : error -> bool) (n : nat) (r : outcome error A)
    (tr : list (outcome error A)) : Prop :=
  last tr = Some r /\ forall e, r = Fail e -> retriable e = true -> length tr = (n + 1)%nat.

Lemma retry_trace_none {A} retriable n (r : outcome error A) :
  is_ret r = false -> retry_trace retriable n r [].
Proof. intros Hr. split; cbn; [lia|done|done|]. by intros a ->. Qed.

Lemma retry_trace_one {A} retriable n (r o : outcome error A) :
  ((forall e, o = Fail e -> retriable e = false) -> r = o) -> (forall a, r = Ret a -> o = Ret a) ->
  retry_trace retriable n r [o].
Proof.
  intros Ho Hr. split; cbn; [lia|intros i o' _; lia| |].
  - intros o' [= <-] Hn. auto.
  - intros a E. f_equal. auto.
Qed.

Lemma retry_trace_cons {A} retriable n (r : outcome error A) e tr :
  retriable e = true -> retry_trace retriable n r tr -> retry_trace retriable (S n) r (Fail e :: tr).
Proof.
  intros He [Hl Ht Hla Hs]. split.
  - cbn. lia.
  - intros [|i] o; cbn; [intros [= <-] _; eauto|]. intros Hi Hlt. apply (Ht i); [done|lia].
  - intros o Hlast Ho. destruct tr; [|by apply Hla]. injection Hlast as <-. specialize (Ho e eq_refl). congruence.
  - intros a E. specialize (Hs a E). by destruct tr.
Qed.

Lemma runs_out_cons {A} retriable n (r : outcome error A) o tr :
  runs_out retriable n r tr -> runs_out retriable (S n) r (o :: tr).
Proof. intros [Hl Hn]. split; [by destruct tr|]. intros e Hr He. cbn. by rewrite (Hn e Hr He). Qed.

Section Trace.
Context {T A : Type} (before : M T unit) (retriable : error -> bool) (wait : Z -> M T unit).

Abbreviation retry_traced delays op :=
  (retry (on_fst before) retriable (fun d => on_fst (wait d)) delays (traced op)).

Lemma retry_trace_spec delays (op : M T A) s tr0 :
  let '(r, s') := retry before retriable wait delays op s in
  exists tr, retry_traced delays op (s, tr0) = (r, (s', tr0 ++ tr)) /\
    retry_trace retriable (length delays) r tr /\
    ((forall s, exists s1, before s = (Ret tt, s1)) -> (forall d s, exists s1, wait d s = (Ret tt, s1)) ->
     runs_out retriable (length delays) r tr).
Proof.
  revert s tr0. induction delays as [|d delays IH]; intros s tr0; cbn [retry];
    unfold mbind, St_bind, attempt, on_fst, traced, mret, St_ret, throw in *; cbn [fst snd];
    (destruct (before s) as [[[]|e|p] s1] eqn:E1;
      [|by exists []; rewrite app_nil_r; split_and!;
        [done|apply retry_trace_none|intros Hb; destruct (Hb s) as [? Hb']; congruence]..]); cbn [fst snd];
    (destruct (op s1) as [[a|e|p] s2];
      [exists [Ret a]; split_and!; [done|by apply retry_trace_one|by split]| |
       exists [Panic p]; split_and!; [done|by apply retry_trace_one|by split]]).
  - exists [Fail e]. split_and!; [done|by apply retry_trace_one|by split].
  - destruct (retriable e) eqn:He.
    2: { exists [Fail e]. split_and!; [done|by apply retry_trace_one|]. split; [done|]. intros e' [= <-]. congruence. }
    cbn [fst snd]. destruct (wait d s2) as [[[]|e'|p] s3] eqn:E3;
      [|exists [Fail e]; split_and!; [done| |intros _ Hw; destruct (Hw d s2) as [? Hw']; congruence];
        apply retry_trace_one; [intros Ho; specialize (Ho e eq_refl); congruence|done]..].
    specialize (IH s3 (tr0 ++ [Fail e])). destruct (retry before _ _ delays op s3) as [r s'].
    destruct IH as (tr & E & Ht & Hr). exists (Fail e :: tr). rewrite E, <-app_assoc. split_and!; [done| |].
    + by apply retry_trace_cons.
    + intros Hb Hw. apply runs_out_cons. auto.
Qed.
End Trace.

(** ** The clock *)

Section Clock.
Context `{SelectOrder} {X A : Type} (ctx : Context) (before : M (X * Z) unit)
  (retriable : error -> bool) (op : M (X * Z) A).

Definition wait_clock (d : Z) : M (X * Z) unit := on_snd (waitRetry ctx d).

Definition total (delays : list Z) : Z := foldr Z.add 0 delays.

Lemma total_nonneg delays : Forall (fun d => 0 <= d) delays -> 0 <= total delays.
Proof. unfold total. induction 1; cbn [foldr]; lia. Qed.

(** If neither the check nor the operation turn the clock back, or forward by
    more than [b], the whole loop takes at most its delays and [b] per attempt. *)
Lemma retry_clock delays b st :
  Forall (fun d => 0 <= d) delays -> 0 <= b ->
  (forall st, (before st).2.2 = st.2) ->
  (forall st, st.2 <= (op st).2.2 <= st.2 + b) ->
  st.2 <= (retry before retriable wait_clock delays op st).2.2
  <= st.2 + total delays + b * (Z.of_nat (length delays) + 1).
Proof.
  intros Hd Hb Hbefore Hop. revert st. induction Hd as [|d delays Hd Hds IH]; intros st; cbn [retry];
    unfold mbind, St_bind, attempt, mret, St_ret, throw in *;
    pose proof (Hbefore st) as H1; destruct (before st) as [o1 st1]; cbn [fst snd] in *.
  - change (total (@nil Z)) with 0. change (Z.of_nat (length (@nil Z)) + 1) with 1.
    destruct o1 as [[]|e|p]; cbn [fst snd]; [|lia..].
    pose proof (Hop st1) as H2. destruct (op st1) as [[a|e|p] st2]; cbn [fst snd] in *; lia.
  - pose proof (total_nonneg _ Hds) as Ht. cbn [length]. rewrite Nat2Z.inj_succ.
    change (total (d :: delays)) with (d + total delays).
    assert (0 <= b * Z.of_nat (length delays)) as Hbk by nia.
    destruct o1 as [[]|e|p]; cbn [fst snd]; [|lia..].
    pose proof (Hop st1) as H2. destruct (op st1) as [[a|e|p] st2]; cbn [fst snd] in *; [lia| |lia].
    destruct (retriable e); [|cbn [fst snd]; lia].
    pose proof (waitRetry_bounds ctx d st2.2 Hd) as H3.
    destruct (wait_clock d st2) as [o3 st3] eqn:E3. unfold wait_clock, on_snd in E3.
    destruct (waitRetry ctx d st2.2) as [o3' t3]. injection E3 as <- <-. cbn [fst snd] in H3.
    destruct o3' as [[]|e'|p]; cbn [fst snd]; [|lia..].
    specialize (IH (st2.1, t3)). cbn [snd] in IH. lia.
Qed.
End Clock.
