(* ===== verification/Protocol.v ===== *)
(** * Protocol constants: [internal/protocol] *)

From S2P Require Import Prelude.

(** ** [content.go] *)
Definition ContentTypeJSON : string := "application/json".
Definition ContentTypeTextPlain : string := "text/plain".
Definition ContentTypeTextPlainUTF8 : string := "text/plain; charset=utf-8".
Definition ContentTypeHTML : string := "text/html".
Definition ContentTypeHTMLUTF8 : string := "text/html; charset=utf-8".
Definition EncodingGzip : string := "gzip".

(** ** [headers.go] *)
Definition HeaderHashSHA256 : string := "HashSHA256".
Definition HeaderRealIP : string := "X-Real-IP".
Definition HeaderContentType : string := "Content-Type".
Definition HeaderContentEncoding : string := "Content-Encoding".
Definition HeaderAcceptEncoding : string := "Accept-Encoding".
Definition HeaderContentEncryption : string := "Content-Encryption".

(** ** [metadata.go] *)
Definition MetadataRealIP : string := "x-real-ip".
