(* ===== verification/NetIP.v ===== *)
(** * IP addresses and networks: what the program uses of [net]

    [net.ParseIP], [net.ParseCIDR] and [IPNet.Contains], on the 16-byte
    form of addresses ([net.IP]). *)

From S2P Require Import Prelude GoString GoNum Strconv.
Local Open Scope Z_scope.

Abbreviation IP := (list Z).

(** ** Parsing *)

(** One dotted field: one to three digits, no leading zero, at most 255. *)
Fixpoint v4_field (fuel : nat) (acc : Z) (digits : nat) (s : string) : option (Z * string) :=
  match fuel, s with
  | S fuel, String c s' =>
      match digit_value c with
      | Some d =>
          if decide (digits = 1%nat /\ acc = 0) then None
          else if decide (255 < acc * 10 + d) then None
          else v4_field fuel (acc * 10 + d) (S digits) s'
      | None => if decide (digits = 0%nat) then None else Some (acc, s)
      end
  | _, EmptyString => if decide (digits = 0%nat) then None else Some (acc, s)
  | O, _ => None
  end.

Fixpoint v4_fields (n : nat) (s : string) : option (list Z) :=
  '(v, rest) ← v4_field 4 0 0 s;
  match n, rest with
  | O, EmptyString => Some [v]
  | S n, String c rest' => if decide (c = "."%char) then cons v <$> v4_fields n rest' else None
  | _, _ => None
  end.

Definition parse_v4 (s : string) : option (list Z) := v4_fields 3 s.

Definition v4_in_v6_prefix : list Z := [0; 0; 0; 0; 0; 0; 0; 0; 0; 0; 255; 255].

(** A group of one to four hexadecimal digits. *)
Fixpoint v6_group (fuel : nat) (acc : Z) (digits : nat) (s : string) : option (Z * string) :=
  match s with
  | String c s' =>
      match hex_digit_value c with
      | Some d =>
          match fuel with
          | S fuel => v6_group fuel (acc * 16 + d) (S digits) s'
          | O => None
          end
      | None => if decide (digits = 0%nat) then None else Some (acc, s)
      end
  | EmptyString => if decide (digits = 0%nat) then None else Some (acc, s)
  end.

(** The groups of an IPv6 address: the bytes read, and where the [::] stood. *)
Fixpoint v6_groups (fuel : nat) (bytes : list Z) (ell : option nat) (s : string)
    : option (list Z * option nat) :=
  match fuel with
  | O => None
  | S fuel =>
      '(v, rest) ← v6_group 4 0 0 s;
      match rest with
      | EmptyString => Some (bytes ++ [v / 256; v mod 256], ell)
      | String c rest' =>
          if decide (c = "."%char) then
            if decide ((ell = None /\ length bytes <> 12%nat) \/ (12 < length bytes)%nat) then None
            else v4 ← parse_v4 s; Some (bytes ++ v4, ell)
          else if decide (c <> ":"%char) then None
          else
            let bytes := bytes ++ [v / 256; v mod 256] in
            match rest' with
            | EmptyString => None
            | String c' rest'' =>
                if decide (c' = ":"%char) then
                  match ell, rest'' with
                  | Some _, _ => None
                  | None, EmptyString => Some (bytes, Some (length bytes))
                  | None, _ => v6_groups fuel bytes (Some (length bytes)) rest''
                  end
                else v6_groups fuel bytes ell rest'
            end
      end
  end.

Definition v6_expand (r : list Z * option nat) : option (list Z) :=
  let '(bytes, ell) := r in
  match ell with
  | None => if decide (length bytes = 16%nat) then Some bytes else None
  | Some i =>
      if decide (length bytes < 16)%nat
      then Some (take i bytes ++ replicate (16 - length bytes) 0 ++ drop i bytes)
      else None
  end.

Definition parse_v6 (s : string) : option (list Z) :=
  match s with
  | String a (String b s') =>
      if decide (a = ":"%char /\ b = ":"%char) then
        match s' with
        | EmptyString => Some (replicate 16 0)
        | _ => v6_groups 8 [] (Some 0%nat) s' ≫= v6_expand
        end
      else v6_groups 8 [] None s ≫= v6_expand
  | _ => v6_groups 8 [] None s ≫= v6_expand
  end.

(** The first of [.], [:] and [%] decides the family; zones are refused. *)
Fixpoint parse_addr (s whole : string) : option (bool * list Z) :=
  match s with
  | EmptyString => None
  | String c s' =>
      if decide (c = "."%char) then pair true <$> parse_v4 whole
      else if decide (c = ":"%char) then pair false <$> parse_v6 whole
      else if decide (c = "%"%char) then None
      else parse_addr s' whole
  end.

(** [net.ParseIP] *)
Definition ParseIP (s : string) : option IP :=
  '(is4, bytes) ← parse_addr s s; Some (if is4 : bool then v4_in_v6_prefix ++ bytes else bytes).

(** ** Networks *)

Record IPNet : Type := MkIPNet { net_IP : IP; net_Mask : list Z }.

(** [IP.To4] *)
Definition To4 (ip : IP) : option (list Z) :=
  if decide (length ip = 4%nat) then Some ip
  else if decide (length ip = 16%nat /\ take 12 ip = v4_in_v6_prefix) then Some (drop 12 ip)
  else None.

Definition and_bytes (a b : list Z) : list Z := zip_with Z.land a b.

(** [IPNet.Contains] *)
Definition IPNet_Contains (n : IPNet) (ip : IP) : bool :=
  let nn := default (net_IP n) (To4 (net_IP n)) in
  let m := if decide (length nn = 4%nat /\ length (net_Mask n) = 16%nat)
           then drop 12 (net_Mask n) else net_Mask n in
  let ip := default ip (To4 ip) in
  bool_decide (length ip = length nn) && bool_decide (length m = length nn)
  && bool_decide (and_bytes nn m = and_bytes ip m).

(** [CIDRMask(ones, 8 * n)] *)
Fixpoint CIDRMask (ones : nat) (n : nat) : list Z :=
  match n with
  | O => []
  | S n =>
      if decide (8 <= ones)%nat then 255 :: CIDRMask (ones - 8) n
      else (256 - 2 ^ (8 - Z.of_nat ones)) :: CIDRMask 0 n
  end.

(** [net.ParseCIDR], the network *)
Definition ParseCIDR (s : string) : option IPNet :=
  i ← IndexByte s "/"%char;
  '(is4, bytes) ← parse_addr (string_take i s) (string_take i s);
  n ← ParseUint10 (string_drop (S i) s);
  if decide (n <= 8 * Z.of_nat (length bytes)) then
    let m := CIDRMask (Z.to_nat n) (length bytes) in
    Some (MkIPNet (and_bytes bytes m) m)
  else None.

Example ParseIP_v4 : ParseIP "192.168.1.42" = Some (v4_in_v6_prefix ++ [192; 168; 1; 42]).
Proof. reflexivity. Qed.
Example ParseIP_leading_zero : ParseIP "192.168.01.42" = None.
Proof. reflexivity. Qed.
Example ParseIP_v6 :
  ParseIP "fe80::1:2" = Some [254; 128; 0; 0; 0; 0; 0; 0; 0; 0; 0; 0; 0; 1; 0; 2].
Proof. reflexivity. Qed.
Example ParseIP_mapped :
  ParseIP "::ffff:10.0.0.1" = Some (v4_in_v6_prefix ++ [10; 0; 0; 1]).
Proof. reflexivity. Qed.
Example ParseIP_bad : ParseIP "1::2::3" = None /\ ParseIP "1.2.3" = None /\ ParseIP "" = None.
Proof. done. Qed.
Definition subnet_has (cidr ip : string) : option bool :=
  n ← ParseCIDR cidr; a ← ParseIP ip; Some (IPNet_Contains n a).

Example Contains_in :
  subnet_has "192.168.1.0/24" "192.168.1.42" = Some true.
Proof. reflexivity. Qed.
Example Contains_out :
  subnet_has "192.168.1.0/24" "192.168.2.42" = Some false.
Proof. reflexivity. Qed.
Example Contains_mapped :
  subnet_has "10.0.0.0/9" "::ffff:10.127.0.1" = Some true.
Proof. reflexivity. Qed.

(** ** Interface addresses *)

(** [net.Addr]: an [*net.IPNet] or another kind. *)
Inductive Addr : Type :=
| AddrIPNet (n : IPNet)
| AddrOther.

(** [IP.IsLoopback] *)
Definition IsLoopback (ip : IP) : bool :=
  match To4 ip with
  | Some (b :: _) => bool_decide (b = 127)
  | _ => bool_decide (ip = replicate 15 0 ++ [1])
  end.

(** [IP.String] of a 4-byte address *)
Definition v4_String (ip : list Z) : string :=
  match ip with
  | [a; b; c; d] => pretty a +:+ "." +:+ pretty b +:+ "." +:+ pretty c +:+ "." +:+ pretty d
  | _ => "?"
  end.
