(* ===== verification/Log.v ===== *)
(** * Log entries

    What the program hands to [zap]: a level, a message and typed fields.  Where
    the entries go is not modelled, so a logger is the list of entries it was
    given, newest last. *)

From S2P Require Import Prelude GoError.
Local Open Scope Z_scope.

Inductive level : Type := DebugLevel | InfoLevel | WarnLevel | ErrorLevel.

#[export] Instance level_eq_dec : EqDecision level.
Proof. solve_decision. Defined.

Inductive log_field : Type :=
| FString (key v : string)
| FInt (key : string) (v : Z)
| FBool (key : string) (v : bool)
| FDuration (key : string) (v : Z)
| FError (e : error).

Record entry : Type := MkEntry {
  entry_level : level;
  entry_msg : string;
  entry_fields : list log_field;
}.

(** A world one can log to and read the time of ([time.Now], nanoseconds). *)
Class Logs (S : Type) := {
  log_entries : S -> list entry;
  log_append : entry -> S -> S;
  time_Now : S -> Z;
}.

Class LogsLaws (S : Type) `{!Logs S} := {
  log_entries_append e s : log_entries (log_append e s) = log_entries s ++ [e];
  time_Now_append e s : time_Now (log_append e s) = time_Now s;
}.

Definition log {S : Type} `{!Logs S} (lv : level) (msg : string) (fields : list log_field) : M S unit :=
  modify (log_append (MkEntry lv msg fields)).
