(* ===== verification/Http.v ===== *)
(** * HTTP requests, responses and handlers

    What the program uses of [net/http].  A handler runs on a world [S] and a
    response writer of any type: [http.ResponseWriter] is a class, so that the
    middlewares can pass wrappers of their own to the next handler.  A body is
    the bytes it yields and how it ends. *)

From S2P Require Import Prelude GoError GoString GoContext GoMap GoJson.
Local Open Scope Z_scope.

(** ** Headers: [http.Header] *)

Abbreviation Header := (gmap string (list string)).

Definition header_Get (h : Header) (key : string) : string :=
  match h !! CanonicalKey key with Some (v :: _) => v | _ => "" end.
Definition header_Set (key v : string) (h : Header) : Header := <[CanonicalKey key := [v]]> h.
Definition header_Add (key v : string) (h : Header) : Header :=
  <[CanonicalKey key := default [] (h !! CanonicalKey key) ++ [v]]> h.
Definition header_Del (key : string) (h : Header) : Header := delete (CanonicalKey key) h.

(** ** Bodies: [io.ReadCloser] *)

Record Body : Type := MkBody {
  body_data : string;
  body_end : option error;  (** [None] is [io.EOF] *)
}.

(** [io.NopCloser(bytes.NewReader(data))] *)
Definition bytes_body (data : string) : Body := MkBody data None.

(** [io.ReadAll] *)
Definition ReadAll (b : Body) : outcome error string :=
  match body_end b with None => Ret (body_data b) | Some e => Fail e end.

(** [json.NewDecoder(body).Decode]: the tree of the first value of the stream.  Objects
    and arrays are complete at their last byte.  Any other value ends at the next byte or
    at [io.EOF], so the error of a body that fails right after it is reported: [drop_last]
    is the text that has been followed by a byte. *)
Fixpoint drop_last (s : string) : string :=
  match s with
  | EmptyString | String _ EmptyString => EmptyString
  | String c s => String c (drop_last s)
  end.

Definition same_scalar (j j' : json) : bool :=
  match j, j' with
  | JNull, JNull => true
  | JBool b, JBool b' => Bool.eqb b b'
  | JNum l, JNum l' => bool_decide (l = l')
  | JStr s, JStr s' => bool_decide (s = s')
  | _, _ => false
  end.

Definition json_Decode `{JsonText} (b : Body) : option json :=
  match json_parse_first (body_data b) with
  | Some (JObj _ | JArr _) as j => j
  | Some j =>
      match body_end b with
      | None => Some j
      | Some _ =>
          match json_parse_first (drop_last (body_data b)) with
          | Some j' => if same_scalar j j' then Some j else None
          | None => None
          end
      end
  | None => None
  end.

Lemma json_Decode_bytes `{JsonText} data : json_Decode (bytes_body data) = json_parse_first data.
Proof. unfold json_Decode. cbn. by destruct (json_parse_first data) as [[]|]. Qed.

(** ** Requests *)

Record Request : Type := MkRequest {
  Method : string;
  RequestURI : string;
  RemoteAddr : string;
  ReqHeader : Header;
  ReqBody : option Body;
  ContentLength : Z;
  URLParam : string -> string;
  ReqContext : Context;
}.

Definition set_body (b : Body) (r : Request) : Request :=
  MkRequest (Method r) (RequestURI r) (RemoteAddr r) (ReqHeader r) (Some b) (ContentLength r)
    (URLParam r) (ReqContext r).

Definition MethodGet : string := "GET".
Definition MethodPost : string := "POST".

Definition StatusOK : Z := 200.
Definition StatusMultipleChoices : Z := 300.
Definition StatusBadRequest : Z := 400.
Definition StatusForbidden : Z := 403.
Definition StatusNotFound : Z := 404.
Definition StatusMethodNotAllowed : Z := 405.
Definition StatusTooManyRequests : Z := 429.
Definition StatusInternalServerError : Z := 500.

(** ** Response writers *)

(** [http.ResponseWriter]; [Header()] returns a map the handler updates in place,
    hence the pair [rw_Header]/[rw_SetHeaders].  [rw_Write] also returns the
    number of bytes written. *)
Class ResponseWriter (W : Type) := {
  rw_Header : W -> Header;
  rw_SetHeaders : Header -> W -> W;
  rw_WriteHeader : Z -> W -> W;
  rw_Write : string -> W -> Z * W;
}.

Class ResponseWriterLaws (W : Type) `{!ResponseWriter W} :=
  rw_Header_SetHeaders h w : rw_Header (rw_SetHeaders h w) = h.

(** The server's own writer: the first status wins, and headers are sent with it. *)
Record Response : Type := MkResponse {
  resp_header : Header;
  resp_status : option Z;
  resp_sent : Header;
  resp_body : string;
}.

Definition new_response : Response := MkResponse ∅ None ∅ "".

Definition resp_WriteHeader (c : Z) (w : Response) : Response :=
  match resp_status w with
  | Some _ => w
  | None => MkResponse (resp_header w) (Some c) (resp_header w) (resp_body w)
  end.

#[export] Instance response_writer : ResponseWriter Response := {|
  rw_Header := resp_header;
  rw_SetHeaders h w := MkResponse h (resp_status w) (resp_sent w) (resp_body w);
  rw_WriteHeader := resp_WriteHeader;
  rw_Write p w :=
    let w := resp_WriteHeader StatusOK w in
    (Z.of_nat (String.length p),
     MkResponse (resp_header w) (resp_status w) (resp_sent w) (resp_body w +:+ p));
|}.

#[export] Instance response_writer_laws : ResponseWriterLaws Response.
Proof. by intros h w. Qed.

(** What the client receives when the handler is done. *)
Definition finish (w : Response) : Response := resp_WriteHeader StatusOK w.

(** ** Handlers *)

Definition Handler (S : Type) : Type :=
  forall W : Type, ResponseWriter W -> Request -> M (S * W) unit.

Section Writing.
Context {S W : Type} `{!ResponseWriter W}.

(** [w.WriteHeader(c)], [w.Header().Set(k, v)], [_, _ = w.Write(p)] *)
Definition WriteHeader (c : Z) : M (S * W) unit := on_snd (modify (rw_WriteHeader c)).
Definition SetHeader (k v : string) : M (S * W) unit :=
  on_snd (modify (fun w => rw_SetHeaders (header_Set k v (rw_Header w)) w)).
Definition Write (p : string) : M (S * W) unit := on_snd (modify (fun w => (rw_Write p w).2)).
End Writing.

(** A reply: at most one [Content-Type], one status, at most one write.  Every
    handler of the program answers with one of these. *)
Record Reply : Type := MkReply {
  reply_type : option string;
  reply_status : Z;
  reply_body : option string;
}.

Definition status_reply (c : Z) : Reply := MkReply None c None.

Definition emit {W : Type} `{!ResponseWriter W} (rep : Reply) (w : W) : W :=
  let w := match reply_type rep with
           | Some t => rw_SetHeaders (header_Set "Content-Type" t (rw_Header w)) w
           | None => w
           end in
  let w := rw_WriteHeader (reply_status rep) w in
  match reply_body rep with Some p => (rw_Write p w).2 | None => w end.

(** [h] answers a request in world [s]: whatever response writer it is given, it
    ends with outcome [o] in world [s'], having written exactly [rep] if it
    returned, and nothing if it panicked. *)
Definition answers {S : Type} (h : Handler S) (r : Request) (s : S) (o : outcome error unit) (s' : S)
    (rep : Reply) : Prop :=
  forall (W : Type) (RW : ResponseWriter W) (w : W),
    h W RW r (s, w) = (o, (s', match o with Ret _ => emit rep w | _ => w end)).

(** Handlers that answer every request with one reply: what the middlewares rely
    on. *)
Class Replies {S : Type} (h : Handler S) :=
  replies : forall r s, exists o s' rep, answers h r s o s' rep.
#[export] Hint Mode Replies - ! : typeclass_instances.

(** ** Lemmas *)

(** What [emit] does to a fresh response. *)
Lemma emit_new_response rep :
  emit rep new_response = MkResponse
    (match reply_type rep with Some t => header_Set "Content-Type" t ∅ | None => ∅ end)
    (Some (reply_status rep))
    (match reply_type rep with Some t => header_Set "Content-Type" t ∅ | None => ∅ end)
    (default "" (reply_body rep)).
Proof. by destruct rep as [[] ? []]. Qed.

Lemma header_Get_Set k v h : header_Get (header_Set k v h) k = v.
Proof. unfold header_Get, header_Set. by rewrite lookup_insert_eq. Qed.

Lemma header_Get_Set_ne k k' v h :
  CanonicalKey k <> CanonicalKey k' -> header_Get (header_Set k v h) k' = header_Get h k'.
Proof. intros Hk. unfold header_Get, header_Set. by rewrite lookup_insert_ne. Qed.

Lemma header_Get_Del k h : header_Get (header_Del k h) k = "".
Proof. unfold header_Get, header_Del. by rewrite lookup_delete_eq. Qed.

Lemma header_Get_Del_ne k k' h :
  CanonicalKey k <> CanonicalKey k' -> header_Get (header_Del k h) k' = header_Get h k'.
Proof. intros Hk. unfold header_Get, header_Del. by rewrite lookup_delete_ne. Qed.

Lemma resp_WriteHeader_status c w :
  resp_status (resp_WriteHeader c w) = Some (default c (resp_status w)).
Proof. unfold resp_WriteHeader. by destruct (resp_status w) eqn:E; cbn; rewrite ?E. Qed.

#[export] Hint Rewrite header_Get_Set header_Get_Del resp_WriteHeader_status : go_http.

