(* ===== verification/Base64.v ===== *)
(** * Base64

    [base64.StdEncoding], which [encoding/json] uses for [[]byte] fields, on
    lists of bytes, with the round trip. *)

From S2P Require Import Prelude GoString Sha256.
Local Open Scope Z_scope.

Definition is_byte (b : Z) : Prop := 0 <= b < 256.

Definition b64_char (n : Z) : ascii :=
  if decide (n < 26) then ascii_of_nat (65 + Z.to_nat n)
  else if decide (n < 52) then ascii_of_nat (71 + Z.to_nat n)
  else if decide (n < 62) then ascii_of_nat (Z.to_nat n - 4)
  else if decide (n = 62) then "+"%char else "/"%char.

Definition b64_value (c : ascii) : option Z :=
  let n := Z.of_nat (nat_of_ascii c) in
  if decide (65 <= n <= 90) then Some (n - 65)
  else if decide (97 <= n <= 122) then Some (n - 71)
  else if decide (48 <= n <= 57) then Some (n + 4)
  else if decide (n = 43) then Some 62
  else if decide (n = 47) then Some 63
  else None.

Fixpoint b64_encode (l : list Z) : string :=
  match l with
  | a :: b :: c :: l' =>
      String (b64_char (a / 4)) (String (b64_char (a mod 4 * 16 + b / 16))
        (String (b64_char (b mod 16 * 4 + c / 64)) (String (b64_char (c mod 64)) (b64_encode l'))))
  | [a; b] =>
      String (b64_char (a / 4)) (String (b64_char (a mod 4 * 16 + b / 16))
        (String (b64_char (b mod 16 * 4)) "="))
  | [a] => String (b64_char (a / 4)) (String (b64_char (a mod 4 * 16)) "==")
  | [] => ""
  end.

(** Line breaks are skipped. *)
Fixpoint b64_strip (s : string) : string :=
  match s with
  | EmptyString => EmptyString
  | String c s' =>
      if decide (c = byte 10 \/ c = byte 13) then b64_strip s' else String c (b64_strip s')
  end.

Fixpoint b64_groups (s : string) : option (list Z) :=
  match s with
  | EmptyString => Some []
  | String c1 (String c2 (String c3 (String c4 s'))) =>
      a ← b64_value c1; b ← b64_value c2;
      match s', decide (c4 = "="%char), decide (c3 = "="%char) with
      | EmptyString, left _, left _ => Some [a * 4 + b / 16]
      | EmptyString, left _, right _ =>
          c ← b64_value c3; Some [a * 4 + b / 16; b mod 16 * 16 + c / 4]
      | _, _, _ =>
          c ← b64_value c3; d ← b64_value c4; rest ← b64_groups s';
          Some (a * 4 + b / 16 :: b mod 16 * 16 + c / 4 :: c mod 4 * 64 + d :: rest)
      end
  | _ => None
  end.

Definition b64_decode (s : string) : option (list Z) := b64_groups (b64_strip s).

Definition string_of_bytes (l : list Z) : string :=
  foldr (fun b s => String (ascii_of_nat (Z.to_nat b)) s) EmptyString l.

(** ** Round trip *)

Lemma b64_char_facts n :
  0 <= n < 64 ->
  b64_value (b64_char n) = Some n /\ b64_char n <> "="%char /\
  b64_char n <> byte 10 /\ b64_char n <> byte 13.
Proof.
  intros Hn. assert (exists k : nat, n = Z.of_nat k /\ (k < 64)%nat) as (k & -> & Hk).
  { exists (Z.to_nat n). lia. }
  clear Hn. do 64 (destruct k as [|k]; [by vm_compute|]). lia.
Qed.

(** A quadruple of alphabet characters. *)
Lemma b64_groups_full a b c d s :
  0 <= a < 64 -> 0 <= b < 64 -> 0 <= c < 64 -> 0 <= d < 64 ->
  b64_groups (String (b64_char a) (String (b64_char b)
    (String (b64_char c) (String (b64_char d) s))))
  = (rest ← b64_groups s;
     Some (a * 4 + b / 16 :: b mod 16 * 16 + c / 4 :: c mod 4 * 64 + d :: rest)).
Proof.
  intros Ha Hb Hc Hd.
  destruct (b64_char_facts a Ha) as (Ea & _), (b64_char_facts b Hb) as (Eb & _),
    (b64_char_facts c Hc) as (Ec & _), (b64_char_facts d Hd) as (Ed & Nd & _).
  cbn [b64_groups]. rewrite Ea, Eb, Ec, Ed. cbn [mbind option_bind].
  destruct (decide (b64_char d = "="%char)) as [|_]; [done|]. by destruct s.
Qed.

Lemma b64_strip_char n s :
  0 <= n < 64 -> b64_strip (String (b64_char n) s) = String (b64_char n) (b64_strip s).
Proof.
  intros Hn. destruct (b64_char_facts n Hn) as (_ & _ & H10 & H13).
  cbn [b64_strip]. by rewrite decide_False by tauto.
Qed.

Ltac sextet := unfold is_byte in *; Z.to_euclidean_division_equations; lia.

(** Induction by groups of three bytes. *)
Lemma bytes_ind3 (P : list Z -> Prop) :
  P [] -> (forall a, is_byte a -> P [a]) -> (forall a b, is_byte a -> is_byte b -> P [a; b]) ->
  (forall a b c l, is_byte a -> is_byte b -> is_byte c -> P l -> P (a :: b :: c :: l)) ->
  forall l, Forall is_byte l -> P l.
Proof.
  intros H0 H1 H2 H3 l. remember (length l) as n eqn:E. revert l E.
  induction (Nat.lt_wf_0 n) as [n _ IH]. intros l -> Hl.
  destruct l as [|a [|b [|c l]]]; [done| | |].
  - apply Forall_cons in Hl as [Ha _]. by apply H1.
  - apply Forall_cons in Hl as [Ha [Hb _]%Forall_cons]. by apply H2.
  - apply Forall_cons in Hl as [Ha [Hb [Hc Hl]%Forall_cons]%Forall_cons].
    apply H3; try done. eapply IH; [|done|done]. cbn. lia.
Qed.

Lemma b64_strip_encode l : Forall is_byte l -> b64_strip (b64_encode l) = b64_encode l.
Proof.
  revert l. apply bytes_ind3; [done|..]; intros; cbn [b64_encode];
    rewrite !b64_strip_char by sextet; try done. by do 4 f_equal.
Qed.

Lemma b64_groups_encode l : Forall is_byte l -> b64_groups (b64_encode l) = Some l.
Proof.
  revert l. apply bytes_ind3; [done|..].
  - intros a Ha. cbn [b64_encode b64_groups].
    destruct (b64_char_facts (a / 4)) as (-> & _); [sextet|].
    destruct (b64_char_facts (a mod 4 * 16)) as (-> & _); [sextet|].
    cbn [mbind option_bind]. destruct (decide _) as [_|[]]; [|done].
    do 2 f_equal. sextet.
  - intros a b Ha Hb. cbn [b64_encode b64_groups].
    destruct (b64_char_facts (a / 4)) as (-> & _); [sextet|].
    destruct (b64_char_facts (a mod 4 * 16 + b / 16)) as (-> & _); [sextet|].
    destruct (b64_char_facts (b mod 16 * 4)) as (-> & Hne & _); [sextet|].
    cbn [mbind option_bind]. destruct (decide _) as [_|[]]; [|done].
    destruct (decide _) as [|_]; [done|]. repeat f_equal; sextet.
  - intros a b c l Ha Hb Hc IH. cbn [b64_encode].
    rewrite b64_groups_full by sextet. rewrite IH. cbn [mbind option_bind].
    repeat f_equal; sextet.
Qed.

Lemma b64_decode_encode l : Forall is_byte l -> b64_decode (b64_encode l) = Some l.
Proof. intros Hl. unfold b64_decode. rewrite b64_strip_encode by done. by apply b64_groups_encode. Qed.

Lemma bytes_of_range s : Forall is_byte (bytes_of s).
Proof.
  induction s as [|c s IH]; [done|]. apply Forall_cons. split; [|exact IH].
  unfold is_byte. pose proof (nat_ascii_bounded c). lia.
Qed.

Lemma string_of_bytes_of s : string_of_bytes (bytes_of s) = s.
Proof.
  induction s as [|c s IH]; [done|]. cbn [bytes_of]. unfold string_of_bytes in *. cbn [foldr].
  by rewrite IH, Nat2Z.id, ascii_nat_embedding.
Qed.

(** Base64 text is plain ASCII. *)
Lemma b64_char_ascii n : 0 <= n < 64 -> (nat_of_ascii (b64_char n) < 128)%nat.
Proof.
  intros Hn. assert (exists k : nat, n = Z.of_nat k /\ (k < 64)%nat) as (k & -> & Hk).
  { exists (Z.to_nat n). lia. }
  clear Hn. do 64 (destruct k as [|k]; [vm_compute; lia|]). lia.
Qed.

Definition is_ascii (c : ascii) : bool := (nat_of_ascii c <? 128)%nat.

Lemma b64_encode_ascii l : Forall is_byte l -> string_forallb is_ascii (b64_encode l) = true.
Proof.
  assert (Hc : forall n s, 0 <= n < 64 ->
    string_forallb is_ascii (String (b64_char n) s) = string_forallb is_ascii s).
  { intros n s Hn. cbn [string_forallb]. unfold is_ascii at 1.
    by rewrite (proj2 (Nat.ltb_lt _ _) (b64_char_ascii n Hn)). }
  revert l. apply bytes_ind3; [done|..]; intros; cbn [b64_encode]; by rewrite !Hc by sextet.
Qed.
