(* ===== verification/AesGcm.v ===== *)
(** * AES-GCM

    [crypto/aes] and [crypto/cipher.NewGCM] as executable functions on strings of
    bytes (FIPS 197, SP 800-38D), with what [Open] accepts: exactly what [Seal]
    makes under the same key and nonce. *)

From S2P Require Import Prelude GoError GoNum GoString Sha256 Base64.
Local Open Scope Z_scope.

Definition len (s : string) : Z := Z.of_nat (String.length s).

(** ** The field of [2^8] elements and the S-box *)

Definition xtime (a : Z) : Z :=
  let b := Z.shiftl a 1 in if Z.testbit a 7 then Z.lxor (Z.land b 255) 0x1b else b.

Fixpoint gmul_bits (bits : nat) (a b : Z) : Z :=
  match bits with
  | O => 0
  | S bits' => Z.lxor (if Z.odd b then a else 0) (gmul_bits bits' (xtime a) (Z.shiftr b 1))
  end.
Definition gmul : Z -> Z -> Z := gmul_bits 8.

(** The inverse of [a] is [a^254]; zero goes to itself. *)
Definition ginv (a : Z) : Z := Nat.iter 253 (gmul a) a.

Definition rotl8 (x n : Z) : Z := Z.land (Z.lor (Z.shiftl x n) (Z.shiftr x (8 - n))) 255.
Definition sbox_affine (b : Z) : Z :=
  Z.lxor b (Z.lxor (rotl8 b 1) (Z.lxor (rotl8 b 2) (Z.lxor (rotl8 b 3) (Z.lxor (rotl8 b 4) 0x63)))).

Definition sbox : list Z :=
  Eval vm_compute in map (fun n => sbox_affine (ginv (Z.of_nat n))) (seq 0 256).
Definition sub_byte (a : Z) : Z := nth (Z.to_nat a) sbox 0.

Example sbox_ends :
  take 4 sbox = [0x63; 0x7c; 0x77; 0x7b] /\ last sbox = Some 0x16 /\ sub_byte 0x53 = 0xed.
Proof. done. Qed.

(** ** AES: a block is a list of 16 bytes, column after column *)

Definition xor_list : list Z -> list Z -> list Z := zip_with Z.lxor.

Definition ShiftRows (s : list Z) : list Z :=
  map (fun i => nth i s 0) [0; 5; 10; 15; 4; 9; 14; 3; 8; 13; 2; 7; 12; 1; 6; 11]%nat.

Fixpoint MixColumns (s : list Z) : list Z :=
  match s with
  | a :: b :: c :: d :: s' =>
      Z.lxor (xtime a) (Z.lxor (Z.lxor (xtime b) b) (Z.lxor c d)) ::
      Z.lxor (xtime b) (Z.lxor (Z.lxor (xtime c) c) (Z.lxor d a)) ::
      Z.lxor (xtime c) (Z.lxor (Z.lxor (xtime d) d) (Z.lxor a b)) ::
      Z.lxor (xtime d) (Z.lxor (Z.lxor (xtime a) a) (Z.lxor b c)) :: MixColumns s'
  | _ => []
  end.

(** The words of the key, [n] more of them; [ws] holds the words so far, the last
    one first. *)
Definition rot_word (w : list Z) : list Z := match w with a :: w' => w' ++ [a] | [] => [] end.

Definition key_word (nk i : nat) (ws : list (list Z)) : list Z :=
  let temp := nth 0 ws [] in
  let temp :=
    if decide (i `mod` nk = 0)%nat then
      xor_list (map sub_byte (rot_word temp)) [Nat.iter (i / nk - 1) xtime 1; 0; 0; 0]
    else if decide (6 < nk /\ i `mod` nk = 4)%nat then map sub_byte temp
    else temp in
  xor_list (nth (nk - 1) ws []) temp.

Fixpoint key_words (nk i n : nat) (ws : list (list Z)) : list (list Z) :=
  match n with
  | O => ws
  | S n' => key_words nk (S i) n' (key_word nk i ws :: ws)
  end.

Fixpoint chunks (k n : nat) (l : list Z) : list (list Z) :=
  match n with O => [] | S n' => take k l :: chunks k n' (drop k l) end.

(** The round keys, each of 16 bytes. *)
Definition expand_key (key : list Z) : list (list Z) :=
  let nk := (length key / 4)%nat in
  let n := (4 * (nk + 7))%nat in
  chunks 16 (nk + 7) (concat (rev (key_words nk nk (n - nk) (rev (chunks 4 nk key))))).

Fixpoint rounds (ks : list (list Z)) (s : list Z) : list Z :=
  match ks with
  | [] => s
  | [k] => xor_list (ShiftRows (map sub_byte s)) k
  | k :: ks' => rounds ks' (xor_list (MixColumns (ShiftRows (map sub_byte s))) k)
  end.

Definition encrypt_block (ks : list (list Z)) (b : list Z) : list Z :=
  match ks with k :: ks' => rounds ks' (xor_list b k) | [] => b end.

(** FIPS 197, C.1 and C.3. *)
Definition fips_key (n : nat) : list Z := map Z.of_nat (seq 0 n).
Definition fips_block : list Z := map (fun i => 17 * Z.of_nat i) (seq 0 16).
Example aes128_fips :
  hex_encode (encrypt_block (expand_key (fips_key 16)) fips_block) = "69c4e0d86a7b0430d8cdb78070b4c55a".
Proof. vm_compute. reflexivity. Qed.
Example aes192_fips :
  hex_encode (encrypt_block (expand_key (fips_key 24)) fips_block) = "dda97ca4864cdfe06eaf70a0ec0d7191".
Proof. vm_compute. reflexivity. Qed.
Example aes256_fips :
  hex_encode (encrypt_block (expand_key (fips_key 32)) fips_block) = "8ea2b7ca516745bfeafc49904b496089".
Proof. vm_compute. reflexivity. Qed.

(** ** GHASH: blocks as 128-bit numbers, the first bit the highest *)

Definition ghash_poly : Z := Z.shiftl 0xe1 120.

Fixpoint ghash_mul_bits (bits : nat) (x v : Z) : Z :=
  match bits with
  | O => 0
  | S bits' =>
      Z.lxor (if Z.testbit x (Z.of_nat bits') then v else 0)
        (ghash_mul_bits bits' x (if Z.odd v then Z.lxor (Z.shiftr v 1) ghash_poly else Z.shiftr v 1))
  end.
Definition ghash_mul : Z -> Z -> Z := ghash_mul_bits 128.

Definition be_value (l : list Z) : Z := foldl (fun n b => n * 256 + b) 0 l.

Definition blocks_of (l : list Z) : nat := ((length l + 15) / 16)%nat.

(** The last block is padded with zeros. *)
Definition padded_blocks (l : list Z) : list Z :=
  map (fun b => be_value (b ++ replicate (16 - length b) 0)) (chunks 16 (blocks_of l) l).

(** No additional data: the last block holds the two lengths in bits. *)
Definition ghash (h : Z) (c : list Z) : Z :=
  foldl (fun y b => ghash_mul (Z.lxor y b) h) 0 (padded_blocks c ++ [8 * Z.of_nat (length c)]).

(** ** GCM with nonces of 12 bytes and tags of 16 *)

Section GCM.
(** The round keys of the cipher. *)
Context (ks : list (list Z)).

(** The counter block; the counter has 32 bits. *)
Definition counter_block (nonce : list Z) (i : nat) : list Z :=
  nonce ++ be_bytes 4 (Z.of_nat i).

Definition keystream (nonce : list Z) (n : nat) : list Z :=
  concat (map (fun i => encrypt_block ks (counter_block nonce (2 + i))) (seq 0 n)).

Definition ctr (nonce data : list Z) : list Z :=
  xor_list data (keystream nonce (blocks_of data)).

Definition gcm_tag (nonce c : list Z) : list Z :=
  let h := be_value (encrypt_block ks (replicate 16 0)) in
  be_bytes 16 (Z.lxor (ghash h c) (be_value (encrypt_block ks (counter_block nonce 1)))).
End GCM.

Definition NonceSize : Z := 12.
Definition gcm_max_plain : Z := (2 ^ 32 - 2) * 16.

(** [Seal(nil, nonce, data, nil)] and [Open(nil, nonce, c, nil)] of the cipher with
    this key. *)
Definition gcm_Seal (key nonce data : string) : outcome error string :=
  if decide (len nonce <> NonceSize) then Panic "crypto/cipher: incorrect nonce length given to GCM"
  else if decide (len data > gcm_max_plain) then Panic "crypto/cipher: message too large for GCM"
  else
    let ks := expand_key (bytes_of key) in
    let c := ctr ks (bytes_of nonce) (bytes_of data) in
    Ret (string_of_bytes (c ++ gcm_tag ks (bytes_of nonce) c)).

Definition errOpen : error := ErrNew "cipher: message authentication failed".

Definition gcm_Open (key nonce ciphertext : string) : outcome error string :=
  if decide (len nonce <> NonceSize) then Panic "crypto/cipher: incorrect nonce length given to GCM"
  else if decide (len ciphertext < 16) then Fail errOpen
  else if decide (len ciphertext > gcm_max_plain + 16) then Fail errOpen
  else
    let ks := expand_key (bytes_of key) in
    let l := bytes_of ciphertext in
    let c := take (length l - 16) l in
    if decide (drop (length l - 16) l = gcm_tag ks (bytes_of nonce) c)
    then Ret (string_of_bytes (ctr ks (bytes_of nonce) c))
    else Fail errOpen.

(** Test cases 13 and 14 of the GCM specification: the zero key of AES-256. *)
Definition zeros (n : nat) : string := string_of_bytes (replicate n 0).
Example gcm_empty :
  (hex_encode ∘ bytes_of) <$> outcome_value (gcm_Seal (zeros 32) (zeros 12) "")
  = Some "530f8afbc74536b9a963b4f1c4cb738b".
Proof. vm_compute. reflexivity. Qed.
Example gcm_one_block :
  (hex_encode ∘ bytes_of) <$> outcome_value (gcm_Seal (zeros 32) (zeros 12) (zeros 16))
  = Some "cea7403d4d606b6e074ec5d3baf39d18d0d1c8a799996bf0265b98b5d48ab919".
Proof. vm_compute. reflexivity. Qed.

(** ** Blocks stay blocks *)

(** A list of [n] bytes. *)
Definition bytes_n (n : nat) (l : list Z) : Prop := length l = n /\ Forall is_byte l.

Lemma is_byte_bound b : is_byte b <-> Z.land b 255 = b.
Proof. change 255 with (Z.ones 8). rewrite Z.land_ones by done.
  unfold is_byte. change (2 ^ 8) with 256. pose proof (Z.mod_pos_bound b 256). split; [apply Z.mod_small|lia].
Qed.

Lemma is_byte_lxor a b : is_byte a -> is_byte b -> is_byte (Z.lxor a b).
Proof.
  rewrite !is_byte_bound. intros Ha Hb. rewrite <-Ha at 2. rewrite <-Hb at 2.
  apply Z.bits_inj'. intros i Hi. rewrite Z.land_spec, !Z.lxor_spec, !Z.land_spec.
  by destruct (Z.testbit a i), (Z.testbit b i), (Z.testbit 255 i).
Qed.

Lemma every_byte (P : Z -> bool) :
  forallb P (map Z.of_nat (seq 0 256)) = true -> forall b, is_byte b -> P b = true.
Proof.
  rewrite forallb_forall. intros HP b Hb. apply HP, in_map_iff. exists (Z.to_nat b).
  unfold is_byte in Hb. rewrite in_seq. lia.
Qed.

Lemma is_byte_xtime a : is_byte a -> is_byte (xtime a).
Proof.
  intros Ha. apply is_byte_bound, Z.eqb_eq.
  by apply (every_byte (fun a => Z.land (xtime a) 255 =? xtime a)).
Qed.

Lemma Forall_nth_byte l i : Forall is_byte l -> is_byte (nth i l 0).
Proof.
  intros Hl. destruct (nth_in_or_default i l 0) as [Hin| ->]; [|done].
  rewrite Forall_forall in Hl. by apply Hl, list_elem_of_In.
Qed.

Lemma is_byte_sub a : is_byte (sub_byte a).
Proof. apply Forall_nth_byte. apply (bool_decide_unpack _). vm_compute. done. Qed.

Lemma xor_list_bytes n a b : bytes_n n a -> bytes_n n b -> bytes_n n (xor_list a b).
Proof.
  intros [Ha Hla] [Hb Hlb]. split; [unfold xor_list; rewrite length_zip_with; lia|].
  rewrite Forall_lookup in *. intros i x (y & z & -> & Hy & Hz)%lookup_zip_with_Some.
  by apply is_byte_lxor; eauto.
Qed.

Lemma sub_bytes n l : length l = n -> bytes_n n (map sub_byte l).
Proof. intros Hl. split; [by rewrite length_map|]. apply Forall_fmap, Forall_true. intros. apply is_byte_sub. Qed.

Lemma ShiftRows_bytes l : Forall is_byte l -> bytes_n 16 (ShiftRows l).
Proof. intros Hl. split; [done|]. repeat apply Forall_cons_2; auto using Forall_nth_byte. Qed.

Lemma MixColumns_bytes n l : bytes_n (4 * n) l -> bytes_n (4 * n) (MixColumns l).
Proof.
  revert l. induction n as [|n IH]; intros l [Hlen Hl].
  { by apply nil_length_inv in Hlen as ->. }
  destruct l as [|a [|b [|c [|d l]]]]; cbn [length] in Hlen; try lia.
  decompose_Forall. destruct (IH l) as [? ?]; [by split; [lia|]|].
  cbn [MixColumns]. split; [cbn [length]; lia|].
  repeat apply Forall_cons_2; auto 8 using is_byte_lxor, is_byte_xtime.
Qed.

Lemma chunks_bytes k n l : bytes_n (n * k) l -> Forall (bytes_n k) (chunks k n l).
Proof.
  revert l. induction n as [|n IH]; intros l [Hlen Hl]; [by constructor|]. cbn [chunks]. constructor.
  - split; [rewrite length_take; lia|by apply Forall_take].
  - apply IH. split; [rewrite length_drop; lia|by apply Forall_drop].
Qed.

Lemma length_chunks k n l : length (chunks k n l) = n.
Proof. revert l. induction n as [|n IH]; intros l; [done|]. cbn [chunks length]. by rewrite IH. Qed.

Lemma concat_bytes k ls : Forall (bytes_n k) ls -> bytes_n (length ls * k) (concat ls).
Proof.
  induction 1 as [|l ls [Hlen Hl] _ [IHlen IH]]; [done|]. cbn [concat length].
  split; [rewrite length_app; lia|by apply Forall_app_2].
Qed.

Lemma nth_word i ws : (i < length ws)%nat -> Forall (bytes_n 4) ws -> bytes_n 4 (nth i ws []).
Proof. intros Hi Hws. rewrite Forall_forall in Hws. by apply Hws, list_elem_of_In, nth_In. Qed.

(** AES has keys of 4, 6 and 8 words. *)
Lemma key_word_bytes nk i ws :
  (0 < nk <= length ws)%nat -> Forall (bytes_n 4) ws -> bytes_n 4 (key_word nk i ws).
Proof.
  intros Hnk Hws. unfold key_word. apply xor_list_bytes; [apply nth_word; [lia|done]|].
  pose proof (nth_word 0 ws ltac:(lia) Hws) as [Hlen Hb].
  repeat case_decide; [|by apply sub_bytes|done].
  apply xor_list_bytes.
  - apply sub_bytes. by destruct (nth 0 ws []) as [|? [|? [|? [|? [|]]]]].
  - split; [done|]. constructor; [|by repeat constructor].
    generalize (i / nk - 1)%nat. intros n. induction n as [|n IH]; [done|]. by apply is_byte_xtime.
Qed.

Lemma key_words_bytes nk n i ws :
  (0 < nk <= length ws)%nat -> Forall (bytes_n 4) ws ->
  Forall (bytes_n 4) (key_words nk i n ws) /\ length (key_words nk i n ws) = (n + length ws)%nat.
Proof.
  revert i ws. induction n as [|n IH]; intros i ws Hnk Hws; [done|]. cbn [key_words].
  destruct (IH (S i) (key_word nk i ws :: ws)) as [? ->]; [cbn [length]; lia| |cbn [length]; split; [done|lia]].
  constructor; [by apply key_word_bytes|done].
Qed.

(** The sizes [aes.NewCipher] accepts. *)
Definition aes_key_size (n : Z) : Prop := n = 16 \/ n = 24 \/ n = 32.

Lemma expand_key_bytes key :
  aes_key_size (Z.of_nat (length key)) -> Forall is_byte key -> Forall (bytes_n 16) (expand_key key).
Proof.
  intros Hlen Hkey. unfold expand_key. cbv zeta.
  assert (exists nk, length key = (nk * 4)%nat /\ (0 < nk <= 8)%nat) as (nk & Hk & Hnk).
  { destruct Hlen as [?|[?|?]]; [exists 4%nat|exists 6%nat|exists 8%nat]; lia. }
  rewrite Hk, Nat.div_mul by done. apply chunks_bytes.
  destruct (key_words_bytes nk (4 * (nk + 7) - nk) nk (rev (chunks 4 nk key))) as [Hw Hl].
  { rewrite length_rev, length_chunks. lia. }
  { apply Forall_rev, chunks_bytes. by split. }
  rewrite length_rev, length_chunks in Hl. apply Forall_rev in Hw. apply concat_bytes in Hw.
  rewrite length_rev, Hl in Hw. by replace ((nk + 7) * 16)%nat with ((4 * (nk + 7) - nk + nk) * 4)%nat by lia.
Qed.

Lemma rounds_bytes ks s : Forall (bytes_n 16) ks -> bytes_n 16 s -> bytes_n 16 (rounds ks s).
Proof.
  intros Hks. revert s. induction Hks as [|k ks Hk Hks IH]; intros s [Hlen Hs]; [done|].
  assert (bytes_n 16 (ShiftRows (map sub_byte s))) as Hr.
  { apply ShiftRows_bytes, (sub_bytes 16), Hlen. }
  cbn [rounds]. destruct ks; [by apply xor_list_bytes|].
  apply IH, xor_list_bytes; [|done]. by apply (MixColumns_bytes 4).
Qed.

Lemma encrypt_block_bytes ks b : Forall (bytes_n 16) ks -> bytes_n 16 b -> bytes_n 16 (encrypt_block ks b).
Proof. intros Hks Hb. destruct Hks; [done|]. by apply rounds_bytes; [|apply xor_list_bytes]. Qed.

(** ** What [Open] accepts *)

Section Inverse.
Context (ks : list (list Z)) (nonce : list Z).
Hypothesis ks_blocks : Forall (bytes_n 16) ks.
Hypothesis nonce_bytes : bytes_n 12 nonce.

Lemma counter_block_bytes i : bytes_n 16 (counter_block nonce i).
Proof.
  destruct nonce_bytes as [Hn Hb]. unfold counter_block.
  split; [by rewrite length_app, length_be_bytes, Hn|apply Forall_app_2; [done|apply be_bytes_range]].
Qed.

Lemma keystream_bytes n : bytes_n (n * 16) (keystream ks nonce n).
Proof.
  unfold keystream. rewrite <-(length_seq n 0) at 1. rewrite <-(length_map (fun i => encrypt_block ks (counter_block nonce (2 + i)))).
  apply concat_bytes, Forall_fmap, Forall_true. intros i. apply encrypt_block_bytes; [done|]. apply counter_block_bytes.
Qed.

Lemma length_blocks_of (l : list Z) : (length l <= blocks_of l * 16)%nat.
Proof. unfold blocks_of. pose proof (Nat.div_mod_eq (length l + 15) 16). pose proof (Nat.mod_upper_bound (length l + 15) 16). lia. Qed.

Lemma length_ctr l : length (ctr ks nonce l) = length l.
Proof.
  unfold ctr, xor_list. rewrite length_zip_with. destruct (keystream_bytes (blocks_of l)) as [-> _].
  pose proof (length_blocks_of l). lia.
Qed.

Lemma ctr_bytes l : Forall is_byte l -> Forall is_byte (ctr ks nonce l).
Proof.
  intros Hl. destruct (keystream_bytes (blocks_of l)) as [_ Hk]. unfold ctr, xor_list.
  rewrite Forall_lookup in *. intros i x (y & z & -> & Hy & Hz)%lookup_zip_with_Some.
  apply is_byte_lxor; eauto.
Qed.

(** The keystream depends on the length only, and cancels itself. *)
Lemma ctr_involutive l : ctr ks nonce (ctr ks nonce l) = l.
Proof.
  unfold ctr at 1. unfold blocks_of at 1. rewrite length_ctr. fold (blocks_of l). unfold ctr.
  pose proof (length_blocks_of l) as Hlen. destruct (keystream_bytes (blocks_of l)) as [Hk _].
  rewrite <-Hk in Hlen. clear Hk. revert Hlen. generalize (keystream ks nonce (blocks_of l)). unfold xor_list.
  induction l as [|a l IH]; intros k Hlen; [done|]. destruct k as [|b k]; cbn in Hlen; [lia|].
  cbn [zip_with]. rewrite Z.lxor_assoc, Z.lxor_nilpotent, Z.lxor_0_r. by rewrite IH by lia.
Qed.
End Inverse.

Lemma bytes_of_string_of l : Forall is_byte l -> bytes_of (string_of_bytes l) = l.
Proof.
  induction 1 as [|b l Hb _ IH]; [done|]. unfold string_of_bytes in *. cbn [foldr bytes_of].
  rewrite IH, nat_ascii_embedding by (unfold is_byte in Hb; lia). f_equal. unfold is_byte in Hb. lia.
Qed.

Lemma length_bytes_of s : length (bytes_of s) = String.length s.
Proof. induction s as [|c s IH]; [done|]. cbn. by rewrite IH. Qed.

Lemma bytes_of_inj s t : bytes_of s = bytes_of t -> s = t.
Proof. intros E. by rewrite <-(string_of_bytes_of s), <-(string_of_bytes_of t), E. Qed.

(** With a key and a nonce of the sizes the program uses, a ciphertext is [c]
    followed by the tag of [c], and [c] is the data under the keystream. *)
Lemma gcm_Seal_shape key nonce data c :
  aes_key_size (len key) -> len nonce = NonceSize ->
  gcm_Seal key nonce data = Ret c <->
  len data <= gcm_max_plain /\
  exists b, Forall is_byte b /\ ctr (expand_key (bytes_of key)) (bytes_of nonce) b = bytes_of data /\
    bytes_of c = b ++ gcm_tag (expand_key (bytes_of key)) (bytes_of nonce) b.
Proof.
  intros Hk Hn. unfold gcm_Seal. rewrite decide_False by tauto. cbv zeta.
  set (ks := expand_key (bytes_of key)).
  assert (Forall (bytes_n 16) ks) as Hks.
  { apply expand_key_bytes; [by rewrite length_bytes_of|apply bytes_of_range]. }
  assert (bytes_n 12 (bytes_of nonce)) as Hb.
  { split; [rewrite length_bytes_of; unfold len, NonceSize in Hn; lia|apply bytes_of_range]. }
  case_decide as Hd; [split; [done|intros [? _]; lia]|].
  assert (forall b, Forall is_byte b -> Forall is_byte (b ++ gcm_tag ks (bytes_of nonce) b)) as Htag.
  { intros b ?. apply Forall_app_2; [done|apply be_bytes_range]. }
  split.
  - intros [= <-]. split; [lia|].
    assert (Forall is_byte (ctr ks (bytes_of nonce) (bytes_of data))) by (by apply ctr_bytes; [..|apply bytes_of_range]).
    eexists. split; [done|]. split; [by apply ctr_involutive|]. by apply bytes_of_string_of, Htag.
  - intros (_ & b & Hbytes & <- & Hc). f_equal. apply bytes_of_inj.
    rewrite ctr_involutive by done. rewrite Hc. by apply bytes_of_string_of, Htag.
Qed.

(** [Open] accepts exactly what [Seal] makes: it returns the data that was sealed,
    and any other text under this key and nonce is refused. *)
Lemma gcm_Open_Seal key nonce data c :
  aes_key_size (len key) -> len nonce = NonceSize ->
  gcm_Open key nonce c = Ret data <-> gcm_Seal key nonce data = Ret c.
Proof.
  intros Hk Hn. rewrite gcm_Seal_shape by done. unfold gcm_Open. rewrite decide_False by tauto. cbv zeta.
  set (ks := expand_key (bytes_of key)).
  assert (Forall (bytes_n 16) ks) as Hks.
  { apply expand_key_bytes; [by rewrite length_bytes_of|apply bytes_of_range]. }
  assert (bytes_n 12 (bytes_of nonce)) as Hb.
  { split; [rewrite length_bytes_of; unfold len, NonceSize in Hn; lia|apply bytes_of_range]. }
  unfold len in *. rewrite <-!length_bytes_of in *. split.
  - case_decide; [done|]. case_decide; [done|]. case_decide as Et; [|done]. intros [= <-].
    set (b := take (length (bytes_of c) - 16) (bytes_of c)) in *.
    assert (Forall is_byte b) by (apply Forall_take, bytes_of_range).
    assert (Forall is_byte (ctr ks (bytes_of nonce) b)) by (by apply ctr_bytes).
    rewrite bytes_of_string_of by done. rewrite length_ctr by done. split.
    { unfold b. rewrite length_take. lia. }
    exists b. split_and!; [done..|]. rewrite <-Et. unfold b. by rewrite take_drop.
  - intros (Hd & b & Hbytes & Hctr & Hc).
    assert (length (bytes_of c) - 16 = length b)%nat as El.
    { rewrite Hc, length_app. unfold gcm_tag. rewrite length_be_bytes. lia. }
    assert (length b = length (bytes_of data)) as Eb by (by rewrite <-Hctr, length_ctr).
    assert (length (bytes_of c) = length b + 16)%nat as Ec.
    { rewrite Hc, length_app. unfold gcm_tag. rewrite length_be_bytes. lia. }
    rewrite !decide_False by lia. rewrite El, Hc, drop_app_length, take_app_length, decide_True by done.
    rewrite Hctr. by rewrite string_of_bytes_of.
Qed.

(** [Open] panics only on a nonce of the wrong size. *)
Lemma gcm_Open_total key nonce c p : len nonce = NonceSize -> gcm_Open key nonce c <> Panic p.
Proof. intros Hn. unfold gcm_Open. rewrite decide_False by tauto. cbv zeta. by repeat case_decide. Qed.
