(* ===== verification/Encryption.v ===== *)
(** * Hybrid encryption: [internal/encryption]

    [encryption.go]: the data under AES-GCM with a fresh key, the key under
    RSA-OAEP, both in a JSON envelope.  AES-GCM is defined (AesGcm.v); RSA-OAEP, the
    entropy source and the key parsers are interfaces; what is proved is what the
    code makes of them.
    [keys.go]: loading keys from PEM files. *)

From S2P Require Import Prelude GoError GoNum GoString GoJson Storage FileStore Instances Sha256 Base64 AesGcm.
Local Open Scope Z_scope.

(** ** [[]byte] in JSON: base64 strings *)

Definition json_of_bytes (b : string) : json := JStr (b64_encode (bytes_of b)).

(** One element of an array of numbers; [null] keeps the element. *)
Definition decode_byte (old : Z) (j : json) : option Z :=
  match j with
  | JNull => Some old
  | JNum lit => n ← ParseUint10 lit; if decide (n < 256) then Some n else None
  | _ => None
  end.

Fixpoint decode_byte_list (old : list Z) (l : list json) : option (list Z) :=
  match l with
  | [] => Some []
  | j :: l' =>
      b ← decode_byte (default 0 (head old)) j;
      rest ← decode_byte_list (tail old) l';
      Some (b :: rest)
  end.

Definition decode_bytes : decoder string := fun old j =>
  match j with
  | JNull => Some ""
  | JStr s => string_of_bytes <$> b64_decode s
  | JArr l => string_of_bytes <$> decode_byte_list (bytes_of old) l
  | _ => None
  end.

(** ** The envelope *)

Record envelope : Type := MkEnvelope {
  env_Key : string;
  env_Nonce : string;
  env_Data : string;
}.

Definition json_of_envelope (e : envelope) : json :=
  JObj [("key", json_of_bytes (env_Key e)); ("nonce", json_of_bytes (env_Nonce e));
        ("data", json_of_bytes (env_Data e))].

Definition envelope_fields : list (field envelope) := [
  ("key", fun t j => (fun b => MkEnvelope b (env_Nonce t) (env_Data t)) <$> decode_bytes (env_Key t) j);
  ("nonce", fun t j => (fun b => MkEnvelope (env_Key t) b (env_Data t)) <$> decode_bytes (env_Nonce t) j);
  ("data", fun t j => (fun b => MkEnvelope (env_Key t) (env_Nonce t) b) <$> decode_bytes (env_Data t) j)
].

Definition Unmarshal_envelope `{JsonText} (data : string) : outcome error envelope :=
  match json_parse data ≫= decode_struct envelope_fields (MkEnvelope "" "" "") with
  | Some e => Ret e
  | None => Fail (ErrNew "json: cannot unmarshal")
  end.

(** ** The primitives *)

(** [R] is the state of [rand.Reader]; [PK] and [SK] are RSA keys. *)
Class Crypto (R PK SK : Type) := {
  rand_ReadFull : Z -> M R string;
  EncryptOAEP : PK -> string -> M R string;
  DecryptOAEP : SK -> string -> outcome error string;
}.

(** [aes.NewCipher] accepts AES-128, AES-192 and AES-256 keys. *)
Definition aes_NewCipher (key : string) : outcome error string :=
  if decide (len key = 16 \/ len key = 24 \/ len key = 32) then Ret key
  else Fail (ErrNew ("crypto/aes: invalid key size " +:+ FormatInt (len key))).

(** [cipher.NewGCM] of an AES block cipher. *)
Definition NewGCM (block : string) : outcome error string := Ret block.

Class CryptoLaws (R PK SK : Type) `{!Crypto R PK SK} := {
  key_pair : PK -> SK -> Prop;
  rand_ReadFull_len n r b r' : 0 <= n -> rand_ReadFull n r = (Ret b, r') -> len b = n;
  DecryptOAEP_EncryptOAEP pk sk m r c r' :
    key_pair pk sk -> EncryptOAEP pk m r = (Ret c, r') -> DecryptOAEP sk c = Ret m;
}.

Definition SchemeRSAOAEPWithAESGCM : string := "rsa-aes-gcm".

(** ** [Encrypt] and [Decrypt] *)

Section Operations.
Context {R PK SK : Type} `{!Crypto R PK SK} `{JsonText}.

Definition aesKeySize : Z := 32.

Definition Encrypt (data : string) (publicKey : option PK) : M R string :=
  match publicKey with
  | None => throw (ErrNew "public key is nil")
  | Some publicKey =>
      aesKey ← map_err (ErrWrap "generate AES key") (rand_ReadFull aesKeySize);
      block ← map_err (ErrWrap "create AES cipher") (lift_outcome (aes_NewCipher aesKey));
      gcm ← map_err (ErrWrap "create GCM") (lift_outcome (NewGCM block));
      nonce ← map_err (ErrWrap "generate nonce") (rand_ReadFull NonceSize);
      encryptedData ← lift_outcome (gcm_Seal gcm nonce data);
      encryptedKey ← map_err (ErrWrap "encrypt AES key") (EncryptOAEP publicKey aesKey);
      mret (json_print (json_of_envelope (MkEnvelope encryptedKey nonce encryptedData)))
  end.

Definition wrap_fail {A} (c : string) (o : outcome error A) : outcome error A :=
  match o with Fail e => Fail (ErrWrap c e) | _ => o end.

Definition and_then {A B} (o : outcome error A) (f : A -> outcome error B) : outcome error B :=
  match o with Ret a => f a | Fail e => Fail e | Panic p => Panic p end.

Definition Decrypt (data : string) (privateKey : option SK) : outcome error string :=
  match privateKey with
  | None => Fail (ErrNew "private key is nil")
  | Some privateKey =>
      and_then (wrap_fail "unmarshal envelope" (Unmarshal_envelope data)) (fun env =>
      and_then (wrap_fail "decrypt AES key" (DecryptOAEP privateKey (env_Key env))) (fun aesKey =>
      and_then (wrap_fail "create AES cipher" (aes_NewCipher aesKey)) (fun block =>
      and_then (wrap_fail "create GCM" (NewGCM block)) (fun gcm =>
      if decide (len (env_Nonce env) <> NonceSize) then
        Fail (ErrNew ("invalid nonce size: got " +:+ FormatInt (len (env_Nonce env))
          +:+ ", want " +:+ FormatInt NonceSize))
      else wrap_fail "decrypt data" (gcm_Open gcm (env_Nonce env) (env_Data env))))))
  end.

(** ** Lemmas *)

Lemma utf8_ascii s : string_forallb is_ascii s = true -> utf8_valid s = true.
Proof.
  unfold utf8_valid. induction s as [|c s IH]; [done|].
  cbn [string_forallb utf8_go]. intros [Hc Hs]%andb_true_iff. unfold is_ascii in Hc.
  rewrite Hc. by apply IH.
Qed.

Lemma decode_json_of_bytes old b : decode_bytes old (json_of_bytes b) = Some b.
Proof.
  cbn [decode_bytes json_of_bytes]. rewrite b64_decode_encode by apply bytes_of_range.
  cbn. by rewrite string_of_bytes_of.
Qed.

Lemma envelope_wf e : json_wf (json_of_envelope e) = true.
Proof.
  assert (Hb : forall b, json_wf (json_of_bytes b) = true).
  { intros b. cbn [json_wf json_of_bytes]. apply utf8_ascii, b64_encode_ascii, bytes_of_range. }
  cbn [json_wf json_of_envelope forallb fst snd]. by rewrite !Hb.
Qed.

Lemma envelope_roundtrip t e :
  decode_struct envelope_fields t (json_of_envelope e) = Some e.
Proof.
  assert (H1 : forall t b, decode_member envelope_fields t ("key", json_of_bytes b)
    = Some (MkEnvelope b (env_Nonce t) (env_Data t))).
  { intros t' b. change (_ = _) with
      ((fun b => MkEnvelope b (env_Nonce t') (env_Data t')) <$> decode_bytes (env_Key t') (json_of_bytes b)
       = Some (MkEnvelope b (env_Nonce t') (env_Data t'))). by rewrite decode_json_of_bytes. }
  assert (H2 : forall t b, decode_member envelope_fields t ("nonce", json_of_bytes b)
    = Some (MkEnvelope (env_Key t) b (env_Data t))).
  { intros t' b. change (_ = _) with
      ((fun b => MkEnvelope (env_Key t') b (env_Data t')) <$> decode_bytes (env_Nonce t') (json_of_bytes b)
       = Some (MkEnvelope (env_Key t') b (env_Data t'))). by rewrite decode_json_of_bytes. }
  assert (H3 : forall t b, decode_member envelope_fields t ("data", json_of_bytes b)
    = Some (MkEnvelope (env_Key t) (env_Nonce t) b)).
  { intros t' b. change (_ = _) with
      ((fun b => MkEnvelope (env_Key t') (env_Nonce t') b) <$> decode_bytes (env_Data t') (json_of_bytes b)
       = Some (MkEnvelope (env_Key t') (env_Nonce t') b)). by rewrite decode_json_of_bytes. }
  unfold json_of_envelope, decode_struct, decode_members. cbn [foldl mbind option_bind].
  rewrite H1. cbn [mbind option_bind]. rewrite H2. cbn [mbind option_bind]. rewrite H3.
  by destruct e.
Qed.

Context `{!CryptoLaws R PK SK} `{!JsonTextLaws}.

Lemma Unmarshal_printed_envelope e :
  Unmarshal_envelope (json_print (json_of_envelope e)) = Ret e.
Proof.
  unfold Unmarshal_envelope. rewrite json_parse_print by first [apply envelope_wf | done].
  cbn [mbind option_bind]. by rewrite envelope_roundtrip.
Qed.

(** A successful run of [Encrypt], step by step. *)
Lemma Encrypt_Ret data publicKey r body r' :
  Encrypt data publicKey r = (Ret body, r') ->
  exists pk aesKey r1 nonce r2 sealed c, publicKey = Some pk /\
    rand_ReadFull aesKeySize r = (Ret aesKey, r1) /\
    rand_ReadFull NonceSize r1 = (Ret nonce, r2) /\
    gcm_Seal aesKey nonce data = Ret sealed /\
    EncryptOAEP pk aesKey r2 = (Ret c, r') /\
    body = json_print (json_of_envelope (MkEnvelope c nonce sealed)).
Proof.
  unfold Encrypt. destruct publicKey as [pk|]; [|done]. intros Hrun. inv_run.
  unfold lift_outcome, aes_NewCipher, NewGCM in *. case_decide; simplify_eq/=. naive_solver.
Qed.

Lemma decrypt_then_encrypt data pk sk r body r' :
  key_pair pk sk -> Encrypt data (Some pk) r = (Ret body, r') ->
  Decrypt body (Some sk) = Ret data.
Proof.
  intros Hk Hrun. apply Encrypt_Ret in Hrun as (? & aesKey & r1 & nonce & r2 & sealed & c & [= <-] & E1 & E2 & Es & E3 & ->).
  unfold Decrypt. rewrite Unmarshal_printed_envelope. cbn [wrap_fail and_then env_Key env_Nonce env_Data].
  rewrite (DecryptOAEP_EncryptOAEP _ _ _ _ _ _ Hk E3). cbn [wrap_fail and_then].
  apply rand_ReadFull_len in E1, E2; [|done..]. unfold aes_NewCipher, NewGCM.
  unfold aesKeySize in E1. rewrite decide_True by lia. cbn [wrap_fail and_then].
  rewrite decide_False by tauto.
  apply gcm_Open_Seal in Es; [by rewrite Es|by right; right|done].
Qed.

(** C28: whatever [Encrypt] produces with a public key, [Decrypt] turns back into
    the data with the matching private key, for every entropy stream and every
    JSON printer that is read back. *)
Theorem decrypt_encrypt data pk sk r body r' :
  key_pair pk sk -> Encrypt data (Some pk) r = (Ret body, r') ->
  Decrypt body (Some sk) = Ret data.
Proof. apply decrypt_then_encrypt. Qed.

End Operations.

(** ** Keys: [keys.go] *)

(** What the [x509] parsers return: a key of the RSA type or of another type. *)
Inductive any_key (K : Type) : Type :=
| RSAKey (k : K)
| OtherKey.
Arguments RSAKey {K} _.
Arguments OtherKey {K}.

(** [pem.Decode] (the bytes of the first block) and the [x509] parsers. *)
Class KeyFormats (PK SK : Type) := {
  pem_Decode : string -> option string;
  ParsePKIXPublicKey : string -> outcome error (any_key PK);
  ParsePKCS1PublicKey : string -> outcome error PK;
  ParsePKCS8PrivateKey : string -> outcome error (any_key SK);
  ParsePKCS1PrivateKey : string -> outcome error SK;
}.

Section Keys.
Context {PK SK : Type} `{!KeyFormats PK SK}.

Definition LoadPublicKey (path : string) : M FS PK :=
  data ← map_err (ErrWrap "read public key") (ReadFile path);
  match pem_Decode data with
  | None => throw (ErrNew "decode public key PEM")
  | Some bytes =>
      match ParsePKIXPublicKey bytes with
      | Ret (RSAKey k) => mret k
      | Ret OtherKey => throw (ErrNew "public key is not RSA")
      | Panic p => panic p
      | Fail _ => map_err (ErrWrap "parse public key") (lift_outcome (ParsePKCS1PublicKey bytes))
      end
  end.

Definition LoadPrivateKey (path : string) : M FS SK :=
  data ← map_err (ErrWrap "read private key") (ReadFile path);
  match pem_Decode data with
  | None => throw (ErrNew "decode private key PEM")
  | Some bytes =>
      match ParsePKCS8PrivateKey bytes with
      | Ret (RSAKey k) => mret k
      | Ret OtherKey => throw (ErrNew "private key is not RSA")
      | Panic p => panic p
      | Fail _ => map_err (ErrWrap "parse private key") (lift_outcome (ParsePKCS1PrivateKey bytes))
      end
  end.

(** [server/security.go] and [cmd/agent]: an empty path disables encryption. *)
Definition loadPrivateKey (path : string) : M FS (option SK) :=
  if decide (path = "") then mret None
  else
    privateKey ← map_err (ErrWrap "load private key") (LoadPrivateKey path);
    mret (Some privateKey).
End Keys.

(** ** A toy instance, for evaluation

    The entropy is a counter, a key pair is a number shared by both keys, and the
    ciphers put what they must authenticate in front of the data. *)

Fixpoint strip_prefix (p s : string) : option string :=
  match p, s with
  | EmptyString, _ => Some s
  | String a p', String b s' => if decide (a = b) then strip_prefix p' s' else None
  | _, _ => None
  end.

Lemma strip_prefix_app p s : strip_prefix p (p +:+ s) = Some s.
Proof.
  induction p as [|a p IH]; [done|]. rewrite string_app_cons. cbn [strip_prefix].
  by rewrite decide_True.
Qed.

Definition toy_open (p c : string) : outcome error string :=
  match strip_prefix p c with Some m => Ret m | None => Fail (ErrNew "message authentication failed") end.

Fixpoint toy_bytes (n : nat) (seed : nat) : string :=
  match n with O => EmptyString | S n => String (ascii_of_nat seed) (toy_bytes n (S seed)) end.

#[export] Instance toy_crypto : Crypto nat N N := {|
  rand_ReadFull n seed := (Ret (toy_bytes (Z.to_nat n) seed), (seed + Z.to_nat n)%nat);
  EncryptOAEP pk m seed := (Ret (pretty pk +:+ m), seed);
  DecryptOAEP sk c := toy_open (pretty sk) c;
|}.

Lemma toy_bytes_length n seed : String.length (toy_bytes n seed) = n.
Proof. revert seed. induction n as [|n IH]; intros seed; [done|]. cbn. by rewrite IH. Qed.

#[export] Instance toy_crypto_laws : CryptoLaws nat N N.
Proof.
  refine {| key_pair := eq |}.
  - intros n r b r' Hn [= <- <-]. unfold len. rewrite toy_bytes_length. lia.
  - intros pk sk m r c r' -> [= <- <-]. cbn. unfold toy_open. by rewrite strip_prefix_app.
Defined.

Lemma decrypt_encrypt_witness :
  exists body r', Encrypt (PK := N) (SK := N) "payload" (Some 7%N) 0%nat = (Ret body, r') /\
    Decrypt (R := nat) (PK := N) body (Some 7%N) = Ret "payload".
Proof.
  destruct (Encrypt (PK := N) (SK := N) "payload" (Some 7%N) 0%nat) as [o r'] eqn:E.
  destruct o as [body|e|p].
  - exists body, r'. split; [reflexivity|].
    exact (decrypt_encrypt "payload" 7%N 7%N 0%nat body r' eq_refl E).
  - discriminate E.
  - discriminate E.
Defined.
