(* ===== verification/Middleware.v ===== *)
(** * HTTP middlewares: [internal/server/transport/http/middleware]

    Each middleware is a function from handlers to handlers.  The wrappers it
    puts around the response writer are instances of [ResponseWriter], so the
    next handler runs on them unchanged. *)

From S2P Require Import Prelude GoError GoString GoContext GoMap NetIP Log Http Protocol Sha256 GoJson Instances AesGcm Encryption.
Local Open Scope Z_scope.

(** Run the next handler on a wrapped writer; [out] unwraps, also after a panic. *)
Definition with_writer {S V W A : Type} (v : W -> V) (out : W -> V -> W) (m : M (S * V) A)
    : M (S * W) (A * V) := fun st =>
  match m (st.1, v st.2) with
  | (Ret a, (s', v')) => (Ret (a, v'), (s', out st.2 v'))
  | (Fail e, (s', v')) => (Fail e, (s', out st.2 v'))
  | (Panic p, (s', v')) => (Panic p, (s', out st.2 v'))
  end.

(** ** [logging.go] *)

Record loggingResponseWriter (W : Type) : Type := MkLoggingRW {
  lrw_ResponseWriter : W;
  lrw_statusCode : Z;
  lrw_size : Z;
}.
Arguments MkLoggingRW {W} _ _ _.
Arguments lrw_ResponseWriter {W} _.
Arguments lrw_statusCode {W} _.
Arguments lrw_size {W} _.

Section Logging.
Context {W : Type} `{!ResponseWriter W}.

Definition newLoggingResponseWriter (w : W) : loggingResponseWriter W := MkLoggingRW w StatusOK 0.

Definition lrw_WriteHeader (statusCode : Z) (lw : loggingResponseWriter W) : loggingResponseWriter W :=
  MkLoggingRW (rw_WriteHeader statusCode (lrw_ResponseWriter lw)) statusCode (lrw_size lw).

Definition lrw_Write (b : string) (lw : loggingResponseWriter W) : Z * loggingResponseWriter W :=
  let '(n, w) := rw_Write b (lrw_ResponseWriter lw) in
  (n, MkLoggingRW w (lrw_statusCode lw) (lrw_size lw + n)).

#[export] Instance logging_response_writer : ResponseWriter (loggingResponseWriter W) := {|
  rw_Header lw := rw_Header (lrw_ResponseWriter lw);
  rw_SetHeaders h lw :=
    MkLoggingRW (rw_SetHeaders h (lrw_ResponseWriter lw)) (lrw_statusCode lw) (lrw_size lw);
  rw_WriteHeader := lrw_WriteHeader;
  rw_Write := lrw_Write;
|}.
End Logging.

Definition WithLogging {S : Type} `{!Logs S} (next : Handler S) : Handler S := fun W _ r =>
  start ← on_fst (gets time_Now);
  '(_, lw) ← with_writer newLoggingResponseWriter (fun _ lw => lrw_ResponseWriter lw)
               (next (loggingResponseWriter W) _ r);
  finish ← on_fst (gets time_Now);
  let fields := [FString "uri" (RequestURI r); FString "method" (Method r);
    FDuration "duration" (finish - start); FInt "status" (lrw_statusCode lw);
    FInt "size" (lrw_size lw)] in
  if decide (StatusInternalServerError <= lrw_statusCode lw)
  then on_fst (log ErrorLevel "http request completed" fields)
  else on_fst (log DebugLevel "http request completed" fields).

(** ** [hash.go] *)

Record hashResponseWriter : Type := MkHashRW {
  hrw_header : Header;
  hrw_body : string;
  hrw_statusCode : Z;
}.

Definition newHashResponseWriter : hashResponseWriter := MkHashRW ∅ "" 0.

Definition hrw_Write (p : string) (w : hashResponseWriter) : Z * hashResponseWriter :=
  (len p, MkHashRW (hrw_header w) (hrw_body w +:+ p)
            (if decide (hrw_statusCode w = 0) then StatusOK else hrw_statusCode w)).

Definition hrw_WriteHeader (statusCode : Z) (w : hashResponseWriter) : hashResponseWriter :=
  if decide (hrw_statusCode w = 0) then MkHashRW (hrw_header w) (hrw_body w) statusCode else w.

#[export] Instance hash_response_writer : ResponseWriter hashResponseWriter := {|
  rw_Header := hrw_header;
  rw_SetHeaders h w := MkHashRW h (hrw_body w) (hrw_statusCode w);
  rw_WriteHeader := hrw_WriteHeader;
  rw_Write := hrw_Write;
|}.

(** [for k, values := range src { for _, v := range values { dst.Add(k, v) } }] *)
Definition copy_header `{MapRange} (src dst : Header) : Header :=
  foldl (fun h kv => foldl (fun h v => header_Add kv.1 v h) h kv.2) dst (range_map src).

Section Hash.
Context `{MapRange} {S : Type}.

(** What the middleware writes to the client once the handler is done. *)
Definition send_signed {W : Type} `{!ResponseWriter W} (hashKey : string) (hw : hashResponseWriter)
    : M (S * W) unit :=
  let responseBody := hrw_body hw in
  let responseHash := CalcHash responseBody hashKey in
  let header := if decide (responseHash = "") then hrw_header hw
                else header_Set HeaderHashSHA256 responseHash (hrw_header hw) in
  _ ← on_snd (modify (fun w => rw_SetHeaders (copy_header header (rw_Header w)) w));
  let statusCode := if decide (hrw_statusCode hw = 0) then StatusOK else hrw_statusCode hw in
  _ ← WriteHeader statusCode;
  if decide (0 < len responseBody) then Write responseBody else mret tt.

(** The verified request: [Some] with its body restored, [None] when it is refused. *)
Definition check_hash (hashKey : string) (r : Request) : option Request :=
  match ReqBody r with
  | None => Some r
  | Some b =>
      match ReadAll b with
      | Ret body =>
          let expectedHash := header_Get (ReqHeader r) HeaderHashSHA256 in
          if decide (expectedHash <> "" /\ expectedHash <> CalcHash body hashKey) then None
          else Some (set_body (bytes_body body) r)
      | _ => None
      end
  end.

Definition WithHash (hashKey : string) (next : Handler S) : Handler S := fun W RW r =>
  if decide (hashKey = "") then next W RW r
  else
    match check_hash hashKey r with
    | None => WriteHeader StatusBadRequest
    | Some r =>
        '(_, hw) ← with_writer (fun _ => newHashResponseWriter) (fun w _ => w)
                     (next hashResponseWriter _ r);
        send_signed hashKey hw
    end.
End Hash.

(** ** [decryption.go] *)

Section Decryption.
Context {S R PK SK : Type} `{!Crypto R PK SK} `{JsonText}.

Definition set_plain_body (plain : string) (r : Request) : Request :=
  MkRequest (Method r) (RequestURI r) (RemoteAddr r)
    (header_Del HeaderContentEncryption (ReqHeader r)) (Some (bytes_body plain)) (len plain)
    (URLParam r) (ReqContext r).

Definition decryptRequestBody (r : Request) (b : Body) (privateKey : SK) : outcome error Request :=
  and_then (ReadAll b) (fun encryptedBody =>
  and_then (Decrypt encryptedBody (Some privateKey)) (fun decryptedBody =>
  Ret (set_plain_body decryptedBody r))).

Definition WithDecryption (privateKey : option SK) (next : Handler S) : Handler S := fun W RW r =>
  let scheme := header_Get (ReqHeader r) HeaderContentEncryption in
  if decide (scheme = "") then next W RW r
  else
    match privateKey with
    | None => WriteHeader StatusBadRequest
    | Some privateKey =>
        if negb (EqualFold scheme SchemeRSAOAEPWithAESGCM) then WriteHeader StatusBadRequest
        else
          match ReqBody r with
          | None => WriteHeader StatusBadRequest
          | Some b =>
              match decryptRequestBody r b privateKey with
              | Fail _ => WriteHeader StatusBadRequest
              | Panic p => panic p
              | Ret r => next W RW r
              end
          end
    end.
End Decryption.

(** ** [gzip.go] *)

(** The DEFLATE codec: what a [gzip.Writer] has written once closed, and
    [gzip.NewReader], whose result is the body it will yield. *)
Class Gzip := {
  gzip_compress : string -> string;
  gzip_open : Body -> outcome error Body;
}.

Class GzipLaws `{Gzip} :=
  gzip_open_compress data : gzip_open (bytes_body (gzip_compress data)) = Ret (bytes_body data).

(** [writer]: not chosen yet, the original, or a gzip writer and what was written to it. *)
Inductive cw_writer : Type := NoWriter | PlainWriter | GzipWriter (written : string).

Record compressWriter (W : Type) : Type := MkCompressWriter { cw_w : W; cw_mode : cw_writer }.
Arguments MkCompressWriter {W} _ _.
Arguments cw_w {W} _.
Arguments cw_mode {W} _.

Section GzipWriter.
Context `{Gzip} {W : Type} `{!ResponseWriter W}.

Definition newCompressWriter (w : W) : compressWriter W := MkCompressWriter w NoWriter.

Definition initWriter (c : compressWriter W) : compressWriter W :=
  match cw_mode c with
  | NoWriter =>
      let contentType := ToLower (header_Get (rw_Header (cw_w c)) HeaderContentType) in
      if HasPrefix contentType ContentTypeJSON || HasPrefix contentType ContentTypeHTML
      then MkCompressWriter
             (rw_SetHeaders (header_Set HeaderContentEncoding EncodingGzip (rw_Header (cw_w c))) (cw_w c))
             (GzipWriter "")
      else MkCompressWriter (cw_w c) PlainWriter
  | _ => c
  end.

Definition cw_WriteHeader (statusCode : Z) (c : compressWriter W) : compressWriter W :=
  let c := initWriter c in
  MkCompressWriter (rw_WriteHeader statusCode (cw_w c)) (cw_mode c).

Definition cw_Write (p : string) (c : compressWriter W) : Z * compressWriter W :=
  let c := match cw_mode c with NoWriter => cw_WriteHeader StatusOK c | _ => c end in
  match cw_mode c with
  | GzipWriter written => (len p, MkCompressWriter (cw_w c) (GzipWriter (written +:+ p)))
  | _ => let '(n, w) := rw_Write p (cw_w c) in (n, MkCompressWriter w (cw_mode c))
  end.

(** [Close]: the compressed stream reaches the client. *)
Definition cw_Close (c : compressWriter W) : W :=
  match cw_mode c with
  | GzipWriter written => (rw_Write (gzip_compress written) (cw_w c)).2
  | _ => cw_w c
  end.

#[export] Instance compress_writer : ResponseWriter (compressWriter W) := {|
  rw_Header c := rw_Header (cw_w c);
  rw_SetHeaders h c := MkCompressWriter (rw_SetHeaders h (cw_w c)) (cw_mode c);
  rw_WriteHeader := cw_WriteHeader;
  rw_Write := cw_Write;
|}.
End GzipWriter.

Section GzipMiddleware.
Context `{Gzip} {S : Type}.

Definition supports_gzip (r : Request) : bool :=
  Contains (ToLower (header_Get (ReqHeader r) HeaderAcceptEncoding)) EncodingGzip.
Definition sends_gzip (r : Request) : bool :=
  Contains (ToLower (header_Get (ReqHeader r) HeaderContentEncoding)) EncodingGzip.

(** [newCompressReader] *)
Definition newCompressReader (b : option Body) : outcome error Body :=
  match b with
  | None => Panic "nil pointer dereference"
  | Some b => gzip_open b
  end.

Definition serve_gzip (next : Handler S) (r : Request) (W : Type) (RW : ResponseWriter W)
    : M (S * W) unit :=
  if supports_gzip r then
    _ ← with_writer newCompressWriter (fun _ c => cw_Close c) (next (compressWriter W) _ r); mret tt
  else next W RW r.

Definition WithGzip (next : Handler S) : Handler S := fun W RW r =>
  if sends_gzip r then
    match newCompressReader (ReqBody r) with
    | Fail _ => WriteHeader StatusInternalServerError
    | Panic p => panic p
    | Ret cr => serve_gzip next (set_body cr r) W RW
    end
  else serve_gzip next r W RW.
End GzipMiddleware.

(** ** [trusted_subnet.go] *)

Definition WithTrustedSubnet {S : Type} (subnet : option IPNet) (next : Handler S) : Handler S :=
  fun W RW r =>
  match subnet with
  | None => next W RW r
  | Some subnet =>
      match ParseIP (header_Get (ReqHeader r) HeaderRealIP) with
      | Some ip =>
          if IPNet_Contains subnet ip then next W RW r else WriteHeader StatusForbidden
      | None => WriteHeader StatusForbidden
      end
  end.

(** ** Copying headers *)

(** A header as [net/http] builds it: canonical keys, no empty value list. *)
Definition canonical (h : Header) : Prop :=
  map_Forall (fun k vs => CanonicalKey k = k /\ vs <> []) h.

Lemma add_all_lookup k vs (h : Header) k' :
  CanonicalKey k = k ->
  foldl (fun h v => header_Add k v h) h vs !! k'
  = if decide (k' = k /\ vs <> []) then Some (default [] (h !! k) ++ vs) else h !! k'.
Proof.
  intros Hk. revert h. induction vs as [|v vs IH]; intros h.
  { cbn [foldl]. rewrite decide_False by naive_solver. done. }
  cbn [foldl]. rewrite IH. unfold header_Add. rewrite Hk.
  destruct (decide (k' = k)) as [->|Hne].
  - rewrite (decide_True (P := k = k /\ v :: vs <> [])) by done. rewrite lookup_insert_eq. cbn [from_option id].
    destruct (decide (k = k /\ vs <> [])) as [|Hn].
    + by rewrite <-app_assoc.
    + assert (vs = []) as -> by (destruct vs; [done|by destruct Hn]). done.
  - rewrite !decide_False by tauto. by rewrite lookup_insert_ne.
Qed.

Lemma copy_header_go (l : list (string * list string)) (h : Header) k :
  NoDup l.*1 -> Forall (fun kv => CanonicalKey kv.1 = kv.1 /\ kv.2 <> []) l ->
  foldl (fun h kv => foldl (fun h v => header_Add kv.1 v h) h kv.2) h l !! k
  = match (list_to_map l : Header) !! k with
    | Some vs => Some (default [] (h !! k) ++ vs)
    | None => h !! k
    end.
Proof.
  revert h. induction l as [|[k' vs] l IH]; intros h Hnd Hl; [done|].
  cbn in Hnd. apply NoDup_cons in Hnd as [Hn Hnd]. apply Forall_cons in Hl as [[Hk Hvs] Hl].
  cbn [foldl]. rewrite IH by done. cbn [list_to_map foldr fst snd uncurry]. cbn in Hk, Hvs |- *.
  rewrite add_all_lookup by done.
  destruct (decide (k = k')) as [->|Hne].
  - rewrite (not_elem_of_list_to_map_1 l k') by done. rewrite lookup_insert_eq.
    by rewrite decide_True.
  - rewrite lookup_insert_ne by done. by rewrite decide_False by tauto.
Qed.

(** Copying into an empty header gives the same header, in any range order. *)
Lemma copy_header_empty `{MapRange} (src : Header) : canonical src -> copy_header src ∅ = src.
Proof.
  intros Hc. apply map_eq. intros k. unfold copy_header. rewrite copy_header_go.
  - rewrite (list_to_map_proper (range_map src) (map_to_list src)).
    + rewrite list_to_map_to_list, lookup_empty. by destruct (src !! k).
    + apply range_map_NoDup.
    + apply range_map_perm.
  - apply range_map_NoDup.
  - rewrite range_map_perm. apply Forall_forall. intros [k' vs] Hin%elem_of_map_to_list. by apply Hc in Hin.
Qed.

Lemma canonical_go_idemp up s : canonical_go up (canonical_go up s) = canonical_go up s.
Proof.
  revert up. induction s as [|c s IH]; intros up; [done|]. cbn [canonical_go].
  assert (Hc : forallb (fun n => let c := ascii_of_nat n in
      bool_decide (upper_ascii (upper_ascii c) = upper_ascii c) &&
      bool_decide (lower_ascii (lower_ascii c) = lower_ascii c) &&
      eqb (bool_decide (upper_ascii c = "-"%char)) (bool_decide (c = "-"%char)) &&
      eqb (bool_decide (lower_ascii c = "-"%char)) (bool_decide (c = "-"%char))) (seq 0 256) = true)
    by (vm_compute; reflexivity).
  rewrite forallb_forall in Hc.
  assert (Hin : In (nat_of_ascii c) (seq 0 256))
    by (apply in_seq; pose proof (nat_ascii_bounded c); lia).
  specialize (Hc _ Hin). cbv zeta in Hc. rewrite ascii_nat_embedding in Hc.
  apply andb_true_iff in Hc as [[[H1 H2]%andb_true_iff H3]%andb_true_iff H4].
  apply bool_decide_eq_true in H1, H2. apply eqb_prop in H3, H4.
  destruct up; rewrite ?H1, ?H2, ?H3, ?H4, IH; done.
Qed.

Lemma CanonicalKey_idemp s : CanonicalKey (CanonicalKey s) = CanonicalKey s.
Proof. apply canonical_go_idemp. Qed.

Lemma canonical_empty : canonical ∅.
Proof. apply map_Forall_empty. Qed.

Lemma canonical_Set k v h : canonical h -> canonical (header_Set k v h).
Proof. intros Hh. apply map_Forall_insert_2; [|done]. split; [apply CanonicalKey_idemp|done]. Qed.

(** ** What each middleware does to a reply *)

#[export] Instance logging_writer_laws {W : Type} `{!ResponseWriter W} `{!ResponseWriterLaws W} :
  ResponseWriterLaws (loggingResponseWriter W).
Proof. intros h w. cbn. apply rw_Header_SetHeaders. Qed.

#[export] Instance hash_writer_laws : ResponseWriterLaws hashResponseWriter.
Proof. by intros h w. Qed.

(** *** Logging *)
Section LoggingLaws.
Context {S : Type} `{!Logs S}.

Definition request_entry (r : Request) (duration status size : Z) : entry :=
  MkEntry (if decide (StatusInternalServerError <= status) then ErrorLevel else DebugLevel)
    "http request completed"
    [FString "uri" (RequestURI r); FString "method" (Method r); FDuration "duration" duration;
     FInt "status" status; FInt "size" size].

Lemma WithLogging_run (next : Handler S) (W : Type) (RW : ResponseWriter W) r s w s' lw :
  next (loggingResponseWriter W) _ r (s, newLoggingResponseWriter w) = (Ret tt, (s', lw)) ->
  WithLogging next W RW r (s, w)
  = (Ret tt, (log_append (request_entry r (time_Now s' - time_Now s) (lrw_statusCode lw) (lrw_size lw)) s',
              lrw_ResponseWriter lw)).
Proof.
  intros E. unfold WithLogging.
  erewrite (bind_Ret _ _ (s, w) (time_Now s) (s, w)) by done.
  erewrite (bind_Ret _ _ (s, w) (tt, lw) (s', lrw_ResponseWriter lw))
    by (unfold with_writer; cbn [fst snd]; by rewrite E).
  erewrite (bind_Ret _ _ (s', _) (time_Now s') (s', _)) by done.
  unfold request_entry. by case_decide.
Qed.

(** Logging is invisible to the client and leaves exactly one entry, with the
    status and the size that were really sent; the entry is at error level for
    statuses from 500 up and at debug level below. *)
Theorem with_logging_outcome (next : Handler S) r s s' rep :
  answers next r s (Ret tt) s' rep ->
  WithLogging next Response _ r (s, new_response)
  = (Ret tt, (log_append (request_entry r (time_Now s' - time_Now s) (reply_status rep)
       (len (default "" (reply_body rep)))) s', emit rep new_response)).
Proof.
  intros Ha. erewrite WithLogging_run by apply Ha. by destruct rep as [[] c []].
Qed.
End LoggingLaws.

(** *** Signatures *)
Section HashLaws.
Context `{MapRange} {S : Type}.

Definition reply_header (rep : Reply) : Header :=
  match reply_type rep with Some t => header_Set HeaderContentType t ∅ | None => ∅ end.

Lemma canonical_reply_header rep : canonical (reply_header rep).
Proof. unfold reply_header. destruct (reply_type rep); auto using canonical_Set, canonical_empty. Qed.

Definition hash_writer_of (header : Header) (rep : Reply) : hashResponseWriter :=
  MkHashRW header (default "" (reply_body rep)) (reply_status rep).

Lemma emit_hash_writer rep :
  0 < reply_status rep -> emit rep newHashResponseWriter = hash_writer_of (reply_header rep) rep.
Proof.
  intros Hc. destruct rep as [ty c b]. cbn in Hc.
  destruct ty as [t|], b as [p|]; unfold emit; cbn -[header_Set decide];
    unfold hrw_WriteHeader, hrw_Write; cbn -[header_Set decide];
    repeat (case_decide; cbn -[header_Set decide] in *; try lia); done.
Qed.

(** The signed response on the client's side. *)
Lemma send_signed_run hashKey (hw : hashResponseWriter) (s : S) :
  hashKey <> "" -> canonical (hrw_header hw) -> 0 < hrw_statusCode hw ->
  let header := header_Set HeaderHashSHA256 (CalcHash (hrw_body hw) hashKey) (hrw_header hw) in
  send_signed hashKey hw (s, new_response)
  = (Ret tt, (s, MkResponse header (Some (hrw_statusCode hw)) header (hrw_body hw))).
Proof.
  intros Hk Hc Hs. cbn zeta. unfold send_signed.
  rewrite (decide_False (P := CalcHash (hrw_body hw) hashKey = "")) by by apply CalcHash_nonempty.
  rewrite (decide_False (P := hrw_statusCode hw = 0)) by lia.
  unfold mbind, St_bind, on_snd, modify, WriteHeader, Write. cbn -[copy_header header_Set].
  rewrite copy_header_empty by by apply canonical_Set.
  case_decide as Hl.
  - done.
  - cbn -[header_Set]. unfold resp_WriteHeader. cbn -[header_Set].
    assert (hrw_body hw = "") as -> by (destruct (hrw_body hw); [done|unfold len in Hl; cbn in Hl; lia]).
    done.
Qed.

(** C29: with a key, a request whose signature does not match its body is refused
    with 400 before the handler runs; any other request reaches the handler with
    its body intact, and the response carries the signature of exactly the body
    the client receives, with the handler's status and content type. *)
Theorem with_hash_outcome hashKey (next : Handler S) r s body :
  hashKey <> "" -> ReqBody r = Some (bytes_body body) ->
  let signature := header_Get (ReqHeader r) HeaderHashSHA256 in
  (signature <> "" -> signature <> CalcHash body hashKey ->
     WithHash hashKey next Response _ r (s, new_response)
     = (Ret tt, (s, emit (status_reply StatusBadRequest) new_response))) /\
  (signature = "" \/ signature = CalcHash body hashKey -> forall s' rep,
     answers next r s (Ret tt) s' rep -> 0 < reply_status rep ->
     exists resp, WithHash hashKey next Response _ r (s, new_response) = (Ret tt, (s', resp)) /\
       resp_status resp = Some (reply_status rep) /\ resp_body resp = default "" (reply_body rep) /\
       header_Get (resp_sent resp) HeaderHashSHA256 = CalcHash (resp_body resp) hashKey /\
       header_Get (resp_sent resp) HeaderContentType = default "" (reply_type rep)).
Proof.
  intros Hk Hb. cbn zeta. unfold WithHash, check_hash. rewrite decide_False by done. rewrite Hb. cbn [ReadAll bytes_body body_end body_data].
  split.
  - intros Hne Hbad. by rewrite decide_True.
  - intros Hok s' rep Ha Hc. rewrite decide_False by tauto.
    replace (set_body (bytes_body body) r) with r by (destruct r; cbn in *; by rewrite Hb).
    erewrite bind_Ret; [|unfold with_writer; cbn [fst snd]; rewrite Ha; done].
    rewrite emit_hash_writer by done.
    eexists. rewrite send_signed_run; [|done|apply canonical_reply_header|done].
    split; [done|]. cbn [resp_status resp_body resp_sent hash_writer_of hrw_body hrw_statusCode hrw_header].
    rewrite header_Get_Set, header_Get_Set_ne by done.
    split_and!; try done. unfold reply_header. by destruct (reply_type rep); [rewrite header_Get_Set|].
Qed.
End HashLaws.

(** *** Decryption *)
Section DecryptionLaws.
Context {S R PK SK : Type} `{!Crypto R PK SK} `{JsonText}.

(** An encrypted request whose body decrypts. *)
Lemma WithDecryption_run (next : Handler S) sk r b cipher plain (W : Type) (RW : ResponseWriter W) st :
  header_Get (ReqHeader r) HeaderContentEncryption <> "" ->
  EqualFold (header_Get (ReqHeader r) HeaderContentEncryption) SchemeRSAOAEPWithAESGCM = true ->
  ReqBody r = Some b -> ReadAll b = Ret cipher -> Decrypt (R := R) (PK := PK) cipher (Some sk) = Ret plain ->
  WithDecryption (R := R) (PK := PK) (Some sk) next W RW r st = next W RW (set_plain_body plain r) st.
Proof.
  intros Hne Hs Hb Hr Hd. unfold WithDecryption. rewrite decide_False by done.
  rewrite Hs, Hb. cbn [negb]. unfold decryptRequestBody. by rewrite Hr; cbn [and_then]; rewrite Hd.
Qed.

(** C30: what the decryption layer does, for every request.  One that declares no
    encryption passes unchanged.  One that declares it is refused with 400, and the
    handler never runs, if the scheme is another one, if the server has no key, or if
    there is no body.  Otherwise the body decides: if it is read and decrypts, the handler
    runs on its plaintext with the header that declared the encryption removed; if it does
    not, the request is refused with 400 (a panic of the private-key operation, which RSA
    does not have, would pass through). *)
Theorem with_decryption_outcome (privateKey : option SK) (next : Handler S) r s :
  let layer := WithDecryption (R := R) (PK := PK) privateKey next in
  let scheme := header_Get (ReqHeader r) HeaderContentEncryption in
  let refused := answers layer r s (Ret tt) s (status_reply StatusBadRequest) in
  (scheme = "" -> forall W RW st, layer W RW r st = next W RW r st) /\
  (scheme <> "" -> EqualFold scheme SchemeRSAOAEPWithAESGCM = false -> refused) /\
  (scheme <> "" -> privateKey = None -> refused) /\
  (scheme <> "" -> ReqBody r = None -> refused) /\
  (forall sk b, scheme <> "" -> EqualFold scheme SchemeRSAOAEPWithAESGCM = true -> privateKey = Some sk ->
     ReqBody r = Some b ->
     match and_then (ReadAll b) (fun cipher => Decrypt (R := R) (PK := PK) cipher (Some sk)) with
     | Ret plain => header_Get (ReqHeader (set_plain_body plain r)) HeaderContentEncryption = "" /\
         forall W RW st, layer W RW r st = next W RW (set_plain_body plain r) st
     | Fail _ => refused
     | Panic p => forall W RW st, layer W RW r st = panic p st
     end).
Proof.
  cbn zeta. unfold answers, WithDecryption. split_and!.
  - intros Hs W RW st. by rewrite decide_True.
  - intros Hs Hf W RW w. rewrite decide_False by done. destruct privateKey; [|done]. by rewrite Hf.
  - intros Hs -> W RW w. by rewrite decide_False.
  - intros Hs Hb W RW w. rewrite decide_False by done. destruct privateKey; [|done].
    destruct (EqualFold _ _); [|done]. by rewrite Hb.
  - intros sk b Hs Hf -> Hb. unfold decryptRequestBody.
    destruct (ReadAll b) as [cipher|e|p] eqn:Hr; cbn [and_then];
      [destruct (Decrypt cipher (Some sk)) as [plain|e|p] eqn:Hd; [split; [apply header_Get_Del|]|..]|..];
      intros W RW st; rewrite decide_False by done; rewrite Hf, Hb; cbn [negb]; rewrite Hr; cbn [and_then];
      by rewrite ?Hd.
Qed.
End DecryptionLaws.

(** *** Compression *)
Section GzipLaws.
Context `{Gzip} {S : Type}.

(** The content types worth compressing. *)
Definition compressible (contentType : string) : bool :=
  HasPrefix (ToLower contentType) ContentTypeJSON || HasPrefix (ToLower contentType) ContentTypeHTML.

Definition compress_reply {W : Type} `{!ResponseWriter W} (rep : Reply) (w : W) : W :=
  let w := match reply_type rep with
           | Some t => rw_SetHeaders (header_Set HeaderContentType t (rw_Header w)) w
           | None => w
           end in
  let w := rw_SetHeaders (header_Set HeaderContentEncoding EncodingGzip (rw_Header w)) w in
  (rw_Write (gzip_compress (default "" (reply_body rep))) (rw_WriteHeader (reply_status rep) w)).2.

Lemma emit_compress_writer {W : Type} `{!ResponseWriter W} `{!ResponseWriterLaws W} rep (w : W) :
  header_Get (rw_Header w) HeaderContentType = "" ->
  cw_Close (emit rep (newCompressWriter w))
  = if compressible (default "" (reply_type rep)) then compress_reply rep w else emit rep w.
Proof.
  intros Hct. destruct rep as [ty c b]. unfold emit, compress_reply.
  cbn [reply_type reply_status reply_body rw_WriteHeader rw_SetHeaders rw_Header rw_Write compress_writer].
  set (c0 := match ty with Some t => _ | None => newCompressWriter w end).
  set (w0 := match ty with Some t => rw_SetHeaders _ w | None => w end).
  assert (Hc0 : c0 = MkCompressWriter w0 NoWriter) by (by destruct ty). clearbody c0. subst c0.
  assert (Hh : header_Get (rw_Header w0) HeaderContentType = default "" ty).
  { unfold w0. destruct ty as [t|]; [|exact Hct]. rewrite rw_Header_SetHeaders. apply header_Get_Set. }
  unfold cw_WriteHeader, initWriter. cbn [cw_mode cw_w]. rewrite Hh. fold (compressible (default "" ty)).
  destruct (compressible (default "" ty)).
  - destruct b as [p|]; cbn; [|done]. by unfold cw_Write.
  - destruct b as [p|]; cbn; [|done]. unfold cw_Write. cbn [cw_mode cw_w].
    by destruct (rw_Write p (rw_WriteHeader c w0)).
Qed.

Lemma serve_gzip_run (next : Handler S) r s s' rep (W : Type) (RW : ResponseWriter W)
    `{!ResponseWriterLaws W} (w : W) :
  answers next r s (Ret tt) s' rep -> header_Get (rw_Header w) HeaderContentType = "" ->
  serve_gzip next r W RW (s, w)
  = (Ret tt, (s', if supports_gzip r && compressible (default "" (reply_type rep))
                  then compress_reply rep w else emit rep w)).
Proof.
  intros Ha Hct. unfold serve_gzip. destruct (supports_gzip r); [|apply Ha].
  cbn [andb]. unfold mbind, St_bind, with_writer. cbn [fst snd]. rewrite Ha.
  by rewrite emit_compress_writer.
Qed.

(** The request the handler gets: the body as it is, or its decompressed contents. *)
Definition unzipped (r : Request) : outcome error Request :=
  if sends_gzip r then and_then (newCompressReader (ReqBody r)) (fun b => Ret (set_body b r)) else Ret r.

Lemma WithGzip_unzipped (next : Handler S) r W (RW : ResponseWriter W) st :
  WithGzip next W RW r st = match unzipped r with
    | Ret r' => serve_gzip next r' W RW st
    | Fail _ => WriteHeader StatusInternalServerError st
    | Panic p => panic p st
    end.
Proof.
  unfold WithGzip, unzipped. destruct (sends_gzip r); [|done]. by destruct (newCompressReader (ReqBody r)).
Qed.

Lemma unzipped_supports r r' : unzipped r = Ret r' -> supports_gzip r' = supports_gzip r.
Proof.
  unfold unzipped. destruct (sends_gzip r); [|by intros [= <-]].
  destruct (newCompressReader (ReqBody r)) as [b|e|p]; cbn [and_then]; by intros [= <-].
Qed.

(** C31: over any handler that answers once and returns, a client that accepts gzip gets
    JSON and HTML bodies compressed, marked as such, with the handler's status; decompressing gives the handler's body, and other
    bodies, and those of other clients, are sent as they are.  This holds whether or not
    the request's own body is compressed: a compressed one reaches the handler
    decompressed, and one that is not gzip is answered 500 without running it.  (Without a
    body at all, which [net/http] does not deliver, declaring gzip panics.) *)
Theorem gzip_response_outcome `{!GzipLaws} (next : Handler S) r s :
  match unzipped r with
  | Fail _ => answers (WithGzip next) r s (Ret tt) s (status_reply StatusInternalServerError)
  | Panic p => forall W RW st, WithGzip next W RW r st = panic p st
  | Ret r' =>
      (sends_gzip r = false -> r' = r) /\
      (sends_gzip r = true -> exists b plain, ReqBody r = Some b /\ gzip_open b = Ret plain /\ r' = set_body plain r) /\
      forall s' rep, answers next r' s (Ret tt) s' rep ->
      exists resp, WithGzip next Response _ r (s, new_response) = (Ret tt, (s', resp)) /\
        resp_status resp = Some (reply_status rep) /\
        header_Get (resp_sent resp) HeaderContentType = default "" (reply_type rep) /\
        (if supports_gzip r && compressible (default "" (reply_type rep))
         then header_Get (resp_sent resp) HeaderContentEncoding = EncodingGzip /\
              gzip_open (bytes_body (resp_body resp)) = Ret (bytes_body (default "" (reply_body rep)))
         else header_Get (resp_sent resp) HeaderContentEncoding = "" /\
              resp_body resp = default "" (reply_body rep))
  end.
Proof.
  destruct (unzipped r) as [r'|e|p] eqn:Hu; [|intros W RW st; by rewrite WithGzip_unzipped, Hu..].
  split; [|split; [|intros s' rep Ha]].
  - intros Hs. unfold unzipped in Hu. rewrite Hs in Hu. by injection Hu.
  - intros Hs. unfold unzipped in Hu. rewrite Hs in Hu. destruct (ReqBody r) as [b|]; [|done]. cbn in Hu.
    destruct (gzip_open b) as [plain|e|p] eqn:Ho; [|done..]. injection Hu as <-. by exists b, plain.
  - eexists. rewrite WithGzip_unzipped, Hu. split; [by apply serve_gzip_run|]. rewrite (unzipped_supports _ _ Hu).
    destruct rep as [ty c b].
    assert (Hne : CanonicalKey HeaderContentType <> CanonicalKey HeaderContentEncoding) by done.
    destruct (supports_gzip r && _); cbn [reply_type reply_status reply_body].
    + unfold compress_reply. cbn [reply_type reply_status reply_body].
      destruct ty as [t|]; cbn -[header_Set header_Get];
        rewrite !header_Get_Set, header_Get_Set_ne by done; rewrite ?header_Get_Set; cbn;
        split_and!; try done; apply gzip_open_compress.
    + rewrite emit_new_response. cbn [reply_type reply_status reply_body resp_status resp_sent resp_body].
      destruct ty as [t|]; [|done].
      change "Content-Type" with HeaderContentType.
      by rewrite header_Get_Set, header_Get_Set_ne.
Qed.

(** A gzip request body reaches the handler decompressed; a body that is not
    gzip is answered 500 and the handler never runs. *)
Theorem gzip_request_outcome (next : Handler S) r s b :
  sends_gzip r = true -> ReqBody r = Some b ->
  (forall plain, gzip_open b = Ret plain -> forall W RW st,
     WithGzip next W RW r st = serve_gzip next (set_body plain r) W RW st) /\
  (forall e, gzip_open b = Fail e ->
     answers (WithGzip next) r s (Ret tt) s (status_reply StatusInternalServerError)).
Proof.
  intros Hs Hb. split.
  - intros plain Ho W RW st. unfold WithGzip. rewrite Hs, Hb. cbn [newCompressReader]. by rewrite Ho.
  - intros e Ho W RW w. unfold WithGzip. rewrite Hs, Hb. cbn [newCompressReader]. by rewrite Ho.
Qed.
End GzipLaws.

(** *** Trusted subnet *)

(** With a trusted subnet, a request reaches the handler exactly when its
    [X-Real-IP] header is an address of the subnet; otherwise it is answered 403
    and the world is untouched.  Without a subnet every request passes. *)
Theorem trusted_subnet_outcome {S : Type} subnet (next : Handler S) r s :
  (exists n, subnet = Some n /\
     (forall ip, ParseIP (header_Get (ReqHeader r) HeaderRealIP) = Some ip -> IPNet_Contains n ip = false) /\
     answers (WithTrustedSubnet subnet next) r s (Ret tt) s (status_reply StatusForbidden)) \/
  ((forall n, subnet = Some n -> exists ip,
      ParseIP (header_Get (ReqHeader r) HeaderRealIP) = Some ip /\ IPNet_Contains n ip = true) /\
   forall W RW st, WithTrustedSubnet subnet next W RW r st = next W RW r st).
Proof.
  unfold answers, WithTrustedSubnet. destruct subnet as [n|]; [|by right].
  destruct (ParseIP _) as [ip|]; [|left; by exists n].
  destruct (IPNet_Contains n ip) eqn:E; [right; split; [|done]; naive_solver|].
  left. exists n. split_and!; [done|naive_solver|done].
Qed.

(** ** Witnesses *)

(** A codec to evaluate with: a magic number in front of the data. *)
#[export] Instance toy_gzip : Gzip := {|
  gzip_compress data := "gz" +:+ data;
  gzip_open b :=
    match body_end b, strip_prefix "gz" (body_data b) with
    | None, Some data => Ret (bytes_body data)
    | _, _ => Fail (ErrNew "gzip: invalid header")
    end;
|}.

#[export] Instance toy_gzip_laws : GzipLaws.
Proof. by intros data. Qed.

#[local] Instance entries_logs : Logs (list entry) :=
  {| log_entries s := s; log_append e s := s ++ [e]; time_Now _ := 0 |}.

Definition hello_reply : Reply := MkReply (Some ContentTypeHTML) StatusOK (Some "hello").
Definition hello : Handler (list entry) := fun W RW r =>
  _ ← SetHeader HeaderContentType ContentTypeHTML; _ ← WriteHeader StatusOK; Write "hello".

Lemma hello_answers r s : answers hello r s (Ret tt) s hello_reply.
Proof. by intros W RW w. Qed.

Definition request_with (headers : Header) (body : string) : Request :=
  MkRequest MethodPost "/updates" "10.0.0.1:5000" headers (Some (bytes_body body)) (len body)
    (fun _ => "") Background.

Lemma with_logging_outcome_witness :
  exists e, WithLogging hello Response _ (request_with ∅ "") ([], new_response)
    = (Ret tt, ([e], emit hello_reply new_response)).
Proof.
  eexists. exact (with_logging_outcome hello (request_with ∅ "") [] [] hello_reply
    (hello_answers _ _)).
Defined.

Lemma with_hash_outcome_witness :
  WithHash "key" hello Response _ (request_with {["Hashsha256" := ["forged"]]} "body") ([], new_response)
  = (Ret tt, ([], emit (status_reply StatusBadRequest) new_response)).
Proof.
  refine (proj1 (with_hash_outcome "key" hello (request_with {["Hashsha256" := ["forged"]]} "body") []
    "body" _ _) _ _).
  - discriminate.
  - reflexivity.
  - discriminate.
  - vm_compute. discriminate.
Defined.

Definition encrypted_request (scheme body : string) : Request :=
  request_with (header_Set HeaderContentEncryption scheme ∅) body.

Lemma with_decryption_outcome_witness :
  exists body r', Encrypt (PK := N) (SK := N) "plain" (Some 7%N) 0%nat = (Ret body, r') /\
    (forall st, WithDecryption (R := nat) (PK := N) (SK := N) (Some 7%N) hello Response _
       (encrypted_request SchemeRSAOAEPWithAESGCM body) st
     = hello Response _ (set_plain_body "plain" (encrypted_request SchemeRSAOAEPWithAESGCM body)) st) /\
    answers (WithDecryption (R := nat) (PK := N) (SK := N) (Some 7%N) hello) (encrypted_request "rot13" body) []
      (Ret tt) [] (status_reply StatusBadRequest).
Proof.
  destruct (Encrypt (PK := N) (SK := N) "plain" (Some 7%N) 0%nat) as [[body|e|p] r'] eqn:E;
    [|discriminate E|discriminate E].
  assert (Hd : Decrypt (R := nat) (PK := N) body (Some 7%N) = Ret "plain")
    by exact (decrypt_then_encrypt "plain" 7%N 7%N 0%nat body r' eq_refl E).
  exists body, r'. split; [reflexivity|]. split.
  - destruct (with_decryption_outcome (R := nat) (PK := N) (SK := N) (Some 7%N) hello
      (encrypted_request SchemeRSAOAEPWithAESGCM body) []) as (_ & _ & _ & _ & H).
    specialize (H 7%N (bytes_body body) ltac:(discriminate) eq_refl eq_refl eq_refl).
    cbn [ReadAll bytes_body body_end body_data and_then] in H. rewrite Hd in H. intros st. apply H.
  - destruct (with_decryption_outcome (R := nat) (PK := N) (SK := N) (Some 7%N) hello
      (encrypted_request "rot13" body) []) as (_ & H & _).
    apply H; [discriminate|reflexivity].
Defined.

(** A client that sends and accepts gzip. *)
Definition gzip_request : Request :=
  request_with (header_Set HeaderContentEncoding EncodingGzip (header_Set HeaderAcceptEncoding EncodingGzip ∅))
    (gzip_compress "data").

Lemma gzip_response_outcome_witness :
  exists resp, WithGzip hello Response _ gzip_request ([], new_response) = (Ret tt, ([], resp)) /\
    resp_status resp = Some StatusOK /\ header_Get (resp_sent resp) HeaderContentEncoding = EncodingGzip /\
    gzip_open (bytes_body (resp_body resp)) = Ret (bytes_body "hello").
Proof.
  destruct (gzip_response_outcome hello gzip_request []) as (_ & _ & H).
  destruct (H [] hello_reply (hello_answers _ _)) as (resp & H1 & H2 & _ & H3 & H4).
  exists resp. split; [exact H1|]. split; [exact H2|]. split; [exact H3|exact H4].
Defined.

Lemma gzip_request_outcome_witness :
  answers (WithGzip hello) (request_with {["Content-Encoding" := ["gzip"]]} "not gzip") [] (Ret tt) []
    (status_reply StatusInternalServerError).
Proof.
  refine (proj2 (gzip_request_outcome hello
    (request_with {["Content-Encoding" := ["gzip"]]} "not gzip") [] (bytes_body "not gzip") _ _)
    (ErrNew "gzip: invalid header") _); reflexivity.
Defined.
