(* ===== verification/AuditTrail.v ===== *)
(** * Audit of processed metrics: [internal/server/audit]

    [audit.go]: the dispatcher over observers of any kind; [file.go]: one JSON
    line per event appended to a file; [remote.go]: one POST per event.  The
    observers act on an [AuditWorld], which carries the failures of the file and
    of the remote sink as schedules indexed by attempt. *)

From S2P Require Import Prelude GoError GoString GoNum GoContext GoJson Protocol Http Instances.
Local Open Scope Z_scope.

(** ** Events *)

Record Event : Type := MkEvent {
  TS : Z;
  EventMetrics : list string;
  IPAddress : string;
}.

#[export] Instance Event_eq_dec : EqDecision Event.
Proof. solve_decision. Defined.

Definition json_of_event (e : Event) : json :=
  JObj [("ts", JNum (FormatInt (TS e))); ("metrics", JArr (map JStr (EventMetrics e)));
        ("ip_address", JStr (IPAddress e))].

(** [json.Encoder.Encode] writes the value and a newline in one write. *)
Definition newline : string := String (byte 10) EmptyString.
Definition json_line `{JsonText} (j : json) : string := json_print j +:+ newline.

(** ** The dispatcher: [audit.go] *)

Definition Observer (X : Type) : Type := Context -> Event -> M X unit.

Module Auditor.
Section Operations.
Context {X : Type}.

Record t : Type := Mk { observers : list (Observer X) }.

Definition NewAuditor : t := Mk [].

Definition Subscribe (observer : option (Observer X)) (a : t) : t :=
  match observer with
  | None => a
  | Some o => Mk (observers a ++ [o])
  end.

(** The loop: the errors collected so far, in order. *)
Fixpoint notify_each (ctx : Context) (event : Event) (os : list (Observer X))
    : M X (list (option error)) :=
  match os with
  | [] => mret []
  | o :: os =>
      r ← attempt (o ctx event);
      errs ← notify_each ctx event os;
      mret (match r with inl _ => None | inr e => Some e end :: errs)
  end.

Definition Notify (a : t) (ctx : Context) (event : Event) : M X unit :=
  errs ← notify_each ctx event (observers a);
  match Join errs with
  | None => mret tt
  | Some e => throw e
  end.

(** ** Every observer is told *)

(** An observer that returns, with or without an error. *)
Definition quiet (o : Observer X) : Prop :=
  forall ctx ev x p x', o ctx ev x <> (Panic p, x').

Definition told (ctx : Context) (ev : Event) (x : X) (o : Observer X) : X := (o ctx ev x).2.

Lemma notify_each_quiet ctx ev os x :
  Forall quiet os ->
  exists errs, notify_each ctx ev os x = (Ret errs, foldl (told ctx ev) x os) /\
    length errs = length os /\
    forall i e, errs !! i = Some (Some e) <->
      exists o, os !! i = Some o /\ (o ctx ev (foldl (told ctx ev) x (take i os))).1 = Fail e.
Proof.
  intros Hq. revert x. induction Hq as [|o os Ho _ IH]; intros x.
  { exists []. split_and!; [done..|]. intros i e. rewrite lookup_nil. naive_solver. }
  cbn [notify_each foldl].
  pose proof (Ho ctx ev x) as Hp. destruct (o ctx ev x) as [r x'] eqn:E.
  assert (Ht : told ctx ev x o = x') by (unfold told; by rewrite E).
  destruct (IH x') as (errs & E' & Hlen & Herr). rewrite Ht.
  exists ((match r with Fail e => Some e | _ => None end) :: errs). split_and!.
  - erewrite (bind_Ret _ _ x (match r with Fail e => inr e | _ => inl tt end) x');
      [|unfold attempt; rewrite E; destruct r as [[]|e0|p]; [done..|by destruct (Hp p x')]].
    erewrite bind_Ret by exact E'. by destruct r.
  - cbn. by rewrite Hlen.
  - intros [|i] e; cbn [lookup list_lookup take foldl].
    + split; [intros [= Hr]|intros (o' & [= <-] & He)].
      * exists o. split; [done|]. rewrite E. destruct r; simplify_eq/=; done.
      * rewrite E in He. cbn in He. by subst r.
    + rewrite Ht. apply Herr.
Qed.

(** A notification reaches every subscribed observer once, in the order of
    subscription, whatever the others answered; it reports an error exactly when
    one of them failed, and then [errors.Is] finds each of their causes in it. *)
Theorem notify_reaches_all a ctx ev x :
  Forall quiet (observers a) ->
  (Notify a ctx ev x).2 = foldl (told ctx ev) x (observers a) /\
  ((Notify a ctx ev x).1 = Ret tt <->
     forall i o, observers a !! i = Some o ->
       (o ctx ev (foldl (told ctx ev) x (take i (observers a)))).1 = Ret tt) /\
  (forall err, (Notify a ctx ev x).1 = Fail err -> forall i o e target, observers a !! i = Some o ->
     (o ctx ev (foldl (told ctx ev) x (take i (observers a)))).1 = Fail e ->
     Is e target = true -> Is err target = true).
Proof.
  intros Hq. destruct (notify_each_quiet ctx ev (observers a) x Hq) as (errs & E & Hlen & Herr).
  unfold Notify. rewrite (bind_Ret _ _ _ _ _ E).
  destruct (Join errs) as [err|] eqn:HJ; cbn.
  - split_and!; [done| |].
    + split; [done|]. intros Hall. exfalso.
      enough (Forall (fun e => e = None) errs) as H%Join_None by (by rewrite H in HJ).
      apply Forall_lookup. intros i [e|] Hi; [|done].
      apply Herr in Hi as (o & Ho & He). by rewrite (Hall i o Ho) in He.
    + intros ? [= <-] i o e target Ho He Ht. rewrite (Join_Is _ _ _ HJ).
      apply existsb_exists. exists (Some e). split; [|done].
      apply list_elem_of_In, list_elem_of_lookup. exists i. apply Herr. eauto.
  - split_and!; [done| |done]. split; [|done]. intros _ i o Ho.
    destruct ((o ctx ev (foldl (told ctx ev) x (take i (observers a)))).1) as [[]|e|p] eqn:He; [done| |].
    + assert (errs !! i = Some (Some e)) as Hi by (apply Herr; eauto).
      apply Join_None in HJ. rewrite Forall_lookup in HJ. by apply HJ in Hi.
    + rewrite Forall_lookup in Hq. specialize (Hq i o Ho). exfalso.
      eapply Hq. by rewrite <-He, <-surjective_pairing.
Qed.
End Operations.
Arguments t : clear implicits.
End Auditor.

(** ** The world of the observers *)

(** A file write by attempt number: [None] succeeds, [Some (n, e)] stops after
    [n] bytes. *)
Record AuditWorld : Type := MkAuditWorld {
  aw_files : gmap string string;
  aw_open_fault : string -> option error;
  aw_write_fault : nat -> option (nat * error);
  aw_writes : nat;
  aw_close_fault : option error;
  aw_remote : nat -> Z + error;
  aw_requests : list (string * string * string);
  aw_now : Z;
}.

Definition with_files (f : gmap string string) (n : nat) (w : AuditWorld) : AuditWorld :=
  MkAuditWorld f (aw_open_fault w) (aw_write_fault w) n (aw_close_fault w) (aw_remote w)
    (aw_requests w) (aw_now w).

Definition with_request (rq : string * string * string) (w : AuditWorld) : AuditWorld :=
  MkAuditWorld (aw_files w) (aw_open_fault w) (aw_write_fault w) (aw_writes w) (aw_close_fault w)
    (aw_remote w) (aw_requests w ++ [rq]) (aw_now w).

(** [os.OpenFile(path, O_CREATE|O_WRONLY|O_APPEND)] *)
Definition open_append (path : string) : M AuditWorld unit := fun w =>
  match aw_open_fault w path with
  | Some e => (Fail e, w)
  | None => (Ret tt, with_files (<[path := default "" (aw_files w !! path)]> (aw_files w)) (aw_writes w) w)
  end.

(** [File.Write] in append mode *)
Definition append_file (path data : string) : M AuditWorld unit := fun w =>
  let old := default "" (aw_files w !! path) in
  match aw_write_fault w (aw_writes w) with
  | Some (n, e) =>
      (Fail e, with_files (<[path := old +:+ string_take n data]> (aw_files w)) (S (aw_writes w)) w)
  | None => (Ret tt, with_files (<[path := old +:+ data]> (aw_files w)) (S (aw_writes w)) w)
  end.

(** [select { case <-ctx.Done(): return ctx.Err() default: }] *)
Definition check_done (ctx : Context) : M AuditWorld unit := fun w =>
  match ctx_Err ctx (aw_now w) with
  | Some e => (Fail e, w)
  | None => (Ret tt, w)
  end.

(** ** [file.go] *)

Module FileObserver.

(** [encoder] is the [json.Encoder]: it remembers the error of a failed write
    and returns it from then on. *)
Record t : Type := Mk {
  file : option string;
  encoder : option (option error);
}.

Definition NewFileObserver (path : string) : M AuditWorld t :=
  _ ← map_err (ErrWrap "open audit file") (open_append path);
  mret (Mk (Some path) (Some None)).

Section Operations.
Context `{JsonText}.

(** [json.Encoder.Encode] into the file. *)
Definition Encode (path : string) (sticky : option error) (j : json) : M (t * AuditWorld) unit :=
  match sticky with
  | Some e => throw e
  | None =>
      r ← attempt (on_snd (append_file path (json_line j)));
      match r with
      | inl _ => mret tt
      | inr e => _ ← on_fst (modify (fun o => Mk (file o) (Some (Some e)))); throw e
      end
  end.

Definition Notify : Observer (t * AuditWorld) := fun ctx event =>
  _ ← on_snd (check_done ctx);
  o ← gets fst;
  match file o, encoder o with
  | Some path, Some sticky =>
      map_err (ErrWrap "write audit event") (Encode path sticky (json_of_event event))
  | _, _ => throw (ErrNew "audit file is closed")
  end.

Definition Close : M (t * AuditWorld) unit :=
  o ← gets fst;
  match file o with
  | None => mret tt
  | Some _ =>
      fault ← gets (fun st => aw_close_fault st.2);
      match fault with
      | Some e => throw (ErrWrap "close audit file" e)
      | None => on_fst (modify (fun _ => Mk None None))
      end
  end.

(** ** What is in the file *)

Definition opened (path : string) : t := Mk (Some path) (Some None).

Definition contents (path : string) (w : AuditWorld) : string := default "" (aw_files w !! path).

(** One event, without a failure. *)
Lemma Notify_run ctx ev path w :
  ctx_Err ctx (aw_now w) = None -> aw_write_fault w (aw_writes w) = None ->
  Notify ctx ev (opened path, w)
  = (Ret tt, (opened path, with_files
      (<[path := contents path w +:+ json_line (json_of_event ev)]> (aw_files w))
      (S (aw_writes w)) w)).
Proof.
  intros Hc Hf. unfold Notify.
  erewrite bind_Ret; [|unfold on_snd, check_done; cbn; by rewrite Hc].
  erewrite bind_Ret; [|done]. cbn [opened file encoder fst]. apply map_err_Ret. unfold Encode.
  erewrite bind_Ret; [|unfold attempt, on_snd, append_file; cbn [snd]; by rewrite Hf]. done.
Qed.

Definition lines (evs : list Event) : string :=
  foldr (fun ev s => json_line (json_of_event ev) +:+ s) "" evs.

(** Notify a list of events in turn. *)
Definition notify_all (ctx : Context) (evs : list Event) : M (t * AuditWorld) unit :=
  for_range evs (Notify ctx).

(** Without write failures the audit file grows by exactly one line per
    event, in order, and what was in it before stays. *)
Theorem file_observer_appends ctx evs path w :
  (forall now, ctx_Err ctx now = None) -> (forall n, aw_write_fault w n = None) ->
  exists w', notify_all ctx evs (opened path, w) = (Ret tt, (opened path, w')) /\
    contents path w' = contents path w +:+ lines evs /\
    (forall q, q <> path -> contents q w' = contents q w).
Proof.
  intros Hc. unfold notify_all. revert w. induction evs as [|ev evs IH]; intros w Hf.
  - exists w. cbn [lines foldr]. rewrite string_app_nil_r. by split_and!.
  - cbn [for_range]. erewrite bind_Ret by (apply Notify_run; [apply Hc|apply Hf]).
    edestruct IH as (w' & E & H1 & H2); [|rewrite E]; [apply Hf|].
    exists w'. split; [done|]. split.
    + rewrite H1. unfold contents at 1. cbn. rewrite lookup_insert_eq. cbn.
      by rewrite string_app_assoc.
    + intros q Hq. rewrite H2 by done. unfold contents. cbn. by rewrite lookup_insert_ne.
Qed.

(** C38: after one failed write the observer stays silent: every later event is
    refused with the same error and nothing is appended, although the file would
    accept writes again. *)
Theorem file_observer_sticky ctx ev1 ev2 path w n e o w' :
  ctx_Err ctx (aw_now w) = None -> aw_write_fault w (aw_writes w) = Some (n, e) ->
  (Notify ctx ev1 (opened path, w)).2 = (o, w') ->
  Notify ctx ev2 (o, w') = (Fail (ErrWrap "write audit event" e), (o, w')) /\
  contents path w' = contents path w +:+ string_take n (json_line (json_of_event ev1)).
Proof.
  intros Hc Hf Hrun.
  assert (E : Notify ctx ev1 (opened path, w) = (Fail (ErrWrap "write audit event" e),
    (Mk (Some path) (Some (Some e)), with_files
      (<[path := contents path w +:+ string_take n (json_line (json_of_event ev1))]> (aw_files w))
      (S (aw_writes w)) w))).
  { unfold Notify. erewrite bind_Ret; [|unfold on_snd, check_done; cbn; by rewrite Hc].
    erewrite bind_Ret; [|done]. cbn [opened file encoder fst]. apply map_err_Fail. unfold Encode.
    erewrite bind_Ret; [|unfold attempt, on_snd, append_file; cbn [snd]; by rewrite Hf]. done. }
  rewrite E in Hrun. cbn in Hrun. injection Hrun as <- <-. split.
  - unfold Notify. erewrite bind_Ret; [|unfold on_snd, check_done; cbn; by rewrite Hc]. done.
  - unfold contents at 1. cbn. by rewrite lookup_insert_eq.
Qed.
End Operations.

(** ** Witnesses *)

Definition sample_event : Event := MkEvent 12345678 ["Alloc"; "Frees"] "192.168.0.42".

Definition sample_world : AuditWorld :=
  MkAuditWorld ∅ (fun _ => None) (fun _ => None) 0 None (fun _ => inl 200) [] 0.

(** The disk is full for the first write only. *)
Definition full_disk : AuditWorld :=
  MkAuditWorld ∅ (fun _ => None)
    (fun n => if decide (n = 0%nat) then Some (3%nat, ErrNew "no space left on device") else None)
    0 None (fun _ => inl 200) [] 0.

Lemma file_observer_appends_witness :
  exists w', notify_all Background [sample_event; sample_event] (opened "audit.log", sample_world)
      = (Ret tt, (opened "audit.log", w')) /\
    contents "audit.log" w' = "" +:+ lines [sample_event; sample_event].
Proof.
  destruct (file_observer_appends Background [sample_event; sample_event] "audit.log" sample_world)
    as (w' & H1 & H2 & _); [intros now; reflexivity|intros n; reflexivity|].
  exists w'. split; [exact H1|exact H2].
Defined.

Lemma file_observer_sticky_witness :
  exists o w', (Notify Background sample_event (opened "audit.log", full_disk)).2 = (o, w') /\
    aw_write_fault w' (aw_writes w') = None /\
    Notify Background sample_event (o, w')
    = (Fail (ErrWrap "write audit event" (ErrNew "no space left on device")), (o, w')).
Proof.
  destruct ((Notify Background sample_event (opened "audit.log", full_disk)).2) as [o w'] eqn:E.
  exists o, w'. split; [reflexivity|]. split.
  - rewrite <-(f_equal snd E : _ = w'). lazy. reflexivity.
  - refine (proj1 (file_observer_sticky Background sample_event sample_event "audit.log" full_disk
      3 (ErrNew "no space left on device") o w' _ _ E)); reflexivity.
Defined.

End FileObserver.

(** ** [remote.go] *)

Module RemoteObserver.

Definition defaultAuditTimeout : Z := 5 * Second.

(** [http.NewRequestWithContext] refuses some URLs. *)
Class URLs := url_error : string -> option error.

Section Operations.
Context `{JsonText} `{URLs}.

Record t : Type := Mk { url : string; client_Timeout : Z }.

Definition NewRemoteObserver (u : string) : t := Mk u defaultAuditTimeout.

(** [client.Do]: the schedule says what the sink answers. *)
Definition Do (u ctype body : string) : M AuditWorld Z := fun w =>
  let w' := with_request (u, ctype, body) w in
  match aw_remote w (length (aw_requests w)) with
  | inl status => (Ret status, w')
  | inr e => (Fail e, w')
  end.

Definition Notify (o : t) : Observer AuditWorld := fun ctx event =>
  _ ← check_done ctx;
  match url_error (url o) with
  | Some e => throw (ErrWrap "create audit request" e)
  | None =>
      status ← map_err (ErrWrap "send audit event")
        (Do (url o) ContentTypeJSON (json_line (json_of_event event)));
      if decide (status < StatusOK \/ StatusMultipleChoices <= status)
      then throw (ErrNew ("send audit event: unexpected status " +:+ FormatInt status))
      else mret tt
  end.

(** The remote observer sends at most one request per event, carrying the
    event as JSON, and reports success exactly when the sink answered it with a
    status from 200 to 299. *)
Theorem remote_observer_outcome o ctx ev w r w' :
  Notify o ctx ev w = (r, w') ->
  (r = Ret tt <->
     ctx_Err ctx (aw_now w) = None /\ url_error (url o) = None /\
     exists status, aw_remote w (length (aw_requests w)) = inl status /\ 200 <= status < 300) /\
  (aw_requests w' = aw_requests w \/
   aw_requests w' = aw_requests w
     ++ [(url o, ContentTypeJSON, json_line (json_of_event ev))]) /\
  (r = Ret tt -> aw_requests w' <> aw_requests w).
Proof.
  unfold Notify, mbind, St_bind, map_err, check_done, Do, throw, mret, St_ret.
  destruct (ctx_Err ctx (aw_now w)) as [e|]; [intros [= <- <-]; naive_solver|].
  destruct (url_error (url o)) as [e|]; [intros [= <- <-]; naive_solver|].
  destruct (aw_remote w _) as [status|e]; [|intros [= <- <-]; naive_solver].
  unfold StatusOK, StatusMultipleChoices.
  assert (Hne : aw_requests (with_request (url o, ContentTypeJSON, json_line (json_of_event ev)) w)
    <> aw_requests w).
  { cbn. intros Heq%(f_equal length). rewrite length_app in Heq. cbn in Heq. lia. }
  case_decide as Hs; intros [= <- <-].
  - split_and!; [|by right|done]. split; [done|]. intros (_ & _ & ? & [= <-] & ?). lia.
  - split_and!; [|by right|done]. split; [|done]. intros _. split_and!; [done|done|].
    exists status. split; [done|lia].
Qed.
End Operations.

(** ** Witness *)

Definition any_url : URLs := fun _ => None.

Lemma remote_observer_outcome_witness :
  exists w', Notify (H0 := any_url) (NewRemoteObserver "http://audit.example")
      Background FileObserver.sample_event FileObserver.sample_world = (Ret tt, w') /\
    aw_requests w' <> [].
Proof.
  destruct (Notify (H0 := any_url) (NewRemoteObserver "http://audit.example")
    Background FileObserver.sample_event FileObserver.sample_world) as [r w'] eqn:E.
  destruct (remote_observer_outcome (H0 := any_url) _ _ _ _ _ _ E) as (H1 & _ & H3).
  assert (Hr : r = Ret tt).
  { apply H1. split; [reflexivity|]. split; [reflexivity|]. exists 200. split; [reflexivity|lia]. }
  exists w'. split; [by rewrite Hr|]. exact (H3 Hr).
Defined.

End RemoteObserver.

(** ** Witness of the dispatcher *)

(** Two observers of one world: the first always fails. *)
Definition failing_observer : Observer (list Z) := fun _ ev l => (Fail (ErrPg "08006"), l ++ [1]).
Definition counting_observer : Observer (list Z) := fun _ ev l => (Ret tt, l ++ [2]).

Lemma notify_reaches_all_witness :
  (Auditor.Notify (Auditor.Subscribe (Some counting_observer)
     (Auditor.Subscribe (Some failing_observer) Auditor.NewAuditor))
     Background FileObserver.sample_event []).2 = [1; 2].
Proof.
  refine (proj1 (Auditor.notify_reaches_all (Auditor.Subscribe (Some counting_observer)
     (Auditor.Subscribe (Some failing_observer) Auditor.NewAuditor))
     Background FileObserver.sample_event [] _)).
  apply Forall_cons. split; [discriminate|]. apply Forall_singleton. discriminate.
Defined.
