(* ===== verification/Handler.v ===== *)
(** * HTTP handlers: [internal/server/transport/http/handler]

    Every handler with all its early returns, on a world made of the service's
    state, the auditor's state, the log and the clock.  The service is the
    interface [Service]; what the handlers promise is proved from its laws. *)

From S2P Require Import Prelude GoError GoString GoNum GoContext GoMap GoJson Model MetricsJson Instances Storage MemStorage FileStore Service Protocol Log Http AuditTrail.
Local Open Scope Z_scope.

(** ** The world of a request *)

Record World (V X : Type) : Type := MkWorld {
  w_service : V;
  w_audit : X;
  w_log : list entry;
  w_now : Z;
}.
Arguments MkWorld {V X} _ _ _ _.
Arguments w_service {V X} _.
Arguments w_audit {V X} _.
Arguments w_log {V X} _.
Arguments w_now {V X} _.

Section World.
Context {V X : Type}.

#[export] Instance world_logs : Logs (World V X) := {|
  log_entries := w_log;
  log_append e s := MkWorld (w_service s) (w_audit s) (w_log s ++ [e]) (w_now s);
  time_Now := w_now;
|}.

#[export] Instance world_logs_laws : LogsLaws (World V X).
Proof. by split. Qed.

Definition set_service (v : V) (s : World V X) : World V X :=
  MkWorld v (w_audit s) (w_log s) (w_now s).
Definition set_audit (x : X) (s : World V X) : World V X :=
  MkWorld (w_service s) x (w_log s) (w_now s).

(** A call of the service, and of the auditor. *)
Definition on_service {A} (m : M V A) : M (World V X) A := fun s =>
  let '(r, v) := m (w_service s) in (r, set_service v s).
Definition on_audit {A} (m : M X A) : M (World V X) A := fun s =>
  let '(r, x) := m (w_audit s) in (r, set_audit x s).

Lemma attempt_service_Ret {A W : Type} (m : M V A) (s : World V X) (w : W) a v :
  m (w_service s) = (Ret a, v) ->
  on_fst (attempt (on_service m)) (s, w) = (Ret (inl a), (set_service v s, w)).
Proof. intros E. unfold on_fst, attempt, on_service. cbn [fst snd]. by rewrite E. Qed.

Lemma attempt_service_Fail {A W : Type} (m : M V A) (s : World V X) (w : W) e v :
  m (w_service s) = (Fail e, v) ->
  on_fst (attempt (on_service m)) (s, w) = (Ret (inr e), (set_service v s, w)).
Proof. intros E. unfold on_fst, attempt, on_service. cbn [fst snd]. by rewrite E. Qed.

Lemma on_fst_Ret {S W A : Type} (m : M S A) (s s' : S) (w : W) a :
  m s = (Ret a, s') -> on_fst m (s, w) = (Ret a, (s', w)).
Proof. intros E. unfold on_fst. cbn [fst snd]. by rewrite E. Qed.
End World.

Module Handler.

(** ** [json.go] *)

(** [validateMetric]: the status of the refusal, [StatusOK] when valid. *)
Definition validateMetric (metric : Metrics) : Z :=
  if decide (ID metric = "") then StatusNotFound
  else if decide (MType metric = Gauge) then
    match Value metric with None => StatusBadRequest | Some _ => StatusOK end
  else if decide (MType metric = Counter) then
    match Delta metric with None => StatusBadRequest | Some _ => StatusOK end
  else StatusBadRequest.

Section Operations.
Context {V X : Type} `{!Service V} `{MapRange} `{FloatText} `{JsonText}.

(** ** [handler.go] *)

(** [db] pings the database, if there is one; [log] is whether a logger was given. *)
Record t : Type := Mk {
  db : option (Context -> M V unit);
  auditor : option (Observer X);
  logger : bool;
}.

Definition New (d : option (Context -> M V unit)) : t := Mk d None false.

Definition EnableAudit (h : t) (a : option (Observer X)) (hasLog : bool) : t := Mk (db h) a hasLog.

(** ** [audit.go] *)

Definition clientIP (r : Request) : string :=
  let realIP := header_Get (ReqHeader r) HeaderRealIP in
  if decide (realIP <> "") then realIP
  else match SplitHost (RemoteAddr r) with
       | None => RemoteAddr r
       | Some host => host
       end.

Definition metricIDs (metrics : list Metrics) : list string :=
  filter (fun id => id <> "") (map ID metrics).

Definition notifyAudit (h : t) (r : Request) (metrics : list string) : M (World V X) unit :=
  match auditor h with
  | None => mret tt
  | Some a =>
      if decide (metrics = []) then mret tt
      else
        now ← gets time_Now;
        let event := MkEvent (now / Second) metrics (clientIP r) in
        res ← attempt (on_audit (a (ReqContext r) event));
        match res with
        | inr err => if logger h then log ErrorLevel "audit failed" [FError err] else mret tt
        | inl _ => mret tt
        end
  end.

Definition notifyAuditMetric (h : t) (r : Request) (metricName : string) : M (World V X) unit :=
  if decide (metricName = "") then mret tt else notifyAudit h r [metricName].

Definition notifyAuditMetrics (h : t) (r : Request) (metrics : list Metrics) : M (World V X) unit :=
  if decide (metrics = []) then mret tt else notifyAudit h r (metricIDs metrics).

(** ** [json.go], the parts that write *)

(** [decodeJSONRequest]: [None] when a refusal has been written. *)
Definition decodeJSONRequest {A W : Type} `{!ResponseWriter W} (dec : json -> option A) (r : Request)
    : M (World V X * W) (option A) :=
  if decide (Method r <> MethodPost) then _ ← WriteHeader StatusMethodNotAllowed; mret None
  else
    let ct := header_Get (ReqHeader r) HeaderContentType in
    if decide (ct = "") then _ ← WriteHeader StatusBadRequest; mret None
    else if negb (HasPrefix (ToLower ct) ContentTypeJSON)
    then _ ← WriteHeader StatusBadRequest; mret None
    else
      match ReqBody r with
      | None => panic "nil pointer dereference"
      | Some b =>
          match json_Decode b ≫= dec with
          | Some a => mret (Some a)
          | None => _ ← WriteHeader StatusBadRequest; mret None
          end
      end.

(** [json.NewEncoder(w).Encode(metric)]: nothing is written if it cannot be encoded. *)
Definition writeMetricJSON {W : Type} `{!ResponseWriter W} (status : Z) (metric : Metrics)
    : M (World V X * W) unit :=
  _ ← SetHeader HeaderContentType ContentTypeJSON;
  _ ← WriteHeader status;
  match json_of_metric metric with
  | Some j => Write (json_line j)
  | None => mret tt
  end.

(** ** [update.go] *)

Definition Update (h : t) : Handler (World V X) := fun W _ r =>
  let ctx := ReqContext r in
  if decide (Method r <> MethodPost) then WriteHeader StatusMethodNotAllowed
  else
    let ct := header_Get (ReqHeader r) HeaderContentType in
    if bool_decide (ct <> "") && negb (HasPrefix (ToLower ct) ContentTypeTextPlain)
    then WriteHeader StatusBadRequest
    else
      let metricType := URLParam r "type" in
      let metricName := URLParam r "name" in
      let metricValue := URLParam r "value" in
      let success : M (World V X * W) unit :=
        _ ← on_fst (notifyAuditMetric h r metricName);
        _ ← SetHeader HeaderContentType ContentTypeTextPlainUTF8;
        WriteHeader StatusOK in
      if decide (metricName = "") then WriteHeader StatusNotFound
      else if decide (metricType = Gauge) then
        match ParseFloat metricValue with
        | None => WriteHeader StatusBadRequest
        | Some value =>
            res ← on_fst (attempt (on_service (svc_UpdateGauge ctx metricName value)));
            match res with
            | inr _ => WriteHeader StatusInternalServerError
            | inl _ => success
            end
        end
      else if decide (metricType = Counter) then
        match ParseInt metricValue with
        | None => WriteHeader StatusBadRequest
        | Some delta =>
            res ← on_fst (attempt (on_service (svc_UpdateCounter ctx metricName delta)));
            match res with
            | inr _ => WriteHeader StatusInternalServerError
            | inl _ => success
            end
        end
      else WriteHeader StatusBadRequest.

Definition UpdateJSON (h : t) : Handler (World V X) := fun W _ r =>
  let ctx := ReqContext r in
  decoded ← decodeJSONRequest metric_of_json r;
  match decoded with
  | None => mret tt
  | Some metric =>
      let status := validateMetric metric in
      let respond response : M (World V X * W) unit :=
        _ ← on_fst (notifyAuditMetric h r (ID metric));
        writeMetricJSON StatusOK response in
      if decide (status <> StatusOK) then WriteHeader status
      else if decide (MType metric = Gauge) then
        match Value metric with
        | None => panic "nil pointer dereference"
        | Some v =>
            res ← on_fst (attempt (on_service (svc_UpdateGauge ctx (ID metric) v)));
            match res with
            | inr _ => WriteHeader StatusInternalServerError
            | inl _ => respond (gauge_metric (ID metric) v)
            end
        end
      else if decide (MType metric = Counter) then
        match Delta metric with
        | None => panic "nil pointer dereference"
        | Some d =>
            res ← on_fst (attempt (on_service (svc_UpdateCounter ctx (ID metric) d)));
            match res with
            | inr _ => WriteHeader StatusInternalServerError
            | inl total => respond (counter_metric (ID metric) total)
            end
        end
      else WriteHeader StatusBadRequest
  end.

(** The validation loop: the status of the first refused metric. *)
Fixpoint first_refusal (metrics : list Metrics) : option Z :=
  match metrics with
  | [] => None
  | metric :: metrics =>
      let status := validateMetric metric in
      if decide (status <> StatusOK) then Some status else first_refusal metrics
  end.

Definition UpdatesJSON (h : t) : Handler (World V X) := fun W _ r =>
  let ctx := ReqContext r in
  decoded ← decodeJSONRequest metrics_of_json r;
  match decoded with
  | None => mret tt
  | Some metrics =>
      match first_refusal metrics with
      | Some status => WriteHeader status
      | None =>
          res ← on_fst (attempt (on_service (svc_UpdateMetrics ctx metrics)));
          match res with
          | inr _ => WriteHeader StatusInternalServerError
          | inl _ =>
              _ ← on_fst (notifyAuditMetrics h r metrics);
              WriteHeader StatusOK
          end
      end
  end.

(** ** [value.go] *)

Definition ValueText (h : t) : Handler (World V X) := fun W _ r =>
  let ctx := ReqContext r in
  let metricType := URLParam r "type" in
  let metricName := URLParam r "name" in
  let success (out : string) : M (World V X * W) unit :=
    _ ← SetHeader HeaderContentType ContentTypeTextPlainUTF8;
    _ ← WriteHeader StatusOK;
    Write out in
  if decide ((metricType <> Gauge /\ metricType <> Counter) \/ metricName = "")
  then WriteHeader StatusNotFound
  else if decide (metricType = Gauge) then
    res ← on_fst (attempt (on_service (svc_GetGauge ctx metricName)));
    match res with
    | inr _ => WriteHeader StatusNotFound
    | inl value => success (FormatFloat value)
    end
  else if decide (metricType = Counter) then
    res ← on_fst (attempt (on_service (svc_GetCounter ctx metricName)));
    match res with
    | inr _ => WriteHeader StatusNotFound
    | inl value => success (FormatInt value)
    end
  else success "".

Definition ValueJSON (h : t) : Handler (World V X) := fun W _ r =>
  let ctx := ReqContext r in
  decoded ← decodeJSONRequest metric_of_json r;
  match decoded with
  | None => mret tt
  | Some metric =>
      if decide (ID metric = "") then WriteHeader StatusNotFound
      else if decide (MType metric = Gauge) then
        res ← on_fst (attempt (on_service (svc_GetGauge ctx (ID metric))));
        match res with
        | inr _ => writeMetricJSON StatusNotFound (MkMetrics (ID metric) Gauge None None "")
        | inl value => writeMetricJSON StatusOK (gauge_metric (ID metric) value)
        end
      else if decide (MType metric = Counter) then
        res ← on_fst (attempt (on_service (svc_GetCounter ctx (ID metric))));
        match res with
        | inr _ => writeMetricJSON StatusNotFound (MkMetrics (ID metric) Counter None None "")
        | inl value => writeMetricJSON StatusOK (counter_metric (ID metric) value)
        end
      else WriteHeader StatusNotFound
  end.

Definition quote : string := String (byte 34) EmptyString.

Definition page_head : string :=
  "<!doctype html><html><head><meta charset=" +:+ quote +:+ "utf-8" +:+ quote +:+ ">"
  +:+ "<title>storage values</title></head><body><ul>".
Definition page_tail : string := "</ul></body></html>".

(** [<li>%s: <strong>%s</strong></li>] *)
Definition page_item (name value : string) : string :=
  "<li>" +:+ EscapeString name +:+ ": <strong>" +:+ value +:+ "</strong></li>".

Definition index_page (gauges : gmap string float64) (counters : gmap string Z) : string :=
  page_head
  +:+ String.concat "" (map (fun kv => page_item kv.1 (FormatFloat kv.2)) (range_map gauges))
  +:+ String.concat "" (map (fun kv => page_item kv.1 (FormatInt kv.2)) (range_map counters))
  +:+ page_tail.

Definition Index (h : t) : Handler (World V X) := fun W _ r =>
  let ctx := ReqContext r in
  res ← on_fst (attempt (on_service (svc_Snapshot ctx)));
  match res with
  | inr _ => WriteHeader StatusInternalServerError
  | inl (gauges, counters) =>
      _ ← SetHeader HeaderContentType ContentTypeHTMLUTF8;
      _ ← WriteHeader StatusOK;
      Write (index_page gauges counters)
  end.

Definition Ping (h : t) : Handler (World V X) := fun W _ r =>
  match db h with
  | None => WriteHeader StatusInternalServerError
  | Some ping =>
      res ← on_fst (attempt (on_service (ping (ReqContext r))));
      match res with
      | inr _ => WriteHeader StatusInternalServerError
      | inl _ => WriteHeader StatusOK
      end
  end.

(** ** One reply per request *)

(** Unfold the monad and the writers of a handler. *)
Ltac open_handler :=
  unfold answers, writeMetricJSON, decodeJSONRequest, WriteHeader, SetHeader, Write, mbind, St_bind,
    mret, St_ret, attempt, on_fst, on_snd, on_service, on_audit, gets, modify, throw, panic in *;
  cbn beta iota delta [fst snd] zeta.

(** The reply is read off the calls that remain. *)
Ltac close_reply :=
  first
  [ exists (Ret tt); eexists _, (status_reply _); intros; reflexivity
  | exists (Ret tt); eexists _, (MkReply (Some _) _ None); intros; reflexivity
  | exists (Ret tt); eexists _, (MkReply (Some _) _ (Some _)); intros; reflexivity
  | eexists (Panic _), _, (status_reply 0); intros; reflexivity
  | eexists (Fail _), _, (status_reply 0); intros; reflexivity ].

Ltac reply :=
  intros r s; open_handler; repeat (split_guard; cbn beta iota delta [fst snd]); close_reply.

#[global] Instance Update_replies (h : t) : Replies (Update h).
Proof. unfold Update. reply. Qed.
#[global] Instance UpdateJSON_replies (h : t) : Replies (UpdateJSON h).
Proof. unfold UpdateJSON. reply. Qed.
#[global] Instance UpdatesJSON_replies (h : t) : Replies (UpdatesJSON h).
Proof. unfold UpdatesJSON. reply. Qed.
#[global] Instance ValueText_replies (h : t) : Replies (ValueText h).
Proof. unfold ValueText. reply. Qed.
#[global] Instance ValueJSON_replies (h : t) : Replies (ValueJSON h).
Proof. unfold ValueJSON. reply. Qed.
#[global] Instance Index_replies (h : t) : Replies (Index h).
Proof. unfold Index. reply. Qed.
#[global] Instance Ping_replies (h : t) : Replies (Ping h).
Proof. unfold Ping. reply. Qed.

(** ** Lemmas *)

Lemma validateMetric_OK m : validateMetric m = StatusOK -> dereferenceable m.
Proof.
  unfold validateMetric, dereferenceable.
  pose proof Gauge_neq_Counter. repeat case_decide; repeat case_match; try done; intros _;
    (split; intros E; [try congruence|try congruence]); eauto.
Qed.

Lemma first_refusal_None l : first_refusal l = None -> Forall dereferenceable l.
Proof.
  induction l as [|m l IH]; [done|]. cbn [first_refusal]. case_decide as Hm; [done|].
  intros Hl. apply Forall_cons. split; [|by apply IH].
  by apply validateMetric_OK.
Qed.

(** An auditor that returns, with or without an error. *)
Definition audit_quiet (h : t) : Prop := forall a, auditor h = Some a -> Auditor.quiet a.

(** The audit never fails a request and touches neither service nor clock. *)
Lemma notifyAudit_ok h r ids s :
  audit_quiet h -> exists s', notifyAudit h r ids s = (Ret tt, s') /\
    w_service s' = w_service s /\ w_now s' = w_now s.
Proof.
  intros Hq. unfold notifyAudit. destruct (auditor h) as [a|] eqn:Ea; [|by exists s].
  case_decide; [by exists s|]. unfold mbind, St_bind, gets, attempt, on_audit.
  pose proof (Hq a Ea (ReqContext r) (MkEvent (w_now s / Second) ids (clientIP r)) (w_audit s)) as Hp.
  cbn [time_Now world_logs]. destruct (a _ _ _) as [[[]|e|p] x]; [by eexists| |by destruct (Hp p x)].
  destruct (logger h); by eexists.
Qed.

Lemma notifyAuditMetric_ok h r n s :
  audit_quiet h -> exists s', notifyAuditMetric h r n s = (Ret tt, s') /\
    w_service s' = w_service s /\ w_now s' = w_now s.
Proof.
  intros Hq. unfold notifyAuditMetric. case_decide; [by exists s|]. by apply notifyAudit_ok.
Qed.

Lemma notifyAuditMetrics_ok h r l s :
  audit_quiet h -> exists s', notifyAuditMetrics h r l s = (Ret tt, s') /\
    w_service s' = w_service s /\ w_now s' = w_now s.
Proof.
  intros Hq. unfold notifyAuditMetrics. case_decide; [by exists s|]. by apply notifyAudit_ok.
Qed.

(** What decoding guarantees: the deltas are [int64]. *)
Lemma decode_int_range old j z : in_int64 old -> decode_int old j = Some z -> in_int64 z.
Proof. intros Ho. destruct j; cbn; try done; intros E; simplify_eq; [done|by eapply ParseInt_range]. Qed.

Lemma find_field_In {T} (fields : list (field T)) key dec :
  find_field fields key = Some dec -> exists name, In (name, dec) fields.
Proof.
  unfold find_field. destruct (List.find (fun f => bool_decide (f.1 = key)) fields) as [[n d]|] eqn:E.
  - intros [= <-]. apply List.find_some in E as [E _]. eauto.
  - destruct (List.find (fun f => EqualFold key f.1) fields) as [[n d]|] eqn:E'; [|done].
    intros [= <-]. apply List.find_some in E' as [E' _]. eauto.
Qed.

Lemma decode_member_int64 m kv m' :
  int64_delta m -> decode_member metric_fields m kv = Some m' -> int64_delta m'.
Proof.
  intros Hm. unfold decode_member. destruct (find_field metric_fields kv.1) as [dec|] eqn:E; [|by intros [= <-]].
  apply find_field_In in E as [n Hin]. unfold metric_fields in Hin.
  repeat (destruct Hin as [Hin|Hin]; [injection Hin as <- <-|]); [..|done];
    intros (x & E & <-)%fmap_Some || intros (x & E & ->)%fmap_Some; try done; try exact Hm.
  intros d. cbn. intros ->. unfold decode_ptr in E.
  destruct kv.2; try done; apply fmap_Some in E as (z & E & [= ->]);
    (eapply decode_int_range; [|exact E]);
    (destruct (Delta m) as [d|] eqn:Ed; [by apply Hm|unfold in_int64, two63; cbn; lia]).
Qed.

Lemma metric_of_json_int64 j m : metric_of_json j = Some m -> int64_delta m.
Proof.
  unfold metric_of_json, decode_struct. destruct j; try done; [by intros [= <-]|].
  unfold decode_members. revert m. induction l as [|kv l IH] using rev_ind; intros m; [by intros [= <-]|].
  rewrite foldl_app. cbn [foldl].
  destruct (foldl _ (Some zero_metric) l) as [m0|]; [|done]. cbn [mbind option_bind].
  apply decode_member_int64. by apply IH.
Qed.

Lemma metrics_of_json_int64 j l : metrics_of_json j = Some l -> Forall int64_delta l.
Proof.
  unfold metrics_of_json, decode_slice. destruct j as [| | | |js|]; try done; [by intros [= <-]|].
  intros E%mapM_Some. apply Forall_forall. intros m [i Hi]%list_elem_of_lookup.
  destruct (Forall2_lookup_r _ _ _ _ _ E Hi) as (j & _ & Hj). by eapply metric_of_json_int64.
Qed.

(** A valid metric is one a storage can take. *)
Lemma valid_storable m : validateMetric m = StatusOK -> int64_delta m -> storable m.
Proof.
  unfold validateMetric. intros Hv Hd. split; [|done]. unfold dereferenceable.
  case_decide; [done|]. split; intros Ht; rewrite Ht in Hv; cbn in Hv.
  - by destruct (Value m).
  - by destruct (Delta m).
Qed.

Lemma accepted_batch_storable j l :
  metrics_of_json j = Some l -> first_refusal l = None -> Forall storable l.
Proof.
  intros Hj Hr. apply Forall_and. split; [by apply first_refusal_None|by eapply metrics_of_json_int64].
Qed.

(** ** What a client may conclude from the status *)

(** A refusal of [decodeJSONRequest], or the decoded body. *)
Definition decoded {A} (dec : json -> option A) (r : Request) : Z + A :=
  if decide (Method r <> MethodPost) then inl StatusMethodNotAllowed
  else
    let ct := header_Get (ReqHeader r) HeaderContentType in
    if bool_decide (ct = "") || negb (HasPrefix (ToLower ct) ContentTypeJSON) then inl StatusBadRequest
    else
      match (b ← ReqBody r; json_Decode b ≫= dec) with
      | Some a => inr a
      | None => inl StatusBadRequest
      end.

Lemma decodeJSONRequest_run {A W : Type} `{!ResponseWriter W} (dec : json -> option A) r
    (s : World V X) (w : W) :
  is_Some (ReqBody r) ->
  decodeJSONRequest dec r (s, w)
  = match decoded dec r with
    | inl c => (Ret None, (s, emit (status_reply c) w))
    | inr a => (Ret (Some a), (s, w))
    end.
Proof.
  intros [b Hb]. unfold decoded. rewrite Hb. open_handler. cbn [mbind option_bind].
  destruct (decide (Method r <> MethodPost)); [done|].
  destruct (decide (header_Get (ReqHeader r) HeaderContentType = "")) as [E|E].
  - by rewrite (bool_decide_eq_true_2 _ E).
  - rewrite (bool_decide_eq_false_2 _ E). cbn [orb].
    destruct (HasPrefix _ ContentTypeJSON); cbn [negb]; [|done].
    rewrite Hb. destruct (json_Decode b) as [j|]; [|done].
    cbn [option_bind]. by destruct (dec j).
Qed.

Lemma decoded_refusal {A} (dec : json -> option A) r c :
  decoded dec r = inl c ->
  let json := HasPrefix (ToLower (header_Get (ReqHeader r) HeaderContentType)) ContentTypeJSON in
  (Method r <> MethodPost -> c = StatusMethodNotAllowed) /\
  (Method r = MethodPost -> json = false -> c = StatusBadRequest) /\
  (Method r = MethodPost -> json = true -> (b ← ReqBody r; json_Decode b ≫= dec) = None /\ c = StatusBadRequest).
Proof.
  cbn zeta. unfold decoded. destruct (decide (Method r <> MethodPost)) as [Hm|Hm%dec_stable]; [by intros [= <-]|].
  set (ct := header_Get _ _). destruct (bool_decide (ct = "") || _) eqn:Ej.
  - intros [= <-]. split; [done|]. split; [done|]. intros _ Hj. rewrite Hj, orb_false_r in Ej.
    apply bool_decide_eq_true in Ej. by rewrite Ej in Hj.
  - destruct (b ← ReqBody r; json_Decode b ≫= dec); intros [= <-]. done.
Qed.

Lemma decoded_accepts {A} (dec : json -> option A) r a :
  decoded dec r = inr a ->
  Method r = MethodPost /\ HasPrefix (ToLower (header_Get (ReqHeader r) HeaderContentType)) ContentTypeJSON = true /\
  (b ← ReqBody r; json_Decode b ≫= dec) = Some a.
Proof.
  unfold decoded. destruct (decide (Method r <> MethodPost)) as [Hm|Hm%dec_stable]; [done|].
  destruct (bool_decide _ || _) eqn:Ej; [done|]. apply orb_false_iff in Ej as [_ Ej%negb_false_iff].
  destruct (b ← ReqBody r; json_Decode b ≫= dec); [|done]. by intros [= <-].
Qed.

Lemma decoded_dec {A} (dec : json -> option A) r a :
  decoded dec r = inr a -> exists j, dec j = Some a.
Proof.
  unfold decoded. destruct (decide _); [done|]. destruct (_ || _); [done|].
  destruct (b ← ReqBody r; json_Decode b ≫= dec) as [a'|] eqn:E; [|done].
  intros [= <-]. apply bind_Some in E as (b & _ & (j & _ & Hj)%bind_Some). eauto.
Qed.

Context `{!ServiceLaws V}.

(** A batch that passes validation: the service decides. *)
Lemma UpdatesJSON_run h r s l o v :
  is_Some (ReqBody r) -> audit_quiet h -> svc_reliable (w_service s) ->
  decoded metrics_of_json r = inr l -> first_refusal l = None ->
  svc_UpdateMetrics (ReqContext r) l (w_service s) = (o, v) ->
  exists s' status, answers (UpdatesJSON h) r s (Ret tt) s' (status_reply status) /\
    w_service s' = v /\ svc_reliable v /\
    ((o = Ret tt /\ status = StatusOK /\ svc_view v = apply_batch l (svc_view (w_service s))) \/
     (is_ret o = false /\ status = StatusInternalServerError /\ svc_fails l (w_service s) /\
        (svc_view v = svc_view (w_service s) \/ svc_view v = apply_batch l (svc_view (w_service s))))).
Proof.
  intros Hb Hq Hw Ed Er Es. destruct (decoded_dec _ _ _ Ed) as [j Hj].
  destruct (svc_UpdateMetrics_spec _ _ _ _ _ (accepted_batch_storable _ _ Hj Er) Hw Es) as [Hw' Hv].
  destruct o as [[]|e|p]; [| |done].
  - destruct (notifyAuditMetrics_ok h r l (set_service v s) Hq) as (s' & Ea & Hs' & _).
    exists s', StatusOK. split; [|by eauto 8].
    intros W RW w. unfold UpdatesJSON. erewrite bind_Ret by (by rewrite decodeJSONRequest_run, Ed).
    cbn beta iota. rewrite Er. erewrite bind_Ret by by apply attempt_service_Ret.
    cbn beta iota. by erewrite bind_Ret by by apply on_fst_Ret.
  - exists (set_service v s), StatusInternalServerError. split; [|by unfold svc_fails; eauto 10].
    intros W RW w. unfold UpdatesJSON. erewrite bind_Ret by (by rewrite decodeJSONRequest_run, Ed).
    cbn beta iota. rewrite Er. by erewrite bind_Ret by by apply attempt_service_Fail.
Qed.

Lemma UpdatesJSON_applies h r s l :
  is_Some (ReqBody r) -> audit_quiet h -> svc_reliable (w_service s) ->
  decoded metrics_of_json r = inr l -> first_refusal l = None ->
  exists s' status, answers (UpdatesJSON h) r s (Ret tt) s' (status_reply status) /\
    svc_reliable (w_service s') /\
    ((status = StatusOK /\ svc_view (w_service s') = apply_batch l (svc_view (w_service s))) \/
     (status = StatusInternalServerError /\ svc_fails l (w_service s) /\
        (svc_view (w_service s') = svc_view (w_service s) \/
         svc_view (w_service s') = apply_batch l (svc_view (w_service s))))).
Proof.
  intros Hb Hq Hw Ed Er. destruct (svc_UpdateMetrics (ReqContext r) l (w_service s)) as [o v] eqn:Es.
  destruct (UpdatesJSON_run h r s l o v Hb Hq Hw Ed Er Es) as (s' & c & Ha & <- & Hw' & Hc).
  exists s', c. split; [done|]. split; [done|]. naive_solver.
Qed.

(** A metric the interface accepts: named, and carrying the value its type asks for. *)
Definition complete_metric (m : Metrics) : Prop :=
  ID m <> "" /\ ((MType m = Gauge /\ is_Some (Value m)) \/ (MType m = Counter /\ is_Some (Delta m))).

#[export] Instance complete_metric_dec m : Decision (complete_metric m).
Proof. unfold complete_metric. apply _. Defined.

Lemma validateMetric_complete m :
  validateMetric m = if decide (complete_metric m) then StatusOK
                     else if decide (ID m = "") then StatusNotFound else StatusBadRequest.
Proof.
  unfold validateMetric. pose proof Gauge_neq_Counter as Hgc.
  destruct (decide (complete_metric m)) as [Hc|Hc]; unfold complete_metric in Hc.
  - destruct Hc as [Hn [[Hg [v Hv]]|[Ht [d Hd]]]]; rewrite (decide_False (P := ID m = "")) by done.
    + by rewrite decide_True, Hv.
    + rewrite decide_False by congruence. by rewrite decide_True, Hd.
  - destruct (decide (ID m = "")) as [|Hn]; [done|]. repeat case_decide; [| |done].
    + destruct (Value m) eqn:Hv; [|done]. destruct Hc. eauto.
    + destruct (Delta m) eqn:Hd; [|done]. destruct Hc. eauto.
Qed.

Lemma first_refusal_find l :
  first_refusal l = (fun im => if decide (ID im.2 = "") then StatusNotFound else StatusBadRequest)
    <$> list_find (fun m => ~ complete_metric m) l.
Proof.
  induction l as [|m l IH]; [done|]. cbn [first_refusal list_find]. rewrite validateMetric_complete.
  destruct (decide (complete_metric m)) as [Hm|Hm].
  - rewrite decide_False by tauto. rewrite (decide_False (P := ~ complete_metric m)) by tauto. rewrite IH.
    by destruct (list_find _ l) as [[]|].
  - rewrite (decide_True (P := ~ complete_metric m)) by done.
    cbn [fmap option_fmap option_map snd]. destruct (decide (ID m = "")); by rewrite decide_True.
Qed.

(** C16: what [POST /updates] answers, for every request [net/http] delivers (its body is
    never nil), over a service that keeps its contract and an auditor that returns.  A method that is not POST is
    refused with 405, a content type that is not JSON and a body that does not decode
    with 400, a batch with an incomplete metric with the status of the first such metric
    (404 without a name, 400 otherwise); a refusal leaves the world as it was.  Any other
    batch goes to the service, once: 200 exactly when the service took it, with the whole
    batch applied, 500 exactly when it failed, with all of it applied or nothing.
    Nothing panics, whatever the body holds. *)
Theorem updates_json_outcome h r s :
  is_Some (ReqBody r) -> audit_quiet h -> svc_reliable (w_service s) ->
  exists s' status, answers (UpdatesJSON h) r s (Ret tt) s' (status_reply status) /\
    let refused c := status = c /\ s' = s in
    let json := HasPrefix (ToLower (header_Get (ReqHeader r) HeaderContentType)) ContentTypeJSON in
    (Method r <> MethodPost -> refused StatusMethodNotAllowed) /\
    (Method r = MethodPost -> json = false -> refused StatusBadRequest) /\
    (Method r = MethodPost -> json = true ->
       match b ← ReqBody r; json_Decode b ≫= metrics_of_json with
       | None => refused StatusBadRequest
       | Some l =>
           match list_find (fun m => ~ complete_metric m) l with
           | Some (_, m) => refused (if decide (ID m = "") then StatusNotFound else StatusBadRequest)
           | None => exists o, svc_UpdateMetrics (ReqContext r) l (w_service s) = (o, w_service s') /\
               svc_reliable (w_service s') /\
               ((o = Ret tt /\ status = StatusOK /\
                   svc_view (w_service s') = apply_batch l (svc_view (w_service s))) \/
                (is_ret o = false /\ status = StatusInternalServerError /\
                   (svc_view (w_service s') = svc_view (w_service s) \/
                    svc_view (w_service s') = apply_batch l (svc_view (w_service s)))))
           end
       end).
Proof.
  intros Hb Hq Hw.
  assert (Hrun : forall c, (forall (W : Type) (RW : ResponseWriter W) (w : W),
      UpdatesJSON h W RW r (s, w) = (Ret tt, (s, emit (status_reply c) w))) ->
    answers (UpdatesJSON h) r s (Ret tt) s (status_reply c)) by (intros c Hc W RW w; apply Hc).
  destruct (decoded metrics_of_json r) as [c|l] eqn:Ed.
  { exists s, c. split.
    - apply Hrun. intros W RW w. unfold UpdatesJSON. by erewrite bind_Ret by (by rewrite decodeJSONRequest_run, Ed).
    - apply decoded_refusal in Ed as (E1 & E2 & E3). cbn zeta. split_and!; [auto|auto|].
      intros Hm Hj. destruct (E3 Hm Hj) as [-> ->]. done. }
  apply decoded_accepts in Ed as Hd. destruct Hd as (Hm & Hj & Hl). rewrite Hm, Hj, Hl.
  destruct (first_refusal l) as [c|] eqn:Er.
  { exists s, c. split.
    - apply Hrun. intros W RW w. unfold UpdatesJSON. erewrite bind_Ret by (by rewrite decodeJSONRequest_run, Ed).
      cbn beta iota. by rewrite Er.
    - cbn zeta. split_and!; [done|done|]. intros _ _. rewrite first_refusal_find in Er.
      destruct (list_find _ l) as [[i m]|]; [|done]. by injection Er as <-. }
  destruct (svc_UpdateMetrics (ReqContext r) l (w_service s)) as [o v] eqn:Es.
  destruct (UpdatesJSON_run h r s l o v Hb Hq Hw Ed Er Es) as (s' & c & Ha & <- & Hw' & Hc).
  exists s', c. split; [done|]. cbn zeta. split_and!; [done|done|]. intros _ _. rewrite first_refusal_find in Er.
  destruct (list_find _ l) as [[i m]|]; [done|]. exists o. naive_solver.
Qed.

(** The update a URL asks for. *)
Definition url_metric (r : Request) : option Metrics :=
  if decide (URLParam r "type" = Gauge) then gauge_metric (URLParam r "name") <$> ParseFloat (URLParam r "value")
  else if decide (URLParam r "type" = Counter)
  then counter_metric (URLParam r "name") <$> ParseInt (URLParam r "value")
  else None.

(** The service call for one metric. *)
Definition service_update (ctx : Context) (m : Metrics) : M V unit :=
  match Value m, Delta m with
  | Some v, _ => svc_UpdateGauge ctx (ID m) v
  | None, Some d => _ ← svc_UpdateCounter ctx (ID m) d; mret tt
  | None, None => mret tt
  end.

(** Run [success] of the update handlers. *)
Ltac serve lem :=
  cbv beta zeta;
  repeat (first
  [ erewrite bind_Ret by (by apply attempt_service_Ret)
  | erewrite bind_Ret by (by apply attempt_service_Fail)
  | erewrite bind_Ret by (by apply on_fst_Ret)
  | erewrite bind_Ret by (by rewrite decodeJSONRequest_run, lem) ];
  cbn beta iota).

(** The update handler once the request is accepted: the service decides. *)
Lemma Update_run h r s m o v :
  audit_quiet h -> svc_reliable (w_service s) -> Method r = MethodPost ->
  bool_decide (header_Get (ReqHeader r) HeaderContentType <> "")
    && negb (HasPrefix (ToLower (header_Get (ReqHeader r) HeaderContentType)) ContentTypeTextPlain) = false ->
  URLParam r "name" <> "" -> url_metric r = Some m -> service_update (ReqContext r) m (w_service s) = (o, v) ->
  exists s' rep, answers (Update h) r s (Ret tt) s' rep /\ w_service s' = v /\ svc_reliable v /\
    ((o = Ret tt /\ reply_status rep = StatusOK /\ svc_view v = apply_metric (svc_view (w_service s)) m) \/
     (is_ret o = false /\ reply_status rep = StatusInternalServerError /\
        (svc_view v = svc_view (w_service s) \/ svc_view v = apply_metric (svc_view (w_service s)) m))).
Proof.
  intros Hq Hw Hm Hct Hn Hu Es. change (answers (Update h) r s) with (answers (fun W RW _ => Update h W RW r) r s).
  unfold Update. rewrite Hct. destruct (decide (Method r <> MethodPost)) as [?|_]; [done|].
  destruct (decide (URLParam r "name" = "")) as [?|_]; [done|]. unfold url_metric in Hu. destruct (decide (URLParam r "type" = Gauge)).
  - destruct (ParseFloat _) as [x|]; [|done]. injection Hu as <-. cbn in Es.
    destruct (svc_UpdateGauge_spec _ _ _ _ _ _ Hw Es) as [Hw' Hv]. destruct o as [[]|err|p]; [| |done].
    + destruct (notifyAuditMetric_ok h r (URLParam r "name") (set_service v s) Hq) as (s' & Ea & Hs' & _).
      exists s', (MkReply (Some ContentTypeTextPlainUTF8) StatusOK None).
      split; [|by eauto 10]. intros W RW w. by serve Es.
    + exists (set_service v s), (status_reply StatusInternalServerError).
      split; [|by eauto 10]. intros W RW w. by serve Es.
  - destruct (decide (URLParam r "type" = Counter)); [|done].
    destruct (ParseInt _) as [d|] eqn:Ep; [|done]. injection Hu as <-. cbn in Es.
    destruct (svc_UpdateCounter (ReqContext r) (URLParam r "name") d (w_service s)) as [o' v'] eqn:Ec.
    unfold mbind, St_bind in Es. rewrite Ec in Es.
    destruct (svc_UpdateCounter_spec _ _ _ _ _ _ (ParseInt_range _ _ Ep) Hw Ec) as [Hw' Hv].
    destruct o' as [total|err|p]; [| |done]; injection Es as <- <-.
    + destruct (notifyAuditMetric_ok h r (URLParam r "name") (set_service v' s) Hq) as (s' & Ea & Hs' & _).
      exists s', (MkReply (Some ContentTypeTextPlainUTF8) StatusOK None).
      split; [|by destruct Hv; eauto 10]. intros W RW w. by serve Ec.
    + exists (set_service v' s), (status_reply StatusInternalServerError).
      split; [|by eauto 10]. intros W RW w. by serve Ec.
Qed.

(** C17: what an update by URL answers, for every request, over a service that keeps its
    contract and an auditor that returns, with an error or not: 405 unless it is a POST, 400
    for a content type that is given and not [text/plain], 404 without a name, 400 when
    type and value do not spell out a metric, each with the world untouched.  Any other
    request makes one call of the service: 200 exactly when the service took the metric,
    500 exactly when it failed, with the metric applied or not.  The audit cannot make it
    fail, and it never panics. *)
Theorem update_outcome h r s :
  audit_quiet h -> svc_reliable (w_service s) ->
  exists s' rep, answers (Update h) r s (Ret tt) s' rep /\
    let refused c := rep = status_reply c /\ s' = s in
    let ct := header_Get (ReqHeader r) HeaderContentType in
    let text := ct = "" \/ HasPrefix (ToLower ct) ContentTypeTextPlain = true in
    (Method r <> MethodPost -> refused StatusMethodNotAllowed) /\
    (Method r = MethodPost -> ~ text -> refused StatusBadRequest) /\
    (Method r = MethodPost -> text -> URLParam r "name" = "" -> refused StatusNotFound) /\
    (Method r = MethodPost -> text -> URLParam r "name" <> "" ->
       match url_metric r with
       | None => refused StatusBadRequest
       | Some m => exists o, service_update (ReqContext r) m (w_service s) = (o, w_service s') /\
           svc_reliable (w_service s') /\
           ((o = Ret tt /\ reply_status rep = StatusOK /\
               svc_view (w_service s') = apply_metric (svc_view (w_service s)) m) \/
            (is_ret o = false /\ reply_status rep = StatusInternalServerError /\
               (svc_view (w_service s') = svc_view (w_service s) \/
                svc_view (w_service s') = apply_metric (svc_view (w_service s)) m)))
       end).
Proof.
  intros Hq Hw. set (ct := header_Get (ReqHeader r) HeaderContentType).
  assert (Hrun : forall c, (forall (W : Type) (RW : ResponseWriter W) (w : W),
      Update h W RW r (s, w) = WriteHeader c (s, w)) -> answers (Update h) r s (Ret tt) s (status_reply c))
    by (intros c Hc W RW w; apply Hc).
  destruct (decide (Method r <> MethodPost)) as [Hm|Hm%dec_stable].
  { exists s, (status_reply StatusMethodNotAllowed). split; [|by cbn zeta; split_and!].
    apply Hrun. intros W RW w. unfold Update. by rewrite decide_True. }
  destruct (bool_decide (ct <> "") && negb (HasPrefix (ToLower ct) ContentTypeTextPlain)) eqn:Ect.
  { exists s, (status_reply StatusBadRequest). split.
    - apply Hrun. intros W RW w. unfold Update. rewrite decide_False by tauto. fold ct. by rewrite Ect.
    - apply andb_true_iff in Ect as [E1%bool_decide_eq_true E2%negb_true_iff]. cbn zeta.
      assert (Hno : ~ (ct = "" \/ HasPrefix (ToLower ct) ContentTypeTextPlain = true)) by (intros [?|?]; congruence).
      by split_and!. }
  assert (Hyes : ct = "" \/ HasPrefix (ToLower ct) ContentTypeTextPlain = true).
  { apply andb_false_iff in Ect as [E%bool_decide_eq_false|E%negb_false_iff]; [left; by apply dec_stable|by right]. }
  destruct (decide (URLParam r "name" = "")) as [Hn|Hn].
  { exists s, (status_reply StatusNotFound). split; [|by cbn zeta; split_and!].
    apply Hrun. intros W RW w. unfold Update. rewrite decide_False by tauto. fold ct. rewrite Ect. by rewrite decide_True. }
  destruct (url_metric r) as [m|] eqn:Hu.
  - destruct (service_update (ReqContext r) m (w_service s)) as [o v] eqn:Es.
    destruct (Update_run h r s m o v Hq Hw Hm Ect Hn Hu Es) as (s' & rep & Ha & <- & Hw' & Hc).
    exists s', rep. split; [done|]. cbn zeta. split; [done|]. split; [done|]. split; [done|].
    intros _ _ _. exists o. split; [done|]. by split.
  - exists s, (status_reply StatusBadRequest). split; [|by cbn zeta; split_and!].
    apply Hrun. intros W RW w. unfold Update. rewrite decide_False by tauto. fold ct. rewrite Ect.
    rewrite decide_False by done. unfold url_metric in Hu.
    destruct (decide (URLParam r "type" = Gauge)); [by destruct (ParseFloat _)|].
    destruct (decide (URLParam r "type" = Counter)); [by destruct (ParseInt _)|done].
Qed.

(** Reading a metric by URL never changes it; a 200 carries the stored value
    in a text that reads back as that very value, and every other answer is a 404
    without a body. *)
Theorem value_text_outcome `{!FloatTextLaws} h r s :
  svc_reliable (w_service s) ->
  exists s' rep, answers (ValueText h) r s (Ret tt) s' rep /\
    svc_view (w_service s') = svc_view (w_service s) /\
    (rep = status_reply StatusNotFound \/
     (reply_status rep = StatusOK /\ URLParam r "type" = Gauge /\ exists v text,
        view_gauges (svc_view (w_service s)) !! URLParam r "name" = Some v /\
        reply_body rep = Some text /\ (is_finite v = true -> ParseFloat text = Some v)) \/
     (reply_status rep = StatusOK /\ URLParam r "type" = Counter /\ exists d text,
        view_counters (svc_view (w_service s)) !! URLParam r "name" = Some d /\
        reply_body rep = Some text /\ (in_int64 d -> ParseInt text = Some d))).
Proof.
  intros Hw. change (answers (ValueText h) r s) with (answers (fun W RW _ => ValueText h W RW r) r s).
  unfold ValueText. destruct (decide (_ \/ _)) as [|Hok].
  { exists s, (status_reply StatusNotFound). by split_and!; auto. }
  destruct (decide (URLParam r "type" = Gauge)) as [Hg|].
  - destruct (svc_GetGauge (ReqContext r) (URLParam r "name") (w_service s)) as [o x] eqn:Es.
    destruct (svc_GetGauge_spec _ _ _ _ _ Hw Es) as (Hw' & Hv & Ho). destruct o as [v|err|p]; [| |done].
    + exists (set_service x s), (MkReply (Some ContentTypeTextPlainUTF8) StatusOK (Some (FormatFloat v))).
      split; [intros W RW w; by serve Es|]. split; [done|]. right; left.
      split_and!; [done|done|]. exists v, (FormatFloat v).
      split_and!; [done|done|]. apply ParseFloat_FormatFloat.
    + exists (set_service x s), (status_reply StatusNotFound).
      split; [intros W RW w; by serve Es|by auto].
  - destruct (decide (URLParam r "type" = Counter)) as [Hc|]; [|tauto].
    destruct (svc_GetCounter (ReqContext r) (URLParam r "name") (w_service s)) as [o x] eqn:Es.
    destruct (svc_GetCounter_spec _ _ _ _ _ Hw Es) as (Hw' & Hv & Ho). destruct o as [d|err|p]; [| |done].
    + exists (set_service x s), (MkReply (Some ContentTypeTextPlainUTF8) StatusOK (Some (FormatInt d))).
      split; [intros W RW w; by serve Es|]. split; [done|]. right; right.
      split_and!; [done|done|]. exists d, (FormatInt d).
      split_and!; [done|done|]. apply ParseInt_FormatInt.
    + exists (set_service x s), (status_reply StatusNotFound).
      split; [intros W RW w; by serve Es|by auto].
Qed.

(** A gauge that holds NaN or an infinity is reported as found, but the reply
    has no body: a client of the JSON endpoint gets a 200 it cannot decode. *)
Theorem value_json_nonfinite h r s metric v x :
  is_Some (ReqBody r) -> decoded metric_of_json r = inr metric -> ID metric <> "" ->
  MType metric = Gauge -> is_finite v = false ->
  svc_GetGauge (ReqContext r) (ID metric) (w_service s) = (Ret v, x) ->
  answers (ValueJSON h) r s (Ret tt) (set_service x s)
    (MkReply (Some ContentTypeJSON) StatusOK None).
Proof.
  intros Hb Ed Hn Hg Hv Es W RW w. unfold ValueJSON. serve Ed.
  rewrite decide_False, decide_True by done. serve Ed.
  unfold writeMetricJSON. by rewrite (json_of_metric_None _ v).
Qed.

Lemma page_item_count name value :
  string_forallb not_markup value = true -> string_count "<" (page_item name value) = 4%nat.
Proof.
  intros Hv. unfold page_item. rewrite !string_count_app.
  rewrite (no_markup_count (EscapeString name)) by apply EscapeString_no_markup.
  by rewrite (no_markup_count value).
Qed.

Lemma page_items_count {A} (f : string * A -> string) l :
  (forall x, string_count "<" (f x) = 4%nat) ->
  string_count "<" (String.concat "" (map f l)) = (4 * length l)%nat.
Proof.
  intros Hf. rewrite string_count_concat. induction l as [|x l IH]; [done|].
  cbn [map foldr length]. rewrite Hf, IH. lia.
Qed.

(** The index page lists every metric, and no metric name can add markup to
    it: the page has exactly as many tags as its frame and its items, whatever
    the names are. *)
Theorem index_page_tags `{!FloatTextLaws} h r s :
  svc_reliable (w_service s) ->
  exists s' rep, answers (Index h) r s (Ret tt) s' rep /\
    svc_view (w_service s') = svc_view (w_service s) /\
    (rep = status_reply StatusInternalServerError \/
     (reply_status rep = StatusOK /\ exists page, reply_body rep = Some page /\
        string_count "<" page
        = (12 + 4 * (size (view_gauges (svc_view (w_service s)))
                     + size (view_counters (svc_view (w_service s)))))%nat)).
Proof.
  intros Hw. change (answers (Index h) r s) with (answers (fun W RW _ => Index h W RW r) r s).
  unfold Index. destruct (svc_Snapshot (ReqContext r) (w_service s)) as [o x] eqn:Es.
  destruct (svc_Snapshot_spec _ _ _ _ Hw Es) as (Hw' & Hv & Ho). destruct o as [[g c]|err|p]; [| |done].
  - exists (set_service x s), (MkReply (Some ContentTypeHTMLUTF8) StatusOK (Some (index_page g c))).
    split; [intros W RW w; by serve Es|]. split; [done|]. right. split; [done|].
    exists (index_page g c). split; [done|]. rewrite Ho. cbn [view_gauges view_counters].
    unfold index_page. rewrite !string_count_app, !page_items_count.
    + change (string_count "<" page_head) with 9%nat. change (string_count "<" page_tail) with 3%nat.
      rewrite <-!length_map_to_list, !(Permutation_length (range_map_perm _ _)). lia.
    + intros kv. apply page_item_count, json_number_no_markup, json_number_FormatInt.
    + intros kv. apply page_item_count, FormatFloat_no_markup.
  - exists (set_service x s), (status_reply StatusInternalServerError).
    split; [intros W RW w; by serve Es|by auto].
Qed.

End Operations.
Arguments t : clear implicits.

(** ** A server with synchronous saving *)

Section SyncServer.
Context {X : Type} `{MapRange} `{FloatText} `{JsonText} (f : FileStore.t).

#[local] Instance sync_service_ops : Service (MemStorage.t * FS) :=
  MetricsService.service_of (MetricsService.sync_service f).

(** A request with a batch of complete metrics, none of which sets this gauge. *)
Definition batch_without (name : string) (r : Request) (l : list Metrics) : Prop :=
  is_Some (ReqBody r) /\ decoded metrics_of_json r = inr l /\ first_refusal l = None /\ values_of name l = [].

(** Every request of the sequence is answered 500. *)
Fixpoint all_fail (h : t (MemStorage.t * FS) X) (rs : list Request) (s s' : World (MemStorage.t * FS) X) : Prop :=
  match rs with
  | [] => s' = s
  | r :: rs => exists s1, answers (UpdatesJSON h) r s (Ret tt) s1 (status_reply StatusInternalServerError) /\
      all_fail h rs s1 s'
  end.

(** While a non-finite gauge is held, batches are applied in memory and answered 500. *)
Lemma poisoned_batches h name v rs ls m fs s :
  is_finite v = false -> MemStorage.gauges m !! name = Some v -> Forall2 (batch_without name) rs ls ->
  w_service s = (m, fs) ->
  exists s', all_fail h rs s s' /\ w_service s' = (foldl MemStorage.put_metric m (List.concat ls), fs) /\
    MemStorage.gauges (w_service s').1 !! name = Some v.
Proof.
  intros Hv Hg Hrs. revert m s Hg. induction Hrs as [|r l rs ls (Hb & Ed & Er & Hl) _ IH]; intros m s Hg Hs.
  { exists s. rewrite Hs. by split_and!. }
  destruct (MetricsService.nonfinite_gauge_blocks_saving f (ReqContext r) l name v m fs) as [E Hg'];
    [by apply first_refusal_None|done|done|done|].
  destruct (IH (foldl MemStorage.put_metric m l) (set_service (foldl MemStorage.put_metric m l, fs) s) Hg' eq_refl)
    as (s' & Hf & Hs' & Hg2).
  exists s'. split; [|split; [|done]].
  - eexists. split; [|exact Hf]. intros W RW w. unfold UpdatesJSON.
    erewrite bind_Ret by (by rewrite decodeJSONRequest_run, Ed).
    cbn beta iota. rewrite Er. erewrite bind_Ret; [|apply attempt_service_Fail; rewrite Hs; exact E]. done.
  - cbn [List.concat]. by rewrite foldl_app.
Qed.

(** C39: one URL update (a POST without a content type) with the value NaN (or an infinity,
    both of which [strconv.ParseFloat] accepts) stops a server that saves synchronously from saving,
    until something sets that gauge again: the update is answered 500, and so is each
    of any number of later valid batches that do not set the gauge.  All of them are
    applied in memory nevertheless, and the metrics file is not written. *)
Theorem nan_update_poisons_server (h : t (MemStorage.t * FS) X) r1 s m fs v rs ls :
  w_service s = (m, fs) -> Method r1 = MethodPost ->
  header_Get (ReqHeader r1) HeaderContentType = "" ->
  URLParam r1 "type" = Gauge -> URLParam r1 "name" <> "" ->
  ParseFloat (URLParam r1 "value") = Some v -> is_finite v = false ->
  Forall2 (batch_without (URLParam r1 "name")) rs ls ->
  exists s1 s2, answers (Update h) r1 s (Ret tt) s1 (status_reply StatusInternalServerError) /\
    w_service s1 = (MemStorage.put_gauge (URLParam r1 "name") v m, fs) /\
    all_fail h rs s1 s2 /\
    w_service s2 = (foldl MemStorage.put_metric (MemStorage.put_gauge (URLParam r1 "name") v m) (List.concat ls), fs) /\
    MemStorage.gauges (w_service s2).1 !! URLParam r1 "name" = Some v.
Proof.
  intros Hs Hm Hct Ht Hn Hp Hv Hrs.
  pose proof (MetricsService.nonfinite_gauge_update f (ReqContext r1) (URLParam r1 "name") v m fs Hv) as E1.
  destruct (poisoned_batches h (URLParam r1 "name") v rs ls (MemStorage.put_gauge (URLParam r1 "name") v m) fs
    (set_service (MemStorage.put_gauge (URLParam r1 "name") v m, fs) s)) as (s2 & Hf & Hs2 & Hg);
    [done|cbn; apply lookup_insert_eq|done|done|].
  exists (set_service (MemStorage.put_gauge (URLParam r1 "name") v m, fs) s), s2.
  split; [|split; [reflexivity|split; [exact Hf|by split]]].
  intros W RW w. unfold Update. cbv beta zeta. rewrite Hm, Hct, Ht, Hp.
  rewrite decide_False by tauto. cbn [bool_decide andb decide decide_rel].
  rewrite bool_decide_eq_false_2 by tauto. cbn [andb].
  rewrite decide_False, decide_True by done.
  erewrite bind_Ret; [|apply attempt_service_Fail; rewrite Hs; exact E1]. done.
Qed.
End SyncServer.

(** ** Witnesses *)

Definition sample_json : json :=
  JArr [JObj [("id", JStr "n"); ("type", JStr "counter"); ("delta", JNum "5")]].

Definition post (ctype body : string) (url : string -> string) : Request :=
  MkRequest MethodPost "/" "10.0.0.1:5000" {["Content-Type" := [ctype]]} (Some (bytes_body body))
    (Z.of_nat (String.length body)) url Background.

Definition sample_post : Request := post ContentTypeJSON (json_print sample_json) (fun _ => "").

Definition url_params (ty name value : string) (k : string) : string :=
  if decide (k = "type") then ty else if decide (k = "name") then name
  else if decide (k = "value") then value else "".

(** A server with the in-memory storage, the file, and no audit. *)
Definition sample_server : t (MemStorage.t * FS) unit := New None.

Definition sample_request_world : World (MemStorage.t * FS) unit :=
  MkWorld (FileStore.sample_store, FileStore.empty_fs) tt [] 0.

#[local] Instance sample_service : Service (MemStorage.t * FS) :=
  MetricsService.service_of (MetricsService.sync_service MetricsService.sample_file).
#[local] Instance sample_service_laws : ServiceLaws (MemStorage.t * FS) :=
  MetricsService.service_laws (MetricsService.sync_service MetricsService.sample_file)
    (MetricsService.file_saver_ok MetricsService.sample_file).

Lemma sample_no_audit : audit_quiet sample_server.
Proof. intros a E. discriminate E. Qed.

Lemma updates_json_outcome_witness :
  exists s', answers (UpdatesJSON sample_server) sample_post sample_request_world
      (Ret tt) s' (status_reply StatusOK) /\
    svc_view (w_service s') = apply_batch [counter_metric "n" 5] (svc_view (w_service sample_request_world)).
Proof.
  destruct (updates_json_outcome sample_server sample_post sample_request_world)
    as (s' & status & Ha & _ & _ & H).
  - eexists. reflexivity.
  - exact sample_no_audit.
  - exact I.
  - destruct (H eq_refl eq_refl) as (o & Es & _ & [(-> & -> & Hv)|(Ho & _)]).
    + exists s'. split; [exact Ha|exact Hv].
    + exfalso. revert Ho. change o with (o, w_service s').1. rewrite <-Es. vm_compute. discriminate.
Defined.

Lemma update_outcome_witness :
  exists s' rep, answers (Update sample_server)
      (post ContentTypeTextPlain "" (url_params "counter" "n" "7")) sample_request_world (Ret tt) s' rep /\
    reply_status rep = StatusOK /\
    svc_view (w_service s') = apply_metric (svc_view (w_service sample_request_world)) (counter_metric "n" 7).
Proof.
  destruct (update_outcome sample_server (post ContentTypeTextPlain "" (url_params "counter" "n" "7"))
    sample_request_world) as (s' & rep & Ha & _ & _ & _ & H).
  - exact sample_no_audit.
  - exact I.
  - destruct (H eq_refl (or_intror eq_refl) ltac:(discriminate)) as (o & Es & _ & [(-> & Hr & Hv)|(Ho & _)]).
    + exists s', rep. split; [exact Ha|]. split; [exact Hr|exact Hv].
    + exfalso. revert Ho. change o with (o, w_service s').1. rewrite <-Es. vm_compute. discriminate.
Defined.

Lemma value_text_outcome_witness :
  exists s' rep, answers (ValueText sample_server)
      (post "" "" (url_params "counter" "PollCount" "")) sample_request_world (Ret tt) s' rep.
Proof.
  destruct (value_text_outcome sample_server (post "" "" (url_params "counter" "PollCount" ""))
    sample_request_world) as (s' & rep & H & _); [exact I|].
  exists s', rep. exact H.
Defined.

Definition nan_world : World (MemStorage.t * FS) unit :=
  MkWorld (MemStorage.Mk {["g" := NaN]} ∅, FileStore.empty_fs) tt [] 0.

Definition sample_gauge_query : Request :=
  post ContentTypeJSON (json_print (JObj [("id", JStr "g"); ("type", JStr "gauge")])) (fun _ => "").

Lemma value_json_nonfinite_witness :
  exists x, answers (ValueJSON sample_server) sample_gauge_query nan_world (Ret tt)
    (set_service x nan_world) (MkReply (Some ContentTypeJSON) StatusOK None).
Proof.
  eexists. refine (value_json_nonfinite sample_server sample_gauge_query nan_world
    (MkMetrics "g" "gauge" None None "") NaN _ _ _ _ _ _ _).
  - eexists. reflexivity.
  - vm_compute. reflexivity.
  - discriminate.
  - reflexivity.
  - reflexivity.
  - reflexivity.
Defined.

Lemma index_page_tags_witness :
  exists s' rep, answers (Index sample_server) (post "" "" (fun _ => "")) sample_request_world (Ret tt) s' rep.
Proof.
  destruct (index_page_tags sample_server (post "" "" (fun _ => "")) sample_request_world)
    as (s' & rep & H & _); [exact I|].
  exists s', rep. exact H.
Defined.

Lemma sample_post_without : batch_without "g" sample_post [counter_metric "n" 5].
Proof. split_and!; [by eexists|vm_compute; reflexivity|reflexivity|reflexivity]. Qed.

Lemma nan_update_poisons_server_witness :
  exists s1 s2, answers (Update sample_server)
      (post "" "" (url_params "gauge" "g" "NaN")) sample_request_world
      (Ret tt) s1 (status_reply StatusInternalServerError) /\
    all_fail MetricsService.sample_file sample_server [sample_post; sample_post] s1 s2 /\
    (w_service s2).2 = FileStore.empty_fs /\ MemStorage.counters (w_service s2).1 !! "n" = Some 10.
Proof.
  destruct (nan_update_poisons_server MetricsService.sample_file sample_server
    (post "" "" (url_params "gauge" "g" "NaN")) sample_request_world
    FileStore.sample_store FileStore.empty_fs NaN [sample_post; sample_post] [[counter_metric "n" 5]; [counter_metric "n" 5]])
    as (s1 & s2 & H1 & _ & H2 & H3 & _).
  - reflexivity.
  - reflexivity.
  - reflexivity.
  - reflexivity.
  - discriminate.
  - vm_compute. reflexivity.
  - reflexivity.
  - constructor; [exact sample_post_without|]. constructor; [exact sample_post_without|constructor].
  - exists s1, s2. split; [exact H1|]. split; [exact H2|]. rewrite H3. split; [reflexivity|vm_compute; reflexivity].
Defined.

End Handler.
