(* ===== verification/HTTPSender.v ===== *)
(** * The agent's HTTP sender: [internal/agent/transport]

    [network.go] and [http/http_sender.go]: a batch becomes a JSON document,
    compressed, encrypted when there is a key, signed when there is a secret, and
    posted with retries.  The REST client acts on a network state [X] and the
    clock; the entropy [R] is used once per batch. *)

From S2P Require Import Prelude GoError GoString GoNum GoContext GoJson NetIP Model MetricsJson Storage FileStore Instances Sha256 Retry Protocol Http AesGcm Encryption Middleware.
Local Open Scope Z_scope.

(** ** [network.go] *)

(** [net.InterfaceAddrs] *)
Class NetInterfaces := InterfaceAddrs : outcome error (list Addr).

Fixpoint first_local (addrs : list Addr) : option string :=
  match addrs with
  | [] => None
  | AddrOther :: addrs => first_local addrs
  | AddrIPNet n :: addrs =>
      if IsLoopback (net_IP n) then first_local addrs
      else match To4 (net_IP n) with
           | Some ip => Some (v4_String ip)
           | None => first_local addrs
           end
  end.

Definition LocalIP `{NetInterfaces} : outcome error string :=
  match InterfaceAddrs with
  | Fail err => Fail (ErrWrap "get interface addresses" err)
  | Panic p => Panic p
  | Ret addrs =>
      match first_local addrs with
      | Some ip => Ret ip
      | None => Fail (ErrNew "local IPv4 address not found")
      end
  end.

(** ** The sender *)

(** [client.R()....Post(url)]: the status of the response. *)
Class RestClient (X : Type) :=
  rest_Post : Context -> string -> Header -> string -> M (X * Z) Z.

(** [service.MetricsSender] on any state. *)
Definition MetricsSender (S : Type) : Type := Context -> list Metrics -> M S unit.

Definition isRetriableStatusCode (statusCode : Z) : bool :=
  bool_decide (statusCode = StatusTooManyRequests) || ((500 <=? statusCode) && (statusCode <? 600)).

Definition isRetriableHTTPError (err : error) : bool :=
  match As sel_net err with Some _ => true | None => false end.

Definition isRetriableSendError (err : error) : bool :=
  match As sel_unexpected_status err with
  | Some statusCode => isRetriableStatusCode statusCode
  | None => isRetriableHTTPError err
  end.

Module HTTPSender.

Section Operations.
Context {R X PK SK : Type} `{!Crypto R PK SK} `{!KeyFormats PK SK} `{JsonText} `{FloatText} `{Gzip}
  `{SelectOrder} `{!RestClient X} `{NetInterfaces}.

Record t : Type := Mk {
  baseURL : string;
  hashKey : string;
  publicKey : option PK;
}.

Definition NewHTTPSender (serverAddr hashKey cryptoKey : string) : M FS t :=
  publicKey ←
    (if decide (cryptoKey <> "") then
       loadedPublicKey ← map_err (ErrWrap "load public key") (LoadPublicKey (SK := SK) cryptoKey);
       mret (Some loadedPublicKey)
     else mret None);
  let baseURL := if negb (Contains serverAddr "://") then "http://" +:+ serverAddr else serverAddr in
  mret (Mk baseURL hashKey publicKey).

(** Writing to the buffer behind the gzip writer cannot fail. *)
Definition gzipCompress (data : string) : outcome error string := Ret (gzip_compress data).

Definition prepareRequestBody (metrics : list Metrics) : outcome error string :=
  and_then (wrap_fail "marshal metrics batch" (Marshal_metrics metrics)) (fun body =>
  wrap_fail "gzip compress metrics batch" (gzipCompress body)).

(** The headers of an attempt. *)
Definition request_header (s : t) (hashValue realIP : string) : Header :=
  let h := header_Set HeaderRealIP realIP (header_Set HeaderContentEncoding EncodingGzip
             (header_Set HeaderContentType ContentTypeJSON ∅)) in
  let h := match publicKey s with
           | Some _ => header_Set HeaderContentEncryption SchemeRSAOAEPWithAESGCM h
           | None => h
           end in
  if decide (hashValue <> "") then header_Set HeaderHashSHA256 hashValue h else h.

Definition sendAttempt (s : t) (ctx : Context) (path body hashValue realIP : string) : M (X * Z) unit :=
  statusCode ← rest_Post ctx (baseURL s +:+ path) (request_header s hashValue realIP) body;
  if decide (statusCode <> StatusOK) then throw (ErrUnexpectedStatus statusCode) else mret tt.

Definition postWithRetry (s : t) (ctx : Context) (path body hashValue : string) : M (X * Z) unit :=
  realIP ← map_err (ErrWrap "get local IP") (lift_outcome LocalIP);
  retry (mret tt) isRetriableSendError (wait_clock ctx) retryDelays
    (sendAttempt s ctx path body hashValue realIP).

Definition Send (s : t) : MetricsSender (R * (X * Z)) := fun ctx metrics =>
  body ← lift_outcome (prepareRequestBody metrics);
  body ← match publicKey s with
         | Some pk => map_err (ErrWrap "encrypt metrics batch") (on_fst (Encrypt body (Some pk)))
         | None => mret body
         end;
  let hashValue := CalcHash body (hashKey s) in
  map_err (ErrWrap "send metrics batch") (on_snd (postWithRetry s ctx "/updates" body hashValue)).

(** ** The request the server gets *)

(** What one attempt puts on the wire for [metrics]: headers and body. *)
Definition request_of (s : t) (metrics : list Metrics) (realIP : string) (r : R) : option (Header * string) :=
  match prepareRequestBody metrics with
  | Ret body =>
      match publicKey s with
      | Some pk =>
          match Encrypt body (Some pk) r with
          | (Ret body, _) => Some (request_header s (CalcHash body (hashKey s)) realIP, body)
          | _ => None
          end
      | None => Some (request_header s (CalcHash body (hashKey s)) realIP, body)
      end
  | _ => None
  end.

(** ** Termination and effort *)

(** The status of one attempt, as the loop sees it. *)
Lemma sendAttempt_outcome s ctx path body hashValue realIP st r st' :
  sendAttempt s ctx path body hashValue realIP st = (r, st') ->
  match rest_Post ctx (baseURL s +:+ path) (request_header s hashValue realIP) body st with
  | (Ret c, st1) => st1 = st' /\ r = if decide (c <> StatusOK) then Fail (ErrUnexpectedStatus c) else Ret tt
  | (Fail e, st1) => st1 = st' /\ r = Fail e
  | (Panic p, st1) => st1 = st' /\ r = Panic p
  end.
Proof.
  unfold sendAttempt, mbind, St_bind, throw, mret, St_ret.
  destruct (rest_Post _ _ _ _ st) as [[c|e|p] st1]; [|by intros [= <- <-]..].
  case_decide; by intros [= <- <-].
Qed.
End Operations.
Arguments t : clear implicits.

(** C37: once the local address is known, a send makes at most four attempts and waits at
    most nine seconds in total between them, so with round trips of at most [b] each it
    ends within nine seconds and [4 b]; it reports success only if the server answered 200 to the last
    attempt.  An answer that is neither 429 nor 5xx is never retried, whichever
    attempt gets it: it ends the send with that status.  Unless the context ends the
    waiting, the send ends with the result of its last attempt, and a failure worth
    retrying is the last one only after four attempts. *)
Theorem send_effort {X PK : Type} `{SelectOrder} `{!RestClient X} `{NetInterfaces}
    (s : t PK) ctx path body hashValue realIP b st :
  (forall st, st.2 <= (rest_Post ctx (baseURL s +:+ path) (request_header s hashValue realIP) body st).2.2
              <= st.2 + b) ->
  LocalIP = Ret realIP -> 0 <= b ->
  let attempt := sendAttempt (X := X) s ctx path body hashValue realIP in
  let '(r, st') := postWithRetry s ctx path body hashValue st in
  st'.2 <= st.2 + 9 * Second + 4 * b /\
  exists results, retry (on_fst (mret tt)) isRetriableSendError (fun d => on_fst (wait_clock ctx d)) retryDelays
      (traced attempt) (st, []) = (r, (st', results)) /\
    (length results <= 4)%nat /\
    (r = Ret tt -> last results = Some (Ret tt) /\ exists st1,
       rest_Post ctx (baseURL s +:+ path) (request_header s hashValue realIP) body st1 = (Ret StatusOK, st')) /\
    (forall i c, results !! i = Some (Fail (ErrUnexpectedStatus c)) ->
       c = StatusTooManyRequests \/ 500 <= c < 600 \/
       (S i = length results /\ r = Fail (ErrUnexpectedStatus c))) /\
    (ctx_done_at ctx = None -> last results = Some r /\
       forall e, r = Fail e -> isRetriableSendError e = true -> length results = 4%nat).
Proof.
  intros Hclock Hip Hb attempt. unfold postWithRetry.
  erewrite bind_Ret by (unfold map_err, lift_outcome; by rewrite Hip). fold attempt.
  assert (Hop : forall st, st.2 <= (attempt st).2.2 <= st.2 + b).
  { intros st0. specialize (Hclock st0). destruct (attempt st0) as [r st'] eqn:E.
    apply sendAttempt_outcome in E. destruct (rest_Post _ _ _ _ st0) as [[c|e|p] st1];
      destruct E as [<- _]; exact Hclock. }
  pose proof (retry_clock ctx (mret tt) isRetriableSendError attempt retryDelays b st) as Hc.
  pose proof (retry_trace_spec (mret tt) isRetriableSendError (wait_clock ctx) retryDelays attempt st []) as Hk.
  destruct (retry _ _ _ _ _ st) as [r st'] eqn:E. cbn [fst snd] in Hc.
  destruct Hk as (tr & Etr & Ht & Hout). split.
  - enough (total retryDelays = 9 * Second /\ Z.of_nat (length retryDelays) + 1 = 4) as [Htot Hl]; [|done].
    assert (Hd : Forall (fun d => 0 <= d) retryDelays)
      by (repeat (apply Forall_cons; split; [done|]); apply Forall_nil; done).
    specialize (Hc Hd Hb (fun _ => eq_refl) Hop). rewrite Htot, Hl in Hc. lia.
  - exists tr. split; [exact Etr|]. split; [apply (rt_length _ _ _ _ Ht)|]. split_and!.
    + intros ->. split; [by apply (rt_success _ _ _ _ Ht)|].
      apply retry_Ret_inv in E as (st1 & E). exists st1. apply sendAttempt_outcome in E.
      destruct (rest_Post _ _ _ _ st1) as [[c|e|p] st2]; [|by destruct E..].
      destruct E as [-> E]. case_decide; [done|]. by subst c.
    + intros i c Hi. apply or_assoc. destruct (isRetriableStatusCode c) eqn:Hs; [left|right].
      { unfold isRetriableStatusCode in Hs. apply orb_true_iff in Hs as [Hs%bool_decide_eq_true|Hs]; lia. }
      pose proof (lookup_lt_Some _ _ _ Hi) as Hlt.
      destruct (decide (S i < length tr)%nat) as [Hn|Hn].
      { destruct (rt_retried _ _ _ _ Ht i _ Hi Hn) as (e & [= <-] & He). cbn in He. congruence. }
      assert (S i = length tr) as Hl by lia. split; [done|]. apply (rt_last _ _ _ _ Ht).
      * by rewrite last_lookup, <-Hl.
      * intros e [= <-]. exact Hs.
    + intros Hctx. destruct Hout as [Hlast Hn]; [by intros st0; exists st0| |].
      * intros d st0. unfold wait_clock, on_snd, waitRetry. rewrite Hctx. by eexists.
      * split; [exact Hlast|exact Hn].
Qed.

End HTTPSender.
