(* ===== verification/Router.v ===== *)
(** * The HTTP router: [internal/server/transport/http/router]

    The route table, the middlewares around it and their order.  How [chi]
    matches a request against patterns is an interface. *)

From S2P Require Import Prelude GoError GoString GoNum GoContext GoMap GoJson Model MetricsJson Instances Storage MemStorage FileStore Service NetIP Protocol Log Http AuditTrail Sha256 AesGcm Encryption Middleware Handler.
Local Open Scope Z_scope.

(** ** [chi] *)

Inductive routed : Type :=
| Matched (i : nat) (params : string -> string)
| NoRoute
| WrongMethod.

(** [chi_route]: the matching of a mux that strips trailing slashes, against
    method and pattern of its routes ([None] accepts every method); the replies to
    requests without a route are [chi]'s own. *)
Class Chi := {
  chi_route : list (option string * string) -> Request -> routed;
  chi_NotFound : forall S : Type, Handler S;
  chi_MethodNotAllowed : forall S : Type, Handler S;
}.

(** Matching looks at the method and the path only. *)
Class ChiLaws `{Chi} :=
  chi_route_ext routes r1 r2 :
    Method r1 = Method r2 -> RequestURI r1 = RequestURI r2 -> chi_route routes r1 = chi_route routes r2.

Definition with_params (params : string -> string) (r : Request) : Request :=
  MkRequest (Method r) (RequestURI r) (RemoteAddr r) (ReqHeader r) (ReqBody r) (ContentLength r)
    params (ReqContext r).

Record route (S : Type) : Type := MkRoute {
  route_method : option string;
  route_pattern : string;
  route_handler : Handler S;
}.
Arguments MkRoute {S} _ _ _.
Arguments route_method {S} _.
Arguments route_pattern {S} _.
Arguments route_handler {S} _.

Definition table {S : Type} (routes : list (route S)) : list (option string * string) :=
  map (fun rt => (route_method rt, route_pattern rt)) routes.

Definition mux `{Chi} {S : Type} (routes : list (route S)) : Handler S := fun W RW r =>
  match chi_route (table routes) r with
  | Matched i params =>
      match routes !! i with
      | Some rt => route_handler rt W RW (with_params params r)
      | None => chi_NotFound S W RW r
      end
  | NoRoute => chi_NotFound S W RW r
  | WrongMethod => chi_MethodNotAllowed S W RW r
  end.

Module Router.

Section Operations.
Context {V X R PK SK : Type} `{!Service V} `{MapRange} `{FloatText} `{JsonText} `{Gzip}
  `{!Crypto R PK SK} `{Chi}.

Record Options : Type := MkOptions {
  HashKey : string;
  PrivateKey : option SK;
  TrustedSubnet : option IPNet;
}.

(** The routes, with the subnet check around the ones agents send metrics to. *)
Definition routes (h : Handler.t V X) (opts : Options) : list (route (World V X)) :=
  let group := WithTrustedSubnet (TrustedSubnet opts) in
  [ MkRoute (Some MethodGet) "/ping" (Handler.Ping h);
    MkRoute None "/update/{type}/{name}/{value}" (group (Handler.Update h));
    MkRoute (Some MethodPost) "/updates" (group (Handler.UpdatesJSON h));
    MkRoute (Some MethodPost) "/update" (group (Handler.UpdateJSON h));
    MkRoute (Some MethodGet) "/value/{type}/{name}" (Handler.ValueText h);
    MkRoute (Some MethodPost) "/value" (Handler.ValueJSON h);
    MkRoute (Some MethodGet) "/" (Handler.Index h) ].

(** Outermost first: logging, hash, decryption, gzip. *)
Definition New (h : Handler.t V X) (opts : Options) : Handler (World V X) :=
  let r := WithGzip (mux (routes h opts)) in
  let r := match PrivateKey opts with
           | Some k => WithDecryption (R := R) (PK := PK) (Some k) r
           | None => r
           end in
  let r := if decide (HashKey opts <> "") then WithHash (HashKey opts) r else r in
  WithLogging r.

(** ** The inner layers, on any fresh writer *)

Definition fresh {W : Type} `{!ResponseWriter W} (w : W) : Prop :=
  header_Get (rw_Header w) HeaderContentType = "".

Definition decrypt_layer (opts : Options) (next : Handler (World V X)) : Handler (World V X) :=
  match PrivateKey opts with
  | Some k => WithDecryption (R := R) (PK := PK) (Some k) next
  | None => next
  end.

Definition hash_layer (opts : Options) (next : Handler (World V X)) : Handler (World V X) :=
  if decide (HashKey opts <> "") then WithHash (HashKey opts) next else next.

Lemma New_layers h opts :
  New h opts = WithLogging (hash_layer opts (decrypt_layer opts (WithGzip (mux (routes h opts))))).
Proof. unfold New, hash_layer, decrypt_layer. by destruct (PrivateKey opts), (decide (HashKey opts <> "")). Qed.

(** A status without a body survives compression as it is. *)
Lemma gzip_layer_status (next : Handler (World V X)) r plain s s' c (W : Type) (RW : ResponseWriter W)
    `{!ResponseWriterLaws W} (w : W) b :
  sends_gzip r = true -> ReqBody r = Some b -> gzip_open b = Ret plain ->
  answers next (set_body plain r) s (Ret tt) s' (status_reply c) -> fresh w ->
  WithGzip next W RW r (s, w) = (Ret tt, (s', emit (status_reply c) w)).
Proof.
  intros Hs Hb Ho Ha Hw. unfold WithGzip. rewrite Hs, Hb. cbn [newCompressReader]. rewrite Ho.
  erewrite serve_gzip_run by done. cbn [status_reply reply_type default from_option].
  change (compressible "") with false. by rewrite andb_false_r.
Qed.

(** A status without a body, through the hash layer and logging, on the way to
    the client. *)
Lemma outer_layers_status opts (next : Handler (World V X)) r s s' c body :
  ReqBody r = Some (bytes_body body) -> 0 < c ->
  (HashKey opts <> "" -> header_Get (ReqHeader r) HeaderHashSHA256 = "" \/
     header_Get (ReqHeader r) HeaderHashSHA256 = CalcHash body (HashKey opts)) ->
  (forall (W : Type) (RW : ResponseWriter W) (HW : ResponseWriterLaws W) (w : W), fresh w ->
     next W RW r (s, w) = (Ret tt, (s', emit (status_reply c) w))) ->
  exists e resp, WithLogging (hash_layer opts next) Response _ r (s, new_response)
      = (Ret tt, (log_append e s', resp)) /\
    resp_status resp = Some c /\ resp_body resp = "" /\
    (HashKey opts <> "" -> header_Get (resp_sent resp) HeaderHashSHA256 = CalcHash "" (HashKey opts)).
Proof.
  intros Hb Hc Hh Hn. unfold hash_layer. destruct (decide (HashKey opts <> "")) as [Hk|Hk].
  - specialize (Hh Hk). eexists _, _. split.
    { apply WithLogging_run. unfold WithHash. rewrite decide_False by done.
      unfold check_hash. rewrite Hb. cbn [ReadAll bytes_body body_end body_data].
      rewrite decide_False by naive_solver.
      replace (set_body (bytes_body body) r) with r by (destruct r; cbn in *; by rewrite Hb).
      erewrite bind_Ret; [|unfold with_writer; cbn [fst snd]; rewrite Hn by done; done].
      rewrite emit_hash_writer by done. unfold send_signed.
      cbn [hrw_body hrw_header hrw_statusCode hash_writer_of status_reply reply_type reply_status
        reply_body reply_header default from_option].
      rewrite (decide_False (P := CalcHash "" (HashKey opts) = "")) by by apply CalcHash_nonempty.
      rewrite (decide_False (P := c = 0)) by lia.
      unfold mbind, St_bind, on_snd, modify, WriteHeader. cbn -[copy_header header_Set].
      rewrite copy_header_empty by apply canonical_Set, canonical_empty. reflexivity. }
    cbn [lrw_ResponseWriter]. split_and!; [done|done|]. intros _. apply header_Get_Set.
  - eexists _, _. split; [apply WithLogging_run, Hn; done|]. by split_and!.
Qed.
End Operations.
Arguments Options : clear implicits.
End Router.
