(* ===== verification/Pipeline.v ===== *)
(** * From the agent to the storage

    The agent's HTTP sender against the server's router: what [Send] builds goes
    through hash, decryption, decompression, decoding and validation, and what a
    run of the retry loop does to the server's metrics.  The network in between
    may lose a request or its response. *)

From S2P Require Import Prelude GoError GoString GoNum GoContext GoMap GoJson Model MetricsJson Instances Storage MemStorage FileStore Service NetIP Retry Protocol Log Http AuditTrail Sha256 Base64 AesGcm Encryption Middleware HTTPSender Handler Router.
Local Open Scope Z_scope.

Section Pipeline.
Context {V X R PK SK : Type} `{!Service V} `{!ServiceLaws V} `{MapRange} `{FloatText} `{!FloatTextLaws}
  `{JsonText} `{!JsonTextLaws} `{Gzip} `{!GzipLaws} `{!Crypto R PK SK} `{!CryptoLaws R PK SK}
  `{Chi} `{!ChiLaws}.
Context (h : Handler.t V X) (opts : Router.Options SK) (s : HTTPSender.t PK).

(** The two ends are configured for each other. *)
Definition compatible : Prop :=
  HTTPSender.hashKey s = Router.HashKey opts /\
  match HTTPSender.publicKey s with
  | None => True
  | Some pk => exists sk, Router.PrivateKey opts = Some sk /\ key_pair pk sk
  end.

(** The address the agent reports is in the trusted subnet. *)
Definition trusted (realIP : string) : Prop :=
  forall n, Router.TrustedSubnet opts = Some n ->
    exists ip, ParseIP realIP = Some ip /\ IPNet_Contains n ip = true.

(** A batch an agent may send: valid metrics that JSON can carry. *)
Definition sendable (l : list Metrics) : Prop :=
  Forall encodable l /\ Forall (fun m => Handler.validateMetric m = StatusOK) l.

(** The server's view of a request with these headers and this body. *)
Definition received (hdr : Header) (body addr : string) : Request :=
  MkRequest MethodPost "/updates" addr hdr (Some (bytes_body body)) (len body) (fun _ => "") Background.

(** [chi] sends the agent's path to the batch handler. *)
Definition updates_routed : Prop :=
  forall hdr body addr, exists params,
    chi_route (table (Router.routes h opts)) (received hdr body addr) = Matched 2 params.

Lemma header_chain hv realIP :
  let hdr := HTTPSender.request_header s hv realIP in
  header_Get hdr HeaderContentType = ContentTypeJSON /\
  header_Get hdr HeaderContentEncoding = EncodingGzip /\
  header_Get hdr HeaderRealIP = realIP /\
  header_Get hdr HeaderContentEncryption
    = match HTTPSender.publicKey s with Some _ => SchemeRSAOAEPWithAESGCM | None => "" end /\
  header_Get hdr HeaderHashSHA256 = hv.
Proof.
  cbn zeta. unfold HTTPSender.request_header.
  destruct (HTTPSender.publicKey s) as [pk|]; destruct (decide (hv <> "")) as [Hv|Hv];
    repeat (first [rewrite header_Get_Set | rewrite header_Get_Set_ne by done]);
    split_and!; try done; symmetry; by apply dec_stable in Hv || (destruct hv; [done|by destruct Hv]).
Qed.

Lemma first_refusal_valid l :
  Forall (fun m => Handler.validateMetric m = StatusOK) l -> Handler.first_refusal l = None.
Proof. induction 1 as [|m l Hm _ IH]; [done|]. cbn [Handler.first_refusal]. by rewrite decide_False by tauto. Qed.
(** What a posted batch does: 200 and applied, or 500 and applied or not. *)
Definition batch_result (l : list Metrics) (sw s' : World V X) (c : Z) : Prop :=
  svc_reliable (w_service s') /\
  ((c = StatusOK /\ svc_view (w_service s') = apply_batch l (svc_view (w_service sw))) \/
   (c = StatusInternalServerError /\ svc_fails l (w_service sw) /\
      (svc_view (w_service s') = svc_view (w_service sw) \/
       svc_view (w_service s') = apply_batch l (svc_view (w_service sw))))).

Lemma sendable_storable l : sendable l -> Forall storable l.
Proof.
  intros [He Hv]. apply Forall_forall. intros m Hm. apply Handler.valid_storable.
  - by eapply (proj1 (Forall_forall _ _) Hv).
  - intros d Hd. pose proof (proj1 (Forall_forall _ _) He m Hm) as (_ & _ & _ & H64 & _). by apply H64.
Qed.

(** From the compressed body inwards. *)
Lemma gzip_delivers r data l realIP sw :
  updates_routed -> trusted realIP -> Handler.audit_quiet h -> svc_reliable (w_service sw) ->
  Method r = MethodPost -> RequestURI r = "/updates" ->
  header_Get (ReqHeader r) HeaderContentType = ContentTypeJSON ->
  header_Get (ReqHeader r) HeaderContentEncoding = EncodingGzip ->
  header_Get (ReqHeader r) HeaderRealIP = realIP ->
  ReqBody r = Some (bytes_body (gzip_compress data)) ->
  json_parse_first data ≫= metrics_of_json = Some l -> Handler.first_refusal l = None ->
  exists s' c, batch_result l sw s' c /\
    forall (W : Type) (RW : ResponseWriter W) (HW : ResponseWriterLaws W) (w : W), Router.fresh w ->
      WithGzip (mux (Router.routes h opts)) W RW r (sw, w) = (Ret tt, (s', emit (status_reply c) w)).
Proof.
  intros Hroute Htrust Hq Hw Hm Hu Hct Hce Hip Hb Hl Hv.
  destruct (Hroute ∅ "" "") as [params Hmatch].
  rewrite (chi_route_ext _ _ (set_body (bytes_body data) r)) in Hmatch by (cbn; congruence).
  set (r' := with_params params (set_body (bytes_body data) r)).
  assert (Hd : Handler.decoded metrics_of_json r' = inr l).
  { unfold Handler.decoded, r'. cbn [with_params set_body Method ReqHeader ReqBody].
    rewrite Hm, Hct. rewrite decide_False by tauto. change (bool_decide _ || negb _) with false.
    cbn [mbind option_bind]. by rewrite json_Decode_bytes, Hl. }
  destruct (Handler.UpdatesJSON_applies h r' sw l) as (s' & c & Ha & Hr); [by eexists|done..|].
  exists s', c. split; [exact Hr|]. intros W RW HW w Hw0.
  eapply (Router.gzip_layer_status _ r (bytes_body data) sw s' c); [done| |exact Hb|apply gzip_open_compress| |done].
  - unfold sends_gzip. by rewrite Hce.
  - intros W' RW' w'. unfold mux. rewrite Hmatch. cbn [Router.routes lookup list_lookup route_handler].
    fold r'. unfold WithTrustedSubnet.
    destruct (Router.TrustedSubnet opts) as [n|] eqn:En; [|apply Ha].
    destruct (Htrust n En) as (ip & Hp & Hin). unfold r' at 1. cbn [with_params set_body ReqHeader].
    rewrite Hip, Hp, Hin. apply Ha.
Qed.

(** What [Send] posts for a batch it can encode. *)
Lemma request_of_parts l realIP rnd hdr body :
  Forall encodable l -> HTTPSender.request_of (SK := SK) s l realIP rnd = Some (hdr, body) ->
  exists data, json_parse_first data ≫= metrics_of_json = Some l /\
    hdr = HTTPSender.request_header s (CalcHash body (HTTPSender.hashKey s)) realIP /\
    match HTTPSender.publicKey s with
    | None => body = gzip_compress data
    | Some pk => exists r', Encrypt (gzip_compress data) (Some pk) rnd = (Ret body, r')
    end.
Proof.
  intros Hl. destruct (Marshal_metrics_roundtrip l Hl) as (data & Em & _ & _ & Hp).
  unfold HTTPSender.request_of, HTTPSender.prepareRequestBody, HTTPSender.gzipCompress. rewrite Em.
  cbn [and_then wrap_fail]. destruct (HTTPSender.publicKey s) as [pk|].
  - destruct (Encrypt _ _ rnd) as [[body'|e|p] r'] eqn:E; [|done..]. intros [= <- <-]. exists data. eauto.
  - intros [= <- <-]. exists data. eauto.
Qed.

(** Every layer passes the request on. *)
Lemma delivered_run l realIP rnd hdr body addr sw :
  compatible -> updates_routed -> trusted realIP -> sendable l ->
  Handler.audit_quiet h -> svc_reliable (w_service sw) ->
  HTTPSender.request_of (SK := SK) s l realIP rnd = Some (hdr, body) ->
  exists s' e resp c, batch_result l sw s' c /\
    Router.New (R := R) (PK := PK) h opts Response _ (received hdr body addr) (sw, new_response)
    = (Ret tt, (log_append e s', resp)) /\
    resp_status resp = Some c /\
    (Router.HashKey opts <> "" ->
       header_Get (resp_sent resp) HeaderHashSHA256 = CalcHash (resp_body resp) (Router.HashKey opts)).
Proof.
  intros [Hkey Hpk] Hroute Htrust [Henc Hvalid] Hq Hw Hreq.
  destruct (request_of_parts _ _ _ _ _ Henc Hreq) as (data & Hp & -> & Hbody).
  pose proof (header_chain (CalcHash body (HTTPSender.hashKey s)) realIP) as (G1 & G2 & G3 & G4 & G5).
  set (hdr := HTTPSender.request_header s _ _) in *. set (r := received hdr body addr).
  assert (Hinner : exists s' c, batch_result l sw s' c /\
    forall (W : Type) (RW : ResponseWriter W) (HW : ResponseWriterLaws W) (w : W), Router.fresh w ->
      Router.decrypt_layer (R := R) (PK := PK) opts (WithGzip (mux (Router.routes h opts))) W RW r (sw, w)
      = (Ret tt, (s', emit (status_reply c) w))).
  { destruct (HTTPSender.publicKey s) as [pk|].
    - destruct Hpk as (sk & Hsk & Hpair). destruct Hbody as [rnd' Henc'].
      destruct (gzip_delivers (set_plain_body (gzip_compress data) r) data l realIP sw)
        as (s' & c & Hres & Hrun); try done.
      { cbn [ReqHeader set_plain_body]. by rewrite header_Get_Del_ne. }
      { cbn [ReqHeader set_plain_body]. by rewrite header_Get_Del_ne. }
      { cbn [ReqHeader set_plain_body]. by rewrite header_Get_Del_ne. }
      { by apply first_refusal_valid. }
      exists s', c. split; [done|]. intros W RW HW w Hw0. unfold Router.decrypt_layer. rewrite Hsk.
      rewrite (WithDecryption_run (PK := PK) _ sk r (bytes_body body) body (gzip_compress data));
        [by apply Hrun|cbn [ReqHeader r received]; by rewrite G4|cbn [ReqHeader r received]; by rewrite G4
        |done|done|].
      by eapply decrypt_then_encrypt.
    - subst body. destruct (gzip_delivers r data l realIP sw) as (s' & c & Hres & Hrun); try done.
      { by apply first_refusal_valid. }
      exists s', c. split; [done|]. intros W RW HW w Hw0. unfold Router.decrypt_layer.
      destruct (Router.PrivateKey opts) as [sk|]; [|by apply Hrun].
      unfold WithDecryption. cbn [ReqHeader r received]. rewrite G4, decide_True by done. by apply Hrun. }
  destruct Hinner as (s' & c & Hres & Hrun).
  destruct (Router.outer_layers_status opts
    (Router.decrypt_layer (R := R) (PK := PK) opts (WithGzip (mux (Router.routes h opts)))) r sw s' c body)
    as (e & resp & E & Hc & Hb & Hh).
  - done.
  - destruct Hres as (_ & [[-> _]|[-> _]]); done.
  - intros _. right. cbn [ReqHeader r received]. by rewrite G5, Hkey.
  - exact Hrun.
  - exists s', e, resp, c. rewrite Router.New_layers. split_and!; [done|exact E|done|].
    intros Hk. rewrite Hb. by apply Hh.
Qed.

(** C1: end to end: whatever the configuration (signed or not, encrypted or not,
    with a trusted subnet or not), a batch the agent posts to a server configured
    alike passes every layer.  The server answers 200 with exactly this batch
    applied, or 500 when its service failed; it never refuses the request, and the
    response is signed. *)
Theorem agent_batch_delivered l realIP rnd hdr body addr sw :
  compatible -> updates_routed -> trusted realIP -> sendable l ->
  Handler.audit_quiet h -> svc_reliable (w_service sw) ->
  HTTPSender.request_of (SK := SK) s l realIP rnd = Some (hdr, body) ->
  exists s' e resp c, batch_result l sw s' c /\
    Router.New (R := R) (PK := PK) h opts Response _ (received hdr body addr) (sw, new_response)
    = (Ret tt, (log_append e s', resp)) /\
    resp_status resp = Some c /\
    (Router.HashKey opts <> "" ->
       header_Get (resp_sent resp) HeaderHashSHA256 = CalcHash (resp_body resp) (Router.HashKey opts)).
Proof. apply delivered_run. Qed.
(** ** The retry loop over a network that loses messages *)

Inductive net_fault : Type := Delivered | RequestLost | ResponseLost.

(** One round trip: the schedule says what the network does to it.  A handler that
    panics closes the connection. *)
Definition round_trip (addr : string) (hdr : Header) (body : string)
    : M ((World V X * list net_fault) * Z) Z := fun st =>
  let '((sw, faults), now) := st in
  let fault := default Delivered (head faults) in
  match fault with
  | RequestLost => (Fail (ErrNet "connection refused"), ((sw, tail faults), now))
  | _ =>
      match Router.New (R := R) (PK := PK) h opts Response _ (received hdr body addr) (sw, new_response) with
      | (Panic _, (sw', _)) => (Fail (ErrNet "EOF"), ((sw', tail faults), now))
      | (_, (sw', resp)) =>
          match fault with
          | ResponseLost => (Fail (ErrNet "connection reset"), ((sw', tail faults), now))
          | _ => (Ret (default StatusOK (resp_status (finish resp))), ((sw', tail faults), now))
          end
      end
  end.

Definition lossy_network (addr : string) : RestClient (World V X * list net_fault) :=
  fun _ _ hdr body => round_trip addr hdr body.

Lemma round_trip_clock addr hdr body st : (round_trip addr hdr body st).2.2 = st.2.
Proof.
  unfold round_trip. destruct st as [[sw faults] now].
  destruct (Router.New h opts Response _ (received hdr body addr) (sw, new_response)) as [[[]|e|p] [sw' resp]];
    by destruct (default Delivered (head faults)).
Qed.

(** The metrics the server holds. *)
Definition server_view (st : (World V X * list net_fault) * Z) : View :=
  svc_view (w_service st.1.1).

Definition server_ok (st : (World V X * list net_fault) * Z) : Prop := svc_reliable (w_service st.1.1).

Lemma svc_log_append e (sw : World V X) : w_service (log_append e sw) = w_service sw.
Proof. done. Qed.

(** One attempt: what the network does to it, and what the server answered. *)
Lemma attempt_run addr l realIP rnd hdr body ctx path st o st' :
  compatible -> updates_routed -> trusted realIP -> sendable l -> Handler.audit_quiet h ->
  HTTPSender.request_of (SK := SK) s l realIP rnd = Some (hdr, body) -> server_ok st ->
  HTTPSender.sendAttempt (RestClient0 := lossy_network addr) s ctx path body
    (CalcHash body (HTTPSender.hashKey s)) realIP st = (o, st') ->
  server_ok st' /\ st'.1.2 = tail st.1.2 /\
  exists s' c, batch_result l st.1.1 s' c /\
    match default Delivered (head st.1.2) with
    | RequestLost => o = Fail (ErrNet "connection refused") /\ server_view st' = server_view st
    | ResponseLost => o = Fail (ErrNet "connection reset") /\ server_view st' = svc_view (w_service s')
    | Delivered => o = (if decide (c <> StatusOK) then Fail (ErrUnexpectedStatus c) else Ret tt) /\
        server_view st' = svc_view (w_service s')
    end.
Proof.
  intros Hcompat Hroute Htrust Hsend Hq Hreq Hok Hrun. apply HTTPSender.sendAttempt_outcome in Hrun.
  destruct Hsend as [Henc Hvalid].
  destruct (request_of_parts _ _ _ _ _ Henc Hreq) as (data & _ & Hhdr & _).
  rewrite <-Hhdr in Hrun. unfold rest_Post, lossy_network, round_trip in Hrun.
  destruct st as [[sw faults] now]. unfold server_ok, server_view in *. cbn [fst snd] in *.
  destruct (delivered_run l realIP rnd hdr body addr sw) as (s' & e & resp & c & Hres & E & Hc & _); try done.
  rewrite E in Hrun. unfold finish in Hrun. rewrite resp_WriteHeader_status, Hc in Hrun.
  cbn [default from_option] in Hrun. pose proof (proj1 Hres) as Hrel. rewrite <-(svc_log_append e s') in Hrel.
  destruct (default Delivered (head faults)); destruct Hrun as [<- ->]; cbn [fst snd];
    (split; [done|]); (split; [done|]); by exists s', c.
Qed.

(** Applied when it succeeds, applied or not when it fails, which takes a lost message
    or a service that fails. *)
Lemma attempt_applies addr l realIP rnd hdr body ctx path st o st' :
  compatible -> updates_routed -> trusted realIP -> sendable l -> Handler.audit_quiet h ->
  HTTPSender.request_of (SK := SK) s l realIP rnd = Some (hdr, body) -> server_ok st ->
  HTTPSender.sendAttempt (RestClient0 := lossy_network addr) s ctx path body
    (CalcHash body (HTTPSender.hashKey s)) realIP st = (o, st') ->
  server_ok st' /\ st'.1.2 = tail st.1.2 /\
  match o with
  | Ret _ => server_view st' = apply_batch l (server_view st)
  | _ => (server_view st' = server_view st \/ server_view st' = apply_batch l (server_view st)) /\
      (st.1.2 = [] -> svc_fails l (w_service st.1.1))
  end.
Proof.
  intros Hcompat Hroute Htrust Hsend Hq Hreq Hok Hrun.
  destruct (attempt_run _ _ _ _ _ _ _ _ _ _ _ Hcompat Hroute Htrust Hsend Hq Hreq Hok Hrun)
    as (Hok' & Htl & s' & c & [_ Hres] & Ho).
  split; [done|]. split; [done|]. change (svc_view (w_service st.1.1)) with (server_view st) in Hres.
  destruct (default Delivered (head st.1.2)) eqn:Ef; destruct Ho as [-> Hv]; rewrite <-?Hv in Hres.
  - case_decide as Hd; destruct Hres as [[-> ?]|(-> & Hf & ?)]; try done; auto.
  - split; [by left|]. intros E0. by rewrite E0 in Ef.
  - split; [destruct Hres as [[_ ?]|(_ & _ & ?)]; auto|]. intros E0. by rewrite E0 in Ef.
Qed.

(** With a service that refuses nothing, an attempt does what the network lets it do. *)
Lemma attempt_exact addr l realIP rnd hdr body ctx path st o st' :
  compatible -> updates_routed -> trusted realIP -> sendable l -> Handler.audit_quiet h ->
  HTTPSender.request_of (SK := SK) s l realIP rnd = Some (hdr, body) -> server_ok st -> svc_infallible V ->
  HTTPSender.sendAttempt (RestClient0 := lossy_network addr) s ctx path body
    (CalcHash body (HTTPSender.hashKey s)) realIP st = (o, st') ->
  match default Delivered (head st.1.2) with
  | RequestLost => o = Fail (ErrNet "connection refused") /\ server_view st' = server_view st
  | ResponseLost => o = Fail (ErrNet "connection reset") /\ server_view st' = apply_batch l (server_view st)
  | Delivered => o = Ret tt /\ server_view st' = apply_batch l (server_view st)
  end.
Proof.
  intros Hcompat Hroute Htrust Hsend Hq Hreq Hok Hinf Hrun.
  destruct (attempt_run _ _ _ _ _ _ _ _ _ _ _ Hcompat Hroute Htrust Hsend Hq Hreq Hok Hrun)
    as (_ & _ & s' & c & [_ [[-> Hres]|(_ & Hf & _)]] & Ho).
  - rewrite Hres in Ho. rewrite decide_False in Ho by tauto. done.
  - destruct (Hinf l _ (sendable_storable l Hsend) Hf).
Qed.

(** What a schedule makes of a loop with [n] retries left: how many attempts reach the
    storage, and whether one is answered. *)
Fixpoint deliveries (n : nat) (faults : list net_fault) : nat * bool :=
  match faults with
  | [] | Delivered :: _ => (1, true)%nat
  | RequestLost :: faults => match n with O => (0, false)%nat | S n => deliveries n faults end
  | ResponseLost :: faults =>
      match n with
      | O => (1, false)%nat
      | S n => let '(k, answered) := deliveries n faults in (S k, answered)
      end
  end.

(** The retry loop over a body the agent has prepared. *)
Lemma post_applies `{SelectOrder} `{NetInterfaces} addr l realIP ctx rnd body st r st' :
  compatible -> updates_routed -> trusted realIP -> sendable l -> Handler.audit_quiet h ->
  LocalIP = Ret realIP -> server_ok st ->
  HTTPSender.request_of (SK := SK) s l realIP rnd
    = Some (HTTPSender.request_header s (CalcHash body (HTTPSender.hashKey s)) realIP, body) ->
  HTTPSender.postWithRetry (RestClient0 := lossy_network addr) s ctx "/updates" body
    (CalcHash body (HTTPSender.hashKey s)) st = (r, st') ->
  server_ok st' /\
  exists k, (k <= 4)%nat /\ server_view st' = Nat.iter k (apply_batch l) (server_view st) /\
    (r = Ret tt -> (1 <= k)%nat).
Proof.
  intros Hcompat Hroute Htrust Hsend Hq Hip Hok Hreq Hrun. unfold HTTPSender.postWithRetry in Hrun.
  erewrite bind_Ret in Hrun by (unfold map_err, lift_outcome; by rewrite Hip).
  apply (retry_applies _ _ _ server_view (apply_batch l) server_ok) in Hrun
    as (H1' & k & Hk & Hv & Hs); [| | | |exact Hok].
  - split; [done|]. exists k. split_and!; [exact Hk|done|]. intros ->. by apply (Hs tt).
  - by intros s0 o s1 Hs0 [= <- <-].
  - intros d s0 o s1 Hs0 E. unfold wait_clock, on_snd in E.
    destruct (waitRetry ctx d s0.2) as [o' t']. by injection E as <- <-.
  - intros s0 o s1 Hs0 E. destruct (attempt_applies _ _ _ _ _ _ _ _ _ _ _ Hcompat Hroute Htrust Hsend Hq Hreq Hs0 E)
      as (? & _ & Ho). split; [done|]. by destruct o; [|destruct Ho..].
Qed.

(** The same loop when only the network can fail. *)
Lemma retry_exact `{SelectOrder} addr l realIP ctx rnd hdr body path delays st r st' :
  compatible -> updates_routed -> trusted realIP -> sendable l -> Handler.audit_quiet h ->
  HTTPSender.request_of (SK := SK) s l realIP rnd = Some (hdr, body) -> server_ok st -> svc_infallible V ->
  ctx_done_at ctx = None ->
  retry (mret tt) isRetriableSendError (wait_clock ctx) delays
    (HTTPSender.sendAttempt (RestClient0 := lossy_network addr) s ctx path body
       (CalcHash body (HTTPSender.hashKey s)) realIP) st = (r, st') ->
  let '(k, answered) := deliveries (length delays) st.1.2 in
  server_view st' = Nat.iter k (apply_batch l) (server_view st) /\ (r = Ret tt <-> answered = true).
Proof.
  intros Hcompat Hroute Htrust Hsend Hq Hreq Hok Hinf Hctx. revert st Hok.
  set (op := HTTPSender.sendAttempt _ _ _ _ _ _).
  assert (Hw : forall d (st : (World V X * list net_fault) * Z), wait_clock ctx d st = (Ret tt, (st.1, st.2 + d))).
  { intros d st. unfold wait_clock, on_snd, waitRetry. by rewrite Hctx. }
  induction delays as [|d delays IH]; intros st Hok; cbn [retry length];
    unfold mbind, St_bind, attempt, mret, St_ret, throw; destruct (op st) as [o st1] eqn:E;
    pose proof (attempt_exact _ _ _ _ _ _ _ _ _ _ _ Hcompat Hroute Htrust Hsend Hq Hreq Hok Hinf E) as Ho;
    destruct (attempt_applies _ _ _ _ _ _ _ _ _ _ _ Hcompat Hroute Htrust Hsend Hq Hreq Hok E) as (Hok1 & Htl & _);
    destruct st.1.2 as [|[] faults]; cbn [default from_option head hd_error id] in Ho; destruct Ho as [-> Hv];
    cbn [deliveries].
  1-4: intros [= <- <-]; rewrite Hv; split; [done|]; by split.
  1-2: intros [= <- <-]; rewrite Hv; split; [done|]; by split.
  all: cbn [isRetriableSendError]; change (isRetriableSendError (ErrNet _)) with true; cbv beta iota; rewrite Hw; intros Hr;
    apply IH in Hr; [|exact Hok1]; cbn [fst snd] in Hr; rewrite Htl in Hr; cbn [tail] in Hr;
    destruct (deliveries (length delays) faults) as [k answered]; destruct Hr as [Hv' Ha];
    (split; [|exact Ha]); rewrite Hv'; change (server_view (st1.1, _)) with (server_view st1); rewrite Hv.
  - done.
  - by rewrite Nat.iter_succ_r.
Qed.

(** A [Send] that cannot prepare its request fails and does nothing; any other is a loop
    over that request. *)
Lemma Send_posts `{SelectOrder} `{NetInterfaces} `{!RestClient (World V X * list net_fault)} l realIP ctx rnd st r rnd' st' :
  sendable l -> HTTPSender.Send (SK := SK) s ctx l (rnd, st) = (r, (rnd', st')) ->
  (HTTPSender.request_of (SK := SK) s l realIP rnd = None /\ st' = st /\ r <> Ret tt) \/
  exists body r1,
    HTTPSender.request_of (SK := SK) s l realIP rnd
      = Some (HTTPSender.request_header s (CalcHash body (HTTPSender.hashKey s)) realIP, body) /\
    HTTPSender.postWithRetry s ctx "/updates" body (CalcHash body (HTTPSender.hashKey s)) st = (r1, st') /\
    (r = Ret tt <-> r1 = Ret tt).
Proof.
  intros [He _]. destruct (Marshal_metrics_roundtrip l He) as (data & Em & _).
  unfold HTTPSender.request_of, HTTPSender.Send.
  assert (Ep : HTTPSender.prepareRequestBody l = Ret (gzip_compress data))
    by (unfold HTTPSender.prepareRequestBody, HTTPSender.gzipCompress; by rewrite Em).
  rewrite Ep. erewrite bind_Ret by done.
  destruct (HTTPSender.publicKey s) as [pk|]; unfold mbind, St_bind, mret, St_ret, map_err, on_fst, on_snd;
    cbn [fst snd].
  - destruct (Encrypt (gzip_compress data) (Some pk) rnd) as [[body|e|p] rnd1]; cbn [fst snd];
      [|by intros [= <- <- <-]; left..].
    destruct (HTTPSender.postWithRetry _ _ _ _ _ st) as [r1 st1] eqn:Eq.
    intros Hr. right. exists body, r1. destruct r1 as [[]|e|p]; injection Hr as <- _ <-; by split_and!.
  - destruct (HTTPSender.postWithRetry _ _ _ _ _ st) as [r1 st1] eqn:Eq.
    intros Hr. right. exists (gzip_compress data), r1. destruct r1 as [[]|e|p]; injection Hr as <- _ <-; by split_and!.
Qed.

(** C7: over a network that may lose requests and responses, a report of valid metrics
    sent to a server configured alike (same keys, the agent's address in the trusted
    subnet) is applied to the server as a whole, at most four times, and at least once
    when the agent sees success.  When moreover the request can be prepared, the server
    refuses no batch and the context does not end, the count is exactly what the losses make it ([deliveries]): the send goes on until an
    attempt is answered or four are made, every attempt whose request arrives applies
    the report again (so a lost response counts it twice), and the agent sees success
    iff one of them is answered. *)
Theorem send_at_least_once `{SelectOrder} `{NetInterfaces} addr l realIP ctx rnd st r rnd' st' :
  compatible -> updates_routed -> trusted realIP -> sendable l -> Handler.audit_quiet h ->
  LocalIP = Ret realIP -> server_ok st ->
  HTTPSender.Send (SK := SK) (RestClient0 := lossy_network addr) s ctx l (rnd, st) = (r, (rnd', st')) ->
  server_ok st' /\
  (exists k, (k <= 4)%nat /\ server_view st' = Nat.iter k (apply_batch l) (server_view st) /\
     (r = Ret tt -> (1 <= k)%nat)) /\
  (svc_infallible V -> ctx_done_at ctx = None -> is_Some (HTTPSender.request_of (SK := SK) s l realIP rnd) ->
   server_view st' = Nat.iter (deliveries 3 st.1.2).1 (apply_batch l) (server_view st) /\
   (r = Ret tt <-> (deliveries 3 st.1.2).2 = true)).
Proof.
  intros Hcompat Hroute Htrust Hsend Hq Hip Hok Hrun.
  destruct (Send_posts (RestClient0 := lossy_network addr) l realIP ctx rnd st r rnd' st' Hsend Hrun)
    as [(Hno & -> & Hr)|(body & r1 & Hreq & Hpost & Hr)].
  - split; [done|]. split; [by exists 0%nat; split_and!; [lia|..]|]. rewrite Hno. by intros _ _ [? [=]].
  - destruct (post_applies _ l realIP _ rnd _ _ _ _ Hcompat Hroute Htrust Hsend Hq Hip Hok Hreq Hpost)
      as (Hok' & k & Hk & Hv & Hone).
    split; [done|]. split; [exists k; split_and!; [done|done|]; by intros ->%Hr; auto|].
    intros Hinf Hctx _. unfold HTTPSender.postWithRetry in Hpost.
    erewrite bind_Ret in Hpost by (unfold map_err, lift_outcome; by rewrite Hip).
    pose proof (retry_exact addr l realIP ctx rnd _ _ _ _ _ _ _ Hcompat Hroute Htrust Hsend Hq Hreq Hok Hinf Hctx Hpost)
      as Hex. cbn [length retryDelays] in Hex.
    destruct (deliveries 3 st.1.2) as [k' answered]. cbn [fst snd]. by rewrite Hr.
Qed.
End Pipeline.

(** ** Witnesses *)

(** A mux that matches paths literally. *)
#[export] Instance literal_chi : Chi := {|
  chi_route routes r :=
    match list_find (fun mp => (mp.1 = None \/ mp.1 = Some (Method r)) /\ mp.2 = RequestURI r) routes with
    | Some (i, _) => Matched i (fun _ => "")
    | None => NoRoute
    end;
  chi_NotFound S := fun W RW r => WriteHeader StatusNotFound;
  chi_MethodNotAllowed S := fun W RW r => WriteHeader StatusMethodNotAllowed;
|}.

#[export] Instance literal_chi_laws : ChiLaws.
Proof. intros routes r1 r2 Hm Hu. cbn. by rewrite Hm, Hu. Qed.

#[local] Instance pipeline_service : Service (MemStorage.t * FS) :=
  MetricsService.service_of (MetricsService.sync_service MetricsService.sample_file).
#[local] Instance pipeline_service_laws : ServiceLaws (MemStorage.t * FS) :=
  MetricsService.service_laws (MetricsService.sync_service MetricsService.sample_file)
    (MetricsService.file_saver_ok MetricsService.sample_file).

(** Signed, encrypted, and restricted to 10.0.0.0/8. *)
Definition sample_options : Router.Options N :=
  Router.MkOptions "secret" (Some 7%N) (ParseCIDR "10.0.0.0/8").
Definition sample_sender : HTTPSender.t N := HTTPSender.Mk "http://server" "secret" (Some 7%N).
Definition sample_batch : list Metrics := [counter_metric "n" 5].
Definition sample_handler : Handler.t (MemStorage.t * FS) unit := Handler.New None.

#[local] Instance one_interface : NetInterfaces :=
  Ret [AddrOther; AddrIPNet (MkIPNet (v4_in_v6_prefix ++ [127; 0; 0; 1]) [255; 0; 0; 0]);
       AddrIPNet (MkIPNet (v4_in_v6_prefix ++ [10; 0; 0; 1]) [255; 0; 0; 0])].

Example LocalIP_sample : LocalIP = Ret "10.0.0.1".
Proof. vm_compute. reflexivity. Qed.

(** Neither side signs, which changes nothing in the counting. *)
Definition unsigned_options : Router.Options N := Router.MkOptions "" (Some 7%N) (ParseCIDR "10.0.0.0/8").
Definition unsigned_sender : HTTPSender.t N := HTTPSender.Mk "http://server" "" (Some 7%N).

Definition sample_send (opts : Router.Options N) (s : HTTPSender.t N)
    (st : (World (MemStorage.t * FS) unit * list net_fault) * Z) :=
  HTTPSender.Send (R := nat) (X := World (MemStorage.t * FS) unit * list net_fault) (SK := N)
    (RestClient0 := lossy_network (R := nat) (PK := N) sample_handler opts "10.0.0.1:4000")
    s Background sample_batch (0%nat, st).

(** A server that cannot save (it holds a NaN): the agent is told the report
    failed, and the server has counted it four times. *)
Example failed_save_counts_four_times :
  let '(r, (_, ((sw, _), now))) := sample_send unsigned_options unsigned_sender ((Handler.nan_world, []), 0) in
  is_ret r = false /\ MemStorage.counters (w_service sw).1 !! "n" = Some 20 /\ now = 9 * Second.
Proof. vm_compute. done. Qed.

(** The response of the first attempt is lost: success, and counted twice. *)
Example lost_response_counts_twice :
  let '(r, (_, ((sw, _), _))) :=
    sample_send unsigned_options unsigned_sender ((Handler.sample_request_world, [ResponseLost]), 0) in
  r = Ret tt /\ MemStorage.counters (w_service sw).1 !! "n" = Some 10.
Proof. vm_compute. done. Qed.

Lemma sample_compatible : compatible (R := nat) sample_options sample_sender.
Proof. split; [reflexivity|]. exists 7%N. split; reflexivity. Qed.

Lemma sample_routed : updates_routed sample_handler sample_options.
Proof. intros hdr body addr. exists (fun _ => ""). vm_compute. reflexivity. Qed.

Lemma sample_trusted : trusted sample_options "10.0.0.1".
Proof.
  intros n Hn. exists (v4_in_v6_prefix ++ [10; 0; 0; 1]). split; [vm_compute; reflexivity|].
  cbn [Router.TrustedSubnet sample_options] in Hn. vm_compute in Hn. injection Hn as <-. vm_compute. reflexivity.
Qed.

Lemma sample_sendable : sendable sample_batch.
Proof.
  split; apply Forall_singleton; [|reflexivity].
  split_and!; try reflexivity; [|discriminate].
  intros d [= <-]. unfold in_int64, two63. lia.
Qed.

Lemma agent_batch_delivered_witness :
  exists hdr body s' e resp c,
    HTTPSender.request_of (R := nat) (SK := N) sample_sender sample_batch "10.0.0.1" 0%nat = Some (hdr, body) /\
    batch_result (V := MemStorage.t * FS) sample_batch Handler.sample_request_world s' c /\
    Router.New (R := nat) (PK := N) sample_handler sample_options Response _
      (received hdr body "10.0.0.1:4000") (Handler.sample_request_world, new_response)
    = (Ret tt, (log_append e s', resp)).
Proof.
  destruct (HTTPSender.request_of (R := nat) (SK := N) sample_sender sample_batch "10.0.0.1" 0%nat)
    as [[hdr body]|] eqn:E; [|vm_compute in E; discriminate E].
  destruct (agent_batch_delivered (R := nat) sample_handler sample_options sample_sender sample_batch "10.0.0.1" 0%nat
    hdr body "10.0.0.1:4000" Handler.sample_request_world) as (s' & e & resp & c & H1 & H2 & _).
  - exact sample_compatible.
  - exact sample_routed.
  - exact sample_trusted.
  - exact sample_sendable.
  - exact Handler.sample_no_audit.
  - exact I.
  - exact E.
  - exists hdr, body, s', e, resp, c. split; [reflexivity|]. split; [exact H1|exact H2].
Defined.

(** A server that keeps its metrics in memory only refuses nothing. *)
Section MemoryServer.
#[local] Existing Instance MetricsService.memory_service.
#[local] Existing Instance MetricsService.memory_laws.

Lemma send_at_least_once_witness :
  let lost_twice := ((Handler.sample_request_world, [RequestLost; ResponseLost]), 0) in
  exists rnd' st', HTTPSender.Send (R := nat) (SK := N)
      (RestClient0 := lossy_network (R := nat) (PK := N) sample_handler sample_options "10.0.0.1:4000")
      sample_sender Background sample_batch (0%nat, lost_twice) = (Ret tt, (rnd', st')) /\
    server_view (V := MemStorage.t * FS) (X := unit) st'
    = apply_batch sample_batch (apply_batch sample_batch (server_view lost_twice)).
Proof.
  intros lost_twice. destruct (HTTPSender.Send (R := nat) (SK := N)
      (RestClient0 := lossy_network (R := nat) (PK := N) sample_handler sample_options "10.0.0.1:4000")
      sample_sender Background sample_batch (0%nat, lost_twice)) as [r [rnd' st']] eqn:E.
  destruct (send_at_least_once (R := nat) sample_handler sample_options sample_sender "10.0.0.1:4000" sample_batch
    "10.0.0.1" Background 0%nat lost_twice r rnd' st') as (_ & _ & Hexact).
  - exact sample_compatible.
  - exact sample_routed.
  - exact sample_trusted.
  - exact sample_sendable.
  - exact Handler.sample_no_audit.
  - exact LocalIP_sample.
  - exact I.
  - exact E.
  - destruct (HTTPSender.request_of (R := nat) (SK := N) sample_sender sample_batch "10.0.0.1" 0%nat) as [q|] eqn:Eq;
      [|vm_compute in Eq; discriminate Eq].
    destruct (Hexact MetricsService.memory_infallible eq_refl (ex_intro _ q eq_refl)) as [Hv [_ Hr]].
    exists rnd', st'. split; [by rewrite Hr|exact Hv].
Defined.
End MemoryServer.

Lemma send_effort_witness :
  exists r st', HTTPSender.postWithRetry
    (RestClient0 := lossy_network (R := nat) (PK := N) sample_handler sample_options "10.0.0.1:4000")
    sample_sender Background "/updates" "body" "" ((Handler.sample_request_world, []), 0) = (r, st') /\
  st'.2 <= 9 * Second.
Proof.
  pose proof (HTTPSender.send_effort
    (RestClient0 := lossy_network (R := nat) (PK := N) sample_handler sample_options "10.0.0.1:4000")
    sample_sender Background "/updates" "body" "" "10.0.0.1" 0
    ((Handler.sample_request_world, []), 0)) as Heff.
  destruct (HTTPSender.postWithRetry _ _ _ _ _ _) as [r st'].
  exists r, st'. split; [reflexivity|].
  destruct Heff as (H1 & _).
  - intros st. rewrite Z.add_0_r.
    enough ((rest_Post (RestClient := lossy_network (R := nat) (PK := N) sample_handler sample_options
      "10.0.0.1:4000") Background (HTTPSender.baseURL sample_sender +:+ "/updates")
      (HTTPSender.request_header sample_sender "" "10.0.0.1") "body" st).2.2 = st.2) as -> by lia.
    apply round_trip_clock.
  - exact LocalIP_sample.
  - lia.
  - exact H1.
Defined.
