(* ===== verification/GoFlag.v ===== *)
(** * Command-line flags and durations

    What the configuration packages use of [flag], [strconv] and [time]: the
    parser of a [FlagSet] with string, integer and boolean flags, base-0 integer
    literals, and [time.ParseDuration]. *)

From S2P Require Import Prelude GoError GoString GoNum.
Local Open Scope Z_scope.

(** ** [strconv.ParseInt(s, 0, 64)]: what an integer flag accepts *)

Definition digit_in (base : Z) (c : ascii) : option Z :=
  let n := Z.of_nat (nat_of_ascii c) in
  let d := if decide (48 <= n <= 57) then Some (n - 48)
           else if decide (97 <= n <= 122) then Some (n - 87)
           else if decide (65 <= n <= 90) then Some (n - 55)
           else None in
  match d with
  | Some d => if decide (d < base) then Some d else None
  | None => None
  end.

(** Digits with single underscores between them; [prev] says whether an
    underscore may come next, which is also the case after a base prefix. *)
Fixpoint digits_base (base acc : Z) (prev : bool) (s : string) : option Z :=
  match s with
  | EmptyString => if prev then Some acc else None
  | String c s' =>
      if decide (c = "_"%char) then if prev then digits_base base acc false s' else None
      else match digit_in base c with
           | Some d => digits_base base (acc * base + d) true s'
           | None => None
           end
  end.

(** After a prefix there must be a digit. *)
Definition prefixed (base : Z) (s : string) : option Z :=
  match s with
  | EmptyString => None
  | _ => digits_base base 0 true s
  end.

Definition ParseUint0 (s : string) : option Z :=
  match s with
  | String z (String p s') =>
      if decide (z = "0"%char) then
        if decide (lower_ascii p = "x"%char) then prefixed 16 s'
        else if decide (lower_ascii p = "b"%char) then prefixed 2 s'
        else if decide (lower_ascii p = "o"%char) then prefixed 8 s'
        else digits_base 8 0 true (String p s')
      else digits_base 10 0 false s
  | _ => digits_base 10 0 false s
  end.

Definition ParseInt0 (s : string) : option Z :=
  let '(neg, body) :=
    match s with
    | String "+" s' => (false, s')
    | String "-" s' => (true, s')
    | _ => (false, s)
    end%char in
  match ParseUint0 body with
  | None => None
  | Some un =>
      if neg : bool then if decide (two63 < un) then None else Some (- un)
      else if decide (two63 <= un) then None else Some un
  end.

(** ** [flag.FlagSet] over a record [C] of destinations *)

Record Flag (C : Type) : Type := MkFlag {
  flag_name : string;
  flag_isBool : bool;
  flag_Set : string -> C -> option C;
}.
Arguments MkFlag {C} _ _ _.
Arguments flag_name {C} _.
Arguments flag_isBool {C} _.
Arguments flag_Set {C} _ _ _.

Section FlagSet.
Context {C : Type}.

(** [StringVar], [IntVar] and [BoolVar] *)
Definition StringVar (name : string) (set : string -> C -> C) : Flag C :=
  MkFlag name false (fun v c => Some (set v c)).
Definition IntVar (name : string) (set : Z -> C -> C) : Flag C :=
  MkFlag name false (fun v c => (fun n => set n c) <$> ParseInt0 v).
Definition BoolVar (name : string) (set : bool -> C -> C) : Flag C :=
  MkFlag name true (fun v c => (fun b => set b c) <$> ParseBool v).

Fixpoint lookup_flag (flags : list (Flag C)) (name : string) : option (Flag C) :=
  match flags with
  | [] => None
  | f :: flags => if decide (flag_name f = name) then Some f else lookup_flag flags name
  end.

Definition flag_error (msg : string) : error := ErrNew msg.

(** Split [name=value]; the equals sign cannot come first. *)
Definition split_value (s : string) : string * option string :=
  match s with
  | EmptyString => (s, None)
  | String c rest =>
      match IndexByte rest "="%char with
      | Some i => (String c (string_take i rest), Some (string_drop (S i) rest))
      | None => (s, None)
      end
  end.

(** [Parse]: the destinations, the names that were set, and how it ended. *)
Fixpoint Parse (flags : list (Flag C)) (args : list string) (c : C) (actual : list string) {struct args}
    : outcome error (C * list string) :=
  match args with
  | String m1 (String m2 s2 as s1) :: args =>
      if decide (m1 <> "-"%char) then Ret (c, actual)
      else
        let double := bool_decide (m2 = "-"%char) in
        let name := if double then s2 else s1 in
        if double && bool_decide (s2 = "") then Ret (c, actual)
        else
          match name with
          | EmptyString => Fail (flag_error "bad flag syntax")
          | String n0 _ =>
              if decide (n0 = "-"%char \/ n0 = "="%char) then Fail (flag_error "bad flag syntax")
              else
                let '(name, value) := split_value name in
                match lookup_flag flags name with
                | None =>
                    if decide (name = "help" \/ name = "h") then Fail ErrHelp
                    else Fail (flag_error ("flag provided but not defined: -" +:+ name))
                | Some f =>
                    let set v args :=
                      match flag_Set f v c with
                      | Some c' => Parse flags args c' (name :: actual)
                      | None => Fail (flag_error ("invalid value for flag -" +:+ name))
                      end in
                    match value with
                    | Some v => set v args
                    | None =>
                        if flag_isBool f then set "true" args
                        else match args with
                             | v :: args => set v args
                             | [] => Fail (flag_error ("flag needs an argument: -" +:+ name))
                             end
                    end
                end
          end
  | _ => Ret (c, actual)
  end.

(** [flags.Parse(args)] *)
Definition ParseArgs (flags : list (Flag C)) (args : list string) (c : C)
    : outcome error (C * list string) := Parse flags args c [].
End FlagSet.

(** ** [time.ParseDuration] *)

Definition unit_of (u : string) : option Z :=
  if decide (u = "ns") then Some 1
  else if decide (u = "us" \/ u = String (byte 194) (String (byte 181) "s")
                  \/ u = String (byte 206) (String (byte 188) "s")) then Some 1000
  else if decide (u = "ms") then Some 1000000
  else if decide (u = "s") then Some 1000000000
  else if decide (u = "m") then Some 60000000000
  else if decide (u = "h") then Some 3600000000000
  else None.

(** [leadingInt]: [None] on overflow. *)
Fixpoint leadingInt (x : Z) (s : string) : option (Z * string) :=
  match s with
  | EmptyString => Some (x, s)
  | String c s' =>
      match digit_value c with
      | Some d =>
          if decide (two63 / 10 < x) then None
          else if decide (two63 < x * 10 + d) then None
          else leadingInt (x * 10 + d) s'
      | None => Some (x, s)
      end
  end.

(** [leadingFraction]: the digits past the ones that fit are dropped; [scale] is
    the power of ten, rounded as a [float64] product. *)
Fixpoint leadingFraction (overflow : bool) (x : Z) (scale : spec_float) (s : string)
    : Z * spec_float * string :=
  match s with
  | EmptyString => (x, scale, s)
  | String c s' =>
      match digit_value c with
      | Some d =>
          if overflow || bool_decide ((two63 - 1) / 10 < x) || bool_decide (two63 < x * 10 + d)
          then leadingFraction true x scale s'
          else leadingFraction false (x * 10 + d) (SFmul 53 1024 scale (binary_normalize 53 1024 10 0 false)) s'
      | None => (x, scale, s)
      end
  end.

Fixpoint span_unit (s : string) : string * string :=
  match s with
  | EmptyString => (EmptyString, s)
  | String c s' =>
      if decide (c = "."%char) then (EmptyString, s)
      else match digit_value c with
           | Some _ => (EmptyString, s)
           | None => let '(u, rest) := span_unit s' in (String c u, rest)
           end
  end.

(** [uint64(f)] of a non-negative float: truncation. *)
Definition trunc_float (f : spec_float) : Z :=
  match f with
  | S754_finite false m e => if decide (0 <= e) then Zpos m * 2 ^ e else Zpos m / 2 ^ (- e)
  | _ => 0
  end.

Definition float_of (n : Z) : spec_float := binary_normalize 53 1024 n 0 false.

Fixpoint duration_terms (fuel : nat) (d : Z) (s : string) : option Z :=
  match fuel, s with
  | _, EmptyString => Some d
  | O, _ => None
  | S fuel, String c _ =>
      if decide (c <> "."%char /\ digit_value c = None) then None
      else
        '(v, s1) ← leadingInt 0 s;
        let pre := negb (String.length s =? String.length s1)%nat in
        let '(f, scale, s2, post) :=
          match s1 with
          | String "." s1' =>
              let '(f, scale, s2) := leadingFraction false 0 (float_of 1) s1' in
              (f, scale, s2, negb (String.length s1' =? String.length s2)%nat)
          | _ => (0, float_of 1, s1, false)
          end%char in
        if negb pre && negb post then None
        else
          let '(u, s3) := span_unit s2 in
          unit ← unit_of u;
          if decide (two63 / unit < v) then None
          else
            let v := v * unit + (if decide (0 < f)
              then trunc_float (SFmul 53 1024 (float_of f) (SFdiv 53 1024 (float_of unit) scale)) else 0) in
            if decide (two63 < v) then None
            else if decide (two63 < d + v) then None
            else duration_terms fuel (d + v) s3
  end.

(** Every term takes at least its unit from the text, so the length of the text is
    enough fuel: with more the result is the same. *)
Lemma leadingInt_length x s y s' : leadingInt x s = Some (y, s') -> (String.length s' <= String.length s)%nat.
Proof.
  revert x. induction s as [|c s IH]; intros x; cbn [leadingInt]; [by intros [= _ <-]|].
  destruct (digit_value c) as [d|]; [|by intros [= _ <-]].
  repeat case_decide; try done. intros E%IH. cbn [String.length]. lia.
Qed.

Lemma leadingFraction_length o x sc s : (String.length (leadingFraction o x sc s).2 <= String.length s)%nat.
Proof.
  revert o x sc. induction s as [|c s IH]; intros o x sc; cbn [leadingFraction]; [done|].
  destruct (digit_value c) as [d|]; [|done].
  destruct (_ || _); cbn [String.length]; eapply Nat.le_trans; [apply IH|lia|apply IH|lia].
Qed.

Lemma span_unit_length s u s' : span_unit s = (u, s') ->
  String.length s = (String.length u + String.length s')%nat.
Proof.
  revert u. induction s as [|c s IH]; intros u; cbn [span_unit]; [by intros [= <- <-]|].
  case_decide; [by intros [= <- <-]|]. destruct (digit_value c); [by intros [= <- <-]|].
  destruct (span_unit s) as [u1 s1]. intros [= <- <-]. cbn [String.length]. by rewrite (IH u1 eq_refl).
Qed.

Lemma duration_terms_fuel n m d s : (String.length s <= n)%nat -> (String.length s <= m)%nat ->
  duration_terms n d s = duration_terms m d s.
Proof.
  revert m d s. induction n as [|n IH]; intros m d s Hn Hm.
  { destruct s; [by destruct m|cbn in Hn; lia]. }
  destruct m as [|m]; [destruct s; [done|cbn in Hm; lia]|].
  destruct s as [|c s]; [done|]. cbn [duration_terms]. case_decide; [done|].
  destruct (leadingInt 0 (String c s)) as [[v s1]|] eqn:E1; [|done]. cbn [mbind option_bind].
  apply leadingInt_length in E1.
  set (t := match s1 with String "." s1' => _ | _ => _ end%char).
  assert (Ht : (String.length t.1.2 <= String.length s1)%nat).
  { subst t. destruct s1 as [|c1 s1']; [done|].
    pose proof (leadingFraction_length false 0 (float_of 1) s1') as Hf.
    destruct (leadingFraction false 0 (float_of 1) s1') as [[f scale] s2]. cbn [snd] in Hf.
    destruct c1 as [[] [] [] [] [] [] [] []]; cbn [fst snd String.length]; lia. }
  destruct t as [[[f scale] s2] post]. cbn [fst snd] in Ht. case_match; [done|].
  destruct (span_unit s2) as [u s3] eqn:E3. apply span_unit_length in E3.
  destruct (unit_of u) as [unit|] eqn:Eu; [|done]. cbn [mbind option_bind].
  assert (u <> "") by (by intros ->). assert (0 < String.length u)%nat by (destruct u; [done|cbn; lia]).
  repeat case_decide; try done; apply IH; cbn [String.length] in *; lia.
Qed.

Definition ParseDuration (s : string) : option Z :=
  let '(neg, body) :=
    match s with
    | String "-" s' => (true, s')
    | String "+" s' => (false, s')
    | _ => (false, s)
    end%char in
  if decide (body = "0") then Some 0
  else if decide (body = "") then None
  else
    d ← duration_terms (S (String.length body)) 0 body;
    if neg : bool then Some (- d) else if decide (two63 - 1 < d) then None else Some d.

Example duration_10s : ParseDuration "10s" = Some 10000000000.
Proof. vm_compute. reflexivity. Qed.
Example duration_mixed : ParseDuration "1h15m30.918s" = Some 4530918000000.
Proof. vm_compute. reflexivity. Qed.
Example duration_fraction : ParseDuration "-1.5h" = Some (-5400000000000).
Proof. vm_compute. reflexivity. Qed.
Example duration_bad : ParseDuration "3" = None /\ ParseDuration "1x" = None /\ ParseDuration "." = None.
Proof. vm_compute. done. Qed.
Example int_flag : ParseInt0 "0x1F" = Some 31 /\ ParseInt0 "010" = Some 8 /\ ParseInt0 "1_000" = Some 1000
  /\ ParseInt0 "_1" = None /\ ParseInt0 "-7" = Some (-7) /\ ParseInt0 "0" = Some 0 /\ ParseInt0 "" = None.
Proof. vm_compute. done. Qed.

(** Whatever parses as an integer flag fits an [int]. *)
Lemma digits_base_nonneg base acc prev s z :
  0 <= base -> 0 <= acc -> digits_base base acc prev s = Some z -> 0 <= z.
Proof.
  intros Hb. revert acc prev. induction s as [|c s IH]; intros acc prev Ha; cbn [digits_base].
  - destruct prev; [by intros [= <-]|done].
  - case_decide; [destruct prev; [by apply IH|done]|].
    destruct (digit_in base c) as [d|] eqn:E; [|done]. apply IH.
    unfold digit_in in E. repeat case_decide; simplify_eq; nia.
Qed.

Lemma ParseUint0_nonneg s z : ParseUint0 s = Some z -> 0 <= z.
Proof.
  unfold ParseUint0, prefixed. intros E.
  repeat (case_match; try done); by eapply digits_base_nonneg; [..|exact E].
Qed.

