(* ===== verification/AgentConfig.v ===== *)
(** * The agent's configuration: [internal/agent/config]

    Defaults, JSON file, flags and environment, applied in this order, and the
    validation of the result.  Numbers are Go [int]s, 64 bits wide. *)

From S2P Require Import Prelude GoError GoString GoNum GoContext GoJson Instances Storage FileStore GoFlag.
Local Open Scope Z_scope.

(** [os.LookupEnv] *)
Definition lookupEnvFunc : Type := string -> option string.

(** Sequencing of steps that may refuse. *)
Definition andThen {A B} (o : outcome error A) (f : A -> outcome error B) : outcome error B :=
  match o with Ret a => f a | Fail e => Fail e | Panic p => Panic p end.

Definition opt_set {A C} (set : A -> C -> C) (v : option A) (c : C) : C :=
  match v with Some v => set v c | None => c end.

(** [if setFlags[name] { ... }] *)
Definition when_set {C} (setFlags : list string) (name : string) (f : C -> C) (c : C) : C :=
  if decide (name ∈ setFlags) then f c else c.

(** The sources of a field, by priority: environment, flag, file, default. *)
Definition pick {A} (env flag file : option A) (def : A) : A := default (default (default def file) flag) env.

Definition flag_value {A} (setFlags : list string) (name : string) (v : A) : option A :=
  if decide (name ∈ setFlags) then Some v else None.

(** Conditional updates of a field as plain updates. *)
Section Updates.
Context {A C : Type} (set : A -> C -> C) (get : C -> A) (Hset : forall c, set (get c) c = c).

Lemma opt_set_eq v c : opt_set set v c = set (default (get c) v) c.
Proof. by destruct v; cbn; rewrite ?Hset. Qed.

Lemma when_set_eq setFlags name v c :
  when_set setFlags name (set v) c = set (default (get c) (flag_value setFlags name v)) c.
Proof. unfold when_set, flag_value. case_decide; cbn; by rewrite ?Hset. Qed.
End Updates.

Lemma andThen_Ret {A B} (o : outcome error A) (f : A -> outcome error B) b :
  andThen o f = Ret b -> exists a, o = Ret a /\ f a = Ret b.
Proof. destruct o; naive_solver. Qed.

Module AgentConfig.

(** ** [env.go] *)

Definition getEnvInt (lookupEnv : lookupEnvFunc) (name : string) : outcome error (option Z) :=
  match lookupEnv name with
  | Some value =>
      match Atoi value with
      | Some parsed => Ret (Some parsed)
      | None => Fail (ErrWrap ("parse environment variable " +:+ name +:+ "=" +:+ Quote value)
          (ErrNew ("strconv.Atoi: parsing " +:+ Quote value)))
      end
  | None => Ret None
  end.

(** ** [config.go] and [transport.go] *)

Definition TransportGRPC : string := "grpc".
Definition TransportHTTP : string := "http".

Record AgentConfig : Type := MkAgentConfig {
  ServerAddr : string;
  Transport : string;
  PollIntervalInSec : Z;
  ReportIntervalInSec : Z;
  RateLimit : Z;
  Key : string;
  CryptoKey : string;
  GRPCTLSCA : string;
}.

(** [cfg.X = v] *)
Definition set_ServerAddr (v : string) (c : AgentConfig) : AgentConfig :=
  MkAgentConfig v (Transport c) (PollIntervalInSec c) (ReportIntervalInSec c) (RateLimit c)
    (Key c) (CryptoKey c) (GRPCTLSCA c).
Definition set_Transport (v : string) (c : AgentConfig) : AgentConfig :=
  MkAgentConfig (ServerAddr c) v (PollIntervalInSec c) (ReportIntervalInSec c) (RateLimit c)
    (Key c) (CryptoKey c) (GRPCTLSCA c).
Definition set_PollIntervalInSec (v : Z) (c : AgentConfig) : AgentConfig :=
  MkAgentConfig (ServerAddr c) (Transport c) v (ReportIntervalInSec c) (RateLimit c) (Key c)
    (CryptoKey c) (GRPCTLSCA c).
Definition set_ReportIntervalInSec (v : Z) (c : AgentConfig) : AgentConfig :=
  MkAgentConfig (ServerAddr c) (Transport c) (PollIntervalInSec c) v (RateLimit c) (Key c)
    (CryptoKey c) (GRPCTLSCA c).
Definition set_RateLimit (v : Z) (c : AgentConfig) : AgentConfig :=
  MkAgentConfig (ServerAddr c) (Transport c) (PollIntervalInSec c) (ReportIntervalInSec c) v
    (Key c) (CryptoKey c) (GRPCTLSCA c).
Definition set_Key (v : string) (c : AgentConfig) : AgentConfig :=
  MkAgentConfig (ServerAddr c) (Transport c) (PollIntervalInSec c) (ReportIntervalInSec c)
    (RateLimit c) v (CryptoKey c) (GRPCTLSCA c).
Definition set_CryptoKey (v : string) (c : AgentConfig) : AgentConfig :=
  MkAgentConfig (ServerAddr c) (Transport c) (PollIntervalInSec c) (ReportIntervalInSec c)
    (RateLimit c) (Key c) v (GRPCTLSCA c).
Definition set_GRPCTLSCA (v : string) (c : AgentConfig) : AgentConfig :=
  MkAgentConfig (ServerAddr c) (Transport c) (PollIntervalInSec c) (ReportIntervalInSec c)
    (RateLimit c) (Key c) (CryptoKey c) v.

Definition defaultAgentConfig : AgentConfig :=
  MkAgentConfig "localhost:50051" TransportGRPC 2 10 5 "" "" "".

(** *** The flags *)

(** The destinations of [flags.Parse]: the configuration and the file's path. *)
Definition on_cfg {A} (set : A -> AgentConfig -> AgentConfig) (v : A) (d : AgentConfig * string)
    : AgentConfig * string := (set v d.1, d.2).
Definition on_path (v : string) (d : AgentConfig * string) : AgentConfig * string := (d.1, v).

Definition agent_flags : list (Flag (AgentConfig * string)) := [
  StringVar "a" (on_cfg set_ServerAddr);
  StringVar "transport" (on_cfg set_Transport);
  IntVar "p" (on_cfg set_PollIntervalInSec);
  IntVar "r" (on_cfg set_ReportIntervalInSec);
  IntVar "l" (on_cfg set_RateLimit);
  StringVar "k" (on_cfg set_Key);
  StringVar "crypto-key" (on_cfg set_CryptoKey);
  StringVar "grpc-tls-ca" (on_cfg set_GRPCTLSCA);
  StringVar "c" on_path;
  StringVar "config" on_path
].

Definition applyAgentFlags (flagCfg : AgentConfig) (setFlags : list string) (cfg : AgentConfig) : AgentConfig :=
  let cfg := when_set setFlags "a" (set_ServerAddr (ServerAddr flagCfg)) cfg in
  let cfg := when_set setFlags "transport" (set_Transport (Transport flagCfg)) cfg in
  let cfg := when_set setFlags "p" (set_PollIntervalInSec (PollIntervalInSec flagCfg)) cfg in
  let cfg := when_set setFlags "r" (set_ReportIntervalInSec (ReportIntervalInSec flagCfg)) cfg in
  let cfg := when_set setFlags "l" (set_RateLimit (RateLimit flagCfg)) cfg in
  let cfg := when_set setFlags "k" (set_Key (Key flagCfg)) cfg in
  let cfg := when_set setFlags "crypto-key" (set_CryptoKey (CryptoKey flagCfg)) cfg in
  let cfg := when_set setFlags "grpc-tls-ca" (set_GRPCTLSCA (GRPCTLSCA flagCfg)) cfg in
  cfg.

(** *** The environment *)

Definition applyAgentEnvironment (lookupEnv : lookupEnvFunc) (cfg : AgentConfig) : outcome error AgentConfig :=
  let cfg := opt_set set_ServerAddr (lookupEnv "ADDRESS") cfg in
  let cfg := opt_set set_Transport (lookupEnv "TRANSPORT") cfg in
  andThen (getEnvInt lookupEnv "POLL_INTERVAL") (fun v =>
  let cfg := opt_set set_PollIntervalInSec v cfg in
  andThen (getEnvInt lookupEnv "REPORT_INTERVAL") (fun v =>
  let cfg := opt_set set_ReportIntervalInSec v cfg in
  andThen (getEnvInt lookupEnv "RATE_LIMIT") (fun v =>
  let cfg := opt_set set_RateLimit v cfg in
  let cfg := opt_set set_Key (lookupEnv "KEY") cfg in
  let cfg := opt_set set_CryptoKey (lookupEnv "CRYPTO_KEY") cfg in
  let cfg := opt_set set_GRPCTLSCA (lookupEnv "GRPC_TLS_CA") cfg in
  Ret cfg))).

(** *** [file.go] *)

Record agentFileConfig : Type := MkFileConfig {
  fc_Address : option string;
  fc_Transport : option string;
  fc_PollInterval : option string;
  fc_ReportInterval : option string;
  fc_RateLimit : option Z;
  fc_Key : option string;
  fc_CryptoKey : option string;
  fc_GRPCTLSCA : option string;
}.

Definition zero_file : agentFileConfig := MkFileConfig None None None None None None None None.

Definition set_fc_Address (v : option string) (c : agentFileConfig) : agentFileConfig :=
  MkFileConfig v (fc_Transport c) (fc_PollInterval c) (fc_ReportInterval c) (fc_RateLimit c)
    (fc_Key c) (fc_CryptoKey c) (fc_GRPCTLSCA c).
Definition set_fc_Transport (v : option string) (c : agentFileConfig) : agentFileConfig :=
  MkFileConfig (fc_Address c) v (fc_PollInterval c) (fc_ReportInterval c) (fc_RateLimit c)
    (fc_Key c) (fc_CryptoKey c) (fc_GRPCTLSCA c).
Definition set_fc_PollInterval (v : option string) (c : agentFileConfig) : agentFileConfig :=
  MkFileConfig (fc_Address c) (fc_Transport c) v (fc_ReportInterval c) (fc_RateLimit c)
    (fc_Key c) (fc_CryptoKey c) (fc_GRPCTLSCA c).
Definition set_fc_ReportInterval (v : option string) (c : agentFileConfig) : agentFileConfig :=
  MkFileConfig (fc_Address c) (fc_Transport c) (fc_PollInterval c) v (fc_RateLimit c) (fc_Key c)
    (fc_CryptoKey c) (fc_GRPCTLSCA c).
Definition set_fc_RateLimit (v : option Z) (c : agentFileConfig) : agentFileConfig :=
  MkFileConfig (fc_Address c) (fc_Transport c) (fc_PollInterval c) (fc_ReportInterval c) v
    (fc_Key c) (fc_CryptoKey c) (fc_GRPCTLSCA c).
Definition set_fc_Key (v : option string) (c : agentFileConfig) : agentFileConfig :=
  MkFileConfig (fc_Address c) (fc_Transport c) (fc_PollInterval c) (fc_ReportInterval c)
    (fc_RateLimit c) v (fc_CryptoKey c) (fc_GRPCTLSCA c).
Definition set_fc_CryptoKey (v : option string) (c : agentFileConfig) : agentFileConfig :=
  MkFileConfig (fc_Address c) (fc_Transport c) (fc_PollInterval c) (fc_ReportInterval c)
    (fc_RateLimit c) (fc_Key c) v (fc_GRPCTLSCA c).
Definition set_fc_GRPCTLSCA (v : option string) (c : agentFileConfig) : agentFileConfig :=
  MkFileConfig (fc_Address c) (fc_Transport c) (fc_PollInterval c) (fc_ReportInterval c)
    (fc_RateLimit c) (fc_Key c) (fc_CryptoKey c) v.

Definition agent_file_fields : list (field agentFileConfig) := [
  ("address", fun t j => (fun v => set_fc_Address v t) <$> decode_ptr "" decode_string (fc_Address t) j);
  ("transport", fun t j => (fun v => set_fc_Transport v t) <$> decode_ptr "" decode_string (fc_Transport t) j);
  ("poll_interval", fun t j => (fun v => set_fc_PollInterval v t) <$> decode_ptr "" decode_string (fc_PollInterval t) j);
  ("report_interval", fun t j => (fun v => set_fc_ReportInterval v t) <$> decode_ptr "" decode_string (fc_ReportInterval t) j);
  ("rate_limit", fun t j => (fun v => set_fc_RateLimit v t) <$> decode_ptr 0 decode_int (fc_RateLimit t) j);
  ("key", fun t j => (fun v => set_fc_Key v t) <$> decode_ptr "" decode_string (fc_Key t) j);
  ("crypto_key", fun t j => (fun v => set_fc_CryptoKey v t) <$> decode_ptr "" decode_string (fc_CryptoKey t) j);
  ("grpc_tls_ca", fun t j => (fun v => set_fc_GRPCTLSCA v t) <$> decode_ptr "" decode_string (fc_GRPCTLSCA t) j)
].

(** [parseAgentDurationInSeconds] *)
Definition parseAgentDurationInSeconds (name value : string) : outcome error Z :=
  match ParseDuration value with
  | None => Fail (ErrWrap ("parse " +:+ name +:+ " " +:+ Quote value) (ErrNew ("time: invalid duration " +:+ Quote value)))
  | Some duration =>
      if decide (Z.rem duration Second <> 0)
      then Fail (ErrNew ("parse " +:+ name +:+ " " +:+ Quote value +:+ ": duration must contain whole seconds"))
      else Ret (Z.quot duration Second)
  end.

Definition parse_opt (name : string) (v : option string) : outcome error (option Z) :=
  match v with
  | None => Ret None
  | Some v => andThen (parseAgentDurationInSeconds name v) (fun n => Ret (Some n))
  end.

(** The fields of the file onto the configuration. *)
Definition apply_file (fileCfg : agentFileConfig) (cfg : AgentConfig) : outcome error AgentConfig :=
  let cfg := opt_set set_ServerAddr (fc_Address fileCfg) cfg in
  let cfg := opt_set set_Transport (fc_Transport fileCfg) cfg in
  andThen (parse_opt "poll_interval" (fc_PollInterval fileCfg)) (fun poll =>
  let cfg := opt_set set_PollIntervalInSec poll cfg in
  andThen (parse_opt "report_interval" (fc_ReportInterval fileCfg)) (fun report =>
  let cfg := opt_set set_ReportIntervalInSec report cfg in
  let cfg := opt_set set_RateLimit (fc_RateLimit fileCfg) cfg in
  let cfg := opt_set set_Key (fc_Key fileCfg) cfg in
  let cfg := opt_set set_CryptoKey (fc_CryptoKey fileCfg) cfg in
  let cfg := opt_set set_GRPCTLSCA (fc_GRPCTLSCA fileCfg) cfg in
  Ret cfg)).

Section File.
Context `{JsonText}.

Definition decode_file (data : string) : option agentFileConfig :=
  json_parse data ≫= decode_struct agent_file_fields zero_file.

Definition loadAgentConfigFile (path : string) (cfg : AgentConfig) : M FS AgentConfig :=
  data ← map_err (ErrWrap ("read agent config file " +:+ Quote path)) (ReadFile path);
  match decode_file data with
  | None => throw (ErrWrap ("decode agent config file " +:+ Quote path) (ErrNew "json: cannot unmarshal"))
  | Some fileCfg => lift_outcome (apply_file fileCfg cfg)
  end.

(** *** [validation.go] *)

Definition validateAgentConfig (cfg : AgentConfig) : option error :=
  if decide (ServerAddr cfg = "") then Some (ErrNew "server address must not be empty")
  else if decide (Transport cfg <> TransportGRPC /\ Transport cfg <> TransportHTTP)
  then Some (ErrNew ("transport must be " +:+ Quote TransportGRPC +:+ " or " +:+ Quote TransportHTTP
    +:+ ", got " +:+ Quote (Transport cfg)))
  else if decide (PollIntervalInSec cfg <= 0)
  then Some (ErrNew ("poll interval must be > 0, got " +:+ FormatInt (PollIntervalInSec cfg)))
  else if decide (ReportIntervalInSec cfg <= 0)
  then Some (ErrNew ("report interval must be > 0, got " +:+ FormatInt (ReportIntervalInSec cfg)))
  else if decide (RateLimit cfg <= 0)
  then Some (ErrNew ("rate limit must be > 0, got " +:+ FormatInt (RateLimit cfg)))
  else None.

(** *** The whole: [parseAgentConfig] *)

Definition parseAgentConfig (args : list string) (lookupEnv : lookupEnvFunc) : M FS AgentConfig :=
  let cfg := defaultAgentConfig in
  parsed ← lift_outcome (ParseArgs agent_flags args (cfg, ""));
  let '((flagCfg, configPath), setFlags) := parsed in
  let configPath := default configPath (lookupEnv "CONFIG") in
  cfg ← (if decide (configPath <> "") then loadAgentConfigFile configPath cfg else mret cfg);
  let cfg := applyAgentFlags flagCfg setFlags cfg in
  cfg ← lift_outcome (applyAgentEnvironment lookupEnv cfg);
  match validateAgentConfig cfg with
  | Some err => throw err
  | None => mret cfg
  end.
End File.

(** ** Where each value comes from *)

Lemma set_get_all (c : AgentConfig) :
  set_ServerAddr (ServerAddr c) c = c /\ set_Transport (Transport c) c = c /\
  set_PollIntervalInSec (PollIntervalInSec c) c = c /\ set_ReportIntervalInSec (ReportIntervalInSec c) c = c /\
  set_RateLimit (RateLimit c) c = c /\ set_Key (Key c) c = c /\ set_CryptoKey (CryptoKey c) c = c /\
  set_GRPCTLSCA (GRPCTLSCA c) c = c.
Proof. by destruct c. Qed.

Ltac plain_updates :=
  rewrite ?(opt_set_eq set_ServerAddr ServerAddr), ?(opt_set_eq set_Transport Transport),
    ?(opt_set_eq set_PollIntervalInSec PollIntervalInSec),
    ?(opt_set_eq set_ReportIntervalInSec ReportIntervalInSec), ?(opt_set_eq set_RateLimit RateLimit),
    ?(opt_set_eq set_Key Key), ?(opt_set_eq set_CryptoKey CryptoKey), ?(opt_set_eq set_GRPCTLSCA GRPCTLSCA),
    ?(when_set_eq set_ServerAddr ServerAddr), ?(when_set_eq set_Transport Transport),
    ?(when_set_eq set_PollIntervalInSec PollIntervalInSec),
    ?(when_set_eq set_ReportIntervalInSec ReportIntervalInSec), ?(when_set_eq set_RateLimit RateLimit),
    ?(when_set_eq set_Key Key), ?(when_set_eq set_CryptoKey CryptoKey),
    ?(when_set_eq set_GRPCTLSCA GRPCTLSCA) by (intros c; apply (set_get_all c)).

(** A duration of the file in seconds. *)
Definition file_seconds (name : string) (v : option string) : option Z :=
  match parse_opt name v with Ret n => n | _ => None end.

Lemma apply_file_fields fileCfg cfg cfg' :
  apply_file fileCfg cfg = Ret cfg' ->
  cfg' = MkAgentConfig (default (ServerAddr cfg) (fc_Address fileCfg))
    (default (Transport cfg) (fc_Transport fileCfg))
    (default (PollIntervalInSec cfg) (file_seconds "poll_interval" (fc_PollInterval fileCfg)))
    (default (ReportIntervalInSec cfg) (file_seconds "report_interval" (fc_ReportInterval fileCfg)))
    (default (RateLimit cfg) (fc_RateLimit fileCfg)) (default (Key cfg) (fc_Key fileCfg))
    (default (CryptoKey cfg) (fc_CryptoKey fileCfg)) (default (GRPCTLSCA cfg) (fc_GRPCTLSCA fileCfg)).
Proof.
  unfold apply_file, file_seconds. cbv zeta. intros E.
  apply andThen_Ret in E as (poll & -> & E). apply andThen_Ret in E as (report & -> & E).
  injection E as <-. by plain_updates.
Qed.

Lemma applyAgentFlags_fields flagCfg setFlags cfg :
  applyAgentFlags flagCfg setFlags cfg = MkAgentConfig
    (default (ServerAddr cfg) (flag_value setFlags "a" (ServerAddr flagCfg)))
    (default (Transport cfg) (flag_value setFlags "transport" (Transport flagCfg)))
    (default (PollIntervalInSec cfg) (flag_value setFlags "p" (PollIntervalInSec flagCfg)))
    (default (ReportIntervalInSec cfg) (flag_value setFlags "r" (ReportIntervalInSec flagCfg)))
    (default (RateLimit cfg) (flag_value setFlags "l" (RateLimit flagCfg)))
    (default (Key cfg) (flag_value setFlags "k" (Key flagCfg)))
    (default (CryptoKey cfg) (flag_value setFlags "crypto-key" (CryptoKey flagCfg)))
    (default (GRPCTLSCA cfg) (flag_value setFlags "grpc-tls-ca" (GRPCTLSCA flagCfg))).
Proof. unfold applyAgentFlags. cbv zeta. by plain_updates. Qed.

(** An integer of the environment. *)
Definition env_int (lookupEnv : lookupEnvFunc) (name : string) : option Z :=
  match getEnvInt lookupEnv name with Ret n => n | _ => None end.

Lemma applyAgentEnvironment_fields env cfg cfg' :
  applyAgentEnvironment env cfg = Ret cfg' ->
  cfg' = MkAgentConfig (default (ServerAddr cfg) (env "ADDRESS")) (default (Transport cfg) (env "TRANSPORT"))
    (default (PollIntervalInSec cfg) (env_int env "POLL_INTERVAL"))
    (default (ReportIntervalInSec cfg) (env_int env "REPORT_INTERVAL"))
    (default (RateLimit cfg) (env_int env "RATE_LIMIT")) (default (Key cfg) (env "KEY"))
    (default (CryptoKey cfg) (env "CRYPTO_KEY")) (default (GRPCTLSCA cfg) (env "GRPC_TLS_CA")).
Proof.
  unfold applyAgentEnvironment, env_int. cbv zeta. intros E.
  apply andThen_Ret in E as (poll & -> & E). apply andThen_Ret in E as (report & -> & E).
  apply andThen_Ret in E as (rate & -> & E). injection E as <-. by plain_updates.
Qed.

(** C33: every accepted configuration takes each value from the environment if it
    is set there, else from the command line, else from the file, else from the
    defaults, and it passes validation; parsing changes no file. *)
Theorem agent_config_precedence `{JsonText} args env fs cfg fs' :
  parseAgentConfig args env fs = (Ret cfg, fs') ->
  fs' = fs /\ validateAgentConfig cfg = None /\
  exists flagCfg configPath setFlags fileCfg,
    ParseArgs agent_flags args (defaultAgentConfig, "") = Ret ((flagCfg, configPath), setFlags) /\
    (default configPath (env "CONFIG") = "" /\ fileCfg = zero_file \/
     exists data, files fs !! default configPath (env "CONFIG") = Some data /\
       decode_file data = Some fileCfg) /\
    ServerAddr cfg = pick (env "ADDRESS") (flag_value setFlags "a" (ServerAddr flagCfg))
      (fc_Address fileCfg) "localhost:50051" /\
    Transport cfg = pick (env "TRANSPORT") (flag_value setFlags "transport" (Transport flagCfg))
      (fc_Transport fileCfg) TransportGRPC /\
    PollIntervalInSec cfg = pick (env_int env "POLL_INTERVAL")
      (flag_value setFlags "p" (PollIntervalInSec flagCfg))
      (file_seconds "poll_interval" (fc_PollInterval fileCfg)) 2 /\
    ReportIntervalInSec cfg = pick (env_int env "REPORT_INTERVAL")
      (flag_value setFlags "r" (ReportIntervalInSec flagCfg))
      (file_seconds "report_interval" (fc_ReportInterval fileCfg)) 10 /\
    RateLimit cfg = pick (env_int env "RATE_LIMIT") (flag_value setFlags "l" (RateLimit flagCfg))
      (fc_RateLimit fileCfg) 5 /\
    Key cfg = pick (env "KEY") (flag_value setFlags "k" (Key flagCfg)) (fc_Key fileCfg) "" /\
    CryptoKey cfg = pick (env "CRYPTO_KEY") (flag_value setFlags "crypto-key" (CryptoKey flagCfg))
      (fc_CryptoKey fileCfg) "" /\
    GRPCTLSCA cfg = pick (env "GRPC_TLS_CA") (flag_value setFlags "grpc-tls-ca" (GRPCTLSCA flagCfg))
      (fc_GRPCTLSCA fileCfg) "".
Proof.
  intros E. unfold parseAgentConfig in E. apply bind_Ret_inv in E as ([[flagCfg path] setFlags] & fs1 & E1 & E).
  unfold lift_outcome in E1. injection E1 as E1 <-.
  apply bind_Ret_inv in E as (cfg1 & fs1 & E2 & E). apply bind_Ret_inv in E as (cfg2 & fs2 & E3 & E).
  unfold lift_outcome in E3. injection E3 as E3 <-.
  destruct (validateAgentConfig cfg2) eqn:Ev; [done|]. injection E as -> ->.
  apply applyAgentEnvironment_fields in E3. rewrite applyAgentFlags_fields in E3.
  assert (Hfile : fs' = fs /\ exists fileCfg, (default path (env "CONFIG") = "" /\ fileCfg = zero_file \/
     exists data, files fs !! default path (env "CONFIG") = Some data /\ decode_file data = Some fileCfg) /\
     apply_file fileCfg defaultAgentConfig = Ret cfg1).
  { case_decide as Hp.
    - apply bind_Ret_inv in E2 as (data & fs2 & E4%map_err_Ret_inv & E2). unfold ReadFile in E4.
      destruct (read_fault fs _); [done|].
      destruct (files fs !! default path (env "CONFIG")) as [data'|] eqn:Ef; [|done]. injection E4 as -> ->.
      destruct (decode_file data) as [fileCfg|] eqn:Ed; [|done]. unfold lift_outcome in E2.
      injection E2 as E2 <-. split; [done|]. exists fileCfg. eauto.
    - injection E2 as <- <-. split; [done|]. exists zero_file. split; [|done]. left.
      split; [|done]. by destruct (default path (env "CONFIG")). }
  destruct Hfile as (-> & fileCfg & Hsrc & Hap). apply apply_file_fields in Hap. subst cfg cfg1.
  split; [done|]. split; [done|]. exists flagCfg, path, setFlags, fileCfg. by split_and!.
Qed.

(** ** Witness *)

Definition sample_args : list string := ["-a"; "flag:8080"; "--transport=http"; "-p"; "0x3"; "-l"; "7"].
Definition sample_env (name : string) : option string :=
  if decide (name = "ADDRESS") then Some "env:9090"
  else if decide (name = "REPORT_INTERVAL") then Some "12" else None.

Definition sample_cfg : AgentConfig := MkAgentConfig "env:9090" "http" 3 12 7 "" "" "".

Lemma agent_config_precedence_witness :
  parseAgentConfig sample_args sample_env FileStore.empty_fs = (Ret sample_cfg, FileStore.empty_fs) /\
  validateAgentConfig sample_cfg = None.
Proof.
  assert (E : parseAgentConfig sample_args sample_env FileStore.empty_fs
    = (Ret sample_cfg, FileStore.empty_fs)) by (vm_compute; reflexivity).
  split; [exact E|].
  exact (proj1 (proj2 (agent_config_precedence _ _ _ _ _ E))).
Defined.

End AgentConfig.
