(* ===== verification/ServerConfig.v ===== *)
(** * The server's configuration: [internal/server/config]

    Defaults, JSON file, flags and environment, applied in this order, and the
    validation of the result. *)

From S2P Require Import Prelude GoError GoString GoNum GoContext GoJson Instances Storage FileStore NetIP GoFlag AgentConfig.
Local Open Scope Z_scope.

(** [url.ParseRequestURI]: scheme and host. *)
Class URLText := ParseRequestURI : string -> option (string * string).

Module ServerConfig.

(** ** [env.go] *)

(** A copy of the agent's. *)
Definition getEnvInt (lookupEnv : lookupEnvFunc) (name : string) : outcome error (option Z) :=
  match lookupEnv name with
  | Some value =>
      match Atoi value with
      | Some parsed => Ret (Some parsed)
      | None => Fail (ErrWrap ("parse environment variable " +:+ name +:+ "=" +:+ Quote value)
          (ErrNew ("strconv.Atoi: parsing " +:+ Quote value)))
      end
  | None => Ret None
  end.

Definition getEnvBool (lookupEnv : lookupEnvFunc) (name : string) : outcome error (option bool) :=
  match lookupEnv name with
  | Some value =>
      match ParseBool value with
      | Some parsed => Ret (Some parsed)
      | None => Fail (ErrWrap ("parse environment variable " +:+ name +:+ "=" +:+ Quote value)
          (ErrNew ("strconv.ParseBool: parsing " +:+ Quote value)))
      end
  | None => Ret None
  end.

(** ** [config.go] *)

Record ServerConfig : Type := MkServerConfig {
  HTTPAddr : string;
  GRPCAddr : string;
  GRPCTLSCert : string;
  GRPCTLSKey : string;
  StoreIntervalInSec : Z;
  FileStoragePath : string;
  Restore : bool;
  DatabaseDSN : string;
  Key : string;
  CryptoKey : string;
  TrustedSubnet : string;
  AuditFile : string;
  AuditURL : string;
}.

(** [cfg.X = v] *)
Definition set_HTTPAddr (v : string) (c : ServerConfig) : ServerConfig :=
  MkServerConfig v (GRPCAddr c) (GRPCTLSCert c) (GRPCTLSKey c) (StoreIntervalInSec c)
    (FileStoragePath c) (Restore c) (DatabaseDSN c) (Key c) (CryptoKey c) (TrustedSubnet c)
    (AuditFile c) (AuditURL c).
Definition set_GRPCAddr (v : string) (c : ServerConfig) : ServerConfig :=
  MkServerConfig (HTTPAddr c) v (GRPCTLSCert c) (GRPCTLSKey c) (StoreIntervalInSec c)
    (FileStoragePath c) (Restore c) (DatabaseDSN c) (Key c) (CryptoKey c) (TrustedSubnet c)
    (AuditFile c) (AuditURL c).
Definition set_GRPCTLSCert (v : string) (c : ServerConfig) : ServerConfig :=
  MkServerConfig (HTTPAddr c) (GRPCAddr c) v (GRPCTLSKey c) (StoreIntervalInSec c)
    (FileStoragePath c) (Restore c) (DatabaseDSN c) (Key c) (CryptoKey c) (TrustedSubnet c)
    (AuditFile c) (AuditURL c).
Definition set_GRPCTLSKey (v : string) (c : ServerConfig) : ServerConfig :=
  MkServerConfig (HTTPAddr c) (GRPCAddr c) (GRPCTLSCert c) v (StoreIntervalInSec c)
    (FileStoragePath c) (Restore c) (DatabaseDSN c) (Key c) (CryptoKey c) (TrustedSubnet c)
    (AuditFile c) (AuditURL c).
Definition set_StoreIntervalInSec (v : Z) (c : ServerConfig) : ServerConfig :=
  MkServerConfig (HTTPAddr c) (GRPCAddr c) (GRPCTLSCert c) (GRPCTLSKey c) v (FileStoragePath c)
    (Restore c) (DatabaseDSN c) (Key c) (CryptoKey c) (TrustedSubnet c) (AuditFile c)
    (AuditURL c).
Definition set_FileStoragePath (v : string) (c : ServerConfig) : ServerConfig :=
  MkServerConfig (HTTPAddr c) (GRPCAddr c) (GRPCTLSCert c) (GRPCTLSKey c) (StoreIntervalInSec c)
    v (Restore c) (DatabaseDSN c) (Key c) (CryptoKey c) (TrustedSubnet c) (AuditFile c)
    (AuditURL c).
Definition set_Restore (v : bool) (c : ServerConfig) : ServerConfig :=
  MkServerConfig (HTTPAddr c) (GRPCAddr c) (GRPCTLSCert c) (GRPCTLSKey c) (StoreIntervalInSec c)
    (FileStoragePath c) v (DatabaseDSN c) (Key c) (CryptoKey c) (TrustedSubnet c) (AuditFile c)
    (AuditURL c).
Definition set_DatabaseDSN (v : string) (c : ServerConfig) : ServerConfig :=
  MkServerConfig (HTTPAddr c) (GRPCAddr c) (GRPCTLSCert c) (GRPCTLSKey c) (StoreIntervalInSec c)
    (FileStoragePath c) (Restore c) v (Key c) (CryptoKey c) (TrustedSubnet c) (AuditFile c)
    (AuditURL c).
Definition set_Key (v : string) (c : ServerConfig) : ServerConfig :=
  MkServerConfig (HTTPAddr c) (GRPCAddr c) (GRPCTLSCert c) (GRPCTLSKey c) (StoreIntervalInSec c)
    (FileStoragePath c) (Restore c) (DatabaseDSN c) v (CryptoKey c) (TrustedSubnet c)
    (AuditFile c) (AuditURL c).
Definition set_CryptoKey (v : string) (c : ServerConfig) : ServerConfig :=
  MkServerConfig (HTTPAddr c) (GRPCAddr c) (GRPCTLSCert c) (GRPCTLSKey c) (StoreIntervalInSec c)
    (FileStoragePath c) (Restore c) (DatabaseDSN c) (Key c) v (TrustedSubnet c) (AuditFile c)
    (AuditURL c).
Definition set_TrustedSubnet (v : string) (c : ServerConfig) : ServerConfig :=
  MkServerConfig (HTTPAddr c) (GRPCAddr c) (GRPCTLSCert c) (GRPCTLSKey c) (StoreIntervalInSec c)
    (FileStoragePath c) (Restore c) (DatabaseDSN c) (Key c) (CryptoKey c) v (AuditFile c)
    (AuditURL c).
Definition set_AuditFile (v : string) (c : ServerConfig) : ServerConfig :=
  MkServerConfig (HTTPAddr c) (GRPCAddr c) (GRPCTLSCert c) (GRPCTLSKey c) (StoreIntervalInSec c)
    (FileStoragePath c) (Restore c) (DatabaseDSN c) (Key c) (CryptoKey c) (TrustedSubnet c) v
    (AuditURL c).
Definition set_AuditURL (v : string) (c : ServerConfig) : ServerConfig :=
  MkServerConfig (HTTPAddr c) (GRPCAddr c) (GRPCTLSCert c) (GRPCTLSKey c) (StoreIntervalInSec c)
    (FileStoragePath c) (Restore c) (DatabaseDSN c) (Key c) (CryptoKey c) (TrustedSubnet c)
    (AuditFile c) v.

Definition defaultServerConfig : ServerConfig :=
  MkServerConfig "localhost:8080" "localhost:50051" "" "" 300 "metrics-db.json" false "" "" "" "" "" "".

(** *** The flags *)

Definition on_cfg {A} (set : A -> ServerConfig -> ServerConfig) (v : A) (d : ServerConfig * string)
    : ServerConfig * string := (set v d.1, d.2).
Definition on_path (v : string) (d : ServerConfig * string) : ServerConfig * string := (d.1, v).

Definition server_flags : list (Flag (ServerConfig * string)) := [
  StringVar "a" (on_cfg set_HTTPAddr);
  StringVar "g" (on_cfg set_GRPCAddr);
  StringVar "grpc-tls-cert" (on_cfg set_GRPCTLSCert);
  StringVar "grpc-tls-key" (on_cfg set_GRPCTLSKey);
  IntVar "i" (on_cfg set_StoreIntervalInSec);
  StringVar "f" (on_cfg set_FileStoragePath);
  BoolVar "r" (on_cfg set_Restore);
  StringVar "d" (on_cfg set_DatabaseDSN);
  StringVar "k" (on_cfg set_Key);
  StringVar "crypto-key" (on_cfg set_CryptoKey);
  StringVar "t" (on_cfg set_TrustedSubnet);
  StringVar "audit-file" (on_cfg set_AuditFile);
  StringVar "audit-url" (on_cfg set_AuditURL);
  StringVar "c" on_path;
  StringVar "config" on_path
].

Definition applyServerFlags (flagCfg : ServerConfig) (setFlags : list string) (cfg : ServerConfig)
    : ServerConfig :=
  let cfg := when_set setFlags "a" (set_HTTPAddr (HTTPAddr flagCfg)) cfg in
  let cfg := when_set setFlags "g" (set_GRPCAddr (GRPCAddr flagCfg)) cfg in
  let cfg := when_set setFlags "grpc-tls-cert" (set_GRPCTLSCert (GRPCTLSCert flagCfg)) cfg in
  let cfg := when_set setFlags "grpc-tls-key" (set_GRPCTLSKey (GRPCTLSKey flagCfg)) cfg in
  let cfg := when_set setFlags "i" (set_StoreIntervalInSec (StoreIntervalInSec flagCfg)) cfg in
  let cfg := when_set setFlags "f" (set_FileStoragePath (FileStoragePath flagCfg)) cfg in
  let cfg := when_set setFlags "r" (set_Restore (Restore flagCfg)) cfg in
  let cfg := when_set setFlags "d" (set_DatabaseDSN (DatabaseDSN flagCfg)) cfg in
  let cfg := when_set setFlags "k" (set_Key (Key flagCfg)) cfg in
  let cfg := when_set setFlags "crypto-key" (set_CryptoKey (CryptoKey flagCfg)) cfg in
  let cfg := when_set setFlags "t" (set_TrustedSubnet (TrustedSubnet flagCfg)) cfg in
  let cfg := when_set setFlags "audit-file" (set_AuditFile (AuditFile flagCfg)) cfg in
  let cfg := when_set setFlags "audit-url" (set_AuditURL (AuditURL flagCfg)) cfg in
  cfg.

(** *** The environment *)

Definition applyServerTLSEnvironment (lookupEnv : lookupEnvFunc) (cfg : ServerConfig) : ServerConfig :=
  let cfg := opt_set set_GRPCTLSCert (lookupEnv "GRPC_TLS_CERT") cfg in
  opt_set set_GRPCTLSKey (lookupEnv "GRPC_TLS_KEY") cfg.

Definition applyServerEnvironment (lookupEnv : lookupEnvFunc) (cfg : ServerConfig)
    : outcome error ServerConfig :=
  let cfg := opt_set set_HTTPAddr (lookupEnv "ADDRESS") cfg in
  let cfg := opt_set set_GRPCAddr (lookupEnv "GRPC_ADDRESS") cfg in
  let cfg := applyServerTLSEnvironment lookupEnv cfg in
  andThen (getEnvInt lookupEnv "STORE_INTERVAL") (fun v =>
  let cfg := opt_set set_StoreIntervalInSec v cfg in
  let cfg := opt_set set_FileStoragePath (lookupEnv "FILE_STORAGE_PATH") cfg in
  let cfg := opt_set set_FileStoragePath (lookupEnv "STORE_FILE") cfg in
  andThen (getEnvBool lookupEnv "RESTORE") (fun v =>
  let cfg := opt_set set_Restore v cfg in
  let cfg := opt_set set_DatabaseDSN (lookupEnv "DATABASE_DSN") cfg in
  let cfg := opt_set set_Key (lookupEnv "KEY") cfg in
  let cfg := opt_set set_CryptoKey (lookupEnv "CRYPTO_KEY") cfg in
  let cfg := opt_set set_TrustedSubnet (lookupEnv "TRUSTED_SUBNET") cfg in
  let cfg := opt_set set_AuditFile (lookupEnv "AUDIT_FILE") cfg in
  let cfg := opt_set set_AuditURL (lookupEnv "AUDIT_URL") cfg in
  Ret cfg)).

(** *** [file.go] *)

Record serverFileConfig : Type := MkFileConfig {
  fc_Address : option string;
  fc_GRPCAddress : option string;
  fc_GRPCTLSCert : option string;
  fc_GRPCTLSKey : option string;
  fc_StoreInterval : option string;
  fc_StoreFile : option string;
  fc_Restore : option bool;
  fc_DatabaseDSN : option string;
  fc_Key : option string;
  fc_CryptoKey : option string;
  fc_TrustedSubnet : option string;
  fc_AuditFile : option string;
  fc_AuditURL : option string;
}.

Definition zero_file : serverFileConfig :=
  MkFileConfig None None None None None None None None None None None None None.

Definition set_fc_Address (v : option string) (c : serverFileConfig) : serverFileConfig :=
  MkFileConfig v (fc_GRPCAddress c) (fc_GRPCTLSCert c) (fc_GRPCTLSKey c) (fc_StoreInterval c)
    (fc_StoreFile c) (fc_Restore c) (fc_DatabaseDSN c) (fc_Key c) (fc_CryptoKey c)
    (fc_TrustedSubnet c) (fc_AuditFile c) (fc_AuditURL c).
Definition set_fc_GRPCAddress (v : option string) (c : serverFileConfig) : serverFileConfig :=
  MkFileConfig (fc_Address c) v (fc_GRPCTLSCert c) (fc_GRPCTLSKey c) (fc_StoreInterval c)
    (fc_StoreFile c) (fc_Restore c) (fc_DatabaseDSN c) (fc_Key c) (fc_CryptoKey c)
    (fc_TrustedSubnet c) (fc_AuditFile c) (fc_AuditURL c).
Definition set_fc_GRPCTLSCert (v : option string) (c : serverFileConfig) : serverFileConfig :=
  MkFileConfig (fc_Address c) (fc_GRPCAddress c) v (fc_GRPCTLSKey c) (fc_StoreInterval c)
    (fc_StoreFile c) (fc_Restore c) (fc_DatabaseDSN c) (fc_Key c) (fc_CryptoKey c)
    (fc_TrustedSubnet c) (fc_AuditFile c) (fc_AuditURL c).
Definition set_fc_GRPCTLSKey (v : option string) (c : serverFileConfig) : serverFileConfig :=
  MkFileConfig (fc_Address c) (fc_GRPCAddress c) (fc_GRPCTLSCert c) v (fc_StoreInterval c)
    (fc_StoreFile c) (fc_Restore c) (fc_DatabaseDSN c) (fc_Key c) (fc_CryptoKey c)
    (fc_TrustedSubnet c) (fc_AuditFile c) (fc_AuditURL c).
Definition set_fc_StoreInterval (v : option string) (c : serverFileConfig) : serverFileConfig :=
  MkFileConfig (fc_Address c) (fc_GRPCAddress c) (fc_GRPCTLSCert c) (fc_GRPCTLSKey c) v
    (fc_StoreFile c) (fc_Restore c) (fc_DatabaseDSN c) (fc_Key c) (fc_CryptoKey c)
    (fc_TrustedSubnet c) (fc_AuditFile c) (fc_AuditURL c).
Definition set_fc_StoreFile (v : option string) (c : serverFileConfig) : serverFileConfig :=
  MkFileConfig (fc_Address c) (fc_GRPCAddress c) (fc_GRPCTLSCert c) (fc_GRPCTLSKey c)
    (fc_StoreInterval c) v (fc_Restore c) (fc_DatabaseDSN c) (fc_Key c) (fc_CryptoKey c)
    (fc_TrustedSubnet c) (fc_AuditFile c) (fc_AuditURL c).
Definition set_fc_Restore (v : option bool) (c : serverFileConfig) : serverFileConfig :=
  MkFileConfig (fc_Address c) (fc_GRPCAddress c) (fc_GRPCTLSCert c) (fc_GRPCTLSKey c)
    (fc_StoreInterval c) (fc_StoreFile c) v (fc_DatabaseDSN c) (fc_Key c) (fc_CryptoKey c)
    (fc_TrustedSubnet c) (fc_AuditFile c) (fc_AuditURL c).
Definition set_fc_DatabaseDSN (v : option string) (c : serverFileConfig) : serverFileConfig :=
  MkFileConfig (fc_Address c) (fc_GRPCAddress c) (fc_GRPCTLSCert c) (fc_GRPCTLSKey c)
    (fc_StoreInterval c) (fc_StoreFile c) (fc_Restore c) v (fc_Key c) (fc_CryptoKey c)
    (fc_TrustedSubnet c) (fc_AuditFile c) (fc_AuditURL c).
Definition set_fc_Key (v : option string) (c : serverFileConfig) : serverFileConfig :=
  MkFileConfig (fc_Address c) (fc_GRPCAddress c) (fc_GRPCTLSCert c) (fc_GRPCTLSKey c)
    (fc_StoreInterval c) (fc_StoreFile c) (fc_Restore c) (fc_DatabaseDSN c) v (fc_CryptoKey c)
    (fc_TrustedSubnet c) (fc_AuditFile c) (fc_AuditURL c).
Definition set_fc_CryptoKey (v : option string) (c : serverFileConfig) : serverFileConfig :=
  MkFileConfig (fc_Address c) (fc_GRPCAddress c) (fc_GRPCTLSCert c) (fc_GRPCTLSKey c)
    (fc_StoreInterval c) (fc_StoreFile c) (fc_Restore c) (fc_DatabaseDSN c) (fc_Key c) v
    (fc_TrustedSubnet c) (fc_AuditFile c) (fc_AuditURL c).
Definition set_fc_TrustedSubnet (v : option string) (c : serverFileConfig) : serverFileConfig :=
  MkFileConfig (fc_Address c) (fc_GRPCAddress c) (fc_GRPCTLSCert c) (fc_GRPCTLSKey c)
    (fc_StoreInterval c) (fc_StoreFile c) (fc_Restore c) (fc_DatabaseDSN c) (fc_Key c)
    (fc_CryptoKey c) v (fc_AuditFile c) (fc_AuditURL c).
Definition set_fc_AuditFile (v : option string) (c : serverFileConfig) : serverFileConfig :=
  MkFileConfig (fc_Address c) (fc_GRPCAddress c) (fc_GRPCTLSCert c) (fc_GRPCTLSKey c)
    (fc_StoreInterval c) (fc_StoreFile c) (fc_Restore c) (fc_DatabaseDSN c) (fc_Key c)
    (fc_CryptoKey c) (fc_TrustedSubnet c) v (fc_AuditURL c).
Definition set_fc_AuditURL (v : option string) (c : serverFileConfig) : serverFileConfig :=
  MkFileConfig (fc_Address c) (fc_GRPCAddress c) (fc_GRPCTLSCert c) (fc_GRPCTLSKey c)
    (fc_StoreInterval c) (fc_StoreFile c) (fc_Restore c) (fc_DatabaseDSN c) (fc_Key c)
    (fc_CryptoKey c) (fc_TrustedSubnet c) (fc_AuditFile c) v.

Definition server_file_fields : list (field serverFileConfig) := [
  ("address", fun t j => (fun v => set_fc_Address v t) <$> decode_ptr "" decode_string (fc_Address t) j);
  ("grpc_address", fun t j => (fun v => set_fc_GRPCAddress v t) <$> decode_ptr "" decode_string (fc_GRPCAddress t) j);
  ("grpc_tls_cert", fun t j => (fun v => set_fc_GRPCTLSCert v t) <$> decode_ptr "" decode_string (fc_GRPCTLSCert t) j);
  ("grpc_tls_key", fun t j => (fun v => set_fc_GRPCTLSKey v t) <$> decode_ptr "" decode_string (fc_GRPCTLSKey t) j);
  ("store_interval", fun t j => (fun v => set_fc_StoreInterval v t) <$> decode_ptr "" decode_string (fc_StoreInterval t) j);
  ("store_file", fun t j => (fun v => set_fc_StoreFile v t) <$> decode_ptr "" decode_string (fc_StoreFile t) j);
  ("restore", fun t j => (fun v => set_fc_Restore v t) <$> decode_ptr false decode_bool (fc_Restore t) j);
  ("database_dsn", fun t j => (fun v => set_fc_DatabaseDSN v t) <$> decode_ptr "" decode_string (fc_DatabaseDSN t) j);
  ("key", fun t j => (fun v => set_fc_Key v t) <$> decode_ptr "" decode_string (fc_Key t) j);
  ("crypto_key", fun t j => (fun v => set_fc_CryptoKey v t) <$> decode_ptr "" decode_string (fc_CryptoKey t) j);
  ("trusted_subnet", fun t j => (fun v => set_fc_TrustedSubnet v t) <$> decode_ptr "" decode_string (fc_TrustedSubnet t) j);
  ("audit_file", fun t j => (fun v => set_fc_AuditFile v t) <$> decode_ptr "" decode_string (fc_AuditFile t) j);
  ("audit_url", fun t j => (fun v => set_fc_AuditURL v t) <$> decode_ptr "" decode_string (fc_AuditURL t) j)
].

Definition parseStoreInterval (value : string) : outcome error Z :=
  match ParseDuration value with
  | None => Fail (ErrWrap ("parse store_interval " +:+ Quote value) (ErrNew ("time: invalid duration " +:+ Quote value)))
  | Some storeInterval =>
      if decide (Z.rem storeInterval Second <> 0)
      then Fail (ErrNew ("parse store_interval " +:+ Quote value +:+ ": duration must contain whole seconds"))
      else Ret (Z.quot storeInterval Second)
  end.

Definition parse_opt (v : option string) : outcome error (option Z) :=
  match v with
  | None => Ret None
  | Some v => andThen (parseStoreInterval v) (fun n => Ret (Some n))
  end.

Definition applyServerTLSFileConfig (fileCfg : serverFileConfig) (cfg : ServerConfig) : ServerConfig :=
  let cfg := opt_set set_GRPCTLSCert (fc_GRPCTLSCert fileCfg) cfg in
  opt_set set_GRPCTLSKey (fc_GRPCTLSKey fileCfg) cfg.

Definition apply_file (fileCfg : serverFileConfig) (cfg : ServerConfig) : outcome error ServerConfig :=
  let cfg := opt_set set_HTTPAddr (fc_Address fileCfg) cfg in
  let cfg := opt_set set_GRPCAddr (fc_GRPCAddress fileCfg) cfg in
  let cfg := applyServerTLSFileConfig fileCfg cfg in
  andThen (parse_opt (fc_StoreInterval fileCfg)) (fun interval =>
  let cfg := opt_set set_StoreIntervalInSec interval cfg in
  let cfg := opt_set set_FileStoragePath (fc_StoreFile fileCfg) cfg in
  let cfg := opt_set set_Restore (fc_Restore fileCfg) cfg in
  let cfg := opt_set set_DatabaseDSN (fc_DatabaseDSN fileCfg) cfg in
  let cfg := opt_set set_Key (fc_Key fileCfg) cfg in
  let cfg := opt_set set_CryptoKey (fc_CryptoKey fileCfg) cfg in
  let cfg := opt_set set_TrustedSubnet (fc_TrustedSubnet fileCfg) cfg in
  let cfg := opt_set set_AuditFile (fc_AuditFile fileCfg) cfg in
  let cfg := opt_set set_AuditURL (fc_AuditURL fileCfg) cfg in
  Ret cfg).

Section File.
Context `{JsonText} `{URLText}.

Definition decode_file (data : string) : option serverFileConfig :=
  json_parse data ≫= decode_struct server_file_fields zero_file.

Definition loadServerConfigFile (path : string) (cfg : ServerConfig) : M FS ServerConfig :=
  data ← map_err (ErrWrap ("read server config file " +:+ Quote path)) (ReadFile path);
  match decode_file data with
  | None => throw (ErrWrap ("decode server config file " +:+ Quote path) (ErrNew "json: cannot unmarshal"))
  | Some fileCfg => lift_outcome (apply_file fileCfg cfg)
  end.

(** *** [validation.go] *)

Definition validateServerConfig (cfg : ServerConfig) : option error :=
  if decide (HTTPAddr cfg = "") then Some (ErrNew "HTTP server address must not be empty")
  else if decide (GRPCAddr cfg = "") then Some (ErrNew "gRPC server address must not be empty")
  else
    let hasCert := bool_decide (GRPCTLSCert cfg <> "") in
    let hasKey := bool_decide (GRPCTLSKey cfg <> "") in
    if decide (hasCert <> hasKey)
    then Some (ErrNew "gRPC TLS certificate and private key paths must be specified together")
    else if decide (StoreIntervalInSec cfg < 0)
    then Some (ErrNew ("store interval in seconds must be >= 0, got " +:+ FormatInt (StoreIntervalInSec cfg)))
    else if bool_decide (TrustedSubnet cfg <> "") && bool_decide (ParseCIDR (TrustedSubnet cfg) = None)
    then Some (ErrWrap ("parse trusted subnet " +:+ Quote (TrustedSubnet cfg)) (ErrNew "invalid CIDR address"))
    else if decide (AuditURL cfg <> "") then
      match ParseRequestURI (AuditURL cfg) with
      | None => Some (ErrWrap ("parse audit URL " +:+ Quote (AuditURL cfg)) (ErrNew "invalid URI for request"))
      | Some (scheme, host) =>
          if decide (scheme <> "http" /\ scheme <> "https")
          then Some (ErrNew ("audit URL must use http or https scheme, got " +:+ Quote scheme))
          else if decide (host = "") then Some (ErrNew "audit URL must contain host")
          else None
      end
    else None.

(** *** The whole: [parseServerConfig] *)

Definition parseServerConfig (args : list string) (lookupEnv : lookupEnvFunc) : M FS ServerConfig :=
  let cfg := defaultServerConfig in
  parsed ← lift_outcome (ParseArgs server_flags args (cfg, ""));
  let '((flagCfg, configPath), setFlags) := parsed in
  let configPath := default configPath (lookupEnv "CONFIG") in
  cfg ← (if decide (configPath <> "") then loadServerConfigFile configPath cfg else mret cfg);
  let cfg := applyServerFlags flagCfg setFlags cfg in
  cfg ← lift_outcome (applyServerEnvironment lookupEnv cfg);
  match validateServerConfig cfg with
  | Some err => throw err
  | None => mret cfg
  end.
End File.

(** ** Where each value comes from *)

Lemma server_set_get_all (c : ServerConfig) :
  set_HTTPAddr (HTTPAddr c) c = c /\
  set_GRPCAddr (GRPCAddr c) c = c /\
  set_GRPCTLSCert (GRPCTLSCert c) c = c /\
  set_GRPCTLSKey (GRPCTLSKey c) c = c /\
  set_StoreIntervalInSec (StoreIntervalInSec c) c = c /\
  set_FileStoragePath (FileStoragePath c) c = c /\
  set_Restore (Restore c) c = c /\
  set_DatabaseDSN (DatabaseDSN c) c = c /\
  set_Key (Key c) c = c /\
  set_CryptoKey (CryptoKey c) c = c /\
  set_TrustedSubnet (TrustedSubnet c) c = c /\
  set_AuditFile (AuditFile c) c = c /\
  set_AuditURL (AuditURL c) c = c.
Proof. by destruct c. Qed.

Ltac plain_updates :=
  rewrite ?(opt_set_eq set_HTTPAddr HTTPAddr), ?(when_set_eq set_HTTPAddr HTTPAddr),
    ?(opt_set_eq set_GRPCAddr GRPCAddr), ?(when_set_eq set_GRPCAddr GRPCAddr),
    ?(opt_set_eq set_GRPCTLSCert GRPCTLSCert), ?(when_set_eq set_GRPCTLSCert GRPCTLSCert),
    ?(opt_set_eq set_GRPCTLSKey GRPCTLSKey), ?(when_set_eq set_GRPCTLSKey GRPCTLSKey),
    ?(opt_set_eq set_StoreIntervalInSec StoreIntervalInSec), ?(when_set_eq set_StoreIntervalInSec StoreIntervalInSec),
    ?(opt_set_eq set_FileStoragePath FileStoragePath), ?(when_set_eq set_FileStoragePath FileStoragePath),
    ?(opt_set_eq set_Restore Restore), ?(when_set_eq set_Restore Restore),
    ?(opt_set_eq set_DatabaseDSN DatabaseDSN), ?(when_set_eq set_DatabaseDSN DatabaseDSN),
    ?(opt_set_eq set_Key Key), ?(when_set_eq set_Key Key),
    ?(opt_set_eq set_CryptoKey CryptoKey), ?(when_set_eq set_CryptoKey CryptoKey),
    ?(opt_set_eq set_TrustedSubnet TrustedSubnet), ?(when_set_eq set_TrustedSubnet TrustedSubnet),
    ?(opt_set_eq set_AuditFile AuditFile), ?(when_set_eq set_AuditFile AuditFile),
    ?(opt_set_eq set_AuditURL AuditURL), ?(when_set_eq set_AuditURL AuditURL)
    by (intros c; apply (server_set_get_all c)).

Definition file_seconds (v : option string) : option Z :=
  match parse_opt v with Ret n => n | _ => None end.

Definition env_int (lookupEnv : lookupEnvFunc) (name : string) : option Z :=
  match getEnvInt lookupEnv name with Ret n => n | _ => None end.
Definition env_bool (lookupEnv : lookupEnvFunc) (name : string) : option bool :=
  match getEnvBool lookupEnv name with Ret b => b | _ => None end.

Lemma apply_server_file_fields fileCfg cfg cfg' :
  apply_file fileCfg cfg = Ret cfg' ->
  cfg' = MkServerConfig
    (default (HTTPAddr cfg) (fc_Address fileCfg))
    (default (GRPCAddr cfg) (fc_GRPCAddress fileCfg))
    (default (GRPCTLSCert cfg) (fc_GRPCTLSCert fileCfg))
    (default (GRPCTLSKey cfg) (fc_GRPCTLSKey fileCfg))
    (default (StoreIntervalInSec cfg) (file_seconds (fc_StoreInterval fileCfg)))
    (default (FileStoragePath cfg) (fc_StoreFile fileCfg))
    (default (Restore cfg) (fc_Restore fileCfg))
    (default (DatabaseDSN cfg) (fc_DatabaseDSN fileCfg))
    (default (Key cfg) (fc_Key fileCfg))
    (default (CryptoKey cfg) (fc_CryptoKey fileCfg))
    (default (TrustedSubnet cfg) (fc_TrustedSubnet fileCfg))
    (default (AuditFile cfg) (fc_AuditFile fileCfg))
    (default (AuditURL cfg) (fc_AuditURL fileCfg)).
Proof.
  unfold apply_file, applyServerTLSFileConfig, file_seconds. cbv zeta. intros E.
  apply andThen_Ret in E as (interval & -> & E). injection E as <-. by plain_updates.
Qed.

Lemma applyServerFlags_fields flagCfg setFlags cfg :
  applyServerFlags flagCfg setFlags cfg = MkServerConfig
    (default (HTTPAddr cfg) (flag_value setFlags "a" (HTTPAddr flagCfg)))
    (default (GRPCAddr cfg) (flag_value setFlags "g" (GRPCAddr flagCfg)))
    (default (GRPCTLSCert cfg) (flag_value setFlags "grpc-tls-cert" (GRPCTLSCert flagCfg)))
    (default (GRPCTLSKey cfg) (flag_value setFlags "grpc-tls-key" (GRPCTLSKey flagCfg)))
    (default (StoreIntervalInSec cfg) (flag_value setFlags "i" (StoreIntervalInSec flagCfg)))
    (default (FileStoragePath cfg) (flag_value setFlags "f" (FileStoragePath flagCfg)))
    (default (Restore cfg) (flag_value setFlags "r" (Restore flagCfg)))
    (default (DatabaseDSN cfg) (flag_value setFlags "d" (DatabaseDSN flagCfg)))
    (default (Key cfg) (flag_value setFlags "k" (Key flagCfg)))
    (default (CryptoKey cfg) (flag_value setFlags "crypto-key" (CryptoKey flagCfg)))
    (default (TrustedSubnet cfg) (flag_value setFlags "t" (TrustedSubnet flagCfg)))
    (default (AuditFile cfg) (flag_value setFlags "audit-file" (AuditFile flagCfg)))
    (default (AuditURL cfg) (flag_value setFlags "audit-url" (AuditURL flagCfg))).
Proof. unfold applyServerFlags. cbv zeta. by plain_updates. Qed.

(** [STORE_FILE] wins over [FILE_STORAGE_PATH]. *)
Definition env_store_file (env : lookupEnvFunc) : option string :=
  match env "STORE_FILE" with Some v => Some v | None => env "FILE_STORAGE_PATH" end.

Lemma applyServerEnvironment_fields env cfg cfg' :
  applyServerEnvironment env cfg = Ret cfg' ->
  cfg' = MkServerConfig
    (default (HTTPAddr cfg) (env "ADDRESS"))
    (default (GRPCAddr cfg) (env "GRPC_ADDRESS"))
    (default (GRPCTLSCert cfg) (env "GRPC_TLS_CERT"))
    (default (GRPCTLSKey cfg) (env "GRPC_TLS_KEY"))
    (default (StoreIntervalInSec cfg) (env_int env "STORE_INTERVAL"))
    (default (FileStoragePath cfg) (env_store_file env))
    (default (Restore cfg) (env_bool env "RESTORE"))
    (default (DatabaseDSN cfg) (env "DATABASE_DSN"))
    (default (Key cfg) (env "KEY"))
    (default (CryptoKey cfg) (env "CRYPTO_KEY"))
    (default (TrustedSubnet cfg) (env "TRUSTED_SUBNET"))
    (default (AuditFile cfg) (env "AUDIT_FILE"))
    (default (AuditURL cfg) (env "AUDIT_URL")).
Proof.
  unfold applyServerEnvironment, applyServerTLSEnvironment, env_int, env_bool, env_store_file. cbv zeta.
  intros E. apply andThen_Ret in E as (interval & -> & E). apply andThen_Ret in E as (restore & -> & E).
  injection E as <-. plain_updates. by destruct (env "STORE_FILE").
Qed.

Lemma validate_accepts `{URLText} cfg :
  validateServerConfig cfg = None ->
  (GRPCTLSCert cfg = "" <-> GRPCTLSKey cfg = "") /\ 0 <= StoreIntervalInSec cfg /\
  (TrustedSubnet cfg <> "" -> is_Some (ParseCIDR (TrustedSubnet cfg))).
Proof.
  unfold validateServerConfig. cbv zeta. intros E.
  destruct (decide (HTTPAddr cfg = "")); [done|]. destruct (decide (GRPCAddr cfg = "")); [done|].
  destruct (decide (bool_decide _ <> bool_decide _)) as [|Hb]; [done|].
  destruct (decide (StoreIntervalInSec cfg < 0)); [done|].
  destruct (bool_decide _ && bool_decide _) eqn:Hn; [done|]. split_and!.
  - destruct (decide (GRPCTLSCert cfg = "")) as [H1|H1], (decide (GRPCTLSKey cfg = "")) as [H2|H2]; try tauto;
      exfalso; apply Hb; [rewrite bool_decide_eq_false_2, bool_decide_eq_true_2 by tauto
                         |rewrite bool_decide_eq_true_2, bool_decide_eq_false_2 by tauto]; done.
  - lia.
  - intros Hne. rewrite (bool_decide_eq_true_2 _ Hne) in Hn. cbn [andb] in Hn.
    apply bool_decide_eq_false in Hn. by apply not_eq_None_Some.
Qed.

(** C34: every accepted configuration takes each value from the environment if it
    is set there, else from the command line, else from the file, else from the
    defaults; it names a TLS certificate exactly if it names its key, its trusted
    subnet can be parsed, and its store interval is not negative. *)
Theorem server_config_precedence `{JsonText} `{URLText} args env fs cfg fs' :
  parseServerConfig args env fs = (Ret cfg, fs') ->
  fs' = fs /\
  (GRPCTLSCert cfg = "" <-> GRPCTLSKey cfg = "") /\ 0 <= StoreIntervalInSec cfg /\
  (TrustedSubnet cfg <> "" -> is_Some (ParseCIDR (TrustedSubnet cfg))) /\
  exists flagCfg configPath setFlags fileCfg,
    ParseArgs server_flags args (defaultServerConfig, "") = Ret ((flagCfg, configPath), setFlags) /\
    (default configPath (env "CONFIG") = "" /\ fileCfg = zero_file \/
     exists data, files fs !! default configPath (env "CONFIG") = Some data /\
       decode_file data = Some fileCfg) /\
    HTTPAddr cfg = pick (env "ADDRESS") (flag_value setFlags "a" (HTTPAddr flagCfg))
      (fc_Address fileCfg) "localhost:8080" /\
    GRPCAddr cfg = pick (env "GRPC_ADDRESS") (flag_value setFlags "g" (GRPCAddr flagCfg))
      (fc_GRPCAddress fileCfg) "localhost:50051" /\
    GRPCTLSCert cfg = pick (env "GRPC_TLS_CERT") (flag_value setFlags "grpc-tls-cert" (GRPCTLSCert flagCfg))
      (fc_GRPCTLSCert fileCfg) "" /\
    GRPCTLSKey cfg = pick (env "GRPC_TLS_KEY") (flag_value setFlags "grpc-tls-key" (GRPCTLSKey flagCfg))
      (fc_GRPCTLSKey fileCfg) "" /\
    StoreIntervalInSec cfg = pick (env_int env "STORE_INTERVAL") (flag_value setFlags "i" (StoreIntervalInSec flagCfg))
      (file_seconds (fc_StoreInterval fileCfg)) 300 /\
    FileStoragePath cfg = pick (env_store_file env) (flag_value setFlags "f" (FileStoragePath flagCfg))
      (fc_StoreFile fileCfg) "metrics-db.json" /\
    Restore cfg = pick (env_bool env "RESTORE") (flag_value setFlags "r" (Restore flagCfg))
      (fc_Restore fileCfg) false /\
    DatabaseDSN cfg = pick (env "DATABASE_DSN") (flag_value setFlags "d" (DatabaseDSN flagCfg))
      (fc_DatabaseDSN fileCfg) "" /\
    Key cfg = pick (env "KEY") (flag_value setFlags "k" (Key flagCfg))
      (fc_Key fileCfg) "" /\
    CryptoKey cfg = pick (env "CRYPTO_KEY") (flag_value setFlags "crypto-key" (CryptoKey flagCfg))
      (fc_CryptoKey fileCfg) "" /\
    TrustedSubnet cfg = pick (env "TRUSTED_SUBNET") (flag_value setFlags "t" (TrustedSubnet flagCfg))
      (fc_TrustedSubnet fileCfg) "" /\
    AuditFile cfg = pick (env "AUDIT_FILE") (flag_value setFlags "audit-file" (AuditFile flagCfg))
      (fc_AuditFile fileCfg) "" /\
    AuditURL cfg = pick (env "AUDIT_URL") (flag_value setFlags "audit-url" (AuditURL flagCfg))
      (fc_AuditURL fileCfg) "".
Proof.
  intros E. unfold parseServerConfig in E. apply bind_Ret_inv in E as ([[flagCfg path] setFlags] & fs1 & E1 & E).
  unfold lift_outcome in E1. injection E1 as E1 <-.
  apply bind_Ret_inv in E as (cfg1 & fs1 & E2 & E). apply bind_Ret_inv in E as (cfg2 & fs2 & E3 & E).
  unfold lift_outcome in E3. injection E3 as E3 <-.
  destruct (validateServerConfig cfg2) eqn:Ev; [done|]. injection E as -> ->.
  apply applyServerEnvironment_fields in E3. rewrite applyServerFlags_fields in E3.
  assert (Hfile : fs' = fs /\ exists fileCfg, (default path (env "CONFIG") = "" /\ fileCfg = zero_file \/
     exists data, files fs !! default path (env "CONFIG") = Some data /\ decode_file data = Some fileCfg) /\
     apply_file fileCfg defaultServerConfig = Ret cfg1).
  { case_decide as Hp.
    - apply bind_Ret_inv in E2 as (data & fs2 & E4%map_err_Ret_inv & E2). unfold ReadFile in E4.
      destruct (read_fault fs _); [done|].
      destruct (files fs !! default path (env "CONFIG")) as [data'|] eqn:Ef; [|done]. injection E4 as -> ->.
      destruct (decode_file data) as [fileCfg|] eqn:Ed; [|done]. unfold lift_outcome in E2.
      injection E2 as E2 <-. split; [done|]. exists fileCfg. eauto.
    - injection E2 as <- <-. split; [done|]. exists zero_file. split; [|done]. left.
      split; [|done]. by destruct (default path (env "CONFIG")). }
  destruct Hfile as (-> & fileCfg & Hsrc & Hap). apply apply_server_file_fields in Hap. split; [done|].
  apply validate_accepts in Ev as (Htls & Hint & Hnet). split; [done|]. split; [done|]. split; [done|].
  subst cfg cfg1. exists flagCfg, path, setFlags, fileCfg. by split_and!.
Qed.

(** ** Witness *)

#[local] Instance any_uri : URLText := fun u => Some ("http", u).

Definition sample_cfg : ServerConfig :=
  MkServerConfig "env:80" "localhost:50051" "" "" 0 "b.json" true "" "" "" "10.0.0.0/8" "" "".
Definition sample_args : list string := ["-a"; "flag:80"; "-i=0"; "-f"; "a.json"; "-r"; "-t"; "10.0.0.0/8"].
Definition sample_env (name : string) : option string :=
  if decide (name = "ADDRESS") then Some "env:80"
  else if decide (name = "STORE_FILE") then Some "b.json" else None.

Lemma server_config_precedence_witness :
  parseServerConfig sample_args sample_env FileStore.empty_fs = (Ret sample_cfg, FileStore.empty_fs) /\
  is_Some (ParseCIDR (TrustedSubnet sample_cfg)).
Proof.
  assert (E : parseServerConfig sample_args sample_env FileStore.empty_fs
    = (Ret sample_cfg, FileStore.empty_fs)) by (vm_compute; reflexivity).
  split; [exact E|].
  destruct (server_config_precedence _ _ _ _ _ E) as (_ & _ & _ & H & _). apply H. discriminate.
Defined.

End ServerConfig.
