(* ===== verification/AgentService.v ===== *)
(** * The agent's reporting service: [internal/agent/service]

    Polling ([poll.go]) fills the storage with gauges and counts polls; reporting
    ([report.go]) turns a snapshot and the count into a batch, sends it, and gives
    the count back when the batch was not delivered.  The service owns a storage
    [T], a sender on a state [X], the log, the readings of the host [Y] and the
    atomic counter [pollSinceReport]. *)

From S2P Require Import Prelude GoError GoString GoNum GoContext GoMap GoJson Model MetricsJson Instances Storage MemStorage Log HTTPSender.
Local Open Scope Z_scope.

(** [service.AgentStorage]: what the agent uses of a storage. *)
Class AgentStorage (T : Type) := {
  agent_UpdateGauge : Context -> string -> float64 -> M T unit;
  agent_Snapshot : Context -> M T (gmap string float64 * gmap string Z);
}.

#[export] Instance storage_agent_storage {T : Type} `{!MetricsStorage T} : AgentStorage T := {|
  agent_UpdateGauge := UpdateGauge;
  agent_Snapshot := Snapshot;
|}.

(** [runtime.MemStats], the fields that are reported. *)
Record MemStats : Type := MkMemStats {
  ms_Alloc : Z;
  ms_BuckHashSys : Z;
  ms_Frees : Z;
  ms_GCCPUFraction : float64;
  ms_GCSys : Z;
  ms_HeapAlloc : Z;
  ms_HeapIdle : Z;
  ms_HeapInuse : Z;
  ms_HeapObjects : Z;
  ms_HeapReleased : Z;
  ms_HeapSys : Z;
  ms_LastGC : Z;
  ms_Lookups : Z;
  ms_MCacheInuse : Z;
  ms_MCacheSys : Z;
  ms_MSpanInuse : Z;
  ms_MSpanSys : Z;
  ms_Mallocs : Z;
  ms_NextGC : Z;
  ms_NumForcedGC : Z;
  ms_NumGC : Z;
  ms_OtherSys : Z;
  ms_PauseTotalNs : Z;
  ms_StackInuse : Z;
  ms_StackSys : Z;
  ms_Sys : Z;
  ms_TotalAlloc : Z;
}.

(** The host: [runtime.ReadMemStats], [rand.Float64], [mem.VirtualMemory] (total
    and free bytes) and [cpu.Percent]. *)
Class Host (Y : Type) := {
  ReadMemStats : M Y MemStats;
  rand_Float64 : M Y float64;
  VirtualMemory : M Y (Z * Z);
  cpu_Percent : M Y (list float64);
}.

(** [service.Report] *)
Record Report : Type := MkReport {
  report_Metrics : list Metrics;
  report_PollCount : Z;
}.

(** The object's mutable parts. *)
Record AgentState (T X Y : Type) : Type := MkAgentState {
  a_repo : T;
  a_sender : X;
  a_host : Y;
  a_log : list entry;
  pollSinceReport : Z;
}.
Arguments MkAgentState {T X Y} _ _ _ _ _.
Arguments a_repo {T X Y} _.
Arguments a_sender {T X Y} _.
Arguments a_host {T X Y} _.
Arguments a_log {T X Y} _.
Arguments pollSinceReport {T X Y} _.

Module ReportingService.

Section Operations.
Context {T X Y : Type} `{!AgentStorage T} `{!Host Y} `{MapRange}.
Context (send : MetricsSender X).
Abbreviation St := (AgentState T X Y).

Definition on_repo {A} (m : M T A) : M St A := fun s =>
  let '(r, t) := m (a_repo s) in (r, MkAgentState t (a_sender s) (a_host s) (a_log s) (pollSinceReport s)).
Definition on_sender {A} (m : M X A) : M St A := fun s =>
  let '(r, x) := m (a_sender s) in (r, MkAgentState (a_repo s) x (a_host s) (a_log s) (pollSinceReport s)).
Definition on_host {A} (m : M Y A) : M St A := fun s =>
  let '(r, y) := m (a_host s) in (r, MkAgentState (a_repo s) (a_sender s) y (a_log s) (pollSinceReport s)).
Definition log_entry (e : entry) : M St unit :=
  modify (fun s => MkAgentState (a_repo s) (a_sender s) (a_host s) (a_log s ++ [e]) (pollSinceReport s)).

(** The atomic operations on [pollSinceReport]. *)
Definition set_polls (n : Z) (s : St) : St := MkAgentState (a_repo s) (a_sender s) (a_host s) (a_log s) n.
Definition polls_Add (n : Z) : M St unit := modify (fun s => set_polls (wrap64 (pollSinceReport s + n)) s).
Definition polls_Swap (n : Z) : M St Z := fun s => (Ret (pollSinceReport s), set_polls n s).

(** ** [poll.go] *)

Definition updateGauge (ctx : Context) (name : string) (value : float64) : M St unit :=
  r ← attempt (on_repo (agent_UpdateGauge ctx name value));
  match r with
  | inr err => log_entry (MkEntry ErrorLevel "update gauge failed" [FString "metric" name; FError err])
  | inl _ => mret tt
  end.

Definition InitSystemPoll : M St unit :=
  r ← attempt (on_host cpu_Percent);
  match r with
  | inr err => log_entry (MkEntry ErrorLevel "init cpu percent" [FError err])
  | inl _ => mret tt
  end.

(** The gauges of one reading of [runtime.MemStats], in the order of the calls. *)
Definition runtime_gauges (ms : MemStats) : list (string * float64) := [
  ("Alloc", float64_of_Z (ms_Alloc ms));
  ("BuckHashSys", float64_of_Z (ms_BuckHashSys ms));
  ("Frees", float64_of_Z (ms_Frees ms));
  ("GCCPUFraction", ms_GCCPUFraction ms);
  ("GCSys", float64_of_Z (ms_GCSys ms));
  ("HeapAlloc", float64_of_Z (ms_HeapAlloc ms));
  ("HeapIdle", float64_of_Z (ms_HeapIdle ms));
  ("HeapInuse", float64_of_Z (ms_HeapInuse ms));
  ("HeapObjects", float64_of_Z (ms_HeapObjects ms));
  ("HeapReleased", float64_of_Z (ms_HeapReleased ms));
  ("HeapSys", float64_of_Z (ms_HeapSys ms));
  ("LastGC", float64_of_Z (ms_LastGC ms));
  ("Lookups", float64_of_Z (ms_Lookups ms));
  ("MCacheInuse", float64_of_Z (ms_MCacheInuse ms));
  ("MCacheSys", float64_of_Z (ms_MCacheSys ms));
  ("MSpanInuse", float64_of_Z (ms_MSpanInuse ms));
  ("MSpanSys", float64_of_Z (ms_MSpanSys ms));
  ("Mallocs", float64_of_Z (ms_Mallocs ms));
  ("NextGC", float64_of_Z (ms_NextGC ms));
  ("NumForcedGC", float64_of_Z (ms_NumForcedGC ms));
  ("NumGC", float64_of_Z (ms_NumGC ms));
  ("OtherSys", float64_of_Z (ms_OtherSys ms));
  ("PauseTotalNs", float64_of_Z (ms_PauseTotalNs ms));
  ("StackInuse", float64_of_Z (ms_StackInuse ms));
  ("StackSys", float64_of_Z (ms_StackSys ms));
  ("Sys", float64_of_Z (ms_Sys ms));
  ("TotalAlloc", float64_of_Z (ms_TotalAlloc ms))
].

Definition PollRuntime : M St unit :=
  let ctx := Background in
  polls ← gets pollSinceReport;
  _ ← log_entry (MkEntry InfoLevel "poll runtime" [FInt "pollSinceReport" polls]);
  ms ← on_host ReadMemStats;
  _ ← for_range (runtime_gauges ms) (fun g => updateGauge ctx g.1 g.2);
  value ← on_host rand_Float64;
  _ ← updateGauge ctx "RandomValue" value;
  polls_Add 1.

(** [fmt.Sprintf("CPUutilization%d", i+1)] *)
Definition cpu_name (i : nat) : string := "CPUutilization" +:+ pretty (Z.of_nat i + 1).

Definition PollSystem : M St unit :=
  let ctx := Background in
  _ ← log_entry (MkEntry InfoLevel "poll system" []);
  vm ← attempt (on_host VirtualMemory);
  match vm with
  | inr err => log_entry (MkEntry ErrorLevel "read virtual memory" [FError err])
  | inl (total, free) =>
      _ ← updateGauge ctx "TotalMemory" (float64_of_Z total);
      _ ← updateGauge ctx "FreeMemory" (float64_of_Z free);
      cpuPercents ← attempt (on_host cpu_Percent);
      match cpuPercents with
      | inr err => log_entry (MkEntry ErrorLevel "read cpu percent" [FError err])
      | inl cpuPercents => for_range (imap pair cpuPercents) (fun ip => updateGauge ctx (cpu_name ip.1) ip.2)
      end
  end.

(** ** [report.go] *)

Definition batch_of (gauges : gmap string float64) (pollCount : Z) : list Metrics :=
  map (fun kv => gauge_metric kv.1 kv.2) (range_map gauges) ++ [counter_metric "PollCount" pollCount].

Definition buildMetricsBatch (ctx : Context) (pollCount : Z) : M St (list Metrics) :=
  snapshot ← map_err (ErrWrap "snapshot metrics") (on_repo (agent_Snapshot ctx));
  mret (batch_of snapshot.1 pollCount).

Definition prepareReport (ctx : Context) (skipWithoutPolls : bool) : M St (Report * bool) :=
  pollCount ← polls_Swap 0;
  if skipWithoutPolls && bool_decide (pollCount = 0) then mret (MkReport [] 0, false)
  else
    built ← attempt (buildMetricsBatch ctx pollCount);
    match built with
    | inr err => _ ← polls_Add pollCount; throw err
    | inl [] => _ ← polls_Add pollCount; mret (MkReport [] 0, false)
    | inl metrics => mret (MkReport metrics pollCount, true)
    end.

Definition PreparePeriodicReport (ctx : Context) : M St (Report * bool) := prepareReport ctx true.

Definition prepareFinalReport (ctx : Context) : M St Report :=
  r ← prepareReport ctx false; mret r.1.

Definition Restore (report : Report) : M St unit := polls_Add (report_PollCount report).

Definition Send (ctx : Context) (report : Report) : M St unit :=
  r ← attempt (on_sender (send ctx (report_Metrics report)));
  match r with
  | inr err => _ ← Restore report; throw err
  | inl _ => mret tt
  end.

Definition Flush (ctx : Context) : M St unit :=
  report ← map_err (ErrWrap "build final metrics batch") (prepareFinalReport ctx);
  map_err (ErrWrap "send final metrics batch") (Send ctx report).
(** ** Accounting of polls *)

(** A sender that returns, with or without an error. *)
Definition sender_quiet : Prop := forall ctx l x p x', send ctx l x <> (Panic p, x').
Definition storage_quiet : Prop := forall ctx t p t', agent_Snapshot ctx t <> (Panic p, t').

Lemma Send_run ctx report s :
  sender_quiet -> in_int64 (pollSinceReport s) -> exists s',
  (Send ctx report s = (Ret tt, s') /\ (send ctx (report_Metrics report) (a_sender s)).1 = Ret tt /\
     pollSinceReport s' = pollSinceReport s) \/
  (exists e, Send ctx report s = (Fail e, s') /\
     (send ctx (report_Metrics report) (a_sender s)).1 = Fail e /\
     pollSinceReport s' = wrap64 (pollSinceReport s + report_PollCount report)).
Proof.
  intros Hq Hr. unfold Send, on_sender, attempt, mbind, St_bind, mret, St_ret.
  specialize (Hq ctx (report_Metrics report) (a_sender s)).
  destruct (send ctx (report_Metrics report) (a_sender s)) as [[[]|e|p] x'];
    [|eexists; right; by exists e|by destruct (Hq p x')].
  eexists. left. by split_and!.
Qed.

Lemma prepareReport_run ctx skip s :
  storage_quiet -> in_int64 (pollSinceReport s) ->
  let n := pollSinceReport s in
  exists s',
  (skip = true /\ n = 0 /\ prepareReport ctx skip s = (Ret (MkReport [] 0, false), s') /\
     pollSinceReport s' = n /\ a_sender s' = a_sender s) \/
  (exists e, prepareReport ctx skip s = (Fail e, s') /\ pollSinceReport s' = n /\ a_sender s' = a_sender s) \/
  (exists gauges counters t', agent_Snapshot ctx (a_repo s) = (Ret (gauges, counters), t') /\
     prepareReport ctx skip s = (Ret (MkReport (batch_of gauges n) n, true), s') /\
     pollSinceReport s' = 0 /\ a_sender s' = a_sender s).
Proof.
  intros Hq Hr. cbn zeta. unfold prepareReport.
  erewrite (bind_Ret _ _ s (pollSinceReport s) (set_polls 0 s)) by done.
  destruct (skip && bool_decide (pollSinceReport s = 0)) eqn:Hskip.
  { apply andb_true_iff in Hskip as [-> Hn%bool_decide_eq_true]. eexists. left.
    split_and!; [done|done|done|done|done]. }
  destruct (agent_Snapshot ctx (a_repo s)) as [[[gauges counters]|e|p] t'] eqn:Es;
    [| |by destruct (Hq ctx (a_repo s) p t')].
  - eexists. right; right. exists gauges, counters, t'. split; [done|].
    unfold buildMetricsBatch, mbind, St_bind, attempt, map_err, on_repo, mret, St_ret.
    cbn [a_repo set_polls]. rewrite Es. cbn [fst].
    destruct (batch_of gauges (pollSinceReport s)) as [|m l] eqn:Eb.
    + unfold batch_of in Eb. by destruct (map _ (range_map gauges)).
    + rewrite <-Eb. by split_and!.
  - eexists. right; left. exists (ErrWrap "snapshot metrics" e).
    unfold buildMetricsBatch, mbind, St_bind, attempt, map_err, on_repo, polls_Add, modify, throw.
    cbn [a_repo set_polls]. rewrite Es. cbn. split; [done|]. by rewrite wrap64_id.
Qed.

(** C32: [Flush] never loses a poll: if it reports success, the sender accepted a
    batch with every current gauge and a [PollCount] of all polls since the last
    report, and the count starts again from zero; if it fails (no snapshot, or no
    delivery), the count is exactly what it was. *)
Theorem flush_accounts ctx s :
  storage_quiet -> sender_quiet -> in_int64 (pollSinceReport s) ->
  exists s', (Flush ctx s = (Ret tt, s') /\ pollSinceReport s' = 0 /\
     exists gauges counters t', agent_Snapshot ctx (a_repo s) = (Ret (gauges, counters), t') /\
       (send ctx (batch_of gauges (pollSinceReport s)) (a_sender s)).1 = Ret tt) \/
  (exists e, Flush ctx s = (Fail e, s') /\ pollSinceReport s' = pollSinceReport s).
Proof.
  intros Hst Hse Hr. unfold Flush, prepareFinalReport.
  destruct (prepareReport_run ctx false s Hst Hr)
    as (s1 & [(? & _)|[(e & E & Hp & _)|(gauges & counters & t' & Es & E & Hp & Hx)]]); [done| |].
  - exists s1. right. exists (ErrWrap "build final metrics batch" e). split; [|done].
    unfold mbind, St_bind, map_err. by rewrite E.
  - assert (Hr1 : in_int64 (pollSinceReport s1)) by (rewrite Hp; unfold in_int64, two63; lia).
    destruct (Send_run ctx (MkReport (batch_of gauges (pollSinceReport s)) (pollSinceReport s)) s1 Hse Hr1)
      as (s2 & [(E2 & Hs & Hp2)|(e & E2 & Hs & Hp2)]); exists s2.
    + left. split_and!; [|by rewrite Hp2|].
      * unfold mbind, St_bind, map_err, mret, St_ret. rewrite E. cbn [fst]. by rewrite E2.
      * exists gauges, counters, t'. split; [done|]. rewrite <-Hx. exact Hs.
    + right. exists (ErrWrap "send final metrics batch" e). split.
      * unfold mbind, St_bind, map_err, mret, St_ret. rewrite E. cbn [fst]. by rewrite E2.
      * rewrite Hp2, Hp. cbn [report_PollCount]. by rewrite Z.add_0_l, wrap64_id.
Qed.
End Operations.

(** ** Polling *)

Section Polling.
Context {X Y : Type} `{!Host Y} `{MapRange}.
Abbreviation St := (AgentState MemStorage.t X Y).

(** The in-memory storage of the agent accepts every update. *)
Lemma updateGauge_run ctx n v (s : St) :
  updateGauge ctx n v s
  = (Ret tt, MkAgentState (MemStorage.put_gauge n v (a_repo s)) (a_sender s) (a_host s) (a_log s)
       (pollSinceReport s)).
Proof. done. Qed.

Definition put_gauges (l : list (string * float64)) (t : MemStorage.t) : MemStorage.t :=
  foldl (fun t g => MemStorage.put_gauge g.1 g.2 t) t l.

Lemma updateGauges_run ctx l (s : St) :
  for_range l (fun g => updateGauge ctx g.1 g.2) s
  = (Ret tt, MkAgentState (put_gauges l (a_repo s)) (a_sender s) (a_host s) (a_log s) (pollSinceReport s)).
Proof.
  revert s. induction l as [|[n v] l IH]; intros s; [by destruct s|].
  cbn [for_range]. erewrite bind_Ret by apply updateGauge_run. by rewrite IH.
Qed.

Lemma put_gauges_counters l t : MemStorage.counters (put_gauges l t) = MemStorage.counters t.
Proof. revert t. induction l as [|[n v] l IH]; intros t; [done|]. cbn. exact (IH (MemStorage.put_gauge n v t)). Qed.

Lemma put_gauges_lookup l t n :
  NoDup l.*1 -> MemStorage.gauges (put_gauges l t) !! n
  = match (list_to_map l : gmap string float64) !! n with
    | Some v => Some v
    | None => MemStorage.gauges t !! n
    end.
Proof.
  intros Hnd. unfold put_gauges. rewrite <-(foldl_insert_lookup l (MemStorage.gauges t) n Hnd).
  clear Hnd. revert t. induction l as [|[k v] l IH]; intros t; [done|]. cbn. apply IH.
Qed.

(** One runtime poll stores each of the 28 gauges of that very reading, keeps
    every other metric, and counts one poll; it cannot fail with the in-memory
    storage. *)
Theorem poll_runtime_outcome (s : St) ms y1 rnd y2 :
  ReadMemStats (a_host s) = (Ret ms, y1) -> rand_Float64 y1 = (Ret rnd, y2) ->
  let readings := runtime_gauges ms ++ [("RandomValue", rnd)] in
  exists s', PollRuntime s = (Ret tt, s') /\
    pollSinceReport s' = wrap64 (pollSinceReport s + 1) /\ a_sender s' = a_sender s /\
    length readings = 28%nat /\
    (forall n v, (n, v) ∈ readings -> MemStorage.gauges (a_repo s') !! n = Some v) /\
    (forall n, n ∉ readings.*1 -> MemStorage.gauges (a_repo s') !! n = MemStorage.gauges (a_repo s) !! n) /\
    MemStorage.counters (a_repo s') = MemStorage.counters (a_repo s).
Proof.
  intros E1 E2 readings. assert (Hnd : NoDup readings.*1) by (apply (bool_decide_unpack _); vm_compute; exact I).
  assert (Hput : MemStorage.put_gauge "RandomValue" rnd (put_gauges (runtime_gauges ms) (a_repo s))
    = put_gauges readings (a_repo s)) by (unfold put_gauges, readings; by rewrite foldl_app).
  exists (MkAgentState (put_gauges readings (a_repo s)) (a_sender s) y2
    (a_log s ++ [MkEntry InfoLevel "poll runtime" [FInt "pollSinceReport" (pollSinceReport s)]])
    (wrap64 (pollSinceReport s + 1))).
  split; [|cbn [pollSinceReport a_sender a_repo]; split_and!; [done|done|done| | |]].
  - unfold PollRuntime. erewrite bind_Ret by done. erewrite bind_Ret by done.
    erewrite (bind_Ret (on_host ReadMemStats)); [|unfold on_host; cbn [a_host]; by rewrite E1].
    erewrite bind_Ret by apply updateGauges_run.
    erewrite (bind_Ret (on_host rand_Float64)); [|unfold on_host; cbn [a_host]; by rewrite E2].
    erewrite bind_Ret by apply updateGauge_run. cbn [a_repo a_sender a_host a_log pollSinceReport].
    rewrite Hput. unfold polls_Add, modify, set_polls. cbn [a_repo a_sender a_host a_log pollSinceReport].
    reflexivity.
  - intros n v Hin. rewrite put_gauges_lookup by done.
    by rewrite (elem_of_list_to_map_1 readings n v).
  - intros n Hn. rewrite put_gauges_lookup by done. by rewrite (not_elem_of_list_to_map_1 readings n).
  - apply put_gauges_counters.
Qed.
End Polling.

(** ** Witnesses *)

(** A host whose readings never change. *)
Definition sample_stats : MemStats :=
  MkMemStats 1024 2 3 float_1_5 5 6 7 8 9 10 11 12 13 14 15 16 17 18 19 20 21 22 23 24 25 26 27.

#[local] Instance still_host : Host unit := {|
  ReadMemStats y := (Ret sample_stats, y);
  rand_Float64 y := (Ret float_1_5, y);
  VirtualMemory y := (Ret (1000, 10), y);
  cpu_Percent y := (Ret [float_1_5], y);
|}.

Definition sample_agent : AgentState MemStorage.t (list (list Metrics)) unit :=
  MkAgentState MemStorage.NewMemStorage [] tt [] 3.

Definition recording_sender : MetricsSender (list (list Metrics)) := fun _ l sent => (Ret tt, sent ++ [l]).

Lemma flush_accounts_witness :
  exists s', Flush recording_sender Background sample_agent = (Ret tt, s') /\ pollSinceReport s' = 0.
Proof.
  destruct (flush_accounts recording_sender Background sample_agent) as (s' & [(H1 & H2 & _)|(e & H1 & _)]).
  - intros ctx t p t'. discriminate.
  - intros ctx l x p x'. discriminate.
  - unfold in_int64, two63. cbn. lia.
  - exists s'. split; [exact H1|exact H2].
  - discriminate H1.
Defined.

Lemma poll_runtime_outcome_witness :
  exists s', PollRuntime sample_agent = (Ret tt, s') /\ pollSinceReport s' = 4 /\
    MemStorage.gauges (a_repo s') !! "GCCPUFraction" = Some float_1_5.
Proof.
  destruct (poll_runtime_outcome sample_agent sample_stats tt float_1_5 tt)
    as (s' & H1 & H2 & _ & _ & H3 & _); [reflexivity|reflexivity|].
  exists s'. split; [exact H1|]. split; [exact H2|]. apply H3. cbn [runtime_gauges app].
  do 3 right. left.
Defined.
End ReportingService.
