(* ===== verification/AgentRuntime.v ===== *)
(** * The agent's goroutines: [internal/agent/agent.go], [report.go]

    Three loops (runtime poll, system poll, report), [rateLimit] send workers and
    the goroutine of [Run] itself, interleaved in any order.  A step is one action
    on shared state: the atomic counter [pollSinceReport], the send queue, the
    contexts, the wait groups.  A report is known by its [PollCount], which is all
    the runtime moves around.  [polled] and [acked] are ghosts: the polls made and
    the polls whose report a sender accepted. *)

From S2P Require Import Prelude GoError GoNum GoContext AgentConfig.
Local Open Scope Z_scope.

Module Agent.
Import AgentConfig.

(** ** Construction: [New] *)

Record t : Type := Mk {
  pollIntervalInSec : Z;
  reportIntervalInSec : Z;
  rateLimit : Z;
}.

(** An interface value, as [reflect] sees it: nil, or a value of some kind that may
    itself be nil. *)
Inductive Kind : Type := Chan | Func | Interface | Map | Pointer | Slice | OtherKind.
Definition ReportingService : Type := option (Kind * bool).

Definition isNilReportingService (reportingService : ReportingService) : bool :=
  match reportingService with
  | None => true
  | Some ((Chan | Func | Interface | Map | Pointer | Slice), isNil) => isNil
  | Some (OtherKind, _) => false
  end.

(** The service [cmd/agent] passes: a pointer that is not nil. *)
Definition a_service : ReportingService := Some (Pointer, false).

Definition New (reportingService : ReportingService) (cfg : AgentConfig) : outcome error t :=
  if isNilReportingService reportingService then Fail (ErrNew "reporting service is nil")
  else if decide (PollIntervalInSec cfg <= 0)
  then Fail (ErrNew ("poll interval must be > 0, got " +:+ FormatInt (PollIntervalInSec cfg)))
  else if decide (ReportIntervalInSec cfg <= 0)
  then Fail (ErrNew ("report interval must be > 0, got " +:+ FormatInt (ReportIntervalInSec cfg)))
  else if decide (RateLimit cfg <= 0)
  then Fail (ErrNew ("rate limit must be > 0, got " +:+ FormatInt (RateLimit cfg)))
  else Ret (Mk (PollIntervalInSec cfg) (ReportIntervalInSec cfg) (RateLimit cfg)).

(** [time.NewTicker] panics on a non-positive interval. *)
Definition NewTicker (d : Z) : outcome error Z :=
  if decide (d <= 0) then Panic "non-positive interval for NewTicker" else Ret d.

(** [time.Duration(n) * time.Second]: an [int64] product. *)
Definition seconds (n : Z) : Z := wrap64 (n * Second).

(** The tickers of [runRuntimePollLoop] and [runSystemPollLoop], and of
    [runReportLoop]. *)
Definition poll_ticker (a : t) : outcome error Z := NewTicker (seconds (pollIntervalInSec a)).
Definition report_ticker (a : t) : outcome error Z := NewTicker (seconds (reportIntervalInSec a)).

Definition shutdownTimeout : Z := Second * 30.

(** ** States *)

Inductive loop : Type := Running | Exited.

(** Where the report goroutine is: waiting for its ticker, inside
    [prepareReport] after the swap, with a report to enqueue, or gone. *)
Inductive reporter : Type := RIdle | RSwapped (n : Z) | RPrepared (n : Z) | RExited.

Inductive worker : Type := WIdle | WSending (n : Z) | WExited.

#[global] Instance worker_eq_dec : EqDecision worker.
Proof. solve_decision. Defined.

(** Where [Run] is: waiting for the signal, for the loops, for the workers, in
    [Flush] before and after the swap, returned. *)
Inductive runner : Type :=
| MRunning | MWaitLoops | MWaitWorkers | MFlush | MFlushing (n : Z) | MReturned (err : option error).

Record state : Type := MkState {
  polls : Z;
  queue : list Z;
  closed : bool;
  ctx_done : bool;
  send_cancelled : bool;
  poll_loop : loop;
  system_loop : loop;
  report_loop : reporter;
  workers : list worker;
  main : runner;
  panicked : bool;
  polled : Z;
  acked : Z;
}.

Section Steps.
Variable limit : nat.

Definition init : state :=
  MkState 0 [] false false false Running Running RIdle (replicate limit WIdle) MRunning false 0 0.

(** [pollSinceReport.Add(n)] *)
Definition add_polls (n : Z) (s : state) : state :=
  MkState (wrap64 (polls s + n)) (queue s) (closed s) (ctx_done s) (send_cancelled s) (poll_loop s)
    (system_loop s) (report_loop s) (workers s) (main s) (panicked s) (polled s) (acked s).
(** [pollSinceReport.Swap(0)] *)
Definition swap_polls (s : state) : state :=
  MkState 0 (queue s) (closed s) (ctx_done s) (send_cancelled s) (poll_loop s)
    (system_loop s) (report_loop s) (workers s) (main s) (panicked s) (polled s) (acked s).
Definition set_queue (q : list Z) (s : state) : state :=
  MkState (polls s) q (closed s) (ctx_done s) (send_cancelled s) (poll_loop s)
    (system_loop s) (report_loop s) (workers s) (main s) (panicked s) (polled s) (acked s).
Definition set_report (r : reporter) (s : state) : state :=
  MkState (polls s) (queue s) (closed s) (ctx_done s) (send_cancelled s) (poll_loop s)
    (system_loop s) r (workers s) (main s) (panicked s) (polled s) (acked s).
Definition set_worker (i : nat) (w : worker) (s : state) : state :=
  MkState (polls s) (queue s) (closed s) (ctx_done s) (send_cancelled s) (poll_loop s)
    (system_loop s) (report_loop s) (<[i := w]> (workers s)) (main s) (panicked s) (polled s) (acked s).
Definition set_main (m : runner) (s : state) : state :=
  MkState (polls s) (queue s) (closed s) (ctx_done s) (send_cancelled s) (poll_loop s)
    (system_loop s) (report_loop s) (workers s) m (panicked s) (polled s) (acked s).
Definition set_loops (p sy : loop) (s : state) : state :=
  MkState (polls s) (queue s) (closed s) (ctx_done s) (send_cancelled s) p
    sy (report_loop s) (workers s) (main s) (panicked s) (polled s) (acked s).
Definition cancel (s : state) : state :=
  MkState (polls s) (queue s) (closed s) true (send_cancelled s) (poll_loop s)
    (system_loop s) (report_loop s) (workers s) (main s) (panicked s) (polled s) (acked s).
Definition cancelSend (s : state) : state :=
  MkState (polls s) (queue s) (closed s) (ctx_done s) true (poll_loop s)
    (system_loop s) (report_loop s) (workers s) (main s) (panicked s) (polled s) (acked s).
(** [close(a.sendQueue)]: closing twice panics. *)
Definition close_queue (s : state) : state :=
  MkState (polls s) (queue s) true (ctx_done s) (send_cancelled s) (poll_loop s)
    (system_loop s) (report_loop s) (workers s) (main s) (panicked s || closed s) (polled s) (acked s).
Definition set_panicked (s : state) : state :=
  MkState (polls s) (queue s) (closed s) (ctx_done s) (send_cancelled s) (poll_loop s)
    (system_loop s) (report_loop s) (workers s) (main s) true (polled s) (acked s).
Definition ghost_polled (s : state) : state :=
  MkState (polls s) (queue s) (closed s) (ctx_done s) (send_cancelled s) (poll_loop s)
    (system_loop s) (report_loop s) (workers s) (main s) (panicked s) (polled s + 1) (acked s).
Definition ghost_acked (n : Z) (s : state) : state :=
  MkState (polls s) (queue s) (closed s) (ctx_done s) (send_cancelled s) (poll_loop s)
    (system_loop s) (report_loop s) (workers s) (main s) (panicked s) (polled s) (acked s + n).

(** ** Steps that need no timeout, per goroutine *)

(** The signal that cancels the context. *)
Inductive signal_step : state -> state -> Prop :=
| signal s : signal_step s (cancel s).

(** [runRuntimePollLoop]: [PollRuntime] ends with [Add(1)]. *)
Inductive poll_step : state -> state -> Prop :=
| poll s : poll_loop s = Running -> poll_step s (ghost_polled (add_polls 1 s))
| poll_exit s : poll_loop s = Running -> ctx_done s = true ->
    poll_step s (set_loops Exited (system_loop s) s).

(** [runSystemPollLoop]: its polls touch none of this state. *)
Inductive system_step : state -> state -> Prop :=
| system_exit s : system_loop s = Running -> ctx_done s = true ->
    system_step s (set_loops (poll_loop s) Exited s).

(** [runReportLoop] and [report]; [PreparePeriodicReport] swaps the counter, then builds the batch. *)
Inductive report_step : state -> state -> Prop :=
| report_skip s : report_loop s = RIdle -> polls s = 0 -> report_step s s
| report_swap s : report_loop s = RIdle -> polls s <> 0 ->
    report_step s (set_report (RSwapped (polls s)) (swap_polls s))
| report_failed s n : report_loop s = RSwapped n -> report_step s (set_report RIdle (add_polls n s))
| report_prepared s n : report_loop s = RSwapped n -> report_step s (set_report (RPrepared n) s)
| report_enqueue s n : report_loop s = RPrepared n -> closed s = false ->
    (length (queue s) < limit)%nat -> report_step s (set_report RIdle (set_queue (queue s ++ [n]) s))
| report_full s n : report_loop s = RPrepared n -> closed s = false ->
    (limit <= length (queue s))%nat -> report_step s (set_report RIdle (add_polls n s))
| report_closed s n : report_loop s = RPrepared n -> closed s = true -> report_step s (set_panicked s)
| report_exit s : report_loop s = RIdle -> ctx_done s = true -> report_step s (set_report RExited s).

(** [runSendWorker]; [Send] restores the count when it fails. *)
Inductive worker_step : state -> state -> Prop :=
| worker_receive s i n q : workers s !! i = Some WIdle -> queue s = n :: q ->
    worker_step s (set_worker i (WSending n) (set_queue q s))
| worker_sent s i n : workers s !! i = Some (WSending n) ->
    worker_step s (ghost_acked n (set_worker i WIdle s))
| worker_failed s i n : workers s !! i = Some (WSending n) ->
    worker_step s (add_polls n (set_worker i WIdle s))
| worker_drained s i : workers s !! i = Some WIdle -> closed s = true -> queue s = [] ->
    worker_step s (set_worker i WExited s)
| worker_cancelled s i : workers s !! i = Some WIdle -> send_cancelled s = true ->
    worker_step s (set_worker i WExited s).

(** [Run]: the signal, the two [waitForGroup] that succeed, [Flush]. *)
Inductive run_step : state -> state -> Prop :=
| main_signal s : main s = MRunning -> ctx_done s = true -> run_step s (set_main MWaitLoops s)
| main_loops_done s : main s = MWaitLoops -> poll_loop s = Exited -> system_loop s = Exited ->
    report_loop s = RExited -> run_step s (set_main MWaitWorkers (close_queue s))
| main_workers_done s : main s = MWaitWorkers -> Forall (eq WExited) (workers s) ->
    run_step s (set_main MFlush s)
| flush_swap s : main s = MFlush -> run_step s (set_main (MFlushing (polls s)) (swap_polls s))
| flush_sent s n : main s = MFlushing n ->
    run_step s (ghost_acked n (set_main (MReturned None) (cancelSend s)))
| flush_failed s n err : main s = MFlushing n ->
    run_step s (add_polls n (set_main (MReturned (Some err)) (cancelSend s))).

(** Some goroutine moves. *)
Inductive work (s s' : state) : Prop :=
| by_signal : signal_step s s' -> work s s'
| by_poll : poll_step s s' -> work s s'
| by_system : system_step s s' -> work s s'
| by_report : report_step s s' -> work s s'
| by_worker : worker_step s s' -> work s s'
| by_run : run_step s s' -> work s s'.

(** [shutdownTimeout] expires in a [waitForGroup]: *)
Inductive timeout : state -> state -> Prop :=
| step_loops_timeout s : main s = MWaitLoops -> timeout s (set_main
    (MReturned (Some (ErrWrap "wait poll and report loops" ErrContextDeadlineExceeded))) (cancelSend s))
| step_workers_timeout s : main s = MWaitWorkers -> timeout s (set_main
    (MReturned (Some (ErrWrap "wait send workers" ErrContextDeadlineExceeded))) (cancelSend s)).

Definition step (s s' : state) : Prop := work s s' \/ timeout s s'.

Definition reachable (s : state) : Prop := rtc step init s.

(** ** Where the polls are *)

Definition held_by_reporter (r : reporter) : Z :=
  match r with RSwapped n | RPrepared n => n | _ => 0 end.
Definition held_by_worker (w : worker) : Z := match w with WSending n => n | _ => 0 end.
Definition held_by_main (m : runner) : Z := match m with MFlushing n => n | _ => 0 end.

Definition sum (l : list Z) : Z := foldr Z.add 0 l.
Definition in_flight (ws : list worker) : Z := sum (map held_by_worker ws).

(** Not yet acknowledged: counted, being reported, queued, being sent, being flushed. *)
Definition pending (s : state) : Z :=
  polls s + held_by_reporter (report_loop s) + sum (queue s) + in_flight (workers s) + held_by_main (main s).

Definition nonneg_parts (s : state) : Prop :=
  0 <= polls s /\ 0 <= held_by_reporter (report_loop s) /\ Forall (fun n => 0 <= n) (queue s) /\
  Forall (fun w => 0 <= held_by_worker w) (workers s) /\ 0 <= held_by_main (main s) /\ 0 <= acked s.

Lemma sum_app l1 l2 : sum (l1 ++ l2) = sum l1 + sum l2.
Proof. unfold sum. induction l1 as [|x l1 IH]; cbn [app foldr]; lia. Qed.

Lemma sum_nonneg l : Forall (fun n => 0 <= n) l -> 0 <= sum l.
Proof. unfold sum. induction 1; cbn [foldr]; lia. Qed.

Lemma in_flight_nonneg ws : Forall (fun w => 0 <= held_by_worker w) ws -> 0 <= in_flight ws.
Proof. intros H. by apply sum_nonneg, Forall_map. Qed.

Lemma in_flight_update ws i w w' :
  ws !! i = Some w -> in_flight (<[i := w']> ws) = in_flight ws - held_by_worker w + held_by_worker w'.
Proof.
  unfold in_flight, sum. revert i. induction ws as [|x ws IH]; intros [|i] Hi; cbn in Hi; [done|done| |].
  - injection Hi as ->. cbn. lia.
  - specialize (IH i Hi). cbn in *. unfold insert in *. lia.
Qed.

(** No worker holds more than what is in flight. *)
Lemma in_flight_ge ws i w :
  Forall (fun w => 0 <= held_by_worker w) ws -> ws !! i = Some w -> held_by_worker w <= in_flight ws.
Proof.
  unfold in_flight, sum. intros Hws. revert i. induction Hws as [|x ws Hx Hws IH]; intros [|i] Hi; cbn in Hi; [done|done| |].
  - injection Hi as ->. cbn [map foldr]. pose proof (in_flight_nonneg ws Hws) as H. unfold in_flight, sum in H. lia.
  - specialize (IH i Hi). cbn [map foldr]. lia.
Qed.

(** ** The invariant *)

(** Everything but [Run] itself has stopped, with nothing left to send. *)
Definition drained (s : state) : Prop :=
  closed s = true /\ queue s = [] /\ Forall (eq WExited) (workers s).

(** What each stage of [Run] relies on. *)
Definition phase (s : state) : Prop :=
  match main s with
  | MRunning | MWaitLoops => closed s = false /\ send_cancelled s = false
  | MWaitWorkers => closed s = true /\ send_cancelled s = false
  | MFlush => drained s
  | MFlushing _ | MReturned None => drained s /\ polls s = 0
  | MReturned (Some _) => True
  end.

Record inv (s : state) : Prop := MkInv {
  inv_panicked : panicked s = false;
  inv_queue : (length (queue s) <= limit)%nat;
  inv_workers : length (workers s) = limit;
  inv_phase : phase s;
  inv_closed : closed s = true -> report_loop s = RExited /\ poll_loop s = Exited /\ system_loop s = Exited;
  inv_early : send_cancelled s = false -> Exists (eq WExited) (workers s) -> closed s = true /\ queue s = [];
  inv_accounts : polled s < two63 -> nonneg_parts s /\ pending s + acked s = polled s;
}.

Lemma inv_init : inv init.
Proof.
  split; cbn; try done.
  - lia.
  - apply length_replicate.
  - intros _ H%Exists_exists. destruct H as (w & Hw%elem_of_replicate & <-). by destruct Hw.
  - intros _. split.
    + unfold nonneg_parts. cbn. split_and!; try lia; [constructor|]. by apply Forall_replicate.
    + unfold pending, in_flight. cbn. induction limit; cbn in *; lia.
Qed.

(** A worker that has not exited keeps the exited ones as they were. *)
Lemma exited_before (ws : list worker) i w :
  w <> WExited -> Exists (eq WExited) (<[i := w]> ws) -> Exists (eq WExited) ws.
Proof.
  intros Hw (x & Hx & <-)%Exists_exists. apply Exists_exists. exists WExited. split; [|done].
  apply list_elem_of_lookup_1 in Hx as (j & Hj). apply list_lookup_insert_Some in Hj as [(_ & ? & _)|(_ & Hj)]; [done|].
  by eapply list_elem_of_lookup_2.
Qed.

(** ** The accounting survives each kind of move *)

Definition accounts (s : state) : Prop :=
  polled s < two63 -> nonneg_parts s /\ pending s + acked s = polled s.

(** A worker's share changes by what it takes or gives. *)
Lemma nonneg_update ws i w' :
  0 <= held_by_worker w' -> Forall (fun w => 0 <= held_by_worker w) ws ->
  Forall (fun w => 0 <= held_by_worker w) (<[i := w']> ws).
Proof. intros. by apply Forall_insert. Qed.

Ltac account :=
  intros Hlt; cbn in Hlt;
  match goal with HA : accounts ?s |- _ =>
    let H0 := fresh "H0" in
    destruct (HA ltac:(lia)) as ((? & ? & Hq & Hws & ? & ?) & H0);
    pose proof (sum_nonneg _ Hq); pose proof (in_flight_nonneg _ Hws);
    unfold pending in H0
  end;
  try match goal with Hi : workers ?s !! ?i = Some ?w, Hws : Forall _ (workers ?s) |- _ =>
    pose proof (in_flight_ge _ _ _ Hws Hi); pose proof (Forall_lookup_1 _ _ _ _ Hws Hi) end;
  unfold nonneg_parts, pending; cbn [polls report_loop queue workers main acked polled add_polls swap_polls
    set_queue set_report set_worker set_main set_loops cancel cancelSend close_queue set_panicked
    ghost_polled ghost_acked held_by_reporter held_by_main];
  repeat match goal with
    | E : report_loop _ = _ |- _ => rewrite E in *; clear E
    | E : main _ = _ |- _ => rewrite E in *; clear E
    | E : queue _ = _ |- _ => rewrite E in *; clear E
  end;
  cbn [held_by_reporter held_by_main held_by_worker] in *;
  try (rewrite (in_flight_update _ _ _ _ ltac:(eassumption)); cbn [held_by_worker]);
  rewrite ?wrap64_id by (unfold in_int64; lia).

Lemma accounts_work s s' : accounts s -> work s s' -> accounts s'.
Proof.
  intros HA Hstep. destruct Hstep as [Hs|Hs|Hs|Hs|Hs|Hs]; destruct Hs; account;
    try match goal with H : Forall _ (_ :: _) |- _ => apply Forall_cons_1 in H as [? ?] end;
    rewrite ?sum_app; unfold sum in *; cbn [foldr] in *;
    (split_and!; first [lia|done|apply Forall_app; by auto|apply nonneg_update; [cbn; lia|done]]).
Qed.

Lemma accounts_timeout s s' : accounts s -> timeout s s' -> accounts s'.
Proof. intros HA Hstep. destruct Hstep; account; split_and!; first [lia|done]. Qed.

Ltac fields := cbn [polls report_loop queue workers main acked polled panicked closed send_cancelled poll_loop
    system_loop ctx_done add_polls swap_polls set_queue set_report set_worker set_main set_loops cancel
    cancelSend close_queue set_panicked ghost_polled ghost_acked].

Ltac by_cases :=
  intros;
  repeat match goal with
  | H : _ /\ _ |- _ => destruct H
  | H : ?P -> _, H' : ?P |- _ => specialize (H H')
  | H : Exists (eq WExited) (<[_ := WIdle]> _) |- _ => apply exited_before in H; [|done]
  | H : Exists (eq WExited) (<[_ := WSending _]> _) |- _ => apply exited_before in H; [|done]
  | E : queue _ = _ :: _, H : (length (queue _) <= _)%nat |- _ => rewrite E in H; cbn [length] in H
  | H : Forall (eq WExited) ?ws, H' : ?ws !! _ = Some _ |- _ => pose proof (Forall_lookup_1 _ _ _ _ H H'); clear H'
  end; try congruence; rewrite ?length_app; cbn [length];
  try lia; split_and?; try congruence; auto.

Lemma exited_empty s : inv s -> send_cancelled s = false -> Forall (eq WExited) (workers s) -> queue s = [].
Proof.
  intros Hi Hs Hall. destruct (workers s) as [|w ws] eqn:E.
  - apply nil_length_inv. pose proof (inv_queue s Hi). pose proof (inv_workers s Hi) as Hw.
    rewrite E in Hw. cbn in Hw. lia.
  - apply (inv_early s Hi Hs). rewrite E. apply Forall_cons_1 in Hall as [? _]. by constructor.
Qed.

Lemma inv_work s s' : inv s -> work s s' -> inv s'.
Proof.
  intros Hi Hstep. pose proof (accounts_work s s' (inv_accounts s Hi) Hstep) as HA.
  pose proof (exited_empty s Hi) as Hempty. destruct Hi as [Hp Hql Hw Hph Hc He _].
  destruct Hstep as [Hs|Hs|Hs|Hs|Hs|Hs]; destruct Hs; (split; [..|exact HA]); unfold phase, drained in *; fields; rewrite ?length_insert; try done;
    repeat match goal with E : main _ = _ |- _ => rewrite E in * end;
    try (destruct (main s) as [| | | | |[|]]); by_cases.
  rewrite Hp. cbn. by_cases.
Qed.

Lemma inv_timeout s s' : inv s -> timeout s s' -> inv s'.
Proof.
  intros Hi Hstep. pose proof (accounts_timeout s s' (inv_accounts s Hi) Hstep) as HA.
  destruct Hi as [Hp Hql Hw Hph Hc He _].
  destruct Hstep; (split; [..|exact HA]); unfold phase, drained in *; fields; try done.
Qed.

Lemma inv_reachable s : reachable s -> inv s.
Proof.
  assert (H : forall s1 s2, rtc step s1 s2 -> inv s1 -> inv s2).
  { induction 1 as [|s1 s2 s3 [Hw|Ht] _ IH]; intros Hi; [done|apply IH..];
      [by eapply inv_work|by eapply inv_timeout]. }
  intros Hr. exact (H _ _ Hr inv_init).
Qed.

Definition is_sending (w : worker) : bool := match w with WSending _ => true | _ => false end.

(** C3: nothing is lost or counted twice inside the agent.  In every interleaving,
    each poll is in exactly one place: still counted, held by the report goroutine,
    queued, held by a sender, held by [Flush], or acknowledged; the queue and the
    sends in progress stay within the rate limit, and no goroutine panics (no send
    on the closed queue, no second close). *)
Theorem polls_accounted s :
  reachable s ->
  panicked s = false /\ (length (queue s) <= limit)%nat /\
  (length (filter (fun w => is_sending w = true) (workers s)) <= limit)%nat /\
  (polled s < two63 -> nonneg_parts s /\ pending s + acked s = polled s).
Proof.
  intros Hi%inv_reachable. split_and!; [apply (inv_panicked s Hi)|apply (inv_queue s Hi)| |apply (inv_accounts s Hi)].
  rewrite <-(inv_workers s Hi). apply length_filter.
Qed.

Lemma all_exited_in_flight ws : Forall (eq WExited) ws -> in_flight ws = 0.
Proof. unfold in_flight, sum. induction 1 as [|w ws <- _ IH]; cbn in *; lia. Qed.

Lemma returned_clean s :
  inv s -> main s = MReturned None -> polled s < two63 ->
  acked s = polled s /\ queue s = [] /\ Forall (eq WExited) (workers s) /\
  report_loop s = RExited /\ poll_loop s = Exited /\ system_loop s = Exited.
Proof.
  intros Hi Hm Hlt. pose proof (inv_phase s Hi) as Hph. unfold phase in Hph. rewrite Hm in Hph.
  destruct Hph as [(Hc & Hq & Hws) Hp]. destruct (inv_closed s Hi Hc) as (Hr & Hpl & Hsy).
  destruct (inv_accounts s Hi Hlt) as [_ Hsum]. unfold pending in Hsum.
  rewrite Hp, Hr, Hq, Hm, all_exited_in_flight in Hsum by done. cbn in Hsum. by split_and!; [lia|..].
Qed.
(** C9: when [Run] returns without an error, every goroutine has exited, the queue
    is empty, and every poll ever made has been acknowledged by the server. *)
Theorem clean_shutdown s :
  reachable s -> main s = MReturned None -> polled s < two63 ->
  acked s = polled s /\ queue s = [] /\ Forall (eq WExited) (workers s) /\
  report_loop s = RExited /\ poll_loop s = Exited /\ system_loop s = Exited.
Proof. intros Hi%inv_reachable. by apply returned_clean. Qed.

(** ** Shutdown can always finish *)

(** Some run of the goroutines, without a further poll, leads from [s] to [P]. *)
Definition leads (s : state) (P : state -> Prop) : Prop :=
  exists s', rtc work s s' /\ polled s' = polled s /\ P s'.

Lemma leads_here s (P : state -> Prop) : P s -> leads s P.
Proof. intros H. by exists s. Qed.

Lemma leads_step s s1 P : work s s1 -> polled s1 = polled s -> leads s1 P -> leads s P.
Proof. intros Hw Hp (s' & Hr & Hp' & HP). exists s'. split_and!; [by eapply rtc_l|congruence|done]. Qed.

Lemma leads_then s (P Q : state -> Prop) :
  inv s -> leads s P -> (forall s', inv s' -> P s' -> leads s' Q) -> leads s Q.
Proof.
  intros Hi (s' & Hr & Hp & HP) Hnext. assert (Hi' : inv s').
  { clear -Hi Hr. induction Hr; [done|]. eauto using inv_work. }
  destruct (Hnext s' Hi' HP) as (s2 & Hr2 & Hp2 & HQ).
  exists s2. split_and!; [by etrans|congruence|done].
Qed.

(** The loops stop once the context is cancelled. *)
Definition stopping (s : state) : Prop := main s = MWaitLoops /\ ctx_done s = true.

Lemma loops_exit s : inv s -> stopping s ->
  leads s (fun s' => stopping s' /\ poll_loop s' = Exited /\ system_loop s' = Exited).
Proof.
  intros _ [Hm Hd].
  destruct (poll_loop s) eqn:Ep; destruct (system_loop s) eqn:Es.
  - eapply leads_step; [by apply by_poll, poll_exit|done|].
    eapply leads_step; [by apply by_system, system_exit|done|]. by apply leads_here.
  - eapply leads_step; [by apply by_poll, poll_exit|done|]. by apply leads_here.
  - eapply leads_step; [by apply by_system, system_exit|done|]. by apply leads_here.
  - by apply leads_here.
Qed.

Lemma reporter_exits s : inv s -> stopping s /\ poll_loop s = Exited /\ system_loop s = Exited ->
  leads s (fun s' => main s' = MWaitLoops /\ poll_loop s' = Exited /\ system_loop s' = Exited /\
    report_loop s' = RExited).
Proof.
  intros Hi ([Hm Hd] & Hp & Hs). pose proof (inv_phase s Hi) as Hph. unfold phase in Hph.
  rewrite Hm in Hph. destruct Hph as [Hc _].
  assert (Hidle : forall s1, ctx_done s1 = true -> main s1 = MWaitLoops -> poll_loop s1 = Exited ->
    system_loop s1 = Exited -> report_loop s1 = RIdle -> leads s1 (fun s' => main s' = MWaitLoops /\
      poll_loop s' = Exited /\ system_loop s' = Exited /\ report_loop s' = RExited)).
  { intros s1 ? ? ? ? ?. eapply leads_step; [by apply by_report, report_exit|done|]. by apply leads_here. }
  destruct (report_loop s) as [|n|n|] eqn:Er.
  - by apply Hidle.
  - eapply leads_step; [by apply by_report, report_failed|done|]. by apply Hidle.
  - destruct (decide (length (queue s) < limit)%nat).
    + eapply leads_step; [by apply by_report, report_enqueue|done|]. by apply Hidle.
    + eapply leads_step; [apply by_report, report_full; [done|done|lia]|done|]. by apply Hidle.
  - by apply leads_here.
Qed.

(** Every send that ends brings the workers closer to their exit. *)
Definition weight (w : worker) : nat := match w with WIdle => 1 | WSending _ => 2 | WExited => 0 end.
Definition effort (s : state) : nat := 3 * length (queue s) + sum_list (map weight (workers s)).

Lemma weight_update ws i w w' : ws !! i = Some w ->
  (sum_list (map weight (<[i := w']> ws)) + weight w = sum_list (map weight ws) + weight w')%nat.
Proof.
  revert i. induction ws as [|x ws IH]; intros [|i] Hi; cbn in Hi; [done|done| |].
  - injection Hi as ->. cbn. lia.
  - specialize (IH i Hi). cbn in *. unfold insert in *. lia.
Qed.

Lemma workers_exit s : inv s -> main s = MWaitWorkers ->
  leads s (fun s' => main s' = MWaitWorkers /\ Forall (eq WExited) (workers s')).
Proof.
  induction s as [s IH] using (well_founded_induction (well_founded_ltof _ effort)). intros Hi Hm.
  assert (Hnext : forall s1, work s s1 -> polled s1 = polled s -> main s1 = MWaitWorkers ->
    (effort s1 < effort s)%nat ->
    leads s (fun s' => main s' = MWaitWorkers /\ Forall (eq WExited) (workers s'))).
  { intros s1 Hw Hp Hm1 Hlt. eapply leads_step; [done..|]. apply IH; [done|by eapply inv_work|done]. }
  destruct (decide (Forall (eq WExited) (workers s))) as [Hall|Hnot]; [by apply leads_here|].
  apply not_Forall_Exists in Hnot; [|intros x; apply _].
  apply Exists_exists in Hnot as (w & (i & Hw)%list_elem_of_lookup_1 & Hne). cbn in Hne.
  pose proof (inv_phase s Hi) as Hph. unfold phase in Hph. rewrite Hm in Hph. destruct Hph as [Hc _].
  unfold effort in Hnext. destruct w as [|n|]; [|  |by destruct Hne].
  - destruct (queue s) as [|n q] eqn:Eq.
    + eapply Hnext; [by eapply by_worker, worker_drained|done|done|].
      fields. pose proof (weight_update _ _ _ WExited Hw) as Hu. rewrite Eq. cbn in *. lia.
    + eapply Hnext; [by eapply by_worker, worker_receive|done|done|].
      fields. pose proof (weight_update _ _ _ (WSending n) Hw) as Hu. cbn in *. lia.
  - eapply Hnext; [by eapply by_worker, worker_sent|done|done|].
    fields. pose proof (weight_update _ _ _ WIdle Hw) as Hu. cbn in *. lia.
Qed.

(** [Flush], the last thing [Run] does. *)
Lemma flush_returns s : inv s -> main s = MFlush -> leads s (fun s' => inv s' /\ main s' = MReturned None).
Proof.
  intros Hi Hm. assert (Hi1 := inv_work _ _ Hi (by_run _ _ (flush_swap s Hm))).
  eapply leads_step; [by apply by_run, flush_swap|done|].
  assert (Hw := by_run _ _ (flush_sent (set_main (MFlushing (polls s)) (swap_polls s)) (polls s) eq_refl)).
  eapply leads_step; [exact Hw|done|]. apply leads_here. split; [|done]. by eapply inv_work.
Qed.

Lemma wait_workers_returns s :
  inv s -> main s = MWaitWorkers -> leads s (fun s' => inv s' /\ main s' = MReturned None).
Proof.
  intros Hi Hm. eapply leads_then; [done|by apply workers_exit|]. cbn. intros s1 Hi1 [Hm1 Hall].
  assert (Hw := by_run _ _ (main_workers_done s1 Hm1 Hall)). eapply leads_step; [exact Hw|done|].
  apply flush_returns; [by eapply inv_work|done].
Qed.

Lemma wait_loops_returns s :
  inv s -> main s = MWaitLoops -> leads s (fun s' => inv s' /\ main s' = MReturned None).
Proof.
  intros Hi Hm. eapply leads_step; [apply by_signal, signal|done|].
  assert (Hi0 := inv_work _ _ Hi (by_signal _ _ (signal s))).
  eapply leads_then; [done|by apply loops_exit|]. cbn. intros s1 Hi1 H1.
  eapply leads_then; [done|by apply reporter_exits|]. cbn. intros s2 Hi2 (Hm2 & Hp2 & Hs2 & Hr2).
  assert (Hw := by_run _ _ (main_loops_done s2 Hm2 Hp2 Hs2 Hr2)). eapply leads_step; [exact Hw|done|].
  apply wait_workers_returns; [by eapply inv_work|done].
Qed.

Lemma run_returns s : inv s -> (forall err, main s <> MReturned err) ->
  leads s (fun s' => inv s' /\ main s' = MReturned None).
Proof.
  intros Hi Hm. destruct (main s) as [| | | |n|err] eqn:Em.
  - assert (Hi1 := inv_work _ _ Hi (by_signal _ _ (signal s))). eapply leads_step; [apply by_signal, signal|done|].
    assert (Hw := by_run _ _ (main_signal (cancel s) Em eq_refl)). eapply leads_step; [exact Hw|done|].
    apply wait_loops_returns; [by eapply inv_work|done].
  - by apply wait_loops_returns.
  - by apply wait_workers_returns.
  - by apply flush_returns.
  - assert (Hw := by_run _ _ (flush_sent s n Em)). eapply leads_step; [exact Hw|done|].
    apply leads_here. split; [by eapply inv_work|done].
  - by destruct (Hm err).
Qed.

(** C4: shutdown never deadlocks.  From every reachable state in which [Run] has not
    returned, whatever is queued or being sent, the goroutines can finish by
    themselves, without a timeout and without a further poll: [Run] returns no error
    and the server has acknowledged every poll. *)
Theorem shutdown_possible s :
  reachable s -> (forall err, main s <> MReturned err) -> polled s < two63 ->
  exists s', rtc work s s' /\ main s' = MReturned None /\ acked s' = polled s.
Proof.
  intros Hi%inv_reachable Hm Hlt.
  enough (leads s (fun s' => inv s' /\ main s' = MReturned None)) as (s' & Hr & Hp & Hi' & Hm').
  { exists s'. split_and!; [done|done|]. rewrite <-Hp. apply returned_clean; [done|done|by rewrite Hp]. }
  by apply run_returns.
Qed.
End Steps.

(** ** The tickers *)

(** The longest interval, in seconds, that a [time.Duration] holds. *)
Definition max_seconds : Z := 9223372036.

Lemma ticker_exact n : 0 < n <= max_seconds -> NewTicker (seconds n) = Ret (n * Second).
Proof.
  unfold max_seconds. intros Hn. unfold seconds. rewrite wrap64_id by (unfold in_int64, two63, Second; lia).
  unfold NewTicker. rewrite decide_False; [done|unfold Second; lia].
Qed.

Lemma ticker_overflow n : max_seconds < n <= 2 * max_seconds ->
  NewTicker (seconds n) = Panic "non-positive interval for NewTicker".
Proof.
  unfold max_seconds. intros Hn. unfold seconds, wrap64, NewTicker, two63, two64, Second in *.
  rewrite decide_True; [done|].
  rewrite <-(Z_mod_plus_full _ (-1) _), Z.mod_small; lia.
Qed.

Lemma New_positive h cfg a : New h cfg = Ret a ->
  isNilReportingService h = false /\ 0 < pollIntervalInSec a /\ 0 < reportIntervalInSec a /\ 0 < rateLimit a /\
  a = Mk (PollIntervalInSec cfg) (ReportIntervalInSec cfg) (RateLimit cfg).
Proof. unfold New. destruct (isNilReportingService h); [done|]. repeat case_decide; intros [= <-]; cbn. split_and!; lia || done. Qed.

(** C36: a configuration [New] accepts starts its tickers with exactly the configured
    intervals as long as they fit a [time.Duration]; the next intervals, which every
    check lets through, overflow and make [time.NewTicker] panic in the loop's
    goroutine, which stops the agent. *)
Theorem tickers_outcome h cfg a :
  New h cfg = Ret a ->
  (PollIntervalInSec cfg <= max_seconds -> poll_ticker a = Ret (PollIntervalInSec cfg * Second)) /\
  (ReportIntervalInSec cfg <= max_seconds -> report_ticker a = Ret (ReportIntervalInSec cfg * Second)) /\
  (max_seconds < PollIntervalInSec cfg <= 2 * max_seconds ->
     poll_ticker a = Panic "non-positive interval for NewTicker") /\
  (max_seconds < ReportIntervalInSec cfg <= 2 * max_seconds ->
     report_ticker a = Panic "non-positive interval for NewTicker").
Proof.
  intros (_ & Hp & Hr & _ & ->)%New_positive. cbn in *. unfold poll_ticker, report_ticker. cbn.
  split_and!; intros; (apply ticker_exact || apply ticker_overflow); lia.
Qed.

(** ** Witnesses *)

(** Two polls; a report of them is with the only sender, and a third poll waits. *)
Definition sending_two : state :=
  MkState 1 [] false false false Running Running RIdle [WSending 2] MRunning false 3 0.

Lemma sending_two_reachable : reachable 1 sending_two.
Proof.
  unfold reachable, init. cbn [replicate].
  eapply rtc_l; [left; by apply by_poll, poll|]. eapply rtc_l; [left; by apply by_poll, poll|].
  eapply rtc_l; [left; by apply by_report, report_swap|]. eapply rtc_l; [left; by apply by_report, report_prepared|].
  eapply rtc_l; [left; apply by_report, report_enqueue; [done|done|cbn; lia]|].
  eapply rtc_l; [left; by eapply by_worker, (worker_receive _ 0%nat)|].
  eapply rtc_l; [left; by apply by_poll, poll|]. apply rtc_refl.
Defined.

Lemma polls_accounted_witness : pending sending_two + acked sending_two = 3.
Proof.
  destruct (polls_accounted 1 sending_two sending_two_reachable) as (_ & _ & _ & H).
  apply H. vm_compute. reflexivity.
Defined.

(** The only worker exits, the reporter and the polls too, and one poll is flushed. *)
Lemma clean_shutdown_witness : exists s, main s = MReturned None /\ acked s = polled s /\ polled s = 1.
Proof.
  assert (Hr : reachable 1 (MkState 0 [] true true true Exited Exited RExited [WExited]
    (MReturned None) false 1 1)).
  { unfold reachable, init. cbn [replicate].
    eapply rtc_l; [left; by apply by_poll, poll|]. eapply rtc_l; [left; apply by_signal, signal|].
    eapply rtc_l; [left; by apply by_run, main_signal|]. eapply rtc_l; [left; by apply by_poll, poll_exit|].
    eapply rtc_l; [left; by apply by_system, system_exit|]. eapply rtc_l; [left; by apply by_report, report_exit|].
    eapply rtc_l; [left; by apply by_run, main_loops_done|].
    eapply rtc_l; [left; by apply by_worker, (worker_drained _ 0%nat)|].
    eapply rtc_l; [left; by apply by_run, main_workers_done; [|constructor; [done|constructor]]|].
    eapply rtc_l; [left; by apply by_run, flush_swap|].
    eapply rtc_l; [left; by apply by_run, flush_sent|]. apply rtc_refl. }
  eexists. split; [|split; [apply (clean_shutdown 1 _ Hr)|]]; reflexivity.
Defined.

Lemma shutdown_possible_witness : exists s', rtc (work 1) sending_two s' /\ acked s' = 3.
Proof.
  destruct (shutdown_possible 1 sending_two sending_two_reachable) as (s' & H & _ & Ha).
  - intros err. discriminate.
  - vm_compute. reflexivity.
  - exists s'. split; [exact H|exact Ha].
Defined.

(** A poll interval of about 292 years passes every check and panics. *)
Lemma tickers_outcome_witness :
  exists cfg a, New a_service cfg = Ret a /\
    poll_ticker a = Panic "non-positive interval for NewTicker" /\ report_ticker a = Ret (10 * Second).
Proof.
  exists (MkAgentConfig "localhost:8080" "http" 9223372037 10 1 "" "" "").
  exists (Mk 9223372037 10 1). split; [reflexivity|].
  destruct (tickers_outcome a_service (MkAgentConfig "localhost:8080" "http" 9223372037 10 1 "" "" "")
    (Mk 9223372037 10 1)) as (_ & H2 & H3 & _); [reflexivity|].
  split; [apply H3|apply H2]; unfold max_seconds; cbn; lia.
Defined.
End Agent.
