(* ===== verification/PostgresStorage.v ===== *)
(** * The PostgreSQL storage: [internal/repository/postgresstorage.go]

    The statements of the source are [stmt], their meaning on the table of
    [migrations/] is [sql_exec].  The server behind [*sql.DB] is an interface:
    what it has committed, what an open transaction holds, and what a call may do
    to them when it fails, which includes "the statement took effect and the
    reply was lost". *)

From S2P Require Import Prelude GoError GoNum GoString GoContext GoMap Model Instances Storage MemStorage Retry.
Local Open Scope Z_scope.

(** ** The table [metrics] *)

(** The columns [total] and [value]; the key is [(id, type)]. *)
Record row : Type := MkRow {
  row_total : option Z;
  row_value : option float64;
}.

Abbreviation table := (gmap (string * string) row).

Inductive stmt : Type :=
| UpsertGauge (id : string) (value : float64)
| UpsertCounter (id : string) (delta : Z)
| SelectValue (id : string)
| SelectTotal (id : string).

(** [metrics.total + EXCLUDED.total] is a [BIGINT]: NULL if either is, an error
    out of range. *)
Definition bigint_add (x : option Z) (y : Z) : option (option Z) :=
  match x with
  | None => Some None
  | Some x => if decide (in_int64 (x + y)) then Some (Some (x + y)) else None
  end.

(** The rows a statement returns (with the selected column) and the table it
    leaves; [None] is an SQL error.  [UpsertCounter] has the [RETURNING] of
    [UpdateCounter]; [UpdateMetrics] ignores it. *)
Definition sql_exec (q : stmt) (t : table) : option (list row * table) :=
  match q with
  | UpsertGauge id v =>
      match t !! (id, "gauge") with
      | Some r => Some ([], <[(id, "gauge") := MkRow (row_total r) (Some v)]> t)
      | None => Some ([], <[(id, "gauge") := MkRow None (Some v)]> t)
      end
  | UpsertCounter id d =>
      match t !! (id, "counter") with
      | Some r =>
          match bigint_add (row_total r) d with
          | Some x => Some ([MkRow x None], <[(id, "counter") := MkRow x (row_value r)]> t)
          | None => None
          end
      | None => Some ([MkRow (Some d) None], <[(id, "counter") := MkRow (Some d) None]> t)
      end
  | SelectValue id =>
      match t !! (id, "gauge") with
      | Some r => Some ([MkRow None (row_value r)], t)
      | None => Some ([], t)
      end
  | SelectTotal id =>
      match t !! (id, "counter") with
      | Some r => Some ([MkRow (row_total r) None], t)
      | None => Some ([], t)
      end
  end.

(** ** [database/sql] and the server behind it *)

(** How reading the rows of a query stops early: [Scan] fails on a row, or [Next] gives
    up and [rows.Err()] says why. *)
Inductive rows_error : Type := ScanFails (e : error) | IterFails (e : error).

(** The state [D] is the connection pool and the server, beside the clock. *)
Class SqlDB (D : Type) := {
  ExecContext : Context -> stmt -> M (D * Z) unit;
  QueryRowContext : Context -> stmt -> M (D * Z) (list row);
  (** [SELECT id, type, total, value FROM metrics]: the rows [Next] and [Scan] yield, in
      any order, and what stopped them *)
  QueryAll : Context -> M (D * Z) (list ((string * string) * row) * option rows_error);
  BeginTx : Context -> M (D * Z) unit;
  TxExecContext : Context -> stmt -> M (D * Z) unit;
  Commit : M (D * Z) unit;
  Rollback : M (D * Z) unit;
}.

Class SqlDBLaws (D : Type) `{!SqlDB D} := {
  committed : D -> table;
  open_tx : D -> option table;
  (** No reply is lost: a failed call had no effect. *)
  steady : D -> Prop;
  ExecContext_law ctx q s r s' : ExecContext ctx q s = (r, s') ->
    match r with
    | Ret _ => exists rows, sql_exec q (committed s.1) = Some (rows, committed s'.1)
    | Fail _ => committed s'.1 = committed s.1 \/
        exists rows, sql_exec q (committed s.1) = Some (rows, committed s'.1)
    | Panic _ => False
    end /\ (steady s.1 -> steady s'.1 /\ forall e, r = Fail e -> committed s'.1 = committed s.1);
  QueryRowContext_law ctx q s r s' : QueryRowContext ctx q s = (r, s') ->
    match r with
    | Ret rows => sql_exec q (committed s.1) = Some (rows, committed s'.1)
    | Fail e => Is e ErrNoRows = false /\ Is e ErrMetricNotFound = false /\ (committed s'.1 = committed s.1 \/
        exists rows, sql_exec q (committed s.1) = Some (rows, committed s'.1))
    | Panic _ => False
    end /\ (steady s.1 -> steady s'.1 /\ forall e, r = Fail e -> committed s'.1 = committed s.1);
  QueryAll_law ctx s r s' : QueryAll ctx s = (r, s') ->
    committed s'.1 = committed s.1 /\ (steady s.1 -> steady s'.1) /\
    match r with
    | Ret (rows, None) => rows ≡ₚ map_to_list (committed s.1)
    | Panic _ => False
    | _ => True
    end;
  BeginTx_law ctx s r s' : BeginTx ctx s = (r, s') ->
    committed s'.1 = committed s.1 /\ (steady s.1 -> steady s'.1) /\
    match r with Ret _ => open_tx s'.1 = Some (committed s.1) | Fail _ => True | Panic _ => False end;
  TxExecContext_law ctx q t s r s' : open_tx s.1 = Some t -> TxExecContext ctx q s = (r, s') ->
    committed s'.1 = committed s.1 /\ (steady s.1 -> steady s'.1) /\
    match r with
    | Ret _ => exists rows t', sql_exec q t = Some (rows, t') /\ open_tx s'.1 = Some t'
    | Fail _ => True
    | Panic _ => False
    end;
  Commit_law t s r s' : open_tx s.1 = Some t -> Commit s = (r, s') ->
    match r with
    | Ret _ => committed s'.1 = t
    | Fail _ => committed s'.1 = committed s.1 \/ committed s'.1 = t
    | Panic _ => False
    end /\ (steady s.1 -> steady s'.1 /\ forall e, r = Fail e -> committed s'.1 = committed s.1);
  (** An error of [Rollback] ([sql.ErrTxDone] after a commit) changes nothing. *)
  Rollback_law s r s' : Rollback s = (r, s') ->
    committed s'.1 = committed s.1 /\ (steady s.1 -> steady s'.1) /\ forall p, r <> Panic p;
}.

(** ** The storage *)

Module PostgresStorage.

(** [pgerrcode.IsConnectionException]: which SQLSTATEs are connection exceptions. *)
Class PgErrCode := IsConnectionException : string -> bool.

Definition isRetriablePGError `{PgErrCode} (err : error) : bool :=
  match As sel_pg err with
  | Some code => IsConnectionException code
  | None => false
  end.

(** [row.Scan(&total)], [row.Scan(&value)] *)
Definition Scan {A} (column : row -> option A) (rows : list row) : outcome error A :=
  match rows with
  | [] => Fail ErrNoRows
  | r :: _ =>
      match column r with
      | Some x => Ret x
      | None => Fail (ErrNew "sql: Scan error: converting NULL is unsupported")
      end
  end.

(** [defer func() { _ = cleanup() }()] *)
Definition with_defer {S A} (cleanup : M S unit) (body : M S A) : M S A := fun s =>
  let '(r, s1) := body s in
  match cleanup s1 with
  | (Panic p, s2) => (Panic p, s2)
  | (_, s2) => (r, s2)
  end.

Section Operations.
Context {D : Type} `{!SqlDB D} `{Codes : PgErrCode} `{SelectOrder}.
Abbreviation t := (D * Z)%type.

(** [ctx.Err()] at the head of the retry loop *)
Definition check_ctx (ctx : Context) : M t unit := fun s =>
  match ctx_Err ctx s.2 with
  | Some err => (Fail err, s)
  | None => (Ret tt, s)
  end.

Definition retryDBOperation {A} (ctx : Context) (op : M t A) : M t A :=
  retry (check_ctx ctx) isRetriablePGError (wait_clock ctx) retryDelays op.

Definition UpdateGauge (ctx : Context) (metricName : string) (value : float64) : M t unit :=
  retryDBOperation ctx (map_err (ErrWrap "exec upsert gauge query")
    (ExecContext ctx (UpsertGauge metricName value))).

Definition UpdateCounter (ctx : Context) (metricName : string) (delta : Z) : M t Z :=
  retryDBOperation ctx (map_err (ErrWrap "upsert counter query")
    (rows ← QueryRowContext ctx (UpsertCounter metricName delta);
     lift_outcome (Scan row_total rows))).

(** One statement of the batch. *)
Definition update_in_tx (ctx : Context) (metric : Metrics) : M t unit :=
  if decide (MType metric = Gauge) then
    match Value metric with
    | Some v => map_err (ErrWrap ("update gauge " +:+ Quote (ID metric)))
        (TxExecContext ctx (UpsertGauge (ID metric) v))
    | None => panic "nil pointer dereference"
    end
  else if decide (MType metric = Counter) then
    match Delta metric with
    | Some d => map_err (ErrWrap ("update counter " +:+ Quote (ID metric)))
        (TxExecContext ctx (UpsertCounter (ID metric) d))
    | None => panic "nil pointer dereference"
    end
  else mret tt.

(** One attempt of [UpdateMetrics]. *)
Definition update_tx (ctx : Context) (metrics : list Metrics) : M t unit :=
  _ ← map_err (ErrWrap "begin tx") (BeginTx ctx);
  with_defer Rollback
    (_ ← for_range metrics (update_in_tx ctx);
     map_err (ErrWrap "commit tx") Commit).

Definition UpdateMetrics (ctx : Context) (metrics : list Metrics) : M t unit :=
  retryDBOperation ctx (update_tx ctx metrics).

(** [if errors.Is(err, sql.ErrNoRows) { return ErrMetricNotFound }] *)
Definition not_found_or (wrap : error -> error) (err : error) : error :=
  if Is err ErrNoRows then ErrMetricNotFound else wrap err.

Definition GetGauge (ctx : Context) (metricName : string) : M t float64 :=
  retryDBOperation ctx (map_err (not_found_or (ErrWrap "query gauge"))
    (rows ← QueryRowContext ctx (SelectValue metricName); lift_outcome (Scan row_value rows))).

Definition GetCounter (ctx : Context) (metricName : string) : M t Z :=
  retryDBOperation ctx (map_err (not_found_or (ErrWrap "query counter"))
    (rows ← QueryRowContext ctx (SelectTotal metricName); lift_outcome (Scan row_total rows))).

(** One row of the snapshot. *)
Definition scan_row (local : gmap string float64 * gmap string Z) (r : (string * string) * row) :
    gmap string float64 * gmap string Z :=
  let '((id, mType), columns) := r in
  if decide (mType = "gauge") then
    match row_value columns with Some v => (<[id := v]> local.1, local.2) | None => local end
  else if decide (mType = "counter") then
    match row_total columns with Some n => (local.1, <[id := n]> local.2) | None => local end
  else local.

Definition Snapshot (ctx : Context) : M t (gmap string float64 * gmap string Z) :=
  retryDBOperation ctx
    (rows ← map_err (ErrWrap "query snapshot") (QueryAll ctx);
     match rows.2 with
     | Some (ScanFails err) => throw (ErrWrap "scan snapshot row" err)
     | Some (IterFails err) => throw (ErrWrap "iterate snapshot rows" err)
     | None => mret (foldl scan_row (∅, ∅) rows.1)
     end).

#[global] Instance postgres_storage : MetricsStorage t := {|
  Storage.UpdateGauge := UpdateGauge;
  Storage.UpdateCounter := UpdateCounter;
  Storage.UpdateMetrics := UpdateMetrics;
  Storage.GetGauge := GetGauge;
  Storage.GetCounter := GetCounter;
  Storage.Snapshot := Snapshot;
|}.
End Operations.

(** ** The abstract view of a table *)

Definition by_id (t : table) : gmap string (gmap string row) :=
  map_curry (M1 := gmap string) (M2 := gmap string) t.

Definition view (t : table) : View :=
  MkView (omap (fun m => m !! "gauge" ≫= row_value) (by_id t)) (omap (fun m => m !! "counter" ≫= row_total) (by_id t)).

(** What the program and the primary key keep true of the table. *)
Definition well_formed (t : table) : Prop :=
  forall id r, (t !! (id, "gauge") = Some r -> is_Some (row_value r)) /\
    (t !! (id, "counter") = Some r -> exists n, row_total r = Some n /\ in_int64 n).

Lemma lookup_by_id {A : Type} (t : table) (id c : string) (f : row -> option A) :
  by_id t !! id ≫= (fun m => m !! c ≫= f) = t !! (id, c) ≫= f.
Proof.
  pose proof (lookup_map_curry (M1 := gmap string) (M2 := gmap string) t id c) as H.
  rewrite <-H. unfold by_id. by destruct (map_curry t !! id).
Qed.

Lemma view_gauge t id : view_gauges (view t) !! id = t !! (id, "gauge") ≫= row_value.
Proof. cbn. by rewrite lookup_omap, lookup_by_id. Qed.
Lemma view_counter t id : view_counters (view t) !! id = t !! (id, "counter") ≫= row_total.
Proof. cbn. by rewrite lookup_omap, lookup_by_id. Qed.

Lemma View_eq w1 w2 :
  (forall id, view_gauges w1 !! id = view_gauges w2 !! id) ->
  (forall id, view_counters w1 !! id = view_counters w2 !! id) -> w1 = w2.
Proof. destruct w1, w2. cbn. intros H1 H2. f_equal; by apply map_eq. Qed.

(** Writing one key. *)
Lemma rows_put_gauge t id old v :
  view (<[(id, "gauge") := MkRow old (Some v)]> t) = set_gauge id v (view t).
Proof.
  apply View_eq; intros id'; rewrite ?view_gauge, ?view_counter; unfold set_gauge; cbn [view_gauges view_counters].
  - rewrite !lookup_insert. repeat case_decide; simplify_eq; try done. by rewrite view_gauge.
  - rewrite lookup_insert_ne by done. by rewrite view_counter.
Qed.

Lemma view_put_counter t id old n :
  view (<[(id, "counter") := MkRow (Some n) old]> t)
  = MkView (view_gauges (view t)) (<[id := n]> (view_counters (view t))).
Proof.
  apply View_eq; intros id'; rewrite ?view_gauge, ?view_counter; cbn [view_gauges view_counters].
  - rewrite lookup_insert_ne by done. by rewrite view_gauge.
  - rewrite !lookup_insert. repeat case_decide; simplify_eq; try done. by rewrite view_counter.
Qed.

Lemma well_formed_put_gauge t id old v :
  well_formed t -> well_formed (<[(id, "gauge") := MkRow old (Some v)]> t).
Proof.
  intros Hwf id' r. split; rewrite lookup_insert; case_decide; simplify_eq; try apply Hwf.
  - intros [= <-]. by eexists.
Qed.

Lemma well_formed_put_counter t id old n :
  in_int64 n -> well_formed t -> well_formed (<[(id, "counter") := MkRow (Some n) old]> t).
Proof.
  intros Hn Hwf id' r. split; rewrite lookup_insert; case_decide; simplify_eq; try apply Hwf.
  - intros [= <-]. by eexists.
Qed.

(** *** The statements on the view *)

Lemma upsert_gauge_view t id v rows t' :
  well_formed t -> sql_exec (UpsertGauge id v) t = Some (rows, t') ->
  view t' = set_gauge id v (view t) /\ well_formed t'.
Proof.
  intros Hwf. cbn. destruct (t !! (id, "gauge")); intros [= <- <-];
    split; by (apply rows_put_gauge || apply well_formed_put_gauge).
Qed.

Lemma upsert_counter_view t id d rows t' :
  in_int64 d -> well_formed t -> sql_exec (UpsertCounter id d) t = Some (rows, t') ->
  view t' = add_counter id d (view t) /\ well_formed t' /\
  exists n old, rows = [MkRow (Some n) old] /\ view_counters (view t') !! id = Some n.
Proof.
  intros Hd Hwf. unfold sql_exec. destruct (t !! (id, "counter")) as [r|] eqn:E.
  - destruct (Hwf id r) as [_ H]. destruct (H E) as (n & Hn & Hr). rewrite Hn. cbn [bigint_add].
    destruct (decide (in_int64 (n + d))) as [Hnd|]; [|done]. intros [= <- <-].
    rewrite view_put_counter. split_and!.
    + unfold add_counter, counter_total. f_equal. rewrite view_counter, E. cbn. rewrite Hn. cbn.
      by rewrite wrap64_id.
    + by apply well_formed_put_counter.
    + exists (n + d), None. split; [done|]. cbn. by rewrite lookup_insert_eq.
  - intros [= <- <-]. rewrite view_put_counter. split_and!.
    + unfold add_counter, counter_total. f_equal. rewrite view_counter, E. cbn [mbind option_bind default].
      by rewrite Z.add_0_l, wrap64_id.
    + by apply well_formed_put_counter.
    + exists d, None. split; [done|]. cbn. by rewrite lookup_insert_eq.
Qed.

(** *** The rows of a snapshot *)

Lemma scan_rows l acc :
  NoDup l.*1 ->
  (forall id : string, (foldl scan_row acc l).1 !! id
    = match (list_to_map l : table) !! (id, "gauge") ≫= row_value with
      | Some v => Some v | None => acc.1 !! id end) /\
  (forall id : string, (foldl scan_row acc l).2 !! id
    = match (list_to_map l : table) !! (id, "counter") ≫= row_total with
      | Some n => Some n | None => acc.2 !! id end).
Proof.
  revert acc. induction l as [|[[k c] r] l IH]; intros acc; [done|]. cbn [fmap list_fmap fst].
  intros [Hk Hnd]%NoDup_cons. destruct (IH (scan_row acc ((k, c), r)) Hnd) as [IH1 IH2].
  assert (Hnone : (list_to_map l : table) !! (k, c) = None) by by apply not_elem_of_list_to_map_1.
  split; intros id; cbn [foldl]; rewrite list_to_map_cons.
  - rewrite IH1, lookup_insert. destruct (decide ((k, c) = (id, "gauge"))) as [Heq|Heq].
    + injection Heq as -> ->. rewrite Hnone. cbn [mbind option_bind]. unfold scan_row.
      rewrite decide_True by done. destruct (row_value r); cbn [fst]; [by rewrite lookup_insert_eq|done].
    + destruct (_ ≫= row_value); [done|]. unfold scan_row.
      repeat case_decide; repeat case_match; cbn; rewrite ?lookup_insert_ne; congruence.
  - rewrite IH2, lookup_insert. destruct (decide ((k, c) = (id, "counter"))) as [Heq|Heq].
    + injection Heq as -> ->. rewrite Hnone. cbn [mbind option_bind]. unfold scan_row.
      rewrite decide_False, decide_True by done. destruct (row_total r); cbn [snd]; [by rewrite lookup_insert_eq|done].
    + destruct (_ ≫= row_total); [done|]. unfold scan_row.
      repeat case_decide; repeat case_match; cbn; rewrite ?lookup_insert_ne; congruence.
Qed.

Lemma scan_table l t : l ≡ₚ map_to_list t ->
  foldl scan_row (∅, ∅) l = (view_gauges (view t), view_counters (view t)).
Proof.
  intros Hl. assert (Hnd : NoDup l.*1) by (rewrite Hl; apply NoDup_fst_map_to_list).
  assert (Ht : (list_to_map l : table) = t) by (rewrite (list_to_map_proper l _ Hnd Hl); apply list_to_map_to_list).
  destruct (scan_rows l (∅, ∅) Hnd) as [H1 H2]. rewrite Ht in H1, H2.
  destruct (foldl scan_row (∅, ∅) l) as [g c]. cbn [fst snd] in *.
  f_equal; apply map_eq; intros id; [rewrite H1, view_gauge|rewrite H2, view_counter];
    rewrite lookup_empty; by destruct (_ ≫= _).
Qed.

(** ** What the retried operations do *)

Section Laws.
Context {D : Type} `{!SqlDB D} `{!SqlDBLaws D} `{Codes : PgErrCode} `{Pick : SelectOrder}.
Abbreviation t := (D * Z)%type.

(** The errors the retry loop itself returns are those of the context. *)
Lemma retryDBOperation_spec {A : Type} ctx (op : M t A) (P : D -> Prop) (Q : A -> D -> Prop)
    (F : error -> Prop) s r s' :
  F ErrContextCanceled -> F ErrContextDeadlineExceeded ->
  (forall s o s', P s.1 -> op s = (o, s') ->
     match o with Ret a => Q a s'.1 | Fail e => P s'.1 /\ F e | Panic _ => False end) ->
  P s.1 -> retryDBOperation ctx op s = (r, s') ->
  match r with Ret a => Q a s'.1 | Fail e => P s'.1 /\ F e | Panic _ => False end.
Proof.
  intros F1 F2 Hop Hs Hr. assert (Hctx : F (ctx_reason ctx)) by (unfold ctx_reason; by case_match).
  refine (retry_spec _ _ _ (fun s => P s.1) (fun a s => Q a s.1) F _ _ _ _ _ _ _ Hop Hs Hr).
  - intros s1 o s2 Hs1. unfold check_ctx, ctx_Err.
    destruct (ctx_done_at ctx); [case_decide|]; by intros [= <- <-].
  - intros d s1 o s2 Hs1. unfold wait_clock, on_snd, waitRetry.
    destruct (ctx_done_at ctx); [case_decide|]; by intros [= <- <-].
Qed.

(** Between attempts nothing happens to the table: what it holds at the end is one
    effect per attempt that reached the server. *)
Lemma retryDBOperation_applies {A B : Type} ctx (op : M t A) (f : D -> B) (g : B -> B) (P : D -> Prop) s r s' :
  (forall s o s', P s.1 -> op s = (o, s') -> P s'.1 /\
     match o with Ret _ => f s'.1 = g (f s.1) | _ => f s'.1 = f s.1 \/ f s'.1 = g (f s.1) end) ->
  P s.1 -> retryDBOperation ctx op s = (r, s') ->
  P s'.1 /\ exists k, (k <= 4)%nat /\ f s'.1 = Nat.iter k g (f s.1) /\ (forall a, r = Ret a -> (1 <= k)%nat).
Proof.
  intros Hop Hs Hr.
  refine (retry_applies _ _ _ (fun s => f s.1) g (fun s => P s.1) retryDelays op s r s' _ _ Hop Hs Hr).
  - intros s1 o s2 Hs1. unfold check_ctx. destruct (ctx_Err ctx s1.2); by intros [= <- <-].
  - intros d s1 o s2 Hs1. unfold wait_clock, on_snd. destruct (waitRetry ctx d s1.2).
    by intros [= <- <-].
Qed.

(** What one attempt does to the view: the effect [g] when it succeeds, all or
    nothing of it when it fails, nothing when the server is steady. *)
Abbreviation V s := (view (committed s.1)).

Definition effect {A : Type} (g : View -> View) (R : A -> View -> Prop) (s : t) (o : outcome error A) (s' : t) :
    Prop :=
  well_formed (committed s'.1) /\ (steady s.1 -> steady s'.1) /\
  match o with
  | Ret a => V s' = g (V s) /\ R a (V s')
  | Fail _ => (V s' = V s \/ V s' = g (V s)) /\ (steady s.1 -> V s' = V s)
  | Panic _ => False
  end.

Definition performs {A : Type} (g : View -> View) (R : A -> View -> Prop) (op : M t A) : Prop :=
  forall s o s', well_formed (committed s.1) -> op s = (o, s') -> effect g R s o s'.

Lemma performs_map_err {A : Type} g R w (op : M t A) : performs g R op -> performs g R (map_err w op).
Proof.
  intros Hop s o s' Hwf. unfold map_err. destruct (op s) as [o1 s1] eqn:E.
  specialize (Hop s o1 s1 Hwf E). by destruct o1; intros [= <- <-].
Qed.

Definition always {A : Type} (_ : A) (_ : View) : Prop := True.

Lemma exec_performs ctx q g :
  (forall t rows t', well_formed t -> sql_exec q t = Some (rows, t') -> view t' = g (view t) /\ well_formed t') ->
  performs g always (ExecContext ctx q).
Proof.
  intros Hq s o s' Hwf E. destruct (ExecContext_law _ _ _ _ _ E) as [H Hst]. unfold effect.
  destruct o as [[]|e|p]; [| |done].
  - destruct H as (rows & H). destruct (Hq _ _ _ Hwf H). by split_and!; [|apply Hst|..].
  - assert (steady s.1 -> V s' = V s) as Hs by (intros Hs; destruct (Hst Hs) as [_ He]; by rewrite (He e eq_refl)).
    destruct H as [->|(rows & H)]; [by split_and!; [|apply Hst|left|]|].
    destruct (Hq _ _ _ Hwf H). by split_and!; [|apply Hst|right|].
Qed.

Lemma query_performs {A : Type} ctx q g (R : A -> View -> Prop) (column : row -> option A) :
  (forall t rows t', well_formed t -> sql_exec q t = Some (rows, t') ->
     view t' = g (view t) /\ well_formed t' /\
     match Scan column rows with
     | Ret a => R a (view t')
     | Fail _ => view t' = view t
     | Panic _ => False
     end) ->
  performs g R (rows ← QueryRowContext ctx q; lift_outcome (Scan column rows)).
Proof.
  intros Hq s o s' Hwf. unfold mbind, St_bind, lift_outcome.
  destruct (QueryRowContext ctx q s) as [o1 s1] eqn:E.
  destruct (QueryRowContext_law _ _ _ _ _ E) as [H Hst]. unfold effect.
  destruct o1 as [rows|e|p]; [| |done].
  - destruct (Hq _ _ _ Hwf H) as (Hv & Hwf' & HR). intros [= <- <-].
    destruct (Scan column rows) as [a|e|p]; [| |done]; split_and!; try done; try apply Hst.
    by left.
  - intros [= <- <-].
    assert (steady s.1 -> V s1 = V s) as Hs by (intros Hs; destruct (Hst Hs) as [_ He]; by rewrite (He e eq_refl)).
    destruct H as (_ & _ & [->|(rows & H)]); [by split_and!; [|apply Hst|left|]|].
    destruct (Hq _ _ _ Hwf H) as (? & ? & _). by split_and!; [|apply Hst|right|].
Qed.

Lemma update_gauge_performs ctx n v w :
  performs (set_gauge n v) always (map_err w (ExecContext ctx (UpsertGauge n v))).
Proof. apply performs_map_err, exec_performs. intros. by eapply upsert_gauge_view. Qed.

Lemma update_counter_performs ctx n d w :
  in_int64 d ->
  performs (add_counter n d) (fun total w => view_counters w !! n = Some total)
    (map_err w (rows ← QueryRowContext ctx (UpsertCounter n d); lift_outcome (Scan row_total rows))).
Proof.
  intros Hd. apply performs_map_err, query_performs. intros t rows t' Hwf H.
  destruct (upsert_counter_view _ _ _ _ _ Hd Hwf H) as (H1 & H2 & m & old & -> & H3).
  by split_and!.
Qed.

(** *** The transaction of a batch *)

(** A step of the transaction works on the open table [tx], which it takes to one
    with view [w], and leaves the committed table alone. *)
Definition tx_effect (w : View) (s : t) (o : outcome error unit) (s' : t) : Prop :=
  committed s'.1 = committed s.1 /\ (steady s.1 -> steady s'.1) /\
  match o with
  | Ret _ => exists tx', open_tx s'.1 = Some tx' /\ view tx' = w /\ well_formed tx'
  | Fail _ => True
  | Panic _ => False
  end.

Lemma tx_statement ctx q w wrap s tx o s' :
  open_tx s.1 = Some tx ->
  (forall rows tx', sql_exec q tx = Some (rows, tx') -> view tx' = w /\ well_formed tx') ->
  map_err wrap (TxExecContext ctx q) s = (o, s') -> tx_effect w s o s'.
Proof.
  intros Htx Hq. unfold map_err. destruct (TxExecContext ctx q s) as [o1 s1] eqn:E1.
  destruct (TxExecContext_law _ _ _ _ _ _ Htx E1) as (H1 & H2 & H3).
  destruct o1 as [[]|e|p]; intros [= <- <-]; split_and!; try done.
  destruct H3 as (rows & tx1 & H3 & H4). destruct (Hq _ _ H3). by exists tx1.
Qed.

Lemma tx_metric ctx m s tx o s' :
  storable m -> open_tx s.1 = Some tx -> well_formed tx -> update_in_tx ctx m s = (o, s') ->
  tx_effect (apply_metric (view tx) m) s o s'.
Proof.
  intros [[Hg Hc] Hd] Htx Hwf. unfold update_in_tx, apply_metric.
  destruct (decide (MType m = Gauge)) as [HG|HG]; [|destruct (decide (MType m = Counter)) as [HC|HC]].
  - destruct (Hg HG) as [v Hv]. rewrite Hv. apply (tx_statement _ _ _ _ _ _ _ _ Htx).
    intros rows tx' Hx. by eapply upsert_gauge_view.
  - destruct (Hc HC) as [d Hv]. rewrite Hv. apply (tx_statement _ _ _ _ _ _ _ _ Htx).
    intros rows tx' Hx. by destruct (upsert_counter_view _ _ _ _ _ (Hd d Hv) Hwf Hx) as (? & ? & _).
  - intros [= <- <-]. split_and!; [done|done|]. by exists tx.
Qed.

Lemma tx_loop ctx l s tx o s' :
  Forall storable l -> open_tx s.1 = Some tx -> well_formed tx ->
  for_range l (update_in_tx ctx) s = (o, s') -> tx_effect (apply_batch l (view tx)) s o s'.
Proof.
  intros Hl. revert s tx. induction Hl as [|m l Hm Hl IH]; intros s tx Htx Hwf.
  { intros [= <- <-]. split_and!; [done|done|]. by exists tx. }
  cbn [for_range]. rewrite apply_batch_cons. unfold mbind, St_bind.
  destruct (update_in_tx ctx m s) as [o1 s1] eqn:E1.
  destruct (tx_metric _ _ _ _ _ _ Hm Htx Hwf E1) as (H1 & H2 & H3).
  destruct o1 as [[]|e|p]; [|by intros [= <- <-]|done].
  destruct H3 as (tx1 & Htx1 & <- & Hwf1). intros Hr.
  destruct (IH s1 tx1 Htx1 Hwf1 Hr) as (H4 & H5 & H6). split_and!; [congruence|auto|done].
Qed.

(** An attempt commits the whole batch or nothing of it, whichever call fails. *)
Lemma update_tx_performs ctx l :
  Forall storable l -> performs (apply_batch l) always (update_tx ctx l).
Proof.
  intros Hl s o s' Hwf. unfold update_tx, mbind, St_bind, map_err at 1.
  destruct (BeginTx ctx s) as [o1 s1] eqn:E1. destruct (BeginTx_law _ _ _ _ E1) as (H1 & H2 & H3).
  destruct o1 as [[]|e|p]; [| |done].
  2: { intros [= <- <-]. unfold effect. rewrite H1. by split_and!; [| |left|]. }
  unfold with_defer. destruct (for_range l (update_in_tx ctx) s1) as [o2 s2] eqn:E2.
  destruct (tx_loop _ _ _ _ _ _ Hl H3 Hwf E2) as (H4 & H5 & H6).
  (* the deferred rollback leaves what is committed *)
  assert (Hroll : forall o3 s3, (forall p, o3 <> Panic p) ->
    (let '(r, s4) := (o3, s3) in match Rollback s4 with
     | (Panic p, s5) => (Panic p, s5) | (_, s5) => (r, s5) end) = (o, s') ->
    o = o3 /\ committed s'.1 = committed s3.1 /\ (steady s3.1 -> steady s'.1)).
  { intros o3 s3 _. destruct (Rollback s3) as [o4 s4] eqn:E4.
    destruct (Rollback_law _ _ _ E4) as (? & ? & Hp).
    destruct o4 as [[]|e|p]; [..|by destruct (Hp p)]; by intros [= <- <-]. }
  destruct o2 as [[]|e|p]; [| |done].
  - destruct H6 as (tx & Htx & Hv & Hwf'). unfold map_err. destruct (Commit s2) as [o3 s3] eqn:E3.
    destruct (Commit_law _ _ _ _ Htx E3) as [H7 H8]. rewrite H1 in H4. unfold effect.
    destruct o3 as [[]|e|p]; [| |done]; intros (-> & -> & Hst)%Hroll; try done.
    + rewrite H7, Hv. split_and!; [done|intros; apply Hst, H8; auto|done|done].
    + assert (Hs : steady s.1 -> V s3 = V s).
      { intros Hs. destruct (H8 (H5 (H2 Hs))) as [_ He]. by rewrite (He _ eq_refl), H4. }
      split_and!; [|intros; apply Hst, H8; auto| |done].
      * destruct H7 as [->| ->]; [by rewrite H4|done].
      * destruct H7 as [->| ->]; [left; by rewrite H4|right; by rewrite Hv].
  - intros (-> & H7 & H8)%Hroll; [|done]. unfold effect. rewrite H7, H4, H1.
    split_and!; [done|by auto|by left|done].
Qed.

(** *** Reads *)

Lemma select_performs {A : Type} ctx q (column : row -> option A) (w : string) (P : option A -> View -> Prop) :
  (forall t, well_formed t -> exists rows, sql_exec q t = Some (rows, t) /\
     ((rows = [] /\ P None (view t)) \/ exists r a, rows = [r] /\ column r = Some a /\ P (Some a) (view t))) ->
  forall s o s', well_formed (committed s.1) ->
  map_err (not_found_or (ErrWrap w)) (rows ← QueryRowContext ctx q; lift_outcome (Scan column rows)) s = (o, s') ->
  committed s'.1 = committed s.1 /\ (steady s.1 -> steady s'.1) /\
  match o with
  | Ret a => P (Some a) (V s)
  | Fail e => Is e ErrMetricNotFound = true -> P None (V s)
  | Panic _ => False
  end.
Proof.
  intros Hq s o s' Hwf. unfold map_err, mbind, St_bind, lift_outcome.
  destruct (QueryRowContext ctx q s) as [o1 s1] eqn:E1. destruct (QueryRowContext_law _ _ _ _ _ E1) as [H1 H2].
  destruct (Hq _ Hwf) as (rows & Hrows & Hcase).
  destruct o1 as [rows1|e|p]; [| |done].
  - rewrite Hrows in H1. injection H1 as <- Hc.
    destruct Hcase as [[-> HP]|(r & a & -> & Hr & HP)]; cbn [Scan].
    + unfold not_found_or. cbn. intros [= <- <-]. split_and!; [done|apply H2|done].
    + rewrite Hr. intros [= <- <-]. split_and!; [done|apply H2|done].
  - destruct H1 as (Hno & Hnf & H1). unfold not_found_or. rewrite Hno. intros [= <- <-]. split_and!; [|apply H2|by rewrite Is_wrap, Hnf].
    destruct H1 as [->|(rows1 & H1)]; [done|]. rewrite Hrows in H1. by injection H1.
Qed.

Lemma select_value n t : well_formed t -> exists rows, sql_exec (SelectValue n) t = Some (rows, t) /\
  ((rows = [] /\ view_gauges (view t) !! n = None) \/
   exists r a, rows = [r] /\ row_value r = Some a /\ view_gauges (view t) !! n = Some a).
Proof.
  intros Hwf. rewrite view_gauge. unfold sql_exec. destruct (t !! (n, "gauge")) as [r|] eqn:E.
  - destruct (Hwf n r) as [H _]. destruct (H E) as [v Hv]. eexists. split; [done|]. right.
    exists (MkRow None (row_value r)), v. by rewrite Hv.
  - eexists. split; [done|]. by left.
Qed.

Lemma select_total n t : well_formed t -> exists rows, sql_exec (SelectTotal n) t = Some (rows, t) /\
  ((rows = [] /\ view_counters (view t) !! n = None) \/
   exists r a, rows = [r] /\ row_total r = Some a /\ view_counters (view t) !! n = Some a).
Proof.
  intros Hwf. rewrite view_counter. unfold sql_exec. destruct (t !! (n, "counter")) as [r|] eqn:E.
  - destruct (Hwf n r) as [_ H]. destruct (H E) as (v & Hv & _). eexists. split; [done|]. right.
    exists (MkRow (row_total r) None), v. by rewrite Hv.
  - eexists. split; [done|]. by left.
Qed.

(** ** The storage contract *)

Definition reliable (s : t) : Prop := steady s.1 /\ well_formed (committed s.1).

(** A retried write keeps the contract on a steady server. *)
Lemma retried_write {A : Type} ctx g R (op : M t A) s r s' :
  performs g R op -> reliable s -> retryDBOperation ctx op s = (r, s') ->
  reliable s' /\
  match r with Ret a => V s' = g (V s) /\ R a (V s') | Fail _ => V s' = V s | Panic _ => False end.
Proof.
  intros Hop [Hst Hwf] Hr.
  pose proof (retryDBOperation_spec ctx op
    (fun d => (steady d /\ well_formed (committed d)) /\ view (committed d) = V s)
    (fun a d => (steady d /\ well_formed (committed d)) /\ view (committed d) = g (V s) /\ R a (view (committed d)))
    (fun _ => True) s r s' I I) as H.
  assert (Hd : match r with
    | Ret a => (steady s'.1 /\ well_formed (committed s'.1)) /\ V s' = g (V s) /\ R a (V s')
    | Fail _ => ((steady s'.1 /\ well_formed (committed s'.1)) /\ V s' = V s) /\ True
    | Panic _ => False end).
  { apply H; [|done|done]. clear H Hr. intros s1 o s2 [[Hst1 Hwf1] Hv] Ho.
    destruct (Hop _ _ _ Hwf1 Ho) as (H1 & H2 & H3). rewrite Hv in H3.
    specialize (H2 Hst1).
    destruct o as [a|e|p]; [destruct H3|destruct H3 as [_ H3]; specialize (H3 Hst1)|done]; by split_and!. }
  unfold reliable. destruct r; tauto.
Qed.

Lemma retried_read {A : Type} ctx (op : M t A) (Q : A -> View -> Prop) (F : error -> View -> Prop) s r s' :
  (forall w, F ErrContextCanceled w /\ F ErrContextDeadlineExceeded w) ->
  (forall s o s', well_formed (committed s.1) -> op s = (o, s') ->
     committed s'.1 = committed s.1 /\ (steady s.1 -> steady s'.1) /\
     match o with Ret a => Q a (V s) | Fail e => F e (V s) | Panic _ => False end) ->
  reliable s -> retryDBOperation ctx op s = (r, s') ->
  reliable s' /\ V s' = V s /\
  match r with Ret a => Q a (V s) | Fail e => F e (V s) | Panic _ => False end.
Proof.
  intros HF Hop [Hst Hwf] Hr.
  pose proof (retryDBOperation_spec ctx op
    (fun d => steady d /\ committed d = committed s.1)
    (fun a d => (steady d /\ committed d = committed s.1) /\ Q a (V s)) (fun e => F e (V s)) s r s') as H.
  destruct (HF (V s)) as [F1 F2].
  assert (Hd : match r with
    | Ret a => (steady s'.1 /\ committed s'.1 = committed s.1) /\ Q a (V s)
    | Fail e => (steady s'.1 /\ committed s'.1 = committed s.1) /\ F e (V s)
    | Panic _ => False end).
  { apply H; [done|done| |done|done]. clear H Hr. intros s1 o s2 [Hst1 Hc] Ho.
    destruct (Hop s1 o s2) as (H1 & H2 & H3); [by rewrite Hc|done|]. rewrite Hc in *.
    specialize (H2 Hst1).
    destruct o as [a|e|p]; [|..|done]; by split_and!. }
  unfold reliable. destruct r as [a|e|p]; [| |done]; destruct Hd as [[H1 ->] H2]; by split_and!.
Qed.

Lemma snapshot_reads ctx : forall s o s', well_formed (committed s.1) ->
  (rows ← map_err (ErrWrap "query snapshot") (QueryAll ctx);
   match rows.2 with
   | Some (ScanFails err) => throw (ErrWrap "scan snapshot row" err)
   | Some (IterFails err) => throw (ErrWrap "iterate snapshot rows" err)
   | None => mret (foldl scan_row (∅, ∅) rows.1)
   end) s = (o, s') ->
  committed s'.1 = committed s.1 /\ (steady s.1 -> steady s'.1) /\
  match o with Ret gc => V s = MkView gc.1 gc.2 | Fail _ => True | Panic _ => False end.
Proof.
  intros s o s' Hwf. unfold mbind, St_bind, map_err, throw, mret, St_ret.
  destruct (QueryAll ctx s) as [o1 s1] eqn:E. destruct (QueryAll_law _ _ _ _ E) as (H1 & H2 & H3).
  destruct o1 as [[rows [[err|err]|]]|e|p]; cbn [fst snd]; [by intros [= <- <-]..| |by intros [= <- <-]|done].
  rewrite (scan_table _ _ H3). by intros [= <- <-].
Qed.

Lemma performs_applies {A : Type} g R (op : M t A) : performs g R op ->
  forall s o s', well_formed (committed s.1) -> op s = (o, s') -> well_formed (committed s'.1) /\
  match o with Ret _ => V s' = g (V s) | _ => V s' = V s \/ V s' = g (V s) end.
Proof.
  intros Hop s o s' Hwf Ho. destruct (Hop _ _ _ Hwf Ho) as (H1 & _ & H2). split; [done|]. destruct o; by destruct H2.
Qed.

Lemma retried_no_panic {A : Type} ctx g R (op : M t A) s r s' :
  performs g R op -> well_formed (committed s.1) -> retryDBOperation ctx op s = (r, s') -> forall p, r <> Panic p.
Proof.
  intros Hop Hwf Hr. pose proof (retryDBOperation_spec ctx op (fun d => well_formed (committed d))
    (fun _ _ => True) (fun _ => True) s r s' I I) as H.
  intros p ->. apply H; [|done|done]. intros s1 o s2 Hwf1 Ho. destruct (Hop _ _ _ Hwf1 Ho) as (? & _ & Hp).
  by destruct o.
Qed.

Lemma overflow_refused ctx n d s r s' total :
  well_formed (committed s.1) -> view_counters (V s) !! n = Some total -> ~ in_int64 (total + d) ->
  UpdateCounter ctx n d s = (r, s') -> is_ret r = false /\ committed s'.1 = committed s.1.
Proof.
  intros Hwf Hn Hover Hr.
  assert (Hsql : sql_exec (UpsertCounter n d) (committed s.1) = None).
  { rewrite view_counter in Hn. unfold sql_exec. destruct (committed s.1 !! (n, "counter")) as [x|]; [|done].
    cbn in Hn. rewrite Hn. cbn. by rewrite decide_False. }
  unfold UpdateCounter in Hr.
  apply (retryDBOperation_spec _ _ (fun d => committed d = committed s.1) (fun _ _ => False) (fun _ => True)) in Hr;
    [destruct r as [a|e|p]; [done| |done]; by destruct Hr|done|done| |done].
  intros s1 o s2 Hc. unfold map_err, mbind, St_bind, lift_outcome.
  destruct (QueryRowContext _ _ s1) as [o1 s3] eqn:E. destruct (QueryRowContext_law _ _ _ _ _ E) as [H1 _].
  rewrite Hc, Hsql in H1. destruct o1 as [rows|e1|p1]; [done| |done]. intros [= <- <-].
  split; [|done]. by destruct H1 as (_ & _ & [->|(? & ?)]).
Qed.

#[global] Program Instance postgres_storage_laws : MetricsStorageLaws t := {|
  storage_view := fun s => V s;
  storage_reliable := reliable;
|}.
Next Obligation.
  intros ctx n v s r s' Hs Hr.
  destruct (retried_write _ _ _ _ _ _ _ (update_gauge_performs ctx n v _) Hs Hr) as [H1 H2].
  split; [done|]. by destruct r; [destruct H2|..].
Qed.
Next Obligation.
  intros ctx n d s r s' Hd Hs Hr.
  by destruct (retried_write _ _ _ _ _ _ _ (update_counter_performs ctx n d _ Hd) Hs Hr) as [H1 H2].
Qed.
Next Obligation.
  intros ctx l s r s' Hl Hs Hr.
  destruct (retried_write _ _ _ _ _ _ _ (update_tx_performs ctx l Hl) Hs Hr) as [H1 H2].
  split; [done|]. by destruct r; [destruct H2|..].
Qed.
Next Obligation.
  intros ctx n s r s' Hs Hr.
  refine (retried_read ctx _ (fun v w => view_gauges w !! n = Some v)
    (fun e w => Is e ErrMetricNotFound = true -> view_gauges w !! n = None) s r s' _ _ Hs Hr); [done|].
  apply (select_performs _ _ _ _ (fun o w => view_gauges w !! n = o)), select_value.
Qed.
Next Obligation.
  intros ctx n s r s' Hs Hr.
  refine (retried_read ctx _ (fun v w => view_counters w !! n = Some v)
    (fun e w => Is e ErrMetricNotFound = true -> view_counters w !! n = None) s r s' _ _ Hs Hr); [done|].
  apply (select_performs _ _ _ _ (fun o w => view_counters w !! n = o)), select_total.
Qed.
Next Obligation.
  intros ctx s r s' Hs Hr.
  destruct (retried_read ctx _ (fun gc w => w = MkView gc.1 gc.2) (fun _ _ => True) s r s'
    (fun _ => conj I I) (snapshot_reads ctx) Hs Hr) as (H1 & H2 & H3).
  split_and!; [done|done|]. by destruct r as [[g c]|e|p].
Qed.

(** ** Properties *)

(** C6: whatever fails, and whatever replies are lost, a batch is all or nothing in
    every attempt: the table ends as if the whole batch had been applied some number
    [k] of times, [k] at most four, at least once when [UpdateMetrics] succeeds; on a
    server that loses no reply, exactly once or not at all. *)
Theorem update_metrics_atomic ctx l s r s' :
  Forall storable l -> well_formed (committed s.1) -> Storage.UpdateMetrics ctx l s = (r, s') ->
  well_formed (committed s'.1) /\ (forall p, r <> Panic p) /\
  (exists k, (k <= 4)%nat /\ V s' = Nat.iter k (apply_batch l) (V s) /\ (r = Ret tt -> (1 <= k)%nat)) /\
  (steady s.1 -> V s' = if is_ret r then apply_batch l (V s) else V s).
Proof.
  intros Hl Hwf Hr. pose proof (update_tx_performs ctx l Hl) as Hop.
  destruct (retryDBOperation_applies ctx _ (fun d => view (committed d)) (apply_batch l)
    (fun d => well_formed (committed d)) s r s' (performs_applies _ _ _ Hop) Hwf Hr) as (H1 & k & Hk & Hv & Hk1).
  split_and!; [done|exact (retried_no_panic _ _ _ _ _ _ _ Hop Hwf Hr)| |].
  - exists k. split_and!; [done|done|]. intros ->. by apply (Hk1 tt).
  - intros Hst. destruct (retried_write _ _ _ _ _ _ _ Hop (conj Hst Hwf) Hr) as [_ H2].
    destruct r as [a|e|p]; cbn; [by destruct H2|done|done].
Qed.

(** C35: a counter never wraps in the database.  An increment that leaves the range of
    [BIGINT] is refused and changes nothing, whatever the server does; the in-memory
    storage accepts the same increment and wraps. *)
Theorem counter_overflow_refused ctx n d s total m :
  well_formed (committed s.1) -> view_counters (V s) !! n = Some total ->
  in_int64 d -> ~ in_int64 (total + d) -> MemStorage.view m = V s ->
  (exists r s', Storage.UpdateCounter ctx n d s = (r, s') /\ is_ret r = false /\ committed s'.1 = committed s.1) /\
  exists m', MemStorage.UpdateCounter ctx n d m = (Ret (wrap64 (total + d)), m') /\
    MemStorage.view m' = add_counter n d (V s).
Proof.
  intros Hwf Hn Hd Hover Hm. split.
  - destruct (Storage.UpdateCounter ctx n d s) as [r s'] eqn:Hr. exists r, s'. split; [done|].
    exact (overflow_refused _ _ _ _ _ _ _ Hwf Hn Hover Hr).
  - eexists. rewrite MemStorage.UpdateCounter_run. split; [|by rewrite MemStorage.view_incr_counter, Hm].
    rewrite <-Hm in Hn. cbn in Hn. by rewrite Hn.
Qed.

(** The retry rule of every query.  The operation runs at most four times; an
    error that is not a connection exception ends the loop at once; connection exceptions alone make the loop run the operation four times
    and wait 1, 3 and 5 seconds in between. *)
Theorem db_retry_effort (A : Type) ctx (op : M t A) s :
  let '(r, s') := retryDBOperation ctx op s in
  (forall n, exists k, retry (on_fst (check_ctx ctx)) isRetriablePGError (fun d => on_fst (wait_clock ctx d))
     retryDelays (counted op) (s, n) = (r, (s', (n + k)%nat)) /\ (k <= 4)%nat) /\
  (ctx_Err ctx s.2 = None ->
     (forall a s1, op s = (Ret a, s1) -> (r, s') = (Ret a, s1)) /\
     (forall e s1, op s = (Fail e, s1) -> isRetriablePGError e = false -> (r, s') = (Fail e, s1))) /\
  (ctx_done_at ctx = None -> forall e g, isRetriablePGError e = true -> (forall s, op s = (Fail e, g s)) ->
     let wait d s := (s.1, s.2 + d) in
     (r, s') = (Fail e, g (wait (Second * 5) (g (wait (Second * 3) (g (wait (Second * 1) (g s)))))))).
Proof.
  destruct (retryDBOperation ctx op s) as [r s'] eqn:Hr. split_and!.
  - intros n. pose proof (retry_counted (check_ctx ctx) isRetriablePGError (wait_clock ctx) retryDelays op s n) as Hk.
    unfold retryDBOperation in Hr. by rewrite Hr in Hk.
  - intros Hctx. assert (Hb : check_ctx ctx s = (Ret tt, s)) by (unfold check_ctx; by rewrite Hctx).
    rewrite <-Hr. split; intros; [by eapply retry_Ret|by eapply retry_Fail].
  - intros Hdone e g He Hop wait. rewrite <-Hr. unfold retryDBOperation, retryDelays. cbn [retry].
    assert (Hb : forall s, check_ctx (D := D) ctx s = (Ret tt, s))
      by (intros s1; unfold check_ctx, ctx_Err; by rewrite Hdone).
    assert (Hw : forall d s, wait_clock (X := D) ctx d s = (Ret tt, (s.1, s.2 + d)))
      by (intros d s1; unfold wait_clock, on_snd, waitRetry; by rewrite Hdone).
    unfold mbind, St_bind, attempt, throw. by repeat (rewrite !Hb, Hop, ?He, ?Hw).
Qed.
End Laws.

(** ** A server with a script of faults *)

(** What happens to the next call: it works, it fails before anything is done, or it
    is done and its reply is lost.  The error has the given SQLSTATE. *)
Inductive fault : Type := Works | Refuses (code : string) | LosesReply (code : string).

Record server : Type := MkServer {
  sim_table : table;
  sim_tx : option table;
  sim_faults : list fault;
}.

Definition next_fault (s : server) : fault := hd Works (sim_faults s).
Definition set_sim (t : table) (tx : option table) (s : server) : server := MkServer t tx (tl (sim_faults s)).

(** A statement on the committed table, and on that of the transaction. *)
Definition sim_query (q : stmt) : M server (list row) := fun s =>
  match next_fault s, sql_exec q (sim_table s) with
  | Works, Some (rows, t') => (Ret rows, set_sim t' (sim_tx s) s)
  | LosesReply c, Some (_, t') => (Fail (ErrPg c), set_sim t' (sim_tx s) s)
  | Works, None => (Fail (ErrPg "22003"), set_sim (sim_table s) (sim_tx s) s)
  | Refuses c, _ | LosesReply c, None => (Fail (ErrPg c), set_sim (sim_table s) (sim_tx s) s)
  end.

Definition sim_query_tx (q : stmt) : M server unit := fun s =>
  match next_fault s, sim_tx s ≫= sql_exec q with
  | Works, Some (_, t') => (Ret tt, set_sim (sim_table s) (Some t') s)
  | Works, None => (Fail (ErrPg "22003"), set_sim (sim_table s) None s)
  | Refuses c, _ | LosesReply c, _ => (Fail (ErrPg c), set_sim (sim_table s) None s)
  end.

Definition sim_commit : M server unit := fun s =>
  match next_fault s, sim_tx s with
  | Works, Some t => (Ret tt, set_sim t None s)
  | LosesReply c, Some t => (Fail (ErrPg c), set_sim t None s)
  | Works, None => (Fail (ErrNew "sql: transaction has already been committed or rolled back"), s)
  | Refuses c, _ | LosesReply c, None => (Fail (ErrPg c), set_sim (sim_table s) None s)
  end.

#[local] Instance sim_db : SqlDB server := {|
  ExecContext _ q := on_fst (sim_query q ≫= (fun _ => mret tt));
  QueryRowContext _ q := on_fst (sim_query q);
  QueryAll _ s :=
    match next_fault s.1 with
    | Works => (Ret (map_to_list (sim_table s.1), None), (set_sim (sim_table s.1) (sim_tx s.1) s.1, s.2))
    | Refuses c => (Fail (ErrPg c), (set_sim (sim_table s.1) (sim_tx s.1) s.1, s.2))
    | LosesReply c => (Ret ([], Some (IterFails (ErrPg c))), (set_sim (sim_table s.1) (sim_tx s.1) s.1, s.2))
    end;
  BeginTx _ s :=
    match next_fault s.1 with
    | Works => (Ret tt, (set_sim (sim_table s.1) (Some (sim_table s.1)) s.1, s.2))
    | Refuses c | LosesReply c => (Fail (ErrPg c), (set_sim (sim_table s.1) None s.1, s.2))
    end;
  TxExecContext _ q := on_fst (sim_query_tx q);
  Commit := on_fst sim_commit;
  Rollback s := (Ret tt, (MkServer (sim_table s.1) None (sim_faults s.1), s.2));
|}.

Definition loses (f : fault) : bool := match f with LosesReply _ => true | _ => false end.
Definition replies (s : server) : Prop := existsb loses (sim_faults s) = false.

Lemma replies_next t tx s : replies s -> replies (set_sim t tx s) /\ loses (next_fault s) = false.
Proof.
  unfold replies, set_sim, next_fault. destruct (sim_faults s) as [|f fs]; cbn; [done|].
  by intros [H1 H2]%orb_false_iff.
Qed.

Lemma sim_query_law q s r s' : sim_query q s = (r, s') ->
  match r with
  | Ret rows => sql_exec q (sim_table s) = Some (rows, sim_table s')
  | Fail e => (exists c, e = ErrPg c) /\ (sim_table s' = sim_table s \/
      exists rows, sql_exec q (sim_table s) = Some (rows, sim_table s'))
  | Panic _ => False
  end /\ (replies s -> replies s' /\ forall e, r = Fail e -> sim_table s' = sim_table s).
Proof.
  unfold sim_query. pose proof (replies_next (sim_table s) (sim_tx s) s) as Hrep.
  destruct (next_fault s), (sql_exec q (sim_table s)) as [[rows t']|] eqn:E; intros [= <- <-]; cbn;
    (split; [by eauto|]); intros H; destruct (Hrep H); done.
Qed.

#[local] Program Instance sim_db_laws : SqlDBLaws server := {|
  committed := sim_table; open_tx := sim_tx; steady := replies
|}.
Next Obligation.
  intros ctx q s r s'. cbn. unfold on_fst, mbind, St_bind.
  destruct (sim_query q s.1) as [o1 s1] eqn:E. destruct (sim_query_law _ _ _ _ E) as [H1 H2].
  destruct o1 as [rows|e|p]; [| |done]; intros [= <- <-]; cbn in *.
  - split; [by eexists|]. intros H. by destruct (H2 H).
  - split; [apply H1|intros H; destruct (H2 H) as [? H3]; split; [done|]; intros ? _; by apply (H3 e)].
Qed.
Next Obligation.
  intros ctx q s r s'. cbn. unfold on_fst.
  destruct (sim_query q s.1) as [o1 s1] eqn:E. destruct (sim_query_law _ _ _ _ E) as [H1 H2].
  intros [= <- <-]. cbn in *. split; [|exact H2].
  destruct o1 as [rows|e|p]; [done| |done]. by destruct H1 as [[c ->] H1].
Qed.
Next Obligation.
  intros ctx s r s'. cbn. pose proof (replies_next (sim_table s.1) (sim_tx s.1) s.1) as Hrep.
  destruct (next_fault s.1); intros [= <- <-]; cbn; split_and!; try done; intros H; by destruct (Hrep H).
Qed.
Next Obligation.
  intros ctx s r s'. cbn. pose proof (fun tx => replies_next (sim_table s.1) tx s.1) as Hrep.
  destruct (next_fault s.1); intros [= <- <-]; cbn; split_and!; try done; intros H; by apply Hrep.
Qed.
Next Obligation.
  intros ctx q tx s r s' Htx. cbn. unfold on_fst, sim_query_tx. rewrite Htx.
  pose proof (fun tx => replies_next (sim_table s.1) tx s.1) as Hrep. cbn.
  destruct (next_fault s.1), (sql_exec q tx) as [[rows t']|]; intros [= <- <-]; cbn; split_and!; try done;
    try (intros H; by apply Hrep); by exists rows, t'.
Qed.
Next Obligation.
  intros tx s r s' Htx. cbn. unfold on_fst, sim_commit. rewrite Htx.
  pose proof (fun t => replies_next t None s.1) as Hrep.
  destruct (next_fault s.1); intros [= <- <-]; cbn; (split; [by auto|]); intros H;
    destruct (Hrep tx H) as [? ?], (Hrep (sim_table s.1) H) as [? ?]; by split.
Qed.
Next Obligation. intros s r s'. cbn. by intros [= <- <-]. Qed.

(** ** Witnesses *)

(** SQLSTATE class 08. *)
#[local] Instance class_08 : PgErrCode := String.prefix "08".

Definition empty_server (faults : list fault) : server * Z := (MkServer ∅ None faults, 0).

(** A lost reply makes the retry count the same increment again. *)
Example lost_commit_counts_twice :
  (UpdateCounter Background "requests" 5 (empty_server [LosesReply "08006"])).1 = Ret 10.
Proof. vm_compute. reflexivity. Qed.

Lemma empty_well_formed : well_formed ∅.
Proof. intros id r. rewrite !lookup_empty. by split. Qed.

Lemma update_metrics_atomic_witness : exists k, (1 <= k <= 4)%nat /\
  view_counters (Nat.iter k (apply_batch [counter_metric "requests" 5]) (view ∅)) !! "requests" = Some 10.
Proof.
  destruct (update_metrics_atomic Background [counter_metric "requests" 5]
    (empty_server [Works; Works; LosesReply "08006"]) (Ret tt)
    (Storage.UpdateMetrics Background [counter_metric "requests" 5]
       (empty_server [Works; Works; LosesReply "08006"])).2) as (_ & _ & (k & Hk & Hv & Hr) & _).
  - constructor; [|constructor]. apply counter_metric_storable. unfold in_int64, two63. lia.
  - exact empty_well_formed.
  - vm_compute. reflexivity.
  - exists k. split; [split; [apply Hr; reflexivity|exact Hk]|].
    change (view ∅) with (view (committed (empty_server [Works; Works; LosesReply "08006"]).1)).
    rewrite <-Hv. vm_compute. reflexivity.
Defined.

Definition full_table : table := {[ ("requests", "counter") := MkRow (Some (two63 - 1)) None ]}.

Lemma full_well_formed : well_formed full_table.
Proof.
  intros id x. unfold full_table. rewrite !lookup_singleton. split; case_decide; try done.
  intros [= <-]. exists (two63 - 1). split; [done|]. unfold in_int64, two63. lia.
Qed.

Lemma counter_overflow_refused_witness :
  exists r s', UpdateCounter Background "requests" 1 (MkServer full_table None [], 0) = (r, s') /\
    is_ret r = false.
Proof.
  destruct (counter_overflow_refused Background "requests" 1 (MkServer full_table None [], 0) (two63 - 1)
    (MemStorage.Mk (view_gauges (view full_table)) (view_counters (view full_table))))
    as [(r & s' & H1 & H2 & _) _].
  - exact full_well_formed.
  - vm_compute. reflexivity.
  - unfold in_int64, two63. lia.
  - unfold in_int64, two63. lia.
  - reflexivity.
  - exists r, s'. split; [exact H1|exact H2].
Defined.
End PostgresStorage.
