(* ===== verification/Grpc.v ===== *)
(** * The gRPC transport

    [internal/server/transport/grpc] and the agent's
    [internal/agent/transport/grpc]: the messages of [api/metrics.proto] as
    records, both converters, the service method with its status codes, the
    interceptors, and the sender with its retry rule.  The wire between them is
    the interface [MetricsClient]. *)

From S2P Require Import Prelude GoError GoString GoNum GoContext Model Instances Storage MemStorage FileStore Service NetIP Retry Protocol Log Http AuditTrail Handler HTTPSender.
Local Open Scope Z_scope.

(** ** Messages and metadata *)

(** [metrics.proto]; [MType] is an open enum. *)
Definition Metric_GAUGE : Z := 0.
Definition Metric_COUNTER : Z := 1.

Record Metric : Type := MkMetric {
  GetId : string;
  GetType : Z;
  GetDelta : Z;
  GetValue : float64;
}.

(** The list holds pointers, which may be nil. *)
Record UpdateMetricsRequest : Type := MkUpdateMetricsRequest { GetMetrics : list (option Metric) }.

(** [metadata.MD], with lower-case keys. *)
Abbreviation MD := (gmap string (list string)).
Definition md_Get (md : MD) (k : string) : list string := default [] (md !! ToLower k).
Definition md_Set (k v : string) (md : MD) : MD := <[ToLower k := [v]]> md.

(** A context with the metadata attached to it, if any. *)
Record RpcContext : Type := MkRpcContext {
  rpc_ctx : Context;
  rpc_md : option MD;
}.

(** [float64] zero *)
Definition float_zero : float64 := mk_float64 (S754_zero false).

(** ** The server *)
Module GRPCServer.

(** *** [converter.go] *)

Definition metricFromProto (protoMetric : option Metric) : outcome error Metrics :=
  match protoMetric with
  | None => Fail (ErrNew "metric is nil")
  | Some m =>
      if decide (GetId m = "") then Fail (ErrNew "metric id is empty")
      else if decide (GetType m = Metric_GAUGE) then Ret (gauge_metric (GetId m) (GetValue m))
      else if decide (GetType m = Metric_COUNTER) then Ret (counter_metric (GetId m) (GetDelta m))
      else Fail (ErrNew ("unknown metric type: " +:+ FormatInt (GetType m)))
  end.

(** The loop of [metricsFromProto], from index [i]. *)
Fixpoint metrics_from (i : Z) (l : list (option Metric)) : outcome error (list Metrics) :=
  match l with
  | [] => Ret []
  | protoMetric :: l =>
      match metricFromProto protoMetric with
      | Fail err => Fail (ErrWrap ("metric[" +:+ FormatInt i +:+ "]") err)
      | Panic p => Panic p
      | Ret metric =>
          match metrics_from (i + 1) l with
          | Ret metrics => Ret (metric :: metrics)
          | r => r
          end
      end
  end.

Definition metricsFromProto (rq : option UpdateMetricsRequest) : outcome error (list Metrics) :=
  match rq with
  | None => Fail (ErrNew "request is nil")
  | Some rq => metrics_from 0 (GetMetrics rq)
  end.

(** *** [metadata.go] *)

Definition realIPFromContext (ctx : RpcContext) : option string :=
  match rpc_md ctx with
  | None => None
  | Some md =>
      match md_Get md MetadataRealIP with
      | [] => None
      | v :: _ => if decide (v = "") then None else Some v
      end
  end.

(** *** [logging.go], [server.go]: codes *)

Definition isServerErrorCode (code : codes) : bool :=
  match code with
  | Unknown | Unimplemented | Internal | Unavailable | DataLoss => true
  | _ => false
  end.

Definition serviceError (err : error) : error :=
  if Is err ErrContextCanceled then ErrStatus Canceled (error_text ErrContextCanceled)
  else if Is err ErrContextDeadlineExceeded
  then ErrStatus DeadlineExceeded (error_text ErrContextDeadlineExceeded)
  else ErrStatus Internal "update metrics failed".

Section Operations.
Context {V X : Type} `{!Service V}.

(** *** [server.go], [audit.go] *)

Record t : Type := Mk { auditor : option (Observer X) }.

Definition New : t := Mk None.
Definition EnableAudit (a : Observer X) (_ : t) : t := Mk (Some a).

Definition metricIDs (metrics : list Metrics) : list string :=
  filter (fun id => id <> "") (map ID metrics).

Definition notifyAudit (s : t) (ctx : RpcContext) (metrics : list Metrics) : M (World V X) unit :=
  match auditor s with
  | None => mret tt
  | Some a =>
      if decide (metrics = []) then mret tt
      else
        let ids := metricIDs metrics in
        if decide (ids = []) then mret tt
        else
          let ip := default "" (realIPFromContext ctx) in
          now ← gets time_Now;
          res ← attempt (on_audit (a (rpc_ctx ctx) (MkEvent (now / Second) ids ip)));
          match res with
          | inr err => log ErrorLevel "audit failed" [FError err]
          | inl _ => mret tt
          end
  end.

(** A unary handler. *)
Definition UnaryHandler (S : Type) : Type := RpcContext -> option UpdateMetricsRequest -> M S unit.

Definition UpdateMetrics (s : t) : UnaryHandler (World V X) := fun ctx rq =>
  match metricsFromProto rq with
  | Fail err => throw (ErrStatus InvalidArgument (error_text err))
  | Panic p => panic p
  | Ret metrics =>
      updated ← attempt (on_service (svc_UpdateMetrics (rpc_ctx ctx) metrics));
      match updated with
      | inr err =>
          let grpcErr := serviceError err in
          _ ← (if isServerErrorCode (status_Code (Some grpcErr))
               then log ErrorLevel "update metrics failed" [FError err]
               else log DebugLevel "update metrics failed" [FError err]);
          throw grpcErr
      | inl _ => notifyAudit s ctx metrics
      end
  end.
End Operations.
Arguments t : clear implicits.

(** *** Interceptors *)

Section Interceptors.
Context {S : Type} `{!Logs S}.

(** [LoggingInterceptor]; a panic passes it by. *)
Definition LoggingInterceptor (method : string) (handler : UnaryHandler S) : UnaryHandler S := fun ctx rq =>
  start ← gets time_Now;
  res ← attempt (handler ctx rq);
  stop ← gets time_Now;
  let err := match res with inl _ => None | inr err => Some err end in
  let code := status_Code err in
  let fields := [FString "method" method; FDuration "duration" (stop - start); FString "status" (codes_String code)] in
  _ ← (if isServerErrorCode code
       then log ErrorLevel "grpc request completed" fields
       else log DebugLevel "grpc request completed" fields);
  match err with
  | None => mret tt
  | Some err => throw err
  end.

Definition TrustedSubnetInterceptor (subnet : IPNet) (handler : UnaryHandler S) : UnaryHandler S := fun ctx rq =>
  match realIPFromContext ctx with
  | None => throw (ErrStatus PermissionDenied "access denied")
  | Some realIP =>
      match ParseIP realIP with
      | None => throw (ErrStatus PermissionDenied "access denied")
      | Some ip =>
          if IPNet_Contains subnet ip then handler ctx rq
          else throw (ErrStatus PermissionDenied "access denied")
      end
  end.

(** The chain [newGRPCServer] installs: logging first, the subnet if there is one. *)
Definition chain (subnet : option IPNet) (method : string) (handler : UnaryHandler S) : UnaryHandler S :=
  LoggingInterceptor method
    (match subnet with Some n => TrustedSubnetInterceptor n handler | None => handler end).
End Interceptors.
End GRPCServer.

(** ** The agent's sender *)

(** The client of the connection, on a network [X] and the clock. *)
Class MetricsClient (X : Type) :=
  client_UpdateMetrics : RpcContext -> UpdateMetricsRequest -> M (X * Z) unit.

Module GRPCSender.

(** *** [converter.go] *)

Definition metricToProto (metric : Metrics) : outcome error Metric :=
  if decide (ID metric = "") then Fail (ErrNew "metric ID must not be empty")
  else if decide (MType metric = Gauge) then
    match Value metric with
    | None => Fail (ErrNew ("gauge metric " +:+ Quote (ID metric) +:+ " has nil value"))
    | Some v => Ret (MkMetric (ID metric) Metric_GAUGE 0 v)
    end
  else if decide (MType metric = Counter) then
    match Delta metric with
    | None => Fail (ErrNew ("counter metric " +:+ Quote (ID metric) +:+ " has nil delta"))
    | Some d => Ret (MkMetric (ID metric) Metric_COUNTER d float_zero)
    end
  else Fail (ErrNew ("metric " +:+ Quote (ID metric) +:+ " has unknown type " +:+ Quote (MType metric))).

(** The loop of [requestFromMetrics], from index [i]. *)
Fixpoint request_from (i : Z) (metrics : list Metrics) : outcome error (list (option Metric)) :=
  match metrics with
  | [] => Ret []
  | metric :: metrics =>
      match metricToProto metric with
      | Fail err => Fail (ErrWrap ("convert metric " +:+ FormatInt i) err)
      | Panic p => Panic p
      | Ret converted =>
          match request_from (i + 1) metrics with
          | Ret l => Ret (Some converted :: l)
          | r => r
          end
      end
  end.

Definition requestFromMetrics (metrics : list Metrics) : outcome error UpdateMetricsRequest :=
  match request_from 0 metrics with
  | Ret l => Ret (MkUpdateMetricsRequest l)
  | Fail err => Fail err
  | Panic p => Panic p
  end.

(** *** [sender.go] *)

Definition defaultRetryDelays : list Z := [Second; 3 * Second; 5 * Second].

Definition isRetriableGRPCError (err : error) : bool :=
  if Is err ErrContextCanceled || Is err ErrContextDeadlineExceeded then false
  else match status_Code (Some err) with
       | Unavailable | ResourceExhausted => true
       | _ => false
       end.

Definition contextWithRealIP (ctx : RpcContext) (realIP : string) : RpcContext :=
  let md := default ∅ (rpc_md ctx) in
  MkRpcContext (rpc_ctx ctx) (Some (md_Set MetadataRealIP realIP md)).

(** The struct; its field [client] is the class [MetricsClient]. *)
Record t (C : Type) : Type := Mk {
  closer : option C;
  localIP : outcome error string;
  retryDelays : list Z;
}.
Arguments Mk {C} _ _ _.
Arguments closer {C} _.
Arguments localIP {C} _.
Arguments retryDelays {C} _.

Definition newGRPCSender {C : Type} (closer : option C) (localIP : outcome error string) : t C :=
  Mk closer localIP defaultRetryDelays.

(** [io.Closer], where a [C] is closed in an [S]. *)
Class Closer (C S : Type) := closer_Close : C -> M S unit.

Definition Close {C S : Type} `{!Closer C S} (s : t C) : M S unit :=
  match closer s with None => mret tt | Some c => closer_Close c end.

Section Operations.
Context {C X : Type} `{!MetricsClient X} `{SelectOrder}.

Definition Send (s : t C) (ctx : RpcContext) (metrics : list Metrics) : M (X * Z) unit :=
  rq ← lift_outcome (requestFromMetrics metrics);
  realIP ← map_err (ErrWrap "get local IP") (lift_outcome (localIP s));
  let ctx := contextWithRealIP ctx realIP in
  map_err (ErrWrap "send metrics batch")
    (retry (mret tt) isRetriableGRPCError (wait_clock (rpc_ctx ctx)) (retryDelays s)
       (client_UpdateMetrics ctx rq)).
End Operations.
End GRPCSender.

(** ** The converters are inverse to each other *)

(** What the wire keeps of a metric: the pointer of the other type and the hash are
    dropped. *)
Definition carried (m : Metrics) : Metrics :=
  if decide (MType m = Gauge) then MkMetrics (ID m) Gauge None (Value m) ""
  else MkMetrics (ID m) (MType m) (Delta m) None "".

Lemma apply_metric_carried w m : apply_metric w (carried m) = apply_metric w m.
Proof.
  unfold carried, apply_metric. destruct (decide (MType m = Gauge)) as [Hg|Hg]; cbn [MType ID Value Delta]; [done|].
  by rewrite (decide_False (P := MType m = Gauge)) by done.
Qed.

Lemma apply_batch_carried l w : apply_batch (map carried l) w = apply_batch l w.
Proof.
  revert w. induction l as [|m l IH]; intros w; [done|]. cbn [map].
  by rewrite !apply_batch_cons, apply_metric_carried.
Qed.

Lemma metric_roundtrip m :
  if decide (Handler.validateMetric m = StatusOK)
  then exists p, GRPCSender.metricToProto m = Ret p /\ GRPCServer.metricFromProto (Some p) = Ret (carried m)
  else exists e, GRPCSender.metricToProto m = Fail e.
Proof.
  unfold Handler.validateMetric, GRPCSender.metricToProto, carried.
  destruct (decide (ID m = "")) as [Hid|Hid]; [by rewrite decide_False; eauto|].
  destruct (decide (MType m = Gauge)) as [Hg|Hg].
  - destruct (Value m) as [v|]; [rewrite decide_True by done|by rewrite decide_False; eauto].
    eexists. split; [done|]. unfold GRPCServer.metricFromProto. cbn [GetId GetType GetValue]. by rewrite decide_False.
  - destruct (decide (MType m = Counter)) as [Hc|Hc]; [|by rewrite decide_False; eauto].
    destruct (Delta m) as [d|]; [rewrite decide_True by done|by rewrite decide_False; eauto].
    eexists. split; [done|]. unfold GRPCServer.metricFromProto. cbn [GetId GetType GetDelta].
    rewrite decide_False by done. by rewrite Hc.
Qed.

Lemma request_roundtrip l i j :
  if decide (Forall (fun m => Handler.validateMetric m = StatusOK) l)
  then exists ps, GRPCSender.request_from i l = Ret ps /\ GRPCServer.metrics_from j ps = Ret (map carried l)
  else exists e, GRPCSender.request_from i l = Fail e.
Proof.
  revert i j. induction l as [|m l IH]; intros i j.
  { rewrite decide_True by constructor. by exists []. }
  cbn [GRPCSender.request_from]. pose proof (metric_roundtrip m) as Hm. specialize (IH (i + 1) (j + 1)).
  destruct (decide (Handler.validateMetric m = StatusOK)) as [Hv|Hv].
  - destruct Hm as (p & -> & Hp). destruct (decide (Forall _ l)) as [Hl|Hl].
    + destruct IH as (ps & -> & Hps). rewrite decide_True by by constructor.
      exists (Some p :: ps). split; [done|]. cbn [GRPCServer.metrics_from]. by rewrite Hp, Hps.
    + destruct IH as (e & ->). rewrite decide_False by (by intros [_ ?]%Forall_cons_1). by exists e.
  - destruct Hm as (e & ->). rewrite decide_False by (by intros [? _]%Forall_cons_1). by eexists.
Qed.

(** C27: the two converters fit.  A batch of valid metrics is encoded, and the server
    decodes it to the same metrics, without the fields that carry nothing, hence to a
    batch with the same effect; the agent refuses every other batch before sending. *)
Theorem grpc_batch_roundtrip l :
  if decide (Forall (fun m => Handler.validateMetric m = StatusOK) l)
  then exists rq, GRPCSender.requestFromMetrics l = Ret rq /\
    GRPCServer.metricsFromProto (Some rq) = Ret (map carried l) /\
    forall w, apply_batch (map carried l) w = apply_batch l w
  else exists e, GRPCSender.requestFromMetrics l = Fail e.
Proof.
  pose proof (request_roundtrip l 0 0) as H. unfold GRPCSender.requestFromMetrics.
  destruct (decide _).
  - destruct H as (ps & -> & Hps). eexists. split_and!; [done|done|]. apply apply_batch_carried.
  - destruct H as (e & ->). by eexists.
Qed.

(** ** The service method *)

(** What the wire guarantees: deltas are [int64]. *)
Definition wire_range (rq : option UpdateMetricsRequest) : Prop :=
  forall r m, rq = Some r -> Some m ∈ GetMetrics r -> in_int64 (GetDelta m).

Lemma metrics_from_storable i l metrics :
  (forall m, Some m ∈ l -> in_int64 (GetDelta m)) -> GRPCServer.metrics_from i l = Ret metrics ->
  Forall storable metrics.
Proof.
  revert i metrics. induction l as [|p l IH]; intros i metrics Hl; cbn; [intros [= <-]; constructor|].
  destruct (GRPCServer.metricFromProto p) as [m|e|q] eqn:Em; [|done..].
  destruct (GRPCServer.metrics_from (i + 1) l) as [ms|e|q] eqn:El; intros [= <-].
  constructor; [|eapply IH; [|done]; intros; apply Hl; by right].
  destruct p as [p|]; [|done]. cbn in Em. specialize (Hl p ltac:(by left)).
  repeat case_decide; simplify_eq; auto with go.
Qed.

Lemma metricsFromProto_storable rq metrics :
  wire_range rq -> GRPCServer.metricsFromProto rq = Ret metrics -> Forall storable metrics.
Proof. destruct rq as [rq|]; [|done]. intros Hr. apply metrics_from_storable. intros m. by apply Hr. Qed.

Lemma metrics_from_no_panic i l p : GRPCServer.metrics_from i l <> Panic p.
Proof.
  revert i. induction l as [|m l IH]; intros i; cbn; [done|].
  destruct (GRPCServer.metricFromProto m) as [a|e|q] eqn:E.
  - specialize (IH (i + 1)). by destruct (GRPCServer.metrics_from (i + 1) l).
  - done.
  - destruct m as [m|]; [|done]. cbn in E. by repeat case_decide.
Qed.

Lemma metricsFromProto_no_panic rq p : GRPCServer.metricsFromProto rq <> Panic p.
Proof. destruct rq; [apply metrics_from_no_panic|done]. Qed.

Lemma serviceError_codes err : exists c msg, GRPCServer.serviceError err = ErrStatus c msg /\
  c ∈ [Canceled; DeadlineExceeded; Internal].
Proof. unfold GRPCServer.serviceError. repeat case_match; do 2 eexists; (split; [done|]); set_solver. Qed.

Lemma status_not_retried c msg :
  c ∈ [InvalidArgument; PermissionDenied; Canceled; DeadlineExceeded; Internal] ->
  GRPCSender.isRetriableGRPCError (ErrStatus c msg) = false.
Proof. rewrite !elem_of_cons, elem_of_nil. intros [->|[->|[->|[->|[->|[]]]]]]; done. Qed.

Section Server.
Context {V X : Type} `{!Service V} `{!ServiceLaws V}.

Definition audit_quiet (s : GRPCServer.t X) : Prop := forall a, GRPCServer.auditor s = Some a -> Auditor.quiet a.

Lemma rpc_notifyAudit_ok (s : GRPCServer.t X) ctx l (w : World V X) :
  audit_quiet s -> exists w', GRPCServer.notifyAudit s ctx l w = (Ret tt, w') /\ w_service w' = w_service w.
Proof.
  intros Hq. unfold GRPCServer.notifyAudit. destruct (GRPCServer.auditor s) as [a|] eqn:Ea; [|by exists w].
  destruct (decide (l = [])); [by exists w|]. cbv zeta.
  destruct (decide (GRPCServer.metricIDs l = [])); [by exists w|].
  unfold mbind, St_bind, gets, attempt, on_audit. cbn [time_Now world_logs].
  destruct (a (rpc_ctx ctx) _ (w_audit w)) as [[[]|e|p] x] eqn:E; [by eexists..|].
  by destruct (Hq a Ea _ _ _ _ _ E).
Qed.

(** What a call may do to the metrics. *)
Definition rpc_outcome (rq : option UpdateMetricsRequest) (w : World V X) (r : outcome error unit) (w' : World V X) :
    Prop :=
  svc_reliable (w_service w') /\
  ((r = Ret tt /\ exists l, GRPCServer.metricsFromProto rq = Ret l /\
      svc_view (w_service w') = apply_batch l (svc_view (w_service w))) \/
   (exists e, GRPCServer.metricsFromProto rq = Fail e /\
      r = Fail (ErrStatus InvalidArgument (error_text e)) /\ w' = w) \/
   (exists c msg, r = Fail (ErrStatus c msg) /\ c ∈ [Canceled; DeadlineExceeded; Internal] /\
      exists l, GRPCServer.metricsFromProto rq = Ret l /\ svc_fails l (w_service w) /\
        (svc_view (w_service w') = svc_view (w_service w) \/
         svc_view (w_service w') = apply_batch l (svc_view (w_service w))))).

Lemma rpc_UpdateMetrics_run (s : GRPCServer.t X) ctx rq (w : World V X) :
  wire_range rq -> audit_quiet s -> svc_reliable (w_service w) ->
  exists r w', GRPCServer.UpdateMetrics s ctx rq w = (r, w') /\ rpc_outcome rq w r w'.
Proof.
  intros Hr Hq Hw. unfold GRPCServer.UpdateMetrics.
  destruct (GRPCServer.metricsFromProto rq) as [l|e|p] eqn:El; [| |by destruct (metricsFromProto_no_panic rq p)].
  2: { do 2 eexists. split; [done|]. split; [done|]. right; left. eauto. }
  destruct (svc_UpdateMetrics (rpc_ctx ctx) l (w_service w)) as [o v] eqn:Es.
  destruct (svc_UpdateMetrics_spec _ _ _ _ _ (metricsFromProto_storable _ _ Hr El) Hw Es) as [Hv Hres].
  unfold mbind, St_bind, attempt, on_service. rewrite Es. destruct o as [[]|err|p]; [| |done].
  - destruct (rpc_notifyAudit_ok s ctx l (set_service v w) Hq) as (w' & E & Hs). do 2 eexists. split; [exact E|].
    split; rewrite Hs; [done|]. left. split; [done|]. by exists l.
  - destruct (serviceError_codes err) as (c & msg & Hc & Hin). unfold throw, log, modify.
    destruct (GRPCServer.isServerErrorCode _); (do 2 eexists; split; [done|]; split; [done|]; right; right;
      exists c, msg; rewrite Hc; split_and!; [done|done|]; exists l; by unfold svc_fails; eauto 8).
Qed.

(** C26: an RPC answers OK exactly when the whole batch was decoded and applied; a
    malformed batch is [InvalidArgument] and changes nothing; a failure of the
    service is [Canceled], [DeadlineExceeded] or [Internal], with the batch applied
    in full or not at all.  The agent retries none of these codes. *)
Theorem grpc_update_outcome (s : GRPCServer.t X) ctx rq (w : World V X) :
  wire_range rq -> audit_quiet s -> svc_reliable (w_service w) ->
  exists r w', GRPCServer.UpdateMetrics s ctx rq w = (r, w') /\ rpc_outcome rq w r w' /\
    forall e, r = Fail e -> GRPCSender.isRetriableGRPCError e = false.
Proof.
  intros Hr Hq Hw. destruct (rpc_UpdateMetrics_run s ctx rq w Hr Hq Hw) as (r & w' & E & Ho).
  exists r, w'. split_and!; [done|done|]. intros e ->.
  destruct Ho as (_ & [[? _]|[(e' & _ & [= ->] & _)|(c & msg & [= ->] & Hc & _)]]); [done|..];
    apply status_not_retried; set_solver.
Qed.
End Server.

(** ** The interceptors *)
Section Chain.
Context {S : Type} `{!Logs S}.

Definition admitted (subnet : option IPNet) (ctx : RpcContext) : Prop :=
  forall n, subnet = Some n -> exists realIP ip,
    GRPCServer.realIPFromContext ctx = Some realIP /\ ParseIP realIP = Some ip /\ IPNet_Contains n ip = true.

(** The entry the logging interceptor writes for a result. *)
Definition rpc_level (r : outcome error unit) : level :=
  if GRPCServer.isServerErrorCode (status_Code (match r with Fail e => Some e | _ => None end))
  then ErrorLevel else DebugLevel.

Lemma LoggingInterceptor_run method (handler : GRPCServer.UnaryHandler S) ctx rq s r s' :
  handler ctx rq s = (r, s') -> (forall p, r <> Panic p) -> exists e,
  GRPCServer.LoggingInterceptor method handler ctx rq s = (r, log_append e s') /\ entry_level e = rpc_level r.
Proof.
  intros E Hp. unfold GRPCServer.LoggingInterceptor, rpc_level, mbind, St_bind, gets, attempt. rewrite E.
  destruct r as [[]|e|p]; [| |by destruct (Hp p)]; unfold log, modify, throw;
    destruct (GRPCServer.isServerErrorCode _); by eexists.
Qed.

Lemma TrustedSubnet_run subnet (handler : GRPCServer.UnaryHandler S) ctx rq s :
  (admitted (Some subnet) ctx /\ GRPCServer.TrustedSubnetInterceptor subnet handler ctx rq s = handler ctx rq s) \/
  (~ admitted (Some subnet) ctx /\ GRPCServer.TrustedSubnetInterceptor subnet handler ctx rq s
     = (Fail (ErrStatus PermissionDenied "access denied"), s)).
Proof.
  unfold GRPCServer.TrustedSubnetInterceptor.
  assert (Hno : (forall realIP ip, GRPCServer.realIPFromContext ctx = Some realIP -> ParseIP realIP = Some ip ->
      IPNet_Contains subnet ip = false) -> ~ admitted (Some subnet) ctx).
  { intros Hf Ha. destruct (Ha subnet eq_refl) as (realIP & ip & H1 & H2 & H3).
    by rewrite (Hf realIP ip H1 H2) in H3. }
  destruct (GRPCServer.realIPFromContext ctx) as [realIP|] eqn:Er; [|right; split; [by apply Hno|done]].
  destruct (ParseIP realIP) as [ip|] eqn:Ep; [|right; split; [apply Hno; congruence|done]].
  destruct (IPNet_Contains subnet ip) eqn:Ec; [|right; split; [apply Hno; congruence|done]].
  left. split; [|done]. intros n [= <-]. by exists realIP, ip.
Qed.

(** The chain of interceptors lets a call through exactly when there is no
    trusted subnet or the address in its metadata lies in it; otherwise the handler
    never runs and the caller gets [PermissionDenied].  Either way the call's result
    is passed on unchanged, and one entry is logged, an error exactly for the codes
    of server errors. *)
Theorem grpc_chain_outcome subnet method (handler : GRPCServer.UnaryHandler S) ctx rq s :
  (forall p s', handler ctx rq s <> (Panic p, s')) ->
  exists r s' e, GRPCServer.chain subnet method handler ctx rq s = (r, log_append e s') /\
    entry_level e = rpc_level r /\
    ((admitted subnet ctx /\ handler ctx rq s = (r, s')) \/
     (~ admitted subnet ctx /\ r = Fail (ErrStatus PermissionDenied "access denied") /\ s' = s)).
Proof.
  intros Hp. unfold GRPCServer.chain. destruct subnet as [n|].
  - destruct (TrustedSubnet_run n handler ctx rq s) as [[Ha E]|[Ha E]].
    + destruct (handler ctx rq s) as [r s'] eqn:Eh.
      destruct (LoggingInterceptor_run method _ _ _ _ _ _ E) as (e & E' & Hl); [intros p ->; by destruct (Hp p s')|].
      exists r, s', e. split_and!; [done|done|by left].
    + destruct (LoggingInterceptor_run method _ _ _ _ _ _ E) as (e & E' & Hl); [done|].
      eexists _, _, e. split_and!; [done|done|by right].
  - destruct (handler ctx rq s) as [r s'] eqn:Eh.
    destruct (LoggingInterceptor_run method _ _ _ _ _ _ Eh) as (e & E' & Hl); [intros p ->; by destruct (Hp p s')|].
    exists r, s', e. split_and!; [done|done|]. left. split; [|done]. by intros n.
Qed.
End Chain.
