(* ===== verification/GrpcPipeline.v ===== *)
(** * From the agent to the storage over gRPC

    The sender's retry loop against the server's interceptors and method, over a
    network that may lose a call or its reply. *)

From S2P Require Import Prelude GoError GoString GoNum GoContext Model Instances Storage MemStorage FileStore Service NetIP Retry Protocol Log Http AuditTrail HTTPSender Handler Router Pipeline Grpc.
Local Open Scope Z_scope.

Section GrpcPipeline.
Context {V X : Type} `{!Service V} `{!ServiceLaws V}.
Context (s : GRPCServer.t X) (subnet : option IPNet).

(** The method as [newGRPCServer] registers it. *)
Definition served : GRPCServer.UnaryHandler (World V X) :=
  GRPCServer.chain subnet "/metrics.Metrics/UpdateMetrics" (GRPCServer.UpdateMetrics s).

(** One call: a lost call and a lost reply are [Unavailable]; a status is passed on,
    and so is nothing else, since the method returns only statuses. *)
Definition call (ctx : RpcContext) (rq : UpdateMetricsRequest) : M ((World V X * list net_fault) * Z) unit := fun st =>
  let '((sw, faults), now) := st in
  let fault := default Delivered (head faults) in
  match fault with
  | RequestLost => (Fail (ErrStatus Unavailable "connection refused"), ((sw, tail faults), now))
  | _ =>
      let '(r, sw') := served ctx (Some rq) sw in
      match fault, r with
      | ResponseLost, _ | _, Panic _ => (Fail (ErrStatus Unavailable "connection closed"), ((sw', tail faults), now))
      | _, _ => (r, ((sw', tail faults), now))
      end
  end.

Definition lossy_connection : MetricsClient (World V X * list net_fault) := call.

(** The address the agent reports lies in the trusted subnet. *)
Definition trusted_ip (realIP : string) : Prop :=
  forall n, subnet = Some n -> exists ip, ParseIP realIP = Some ip /\ IPNet_Contains n ip = true.

Lemma realIP_arrives ctx realIP :
  realIP <> "" -> GRPCServer.realIPFromContext (GRPCSender.contextWithRealIP ctx realIP) = Some realIP.
Proof.
  intros Hne. unfold GRPCServer.realIPFromContext, GRPCSender.contextWithRealIP, md_Get, md_Set.
  cbn [rpc_md]. rewrite lookup_insert_eq. cbn [default from_option id]. by rewrite decide_False.
Qed.

Lemma trusted_admitted ctx realIP :
  realIP <> "" -> trusted_ip realIP -> admitted subnet (GRPCSender.contextWithRealIP ctx realIP).
Proof.
  intros Hne Ht n Hn. destruct (Ht n Hn) as (ip & H1 & H2). exists realIP, ip.
  by split_and!; [apply realIP_arrives|..].
Qed.

(** What a batch the agent sends becomes at the server. *)
Definition sent (l : list Metrics) (rq : UpdateMetricsRequest) : Prop :=
  GRPCServer.metricsFromProto (Some rq) = Ret (map carried l) /\ wire_range (Some rq).

(** A call that reaches the server applies the batch, or fails with a status the
    agent does not retry, after applying it or not. *)
Lemma served_run ctx l rq realIP sw :
  sent l rq -> realIP <> "" -> trusted_ip realIP -> audit_quiet s -> svc_reliable (w_service sw) ->
  exists r sw', served (GRPCSender.contextWithRealIP ctx realIP) (Some rq) sw = (r, sw') /\
    svc_reliable (w_service sw') /\
    match r with
    | Ret _ => svc_view (w_service sw') = apply_batch l (svc_view (w_service sw))
    | Fail e => GRPCSender.isRetriableGRPCError e = false /\ svc_fails (map carried l) (w_service sw) /\
        (svc_view (w_service sw') = svc_view (w_service sw) \/
         svc_view (w_service sw') = apply_batch l (svc_view (w_service sw)))
    | Panic _ => False
    end.
Proof.
  intros [Hdec Hrange] Hne Ht Hq Hw. set (ctx' := GRPCSender.contextWithRealIP ctx realIP).
  destruct (rpc_UpdateMetrics_run s ctx' (Some rq) sw Hrange Hq Hw) as (r & sw' & E & Hrel & Hres).
  assert (Hnp : forall p, r <> Panic p) by (intros p ->; destruct Hres as [[? _]|[(?&_&?&_)|(?&?&?&_)]]; done).
  assert (Hchain : exists e, served ctx' (Some rq) sw = (r, log_append e sw')).
  { unfold served, GRPCServer.chain. destruct subnet as [n|] eqn:En.
    - destruct (TrustedSubnet_run n (GRPCServer.UpdateMetrics s) ctx' (Some rq) sw) as [[_ Et]|[Ha _]].
      + destruct (LoggingInterceptor_run "/metrics.Metrics/UpdateMetrics" _ _ _ _ _ _ (eq_trans Et E) Hnp)
          as (e & El & _). by exists e.
      + destruct Ha. rewrite <-En. by apply trusted_admitted.
    - destruct (LoggingInterceptor_run "/metrics.Metrics/UpdateMetrics" _ _ _ _ _ _ E Hnp) as (e & El & _). by exists e. }
  destruct Hchain as (e & Hc). exists r, (log_append e sw'). split; [exact Hc|]. rewrite !svc_log_append.
  split; [done|]. rewrite Hdec in Hres.
  destruct Hres as [(-> & l' & [= <-] & Hv)|[(? & ? & _)|(c & msg & -> & Hin & l' & [= <-] & Hf & Hv)]]; [|done|].
  - by rewrite Hv, apply_batch_carried.
  - rewrite apply_batch_carried in Hv. split; [|by split]. apply status_not_retried. set_solver.
Qed.

(** One attempt over the network. *)
Lemma call_run ctx l rq realIP st r st' :
  sent l rq -> realIP <> "" -> trusted_ip realIP -> audit_quiet s -> server_ok st ->
  call (GRPCSender.contextWithRealIP ctx realIP) rq st = (r, st') ->
  server_ok st' /\ st'.1.2 = tail st.1.2 /\
  match r with
  | Ret _ => server_view st' = apply_batch l (server_view st)
  | _ => (server_view st' = server_view st \/ server_view st' = apply_batch l (server_view st)) /\
      (st.1.2 = [] -> svc_fails (map carried l) (w_service st.1.1))
  end /\
  (st.1.2 = [] -> forall e, r = Fail e -> GRPCSender.isRetriableGRPCError e = false).
Proof.
  intros Hsent Hne Ht Hq Hok. destruct st as [[sw faults] now]. unfold server_ok, server_view in *. cbn [fst snd] in *.
  destruct (served_run ctx l rq realIP sw Hsent Hne Ht Hq Hok) as (r1 & sw1 & E & Hrel & Hres).
  unfold call. rewrite E.
  destruct faults as [|[] faults]; cbn [default from_option head hd_error tail id];
    (destruct r1 as [[]|e|p]; [| |done]); intros [= <- <-]; cbn [fst snd];
    (split; [done|]); (split; [done|]);
    (split; [first [done|split; [first [by left|by right|apply Hres]|first [by intros ?|intros _; apply Hres]]]|]); try done.
  intros _ e' [= <-]. apply Hres.
Qed.

(** What the agent can encode arrives as it was. *)
Lemma sendable_sent l :
  Forall (fun m => Handler.validateMetric m = StatusOK /\ int64_delta m) l ->
  exists rq, GRPCSender.requestFromMetrics l = Ret rq /\ sent l rq.
Proof.
  intros Hl. assert (Hv : Forall (fun m => Handler.validateMetric m = StatusOK) l)
    by (eapply Forall_impl; [exact Hl|by intros ? [? _]]).
  pose proof (request_roundtrip l 0 0) as H. rewrite decide_True in H by done.
  destruct H as (ps & Eps & Hps). exists (MkUpdateMetricsRequest ps). unfold GRPCSender.requestFromMetrics.
  rewrite Eps. split; [done|]. split; [exact Hps|]. intros rq p [= <-]. cbn [GetMetrics].
  clear Hv Hps. revert ps Eps. generalize 0 as i.
  induction Hl as [|m l [_ Hd] _ IH]; intros i ps Eps; cbn in Eps; [injection Eps as <-; by intros ?%not_elem_of_nil|].
  destruct (GRPCSender.metricToProto m) as [q|e|w] eqn:Em; [|done..].
  destruct (GRPCSender.request_from (i + 1) l) as [qs|e|w] eqn:Eq; [|done..]. injection Eps as <-.
  intros [Hp|Hin]%elem_of_cons; [|by eapply IH]. injection Hp as ->.
  unfold GRPCSender.metricToProto in Em. repeat case_decide; try done.
  - destruct (Value m); simplify_eq. cbn. unfold in_int64, two63. lia.
  - destruct (Delta m) as [d|] eqn:Ed; simplify_eq. cbn. by apply Hd.
Qed.

(** A first attempt that succeeds, or fails for good, is the only one. *)
Lemma first_attempt_final {S A : Type} before retriable wait delays (op : M S A) s0 o s1 r s2 :
  before = mret tt -> op s0 = (o, s1) -> (forall e, o = Fail e -> retriable e = false) ->
  retry before retriable wait delays op s0 = (r, s2) -> r = o /\ s2 = s1.
Proof.
  intros -> E Hf. destruct o as [a|e|p].
  - erewrite retry_Ret by done. by intros [= <- <-].
  - erewrite retry_Fail by (done || by apply Hf). by intros [= <- <-].
  - destruct delays; cbn [retry]; unfold mbind, St_bind, attempt, mret, St_ret; rewrite E; by intros [= <- <-].
Qed.

(** C8: over gRPC a report is applied to the server as a whole, at most four times,
    and at least once when the agent sees success.  On a network that loses nothing
    it is applied at most once, whatever the server answers: unlike over HTTP, a save
    that failed after the update is not sent again. *)
Theorem grpc_send_at_least_once `{SelectOrder} `{NetInterfaces} {C} (closer : option C) ctx l realIP st r st' :
  Forall (fun m => Handler.validateMetric m = StatusOK /\ int64_delta m) l ->
  LocalIP = Ret realIP -> realIP <> "" -> trusted_ip realIP -> audit_quiet s -> server_ok st ->
  GRPCSender.Send (MetricsClient0 := lossy_connection) (GRPCSender.newGRPCSender closer LocalIP) ctx l st = (r, st') ->
  server_ok st' /\
  exists k, (k <= 4)%nat /\ server_view st' = Nat.iter k (apply_batch l) (server_view st) /\
    (r = Ret tt -> (1 <= k)%nat) /\ (st.1.2 = [] -> (k <= 1)%nat).
Proof.
  intros Hl Hip Hne Ht Hq Hok. unfold GRPCSender.Send.
  destruct (sendable_sent l Hl) as (rq & Erq & Hsent).
  erewrite bind_Ret by (unfold lift_outcome; by rewrite Erq).
  erewrite bind_Ret by (unfold map_err, lift_outcome; cbn [GRPCSender.localIP GRPCSender.newGRPCSender]; by rewrite Hip).
  cbv zeta. unfold map_err.
  destruct (retry _ _ _ _ _ st) as [r1 st1] eqn:Hrun. intros Hr.
  assert (st1 = st' /\ (r = Ret tt -> r1 = Ret tt)) as [-> Hr1] by (by destruct r1 as [[]|e|p]; injection Hr as <- <-).
  destruct (decide (st.1.2 = [])) as [Hnil|Hlossy].
  - destruct (call (GRPCSender.contextWithRealIP ctx realIP) rq st) as [o st1] eqn:Ec.
    destruct (call_run _ _ _ _ _ _ _ Hsent Hne Ht Hq Hok Ec) as (Hok1 & _ & Hv & Hret).
    specialize (Hret Hnil).
    assert (Heq : r1 = o /\ st' = st1) by (by eapply first_attempt_final; eauto). destruct Heq as [-> ->].
    split; [done|]. destruct o as [[]|e|p].
    + exists 1%nat. by split_and!; [lia|..].
    + destruct Hv as [[Hv|Hv] _]; [exists 0%nat|exists 1%nat]; split_and!; try done; try lia; intros Hrt; by apply Hr1 in Hrt.
    + destruct Hv as [[Hv|Hv] _]; [exists 0%nat|exists 1%nat]; split_and!; try done; try lia; intros Hrt; by apply Hr1 in Hrt.
  - apply (retry_applies _ _ _ server_view (apply_batch l) server_ok) in Hrun
      as (H1 & k & Hk & Hv & Hs); [| | | |exact Hok].
    + split; [done|]. exists k. split_and!; [exact Hk|done| |done]. intros Hrt. by apply (Hs tt), Hr1.
    + by intros s0 o s1 Hs0 [= <- <-].
    + intros d s0 o s1 Hs0 E. unfold wait_clock, on_snd in E.
      destruct (waitRetry _ d s0.2) as [o' t']. by injection E as <- <-.
    + intros s0 o s1 Hs0 E. destruct (call_run _ _ _ _ _ _ _ Hsent Hne Ht Hq Hs0 E) as (? & _ & Ho & _).
      split; [done|]. by destruct o; [|destruct Ho..].
Qed.
End GrpcPipeline.

(** ** Witnesses *)

#[local] Instance grpc_service : Service (MemStorage.t * FS) :=
  MetricsService.service_of (MetricsService.sync_service MetricsService.sample_file).
#[local] Instance grpc_service_laws : ServiceLaws (MemStorage.t * FS) :=
  MetricsService.service_laws (MetricsService.sync_service MetricsService.sample_file)
    (MetricsService.file_saver_ok MetricsService.sample_file).

Definition sample_server : GRPCServer.t unit := GRPCServer.New.
Definition ten_subnet : option IPNet := ParseCIDR "10.0.0.0/8".
Definition from_ten : RpcContext := GRPCSender.contextWithRealIP (MkRpcContext Background None) "10.0.0.1".
Definition five_requests : UpdateMetricsRequest :=
  MkUpdateMetricsRequest [Some (MkMetric "n" Metric_COUNTER 5 float_zero)].

Lemma sample_quiet : audit_quiet sample_server.
Proof. intros a Ha. discriminate Ha. Qed.

Lemma five_range : wire_range (Some five_requests).
Proof.
  intros rq m [= <-] [Hm|Hm]%elem_of_cons; [|by apply not_elem_of_nil in Hm].
  injection Hm as ->. unfold in_int64, two63. cbn. lia.
Qed.

Lemma grpc_update_outcome_witness :
  exists r w', GRPCServer.UpdateMetrics sample_server from_ten (Some five_requests) Handler.sample_request_world
    = (r, w') /\ r = Ret tt.
Proof.
  destruct (grpc_update_outcome sample_server from_ten (Some five_requests) Handler.sample_request_world)
    as (r & w' & E & _ & _).
  - exact five_range.
  - exact sample_quiet.
  - exact I.
  - exists r, w'. split; [exact E|]. vm_compute in E. by injection E as <- _.
Defined.

(** A call from outside the subnet. *)
Lemma grpc_chain_outcome_witness :
  exists r s' e, GRPCServer.chain ten_subnet "m" (GRPCServer.UpdateMetrics sample_server)
    (MkRpcContext Background None) (Some five_requests) Handler.sample_request_world = (r, log_append e s') /\
    r = Fail (ErrStatus PermissionDenied "access denied").
Proof.
  destruct (grpc_chain_outcome ten_subnet "m" (GRPCServer.UpdateMetrics sample_server)
    (MkRpcContext Background None) (Some five_requests) Handler.sample_request_world)
    as (r & s' & e & E & _ & [[Ha _]|(_ & Hr & _)]).
  - intros p s' E. vm_compute in E. discriminate E.
  - destruct ten_subnet as [n|] eqn:En; [|vm_compute in En; discriminate En].
    destruct (Ha n eq_refl) as (x & ip & H & _). discriminate H.
  - exists r, s', e. split; [exact E|exact Hr].
Defined.

#[local] Instance grpc_interface : NetInterfaces :=
  Ret [AddrIPNet (MkIPNet (v4_in_v6_prefix ++ [10; 0; 0; 1]) [255; 0; 0; 0])].

Definition grpc_send (st : (World (MemStorage.t * FS) unit * list net_fault) * Z) :=
  GRPCSender.Send (MetricsClient0 := lossy_connection sample_server ten_subnet)
    (GRPCSender.newGRPCSender (C := unit) (Some tt) LocalIP) (MkRpcContext Background None)
    [counter_metric "n" 5] st.

(** The reply of the first call is lost: success, and counted twice. *)
Example lost_reply_counts_twice :
  let '(r, ((sw, _), _)) := grpc_send ((Handler.sample_request_world, [ResponseLost]), 0) in
  r = Ret tt /\ MemStorage.counters (w_service sw).1 !! "n" = Some 10.
Proof. vm_compute. done. Qed.

(** A server that cannot save: the agent is told at once, and the report has been
    counted once. *)
Example failed_save_counts_once :
  let '(r, ((sw, _), now)) := grpc_send ((Handler.nan_world, []), 0) in
  is_ret r = false /\ MemStorage.counters (w_service sw).1 !! "n" = Some 5 /\ now = 0.
Proof. vm_compute. done. Qed.

Lemma grpc_send_at_least_once_witness :
  exists st', grpc_send ((Handler.sample_request_world, []), 0) = (Ret tt, st') /\
    exists k, (1 <= k <= 1)%nat /\ server_view (V := MemStorage.t * FS) (X := unit) st'
      = Nat.iter k (apply_batch [counter_metric "n" 5])
          (server_view (V := MemStorage.t * FS) (X := unit) ((Handler.sample_request_world, []), 0)).
Proof.
  destruct (grpc_send ((Handler.sample_request_world, []), 0)) as [r st'] eqn:E.
  assert (Hr : r = Ret tt) by (vm_compute in E; by injection E as <- _).
  destruct (grpc_send_at_least_once sample_server ten_subnet (Some tt) (MkRpcContext Background None)
    [counter_metric "n" 5] "10.0.0.1" ((Handler.sample_request_world, []), 0) r st') as (_ & k & _ & Hv & H1 & H2).
  - apply Forall_singleton. split; [reflexivity|]. intros d [= <-]. unfold in_int64, two63. lia.
  - vm_compute. reflexivity.
  - discriminate.
  - intros n Hn. exists (v4_in_v6_prefix ++ [10; 0; 0; 1]). split; [vm_compute; reflexivity|].
    vm_compute in Hn. injection Hn as <-. vm_compute. reflexivity.
  - exact sample_quiet.
  - exact I.
  - exact E.
  - exists st'. split; [by rewrite Hr|]. exists k. split; [split; [by apply H1|by apply H2]|exact Hv].
Defined.
