(* ===== verification/Availability.v ===== *)
(** * Every request is answered

    A total-correctness logic for handlers, and what it gives for the whole HTTP
    server: no request, however malformed, makes a handler panic, and no request
    changes the stored metrics other than by applying one batch of valid metrics
    whole. *)

From S2P Require Import Prelude GoError GoString GoNum GoContext GoMap GoJson Model MetricsJson Instances Storage MemStorage FileStore Service NetIP Protocol Log Http AuditTrail Sha256 AesGcm Encryption Middleware Handler Router Pipeline.
Local Open Scope Z_scope.

(** ** Total correctness of handlers *)

(** [{P} m {Q}]: started in a world that satisfies [P], with any response
    writer, [m] returns a value [a] without panic or error, in a world that
    satisfies [Q a]. *)
Definition completes {S W A : Type} (P : S -> Prop) (m : M (S * W) A) (Q : A -> S -> Prop) : Prop :=
  forall s w, P s -> exists a s' w', m (s, w) = (Ret a, (s', w')) /\ Q a s'.

Section Completes.
Context {S W : Type} `{!ResponseWriter W}.

Lemma completes_conseq {A} (P P' : S -> Prop) (m : M (S * W) A) (Q Q' : A -> S -> Prop) :
  completes P' m Q' -> (forall s, P s -> P' s) -> (forall a s, Q' a s -> Q a s) -> completes P m Q.
Proof. intros H HP HQ s w Hs. destruct (H s w (HP s Hs)) as (a & s' & w' & E & Hq). eauto 10. Qed.

Lemma completes_post {A} (P : S -> Prop) (m : M (S * W) A) (Q Q' : A -> S -> Prop) :
  completes P m Q' -> (forall a s, Q' a s -> Q a s) -> completes P m Q.
Proof. intros H HQ. by eapply completes_conseq. Qed.

Lemma completes_ret {A} (P : S -> Prop) (a : A) (Q : A -> S -> Prop) :
  (forall s, P s -> Q a s) -> completes P (W := W) (mret a) Q.
Proof. intros H s w Hs. exists a, s, w. auto. Qed.

Lemma completes_bind {A B} (P : S -> Prop) (m : M (S * W) A) (R : A -> S -> Prop) (f : A -> M (S * W) B)
    (Q : B -> S -> Prop) :
  completes P m R -> (forall a, completes (R a) (f a) Q) -> completes P (m ≫= f) Q.
Proof.
  intros Hm Hf s w Hs. destruct (Hm s w Hs) as (a & s' & w' & E & Ha).
  destruct (Hf a s' w' Ha) as (b & s'' & w'' & E' & Hb). exists b, s'', w''. by rewrite (bind_Ret _ _ _ _ _ E).
Qed.

(** What only touches the writer. *)
Lemma completes_WriteHeader (P : S -> Prop) c : completes P (W := W) (WriteHeader c) (fun _ => P).
Proof. intros s w Hs. by eexists _, _, _. Qed.
Lemma completes_SetHeader (P : S -> Prop) k v : completes P (W := W) (SetHeader k v) (fun _ => P).
Proof. intros s w Hs. by eexists _, _, _. Qed.
Lemma completes_Write (P : S -> Prop) p : completes P (W := W) (Write p) (fun _ => P).
Proof. intros s w Hs. by eexists _, _, _. Qed.
Lemma completes_on_snd (P : S -> Prop) (f : W -> W) : completes P (on_snd (modify f)) (fun _ => P).
Proof. intros s w Hs. by eexists _, _, _. Qed.

(** What only touches the world. *)
Lemma completes_on_fst {A} (P : S -> Prop) (m : M S A) (Q : A -> S -> Prop) :
  (forall s, P s -> exists a s', m s = (Ret a, s') /\ Q a s') -> completes P (W := W) (on_fst m) Q.
Proof.
  intros H s w Hs. destruct (H s Hs) as (a & s' & E & Hq). exists a, s', w. by rewrite (on_fst_Ret _ _ _ _ _ E).
Qed.

Lemma completes_with_writer {V A} (P : S -> Prop) (v : W -> V) (out : W -> V -> W) (m : M (S * V) A)
    (Q : A -> S -> Prop) :
  completes P m Q -> completes P (with_writer v out m) (fun av => Q av.1).
Proof.
  intros H s w Hs. destruct (H s (v w) Hs) as (a & s' & v' & E & Hq).
  exists (a, v'), s', (out w v'). unfold with_writer. cbn [fst snd]. by rewrite E.
Qed.
End Completes.

(** ** Handlers that always answer *)

Section Server.
Context {V X : Type} `{!Service V} `{!ServiceLaws V} `{MapRange} `{FloatText} `{JsonText}.

(** The stored metrics are [v], or [v] with one valid batch applied. *)
Definition kept (v : View) (s : World V X) : Prop :=
  svc_reliable (w_service s) /\ svc_view (w_service s) = v.
Definition changed (v : View) (s : World V X) : Prop :=
  svc_reliable (w_service s) /\
  (svc_view (w_service s) = v \/ exists l, Forall storable l /\ svc_view (w_service s) = apply_batch l v).

Definition serves (h : Handler (World V X)) : Prop := forall v W (RW : ResponseWriter W) r,
  is_Some (ReqBody r) -> completes (kept v) (h W RW r) (fun _ => changed v).

Lemma kept_changed v s : kept v s -> changed v s.
Proof. intros [Hr Hv]. split; auto. Qed.

Lemma changed_of_set v s x :
  svc_reliable x -> (svc_view x = v \/ exists l, Forall storable l /\ svc_view x = apply_batch l v) ->
  changed v (set_service x s).
Proof. by split. Qed.

(** *** Calls of the service *)

Lemma completes_update {A W : Type} v (m : M V A) l :
  Forall storable l ->
  (forall x o x', svc_reliable x -> m x = (o, x') -> svc_reliable x' /\
     match o with
     | Ret _ => svc_view x' = apply_batch l (svc_view x)
     | Fail _ => svc_view x' = svc_view x \/ svc_view x' = apply_batch l (svc_view x)
     | Panic _ => False
     end) ->
  completes (W := W) (kept v) (on_fst (attempt (on_service m))) (fun _ => changed v).
Proof.
  intros Hl Hm s w [Hr <-]. destruct (m (w_service s)) as [o x] eqn:E.
  destruct (Hm _ _ _ Hr E) as [Hr' Ho]. destruct o as [a|e|p]; [| |done].
  - rewrite (attempt_service_Ret _ _ _ _ _ E). eexists _, _, _. split; [done|].
    apply changed_of_set; eauto.
  - rewrite (attempt_service_Fail _ _ _ _ _ E). eexists _, _, _. split; [done|].
    apply changed_of_set; [done|]. destruct Ho; eauto.
Qed.

Lemma completes_UpdateGauge {W : Type} v ctx n x :
  completes (W := W) (kept v) (on_fst (attempt (on_service (svc_UpdateGauge ctx n x)))) (fun _ => changed v).
Proof.
  apply (completes_update v _ [gauge_metric n x]); [auto with go|].
  intros w o w' Hr E. by apply (svc_UpdateGauge_spec _ _ _ _ _ _ Hr E).
Qed.

Lemma completes_UpdateCounter {W : Type} v ctx n d : in_int64 d ->
  completes (W := W) (kept v) (on_fst (attempt (on_service (svc_UpdateCounter ctx n d)))) (fun _ => changed v).
Proof.
  intros Hd. apply (completes_update v _ [counter_metric n d]); [auto with go|].
  intros w o w' Hr E. destruct (svc_UpdateCounter_spec _ _ _ _ _ _ Hd Hr E) as [Hr' Ho]. split; [done|].
  destruct o; [by destruct Ho|done|done].
Qed.

Lemma completes_UpdateMetrics {W : Type} v ctx l : Forall storable l ->
  completes (W := W) (kept v) (on_fst (attempt (on_service (svc_UpdateMetrics ctx l)))) (fun _ => changed v).
Proof.
  intros Hl. apply (completes_update v _ l); [done|].
  intros w o w' Hr E. by apply (svc_UpdateMetrics_spec _ _ _ _ _ Hl Hr E).
Qed.

(** A call that only reads. *)
Definition reads (m : M V unit) : Prop := forall x o x', svc_reliable x -> m x = (o, x') ->
  svc_reliable x' /\ svc_view x' = svc_view x /\ forall p, o <> Panic p.

Lemma completes_read {A W : Type} v (m : M V A) :
  (forall x o x', svc_reliable x -> m x = (o, x') ->
     svc_reliable x' /\ svc_view x' = svc_view x /\ forall p, o <> Panic p) ->
  completes (W := W) (kept v) (on_fst (attempt (on_service m))) (fun _ => kept v).
Proof.
  intros Hm s w [Hr <-]. destruct (m (w_service s)) as [o x] eqn:E.
  destruct (Hm _ _ _ Hr E) as (Hr' & Hv & Hp). destruct o as [a|e|p]; [| |by destruct (Hp p)].
  - rewrite (attempt_service_Ret _ _ _ _ _ E). by eexists _, _, _.
  - rewrite (attempt_service_Fail _ _ _ _ _ E). by eexists _, _, _.
Qed.

Lemma completes_GetGauge {W : Type} v ctx n :
  completes (W := W) (kept v) (on_fst (attempt (on_service (svc_GetGauge ctx n)))) (fun _ => kept v).
Proof.
  apply completes_read. intros x o x' Hr E. destruct (svc_GetGauge_spec _ _ _ _ _ Hr E) as (? & ? & Ho).
  split_and!; [done..|]. by intros p ->.
Qed.
Lemma completes_GetCounter {W : Type} v ctx n :
  completes (W := W) (kept v) (on_fst (attempt (on_service (svc_GetCounter ctx n)))) (fun _ => kept v).
Proof.
  apply completes_read. intros x o x' Hr E. destruct (svc_GetCounter_spec _ _ _ _ _ Hr E) as (? & ? & Ho).
  split_and!; [done..|]. by intros p ->.
Qed.
Lemma completes_Snapshot {W : Type} v ctx :
  completes (W := W) (kept v) (on_fst (attempt (on_service (svc_Snapshot ctx)))) (fun _ => kept v).
Proof.
  apply completes_read. intros x o x' Hr E. destruct (svc_Snapshot_spec _ _ _ _ Hr E) as (? & ? & Ho).
  split_and!; [done..|]. by intros p ->.
Qed.

(** *** Decoding and auditing *)

Lemma completes_pure {W A : Type} (φ : Prop) (P : World V X -> Prop) (m : M (World V X * W) A) Q :
  (φ -> completes P m Q) -> completes (fun s => φ /\ P s) m Q.
Proof. intros Ht s w [Hφ Hs]. by apply Ht. Qed.

Lemma completes_decode {A W : Type} `{!ResponseWriter W} v (dec : json -> option A) r :
  is_Some (ReqBody r) ->
  completes (W := W) (kept v) (Handler.decodeJSONRequest dec r)
    (fun a s => (forall x, a = Some x -> exists j, dec j = Some x) /\ kept v s).
Proof.
  intros Hb s w Hs. rewrite Handler.decodeJSONRequest_run by done.
  destruct (Handler.decoded dec r) as [c|x] eqn:E; eexists _, _, _; (split; [done|]); (split; [|done]).
  - done.
  - intros ? [= <-]. by eapply Handler.decoded_dec.
Qed.

Lemma changed_service v s s' : w_service s' = w_service s -> changed v s -> changed v s'.
Proof. unfold changed. by intros ->. Qed.

Section Handlers.
Variable h : Handler.t V X.
Hypothesis Hquiet : Handler.audit_quiet h.
Hypothesis Hping : forall ping, Handler.db h = Some ping -> forall ctx, reads (ping ctx).

Lemma completes_notifyMetric {W : Type} v r n :
  completes (W := W) (changed v) (on_fst (Handler.notifyAuditMetric h r n)) (fun _ => changed v).
Proof.
  apply completes_on_fst. intros s Hs.
  destruct (Handler.notifyAuditMetric_ok h r n s Hquiet) as (s' & E & Hw & _).
  exists tt, s'. split; [done|]. by eapply changed_service.
Qed.

Lemma completes_notifyMetrics {W : Type} v r l :
  completes (W := W) (changed v) (on_fst (Handler.notifyAuditMetrics h r l)) (fun _ => changed v).
Proof.
  apply completes_on_fst. intros s Hs.
  destruct (Handler.notifyAuditMetrics_ok h r l s Hquiet) as (s' & E & Hw & _).
  exists tt, s'. split; [done|]. by eapply changed_service.
Qed.

(** One call of a handler. *)
Ltac call := first
  [ apply completes_WriteHeader | apply completes_SetHeader | apply completes_Write
  | apply completes_UpdateGauge | apply completes_UpdateCounter | apply completes_UpdateMetrics
  | apply completes_GetGauge | apply completes_GetCounter | apply completes_Snapshot
  | apply completes_notifyMetric | apply completes_notifyMetrics | apply completes_decode; done ].

(** A whole handler, branch by branch. *)
Ltac serve_all := lazymatch goal with
  | |- completes _ (_ ≫= _) _ => eapply completes_bind; [call | intros ?; cbv beta; serve_all]
  | |- completes (fun s => _ /\ _) _ _ => apply completes_pure; intros ?; serve_all
  | |- completes _ (mret _) _ => apply completes_ret; auto using kept_changed
  | |- completes _ (if ?b then _ else _) _ => destruct b; serve_all
  | |- completes _ (match ?x with _ => _ end) _ => destruct x eqn:?; serve_all
  | |- completes _ (let _ := _ in _) _ => cbv zeta; serve_all
  | |- completes _ _ _ => try (eapply completes_post; [call | auto using kept_changed])
  | |- _ => idtac
  end.

Lemma Update_serves : serves (Handler.Update h).
Proof.
  intros v W RW r Hb. unfold Handler.Update. serve_all. all: try (by eapply ParseInt_range).
Qed.

Lemma ValueText_serves : serves (Handler.ValueText h).
Proof. intros v W RW r Hb. unfold Handler.ValueText. serve_all. Qed.

Lemma Index_serves : serves (Handler.Index h).
Proof. intros v W RW r Hb. unfold Handler.Index. serve_all. Qed.
Lemma writeMetricJSON_ok {W : Type} `{!ResponseWriter W} (P : World V X -> Prop) c m :
  completes (W := W) P (Handler.writeMetricJSON c m) (fun _ => P).
Proof. unfold Handler.writeMetricJSON. serve_all. Qed.

Ltac call ::= first
  [ apply completes_WriteHeader | apply completes_SetHeader | apply completes_Write
  | apply completes_UpdateGauge | apply completes_UpdateCounter | apply completes_UpdateMetrics
  | apply completes_GetGauge | apply completes_GetCounter | apply completes_Snapshot
  | apply completes_notifyMetric | apply completes_notifyMetrics | apply completes_decode; done
  | apply writeMetricJSON_ok ].

(** A metric that passes validation carries its value. *)
Lemma validated_Value m : Handler.validateMetric m = StatusOK -> MType m = Gauge -> is_Some (Value m).
Proof. intros Hm Ht. by apply (Handler.validateMetric_OK _ Hm). Qed.
Lemma validated_Delta m : Handler.validateMetric m = StatusOK -> MType m = Counter -> is_Some (Delta m).
Proof. intros Hm Ht. by apply (Handler.validateMetric_OK _ Hm). Qed.

Lemma UpdateJSON_serves : serves (Handler.UpdateJSON h).
Proof.
  intros v W RW r Hb. unfold Handler.UpdateJSON. eapply completes_bind; [call|]. intros [m|]; cbv beta.
  2: { apply completes_pure. intros _. serve_all. }
  apply completes_pure. intros Hj. destruct (Hj m eq_refl) as [j Hm]. apply Handler.metric_of_json_int64 in Hm.
  cbv zeta. destruct (decide (Handler.validateMetric m <> StatusOK)) as [|Hok]; [serve_all|].
  apply dec_stable in Hok. destruct (decide (MType m = Gauge)) as [Hg|].
  - destruct (validated_Value m Hok Hg) as [x ->]. serve_all.
  - destruct (decide (MType m = Counter)) as [Hc|]; [|serve_all].
    destruct (validated_Delta m Hok Hc) as [d Hd]. rewrite Hd. serve_all. by apply Hm.
Qed.

Lemma UpdatesJSON_serves : serves (Handler.UpdatesJSON h).
Proof.
  intros v W RW r Hb. unfold Handler.UpdatesJSON. serve_all.
  match goal with H : forall x, Some _ = Some x -> _ |- _ => destruct (H _ eq_refl) as [j Hj] end.
  by eapply Handler.accepted_batch_storable.
Qed.

Lemma ValueJSON_serves : serves (Handler.ValueJSON h).
Proof. intros v W RW r Hb. unfold Handler.ValueJSON. serve_all. Qed.

Lemma Ping_serves : serves (Handler.Ping h).
Proof.
  intros v W RW r Hb. unfold Handler.Ping. destruct (Handler.db h) as [ping|] eqn:Ed; [|serve_all].
  eapply completes_bind; [apply completes_read, (Hping _ eq_refl)|]. intros a. serve_all.
Qed.
End Handlers.

(** ** Middlewares keep serving *)

Lemma completes_log {W : Type} v lv msg fields :
  completes (W := W) (changed v) (on_fst (log lv msg fields)) (fun _ => changed v).
Proof. apply completes_on_fst. intros s Hs. by exists tt, (log_append (MkEntry lv msg fields) s). Qed.

Lemma completes_now {W : Type} (P : World V X -> Prop) :
  completes (W := W) P (on_fst (gets time_Now)) (fun _ => P).
Proof. apply completes_on_fst. intros s Hs. by exists (time_Now s), s. Qed.

Lemma WithLogging_serves next : serves next -> serves (WithLogging next).
Proof.
  intros Hn v W RW r Hb. unfold WithLogging. eapply completes_bind; [apply completes_now|]. intros start.
  eapply completes_bind; [by apply completes_with_writer, Hn|]. intros [_ lw]. cbv beta iota.
  eapply completes_bind; [apply completes_now|]. intros finish. cbv zeta. case_decide; apply completes_log.
Qed.

Lemma send_signed_ok {W : Type} `{!ResponseWriter W} (P : World V X -> Prop) key hw :
  completes (W := W) P (send_signed key hw) (fun _ => P).
Proof.
  unfold send_signed. cbv zeta. eapply completes_bind; [apply completes_on_snd|]. intros [].
  eapply completes_bind; [apply completes_WriteHeader|]. intros [].
  case_decide; [apply completes_Write|by apply completes_ret].
Qed.

Lemma refuse_ok {W : Type} `{!ResponseWriter W} v c :
  completes (W := W) (S := World V X) (kept v) (WriteHeader c) (fun _ => changed v).
Proof. eapply completes_post; [apply completes_WriteHeader|]. auto using kept_changed. Qed.

Lemma check_hash_body key r r' : check_hash key r = Some r' -> is_Some (ReqBody r) -> is_Some (ReqBody r').
Proof. unfold check_hash. intros E [b Hb]. rewrite Hb in E. repeat case_match; simplify_eq; by eexists. Qed.

Lemma WithHash_serves key next : serves next -> serves (WithHash key next).
Proof.
  intros Hn v W RW r Hb. unfold WithHash. case_decide; [by apply Hn|].
  destruct (check_hash key r) as [r'|] eqn:E; [|apply refuse_ok].
  eapply completes_bind; [apply completes_with_writer, Hn; by eapply check_hash_body|].
  intros [_ hw]. apply send_signed_ok.
Qed.

Lemma WithTrustedSubnet_serves subnet next : serves next -> serves (WithTrustedSubnet subnet next).
Proof.
  intros Hn v W RW r Hb. unfold WithTrustedSubnet.
  destruct subnet as [n|]; [|by apply Hn]. destruct (ParseIP _) as [ip|]; [|apply refuse_ok].
  destruct (IPNet_Contains n ip); [by apply Hn|apply refuse_ok].
Qed.

Section Gzipped.
Context `{Gzip}.
(** [gzip.NewReader] returns errors. *)
Hypothesis gzip_total : forall b p, gzip_open b <> Panic p.

Lemma serve_gzip_serves next : serves next -> serves (fun W RW r => serve_gzip next r W RW).
Proof.
  intros Hn v W RW r Hb. unfold serve_gzip. destruct (supports_gzip r); [|by apply Hn].
  eapply completes_bind; [by apply completes_with_writer, Hn|]. intros a. by apply completes_ret.
Qed.

Lemma WithGzip_serves next : serves next -> serves (WithGzip next).
Proof.
  intros Hn v W RW r Hb. unfold WithGzip. destruct (sends_gzip r); [|by apply (serve_gzip_serves next)].
  destruct Hb as [b Hb]. rewrite Hb. cbn [newCompressReader].
  destruct (gzip_open b) as [cr|e|p] eqn:E; [|apply refuse_ok|by apply gzip_total in E].
  apply (serve_gzip_serves next); [done|]. by eexists.
Qed.
End Gzipped.

Section Decrypting.
Context {R PK SK : Type} `{!Crypto R PK SK}.
(** The primitive returns errors; [gcm.Open] panics only on a nonce of the wrong
    size. *)
Hypothesis DecryptOAEP_total : forall (sk : SK) c p, DecryptOAEP (PK := PK) (R := R) sk c <> Panic p.

Lemma Decrypt_total data (sk : option SK) p : Decrypt (R := R) (PK := PK) data sk <> Panic p.
Proof.
  unfold Decrypt, and_then, wrap_fail, aes_NewCipher, NewGCM, Unmarshal_envelope.
  intros E. repeat case_match; simplify_eq.
  all: try (by eapply DecryptOAEP_total).
  all: eapply gcm_Open_total; [|done]; by apply dec_stable.
Qed.

Lemma WithDecryption_serves (sk : option SK) next :
  serves next -> serves (WithDecryption (R := R) (PK := PK) sk next).
Proof.
  intros Hn v W RW r Hb. unfold WithDecryption. cbv zeta. case_decide; [by apply Hn|].
  destruct sk as [sk|]; [|apply refuse_ok]. destruct (negb _); [apply refuse_ok|].
  destruct Hb as [b Hb]. rewrite Hb. unfold decryptRequestBody, ReadAll, and_then.
  destruct (body_end b); [apply refuse_ok|].
  destruct (Decrypt (body_data b) (Some sk)) as [plain|e|p] eqn:E; [|apply refuse_ok|by apply Decrypt_total in E].
  apply Hn. by eexists.
Qed.
End Decrypting.
End Server.

(** ** The whole server *)

(** What the program relies on of the libraries around its handlers: they return
    errors instead of panicking, as documented; [chi]'s own replies leave the
    program's state alone. *)
Class LibrariesReturn (S R PK SK : Type) `{Gzip} `{!Crypto R PK SK} `{Chi} := {
  lib_gzip_open : forall b p, gzip_open b <> Panic p;
  lib_DecryptOAEP : forall (sk : SK) c p, DecryptOAEP (PK := PK) (R := R) sk c <> Panic p;
  lib_chi_NotFound : forall (P : S -> Prop) W (RW : ResponseWriter W) r,
    completes P (chi_NotFound S W RW r) (fun _ => P);
  lib_chi_MethodNotAllowed : forall (P : S -> Prop) W (RW : ResponseWriter W) r,
    completes P (chi_MethodNotAllowed S W RW r) (fun _ => P);
}.

(** Requests one after the other, as the HTTP server runs them: a response each,
    or [None] where the handler panicked and the connection is cut. *)
Fixpoint serve_requests {S : Type} (h : Handler S) (rs : list Request) (s : S) : list (option Response) * S :=
  match rs with
  | [] => ([], s)
  | r :: rs =>
      let '(o, (s, w)) := h Response _ r (s, new_response) in
      let '(ws, s) := serve_requests h rs s in
      (match o with Ret _ => Some (finish w) | _ => None end :: ws, s)
  end.

Lemma serves_mux {V X : Type} `{!Service V, !ServiceLaws V, Chi} (rts : list (route (World V X))) :
  (forall (P : World V X -> Prop) W (RW : ResponseWriter W) r, completes P (chi_NotFound _ W RW r) (fun _ => P)) ->
  (forall (P : World V X -> Prop) W (RW : ResponseWriter W) r, completes P (chi_MethodNotAllowed _ W RW r) (fun _ => P)) ->
  Forall (fun rt => serves (route_handler rt)) rts -> serves (mux rts).
Proof.
  intros Hn Hm Hr v W RW r Hb. unfold mux.
  destruct (chi_route _ r) as [i params| |];
    [|eapply completes_post; [apply Hn|auto using kept_changed]|eapply completes_post; [apply Hm|auto using kept_changed]].
  destruct (rts !! i) as [rt|] eqn:E; [|eapply completes_post; [apply Hn|auto using kept_changed]].
  rewrite Forall_lookup in Hr. by apply (Hr i rt E).
Qed.

Section HTTPServer.
Context {V X R PK SK : Type} `{!Service V} `{!ServiceLaws V} `{MapRange} `{FloatText} `{JsonText} `{Gzip}
  `{!Crypto R PK SK} `{Chi} `{!LibrariesReturn (World V X) R PK SK}.

(** An auditor that returns, and a database whose [Ping] changes no metrics. *)
Definition well_behaved (h : Handler.t V X) : Prop :=
  Handler.audit_quiet h /\ forall ping, Handler.db h = Some ping -> forall ctx, reads (ping ctx).

Lemma Router_serves h (opts : Router.Options SK) :
  well_behaved h -> serves (Router.New (R := R) (PK := PK) h opts).
Proof.
  intros [Hq Hp]. rewrite Router.New_layers. apply WithLogging_serves. unfold Router.hash_layer, Router.decrypt_layer.
  assert (Hmux : serves (WithGzip (mux (Router.routes h opts)))).
  { apply WithGzip_serves; [apply lib_gzip_open|].
    apply serves_mux; [intros; apply lib_chi_NotFound|intros; apply lib_chi_MethodNotAllowed|].
    repeat apply Forall_cons_2; [..|apply Forall_nil_2]; cbn [route_handler];
      auto using Ping_serves, Update_serves, UpdateJSON_serves, UpdatesJSON_serves, ValueText_serves,
        ValueJSON_serves, Index_serves, WithTrustedSubnet_serves. }
  assert (Hdec : serves match Router.PrivateKey opts with
    | Some k => WithDecryption (R := R) (PK := PK) (Some k) (WithGzip (mux (Router.routes h opts)))
    | None => WithGzip (mux (Router.routes h opts)) end).
  { destruct (Router.PrivateKey opts); [|done].
    apply WithDecryption_serves; [apply lib_DecryptOAEP|done]. }
  case_decide; [by apply WithHash_serves|done].
Qed.

Lemma serve_requests_ok (g : Handler (World V X)) rs s ws s' :
  serves g -> Forall (fun r => is_Some (ReqBody r)) rs -> svc_reliable (w_service s) ->
  serve_requests g rs s = (ws, s') ->
  List.length ws = List.length rs /\ Forall is_Some ws /\
  exists ls, (List.length ls <= List.length rs)%nat /\ Forall (Forall storable) ls /\
    svc_view (w_service s') = foldl (fun v l => apply_batch l v) (svc_view (w_service s)) ls.
Proof.
  intros Hg Hrs. revert s ws s'. induction Hrs as [|r rs Hr _ IH]; intros s ws s' Hs; cbn [serve_requests].
  { intros [= <- <-]. split_and!; [done|by constructor|]. exists []. by split_and!; auto. }
  destruct (Hg (svc_view (w_service s)) Response _ r Hr s new_response) as ([] & s1 & w & E & Hs1 & Hv);
    [by split|].
  rewrite E. destruct (serve_requests g rs s1) as [ws1 s2] eqn:E2. intros [= <- <-].
  destruct (IH s1 ws1 s2 Hs1 E2) as (Hl & Hw & ls & Hls & Hst & Hv2).
  split_and!; [cbn; by rewrite Hl|by constructor|]. destruct Hv as [Hv|(l & Hl1 & Hv)].
  - exists ls. rewrite Hv2, Hv. split_and!; [cbn; lia|done|done].
  - exists (l :: ls). rewrite Hv2, Hv. split_and!; [cbn; lia|by constructor|done].
Qed.

(** C5: Every request is answered.  However malformed the requests are, whatever
    is in their headers and bodies, and whatever keys and subnet the server is
    configured with, each of a sequence of requests gets a response, no handler
    panics, and the stored metrics end as the result of at most one batch of
    valid metrics per request, applied whole and in order. *)
Theorem every_request_answered h (opts : Router.Options SK) rs s ws s' :
  well_behaved h -> svc_reliable (w_service s) -> Forall (fun r => is_Some (ReqBody r)) rs ->
  serve_requests (Router.New (R := R) (PK := PK) h opts) rs s = (ws, s') ->
  List.length ws = List.length rs /\ Forall is_Some ws /\
  exists ls, (List.length ls <= List.length rs)%nat /\ Forall (Forall storable) ls /\
    svc_view (w_service s') = foldl (fun v l => apply_batch l v) (svc_view (w_service s)) ls.
Proof. intros Hh Hs Hrs. apply serve_requests_ok; [by apply Router_serves|done|done]. Qed.
End HTTPServer.

(** ** Witnesses *)

#[local] Instance available_service : Service (MemStorage.t * FS) :=
  MetricsService.service_of (MetricsService.sync_service MetricsService.sample_file).
#[local] Instance available_service_laws : ServiceLaws (MemStorage.t * FS) :=
  MetricsService.service_laws (MetricsService.sync_service MetricsService.sample_file)
    (MetricsService.file_saver_ok MetricsService.sample_file).

Lemma toy_open_total p c w : toy_open p c <> Panic w.
Proof. unfold toy_open. by destruct (strip_prefix p c). Qed.

#[local] Instance toy_libraries {S} : LibrariesReturn S nat N N.
Proof.
  split; intros.
  - cbn. repeat case_match; done.
  - apply toy_open_total.
  - apply completes_WriteHeader.
  - apply completes_WriteHeader.
Qed.

Definition post (path : string) (headers : Header) (body : string) : Request :=
  MkRequest MethodPost path "10.0.0.1:4000" headers (Some (bytes_body body)) (len body) (fun _ => "") Background.

Definition json_headers : Header :=
  header_Set HeaderContentType ContentTypeJSON (header_Set HeaderRealIP "10.0.0.1" ∅).

(** A batch, a body that is no JSON, one that claims to be encrypted, one that
    claims to be compressed, and a path without a route. *)
Definition odd_requests : list Request :=
  [ post "/updates" json_headers (default "" (outcome_value (Marshal_metrics sample_batch)));
    post "/updates" json_headers "[{";
    post "/updates" (header_Set HeaderContentEncryption SchemeRSAOAEPWithAESGCM json_headers) "{}";
    post "/updates" (header_Set HeaderContentEncoding EncodingGzip json_headers) "plain";
    post "/nowhere" ∅ "" ].

Definition open_options : Router.Options N := Router.MkOptions "" (Some 7%N) (ParseCIDR "10.0.0.0/8").

Definition serve_odd : list (option Response) * World (MemStorage.t * FS) unit :=
  serve_requests (Router.New (R := nat) (PK := N) sample_handler open_options) odd_requests
    Handler.sample_request_world.

Example odd_statuses : map (fun w => w ≫= resp_status) serve_odd.1
  = [Some 200; Some 400; Some 400; Some 500; Some 404].
Proof. vm_compute. reflexivity. Qed.

Lemma sample_well_behaved : well_behaved sample_handler.
Proof. split; [exact Handler.sample_no_audit|done]. Qed.

Lemma odd_bodies : Forall (fun r => is_Some (ReqBody r)) odd_requests.
Proof. repeat constructor; by eexists. Qed.

Lemma every_request_answered_witness :
  List.length serve_odd.1 = List.length odd_requests /\ exists ls, (List.length ls <= List.length odd_requests)%nat /\ Forall (Forall storable) ls /\
    svc_view (w_service serve_odd.2)
    = foldl (fun v l => apply_batch l v) (svc_view (w_service Handler.sample_request_world)) ls.
Proof.
  destruct (every_request_answered (R := nat) (PK := N) sample_handler open_options odd_requests
    Handler.sample_request_world serve_odd.1 serve_odd.2) as (Hl & _ & Hls).
  - exact sample_well_behaved.
  - exact I.
  - exact odd_bodies.
  - exact (surjective_pairing serve_odd).
  - split; [exact Hl|exact Hls].
Defined.
