(* ===== verification/Delivery.v ===== *)
(** * From a poll to the server's counter

    The goroutines of the agent (AgentRuntime.v) and the server at the other end of
    its sender, in one transition system: the workers' attempts to deliver their
    reports interleave with every other move of the agent.  What an attempt does to
    the server's metrics is the interface [Channel], which the HTTP sender
    (Pipeline.v) and the gRPC sender (GrpcPipeline.v) implement. *)

From S2P Require Import Prelude GoError GoString GoNum GoContext GoMap GoJson Model MetricsJson Instances Storage MemStorage FileStore Service NetIP Retry Protocol Log Http AuditTrail Sha256 Base64 AesGcm Encryption Middleware HTTPSender Handler Router Pipeline AgentConfig AgentService AgentRuntime Grpc GrpcPipeline.
Local Open Scope Z_scope.

(** ** The interface *)

(** One attempt to deliver a batch, as a relation: what goes over the wire may depend
    on random numbers and on the clock.  [chan_fine] is a state of the network and of
    the server in which nothing goes wrong. *)
Class Channel (X : Type) := {
  chan_view : X -> View;
  chan_ok : X -> Prop;
  chan_fine : X -> Prop;
  chan_sendable : list Metrics -> Prop;
  chan_attempt : list Metrics -> X -> outcome error unit -> X -> Prop;
}.

Class ChannelLaws (X : Type) `{!Channel X} := {
  chan_attempt_spec l x o x' : chan_sendable l -> chan_ok x -> chan_attempt l x o x' ->
    chan_ok x' /\
    match o with
    | Ret _ => chan_view x' = apply_batch l (chan_view x)
    | _ => chan_view x' = chan_view x \/ chan_view x' = apply_batch l (chan_view x)
    end;
  chan_attempt_fine l x o x' : chan_sendable l -> chan_ok x -> chan_fine x -> chan_attempt l x o x' ->
    o = Ret tt /\ chan_fine x';
}.

(** ** What a report adds to the server's counter *)

Definition poll_total (w : View) : Z := counter_total "PollCount" w.

Lemma poll_total_gauges gs w :
  poll_total (apply_batch (map (fun kv => gauge_metric kv.1 kv.2) gs) w) = poll_total w.
Proof. revert w. induction gs as [|g gs IH]; intros w; [done|]. cbn [map]. by rewrite apply_batch_cons, IH. Qed.

Lemma wrap64_wrap_add a b : wrap64 (wrap64 a + b) = wrap64 (a + b).
Proof.
  destruct (wrap64_decompose a) as [k ->].
  replace (a + k * two64 + b) with (a + b + k * two64) by lia. apply wrap64_add_mul.
Qed.

Lemma poll_total_report `{MapRange} gauges n w :
  poll_total (apply_batch (ReportingService.batch_of gauges n) w) = wrap64 (poll_total w + n).
Proof.
  unfold ReportingService.batch_of, apply_batch. rewrite foldl_app.
  fold (apply_batch (map (fun kv => gauge_metric kv.1 kv.2) (range_map gauges)) w).
  rewrite <-(poll_total_gauges (range_map gauges) w).
  generalize (apply_batch (map (fun kv => gauge_metric kv.1 kv.2) (range_map gauges)) w).
  intros w1.
  change (foldl apply_metric w1 [counter_metric "PollCount" n]) with (add_counter "PollCount" n w1).
  unfold poll_total, counter_total at 1, add_counter. cbn [view_counters]. by rewrite lookup_insert_eq.
Qed.

Section Delivery.
Context {X : Type} `{!Channel X} `{!ChannelLaws X} `{MapRange} (limit : nat).
Abbreviation agent := Agent.state.

(** What [buildMetricsBatch] makes of [n] polls and some gauges. *)
Definition report_of (n : Z) (l : list Metrics) : Prop :=
  chan_sendable l /\ exists gauges, l = ReportingService.batch_of gauges n.

(** Someone is sending a report of [n] polls. *)
Definition in_hand (s : agent) (n : Z) : Prop :=
  (exists i, Agent.workers s !! i = Some (Agent.WSending n)) \/ Agent.main s = Agent.MFlushing n.

(** [Send] returns without an error, to a worker or to [Flush]. *)
Inductive acknowledged (n : Z) : agent -> agent -> Prop :=
| ack_worker s i : Agent.workers s !! i = Some (Agent.WSending n) ->
    acknowledged n s (Agent.ghost_acked n (Agent.set_worker i Agent.WIdle s))
| ack_flush s : Agent.main s = Agent.MFlushing n ->
    acknowledged n s (Agent.ghost_acked n (Agent.set_main (Agent.MReturned None) (Agent.cancelSend s))).

(** The agent moves by itself, acknowledging nothing; an attempt fails, whatever the
    sender does next; the attempt succeeds that lets [Send] return. *)
Inductive deliver : agent * X -> agent * X -> Prop :=
| deliver_agent s s' x : Agent.step limit s s' -> Agent.acked s' = Agent.acked s -> deliver (s, x) (s', x)
| deliver_failed s x n l o x' : in_hand s n -> report_of n l -> chan_attempt l x o x' -> is_ret o = false ->
    deliver (s, x) (s, x')
| deliver_acked s s' x n l x' : acknowledged n s s' -> report_of n l -> chan_attempt l x (Ret tt) x' ->
    deliver (s, x) (s', x').

Lemma acknowledged_step n s s' : acknowledged n s s' -> Agent.step limit s s'.
Proof.
  destruct 1; left; [apply Agent.by_worker; by constructor|apply Agent.by_run; by constructor].
Qed.

Lemma acknowledged_acked n s s' : acknowledged n s s' -> Agent.acked s' = Agent.acked s + n.
Proof. by destruct 1. Qed.

Lemma acknowledged_in_hand n s s' : acknowledged n s s' -> in_hand s n.
Proof. destruct 1; [left; by eexists|by right]. Qed.

Lemma step_polled s s' : Agent.step limit s s' -> Agent.polled s <= Agent.polled s'.
Proof. intros [[Hs|Hs|Hs|Hs|Hs|Hs]|Hs]; destruct Hs; cbn; lia. Qed.

Lemma in_hand_nonneg s n : Agent.reachable limit s -> Agent.polled s < two63 -> in_hand s n -> 0 <= n.
Proof.
  intros Hi%Agent.inv_reachable Hlt Hn. destruct (Agent.inv_accounts _ s Hi Hlt) as [(_ & _ & _ & Hw & Hm & _) _].
  destruct Hn as [[i Hi']|Hm']; [|by rewrite Hm' in Hm].
  exact (proj1 (Forall_forall _ _) Hw _ (list_elem_of_lookup_2 _ _ _ Hi')).
Qed.

(** What every run of the two keeps: the server's counter has grown by at least what
    the agent holds to be acknowledged, and by exactly that if nothing went wrong. *)
Definition counted (x0 : X) (s : agent) (x : X) : Prop :=
  Agent.polled s < two63 ->
  exists total, poll_total (chan_view x) = wrap64 (poll_total (chan_view x0) + total) /\
    Agent.acked s <= total /\ (chan_fine x0 -> total = Agent.acked s).

Record delivering (x0 : X) (s : agent) (x : X) : Prop := {
  del_reachable : Agent.reachable limit s;
  del_ok : chan_ok x;
  del_fine : chan_fine x0 -> chan_fine x;
  del_counted : counted x0 s x;
}.

(** A report applied on top of what is counted already. *)
Lemma counted_report x0 x n l x' total :
  report_of n l -> chan_view x' = apply_batch l (chan_view x) ->
  poll_total (chan_view x) = wrap64 (poll_total (chan_view x0) + total) ->
  poll_total (chan_view x') = wrap64 (poll_total (chan_view x0) + (total + n)).
Proof.
  intros [_ [gauges ->]] -> E. rewrite poll_total_report, E, wrap64_wrap_add. f_equal. lia.
Qed.

Lemma delivering_step x0 s x s' x' :
  delivering x0 s x -> deliver (s, x) (s', x') -> delivering x0 s' x'.
Proof.
  intros [Hr Hok Hfine Hc] Hstep. inversion Hstep as [? ? ? Hs Ha|? ? n l o ? Hn Hl Hatt Ho|? ? ? n l ? Hack Hl Hatt];
    subst.
  - split; [by eapply rtc_r|done|done|]. intros Hlt. rewrite Ha. apply Hc. apply step_polled in Hs. lia.
  - destruct (chan_attempt_spec _ _ _ _ (proj1 Hl) Hok Hatt) as [Hok' Hv]. split; [done|done| |].
    + intros Hf. by apply (chan_attempt_fine _ _ _ _ (proj1 Hl) Hok (Hfine Hf)) in Hatt as [-> _].
    + intros Hlt. destruct (Hc Hlt) as (total & E & Hle & Heq).
      assert (Hno : chan_fine x0 -> False).
      { intros Hf. by apply (chan_attempt_fine _ _ _ _ (proj1 Hl) Hok (Hfine Hf)) in Hatt as [-> _]. }
      pose proof (in_hand_nonneg s' n Hr Hlt Hn).
      assert (Hv' : chan_view x' = chan_view x \/ chan_view x' = apply_batch l (chan_view x)) by by destruct o.
      destruct Hv' as [Hv'|Hv']; [exists total; by rewrite Hv'|]. exists (total + n).
      split_and!; [by eapply counted_report|lia|done].
  - destruct (chan_attempt_spec _ _ _ _ (proj1 Hl) Hok Hatt) as [Hok' Hv].
    pose proof (acknowledged_step _ _ _ Hack) as Hs. split; [by eapply rtc_r|done| |].
    + intros Hf. by apply (chan_attempt_fine _ _ _ _ (proj1 Hl) Hok (Hfine Hf)) in Hatt as [_ ?].
    + intros Hlt. pose proof (step_polled _ _ Hs). destruct (Hc ltac:(lia)) as (total & E & Hle & Heq).
      rewrite (acknowledged_acked _ _ _ Hack). exists (total + n).
      split_and!; [by eapply counted_report|lia|]. intros Hf. by rewrite Heq.
Qed.

Lemma delivering_reachable x0 s x :
  chan_ok x0 -> in_int64 (poll_total (chan_view x0)) -> rtc deliver (Agent.init limit, x0) (s, x) -> delivering x0 s x.
Proof.
  intros Hok H64 Hrun. set (P := fun sx : agent * X => delivering x0 sx.1 sx.2). change (P (s, x)).
  revert Hrun. apply (rtc_ind_r P).
  - split; [constructor|done|done|]. intros _. exists 0. cbn.
    split_and!; [by rewrite Z.add_0_r, wrap64_id|done|done].
  - intros [s1 x1] [s2 x2] _ Hstep HP. by eapply delivering_step.
Qed.

(** C2: no poll is lost on the way to the server, over either transport, whatever
    the interleaving, the losses on the network and the failures of the server: its
    [PollCount] has grown by at least the polls the agent counts as acknowledged;
    once [Run] has returned without an error these are all polls ever made; and if
    nothing went wrong it has grown by exactly their number.  (The counter wraps as
    an [int64]; the agent's own count is below 2^63.) *)
Theorem polls_reach_server x0 s x :
  chan_ok x0 -> in_int64 (poll_total (chan_view x0)) ->
  rtc deliver (Agent.init limit, x0) (s, x) -> Agent.polled s < two63 ->
  exists total, poll_total (chan_view x) = wrap64 (poll_total (chan_view x0) + total) /\
    Agent.acked s <= total /\
    (Agent.main s = Agent.MReturned None -> Agent.acked s = Agent.polled s) /\
    (chan_fine x0 -> total = Agent.acked s).
Proof.
  intros Hok H64 Hrun Hlt. destruct (delivering_reachable x0 s x Hok H64 Hrun) as [Hr _ _ Hc].
  destruct (Hc Hlt) as (total & E & Hle & Hf). exists total. split_and!; [done..| |done].
  intros Hm. by apply (Agent.returned_clean limit s (Agent.inv_reachable _ _ Hr) Hm Hlt).
Qed.
End Delivery.

(** ** The two transports *)

Section HttpChannel.
Context {V X R PK SK : Type} `{!Service V} `{!ServiceLaws V} `{MapRange} `{FloatText} `{!FloatTextLaws}
  `{JsonText} `{!JsonTextLaws} `{Gzip} `{!GzipLaws} `{!Crypto R PK SK} `{!CryptoLaws R PK SK}
  `{Chi} `{!ChiLaws}.
Context (h : Handler.t V X) (opts : Router.Options SK) (s : HTTPSender.t PK) (realIP addr : string).

(** An attempt of [postWithRetry]; the network is fine when it loses nothing, the
    server when its service refuses nothing. *)
Definition http_channel : Channel (World V X * list net_fault) := {|
  chan_view x := svc_view (w_service x.1);
  chan_ok x := svc_reliable (w_service x.1);
  chan_fine x := x.2 = [] /\ svc_infallible V;
  chan_sendable := sendable;
  chan_attempt l x o x' := exists rnd hdr body ctx now now',
    HTTPSender.request_of (SK := SK) s l realIP rnd = Some (hdr, body) /\
    HTTPSender.sendAttempt (RestClient0 := lossy_network (R := R) h opts addr) s ctx "/updates" body
      (CalcHash body (HTTPSender.hashKey s)) realIP (x, now) = (o, (x', now'));
|}.

Lemma http_channel_laws :
  compatible (R := R) opts s -> updates_routed h opts -> trusted opts realIP -> Handler.audit_quiet h ->
  ChannelLaws (World V X * list net_fault) (Channel0 := http_channel).
Proof.
  intros Hc Hu Ht Hq.
  split; intros l x o x' Hl Hok; [|intros [Hx Hinf]]; intros (rnd & hdr & body & ctx & now & now' & Hreq & E);
    apply (attempt_applies h opts s addr l realIP rnd hdr body) in E as (Hok' & Htl & Ho); try done.
  - split; [done|]. by destruct o; [|destruct Ho..].
  - pose proof (sendable_storable l Hl) as Hst.
    cbn in Htl. rewrite Hx in Htl.
    destruct o as [[]|e|p]; [done| |]; destruct Ho as [_ Hf]; by destruct (Hinf l _ Hst (Hf Hx)).
Qed.
End HttpChannel.

Section GrpcChannel.
Context {V X : Type} `{!Service V} `{!ServiceLaws V}.
Context (s : GRPCServer.t X) (subnet : option IPNet) (realIP : string).

(** A call of the loop of [GRPCSender.Send]. *)
Definition grpc_channel : Channel (World V X * list net_fault) := {|
  chan_view x := svc_view (w_service x.1);
  chan_ok x := svc_reliable (w_service x.1);
  chan_fine x := x.2 = [] /\ svc_infallible V;
  chan_sendable l := Forall (fun m => Handler.validateMetric m = StatusOK /\ int64_delta m) l;
  chan_attempt l x o x' := exists rq ctx now now',
    GRPCSender.requestFromMetrics l = Ret rq /\
    call s subnet (GRPCSender.contextWithRealIP ctx realIP) rq (x, now) = (o, (x', now'));
|}.

Lemma carried_storable m : storable m -> storable (carried m).
Proof.
  unfold carried, storable, dereferenceable, int64_delta. intros [[Hg Hc] H64].
  case_decide; cbn; (split; [split|]); try done; intros; by apply Hg.
Qed.

Lemma grpc_channel_laws :
  realIP <> "" -> trusted_ip subnet realIP -> audit_quiet s ->
  ChannelLaws (World V X * list net_fault) (Channel0 := grpc_channel).
Proof.
  intros Hne Ht Hq.
  split; intros l x o x' Hl Hok; [|intros [Hx Hinf]]; intros (rq & ctx & now & now' & Hreq & E);
    destruct (sendable_sent l Hl) as (rq' & Erq & Hsent); rewrite Hreq in Erq; injection Erq as <-;
    apply (call_run s subnet ctx l rq realIP) in E as (Hok' & Htl & Ho & _); try done.
  - split; [done|]. by destruct o; [|destruct Ho..].
  - assert (Hst : Forall storable (map carried l)).
    { apply Forall_map. eapply Forall_impl; [exact Hl|]. intros m [Hv Hd]. by apply carried_storable, Handler.valid_storable. }
    cbn in Htl. rewrite Hx in Htl.
    destruct o as [[]|e|p]; [done| |]; destruct Ho as [_ Hf]; by destruct (Hinf _ _ Hst (Hf Hx)).
Qed.
End GrpcChannel.

(** ** Witnesses *)

#[local] Existing Instance MetricsService.memory_service.
#[local] Existing Instance MetricsService.memory_laws.

Abbreviation Remote := (World (MemStorage.t * FS) unit * list net_fault)%type.
#[local] Instance sample_channel : Channel Remote := grpc_channel sample_server ten_subnet "10.0.0.1".

#[local] Instance sample_channel_laws : ChannelLaws Remote.
Proof.
  apply grpc_channel_laws; [done| |exact sample_quiet].
  intros n Hn. exists (v4_in_v6_prefix ++ [10; 0; 0; 1])%list. split; [vm_compute; reflexivity|].
  vm_compute in Hn. injection Hn as <-. vm_compute. reflexivity.
Qed.

Definition empty_remote : Remote :=
  (MkWorld (MemStorage.NewMemStorage, FileStore.empty_fs) tt [] 0, []).

Definition one_poll : list Metrics := ReportingService.batch_of ∅ 1.

(** What an attempt to deliver it does. *)
Definition delivered_remote : Remote :=
  match GRPCSender.requestFromMetrics one_poll with
  | Ret rq => (call sample_server ten_subnet from_ten rq (empty_remote, 0)).2.1
  | _ => empty_remote
  end.

(** An agent that polls once and is stopped: [Flush] delivers the poll. *)
Definition before_flush : Agent.state :=
  Agent.MkState 0 [] true true false Agent.Exited Agent.Exited Agent.RExited [Agent.WExited]
    (Agent.MFlushing 1) false 1 0.
Definition after_flush : Agent.state :=
  Agent.ghost_acked 1 (Agent.set_main (Agent.MReturned None) (Agent.cancelSend before_flush)).

Lemma one_poll_report : report_of 1 one_poll.
Proof.
  split; [|by exists ∅]. apply Forall_singleton. split; [reflexivity|].
  intros d [= <-]. unfold in_int64, two63. lia.
Qed.

Lemma one_poll_attempt : chan_attempt one_poll empty_remote (Ret tt) delivered_remote.
Proof.
  exists (MkUpdateMetricsRequest [Some (MkMetric "PollCount" Metric_COUNTER 1 float_zero)]),
    (MkRpcContext Background None), 0, 0.
  split; [vm_compute; reflexivity|]. vm_compute. reflexivity.
Qed.

Lemma one_poll_delivered : rtc (deliver 1) (Agent.init 1, empty_remote) (after_flush, delivered_remote).
Proof.
  assert (Hquiet : forall s s' x sx, Agent.work 1 s s' -> Agent.acked s' = Agent.acked s ->
    rtc (deliver 1) (s', x) sx -> rtc (deliver 1) (s, x) sx).
  { intros s s' x sx Hw Ha Hr. eapply rtc_l; [|exact Hr]. by apply deliver_agent; [left|]. }
  unfold Agent.init. cbn [replicate].
  eapply Hquiet; [by apply Agent.by_poll, Agent.poll|done|].
  eapply Hquiet; [by apply Agent.by_signal, Agent.signal|done|].
  eapply Hquiet; [by apply Agent.by_run, Agent.main_signal|done|].
  eapply Hquiet; [by apply Agent.by_poll, Agent.poll_exit|done|].
  eapply Hquiet; [by apply Agent.by_system, Agent.system_exit|done|].
  eapply Hquiet; [by apply Agent.by_report, Agent.report_exit|done|].
  eapply Hquiet; [by apply Agent.by_run, Agent.main_loops_done|done|].
  eapply Hquiet; [by apply Agent.by_worker, (Agent.worker_drained _ 0%nat)|done|].
  eapply Hquiet; [by apply Agent.by_run, Agent.main_workers_done; [|constructor; [done|constructor]]|done|].
  eapply Hquiet; [by apply Agent.by_run, Agent.flush_swap|done|].
  eapply rtc_l; [|apply rtc_refl].
  eapply (deliver_acked 1 before_flush after_flush _ 1); [by apply ack_flush|exact one_poll_report|exact one_poll_attempt].
Qed.

(** The server's counter is exactly the number of polls. *)
Lemma polls_reach_server_witness :
  Agent.main after_flush = Agent.MReturned None /\ poll_total (chan_view delivered_remote) = Agent.polled after_flush.
Proof.
  destruct (polls_reach_server 1 empty_remote after_flush delivered_remote) as (total & E & _ & Hclean & Hfine).
  - exact I.
  - change (in_int64 0). unfold in_int64, two63. lia.
  - exact one_poll_delivered.
  - reflexivity.
  - split; [reflexivity|]. rewrite E, Hfine, Hclean by first [reflexivity|split; [reflexivity|exact MetricsService.memory_infallible]].
    vm_compute. reflexivity.
Defined.
