(* ===== verification/GoText.v ===== *)
(** * Strings, paths and sorting for the command-line tools

    [strings.TrimSpace], [strings.TrimPrefix], [strings.TrimSuffix], the lexical
    functions of [path/filepath] and [sort.Strings], as the reset generator uses
    them. *)

From S2P Require Import Prelude GoString.
From Stdlib Require Strings.String.
From stdpp Require Import sorting.

(** Line feed, tab and the double quote. *)
Definition nl : string := String "010"%char EmptyString.
Definition tab : string := String "009"%char EmptyString.
Definition dquote : string := String "034"%char EmptyString.

(** ** Trimming *)

Definition string_length : string -> nat := String.length.

Definition TrimPrefix (s p : string) : string :=
  if HasPrefix s p then string_drop (string_length p) s else s.
Definition TrimSuffix (s p : string) : string :=
  if HasSuffix s p then string_take (string_length s - string_length p) s else s.

(** The UTF-8 encodings of the runes of [unicode.IsSpace]. *)
Definition space_runes : list string :=
  map (fun n => String (byte n) EmptyString) [9; 10; 11; 12; 13; 32]
  ++ map (fun l => foldr (fun n s => String (byte n) s) EmptyString l)
      ([[194; 133]; [194; 160]; [225; 154; 128]] ++ map (fun n => [226; 128; n]) (seq 128 11)
       ++ [[226; 128; 168]; [226; 128; 169]; [226; 128; 175]; [226; 129; 159]; [227; 128; 128]]).

Definition trim_one (strip : string -> string -> string) (s : string) : string :=
  foldl (fun acc r => if decide (acc = s) then strip s r else acc) s space_runes.

Fixpoint trim_go (strip : string -> string -> string) (fuel : nat) (s : string) : string :=
  match fuel with
  | O => s
  | S fuel' => let s' := trim_one strip s in if decide (s' = s) then s else trim_go strip fuel' s'
  end.

(** Every round that changes the text removes a rune, so the length is enough
    fuel: no rune is left to strip. *)
Lemma TrimPrefix_shorter s p : p <> "" -> TrimPrefix s p <> s -> (String.length (TrimPrefix s p) < String.length s)%nat.
Proof.
  intros Hp. unfold TrimPrefix. destruct (HasPrefix s p) eqn:E; [|done]. intros _.
  destruct p as [|a p]; [done|]. destruct s as [|b s]; [done|]. unfold string_length. cbn [String.length string_drop].
  assert (Hd : forall n t, (String.length (string_drop n t) <= String.length t)%nat).
  { induction n as [|n IH]; intros [|c t]; cbn; [lia..|]. specialize (IH t). lia. }
  specialize (Hd (String.length p) s). lia.
Qed.

Lemma TrimSuffix_shorter s p : TrimSuffix s p <> s -> (String.length (TrimSuffix s p) < String.length s)%nat.
Proof.
  unfold TrimSuffix. destruct (HasSuffix s p); [|done]. generalize (string_length s - string_length p)%nat.
  intros n. revert n. induction s as [|c s IH]; intros [|n] Hn; cbn in *; try done; [lia|].
  apply le_n_S, IH. congruence.
Qed.

Lemma trim_one_shorter strip s :
  (forall r, r ∈ space_runes -> strip s r <> s -> (String.length (strip s r) < String.length s)%nat) ->
  trim_one strip s <> s -> (String.length (trim_one strip s) < String.length s)%nat.
Proof.
  unfold trim_one. intros Hs.
  assert (H : forall l acc, (forall r, r ∈ l -> r ∈ space_runes) ->
    (acc <> s -> (String.length acc < String.length s)%nat) ->
    let out := foldl (fun acc r => if decide (acc = s) then strip s r else acc) acc l in
    out <> s -> (String.length out < String.length s)%nat).
  { induction l as [|r l IH]; intros acc Hl Hacc; cbn [foldl]; [done|]. apply IH; [set_solver|].
    case_decide; [|done]. apply Hs, Hl. by left. }
  by apply H.
Qed.

Lemma trim_go_done strip n s :
  (forall s r, r ∈ space_runes -> strip s r <> s -> (String.length (strip s r) < String.length s)%nat) ->
  (forall r, strip "" r = "") -> (String.length s <= n)%nat ->
  trim_one strip (trim_go strip n s) = trim_go strip n s.
Proof.
  intros Hs He. revert s. induction n as [|n IH]; intros s Hn; cbn [trim_go].
  - destruct s; [|cbn in Hn; lia]. unfold trim_one.
    generalize space_runes as l. induction l as [|r l IHl]; [done|]. cbn [foldl].
    rewrite decide_True by done. by rewrite He.
  - destruct (decide (trim_one strip s = s)) as [|Hne]; [done|].
    apply IH. pose proof (trim_one_shorter strip s (Hs s) Hne). lia.
Qed.

Definition TrimSpace (s : string) : string :=
  let left := trim_go TrimPrefix (string_length s) s in
  trim_go TrimSuffix (string_length left) left.

(** Nothing is left to trim on the right. *)
Lemma TrimSpace_done s : trim_one TrimSuffix (TrimSpace s) = TrimSpace s.
Proof.
  unfold TrimSpace. apply trim_go_done; [|intros r|done].
  - intros t r _. apply TrimSuffix_shorter.
  - unfold TrimSuffix. by destruct (HasSuffix _ _), (string_length "" - string_length r)%nat.
Qed.

(** ** [path/filepath] on slash-separated, clean paths *)

Fixpoint split_slash (s : string) : list string :=
  match s with
  | EmptyString => [EmptyString]
  | String c s' =>
      if decide (c = "/"%char) then EmptyString :: split_slash s'
      else match split_slash s' with
           | x :: l => String c x :: l
           | [] => [String c EmptyString]
           end
  end.

(** [filepath.Join(dir, name)] for a clean [dir] and the name of an entry. *)
Definition path_join (dir name : string) : string :=
  if decide (dir = ".") then name
  else if decide (dir = "/") then "/" +:+ name
  else dir +:+ "/" +:+ name.

(** [filepath.Base(path)] for a path that ends in a name. *)
Definition path_base (path : string) : string := List.last (split_slash path) EmptyString.

(** [filepath.Dir(path)] for a clean [path] that ends in a name. *)
Definition path_dir (path : string) : string :=
  match removelast (split_slash path) with
  | [] => "."
  | [EmptyString] => "/"
  | l => String.concat "/" l
  end.

(** ** [sort.Strings] *)

Definition string_le (a b : string) : Prop := Strings.String.leb a b = true.
#[export] Instance string_le_dec : RelDecision string_le.
Proof. intros a b. unfold string_le. apply _. Defined.

Definition sort_strings (l : list string) : list string := merge_sort string_le l.

#[export] Instance string_le_total : Total string_le.
Proof. intros a b. unfold string_le. apply Strings.String.leb_total. Qed.

#[export] Instance string_le_antisymm : AntiSymm eq string_le.
Proof. intros a b. unfold string_le. apply Strings.String.leb_antisym. Qed.

Lemma ascii_compare_lt_trans (a b c : ascii) :
  Ascii.compare a b = Lt -> Ascii.compare b c = Lt -> Ascii.compare a c = Lt.
Proof. unfold Ascii.compare. rewrite !N.compare_lt_iff. lia. Qed.

#[export] Instance string_le_trans : Transitive string_le.
Proof.
  unfold string_le, Strings.String.leb. intros a. induction a as [|x a IH]; intros [|y b] [|z c]; cbn; try done.
  destruct (Ascii.compare x y) eqn:Exy; [apply Ascii.compare_eq_iff in Exy; subst y| |done].
  - destruct (Ascii.compare x z) eqn:Exz; [|done|done]. apply IH.
  - intros _. destruct (Ascii.compare y z) eqn:Eyz; [apply Ascii.compare_eq_iff in Eyz; subst z| |done].
    + by rewrite Exy.
    + by rewrite (ascii_compare_lt_trans x y z Exy Eyz).
Qed.

(** Sorting forgets the order the strings came in. *)
Lemma sort_strings_perm l1 l2 : l1 ≡ₚ l2 -> sort_strings l1 = sort_strings l2.
Proof.
  intros H. apply (Sorted_unique string_le).
  - apply Sorted_merge_sort, _.
  - apply Sorted_merge_sort, _.
  - unfold sort_strings. by rewrite !merge_sort_Permutation.
Qed.

(** ** Lemmas on paths *)

Lemma split_slash_nonempty s : split_slash s <> [].
Proof. destruct s as [|c s]; [done|]. cbn. case_decide; [done|]. by destruct (split_slash s). Qed.

Lemma split_slash_name s : string_count "/"%char s = O -> split_slash s = [s].
Proof.
  induction s as [|c s IH]; [done|]. cbn [string_count split_slash].
  destruct (decide (c = "/"%char)) as [->|Hc]; [discriminate|]. intros H. by rewrite IH.
Qed.

Lemma split_slash_root t : string_count "/"%char t = O -> split_slash ("/" +:+ t) = [EmptyString; t].
Proof.
  intros Ht. change (EmptyString :: split_slash t = [EmptyString; t]). by rewrite split_slash_name.
Qed.

Lemma split_slash_app s t : string_count "/"%char t = O ->
  split_slash (s +:+ "/" +:+ t) = split_slash s ++ [t].
Proof.
  intros Ht. induction s as [|c s IH]; [by apply split_slash_root|].
  rewrite string_app_cons. cbn [split_slash]. rewrite IH. case_decide; [done|].
  destruct (split_slash s) eqn:E; [by apply split_slash_nonempty in E|done].
Qed.

Lemma concat_split_slash s : String.concat "/" (split_slash s) = s.
Proof.
  induction s as [|c s IH]; [done|]. cbn [split_slash]. case_decide as Hc.
  - subst c. destruct (split_slash s) as [|x l] eqn:E; [by apply split_slash_nonempty in E|].
    change (String.concat "/" (EmptyString :: x :: l))
      with (EmptyString +:+ "/" +:+ String.concat "/" (x :: l)). by rewrite IH.
  - destruct (split_slash s) as [|x l] eqn:E; [by apply split_slash_nonempty in E|].
    transitivity (String c (String.concat "/" (x :: l))); [by destruct l|by rewrite IH].
Qed.

Lemma path_dir_join dir name : string_count "/"%char name = O -> dir <> EmptyString ->
  path_dir (path_join dir name) = dir.
Proof.
  intros Hn Hd. unfold path_dir, path_join. case_decide; [by rewrite split_slash_name|].
  case_decide; [by rewrite split_slash_root|].
  rewrite split_slash_app by done. rewrite removelast_last.
  destruct (split_slash dir) as [|x l] eqn:E; [by apply split_slash_nonempty in E|].
  rewrite <-(concat_split_slash dir), E. destruct x as [|c x]; [|done]. destruct l as [|y l]; [|done].
  rewrite <-(concat_split_slash dir), E in Hd. done.
Qed.

Example TrimSpace_both : TrimSpace (tab +:+ " a b " +:+ nl) = "a b"%string.
Proof. vm_compute. reflexivity. Qed.
Example path_dir_deep : path_dir "cmd/reset/main.go" = "cmd/reset"%string.
Proof. vm_compute. reflexivity. Qed.
