(* ===== verification/TestKeys.v ===== *)
(** * Key pairs on disk: [internal/encryption/testkeys] and the loaders of [keys.go]

    [testkeys.Generate] makes an RSA pair and writes it in the PKIX and PKCS#8
    formats; the tests and the programs load such files.  What the loaders accept,
    and that they give back the pair [Generate] wrote. *)

From S2P Require Import Prelude GoError GoNum GoString GoJson Storage FileStore Instances Sha256 Base64 AesGcm Encryption GoText.
Local Open Scope Z_scope.

(** ** What the loaders accept *)

Section Loaders.
Context {PK SK : Type} `{!KeyFormats PK SK}.

(** A key of the first format that parses: the fallback is tried only when the
    first parser fails, so a key of another type in the first format is an error. *)
Definition key_of {K : Type} (first : outcome error (any_key K)) (fallback : outcome error K) (k : K) : Prop :=
  first = Ret (RSAKey k) \/ exists e, first = Fail e /\ fallback = Ret k.

(** The bytes of the PEM block in a readable file. *)
Definition pem_file (path : string) (fs : FS) : option string :=
  match read_fault fs path with Some _ => None | None => files fs !! path ≫= pem_Decode (PK := PK) (SK := SK) end.

Lemma ReadFile_cases path fs :
  (exists data, read_fault fs path = None /\ files fs !! path = Some data /\ ReadFile path fs = (Ret data, fs)) \/
  (exists e, (read_fault fs path = None -> files fs !! path = None) /\ ReadFile path fs = (Fail e, fs)).
Proof.
  unfold ReadFile. destruct (read_fault fs path) as [e|]; [right; by exists e|].
  destruct (files fs !! path) as [data|]; [left; by exists data|right; by eexists].
Qed.

(** The two loaders are one pattern: read, decode the block, parse. *)
Lemma load_key_iff {K : Type} (read_ctx pem_ctx other_ctx parse_ctx path : string)
    (first : string -> outcome error (any_key K)) (fallback : string -> outcome error K) fs r fs' :
  (data ← map_err (ErrWrap read_ctx) (ReadFile path);
   match pem_Decode (PK := PK) (SK := SK) data with
   | None => throw (ErrNew pem_ctx)
   | Some bytes =>
       match first bytes with
       | Ret (RSAKey k) => mret k
       | Ret OtherKey => throw (ErrNew other_ctx)
       | Panic p => panic p
       | Fail _ => map_err (ErrWrap parse_ctx) (lift_outcome (fallback bytes))
       end
   end) fs = (r, fs') ->
  fs' = fs /\ forall k, r = Ret k <-> exists b, pem_file path fs = Some b /\ key_of (first b) (fallback b) k.
Proof.
  unfold pem_file, key_of, mbind, St_bind, map_err, lift_outcome.
  destruct (ReadFile_cases path fs) as [(data & Hf & Hd & ->)|(e & Hno & ->)].
  - rewrite Hf, Hd. cbn [mbind option_bind].
    destruct (pem_Decode data) as [b|]; [|intros [= <- <-]; split; [done|]; by intros k; split; [|intros (? & ? & _)]].
    assert (forall o : outcome error K, (forall k, o = Ret k <-> key_of (first b) (fallback b) k) ->
      forall k, o = Ret k <-> exists b', Some b = Some b' /\ key_of (first b') (fallback b') k) as Hex.
    { intros o Ho k. rewrite Ho. naive_solver. }
    unfold key_of in *.
    destruct (first b) as [[k|]|e|p]; [| |destruct (fallback b)|]; intros [= <- <-]; (split; [done|]);
      apply Hex; naive_solver.
  - intros [= <- <-]. split; [done|]. intros k. split; [done|]. intros (b & Hb & _).
    destruct (read_fault fs path); [done|]. by rewrite Hno in Hb.
Qed.

(** Loading a key reads the file and nothing more; it succeeds with [k] exactly when
    the file holds a PEM block that is an RSA key [k] in the format expected first,
    or fails to parse there and is [k] in the older one. *)
Theorem load_public_key_outcome path fs :
  let '(r, fs') := LoadPublicKey (PK := PK) (SK := SK) path fs in
  fs' = fs /\ forall k, r = Ret k <-> exists b, pem_file path fs = Some b /\
    key_of (ParsePKIXPublicKey (SK := SK) b) (ParsePKCS1PublicKey (SK := SK) b) k.
Proof. destruct (LoadPublicKey path fs) as [r fs'] eqn:E. by eapply load_key_iff. Qed.

Theorem load_private_key_outcome path fs :
  let '(r, fs') := LoadPrivateKey (PK := PK) (SK := SK) path fs in
  fs' = fs /\ forall k, r = Ret k <-> exists b, pem_file path fs = Some b /\
    key_of (ParsePKCS8PrivateKey (PK := PK) b) (ParsePKCS1PrivateKey (PK := PK) b) k.
Proof. destruct (LoadPrivateKey path fs) as [r fs'] eqn:E. by eapply load_key_iff. Qed.
End Loaders.

(** ** [testkeys.Generate] *)

(** [rsa.GenerateKey], the public half of a private key, the [x509] encoders,
    [pem.EncodeToMemory] of a block without headers, and [testing.TB.TempDir]. *)
Class KeyWriters (R PK SK : Type) := {
  rsa_GenerateKey : Z -> M R SK;
  publicKey_of : SK -> PK;
  MarshalPKIXPublicKey : PK -> outcome error string;
  MarshalPKCS8PrivateKey : SK -> outcome error string;
  pem_EncodeToMemory : string -> string -> string;
  TempDir : M FS string;
}.

Class KeyWritersLaws (R PK SK : Type) `{!Crypto R PK SK} `{!CryptoLaws R PK SK} `{!KeyFormats PK SK}
    `{!KeyWriters R PK SK} := {
  GenerateKey_pair bits r sk r' :
    rsa_GenerateKey (PK := PK) bits r = (Ret sk, r') -> key_pair (publicKey_of (R := R) sk) sk;
  pem_Decode_Encode type bytes :
    pem_Decode (PK := PK) (SK := SK) (pem_EncodeToMemory (R := R) (PK := PK) (SK := SK) type bytes) = Some bytes;
  ParsePKIX_Marshal pk b :
    MarshalPKIXPublicKey (R := R) (SK := SK) pk = Ret b -> ParsePKIXPublicKey (SK := SK) b = Ret (RSAKey pk);
  ParsePKCS8_Marshal sk b :
    MarshalPKCS8PrivateKey (R := R) (PK := PK) sk = Ret b -> ParsePKCS8PrivateKey (PK := PK) b = Ret (RSAKey sk);
}.

Module testkeys.

Record Pair (PK SK : Type) : Type := MkPair {
  PrivateKey : SK;
  PublicKey : PK;
  PrivateKeyPath : string;
  PublicKeyPath : string;
}.
Arguments MkPair {PK SK} _ _ _ _.
Arguments PrivateKey {PK SK} _.
Arguments PublicKey {PK SK} _.
Arguments PrivateKeyPath {PK SK} _.
Arguments PublicKeyPath {PK SK} _.

Section Generate.
Context {R PK SK : Type} `{!KeyWriters R PK SK}.

(** [t.Fatalf(what + "() error = %v", err)] ends the test: [Fail]. *)
Definition or_Fatalf {S A : Type} (what : string) (m : M S A) : M S A :=
  map_err (ErrWrap (what +:+ "() error")) m.

Definition writePublicKey (path : string) (publicKey : PK) : M FS unit :=
  data ← or_Fatalf "MarshalPKIXPublicKey"
    (lift_outcome (MarshalPKIXPublicKey (R := R) (SK := SK) publicKey));
  or_Fatalf "WriteFile"
    (WriteFile path (pem_EncodeToMemory (R := R) (PK := PK) (SK := SK) "PUBLIC KEY" data)).

Definition writePrivateKey (path : string) (privateKey : SK) : M FS unit :=
  data ← or_Fatalf "MarshalPKCS8PrivateKey"
    (lift_outcome (MarshalPKCS8PrivateKey (R := R) (PK := PK) privateKey));
  or_Fatalf "WriteFile"
    (WriteFile path (pem_EncodeToMemory (R := R) (PK := PK) (SK := SK) "PRIVATE KEY" data)).

Definition rsaKeyBits : Z := 2048.

Definition Generate : M (R * FS) (Pair PK SK) :=
  privateKey ← or_Fatalf "GenerateKey" (on_fst (rsa_GenerateKey (PK := PK) rsaKeyBits));
  tempDir ← on_snd (TempDir (R := R) (PK := PK) (SK := SK));
  let publicKey := publicKey_of (R := R) privateKey in
  let publicKeyPath := path_join tempDir "public.pem" in
  _ ← on_snd (writePublicKey publicKeyPath publicKey);
  let privateKeyPath := path_join tempDir "private.pem" in
  _ ← on_snd (writePrivateKey privateKeyPath privateKey);
  mret (MkPair privateKey publicKey privateKeyPath publicKeyPath).
End Generate.

(** ** The files hold the pair *)

Lemma WriteFile_Ret path data fs u fs' : WriteFile path data fs = (Ret u, fs') -> fs' = set_file path data fs.
Proof. unfold WriteFile. destruct (write_fault_at fs path) as [[|]|]; by intros [= _ <-]. Qed.

Lemma key_paths_differ dir : path_join dir "public.pem" <> path_join dir "private.pem".
Proof.
  unfold path_join. destruct (decide (dir = ".")); [done|]. destruct (decide (dir = "/")); [done|].
  clear. induction dir as [|c dir IH]; [done|]. rewrite !string_app_cons. intros E. apply IH.
  by apply (f_equal (string_drop 1)) in E.
Qed.

Lemma on_snd_Ret {S1 S2 A : Type} (m : M S2 A) (s : S1 * S2) a s' :
  on_snd m s = (Ret a, s') -> s'.1 = s.1 /\ m s.2 = (Ret a, s'.2).
Proof. unfold on_snd. destruct (m s.2) as [o t]. by intros [= -> <-]. Qed.

Section Laws.
Context {R PK SK : Type} `{!Crypto R PK SK} `{!CryptoLaws R PK SK} `{!KeyFormats PK SK}
  `{!KeyWriters R PK SK} `{!KeyWritersLaws R PK SK} `{JsonText} `{!JsonTextLaws}.

Lemma writePublicKey_Ret path (pk : PK) fs u fs' :
  writePublicKey (R := R) (SK := SK) path pk fs = (Ret u, fs') ->
  exists b, ParsePKIXPublicKey (SK := SK) b = Ret (RSAKey pk) /\
    fs' = set_file path (pem_EncodeToMemory (R := R) (PK := PK) (SK := SK) "PUBLIC KEY" b) fs.
Proof.
  unfold writePublicKey, or_Fatalf. intros Hrun. inv_run. unfold lift_outcome in *. simplify_eq.
  eexists. split; [by eapply ParsePKIX_Marshal|by eapply WriteFile_Ret].
Qed.

Lemma writePrivateKey_Ret path (sk : SK) fs u fs' :
  writePrivateKey (R := R) (PK := PK) path sk fs = (Ret u, fs') ->
  exists b, ParsePKCS8PrivateKey (PK := PK) b = Ret (RSAKey sk) /\
    fs' = set_file path (pem_EncodeToMemory (R := R) (PK := PK) (SK := SK) "PRIVATE KEY" b) fs.
Proof.
  unfold writePrivateKey, or_Fatalf. intros Hrun. inv_run. unfold lift_outcome in *. simplify_eq.
  eexists. split; [by eapply ParsePKCS8_Marshal|by eapply WriteFile_Ret].
Qed.

(** A successful run: a pair of keys, and the text of each in its file. *)
Lemma Generate_Ret st p st' :
  Generate (R := R) (PK := PK) (SK := SK) st = (Ret p, st') ->
  key_pair (PublicKey p) (PrivateKey p) /\
  (exists b, ParsePKIXPublicKey (SK := SK) b = Ret (RSAKey (PublicKey p)) /\
    files st'.2 !! PublicKeyPath p = Some (pem_EncodeToMemory (R := R) (PK := PK) (SK := SK) "PUBLIC KEY" b)) /\
  (exists b, ParsePKCS8PrivateKey (PK := PK) b = Ret (RSAKey (PrivateKey p)) /\
    files st'.2 !! PrivateKeyPath p = Some (pem_EncodeToMemory (R := R) (PK := PK) (SK := SK) "PRIVATE KEY" b)).
Proof.
  unfold Generate, or_Fatalf. intros Hrun. inv_run.
  repeat match goal with H : on_snd _ _ = _ |- _ => apply on_snd_Ret in H as [? ?] end.
  match goal with H : on_fst _ _ = _ |- _ => unfold on_fst in H;
    destruct (rsa_GenerateKey _ _) as [? ?] eqn:Hgen; simplify_eq end.
  match goal with
  | H1 : writePublicKey _ _ _ = _, H2 : writePrivateKey _ _ _ = _ |- _ =>
      apply writePublicKey_Ret in H1 as (b1 & Hb1 & E1); apply writePrivateKey_Ret in H2 as (b2 & Hb2 & E2)
  end.
  split; [by eapply GenerateKey_pair|]. rewrite E2, E1. cbn [files set_file]. split; [exists b1|exists b2]; (split; [done|]).
  - by rewrite lookup_insert_ne, lookup_insert_eq by apply not_eq_sym, key_paths_differ.
  - by rewrite lookup_insert_eq.
Qed.

(** What [Generate] returns is on disk: the loaders read both keys back from the
    paths of the pair, and data encrypted with the one decrypts with the other. *)
Theorem generated_keys_load st p st' :
  Generate (R := R) (PK := PK) (SK := SK) st = (Ret p, st') ->
  read_fault st'.2 (PublicKeyPath p) = None -> read_fault st'.2 (PrivateKeyPath p) = None ->
  LoadPublicKey (SK := SK) (PublicKeyPath p) st'.2 = (Ret (PublicKey p), st'.2) /\
  LoadPrivateKey (PK := PK) (PrivateKeyPath p) st'.2 = (Ret (PrivateKey p), st'.2) /\
  forall data r body r', Encrypt (SK := SK) data (Some (PublicKey p)) r = (Ret body, r') ->
    Decrypt (R := R) (PK := PK) body (Some (PrivateKey p)) = Ret data.
Proof.
  intros (Hpair & (b1 & Hp1 & Hf1) & (b2 & Hp2 & Hf2))%Generate_Ret Hr1 Hr2. split_and!.
  - unfold LoadPublicKey, ReadFile. unfold mbind at 1, St_bind, map_err.
    by rewrite Hr1, Hf1, pem_Decode_Encode, Hp1.
  - unfold LoadPrivateKey, ReadFile. unfold mbind at 1, St_bind, map_err.
    by rewrite Hr2, Hf2, pem_Decode_Encode, Hp2.
  - intros data r body r'. by apply decrypt_then_encrypt.
Qed.
End Laws.

(** ** Witness: a key is a number, its text as many letters *)

Definition key_text (k : N) : string := toy_bytes (N.to_nat k) 0.
Definition key_value (s : string) : N := N.of_nat (String.length s).

#[local] Instance toy_keys : KeyFormats N N := {|
  pem_Decode := strip_prefix "-----BEGIN ";
  ParsePKIXPublicKey b := Ret (RSAKey (key_value b));
  ParsePKCS1PublicKey _ := Fail (ErrNew "asn1");
  ParsePKCS8PrivateKey b := Ret (RSAKey (key_value b));
  ParsePKCS1PrivateKey _ := Fail (ErrNew "asn1");
|}.

#[local] Instance toy_writers : KeyWriters nat N N := {|
  rsa_GenerateKey _ seed := (Ret (N.of_nat seed), S seed);
  publicKey_of sk := sk;
  MarshalPKIXPublicKey k := Ret (key_text k);
  MarshalPKCS8PrivateKey k := Ret (key_text k);
  pem_EncodeToMemory _ b := "-----BEGIN " +:+ b;
  TempDir fs := (Ret "/tmp/keys", fs);
|}.

Lemma key_value_text k : key_value (key_text k) = k.
Proof. unfold key_value, key_text. rewrite toy_bytes_length. apply N2Nat.id. Qed.

#[local] Instance toy_writers_laws : KeyWritersLaws nat N N.
Proof.
  split.
  - by intros bits r sk r' [= <- <-].
  - intros ty b. apply strip_prefix_app.
  - intros pk b [= <-]. cbn. by rewrite key_value_text.
  - intros sk b [= <-]. cbn. by rewrite key_value_text.
Qed.

Lemma generated_keys_load_witness :
  exists p st', Generate (R := nat) (PK := N) (SK := N) (5%nat, FileStore.empty_fs) = (Ret p, st') /\
    LoadPublicKey (SK := N) (PublicKeyPath p) st'.2 = (Ret (PublicKey p), st'.2) /\
    LoadPrivateKey (PK := N) (PrivateKeyPath p) st'.2 = (Ret (PrivateKey p), st'.2).
Proof.
  destruct (Generate (R := nat) (PK := N) (SK := N) (5%nat, FileStore.empty_fs)) as [o st'] eqn:E.
  destruct o as [p|e|w]; [|discriminate E..]. exists p, st'. split; [reflexivity|].
  assert (read_fault st'.2 = fun _ => None) as Hr by (vm_compute in E; by injection E as <- <-).
  destruct (generated_keys_load (5%nat, FileStore.empty_fs) p st' E) as (H1 & H2 & _); [by rewrite Hr..|].
  split; [exact H1|exact H2].
Defined.
End testkeys.
