(* ===== verification/GoAst.v ===== *)
(** * Go syntax trees: [go/ast], [go/parser], [go/printer], [go/format]

    The part of [go/ast] the reset generator inspects.  Parsing and formatting
    are operations of the class [GoSyntax]; printing of type expressions is a
    function. *)

From S2P Require Import Prelude GoError GoString GoText.
Local Open Scope string_scope.

(** Type expressions.  [OtherType] is any other expression, a [StructType] has
    a layout of its own: both carry the text [go/printer] gives for them. *)
#[warnings="-register-all"]
Inductive Expr : Type :=
| Ident (Name : string)
| StarExpr (X : Expr)
| ArrayType (Len : option Expr) (Elt : Expr)
| MapType (Key Value : Expr)
| SelectorExpr (X : Expr) (Sel : string)
| IndexExpr (X Index : Expr)
| StructType (Fields : list (list string * Expr)) (printed : string)
| OtherType (printed : string).

(** A field list entry: the names and their type; an embedded field has no name. *)
Abbreviation Field := (list string * Expr)%type.

(** A comment group is the list of the texts of its comments. *)
Abbreviation CommentGroup := (list string).

Record TypeSpec : Type := MkTypeSpec {
  TypeSpec_Doc : option CommentGroup;
  TypeSpec_Name : string;
  TypeSpec_TypeParams : list Field;
  TypeSpec_Type : Expr;
}.

Inductive Spec : Type :=
| SpecType (s : TypeSpec)
| SpecOther.

Inductive token : Type := TYPE | VAR | CONST | IMPORT.

Inductive Decl : Type :=
| GenDecl (Tok : token) (Doc : option CommentGroup) (Specs : list Spec)
| FuncDecl (Name : string).

Record File : Type := MkFile {
  File_Name : string;
  File_Decls : list Decl;
}.

#[export] Instance token_eq_dec : EqDecision token.
Proof. solve_decision. Defined.

(** [printer.Fprint] of a type expression. *)
Fixpoint print_expr (e : Expr) : string :=
  match e with
  | Ident n => n
  | StarExpr x => "*" +:+ print_expr x
  | ArrayType None t => "[]" +:+ print_expr t
  | ArrayType (Some n) t => "[" +:+ print_expr n +:+ "]" +:+ print_expr t
  | MapType k v => "map[" +:+ print_expr k +:+ "]" +:+ print_expr v
  | SelectorExpr x sel => print_expr x +:+ "." +:+ sel
  | IndexExpr x i => print_expr x +:+ "[" +:+ print_expr i +:+ "]"
  | StructType _ p | OtherType p => p
  end.

(** [parser.ParseFile] on the text of a file, and [format.Source]. *)
Class GoSyntax := {
  ParseSource : string -> outcome error File;
  FormatSource : string -> outcome error string;
}.
