(* ===== verification/ResetGen.v ===== *)
(** * The reset generator: [cmd/reset/generator.go]

    The walk over the source tree, the search for structs with the directive,
    and the text of the generated [Reset] methods.  [strings.Builder] is a
    string state, the collected packages a map by directory. *)

From S2P Require Import Prelude GoError GoString GoText GoMap GoAst FileStore.
Local Open Scope string_scope.

Definition resetDirective : string := "generate:reset".
Definition generatedFile : string := "reset.gen.go".
Definition generatedFileHead : string := "// Code generated by reset; (+_+)~ DO NOT EDIT.".

Record resetField : Type := MkResetField {
  field_Name : string;
  field_Type : Expr;
}.

Record resetStruct : Type := MkResetStruct {
  struct_Name : string;
  struct_Fields : list resetField;
}.

Record packageInfo : Type := MkPackageInfo {
  package_Name : string;
  package_Structs : list resetStruct;
}.

(** ** Finding the marked structs *)

Definition comment_text (comment : string) : string :=
  TrimSpace (TrimSuffix (TrimPrefix (TrimPrefix (TrimSpace comment) "//") "/*") "*/").

Definition hasResetDirective (group : option CommentGroup) : bool :=
  match group with
  | None => false
  | Some l => existsb (fun c => bool_decide (comment_text c = resetDirective)) l
  end.

Definition collectFields (fields : list Field) : list resetField :=
  flat_map (fun f => map (fun name => MkResetField name f.2) f.1) fields.

Definition resetStructFromSpec (spec : Spec) (declMarked : bool) : option resetStruct :=
  match spec with
  | SpecOther => None
  | SpecType typeSpec =>
      match TypeSpec_Type typeSpec with
      | StructType fields _ =>
          if negb declMarked && negb (hasResetDirective (TypeSpec_Doc typeSpec)) then None
          else Some (MkResetStruct (TypeSpec_Name typeSpec) (collectFields fields))
      | _ => None
      end
  end.

Definition collectResetStructs (doc : option CommentGroup) (specs : list Spec) : list resetStruct :=
  let declMarked := hasResetDirective doc in
  omap (fun spec => resetStructFromSpec spec declMarked) specs.

Definition resetTypeDecl (decl : Decl) : option (option CommentGroup * list Spec) :=
  match decl with
  | GenDecl tok doc specs => if decide (tok = TYPE) then Some (doc, specs) else None
  | FuncDecl _ => None
  end.

Definition findResetStructs (file : File) : list resetStruct :=
  flat_map (fun decl =>
    match resetTypeDecl decl with
    | None => []
    | Some (doc, specs) => collectResetStructs doc specs
    end) (File_Decls file).

(** ** Writing a [Reset] body *)

Abbreviation Builder := (M string).
Definition write (s : string) : Builder unit := modify (fun b => b +:+ s).

Definition exprString (e : Expr) : Builder string := mret (print_expr e).

Definition primitiveZeroValue (typeName : string) : option string :=
  if decide (typeName = "string") then Some (dquote +:+ dquote)
  else if decide (typeName = "bool") then Some "false"
  else if decide (typeName ∈ ["int"; "int8"; "int16"; "int32"; "int64";
                              "uint"; "uint8"; "uint16"; "uint32"; "uint64"; "uintptr";
                              "byte"; "rune"; "float32"; "float64"; "complex64"; "complex128"])
  then Some "0"
  else None.

Definition primitivePointerZeroValue (X : Expr) : option string :=
  match X with
  | Ident name => primitiveZeroValue name
  | _ => None
  end.

Definition writeZeroValueReset (fieldName : string) (expr : Expr) : Builder unit :=
  typeName ← exprString expr;
  _ ← write (tab +:+ "var zero" +:+ fieldName +:+ " " +:+ typeName +:+ nl);
  write (tab +:+ "s." +:+ fieldName +:+ " = zero" +:+ fieldName +:+ nl).

Definition writeArrayReset (fieldName : string) (Len : option Expr) (Elt : Expr) : Builder unit :=
  match Len with
  | None => write (tab +:+ "s." +:+ fieldName +:+ " = s." +:+ fieldName +:+ "[:0]" +:+ nl)
  | Some _ => writeZeroValueReset fieldName (ArrayType Len Elt)
  end.

Definition writePointerReset (fieldName : string) (X : Expr) : Builder unit :=
  match primitivePointerZeroValue X with
  | Some zeroValue =>
      _ ← write (tab +:+ "if s." +:+ fieldName +:+ " != nil {" +:+ nl);
      _ ← write (tab +:+ tab +:+ "*s." +:+ fieldName +:+ " = " +:+ zeroValue +:+ nl);
      write (tab +:+ "}" +:+ nl)
  | None =>
      _ ← write (tab +:+ "if s." +:+ fieldName +:+ " != nil {" +:+ nl);
      _ ← write (tab +:+ tab +:+ "if resetter, ok := any(s." +:+ fieldName
                 +:+ ").(interface{ Reset() }); ok {" +:+ nl);
      _ ← write (tab +:+ tab +:+ tab +:+ "resetter.Reset()" +:+ nl);
      _ ← write (tab +:+ tab +:+ "}" +:+ nl);
      write (tab +:+ "}" +:+ nl)
  end.

Definition writeIdentReset (fieldName : string) (typeIdent : string) : Builder unit :=
  match primitiveZeroValue typeIdent with
  | Some zeroValue => write (tab +:+ "s." +:+ fieldName +:+ " = " +:+ zeroValue +:+ nl)
  | None =>
      typeName ← exprString (Ident typeIdent);
      _ ← write (tab +:+ "if resetter, ok := any(&s." +:+ fieldName
                 +:+ ").(interface{ Reset() }); ok {" +:+ nl);
      _ ← write (tab +:+ tab +:+ "resetter.Reset()" +:+ nl);
      _ ← write (tab +:+ "} else {" +:+ nl);
      _ ← write (tab +:+ tab +:+ "var zero" +:+ fieldName +:+ " " +:+ typeName +:+ nl);
      _ ← write (tab +:+ tab +:+ "s." +:+ fieldName +:+ " = zero" +:+ fieldName +:+ nl);
      write (tab +:+ "}" +:+ nl)
  end.

Definition writeResetField (field : resetField) : Builder unit :=
  match field_Type field with
  | Ident name => writeIdentReset (field_Name field) name
  | StarExpr X => writePointerReset (field_Name field) X
  | ArrayType Len Elt => writeArrayReset (field_Name field) Len Elt
  | MapType _ _ => write (tab +:+ "clear(s." +:+ field_Name field +:+ ")" +:+ nl)
  | e => writeZeroValueReset (field_Name field) e
  end.

Definition buildResetBody (item : resetStruct) : outcome error string :=
  match for_range (struct_Fields item) writeResetField EmptyString with
  | (Ret _, text) => Ret text
  | (Fail e, _) => Fail e
  | (Panic p, _) => Panic p
  end.

(** ** The generated file *)

Record generatedStructTemplateData : Type := MkStructData {
  data_Name : string;
  data_Body : string;
}.

(** [generatedFileTemplate], executed: the text of one method and of the file. *)
Definition execute_struct (d : generatedStructTemplateData) : string :=
  nl +:+ "func (s *" +:+ data_Name d +:+ ") Reset() {" +:+ nl +:+
  tab +:+ "if s == nil {" +:+ nl +:+ tab +:+ tab +:+ "return" +:+ nl +:+ tab +:+ "}" +:+ nl +:+ nl +:+
  data_Body d +:+ "}" +:+ nl.

Definition generatedTemplate (packageName : string) (structs : list generatedStructTemplateData) : string :=
  generatedFileHead +:+ nl +:+ nl +:+ "package " +:+ packageName +:+ nl +:+
  String.concat EmptyString (map execute_struct structs).

Definition buildGeneratedFileTemplateData (info : packageInfo) :
    outcome error (list generatedStructTemplateData) :=
  foldr (fun item rest =>
    match buildResetBody item with
    | Ret body =>
        match rest with
        | Ret l => Ret (MkStructData (struct_Name item) body :: l)
        | r => r
        end
    | Fail e => Fail (ErrWrap ("build Reset body for " +:+ struct_Name item) e)
    | Panic p => Panic p
    end) (Ret []) (package_Structs info).

(** [map[string]*packageInfo]: the packages by directory. *)
Abbreviation Packages := (gmap string packageInfo).

Section Generator.
Context `{GoSyntax}.

Definition buildGeneratedFile (info : packageInfo) : outcome error string :=
  match buildGeneratedFileTemplateData info with
  | Ret data =>
      let source := generatedTemplate (package_Name info) data in
      match FormatSource source with
      | Ret formatted => Ret formatted
      | Fail e => Fail (ErrJoin [ErrWrap "format generated source" e; ErrNew source])
      | Panic p => Panic p
      end
  | Fail e => Fail e
  | Panic p => Panic p
  end.

(** ** The source tree *)

(** [fs.DirEntry] and what reading it gives: the text of a file, the entries of
    a directory in the order of [os.ReadDir]. *)
#[warnings="-register-all"]
Inductive Entry : Type :=
| EFile (name : string) (content : string + error)
| EDir (name : string) (err : option error) (entries : list Entry).

Definition entry_Name (e : Entry) : string :=
  match e with EFile n _ | EDir n _ _ => n end.
Definition entry_IsDir (e : Entry) : bool :=
  match e with EFile _ _ => false | EDir _ _ _ => true end.

(** [filepath.WalkDir]: the callback returns whether it wants [SkipDir].  The
    result says whether the rest of the containing directory is skipped. *)
Fixpoint walk {S : Type} (fn : string -> Entry -> option error -> M S bool)
    (path : string) (entry : Entry) : M S bool :=
  match entry with
  | EFile _ _ => fn path entry None
  | EDir _ err entries =>
      skip ← fn path entry None;
      if skip : bool then mret false
      else
        stop ← match err with
               | Some e => fn path entry (Some e)
               | None => mret false
               end;
        if stop : bool then mret false
        else
          _ ← (fix go (l : list Entry) : M S unit :=
                 match l with
                 | [] => mret tt
                 | e :: l' =>
                     stop ← walk fn (path_join path (entry_Name e)) e;
                     if stop : bool then mret tt else go l'
                 end) entries;
          mret false
  end.

Definition WalkDir {S : Type} (root : string) (tree : Entry + error)
    (fn : string -> Entry -> option error -> M S bool) : M S unit :=
  match tree with
  | inr e => _ ← fn root (EFile root (inr e)) (Some e); mret tt
  | inl entry => _ ← walk fn root entry; mret tt
  end.

(** ** Collecting the packages *)

Definition shouldSkipDir (name : string) : bool :=
  bool_decide (name ∈ [".git"; ".github"; "vendor"; "testdata"; "migrations"]).

Definition isGoSource (path : string) : bool :=
  let name := path_base path in
  HasSuffix name ".go" && negb (HasSuffix name "_test.go") && negb (bool_decide (name = generatedFile)).

Definition shouldSkipPath (root path : string) (entry : Entry) : bool :=
  entry_IsDir entry && negb (bool_decide (path = root)) && shouldSkipDir (entry_Name entry).

Definition packageInfoForFile (dir : string) (file : File) (path : string) : M Packages packageInfo :=
  packages ← get_state;
  match packages !! dir with
  | None =>
      let info := MkPackageInfo (File_Name file) [] in
      _ ← modify (fun packages => <[dir := info]> packages);
      mret info
  | Some info =>
      if decide (package_Name info <> File_Name file) then
        throw (ErrNew ("package mismatch in " +:+ path +:+ ": got " +:+ File_Name file
                       +:+ ", want " +:+ package_Name info))
      else mret info
  end.

Definition ParseFile (path : string) (content : string + error) : outcome error File :=
  match content with
  | inr e => Fail e
  | inl src => ParseSource src
  end.

(** The map holds pointers: [info.Structs = append(...)] updates its entry. *)
Definition collectPackageFile (path : string) (content : string + error) : M Packages unit :=
  file ← map_err (ErrWrap ("parse " +:+ path)) (lift_outcome (ParseFile path content));
  let structs := findResetStructs file in
  if decide (structs = []) then mret tt
  else
    let dir := path_dir path in
    info ← packageInfoForFile dir file path;
    modify (fun packages =>
      <[dir := MkPackageInfo (package_Name info) (package_Structs info ++ structs)]> packages).

Definition visit (root path : string) (entry : Entry) (walkErr : option error) : M Packages bool :=
  match walkErr with
  | Some e => throw e
  | None =>
      if shouldSkipPath root path entry then mret true
      else
        match entry with
        | EDir _ _ _ => mret false
        | EFile _ content =>
            if negb (isGoSource path) then mret false
            else _ ← collectPackageFile path content; mret false
        end
  end.

Definition collectPackages (root : string) (tree : Entry + error) : outcome error Packages :=
  match WalkDir root tree (visit root) ∅ with
  | (Ret _, packages) => Ret packages
  | (Fail e, _) => Fail e
  | (Panic p, _) => Panic p
  end.

(** ** [Generate] *)

Definition generate_dir (packages : Packages) (dir : string) : M FS string :=
  match packages !! dir with
  | None => panic "runtime error: invalid memory address or nil pointer dereference"
  | Some info =>
      src ← map_err (ErrWrap ("build " +:+ dir)) (lift_outcome (buildGeneratedFile info));
      let path := path_join dir generatedFile in
      _ ← map_err (ErrWrap ("write " +:+ path)) (WriteFile path src);
      mret path
  end.

Fixpoint generate_dirs (packages : Packages) (dirs : list string) : M FS (list string) :=
  match dirs with
  | [] => mret []
  | dir :: dirs' =>
      path ← generate_dir packages dir;
      rest ← generate_dirs packages dirs';
      mret (path :: rest)
  end.

Definition Generate `{MapRange} (root : string) (tree : Entry + error) : M FS (list string) :=
  packages ← lift_outcome (collectPackages root tree);
  generate_dirs packages (sort_strings (map fst (range_map packages))).
End Generator.
