(* ===== verification/ResetSemantics.v ===== *)
(** * What a generated [Reset] does

    The generated text is the rendering of a small Go program; an interpreter
    of that program on a heap gives its meaning.  The theorems: the generator
    writes exactly the program [reset_program], and running it resets every
    field by the rules of the project's documentation (README, increment 21), as far as the
    generator follows them. *)

From S2P Require Import Prelude GoError GoString GoText GoMap GoNum GoAst FileStore ResetGen.
Local Open Scope string_scope.

(** ** The programs the generator writes *)

(** [s.f] and [*s.f] as targets; a literal, a local variable and [s.f[:0]] as
    values; [any(&s.f)] and [any(s.f)] as operands of the type assertion. *)
Inductive lexpr : Type := LField (f : string) | LDeref (f : string).
Inductive rexpr : Type := RLit (lit : string) | RVar (x : string) | RTruncate (f : string).
Inductive operand : Type := OAddr (f : string) | OField (f : string).

#[warnings="-register-all"]
Inductive Stmt : Type :=
| SAssign (l : lexpr) (r : rexpr)
| SClear (f : string)
| SVar (x : string) (T : Expr)
| SIfNotNil (f : string) (body : list Stmt)
| SIfResetter (o : operand) (body : list Stmt) (orelse : option (list Stmt))
| SReset.

Definition render_lexpr (l : lexpr) : string :=
  match l with LField f => "s." +:+ f | LDeref f => "*s." +:+ f end.
Definition render_rexpr (r : rexpr) : string :=
  match r with
  | RLit lit => lit
  | RVar x => x
  | RTruncate f => "s." +:+ f +:+ "[:0]"
  end.
Definition render_operand (o : operand) : string :=
  match o with OAddr f => "&s." +:+ f | OField f => "s." +:+ f end.

(** Statements as gofmt lays them out, one per line, indented by tabs. *)
Fixpoint render (indent : string) (st : Stmt) : string :=
  let block := (fix go (l : list Stmt) : string :=
    match l with [] => EmptyString | st :: l' => render (tab +:+ indent) st +:+ go l' end) in
  match st with
  | SAssign l r => indent +:+ render_lexpr l +:+ " = " +:+ render_rexpr r +:+ nl
  | SClear f => indent +:+ "clear(s." +:+ f +:+ ")" +:+ nl
  | SVar x T => indent +:+ "var " +:+ x +:+ " " +:+ print_expr T +:+ nl
  | SIfNotNil f body => indent +:+ "if s." +:+ f +:+ " != nil {" +:+ nl +:+ block body +:+ indent +:+ "}" +:+ nl
  | SIfResetter o body orelse =>
      indent +:+ "if resetter, ok := any(" +:+ render_operand o +:+ ").(interface{ Reset() }); ok {" +:+ nl
      +:+ block body
      +:+ match orelse with
          | None => EmptyString
          | Some l => indent +:+ "} else {" +:+ nl +:+ block l
          end
      +:+ indent +:+ "}" +:+ nl
  | SReset => indent +:+ "resetter.Reset()" +:+ nl
  end.

Definition render_block (indent : string) (l : list Stmt) : string :=
  String.concat EmptyString (map (render indent) l).

(** ** The program for a field and for a struct *)

Definition zero_assign (f : string) (T : Expr) : list Stmt :=
  [SVar ("zero" +:+ f) T; SAssign (LField f) (RVar ("zero" +:+ f))].

Definition reset_field (fd : resetField) : list Stmt :=
  let f := field_Name fd in
  match field_Type fd with
  | Ident name =>
      match primitiveZeroValue name with
      | Some lit => [SAssign (LField f) (RLit lit)]
      | None => [SIfResetter (OAddr f) [SReset] (Some (zero_assign f (Ident name)))]
      end
  | StarExpr X =>
      match primitivePointerZeroValue X with
      | Some lit => [SIfNotNil f [SAssign (LDeref f) (RLit lit)]]
      | None => [SIfNotNil f [SIfResetter (OField f) [SReset] None]]
      end
  | ArrayType None _ => [SAssign (LField f) (RTruncate f)]
  | MapType _ _ => [SClear f]
  | T => zero_assign f T
  end.

Definition reset_program (item : resetStruct) : list Stmt := flat_map reset_field (struct_Fields item).

Lemma string_concat_cons s l : String.concat EmptyString (s :: l) = s +:+ String.concat EmptyString l.
Proof. destruct l; cbn [String.concat]; [by rewrite string_app_nil_r|done]. Qed.

Lemma string_concat_app l1 l2 :
  String.concat EmptyString (l1 ++ l2) = String.concat EmptyString l1 +:+ String.concat EmptyString l2.
Proof.
  induction l1 as [|s l1 IH]; [done|].
  rewrite <-app_comm_cons, !string_concat_cons, IH. by rewrite string_app_assoc.
Qed.

Lemma render_block_cons i st l : render_block i (st :: l) = render i st +:+ render_block i l.
Proof. apply string_concat_cons. Qed.

Lemma render_block_app i l1 l2 : render_block i (l1 ++ l2) = render_block i l1 +:+ render_block i l2.
Proof. unfold render_block. rewrite map_app. apply string_concat_app. Qed.

Create Rewrite HintDb go_text.
#[export] Hint Rewrite string_app_assoc render_block_cons string_app_nil_r : go_text.

(** The writer of a field appends the rendering of its program. *)
Lemma writeResetField_renders fd b :
  writeResetField fd b = (Ret tt, b +:+ render_block tab (reset_field fd)).
Proof.
  unfold writeResetField, reset_field, writeIdentReset, writePointerReset, writeArrayReset,
    writeZeroValueReset, exprString, write, zero_assign.
  destruct (field_Type fd) as [name|X|[n|] T|k v|X sel|X i|fs p|p];
    try destruct (primitiveZeroValue _) as [lit|]; try destruct (primitivePointerZeroValue _) as [lit|];
    unfold mbind, St_bind, mret, St_ret, modify; f_equal;
    unfold render_block; cbn [map String.concat render render_lexpr render_rexpr render_operand];
    autorewrite with go_text; reflexivity.
Qed.

Lemma buildResetBody_renders item :
  buildResetBody item = Ret (render_block tab (reset_program item)).
Proof.
  unfold buildResetBody, reset_program.
  rewrite (for_range_pure _ _ (fun b fd => b +:+ render_block tab (reset_field fd)))
    by (intros; apply writeResetField_renders).
  f_equal. change (render_block tab (flat_map reset_field (struct_Fields item)))
    with (EmptyString +:+ render_block tab (flat_map reset_field (struct_Fields item))).
  generalize EmptyString at 1 2 as b.
  induction (struct_Fields item) as [|fd l IH]; intros b; [symmetry; apply string_app_nil_r|].
  cbn [foldl flat_map]. rewrite IH, render_block_app. apply string_app_assoc.
Qed.

(** ** Values and the heap

    An address is an object and the path of a field in it.  Arrays are
    aggregates whose fields are their indices.  [VRef] is a function, channel or
    interface value: an opaque reference or nil. *)
Abbreviation Addr := (nat * list string)%type.

#[warnings="-register-all"]
Inductive Val : Type :=
| VString (s : string)
| VBool (b : bool)
| VInt (z : Z)
| VFloat (f : float64)
| VComplex (re im : float64)
| VPtr (a : option Addr)
| VSlice (arr : option nat) (len cap : nat)
| VMap (m : option nat)
| VRef (r : option nat)
| VAgg (fields : list (string * Val)).

(** Induction with the hypothesis for the fields of an aggregate. *)
Lemma Val_nested_ind (P : Val -> Prop) :
  (forall v, (forall fs, v <> VAgg fs) -> P v) ->
  (forall fs, Forall (fun nv => P nv.2) fs -> P (VAgg fs)) ->
  forall v, P v.
Proof.
  intros Hleaf Hagg. fix IH 1. intros [s|b|z|f|re im|a|arr len cap|m|r|fs];
    try (apply Hleaf; intros ?; discriminate).
  apply Hagg. induction fs as [|[n v] fs IHfs]; constructor; [apply IH|exact IHfs].
Qed.

(** The zero value of the type a value has. *)
Fixpoint zero_val (v : Val) : Val :=
  match v with
  | VString _ => VString EmptyString
  | VBool _ => VBool false
  | VInt _ => VInt 0
  | VFloat _ => VFloat FloatZero
  | VComplex _ _ => VComplex FloatZero FloatZero
  | VPtr _ => VPtr None
  | VSlice _ _ _ => VSlice None 0 0
  | VMap _ => VMap None
  | VRef _ => VRef None
  | VAgg fs => VAgg (map (fun nv => (nv.1, zero_val nv.2)) fs)
  end.

Record Heap : Type := MkHeap {
  objs : gmap nat Val;
  maps : gmap nat (list (Val * Val));
}.

Fixpoint find_field (f : string) (fs : list (string * Val)) : option Val :=
  match fs with
  | [] => None
  | (n, v) :: fs' => if decide (n = f) then Some v else find_field f fs'
  end.

Fixpoint update_field (f : string) (g : Val -> Val) (fs : list (string * Val)) : list (string * Val) :=
  match fs with
  | [] => []
  | (n, v) :: fs' => if decide (n = f) then (n, g v) :: fs' else (n, v) :: update_field f g fs'
  end.

Fixpoint get_path (p : list string) (v : Val) : option Val :=
  match p with
  | [] => Some v
  | f :: p' => match v with VAgg fs => find_field f fs ≫= get_path p' | _ => None end
  end.

Fixpoint set_path (p : list string) (x v : Val) : Val :=
  match p with
  | [] => x
  | f :: p' => match v with VAgg fs => VAgg (update_field f (set_path p' x) fs) | _ => v end
  end.

Definition load (a : Addr) (h : Heap) : option Val := objs h !! a.1 ≫= get_path a.2.
Definition store (a : Addr) (x : Val) (h : Heap) : Heap :=
  MkHeap (alter (set_path a.2 x) a.1 (objs h)) (maps h).

Definition field_addr (a : Addr) (f : string) : Addr := (a.1, (a.2 ++ [f])%list).

(** ** The interpreter

    [Fail] marks a program that does not compile, or a value that does not have
    its declared type; a panic of the program is a [Panic]. *)
Abbreviation Run := (St string Heap).

Definition nil_deref : string := "runtime error: invalid memory address or nil pointer dereference".

Definition load_addr (a : Addr) : Run Val := fun h =>
  match load a h with
  | Some v => (Ret v, h)
  | None => (Fail "no such variable", h)
  end.
Definition store_addr (a : Addr) (v : Val) : Run unit := modify (store a v).

(** The blank field cannot be selected. *)
Definition select (a : Addr) (f : string) : Run Addr :=
  if decide (f = "_") then throw "cannot refer to blank field" else mret (field_addr a f).

(** A literal at the type of the variable it is assigned to. *)
Definition literal_at (lit : string) (old : Val) : Run Val :=
  match old with
  | VString _ => if decide (lit = dquote +:+ dquote) then mret (VString EmptyString) else throw "mismatched types"
  | VBool _ => if decide (lit = "false") then mret (VBool false) else throw "mismatched types"
  | VInt _ => if decide (lit = "0") then mret (VInt 0) else throw "mismatched types"
  | VFloat _ => if decide (lit = "0") then mret (VFloat FloatZero) else throw "mismatched types"
  | VComplex _ _ => if decide (lit = "0") then mret (VComplex FloatZero FloatZero) else throw "mismatched types"
  | _ => throw "mismatched types"
  end.

(** The [Reset] method in the method set of a pointer to a type, if it has one;
    the receiver may be nil. *)
Definition Methods : Type := Expr -> option (option Addr -> Run unit).

Fixpoint declared (decl : list resetField) (f : string) : option Expr :=
  match decl with
  | [] => None
  | fd :: decl' => if decide (field_Name fd = f) then Some (field_Type fd) else declared decl' f
  end.

Section Interpreter.
Context (method : Methods) (decl : list resetField) (s : Addr).

Abbreviation Locals := (gmap string Expr).

Definition target (l : lexpr) : Run Addr :=
  match l with
  | LField f => select s f
  | LDeref f =>
      a ← select s f; v ← load_addr a;
      match v with
      | VPtr (Some t) => mret t
      | VPtr None => panic nil_deref
      | _ => throw "cannot indirect"
      end
  end.

Definition eval (locals : Locals) (l : lexpr) (old : Val) (r : rexpr) : Run Val :=
  match r with
  | RLit lit => literal_at lit old
  | RVar x =>
      match l, locals !! x with
      | LField f, Some T =>
          if decide (print_expr <$> declared decl f = Some (print_expr T)) then mret (zero_val old)
          else throw "mismatched types"
      | _, _ => throw "undefined"
      end
  | RTruncate f =>
      a ← select s f; v ← load_addr a;
      match v with
      | VSlice arr len cap => mret (VSlice arr 0 cap)
      | _ => throw "cannot slice"
      end
  end.

(** The method value the type assertion gives, when it succeeds. *)
Definition assert_resetter (o : operand) : Run (option (Run unit)) :=
  match o with
  | OAddr f =>
      a ← select s f;
      match declared decl f with
      | Some T => mret ((fun m => m (Some a)) <$> method T)
      | None => throw "undefined"
      end
  | OField f =>
      a ← select s f; v ← load_addr a;
      match declared decl f, v with
      | Some (StarExpr X), VPtr t => mret ((fun m => m t) <$> method X)
      | _, _ => throw "undefined"
      end
  end.

Fixpoint exec (resetter : option (Run unit)) (locals : Locals) (st : Stmt) {struct st} : Run Locals :=
  let block := (fix go (resetter : option (Run unit)) (locals : Locals) (l : list Stmt) : Run unit :=
    match l with
    | [] => mret tt
    | st :: l' => locals' ← exec resetter locals st; go resetter locals' l'
    end) in
  match st with
  | SAssign l r =>
      a ← target l; old ← load_addr a; v ← eval locals l old r;
      _ ← store_addr a v; mret locals
  | SClear f =>
      a ← select s f; v ← load_addr a;
      match v with
      | VMap (Some m) => _ ← modify (fun h => MkHeap (objs h) (<[m := []]> (maps h))); mret locals
      | VMap None => mret locals
      | _ => throw "invalid argument"
      end
  | SVar x T => mret (<[x := T]> locals)
  | SIfNotNil f body =>
      a ← select s f; v ← load_addr a;
      match v with
      | VPtr (Some _) => _ ← block resetter locals body; mret locals
      | VPtr None => mret locals
      | _ => throw "mismatched types"
      end
  | SIfResetter o body orelse =>
      m ← assert_resetter o;
      match m with
      | Some call => _ ← block (Some call) locals body; mret locals
      | None =>
          match orelse with
          | Some l => _ ← block resetter locals l; mret locals
          | None => mret locals
          end
      end
  | SReset =>
      match resetter with
      | Some call => _ ← call; mret locals
      | None => throw "undefined"
      end
  end.

Fixpoint exec_block (resetter : option (Run unit)) (locals : Locals) (l : list Stmt) : Run unit :=
  match l with
  | [] => mret tt
  | st :: l' => locals' ← exec resetter locals st; exec_block resetter locals' l'
  end.
End Interpreter.

(** The generated method: nothing on a nil receiver, else the body. *)
Definition reset_method (method : Methods) (item : resetStruct) (s : option Addr) : Run unit :=
  match s with
  | None => mret tt
  | Some a => exec_block method (struct_Fields item) a None ∅ (reset_program item)
  end.

(** The [Reset] methods of a package: the generated ones, and those written by
    hand on types that are not marked.  The fuel is the depth of the call stack; a
    call that exceeds it kills the program. *)
Fixpoint generated_methods (items : list resetStruct) (hand : Methods) (depth : nat) : Methods := fun T =>
  match T with
  | Ident name =>
      match find (fun item => bool_decide (struct_Name item = name)) items with
      | Some item =>
          Some (match depth with
                | O => fun _ => panic "goroutine stack exceeds 1000000000-byte limit"
                | S depth' => reset_method (generated_methods items hand depth') item
                end)
      | None => hand T
      end
  | _ => hand T
  end.
