(* ===== verification/ResetCorrect.v ===== *)
(** * Correctness of the generated [Reset] methods

    The order [shrinks] says that a value lost data and nothing else changed:
    every part of it is as it was, zero, or truncated.  Every step of a
    generated method shrinks the heap, so what one field's reset achieved is
    kept by the others, whatever the pointers alias. *)

From S2P Require Import Prelude GoError GoString GoText GoMap GoNum GoAst FileStore ResetGen ResetSemantics.
Local Open Scope string_scope.

(** ** Values that shrink *)

Fixpoint shrinks (v v' : Val) : Prop :=
  match v with
  | VAgg fs =>
      match v' with
      | VAgg gs =>
          (fix go (fs gs : list (string * Val)) : Prop :=
             match fs, gs with
             | [], [] => True
             | (n, x) :: fs', (m, y) :: gs' => n = m /\ shrinks x y /\ go fs' gs'
             | _, _ => False
             end) fs gs
      | _ => False
      end
  | VSlice arr len cap => v' = v \/ v' = VSlice arr 0 cap \/ v' = VSlice None 0 0
  | _ => v' = v \/ v' = zero_val v
  end.

Definition field_shrinks (nv nv' : string * Val) : Prop := nv.1 = nv'.1 /\ shrinks nv.2 nv'.2.

Lemma shrinks_agg fs v' :
  shrinks (VAgg fs) v' <-> exists gs, v' = VAgg gs /\ Forall2 field_shrinks fs gs.
Proof.
  destruct v' as [s|b|z|f|re im|a|arr len cap|m|r|gs];
    try (split; [intros []|by intros (? & [=] & _)]).
  transitivity (Forall2 field_shrinks fs gs); [|naive_solver].
  revert gs. induction fs as [|[n x] fs IH]; intros [|[m y] gs].
  - by rewrite Forall2_nil.
  - split; [intros []|by intros H%Forall2_nil_cons_inv].
  - split; [intros []|by intros H%Forall2_cons_nil_inv].
  - rewrite Forall2_cons, <-IH. unfold field_shrinks. cbn. tauto.
Qed.

Lemma shrinks_refl v : shrinks v v.
Proof.
  induction v as [v Hleaf|fs IH] using Val_nested_ind.
  - destruct v; cbn; try by left. by destruct (Hleaf fields).
  - apply shrinks_agg. exists fs. split; [done|]. apply Forall_Forall2_diag.
    eapply Forall_impl; [done|]. by intros [n x].
Qed.

Lemma shrinks_zero v : shrinks v (zero_val v).
Proof.
  induction v as [v Hleaf|fs IH] using Val_nested_ind.
  - destruct v; cbn; auto. by destruct (Hleaf fields).
  - apply shrinks_agg. eexists. split; [done|]. apply Forall2_fmap_r, Forall_Forall2_diag.
    eapply Forall_impl; [done|]. by intros [n x].
Qed.

(** Nothing is below a zero value. *)
Lemma zero_stable v v' : shrinks (zero_val v) v' -> v' = zero_val v.
Proof.
  revert v'. induction v as [v Hleaf|fs IH] using Val_nested_ind; intros v'.
  - destruct v; cbn; try tauto. by destruct (Hleaf fields).
  - cbn [zero_val]. intros (gs & -> & H)%shrinks_agg. f_equal. revert gs H.
    induction IH as [|[n x] fs Hx _ IH]; intros gs H; cbn in H.
    + by apply Forall2_nil_inv_l in H.
    + apply Forall2_cons_inv_l in H as ([m y] & gs' & [Hn Hy] & H & ->). cbn in *.
      by rewrite (Hx y Hy), <-(IH gs' H), <-Hn.
Qed.

Lemma zero_val_idemp v : zero_val (zero_val v) = zero_val v.
Proof. apply zero_stable, shrinks_zero. Qed.

Lemma shrinks_trans v1 v2 v3 : shrinks v1 v2 -> shrinks v2 v3 -> shrinks v1 v3.
Proof.
  revert v2 v3. induction v1 as [v1 Hleaf|fs IH] using Val_nested_ind; intros v2 v3.
  - destruct v1; cbn; try (by destruct (Hleaf fields));
      intros H12 H23; repeat destruct H12 as [->|H12]; subst; cbn in *; naive_solver.
  - intros (gs & -> & H1)%shrinks_agg (hs & -> & H2)%shrinks_agg. apply shrinks_agg.
    exists hs. split; [done|]. revert gs hs H1 H2.
    induction IH as [|[n x] fs Hx _ IH]; intros gs hs H1 H2.
    + apply Forall2_nil_inv_l in H1 as ->. by apply Forall2_nil_inv_l in H2 as ->.
    + apply Forall2_cons_inv_l in H1 as ([m y] & gs' & [Hn Hy] & H1 & ->).
      apply Forall2_cons_inv_l in H2 as ([k z] & hs' & [Hk Hz] & H2 & ->). cbn in *. subst.
      constructor; [|by apply (IH gs')]. split; [done|]. cbn. eauto.
Qed.

Lemma shrinks_truncate arr len cap : shrinks (VSlice arr len cap) (VSlice arr 0 cap).
Proof. right. by left. Qed.

(** ** Paths *)

Lemma find_field_shrinks f fs gs v :
  Forall2 field_shrinks fs gs -> find_field f fs = Some v ->
  exists v', find_field f gs = Some v' /\ shrinks v v'.
Proof.
  induction 1 as [|[n x] [m y] fs1 gs1 [Hn Hx] _ IH]; [done|]. cbn in *. subst m.
  case_decide; [|done]. intros [= <-]. by exists y.
Qed.

Lemma get_path_shrinks p v v' x :
  shrinks v v' -> get_path p v = Some x -> exists x', get_path p v' = Some x' /\ shrinks x x'.
Proof.
  revert v v'. induction p as [|f p IH]; intros v v' Hv; cbn; [intros [= <-]; eauto|].
  destruct v as [| | | | | | | | |fs]; try done. apply shrinks_agg in Hv as (gs & -> & Hfs).
  destruct (find_field f fs) as [w|] eqn:Hw; [cbn [mbind option_bind]|done]. intros Hp.
  destruct (find_field_shrinks f fs gs w Hfs Hw) as (w' & -> & Hs). by apply (IH w w').
Qed.

Lemma update_field_shrinks f g fs v :
  find_field f fs = Some v -> shrinks v (g v) ->
  Forall2 field_shrinks fs (update_field f g fs) /\ find_field f (update_field f g fs) = Some (g v).
Proof.
  intros Hf Hg. induction fs as [|[n x] fs IH]; [done|]. cbn in *. case_decide as Hn.
  - injection Hf as ->. cbn. rewrite decide_True by done. split; [|done]. constructor; [by split|].
    apply Forall_Forall2_diag, Forall_true. intros [k y]. split; [done|apply shrinks_refl].
  - cbn. rewrite decide_False by done. destruct (IH Hf) as [IH1 IH2]. split; [|done].
    constructor; [split; [done|apply shrinks_refl]|done].
Qed.

Lemma set_path_shrinks p v x x' :
  get_path p v = Some x -> shrinks x x' ->
  shrinks v (set_path p x' v) /\ get_path p (set_path p x' v) = Some x'.
Proof.
  intros Hp Hx. revert v Hp. induction p as [|f p IH]; intros v; [by intros [= ->]|]. cbn [get_path set_path].
  destruct v as [| | | | | | | | |fs]; try done.
  destruct (find_field f fs) as [w|] eqn:Hw; [cbn [mbind option_bind]|done]. intros Hp.
  destruct (IH w Hp) as [IH1 IH2].
  destruct (update_field_shrinks f (set_path p x') fs w Hw IH1) as [H1 H2]. split.
  - apply shrinks_agg. eauto.
  - cbn [get_path]. by rewrite H2.
Qed.

(** ** Heaps that shrink *)

Definition heap_shrinks (h h' : Heap) : Prop :=
  (forall l v, objs h !! l = Some v -> exists v', objs h' !! l = Some v' /\ shrinks v v') /\
  (forall m kvs, maps h !! m = Some kvs -> maps h' !! m = Some kvs \/ maps h' !! m = Some []).

#[export] Instance heap_shrinks_preorder : PreOrder heap_shrinks.
Proof.
  split.
  - intros h. split; [|by left]. intros l v Hv. exists v. split; [done|apply shrinks_refl].
  - intros h1 h2 h3 [H1 M1] [H2 M2]. split.
    + intros l v (v2 & Hv2 & S2)%H1. destruct (H2 l v2 Hv2) as (v3 & Hv3 & S3).
      exists v3. split; [done|by eapply shrinks_trans].
    + intros m kvs Hm. destruct (M1 m kvs Hm) as [E|E]; destruct (M2 m _ E); auto.
Qed.

Lemma load_shrinks a h h' v :
  heap_shrinks h h' -> load a h = Some v -> exists v', load a h' = Some v' /\ shrinks v v'.
Proof.
  unfold load. intros [H _]. destruct (objs h !! a.1) as [w|] eqn:Hw; [cbn|done]. intros Hp.
  destruct (H _ w Hw) as (w' & -> & S). cbn. by apply (get_path_shrinks a.2 w).
Qed.

Lemma store_shrinks a h v v' :
  load a h = Some v -> shrinks v v' ->
  heap_shrinks h (store a v' h) /\ load a (store a v' h) = Some v'.
Proof.
  unfold load, store. destruct (objs h !! a.1) as [w|] eqn:Hw; [cbn|done]. intros Hp Hs.
  destruct (set_path_shrinks a.2 w v v' Hp Hs) as [H1 H2]. split; [|by rewrite lookup_alter_eq, Hw].
  split; [|by left]. intros l u Hu. cbn. destruct (decide (l = a.1)) as [->|Hl].
  - rewrite lookup_alter_eq, Hu. rewrite Hw in Hu. injection Hu as <-. eauto.
  - rewrite lookup_alter_ne by done. exists u. split; [done|apply shrinks_refl].
Qed.

Lemma clear_shrinks m h : heap_shrinks h (MkHeap (objs h) (<[m := []]> (maps h))).
Proof.
  split; cbn.
  - intros l v Hv. exists v. split; [done|apply shrinks_refl].
  - intros m' kvs Hm. destruct (decide (m = m')) as [<-|]; [right; by rewrite lookup_insert_eq|].
    left. by rewrite lookup_insert_ne.
Qed.

(** ** Well-typed objects and reset objects *)

Definition literal_for (lit : string) (v : Val) : Prop :=
  match v with
  | VString _ => lit = dquote +:+ dquote
  | VBool _ => lit = "false"
  | VInt _ | VFloat _ | VComplex _ _ => lit = "0"
  | _ => False
  end.

(** A value of the declared type, as far as the generated code looks at it. *)
Definition has_type (T : Expr) (v : Val) : Prop :=
  match T with
  | Ident name => match primitiveZeroValue name with Some lit => literal_for lit v | None => True end
  | StarExpr _ => exists a, v = VPtr a
  | ArrayType None _ => exists arr len cap, v = VSlice arr len cap
  | MapType _ _ => exists m, v = VMap m
  | _ => True
  end.

Lemma literal_for_shrinks lit v v' : shrinks v v' -> literal_for lit v -> literal_for lit v'.
Proof. destruct v; cbn; try done; by intros [->| ->]. Qed.

Lemma has_type_shrinks T v v' : shrinks v v' -> has_type T v -> has_type T v'.
Proof.
  intros Hs. destruct T as [name|X|[n|] T|k v0|X sel|X i|fs p|p]; cbn; try done.
  - destruct (primitiveZeroValue name); [|done]. by apply literal_for_shrinks.
  - intros [a ->]. destruct Hs as [->| ->]; cbn; eauto.
  - intros (arr & len & cap & ->). destruct Hs as [->|[->| ->]]; eauto.
  - intros [m ->]. destruct Hs as [->| ->]; cbn; eauto.
Qed.

Lemma literal_at_ok lit v h : literal_for lit v -> literal_at lit v h = (Ret (zero_val v), h).
Proof. destruct v; cbn; try done; intros ->; by rewrite decide_True. Qed.

(** Go's basic types. *)
Definition basic_types : list string :=
  ["string"; "bool"; "int"; "int8"; "int16"; "int32"; "int64"; "uint"; "uint8"; "uint16"; "uint32"; "uint64";
   "uintptr"; "byte"; "rune"; "float32"; "float64"; "complex64"; "complex128"].

Definition basic (T : Expr) : bool :=
  match T with Ident name => bool_decide (name ∈ basic_types) | _ => false end.

(** The types that can have methods. *)
Definition named (T : Expr) : Prop :=
  match T with Ident _ => basic T = false | SelectorExpr _ _ | IndexExpr _ _ => True | _ => False end.

(** A method written by hand, on a named type that is not marked: called on an
    object, it returns, and it only zeroes, truncates or clears. *)
Definition well_behaved (hand : Methods) : Prop :=
  forall T m, hand T = Some m -> named T /\
    forall t h, exists h', m (Some t) h = (Ret tt, h') /\ heap_shrinks h h'.

Section Package.
Context (items : list resetStruct) (hand : Methods).

Definition struct_named (T : Expr) : option resetStruct :=
  match T with
  | Ident name => find (fun item => bool_decide (struct_Name item = name)) items
  | _ => None
  end.

(** The [Reset] call the program of a field makes, with its receiver. *)
Definition callee (h : Heap) (a : Addr) (fd : resetField) : option (resetStruct * Addr) :=
  let here := field_addr a (field_Name fd) in
  match field_Type fd with
  | Ident name =>
      match primitiveZeroValue name with
      | Some _ => None
      | None => item ← struct_named (Ident name); Some (item, here)
      end
  | StarExpr X =>
      match primitivePointerZeroValue X, load here h with
      | None, Some (VPtr (Some t)) => item ← struct_named X; Some (item, t)
      | _, _ => None
      end
  | _ => None
  end.

Definition field_ok (h : Heap) (a : Addr) (fd : resetField) : Prop :=
  field_Name fd <> "_" /\
  exists v, load (field_addr a (field_Name fd)) h = Some v /\ has_type (field_Type fd) v /\
    forall X lit t, field_Type fd = StarExpr X -> primitivePointerZeroValue X = Some lit ->
      v = VPtr (Some t) -> exists x, load t h = Some x /\ literal_for lit x.

(** The object at [a] is a well-typed [item], and so is everything the
    methods called from its [Reset] visit; chains of calls end within [n]. *)
Fixpoint visits_within (n : nat) (h : Heap) (item : resetStruct) (a : Addr) : Prop :=
  match n with
  | O => False
  | S n' =>
      NoDup (map field_Name (struct_Fields item)) /\
      forall fd, fd ∈ struct_Fields item ->
        field_ok h a fd /\
        forall item' t, callee h a fd = Some (item', t) -> visits_within n' h item' t
  end.

(** ** The rules of the documentation (README, increment 21)

    A reference for the generated methods: what a reset does to the heap, by the
    declared types, without the generated text. *)

Definition zero_at (a : Addr) (h : Heap) : Heap :=
  match load a h with Some v => store a (zero_val v) h | None => h end.

Definition truncate_at (a : Addr) (h : Heap) : Heap :=
  match load a h with Some (VSlice arr _ cap) => store a (VSlice arr 0 cap) h | _ => h end.

Definition clear_at (a : Addr) (h : Heap) : Heap :=
  match load a h with Some (VMap (Some m)) => MkHeap (objs h) (<[m := []]> (maps h)) | _ => h end.

Section Rules.
(** [call] resets a marked struct. *)
Context (call : resetStruct -> Addr -> Heap -> Heap).

(** The [Reset] method of a type. *)
Definition resetter (T : Expr) : option (Addr -> Heap -> Heap) :=
  match struct_named T with
  | Some item => Some (call item)
  | None => (fun m t h => (m (Some t) h).2) <$> hand T
  end.

(** A slice loses its length, and keeps its array and its capacity; a map keeps its
    identity and loses its entries; a pointer stays, and the value it leads to is
    reset by these rules; a basic value becomes zero; a value with a [Reset] method
    is reset by it, any other becomes zero. *)
Fixpoint value_by_rules (T : Expr) (a : Addr) (h : Heap) : Heap :=
  match T with
  | ArrayType None _ => truncate_at a h
  | MapType _ _ => clear_at a h
  | StarExpr X =>
      match load a h with Some (VPtr (Some t)) => value_by_rules X t h | _ => h end
  | _ =>
      if basic T then zero_at a h
      else match resetter T with Some reset => reset a h | None => zero_at a h end
  end.

(** Where the generator departs from them: it leaves alone what a pointer leads to,
    unless that is a basic value or has a [Reset] method, and it zeroes a field of a
    type of another package, or an instance of a generic one, whether or not it has
    a [Reset] method. *)
Definition follows_rules (T : Expr) : bool :=
  match T with
  | StarExpr X => basic X || bool_decide (is_Some (resetter X))
  | Ident _ | ArrayType None _ | MapType _ _ => true
  | _ => negb (bool_decide (is_Some (resetter T)))
  end.

Definition field_effect (a : Addr) (h : Heap) (fd : resetField) : Heap :=
  let here := field_addr a (field_Name fd) in
  if follows_rules (field_Type fd) then value_by_rules (field_Type fd) here h
  else match field_Type fd with StarExpr _ => h | _ => zero_at here h end.
End Rules.

Fixpoint by_rules (n : nat) (item : resetStruct) (a : Addr) (h : Heap) : Heap :=
  match n with
  | O => h
  | S n' => foldl (field_effect (by_rules n') a) h (struct_Fields item)
  end.

Lemma primitive_basic name :
  basic (Ident name) = match primitiveZeroValue name with Some _ => true | None => false end.
Proof.
  unfold primitiveZeroValue, basic. destruct (decide (name = "string")) as [->|H1]; [done|].
  destruct (decide (name = "bool")) as [->|H2]; [done|].
  case_decide as H3; [apply bool_decide_eq_true_2|apply bool_decide_eq_false_2]; unfold basic_types in *.
  - by right; right.
  - by intros [?|[?|?]%elem_of_cons]%elem_of_cons.
Qed.

Lemma primitive_pointer_basic X :
  basic X = match primitivePointerZeroValue X with Some _ => true | None => false end.
Proof. destruct X; try done. apply primitive_basic. Qed.

Lemma field_ok_shrinks h h' a fd : heap_shrinks h h' -> field_ok h a fd -> field_ok h' a fd.
Proof.
  intros Hh (Hn & v & Hv & Ht & Hp). split; [done|].
  destruct (load_shrinks _ h h' v Hh Hv) as (v' & Hv' & Hs). exists v'. split_and!; [done| |].
  - by eapply has_type_shrinks.
  - intros X lit t HX Hl ->. assert (v = VPtr (Some t)) as ->.
    { rewrite HX in Ht. destruct Ht as [p ->]. by destruct Hs as [[= ->]|[=]]. }
    destruct (Hp X lit t HX Hl eq_refl) as (x & Hx & Hlx).
    destruct (load_shrinks _ h h' x Hh Hx) as (x' & Hx' & Hsx). exists x'. split; [done|].
    by eapply literal_for_shrinks.
Qed.

Lemma callee_shrinks h h' a fd item t :
  heap_shrinks h h' -> field_ok h a fd -> callee h' a fd = Some (item, t) -> callee h a fd = Some (item, t).
Proof.
  unfold callee. intros Hh (_ & v & Hv & Ht & _). destruct (field_Type fd) as [name|X| | | | | |]; try done.
  destruct (primitivePointerZeroValue X); [done|].
  destruct (load_shrinks _ h h' v Hh Hv) as (v' & -> & Hs). rewrite Hv.
  destruct Ht as [p ->]. by destruct Hs as [->| ->].
Qed.

Lemma visits_within_shrinks n h h' item a :
  heap_shrinks h h' -> visits_within n h item a -> visits_within n h' item a.
Proof.
  intros Hh. revert item a. induction n as [|n IH]; intros item a; [done|]. intros [Hnd Hf].
  split; [done|]. intros fd Hin. destruct (Hf fd Hin) as [Hok Hc]. split.
  - by eapply field_ok_shrinks.
  - intros item' t Ht. apply IH, Hc. by eapply callee_shrinks.
Qed.

(** ** Running the programs *)

Section Step.
Context (method : Methods) (decl : list resetField) (s : Addr).

(** A call of the [Reset] of the type [T] on [t] returns, has the effect [g] and
    shrinks the heap. *)
Definition call_ok (g : Heap -> Heap) (T : Expr) (t : Addr) (h : Heap) : Prop :=
  exists m, method T = Some m /\ m (Some t) h = (Ret tt, g h) /\ heap_shrinks h (g h).

Lemma select_ok f h : f <> "_" -> select s f h = (Ret (field_addr s f), h).
Proof. intros Hf. unfold select. by rewrite decide_False. Qed.

Lemma load_addr_ok a v h : load a h = Some v -> load_addr a h = (Ret v, h).
Proof. unfold load_addr. by intros ->. Qed.

Lemma exec_cons resetter locals st l h :
  exec_block method decl s resetter locals (st :: l) h
  = (exec method decl s resetter locals st ≫= fun locals' => exec_block method decl s resetter locals' l) h.
Proof. done. Qed.

(** [s.f = v] for a value [v] the right-hand side gives. *)
Lemma exec_assign resetter locals f r v v' h :
  f <> "_" -> load (field_addr s f) h = Some v ->
  eval decl s locals (LField f) v r h = (Ret v', h) ->
  exec method decl s resetter locals (SAssign (LField f) r) h = (Ret locals, store (field_addr s f) v' h).
Proof.
  intros Hf Hv He. cbn [exec target]. rewrite (bind_Ret _ _ _ _ _ (select_ok f h Hf)).
  rewrite (bind_Ret _ _ _ _ _ (load_addr_ok _ _ _ Hv)). by rewrite (bind_Ret _ _ _ _ _ He).
Qed.

Lemma exec_assign_literal resetter locals f lit v h :
  f <> "_" -> load (field_addr s f) h = Some v -> literal_for lit v ->
  exec method decl s resetter locals (SAssign (LField f) (RLit lit)) h
  = (Ret locals, store (field_addr s f) (zero_val v) h).
Proof. intros Hf Hv Hl. eapply exec_assign; [done..|]. by apply literal_at_ok. Qed.

(** [var zero T; s.f = zero]. *)
Lemma exec_zero_assign resetter locals f T v h rest :
  f <> "_" -> load (field_addr s f) h = Some v -> declared decl f = Some T ->
  exists locals', exec_block method decl s resetter locals (zero_assign f T ++ rest) h
    = exec_block method decl s resetter locals' rest (store (field_addr s f) (zero_val v) h).
Proof.
  intros Hf Hv Hd. exists (<["zero" +:+ f := T]> locals).
  change (zero_assign f T ++ rest)%list
    with (SVar ("zero" +:+ f) T :: SAssign (LField f) (RVar ("zero" +:+ f)) :: rest).
  rewrite exec_cons. unfold mbind at 1, St_bind at 1. cbn [exec mret St_ret].
  rewrite exec_cons. erewrite bind_Ret; [done|]. eapply exec_assign; [done..|].
  cbn [eval]. rewrite lookup_insert_eq, Hd. cbn [fmap option_fmap option_map].
  by rewrite decide_True.
Qed.
End Step.

Section Field.
Context (method : Methods) (decl : list resetField) (s : Addr) (reset_struct : resetStruct -> Addr -> Heap -> Heap).
Hypothesis method_struct : forall T, struct_named T = None -> method T = hand T.
Hypothesis hand_ok : well_behaved hand.

(** The program of a field has the effect of the rules. *)
Definition field_run (fd : resetField) (h : Heap) : Prop :=
  (forall locals rest, exists locals',
    exec_block method decl s None locals (reset_field fd ++ rest) h
      = exec_block method decl s None locals' rest (field_effect reset_struct s h fd)) /\
  heap_shrinks h (field_effect reset_struct s h fd).

Lemma zero_at_shrinks a h : heap_shrinks h (zero_at a h).
Proof.
  unfold zero_at. destruct (load a h) as [v|] eqn:Hv; [|done].
  by apply (store_shrinks a h v (zero_val v) Hv (shrinks_zero v)).
Qed.

(** [if s.f != nil { ... }] *)
Lemma exec_if_nil locals f body rest h :
  f <> "_" -> load (field_addr s f) h = Some (VPtr None) ->
  exec_block method decl s None locals (SIfNotNil f body :: rest) h
  = exec_block method decl s None locals rest h.
Proof.
  intros Hf Hv. rewrite exec_cons. erewrite bind_Ret; [done|]. cbn [exec].
  rewrite (bind_Ret _ _ _ _ _ (select_ok s f h Hf)). by rewrite (bind_Ret _ _ _ _ _ (load_addr_ok _ _ _ Hv)).
Qed.

Lemma exec_if_not_nil locals f t st rest h r h' :
  f <> "_" -> load (field_addr s f) h = Some (VPtr (Some t)) ->
  exec method decl s None locals st h = (Ret r, h') ->
  exec_block method decl s None locals (SIfNotNil f [st] :: rest) h
  = exec_block method decl s None locals rest h'.
Proof.
  intros Hf Hv Hb. rewrite exec_cons. erewrite bind_Ret; [done|]. cbn [exec].
  rewrite (bind_Ret _ _ _ _ _ (select_ok s f h Hf)), (bind_Ret _ _ _ _ _ (load_addr_ok _ _ _ Hv)).
  erewrite bind_Ret; [done|]. by erewrite bind_Ret.
Qed.

(** The type assertion succeeds and the method is called. *)
Lemma exec_call locals o (call : Run unit) orelse h h' :
  assert_resetter method decl s o h = (Ret (Some call), h) -> call h = (Ret tt, h') ->
  exec method decl s None locals (SIfResetter o [SReset] orelse) h = (Ret locals, h').
Proof.
  intros Ho Hm. cbn [exec]. rewrite (bind_Ret _ _ _ _ _ Ho). erewrite bind_Ret; [done|].
  erewrite bind_Ret; [done|]. by erewrite bind_Ret.
Qed.

Lemma exec_no_call locals o h :
  assert_resetter method decl s o h = (Ret None, h) ->
  exec method decl s None locals (SIfResetter o [SReset] None) h = (Ret locals, h).
Proof. intros Ho. cbn [exec]. by rewrite (bind_Ret _ _ _ _ _ Ho). Qed.

Lemma exec_else locals o l h h' :
  assert_resetter method decl s o h = (Ret None, h) ->
  exec_block method decl s None locals l h = (Ret tt, h') ->
  exec method decl s None locals (SIfResetter o [SReset] (Some l)) h = (Ret locals, h').
Proof. intros Ho Hl. cbn [exec]. rewrite (bind_Ret _ _ _ _ _ Ho). erewrite bind_Ret; [done|]. exact Hl. Qed.

Lemma assert_addr f T h :
  f <> "_" -> declared decl f = Some T ->
  assert_resetter method decl s (OAddr f) h = (Ret ((fun m => m (Some (field_addr s f))) <$> method T), h).
Proof.
  intros Hf Hd. cbn [assert_resetter]. rewrite (bind_Ret _ _ _ _ _ (select_ok s f h Hf)). by rewrite Hd.
Qed.

Lemma assert_field f X t h :
  f <> "_" -> declared decl f = Some (StarExpr X) -> load (field_addr s f) h = Some (VPtr t) ->
  assert_resetter method decl s (OField f) h = (Ret ((fun m => m t) <$> method X), h).
Proof.
  intros Hf Hd Hv. cbn [assert_resetter].
  rewrite (bind_Ret _ _ _ _ _ (select_ok s f h Hf)), (bind_Ret _ _ _ _ _ (load_addr_ok _ _ _ Hv)). by rewrite Hd.
Qed.

(** The method of a type that has one, marked or not. *)
Lemma method_call T t h :
  (forall item, struct_named T = Some item -> call_ok method (reset_struct item t) T t h) ->
  match resetter reset_struct T with
  | Some reset => call_ok method (reset t) T t h
  | None => method T = None
  end.
Proof.
  intros Hcall. unfold resetter. destruct (struct_named T) as [item|] eqn:Hi; [by apply Hcall|].
  rewrite (method_struct _ Hi). destruct (hand T) as [m|] eqn:Hm; [|done]. cbn [fmap option_fmap option_map].
  destruct (hand_ok _ _ Hm) as [_ Hok]. destruct (Hok t h) as (h' & E & Hs).
  exists m. rewrite E. split; [by rewrite (method_struct _ Hi)|done].
Qed.

Lemma resetter_named T : is_Some (resetter reset_struct T) -> named T \/ basic T = true.
Proof.
  unfold resetter. destruct (struct_named T) eqn:Hi.
  - destruct T; try done. destruct (basic (Ident Name)) eqn:Hb; [by right|by left].
  - destruct (hand T) as [m|] eqn:Hm; [|by intros []]. left. by apply (hand_ok _ _ Hm).
Qed.

(** The value of a named type that has a method. *)
Lemma value_by_rules_named T a h :
  named T -> value_by_rules reset_struct T a h
  = match resetter reset_struct T with Some reset => reset a h | None => zero_at a h end.
Proof. destruct T; try done. cbn [named]. by intros E; cbn [value_by_rules]; rewrite E. Qed.

Section Runs.
Context (fd : resetField) (h : Heap).
Hypothesis Hd : declared decl (field_Name fd) = Some (field_Type fd).
Hypothesis Hok : field_ok h s fd.
Hypothesis Hcall : forall T item t, callee h s fd = Some (item, t) -> struct_named T = Some item ->
  call_ok method (reset_struct item t) T t h.

Lemma field_run_zero T v :
  field_Type fd = T -> reset_field fd = zero_assign (field_Name fd) T ->
  field_effect reset_struct s h fd = zero_at (field_addr s (field_Name fd)) h ->
  load (field_addr s (field_Name fd)) h = Some v -> field_run fd h.
Proof.
  intros HT Hp He Hv. unfold field_run. rewrite Hp, He. split; [|apply zero_at_shrinks].
  intros locals rest. unfold zero_at. rewrite Hv.
  apply exec_zero_assign; [apply Hok|done|by rewrite Hd, HT].
Qed.

Lemma field_run_ident name : field_Type fd = Ident name -> field_run fd h.
Proof.
  intros HT. pose proof Hok as (Hf & v & Hv & Ht & _). rewrite HT in Hd, Ht. cbn [has_type] in Ht.
  unfold field_run, field_effect. rewrite HT. cbn [follows_rules value_by_rules].
  rewrite primitive_basic. destruct (primitiveZeroValue name) as [lit|] eqn:Hlit.
  - split; [|apply zero_at_shrinks]. intros locals rest. exists locals. unfold reset_field. rewrite HT, Hlit.
    cbn [app]. rewrite exec_cons, (bind_Ret _ _ _ _ _ (exec_assign_literal _ _ _ _ _ _ _ _ _ Hf Hv Ht)).
    unfold zero_at. by rewrite Hv.
  - pose proof (method_call (Ident name) (field_addr s (field_Name fd)) h) as Hm.
    destruct (resetter reset_struct (Ident name)) as [reset|] eqn:Hr.
    + destruct Hm as (m & Hm & Hrun & Hs).
      { intros item Hi. apply Hcall; [|done]. unfold callee. by rewrite HT, Hlit, Hi. }
      split; [|done]. intros locals rest. exists locals. unfold reset_field. rewrite HT, Hlit. cbn [app].
      rewrite exec_cons. erewrite bind_Ret; [done|]. eapply exec_call; [|exact Hrun].
      rewrite assert_addr with (T := Ident name) by done. by rewrite Hm.
    + assert (method (Ident name) = None) as Hno.
      { apply Hm. intros item Hi. exfalso. unfold resetter in Hr. by rewrite Hi in Hr. }
      split; [|apply zero_at_shrinks]. intros locals rest. exists locals. unfold reset_field. rewrite HT, Hlit.
      cbn [app]. rewrite exec_cons.
      destruct (exec_zero_assign method decl s None locals _ _ v h [] Hf Hv Hd) as [l' Hz].
      erewrite bind_Ret; [done|]. eapply exec_else; [by rewrite assert_addr with (T := Ident name), Hno|].
      rewrite app_nil_r in Hz. rewrite Hz. unfold zero_at. by rewrite Hv.
Qed.

Lemma field_run_pointer X : field_Type fd = StarExpr X -> field_run fd h.
Proof.
  intros HT. pose proof Hok as (Hf & v & Hv & Ht & Hp). rewrite HT in Hd, Ht. destruct Ht as [[t|] ->].
  2: { assert (field_effect reset_struct s h fd = h) as He.
       { unfold field_effect. rewrite HT. cbn [value_by_rules]. rewrite Hv. by destruct (follows_rules _ _). }
       unfold field_run. rewrite He. split; [|done]. intros locals rest. exists locals. unfold reset_field. rewrite HT.
       destruct (primitivePointerZeroValue X); by apply exec_if_nil. }
  unfold field_run, field_effect, reset_field. rewrite HT. cbn [follows_rules value_by_rules]. rewrite Hv.
  rewrite primitive_pointer_basic.
  destruct (primitivePointerZeroValue X) as [lit|] eqn:Hlit; cbn [orb].
  - assert (value_by_rules reset_struct X t h = zero_at t h) as ->.
    { destruct X; try done. cbn [value_by_rules]. by rewrite primitive_pointer_basic, Hlit. }
    destruct (Hp X lit t HT Hlit eq_refl) as (x & Hx & Hxl). split; [|apply zero_at_shrinks].
    intros locals rest. exists locals. eapply exec_if_not_nil; [done..|]. cbn [exec target].
    rewrite (bind_Ret _ _ h t h)
      by (rewrite (bind_Ret _ _ _ _ _ (select_ok s _ h Hf)); by rewrite (bind_Ret _ _ _ _ _ (load_addr_ok _ _ _ Hv))).
    rewrite (bind_Ret _ _ _ _ _ (load_addr_ok _ _ _ Hx)). cbn [eval].
    rewrite (bind_Ret _ _ _ _ _ (literal_at_ok _ _ _ Hxl)). unfold zero_at. by rewrite Hx.
  - pose proof (method_call X t h) as Hm.
    destruct (resetter reset_struct X) as [reset|] eqn:Hr.
    + destruct Hm as (m & Hm & Hrun & Hs).
      { intros item Hi. apply Hcall; [|done]. unfold callee. by rewrite HT, Hlit, Hv, Hi. }
      assert (value_by_rules reset_struct X t h = reset t h) as ->.
      { destruct (resetter_named X) as [Hn|Hb]; [by rewrite Hr| |].
        - by rewrite value_by_rules_named, Hr by done.
        - by rewrite primitive_pointer_basic, Hlit in Hb. }
      rewrite bool_decide_eq_true_2 by done. split; [|done]. intros locals rest. exists locals.
      eapply exec_if_not_nil; [done..|]. eapply exec_call; [|exact Hrun].
      rewrite assert_field with (X := X) (t := Some t) by done. by rewrite Hm.
    + rewrite bool_decide_eq_false_2 by (by intros []). split; [|done].
      intros locals rest. exists locals. eapply exec_if_not_nil; [done..|]. eapply exec_no_call.
      rewrite assert_field with (X := X) (t := Some t) by done. rewrite Hm; [done|].
      intros item Hi. exfalso. unfold resetter in Hr. by rewrite Hi in Hr.
Qed.

Lemma field_run_slice T : field_Type fd = ArrayType None T -> field_run fd h.
Proof.
  intros HT. pose proof Hok as (Hf & v & Hv & Ht & _). rewrite HT in Ht. destruct Ht as (arr & len & cap & ->).
  unfold field_run, field_effect, reset_field. rewrite HT. cbn [follows_rules value_by_rules].
  unfold truncate_at. rewrite Hv. split; [|apply (store_shrinks _ h _ _ Hv (shrinks_truncate arr len cap))].
  intros locals rest. exists locals. cbn [app]. rewrite exec_cons. erewrite bind_Ret; [done|].
  eapply exec_assign; [done..|]. cbn [eval]. rewrite (bind_Ret _ _ _ _ _ (select_ok s _ h Hf)).
  by rewrite (bind_Ret _ _ _ _ _ (load_addr_ok _ _ _ Hv)).
Qed.

Lemma field_run_map k T : field_Type fd = MapType k T -> field_run fd h.
Proof.
  intros HT. pose proof Hok as (Hf & v & Hv & Ht & _). rewrite HT in Ht. destruct Ht as [m ->].
  unfold field_run, field_effect, reset_field. rewrite HT. cbn [follows_rules value_by_rules].
  unfold clear_at. rewrite Hv. split; [|destruct m; [apply clear_shrinks|done]].
  intros locals rest. exists locals. cbn [app]. rewrite exec_cons. erewrite bind_Ret; [done|]. cbn [exec].
  rewrite (bind_Ret _ _ _ _ _ (select_ok s _ h Hf)).
  rewrite (bind_Ret _ _ _ _ _ (load_addr_ok _ _ _ Hv)). by destruct m.
Qed.

Lemma field_run_ok : field_run fd h.
Proof.
  assert (exists T, field_Type fd = T) as [T HT] by eauto.
  destruct T as [name|X|[k|] T|k v0|X sel|X i|fs p|p];
    [by eapply field_run_ident|by eapply field_run_pointer| |by eapply field_run_slice
    |by eapply field_run_map|..];
    pose proof Hok as (_ & v & Hv & _ & _);
    (eapply field_run_zero; [exact HT|unfold reset_field; by rewrite HT| |exact Hv]);
    unfold field_effect; rewrite HT; cbn [follows_rules value_by_rules basic];
    (case_bool_decide as Hr; cbn [negb]; [done|]); by destruct (resetter reset_struct _) eqn:E; [destruct Hr|].
Qed.
End Runs.
End Field.

Lemma generated_methods_none depth T :
  struct_named T = None -> generated_methods items hand depth T = hand T.
Proof. destruct depth, T; cbn; try done; by intros ->. Qed.

Lemma generated_methods_some depth T item :
  struct_named T = Some item ->
  generated_methods items hand (S depth) T = Some (reset_method (generated_methods items hand depth) item).
Proof. destruct T; try done. cbn. by intros ->. Qed.

Lemma declared_own decl fd :
  NoDup (map field_Name decl) -> fd ∈ decl -> declared decl (field_Name fd) = Some (field_Type fd).
Proof.
  induction decl as [|g decl IH]; [by intros _ ?%elem_of_nil|]. cbn [map declared].
  intros [Hg Hnd]%NoDup_cons [->|Hin]%elem_of_cons; [by rewrite decide_True|].
  rewrite decide_False; [by apply IH|]. intros E. apply Hg. rewrite E. by apply list_elem_of_fmap_2.
Qed.

(** The programs of a list of fields, one after the other. *)
Lemma fields_run method decl s call h0 l locals h :
  (forall fd h, fd ∈ l -> heap_shrinks h0 h -> field_run method decl s call fd h) ->
  heap_shrinks h0 h ->
  let h' := foldl (field_effect call s) h l in
  heap_shrinks h h' /\
  forall rest, exists locals',
    exec_block method decl s None locals (flat_map reset_field l ++ rest) h
      = exec_block method decl s None locals' rest h'.
Proof.
  intros Hrun. revert locals h. induction l as [|fd l IH]; intros locals h Hh; cbn.
  - split; [done|]. intros rest. by exists locals.
  - destruct (Hrun fd h (list_elem_of_here fd l) Hh) as [E1 S1].
    assert (forall locals, _) as IH' by (intros locals'; exact (IH (fun fd' h' Hin => Hrun fd' h' (list_elem_of_further _ _ _ Hin))
      locals' (field_effect call s h fd) (transitivity Hh S1))).
    split; [transitivity (field_effect call s h fd); [done|apply (IH' locals)]|].
    intros rest. destruct (E1 locals (flat_map reset_field l ++ rest)%list) as [l1 E].
    rewrite <-app_assoc, E. apply (IH' l1).
Qed.

Lemma reset_runs n depth item a h :
  well_behaved hand -> visits_within n h item a -> (n <= S depth)%nat ->
  reset_method (generated_methods items hand depth) item (Some a) h = (Ret tt, by_rules n item a h) /\
  heap_shrinks h (by_rules n item a h).
Proof.
  intros Hhand. revert depth item a h. induction n as [|n IH]; intros depth item a h; [done|]. intros [Hnd Hf] Hn.
  destruct (fields_run (generated_methods items hand depth) (struct_Fields item) a (by_rules n) h
    (struct_Fields item) ∅ h) as [Hs Hr]; [|done|].
  - intros fd h1 Hin H1. destruct (Hf fd Hin) as [Hok Hc]. apply field_run_ok; [|done|by apply declared_own|by eapply field_ok_shrinks|].
    + apply generated_methods_none.
    + intros T item' t Hcall HT. apply (callee_shrinks h) in Hcall; [|done..].
      destruct depth as [|depth]; [destruct n; [by destruct (Hc _ _ Hcall)|lia]|].
      destruct (IH depth item' t h1) as [E S2];
        [eapply visits_within_shrinks; [done|by apply Hc]|lia|].
      eexists. split; [by apply generated_methods_some|done].
  - split; [|exact Hs]. destruct (Hr []) as [l' E]. rewrite app_nil_r in E. exact E.
Qed.
End Package.

(** ** Theorems about the generator *)


(** A list node: [type Node struct { next *Node }]. *)
Definition Node : resetStruct := MkResetStruct "Node" [MkResetField "next" (StarExpr (Ident "Node"))].

Lemma cyclic_node_panics hand depth h a :
  load (field_addr a "next") h = Some (VPtr (Some a)) ->
  reset_method (generated_methods [Node] hand depth) Node (Some a) h
  = (Panic "goroutine stack exceeds 1000000000-byte limit", h).
Proof.
  intros Hv. induction depth as [|depth IH]; unfold reset_method;
    change (reset_program Node) with [SIfNotNil "next" [SIfResetter (OField "next") [SReset] None]].
  all: rewrite exec_cons; apply bind_Panic; cbn [exec].
  all: rewrite (bind_Ret _ _ _ _ _ (select_ok a "next" h ltac:(done))), (bind_Ret _ _ _ _ _ (load_addr_ok _ _ _ Hv)).
  all: apply bind_Panic, bind_Panic.
  all: erewrite bind_Ret by (eapply assert_field; [done|reflexivity|exact Hv]).
  all: apply bind_Panic, bind_Panic.
  - done.
  - apply bind_Panic, IH.
Qed.

(** The depth matters: on a node whose [next] is the node itself the body
    the generator writes calls itself until the stack is exhausted, however deep
    the stack is, and the program dies with the node as it was. *)
Theorem cyclic_reset_overflows hand depth h a :
  load (field_addr a "next") h = Some (VPtr (Some a)) ->
  exists program,
    buildResetBody Node = Ret (render_block tab program) /\
    exec_block (generated_methods [Node] hand depth) (struct_Fields Node) a None ∅ program h
    = (Panic "goroutine stack exceeds 1000000000-byte limit", h).
Proof.
  intros Hv. exists (reset_program Node). split; [apply buildResetBody_renders|].
  by apply cyclic_node_panics.
Qed.

(** A non-nil pointer to a slice, a map or any other type that has no
    [Reset] method and is not a primitive is left alone, and what it leads to is
    not reset; the documentation asks for both. *)
Theorem pointer_left_alone items hand depth decl fd X a t h rest locals :
  declared decl (field_Name fd) = Some (field_Type fd) ->
  field_Type fd = StarExpr X -> primitivePointerZeroValue X = None -> struct_named items X = None -> hand X = None ->
  field_Name fd <> "_" -> load (field_addr a (field_Name fd)) h = Some (VPtr (Some t)) ->
  exec_block (generated_methods items hand depth) decl a None locals (reset_field fd ++ rest) h
  = exec_block (generated_methods items hand depth) decl a None locals rest h.
Proof.
  intros Hd HT HX Hi Hh Hf Hv. unfold reset_field. rewrite HT, HX. eapply exec_if_not_nil; [done..|].
  apply exec_no_call. rewrite assert_field with (X := X) (t := Some t) by (done || by rewrite <-HT).
  by rewrite generated_methods_none, Hh.
Qed.

(** A field of a type of another package is zeroed even if the type has a [Reset]
    method, which the documentation asks to call. *)
Theorem foreign_reset_not_called items hand depth decl fd X sel a v h rest locals :
  declared decl (field_Name fd) = Some (field_Type fd) -> field_Type fd = SelectorExpr X sel ->
  field_Name fd <> "_" -> load (field_addr a (field_Name fd)) h = Some v ->
  exists locals',
    exec_block (generated_methods items hand depth) decl a None locals (reset_field fd ++ rest) h
    = exec_block (generated_methods items hand depth) decl a None locals' rest
        (store (field_addr a (field_Name fd)) (zero_val v) h).
Proof.
  intros Hd HT Hf Hv. unfold reset_field. rewrite HT in Hd |- *. by apply exec_zero_assign.
Qed.

(** ** Examples *)

(** The struct of the documentation. *)
Definition ResetableStruct : resetStruct := MkResetStruct "ResetableStruct"
  [MkResetField "i" (Ident "int"); MkResetField "str" (Ident "string");
   MkResetField "strP" (StarExpr (Ident "string")); MkResetField "s" (ArrayType None (Ident "int"));
   MkResetField "m" (MapType (Ident "string") (Ident "string"));
   MkResetField "child" (StarExpr (Ident "ResetableStruct"))].

Definition resetable (i : Z) (strP child : option Addr) (m : option nat) : Val :=
  VAgg [("i", VInt i); ("str", VString "text"); ("strP", VPtr strP);
        ("s", VSlice (Some 7%nat) 3 4); ("m", VMap m); ("child", VPtr child)].

(** A parent whose [strP] points into its child. *)
Definition sample_heap : Heap :=
  MkHeap {[0%nat := resetable 5 (Some (1%nat, ["str"])) (Some (1%nat, [])) (Some 0%nat);
           1%nat := resetable 6 None None None]}
         {[0%nat := [(VString "k", VString "v")]]}.

Definition sample_after : Heap :=
  MkHeap {[0%nat := VAgg [("i", VInt 0); ("str", VString ""); ("strP", VPtr (Some (1%nat, ["str"])));
                          ("s", VSlice (Some 7%nat) 0 4); ("m", VMap (Some 0%nat)); ("child", VPtr (Some (1%nat, [])))];
           1%nat := VAgg [("i", VInt 0); ("str", VString ""); ("strP", VPtr None);
                          ("s", VSlice (Some 7%nat) 0 4); ("m", VMap None); ("child", VPtr None)]]}
         {[0%nat := []]}.

Example sample_reset :
  reset_method (generated_methods [ResetableStruct] (fun _ => None) 1) ResetableStruct (Some (0%nat, [])) sample_heap
  = (Ret tt, sample_after).
Proof. vm_compute. reflexivity. Qed.

(** A blank field makes the generated method one that does not compile. *)
Example blank_field_fails :
  reset_method (fun _ => None) (MkResetStruct "Blank" [MkResetField "_" (Ident "int")]) (Some (0%nat, []))
    (MkHeap {[0%nat := VAgg [("_", VInt 1)]]} ∅)
  = (Fail "cannot refer to blank field", MkHeap {[0%nat := VAgg [("_", VInt 1)]]} ∅).
Proof. vm_compute. reflexivity. Qed.

(** An embedded field has no name in the syntax tree and is not reset at all. *)
Example embedded_field_ignored :
  collectFields [([], Ident "Base"); (["n"], Ident "int")] = [MkResetField "n" (Ident "int")].
Proof. reflexivity. Qed.

Ltac visit_leaf :=
  split;
  [split; [done|]; eexists; split; [vm_compute; reflexivity|]; split; [vm_compute; eauto|];
   intros ? ? ? HT HX Hv; vm_compute in HT; try discriminate; injection HT as <-;
   vm_compute in HX; try discriminate; injection HX as <-;
   try discriminate; injection Hv as <-; eexists; split; vm_compute; reflexivity
  |vm_compute; try discriminate].

Lemma sample_child_visits : visits_within [ResetableStruct] 1 sample_heap ResetableStruct (1%nat, []).
Proof.
  split; [apply (bool_decide_unpack _); vm_compute; exact I|]. apply Forall_forall.
  repeat apply Forall_cons_2; [..|apply Forall_nil_2]; visit_leaf.
Qed.

(** A package with a [Reset] written by hand on the type [Status]. *)
Definition status_methods : Methods := fun T =>
  match T with
  | Ident name =>
      if decide (name = "Status") then
        Some (fun s => match s with Some t => modify (zero_at t) | None => panic nil_deref end)
      else None
  | _ => None
  end.

Lemma status_well_behaved : well_behaved status_methods.
Proof.
  intros T m. destruct T; try done. cbn. case_decide as Hn; [|done]. intros [= <-]. subst. split; [done|].
  intros t h. exists (zero_at t h). split; [done|apply zero_at_shrinks].
Qed.


Lemma cyclic_reset_overflows_witness : exists program,
  buildResetBody Node = Ret (render_block tab program) /\
  exec_block (generated_methods [Node] (fun _ => None) 1000) (struct_Fields Node) (0%nat, []) None ∅ program
    (MkHeap {[0%nat := VAgg [("next", VPtr (Some (0%nat, [])))]]} ∅)
  = (Panic "goroutine stack exceeds 1000000000-byte limit",
     MkHeap {[0%nat := VAgg [("next", VPtr (Some (0%nat, [])))]]} ∅).
Proof. apply cyclic_reset_overflows. reflexivity. Defined.
