(* ===== verification/ResetFiles.v ===== *)
(** * Which files the reset generator reads and writes

    The walk amounts to a loop over the source files in the order of the tree,
    the collected packages are the marked structs of those files by directory,
    and [Generate] writes one file per such directory and touches no other. *)

From S2P Require Import Prelude GoError GoString GoText GoMap GoNum GoAst FileStore ResetGen ResetSemantics.
Local Open Scope string_scope.

Section Files.
Context `{GoSyntax}.

Lemma Entry_nested_ind (P : Entry -> Prop) :
  (forall n c, P (EFile n c)) ->
  (forall n err es, Forall P es -> P (EDir n err es)) ->
  forall e, P e.
Proof.
  intros Hfile Hdir. fix IH 1. intros [n c|n err es]; [apply Hfile|].
  apply Hdir. induction es as [|e es IHes]; constructor; [apply IH|exact IHes].
Qed.

(** The Go sources below [path], in the order of the walk. *)
Fixpoint source_files (root path : string) (entry : Entry) : list (string * (string + error)) :=
  match entry with
  | EFile _ content => if isGoSource path then [(path, content)] else []
  | EDir _ _ entries =>
      if shouldSkipPath root path entry then []
      else flat_map (fun e => source_files root (path_join path (entry_Name e)) e) entries
  end.

Definition collect_file (pc : string * (string + error)) : M Packages unit := collectPackageFile pc.1 pc.2.

Lemma walk_source_files root path entry s b s' :
  walk (visit root) path entry s = (Ret b, s') ->
  b = false /\ for_range (source_files root path entry) collect_file s = (Ret tt, s').
Proof.
  revert path s b s'. induction entry as [n c|n err es IH] using Entry_nested_ind; intros path s b s'.
  - cbn [walk visit source_files]. unfold shouldSkipPath. cbn [entry_IsDir andb].
    destruct (isGoSource path); cbn [negb].
    + intros ([] & s1 & Hc & Hr)%bind_Ret_inv. apply (f_equal fst) in Hr as Hb. apply (f_equal snd) in Hr.
      injection Hb as <-. cbn in Hr. subst s1. split; [done|]. cbn [for_range collect_file fst snd].
      by rewrite (bind_Ret _ _ _ _ _ Hc).
    + by intros [= <- <-].
  - cbn [walk source_files]. intros (skip & s1 & Hv & Hr)%bind_Ret_inv. cbn [visit] in Hv.
    destruct (shouldSkipPath root path (EDir n err es)).
    + injection Hv as <- <-. by injection Hr as <- <-.
    + injection Hv as <- <-. destruct err as [e|]; [by apply bind_Ret_inv in Hr as (? & ? & ? & _)|].
      unfold mbind at 1, St_bind at 1 in Hr. cbn [mret St_ret] in Hr.
      apply bind_Ret_inv in Hr as ([] & s2 & Hg & [= <- <-]). split; [done|].
      revert s Hg. induction IH as [|e es He _ IHes]; intros s Hg; [by injection Hg as ->|].
      apply bind_Ret_inv in Hg as (stop & s3 & Hw & Hg). destruct (He _ _ _ _ Hw) as [-> Hs3].
      cbn [flat_map]. rewrite for_range_app. rewrite (bind_Ret _ _ _ _ _ Hs3). by apply IHes.
Qed.

Lemma collectPackages_loop root entry packages :
  collectPackages root (inl entry) = Ret packages ->
  for_range (source_files root root entry) collect_file ∅ = (Ret tt, packages).
Proof.
  unfold collectPackages, WalkDir.
  destruct ((_ ← walk (visit root) root entry; mret tt) ∅) as [[[]|e|p] s'] eqn:E; [|done..].
  intros [= <-]. apply bind_Ret_inv in E as (b & s1 & Hw & Hr). injection Hr as <-.
  by apply walk_source_files in Hw as [_ ?].
Qed.

(** ** What the loop collects *)

Definition structs_of (pc : string * (string + error)) : list resetStruct :=
  match ParseFile pc.1 pc.2 with Ret file => findResetStructs file | _ => [] end.

Definition structs_in (dir : string) (l : list (string * (string + error))) : list resetStruct :=
  flat_map structs_of (filter (fun pc => path_dir pc.1 = dir) l).

Definition structs_at (packages : Packages) (dir : string) : list resetStruct :=
  match packages !! dir with Some info => package_Structs info | None => [] end.

Definition no_empty_package (packages : Packages) : Prop :=
  forall dir info, packages !! dir = Some info -> package_Structs info <> [].

Lemma structs_in_cons dir pc l :
  structs_in dir (pc :: l) = ((if decide (path_dir pc.1 = dir) then structs_of pc else []) ++ structs_in dir l)%list.
Proof. unfold structs_in. rewrite filter_cons. by case_decide. Qed.

Lemma collect_file_step pc s s' :
  collect_file pc s = (Ret tt, s') -> no_empty_package s ->
  no_empty_package s' /\
  forall dir, structs_at s' dir = (structs_at s dir ++ if decide (path_dir pc.1 = dir) then structs_of pc else [])%list.
Proof.
  destruct pc as [path content]. unfold collect_file, collectPackageFile, structs_of. cbn [fst snd].
  intros (file & s1 & Hf & Hr)%bind_Ret_inv Hne. apply map_err_Ret_inv in Hf.
  unfold lift_outcome in Hf. injection Hf as Hf <-. rewrite Hf. case_decide as Hs.
  { injection Hr as <-. split; [done|]. intros dir. rewrite Hs. case_decide; by rewrite app_nil_r. }
  apply bind_Ret_inv in Hr as (info & s2 & Hi & Hr). injection Hr as <-. unfold packageInfoForFile in Hi.
  unfold mbind at 1, St_bind at 1 in Hi. cbn [get_state] in Hi.
  assert (package_Structs info = structs_at s (path_dir path) /\
    forall dir, dir <> path_dir path -> s2 !! dir = s !! dir) as [Hinfo Hs2].
  { unfold structs_at. destruct (s !! path_dir path) as [i|] eqn:Hl.
    - case_decide; [done|]. by injection Hi as <- <-.
    - injection Hi as <- <-. split; [done|]. intros dir Hd. by rewrite lookup_insert_ne. }
  clear Hi. split.
  - intros dir i. destruct (decide (dir = path_dir path)) as [->|Hd].
    + rewrite lookup_insert_eq. intros [= <-]. cbn. by intros [_ ?]%app_nil.
    + rewrite lookup_insert_ne, Hs2 by done. apply Hne.
  - intros dir. unfold structs_at at 1. case_decide as Hd.
    + subst dir. rewrite lookup_insert_eq. cbn. by rewrite Hinfo.
    + rewrite lookup_insert_ne, Hs2 by done. by rewrite app_nil_r.
Qed.

Lemma collect_files l s s' :
  for_range l collect_file s = (Ret tt, s') -> no_empty_package s ->
  no_empty_package s' /\ forall dir, structs_at s' dir = (structs_at s dir ++ structs_in dir l)%list.
Proof.
  revert s. induction l as [|pc l IH]; intros s.
  - intros [= <-] Hne. split; [done|]. intros dir. by rewrite app_nil_r.
  - intros ([] & s1 & H1 & H2)%bind_Ret_inv Hne. destruct (collect_file_step pc s s1 H1 Hne) as [Hne1 E1].
    destruct (IH s1 H2 Hne1) as [Hne' E]. split; [done|]. intros dir.
    by rewrite E, E1, structs_in_cons, app_assoc.
Qed.

(** The collected packages: a directory has one exactly when one of its source
    files has a marked struct, with the structs in the order of the files. *)
Lemma collectPackages_structs root entry packages dir :
  collectPackages root (inl entry) = Ret packages ->
  let l := structs_in dir (source_files root root entry) in
  structs_at packages dir = l /\ (is_Some (packages !! dir) <-> l <> []).
Proof.
  intros Hc%collectPackages_loop. apply collect_files in Hc as [Hne E]; [|by intros ? ?; rewrite lookup_empty].
  cbn zeta. specialize (E dir). change (structs_at ∅ dir) with (@nil resetStruct) in E. rewrite app_nil_l in E.
  rewrite <-E. split; [done|]. unfold structs_at. destruct (packages !! dir) as [info|] eqn:Hd.
  - split; [intros _; by eapply Hne|by eexists].
  - split; [by intros [? [=]]|done].
Qed.

(** ** What [Generate] writes *)

Lemma path_dir_nonempty path : path_dir path <> EmptyString.
Proof.
  unfold path_dir. destruct (removelast (split_slash path)) as [|x l]; [done|].
  destruct x as [|c x]; [destruct l; done|]. by destruct l.
Qed.

Definition generated_path (dir : string) : string := path_join dir generatedFile.

Lemma package_dir root entry packages dir :
  collectPackages root (inl entry) = Ret packages -> is_Some (packages !! dir) -> dir <> EmptyString.
Proof.
  intros Hc Hd. apply (collectPackages_structs _ _ _ _ Hc) in Hd. intros ->. apply Hd. unfold structs_in.
  destruct (filter _ _) as [|pc l] eqn:E; [done|].
  assert (pc ∈ pc :: l) as Hin by left. rewrite <-E in Hin.
  apply list_elem_of_filter in Hin as [Hp _]. by apply path_dir_nonempty in Hp.
Qed.

Lemma generated_path_inj dir1 dir2 :
  dir1 <> EmptyString -> dir2 <> EmptyString -> generated_path dir1 = generated_path dir2 -> dir1 = dir2.
Proof.
  intros H1 H2 E. rewrite <-(path_dir_join dir1 generatedFile), <-(path_dir_join dir2 generatedFile) by done.
  by f_equal.
Qed.

(** The source text of a package's file, before formatting. *)
Definition package_source (info : packageInfo) : string :=
  generatedTemplate (package_Name info)
    (map (fun item => MkStructData (struct_Name item) (render_block tab (reset_program item)))
         (package_Structs info)).

Lemma buildGeneratedFileTemplateData_renders info :
  buildGeneratedFileTemplateData info
  = Ret (map (fun item => MkStructData (struct_Name item) (render_block tab (reset_program item)))
             (package_Structs info)).
Proof.
  unfold buildGeneratedFileTemplateData. induction (package_Structs info) as [|item l IH]; [done|].
  cbn [foldr map]. by rewrite buildResetBody_renders, IH.
Qed.

Lemma buildGeneratedFile_text info text :
  FormatSource (package_source info) = Ret text -> buildGeneratedFile info = Ret text.
Proof.
  unfold buildGeneratedFile, package_source. rewrite buildGeneratedFileTemplateData_renders.
  cbv zeta. by intros ->.
Qed.

Section Writes.
Context (packages : Packages) (text : string -> string).

Definition can_write (fs : FS) (dir : string) : Prop :=
  (exists info, packages !! dir = Some info /\ FormatSource (package_source info) = Ret (text dir)) /\
  write_fault_at fs (generated_path dir) = None.

Lemma generate_dir_writes dir fs :
  can_write fs dir ->
  generate_dir packages dir fs = (Ret (generated_path dir), set_file (generated_path dir) (text dir) fs).
Proof.
  intros [(info & Hi & Ht) Hw]. unfold generate_dir. rewrite Hi.
  erewrite bind_Ret by (apply map_err_Ret; unfold lift_outcome; by rewrite (buildGeneratedFile_text _ _ Ht)).
  erewrite bind_Ret; [done|]. apply map_err_Ret. unfold WriteFile, generated_path in *. by rewrite Hw.
Qed.

Lemma generate_dirs_writes dirs fs :
  Forall (can_write fs) dirs ->
  generate_dirs packages dirs fs
  = (Ret (map generated_path dirs), foldl (fun fs dir => set_file (generated_path dir) (text dir) fs) fs dirs).
Proof.
  revert fs. induction dirs as [|dir dirs IH]; intros fs; [done|]. intros [Hd Hr]%Forall_cons.
  cbn [generate_dirs]. rewrite (bind_Ret _ _ _ _ _ (generate_dir_writes dir fs Hd)).
  by rewrite (bind_Ret _ _ _ _ _ (IH (set_file _ _ fs) Hr)).
Qed.

Lemma written_files dirs fs :
  (forall dir, dir ∈ dirs -> dir <> EmptyString) -> NoDup dirs ->
  let fs' := foldl (fun fs dir => set_file (generated_path dir) (text dir) fs) fs dirs in
  (forall dir, dir ∈ dirs -> files fs' !! generated_path dir = Some (text dir)) /\
  forall path, path ∉ map generated_path dirs -> files fs' !! path = files fs !! path.
Proof.
  intros Hne Hnd. cbn zeta. revert fs. induction dirs as [|dir dirs IH]; intros fs.
  - split; [by intros dir ?%elem_of_nil|done].
  - apply NoDup_cons in Hnd as [Hd Hnd]. cbn [foldl].
    destruct (IH (fun d Hin => Hne d (list_elem_of_further _ _ _ Hin)) Hnd
      (set_file (generated_path dir) (text dir) fs)) as [IH1 IH2]. split.
    + intros d [->|Hin]%elem_of_cons; [|by apply IH1]. rewrite IH2; [apply lookup_insert_eq|].
      intros (d' & E & Hin)%list_elem_of_fmap. apply generated_path_inj in E as ->; [done| |];
        apply Hne; by (left || right).
    + intros path Hp. cbn [map] in Hp. rewrite not_elem_of_cons in Hp. destruct Hp as [Hp1 Hp2].
      rewrite IH2 by done. by apply lookup_insert_ne.
Qed.
End Writes.

Lemma range_map_keys `{MapRange} (packages : Packages) :
  map fst (range_map packages) ≡ₚ elements (dom packages).
Proof.
  apply NoDup_Permutation; [apply range_map_NoDup|apply NoDup_elements|]. intros dir.
  rewrite elem_of_elements, elem_of_dom. split.
  - intros ([d info] & -> & Hin)%list_elem_of_fmap. apply elem_of_range_map in Hin. by exists info.
  - intros [info Hi]. apply elem_of_range_map in Hi. by apply (list_elem_of_fmap_2 fst) in Hi.
Qed.

(** C23: When the sources parse, the texts format and the disk takes them,
    [Generate] writes exactly one file [reset.gen.go] in every directory that
    has a source file with a marked struct, with the methods of all those
    structs in the order of the files, touches no other file, and returns the
    paths in sorted order, whatever order the map of packages is ranged in. *)
Theorem generate_outcome `{MapRange} root entry packages text fs :
  collectPackages root (inl entry) = Ret packages ->
  (forall dir, is_Some (packages !! dir) -> can_write packages text fs dir) ->
  exists dirs fs',
    Generate root (inl entry) fs = (Ret (map generated_path dirs), fs') /\
    Sorted string_le dirs /\ NoDup dirs /\
    (forall dir, dir ∈ dirs <-> structs_in dir (source_files root root entry) <> []) /\
    (forall dir, dir ∈ dirs -> exists info,
       package_Structs info = structs_in dir (source_files root root entry) /\
       FormatSource (package_source info) = Ret (text dir) /\
       files fs' !! generated_path dir = Some (text dir)) /\
    forall path, path ∉ map generated_path dirs -> files fs' !! path = files fs !! path.
Proof.
  intros Hc Hw. set (dirs := sort_strings (elements (dom packages))).
  assert (Hperm : dirs ≡ₚ elements (dom packages)) by apply merge_sort_Permutation.
  assert (Hin : forall dir, dir ∈ dirs <-> is_Some (packages !! dir)).
  { intros dir. by rewrite Hperm, elem_of_elements, elem_of_dom. }
  assert (Hnd : NoDup dirs) by (rewrite Hperm; apply NoDup_elements).
  destruct (written_files text dirs fs) as [W1 W2];
    [intros dir Hd; eapply package_dir; [exact Hc|by apply Hin]|done|].
  eexists dirs, _. split_and!; [|apply Sorted_merge_sort, _|done| | |exact W2].
  - unfold Generate. rewrite Hc. erewrite bind_Ret by reflexivity.
    rewrite (sort_strings_perm _ _ (range_map_keys packages)). apply generate_dirs_writes.
    apply Forall_forall. intros dir Hd. by apply Hw, Hin.
  - intros dir. rewrite Hin. apply (collectPackages_structs _ _ _ dir Hc).
  - intros dir Hd. destruct (Hw dir) as [(info & Hi & Ht) _]; [by apply Hin|]. exists info.
    split_and!; [|done|by apply W1].
    rewrite <-(proj1 (collectPackages_structs _ _ _ dir Hc)). unfold structs_at. by rewrite Hi.
Qed.
End Files.

(** ** The sample package of the generator's tests *)

Definition resettable_state : Expr := StructType
  [(["Number"], Ident "int"); (["Text"], Ident "string"); (["Enabled"], Ident "bool");
   (["TextPtr"], StarExpr (Ident "string")); (["CounterPtr"], StarExpr (Ident "int64"));
   (["Values"], ArrayType None (Ident "int")); (["Labels"], MapType (Ident "string") (Ident "string"));
   (["Child"], StarExpr (Ident "NestedState")); (["Status"], Ident "Status");
   (["Codes"], ArrayType (Some (OtherType "3")) (Ident "int"))] "".

(** [testdata/basic/input/sample/state.go] *)
Definition state_go : File := MkFile "sample"
  [GenDecl TYPE None [SpecType (MkTypeSpec None "Status" [] (Ident "string"))];
   GenDecl TYPE (Some ["// generate:reset"])
     [SpecType (MkTypeSpec None "ResettableState" [] resettable_state)];
   GenDecl TYPE None [SpecType (MkTypeSpec None "NestedState" []
     (StructType [(["Value"], Ident "int")] ""))];
   FuncDecl "Reset";
   GenDecl TYPE None [SpecType (MkTypeSpec None "IgnoredState" []
     (StructType [(["Name"], Ident "string")] ""))]].

(** A parser that knows this file, and a formatter that leaves formatted text alone. *)
#[local] Instance sample_syntax : GoSyntax := {|
  ParseSource := fun src => if decide (src = "state.go") then Ret state_go else Fail (ErrNew "syntax error");
  FormatSource := Ret;
|}.

Definition sample_tree : Entry := EDir "." None
  [EDir "sample" None [EFile "state.go" (inl "state.go"); EFile "state_test.go" (inl "broken")];
   EDir "vendor" None [EFile "lib.go" (inl "broken")]].

Definition lines (l : list string) : string := String.concat nl l.

(** [testdata/basic/want/sample/reset.gen.go] *)
Definition reset_gen_go : string := lines
  ["// Code generated by reset; (+_+)~ DO NOT EDIT."; ""; "package sample"; "";
   "func (s *ResettableState) Reset() {"; tab +:+ "if s == nil {"; tab +:+ tab +:+ "return"; tab +:+ "}"; "";
   tab +:+ "s.Number = 0"; tab +:+ "s.Text = " +:+ dquote +:+ dquote; tab +:+ "s.Enabled = false";
   tab +:+ "if s.TextPtr != nil {"; tab +:+ tab +:+ "*s.TextPtr = " +:+ dquote +:+ dquote; tab +:+ "}";
   tab +:+ "if s.CounterPtr != nil {"; tab +:+ tab +:+ "*s.CounterPtr = 0"; tab +:+ "}";
   tab +:+ "s.Values = s.Values[:0]"; tab +:+ "clear(s.Labels)";
   tab +:+ "if s.Child != nil {";
   tab +:+ tab +:+ "if resetter, ok := any(s.Child).(interface{ Reset() }); ok {";
   tab +:+ tab +:+ tab +:+ "resetter.Reset()"; tab +:+ tab +:+ "}"; tab +:+ "}";
   tab +:+ "if resetter, ok := any(&s.Status).(interface{ Reset() }); ok {";
   tab +:+ tab +:+ "resetter.Reset()"; tab +:+ "} else {";
   tab +:+ tab +:+ "var zeroStatus Status"; tab +:+ tab +:+ "s.Status = zeroStatus"; tab +:+ "}";
   tab +:+ "var zeroCodes [3]int"; tab +:+ "s.Codes = zeroCodes"; "}"; ""].

(** The generator reproduces the file its tests expect. *)
Example golden_file :
  (Generate (H0 := insertion_range) "." (inl sample_tree) (MkFS ∅ (fun _ => None) (fun _ => None))).2
  = MkFS {["sample/reset.gen.go" := reset_gen_go]} (fun _ => None) (fun _ => None).
Proof. vm_compute. reflexivity. Qed.

Lemma generate_outcome_witness : exists dirs fs',
  Generate (H0 := insertion_range) "." (inl sample_tree) (MkFS ∅ (fun _ => None) (fun _ => None))
    = (Ret (map generated_path dirs), fs') /\
  files fs' !! "sample/reset.gen.go" = Some reset_gen_go.
Proof.
  destruct (generate_outcome (H0 := insertion_range) "." sample_tree
    {["sample" := MkPackageInfo "sample" (findResetStructs state_go)]} (fun _ => reset_gen_go)
    (MkFS ∅ (fun _ => None) (fun _ => None))) as (dirs & fs' & E & _ & _ & Hin & Hw & _).
  - vm_compute. reflexivity.
  - intros dir [info Hi]. apply lookup_singleton_Some in Hi as [<- <-]. split; [|reflexivity].
    eexists. split; [reflexivity|]. vm_compute. reflexivity.
  - exists dirs, fs'. split; [exact E|]. destruct (Hw "sample") as (info & _ & _ & Hf); [|exact Hf].
    apply Hin. vm_compute. discriminate.
Defined.
