(* ===== verification/ServerSetup.v ===== *)
(** * Building and closing the server

    [internal/server/server.go] ([New], [Close], [stopPersistence]),
    [database.go], [audit_setup.go], [security.go], [grpc.go] ([newGRPCServer]),
    [persistence.go] ([setupFilePersistence]) and [migrations/migrate.go].  The
    state is the server under construction and its host: files, logs and the
    resources that are open.  A function value the program keeps for later is the
    data it closes over; [None] is a nil function, and calling it panics. *)

From S2P Require Import Prelude GoError GoString GoNum GoContext GoMap GoJson Storage MemStorage FileStore Service AesGcm Encryption AuditTrail NetIP Http Middleware Handler Router ServerConfig Log Instances.
Local Open Scope Z_scope.
Import ServerConfig.

(** ** The host *)

Inductive resource : Type := RDatabase | RAuditFile | RHTTPListener | RGRPCListener.

#[export] Instance resource_eq_dec : EqDecision resource.
Proof. solve_decision. Defined.
#[export] Instance resource_countable : Countable resource.
Proof.
  refine (inj_countable'
    (fun r => match r with RDatabase => 0%nat | RAuditFile => 1%nat | RHTTPListener => 2%nat | RGRPCListener => 3%nat end)
    (fun n => match n with 0%nat => RDatabase | 1%nat => RAuditFile | 2%nat => RHTTPListener | _ => RGRPCListener end) _).
  by intros [].
Defined.

(** What the audit observers work on: the file observer and its world. *)
Abbreviation AuditState := (FileObserver.t * AuditWorld)%type.

Record Host : Type := MkHost {
  host_fs : FS;
  host_mem : MemStorage.t;
  host_audit : AuditState;
  host_open : gset resource;
  host_log : list entry;
}.

Definition set_host_persist (p : MemStorage.t * FS) (h : Host) : Host :=
  MkHost p.2 p.1 (host_audit h) (host_open h) (host_log h).
Definition set_host_audit (a : AuditState) (h : Host) : Host :=
  MkHost (host_fs h) (host_mem h) a (host_open h) (host_log h).
Definition set_host_open (o : gset resource) (h : Host) : Host :=
  MkHost (host_fs h) (host_mem h) (host_audit h) o (host_log h).
Definition set_host_log (l : list entry) (h : Host) : Host :=
  MkHost (host_fs h) (host_mem h) (host_audit h) (host_open h) l.

Definition acquire (r : resource) : M Host unit := modify (fun h => set_host_open ({[r]} ∪ host_open h) h).
Definition release (r : resource) : M Host unit := modify (fun h => set_host_open (host_open h ∖ {[r]}) h).

(** Running a computation on a part of the host. *)
Definition on_persist {A} (m : M (MemStorage.t * FS) A) : M Host A := fun h =>
  let '(r, p) := m (host_mem h, host_fs h) in (r, set_host_persist p h).
Definition on_files {A} (m : M FS A) : M Host A := fun h =>
  let '(r, fs) := m (host_fs h) in (r, set_host_persist (host_mem h, fs) h).
Definition on_audit_state {A} (m : M AuditState A) : M Host A := fun h =>
  let '(r, a) := m (host_audit h) in (r, set_host_audit a h).
Definition host_logs (lv : level) (msg : string) (fields : list log_field) : M Host unit :=
  modify (fun h => set_host_log (host_log h ++ [MkEntry lv msg fields]) h).

(** ** Third-party code *)

(** [sql.Open] with the pgx driver, and [PingContext] with a timeout of 3 s. *)
Class SqlDriver := {
  sql_Open : string -> option error;
  db_Ping : string -> option error;
}.

(** [golang-migrate]: what [Up] reports.  [ErrNoChange] is compared by identity. *)
Inductive up_result : Type := UpDone | UpErrNoChange | UpFails (e : error).

Class Migrate := {
  WithInstance : option error;
  Getwd : string + error;
  NewWithDatabaseInstance : string -> string -> option error;
  Up : up_result;
}.

(** [credentials.NewServerTLSFromFile]. *)
Class ServerTLS := NewServerTLSFromFile : string -> string -> option error.

(** [net.Listen] on a host with some listeners open. *)
Class Network := listen_error : gset resource -> string -> option error.

(** [migrations.RunMigrations] *)
Definition RunMigrations `{Migrate} : option error :=
  match WithInstance with
  | Some err => Some (ErrWrap "create migration driver" err)
  | None =>
      match Getwd with
      | inr err => Some (ErrWrap "get working dir" err)
      | inl wd =>
          let path := "file://" +:+ wd +:+ "/migrations" in
          match NewWithDatabaseInstance path "postgres" with
          | Some err => Some (ErrWrap "create migrate instance" err)
          | None =>
              match Up with
              | UpDone | UpErrNoChange => None
              | UpFails err => Some (ErrWrap "run migrations" err)
              end
          end
      end
  end.

(** [parseTrustedSubnet] *)
Definition parseTrustedSubnet (value : string) : outcome error (option IPNet) :=
  if decide (value = "") then Ret None
  else
    match ParseCIDR value with
    | Some subnet => Ret (Some subnet)
    | None => Fail (ErrWrap ("parse trusted subnet " +:+ Quote value) (ErrNew ("invalid CIDR address: " +:+ value)))
    end.

(** ** The server *)

(** The functions [setupFilePersistence] returns: the initial one, which does
    nothing, and the closure over the store and the periodic saver. *)
Inductive shutdown_func : Type :=
| ShutdownNothing
| ShutdownSave (store : FileStore.t) (periodic : bool).

Inductive cleanup_func : Type := CleanupNothing | CleanupFile.

Section Setup.
Context {PK SK : Type} `{!KeyFormats PK SK} `{MapRange} `{FloatText} `{JsonText} `{RemoteObserver.URLs}
  `{SqlDriver} `{Migrate} `{ServerTLS} `{Network}.

Abbreviation ServiceT := (MetricsService.t MemStorage.t FS).

Record Server : Type := MkServer {
  cfg : ServerConfig;
  db : bool;
  httpServer : option (Router.Options SK);
  httpListener : bool;
  grpcServer : bool;
  grpcListener : bool;
  shutdownPersistence : option shutdown_func;
  persistenceOnce : bool;
  persistenceErr : option error;
  auditor : option (Auditor.t AuditState);
  cleanupAudit : option cleanup_func;
  closeOnce : bool;
  metricsService : ServiceT;
}.

Definition set_db (v : bool) (s : Server) : Server :=
  MkServer (cfg s) v (httpServer s) (httpListener s) (grpcServer s) (grpcListener s) (shutdownPersistence s)
    (persistenceOnce s) (persistenceErr s) (auditor s) (cleanupAudit s) (closeOnce s) (metricsService s).
Definition set_httpServer v (s : Server) : Server :=
  MkServer (cfg s) (db s) v (httpListener s) (grpcServer s) (grpcListener s) (shutdownPersistence s)
    (persistenceOnce s) (persistenceErr s) (auditor s) (cleanupAudit s) (closeOnce s) (metricsService s).
Definition set_httpListener v (s : Server) : Server :=
  MkServer (cfg s) (db s) (httpServer s) v (grpcServer s) (grpcListener s) (shutdownPersistence s)
    (persistenceOnce s) (persistenceErr s) (auditor s) (cleanupAudit s) (closeOnce s) (metricsService s).
Definition set_grpcServer v (s : Server) : Server :=
  MkServer (cfg s) (db s) (httpServer s) (httpListener s) v (grpcListener s) (shutdownPersistence s)
    (persistenceOnce s) (persistenceErr s) (auditor s) (cleanupAudit s) (closeOnce s) (metricsService s).
Definition set_grpcListener v (s : Server) : Server :=
  MkServer (cfg s) (db s) (httpServer s) (httpListener s) (grpcServer s) v (shutdownPersistence s)
    (persistenceOnce s) (persistenceErr s) (auditor s) (cleanupAudit s) (closeOnce s) (metricsService s).
Definition set_shutdownPersistence v (s : Server) : Server :=
  MkServer (cfg s) (db s) (httpServer s) (httpListener s) (grpcServer s) (grpcListener s) v
    (persistenceOnce s) (persistenceErr s) (auditor s) (cleanupAudit s) (closeOnce s) (metricsService s).
Definition set_persistence (once : bool) (err : option error) (s : Server) : Server :=
  MkServer (cfg s) (db s) (httpServer s) (httpListener s) (grpcServer s) (grpcListener s) (shutdownPersistence s)
    once err (auditor s) (cleanupAudit s) (closeOnce s) (metricsService s).
Definition set_audit_fields (a : option (Auditor.t AuditState)) (c : option cleanup_func) (s : Server) : Server :=
  MkServer (cfg s) (db s) (httpServer s) (httpListener s) (grpcServer s) (grpcListener s) (shutdownPersistence s)
    (persistenceOnce s) (persistenceErr s) a c (closeOnce s) (metricsService s).
Definition set_closeOnce v (s : Server) : Server :=
  MkServer (cfg s) (db s) (httpServer s) (httpListener s) (grpcServer s) (grpcListener s) (shutdownPersistence s)
    (persistenceOnce s) (persistenceErr s) (auditor s) (cleanupAudit s) v (metricsService s).
Definition set_metricsService v (s : Server) : Server :=
  MkServer (cfg s) (db s) (httpServer s) (httpListener s) (grpcServer s) (grpcListener s) (shutdownPersistence s)
    (persistenceOnce s) (persistenceErr s) (auditor s) (cleanupAudit s) (closeOnce s) v.

Definition new_server (c : ServerConfig) : Server :=
  MkServer c false None false false false (Some ShutdownNothing) false None None (Some CleanupNothing) false
    MetricsService.NewMetricsService.

Abbreviation Build := (M (Server * Host)).

(** ** The parts [New] puts together *)

(** [openDatabase] *)
Definition openDatabase (c : ServerConfig) : M Host bool :=
  let dsn := DatabaseDSN c in
  if decide (dsn = "") then _ ← host_logs DebugLevel "database disabled" []; mret false
  else
    match sql_Open dsn with
    | Some err => throw err
    | None =>
        _ ← acquire RDatabase;
        match db_Ping dsn with
        | Some err => _ ← release RDatabase; throw err
        | None =>
            _ ← host_logs DebugLevel "database connected" [];
            match RunMigrations with
            | Some err => _ ← release RDatabase; throw err
            | None => mret true
            end
        end
    end.

(** [newMetricsStorage]: the in-memory repository is there without a database. *)
Definition newMetricsStorage (hasDB : bool) : bool := negb hasDB.

(** [setupAudit] *)
Definition setupAudit (c : ServerConfig) : M Host (option (Auditor.t AuditState) * cleanup_func) :=
  if decide (AuditFile c = "" /\ AuditURL c = "") then mret (None, CleanupNothing)
  else
    let a := Auditor.NewAuditor in
    ac ← (if decide (AuditFile c <> "") then
            o ← on_audit_state (on_snd (FileObserver.NewFileObserver (AuditFile c)));
            _ ← acquire RAuditFile;
            _ ← on_audit_state (on_fst (put_state o));
            mret (Auditor.Subscribe (Some FileObserver.Notify) a, CleanupFile)
          else mret (a, CleanupNothing));
    let '(a, cleanup) := ac : Auditor.t AuditState * cleanup_func in
    let a := if decide (AuditURL c <> "") then
               Auditor.Subscribe
                 (Some (fun ctx ev => on_snd (RemoteObserver.Notify (RemoteObserver.NewRemoteObserver (AuditURL c)) ctx ev))) a
             else a in
    mret (Some a, cleanup).

(** The cleanup function [setupAudit] returns, called. *)
Definition run_cleanup (c : cleanup_func) : M Host unit :=
  match c with
  | CleanupNothing => mret tt
  | CleanupFile =>
      r ← attempt (on_audit_state FileObserver.Close);
      _ ← release RAuditFile;
      match r with
      | inl _ => mret tt
      | inr err => host_logs ErrorLevel "failed to close audit file" [FError err]
      end
  end.

(** [newGRPCServer], as far as it can fail. *)
Definition newGRPCServer (tlsCertPath tlsKeyPath : string) : outcome error unit :=
  let hasCert := bool_decide (tlsCertPath <> "") in
  let hasKey := bool_decide (tlsKeyPath <> "") in
  if decide (hasCert <> hasKey)
  then Fail (ErrNew "gRPC TLS certificate and private key paths must be specified together")
  else if hasCert then
    match NewServerTLSFromFile tlsCertPath tlsKeyPath with
    | Some err => Fail (ErrWrap ("load gRPC TLS certificate " +:+ Quote tlsCertPath
                                 +:+ " and private key " +:+ Quote tlsKeyPath) err)
    | None => Ret tt
    end
  else Ret tt.

(** [net.Listen] *)
Definition Listen (r : resource) (addr : string) : M Host unit :=
  h ← get_state;
  match listen_error (host_open h) addr with
  | Some err => throw err
  | None => acquire r
  end.

(** [setupFilePersistence]: the function to call on shutdown; the service it
    switches to synchronous saving is the server's. *)
Definition setupFilePersistence (c : ServerConfig) (memRepo : bool) : Build shutdown_func :=
  if decide (memRepo = false \/ FileStoragePath c = "") then mret ShutdownNothing
  else
    let store := FileStore.NewFileStore (FileStoragePath c) in
    _ ← (if Restore c then on_snd (on_persist (FileStore.Load store)) else mret tt);
    if decide (StoreIntervalInSec c = 0) then
      _ ← on_fst (modify (fun s => set_metricsService
            (MetricsService.EnableSyncSave (metricsService s) (file_saver store)) s));
      mret (ShutdownSave store false)
    else if decide (StoreIntervalInSec c > 0) then mret (ShutdownSave store true)
    else throw (ErrNew ("store interval in seconds must be >= 0, got " +:+ FormatInt (StoreIntervalInSec c))).

(** The shutdown function, called: the last save.  That it first stops the periodic saver
    and waits for it is ServerRuntime.v's [stopPersistence]; here no goroutine runs. *)
Definition run_shutdown (f : shutdown_func) : M Host unit :=
  match f with
  | ShutdownNothing => mret tt
  | ShutdownSave store _ =>
      map_err (ErrWrap "save metrics on shutdown") (on_persist (FileStore.Save store Background))
  end.

(** ** [Close] *)

(** [s.persistenceOnce.Do(...)]: the once is done also when the function panics. *)
Definition stopPersistence : Build (option error) :=
  s ← gets fst;
  if persistenceOnce s then mret (persistenceErr s)
  else
    _ ← on_fst (modify (set_persistence true (persistenceErr s)));
    match shutdownPersistence s with
    | None => panic "runtime error: invalid memory address or nil pointer dereference"
    | Some f =>
        r ← attempt (on_snd (run_shutdown f));
        let err := match r with inl _ => None | inr e => Some e end in
        _ ← on_fst (modify (set_persistence true err));
        mret err
    end.

(** [Close] on a non-nil server.  [httpServer.Close] and [grpcServer.Stop] close the
    connections being served, and the listeners, which are closed here again: at this
    point nothing else that is open belongs to the two servers. *)
Definition Close : Build unit :=
  s ← gets fst;
  if closeOnce s then mret tt
  else
    _ ← on_fst (modify (set_closeOnce true));
    _ ← stopPersistence;
    _ ← when (httpListener s) (on_snd (release RHTTPListener));
    _ ← when (grpcListener s) (on_snd (release RGRPCListener));
    _ ← match cleanupAudit s with Some c => on_snd (run_cleanup c) | None => mret tt end;
    when (db s) (on_snd (release RDatabase)).

(** ** [New] *)

(** [srv.x, err = f()]: the fields are assigned also when [f] fails, with the
    zero values it returns then. *)
Definition assign {A} (f : Build A) (set_result : A -> Server -> Server) (set_zero : Server -> Server)
    : Build unit := fun st =>
  match f st with
  | (Ret a, st') => (Ret tt, (set_result a st'.1, st'.2))
  | (Fail e, st') => (Fail e, (set_zero st'.1, st'.2))
  | (Panic p, st') => (Panic p, st')
  end.

(** Everything before the deferred function. *)
Definition build (c : ServerConfig) : Build unit :=
  privateKey ← on_snd (on_files (loadPrivateKey (CryptoKey c)));
  trustedSubnet ← lift_outcome (parseTrustedSubnet (ServerConfig.TrustedSubnet c));
  _ ← assign (on_snd (openDatabase c)) set_db (set_db false);
  memRepo ← gets (fun st => newMetricsStorage (db st.1));
  _ ← assign (on_snd (setupAudit c)) (fun r => set_audit_fields r.1 (Some r.2)) (set_audit_fields None None);
  _ ← on_fst (modify (set_httpServer (Some (Router.MkOptions (Key c) privateKey trustedSubnet))));
  _ ← assign (lift_outcome (newGRPCServer (GRPCTLSCert c) (GRPCTLSKey c)))
        (fun _ => set_grpcServer true) (set_grpcServer false);
  _ ← map_err (ErrWrap "listen HTTP")
        (assign (on_snd (Listen RHTTPListener (HTTPAddr c))) (fun _ => set_httpListener true) (set_httpListener false));
  _ ← map_err (ErrWrap "listen gRPC")
        (assign (on_snd (Listen RGRPCListener (GRPCAddr c))) (fun _ => set_grpcListener true) (set_grpcListener false));
  assign (setupFilePersistence c memRepo) (fun f => set_shutdownPersistence (Some f)) (set_shutdownPersistence None).

(** [New]: on an error the deferred function closes what is open. *)
Definition New (c : ServerConfig) : M Host Server := fun h =>
  match build c (new_server c, h) with
  | (Ret _, (s, h')) => (Ret s, h')
  | (Fail e, st) =>
      match Close st with
      | (Panic p, (_, h')) => (Panic p, h')
      | (_, (_, h')) => (Fail e, h')
      end
  | (Panic p, (_, h')) => (Panic p, h')
  end.

(** ** Who holds what *)

(** The resources a server would release on [Close]. *)
Definition holds (s : Server) (r : resource) : bool :=
  match r with
  | RDatabase => db s
  | RAuditFile => match cleanupAudit s with Some CleanupFile => true | _ => false end
  | RHTTPListener => httpListener s
  | RGRPCListener => grpcListener s
  end.

(** Nothing is open that [Close] would not release, and it has not run. *)
Definition owned (st : Server * Host) : Prop :=
  (forall r, r ∈ host_open st.2 <-> holds st.1 r = true) /\
  closeOnce st.1 = false /\ persistenceOnce st.1 = false.

(** Host computations that leave the open resources alone. *)
Definition opens_nothing {A} (m : M Host A) : Prop := forall h, host_open (m h).2 = host_open h.

Lemma on_files_opens {A} (m : M FS A) : opens_nothing (on_files m).
Proof. intros h. unfold on_files. by destruct (m (host_fs h)). Qed.

Lemma on_persist_opens {A} (m : M (MemStorage.t * FS) A) : opens_nothing (on_persist m).
Proof. intros h. unfold on_persist. by destruct (m (host_mem h, host_fs h)). Qed.

(** The first stage: audit is not set up. *)
Definition bare (st : Server * Host) : Prop := owned st /\ cleanupAudit st.1 = Some CleanupNothing.

Lemma owned_host s h h' : host_open h' = host_open h -> owned (s, h) -> owned (s, h').
Proof. unfold owned. cbn. by intros ->. Qed.

Lemma bare_host s h h' : host_open h' = host_open h -> bare (s, h) -> bare (s, h').
Proof. intros E [Ho Hc]. split; [by eapply owned_host|done]. Qed.

Lemma owned_acquire (s s' : Server) h r0 :
  owned (s, h) -> closeOnce s' = closeOnce s -> persistenceOnce s' = persistenceOnce s ->
  (forall r, holds s' r = bool_decide (r = r0) || holds s r) ->
  owned (s', set_host_open ({[r0]} ∪ host_open h) h).
Proof.
  intros (Ho & Hcl & Hon) E1 E2 Hh. split; [|split; cbn in *; congruence]. cbn in *. intros r.
  rewrite Hh, elem_of_union, elem_of_singleton, Ho, orb_true_iff, bool_decide_eq_true. done.
Qed.

Lemma not_held (s : Server) h r : owned (s, h) -> holds s r = false -> r ∉ host_open h.
Proof. intros [Ho _] Hh Hin. apply Ho in Hin. cbn in Hin. congruence. Qed.

Lemma open_then_release h r0 : r0 ∉ host_open h ->
  ({[r0]} ∪ host_open h) ∖ {[r0]} = host_open h.
Proof. set_solver. Qed.

(** Opening the database. *)
Lemma openDatabase_owned c s h :
  bare (s, h) -> db s = false ->
  match openDatabase c h with
  | (Ret hasDB, h') => bare (set_db hasDB s, h')
  | (Fail _, h') => owned (set_db false s, h')
  | (Panic _, h') => owned (s, h')
  end.
Proof.
  intros [Ho Hc] Hdb. unfold openDatabase.
  assert (Hn : RDatabase ∉ host_open h) by (by eapply not_held).
  assert (Hsame : owned (set_db false s, h)).
  { split; [|apply Ho]. destruct Ho as [Ho _]. intros r. rewrite Ho. cbn. destruct r; cbn; by rewrite ?Hdb. }
  destruct (decide (DatabaseDSN c = "")); [by split|].
  destruct (sql_Open (DatabaseDSN c)) as [e|]; [done|]. run.
  destruct (db_Ping (DatabaseDSN c)) as [e|]; run; [by rewrite (open_then_release h)|].
  destruct RunMigrations as [e|]; run; [by rewrite (open_then_release h)|]. split; [|done].
  eapply (owned_host _ (set_host_open ({[RDatabase]} ∪ host_open h) h)); [done|].
  eapply owned_acquire; [exact Ho|done..|]. intros r. destruct r; cbn; by rewrite ?Hdb.
Qed.

(** Setting up the audit. *)
Lemma setupAudit_owned c s h :
  bare (s, h) ->
  match setupAudit c h with
  | (Ret r, h') => owned (set_audit_fields r.1 (Some r.2) s, h')
  | (Fail _, h') => owned (set_audit_fields None None s, h')
  | (Panic _, h') => owned (s, h')
  end.
Proof.
  intros [Ho Hc]. unfold setupAudit.
  assert (Hsame : forall a cl, cl <> Some CleanupFile -> owned (set_audit_fields a cl s, h)).
  { intros a cl Hcl. split; [|apply Ho]. destruct Ho as [Ho _]. intros r. rewrite Ho. cbn in *.
    destruct r; cbn; try done. rewrite Hc. by destruct cl as [[]|]. }
  destruct (decide (AuditFile c = "" /\ AuditURL c = "")); [by apply Hsame|].
  destruct (decide (AuditFile c <> "")); [|run; case_decide; run; by apply Hsame].
  unfold mbind, St_bind, on_audit_state, on_snd. cbn [fst snd].
  destruct (FileObserver.NewFileObserver (AuditFile c) (host_audit h).2) as [[o|e|p] w]; cbn [fst snd].
  - run. case_decide; run; eapply (owned_host _ (set_host_open ({[RAuditFile]} ∪ host_open h) h)); try done;
      (eapply owned_acquire; [exact Ho|done..|]); intros r; destruct r; cbn; try done; by rewrite Hc.
  - by apply (owned_host _ h), Hsame.
  - by apply (owned_host _ h).
Qed.

Lemma setupFilePersistence_same c memRepo st :
  match setupFilePersistence c memRepo st with
  | (_, st') => host_open st'.2 = host_open st.2 /\ exists m, st'.1 = set_metricsService m st.1
  end.
Proof.
  destruct st as [s h].
  assert (Hs : exists m, s = set_metricsService m s) by (by exists (metricsService s); destruct s).
  unfold setupFilePersistence. case_decide; [by split|].
  destruct (Restore c); unfold mbind, St_bind, on_snd, on_persist; cbn [fst snd];
    [destruct (FileStore.Load _ _) as [[[]|e|p] p']; cbn [fst snd]; [|by split..]|unfold mret, St_ret];
    repeat case_decide; run; split; eauto.
Qed.

Lemma owned_same (s s' : Server) h h' :
  owned (s, h) -> host_open h' = host_open h -> closeOnce s' = closeOnce s ->
  persistenceOnce s' = persistenceOnce s -> (forall r, holds s' r = holds s r) -> owned (s', h').
Proof.
  intros (Ho & Hcl & Hon) E E1 E2 Eh. cbn in *. split; [|split; cbn; congruence].
  intros r. cbn. by rewrite E, Eh.
Qed.

Lemma bind_snd {St A B} (P : St -> Prop) (m : M St A) (f : A -> M St B) s :
  (match m s with (Ret a, s') => P (f a s').2 | (_, s') => P s' end) -> P ((m ≫= f) s).2.
Proof. unfold mbind, St_bind. by destruct (m s) as [[a|e|p] s']. Qed.

Lemma owned_assign_persistence c memRepo st :
  owned st ->
  owned (assign (setupFilePersistence c memRepo) (fun f => set_shutdownPersistence (Some f))
           (set_shutdownPersistence None) st).2.
Proof.
  intros Ho. pose proof (setupFilePersistence_same c memRepo st) as Hs. unfold assign.
  destruct (setupFilePersistence c memRepo st) as [r [s' h']]. destruct st as [s h]. cbn in Hs.
  destruct Hs as [E [m ->]]. destruct r; cbn; by eapply owned_same.
Qed.

(** Opening a listener and recording it. *)
Lemma owned_listen w r addr (set : bool -> Server -> Server) st :
  (forall b s, closeOnce (set b s) = closeOnce s /\ persistenceOnce (set b s) = persistenceOnce s /\
     forall r', holds (set b s) r' = if decide (r' = r) then b else holds s r') ->
  owned st -> holds st.1 r = false ->
  let st' := (map_err w (assign (on_snd (Listen r addr)) (fun _ => set true) (set false)) st).2 in
  owned st' /\ forall r', r' <> r -> holds st'.1 r' = holds st.1 r'.
Proof.
  cbn zeta. destruct st as [s h]. intros Hset Ho Hr.
  destruct (Hset true s) as (T1 & T2 & T3). destruct (Hset false s) as (F1 & F2 & F3).
  unfold assign, Listen. run. destruct (listen_error (host_open h) addr); cbn.
  - split; [|intros r' Hne; by rewrite F3, decide_False]. eapply owned_same; [done..|].
    intros r'. rewrite F3. case_decide; congruence.
  - split; [|intros r' Hne; by rewrite T3, decide_False]. eapply owned_acquire; [done..|].
    intros r'. rewrite T3. case_decide as E; [by rewrite bool_decide_true|]. by rewrite bool_decide_false.
Qed.

(** What [build] has opened, it owns. *)
Lemma build_owned c h : host_open h = ∅ -> owned (build c (new_server c, h)).2.
Proof.
  intros Hh.
  assert (Hbare : bare (new_server c, h)).
  { split; [|done]. split; [|done]. intros r. cbn. rewrite Hh. split; [set_solver|by destruct r]. }
  unfold build. apply bind_snd. unfold on_snd at 1. cbn [snd].
  pose proof (on_files_opens (loadPrivateKey (CryptoKey c)) h) as Hf.
  destruct (on_files (loadPrivateKey (CryptoKey c)) h) as [r h1]. cbn [fst snd] in *.
  apply (bare_host _ _ h1 Hf) in Hbare. destruct r as [privateKey|e|p]; [|apply Hbare..].
  apply bind_snd. unfold lift_outcome at 1. destruct (parseTrustedSubnet _) as [subnet|e|p]; [|apply Hbare..].
  apply bind_snd. pose proof (openDatabase_owned c (new_server c) h1 Hbare eq_refl) as Hd.
  unfold assign at 1, on_snd at 1. cbn [fst snd].
  destruct (openDatabase c h1) as [[hasDB|e|p] h2]; [|exact Hd..]. cbn [fst snd].
  apply bind_snd. cbn [gets fst snd]. apply bind_snd.
  pose proof (setupAudit_owned c _ h2 Hd) as Ha. unfold assign at 1, on_snd at 1. cbn [fst snd].
  destruct (setupAudit c h2) as [[au|e|p] h3]; [|exact Ha..]. cbn [fst snd].
  apply bind_snd. cbn [on_fst modify fst snd]. apply bind_snd. unfold assign at 1, lift_outcome. cbn [fst snd].
  set (s3 := set_httpServer _ _). assert (Ho : owned (s3, h3)) by by eapply owned_same.
  destruct (newGRPCServer _ _); [|by eapply owned_same|done].
  set (s4 := set_grpcServer true s3). assert (Ho4 : owned (s4, h3)) by by eapply owned_same.
  apply bind_snd.
  destruct (owned_listen (ErrWrap "listen HTTP") RHTTPListener (HTTPAddr c) set_httpListener (s4, h3)) as [HL Hr];
    [by intros b s; split_and!; [..|intros []]|done..|].
  specialize (Hr RGRPCListener ltac:(done)).
  destruct (map_err (ErrWrap "listen HTTP") _ _) as [[[]|e|p] st]; [|exact HL..]. cbn [snd] in *.
  apply bind_snd.
  destruct (owned_listen (ErrWrap "listen gRPC") RGRPCListener (GRPCAddr c) set_grpcListener st) as [HG _];
    [by intros b s; split_and!; [..|intros []]|done|by rewrite Hr|].
  destruct (map_err (ErrWrap "listen gRPC") _ _) as [[[]|e|p] st']; [|exact HG..]. cbn [snd] in *.
  by apply owned_assign_persistence.
Qed.

(** A server [build] completed has a shutdown function, and holds what its
    configuration asks for. *)
Definition needed (c : ServerConfig) (r : resource) : bool :=
  match r with
  | RDatabase => bool_decide (DatabaseDSN c <> "")
  | RAuditFile => bool_decide (AuditFile c <> "")
  | RHTTPListener | RGRPCListener => true
  end.

Definition shutdown_of (c : ServerConfig) : shutdown_func :=
  if decide (DatabaseDSN c <> "" \/ FileStoragePath c = "") then ShutdownNothing
  else ShutdownSave (FileStore.NewFileStore (FileStoragePath c)) (bool_decide (StoreIntervalInSec c > 0)).

Lemma assign_Ret_inv {A} (f : Build A) ok zero st u st' :
  assign f ok zero st = (Ret u, st') -> exists a s1, f st = (Ret a, s1) /\ st' = (ok a s1.1, s1.2).
Proof. unfold assign. destruct (f st) as [[a|e|p] s1]; naive_solver. Qed.

Lemma on_snd_inv {A} (m : M Host A) (st : Server * Host) r st' :
  on_snd m st = (r, st') -> st'.1 = st.1 /\ m st.2 = (r, st'.2).
Proof. unfold on_snd. destruct (m st.2) as [r' h']. by intros [= -> <-]. Qed.

Lemma openDatabase_Ret c h b h' : openDatabase c h = (Ret b, h') -> b = bool_decide (DatabaseDSN c <> "").
Proof.
  unfold openDatabase. destruct (decide (DatabaseDSN c = "")) as [E|E].
  - rewrite E. by intros [= <- _].
  - run. destruct (sql_Open _); run; [done|]. destruct (db_Ping _); run; [done|].
    destruct RunMigrations; run; [done|]. intros [= <- _]. by rewrite bool_decide_true.
Qed.

Lemma setupAudit_Ret c h r h' :
  setupAudit c h = (Ret r, h') -> r.2 = if decide (AuditFile c <> "") then CleanupFile else CleanupNothing.
Proof.
  unfold setupAudit. case_decide as E1; [intros [= <- _]; cbn; by destruct (decide (AuditFile c <> "")); [tauto|]|].
  destruct (decide (AuditFile c <> "")) as [E|E].
  - intros (ac & h1 & Hac & Hr)%bind_Ret_inv. 
    apply bind_Ret_inv in Hac as (o & h2 & _ & Hac). apply bind_Ret_inv in Hac as (u & h3 & _ & Hac).
    apply bind_Ret_inv in Hac as (u' & h4 & _ & Hac). injection Hac as <- <-. by injection Hr as <- _.
  - intros (ac & h1 & Hac & Hr)%bind_Ret_inv. injection Hac as <- <-. by injection Hr as <- _.
Qed.

Lemma setupFilePersistence_Ret c memRepo st f st' :
  setupFilePersistence c memRepo st = (Ret f, st') ->
  f = if decide (memRepo = false \/ FileStoragePath c = "") then ShutdownNothing
      else ShutdownSave (FileStore.NewFileStore (FileStoragePath c)) (bool_decide (StoreIntervalInSec c > 0)).
Proof.
  unfold setupFilePersistence. case_decide; [by intros [= <- _]|].
  intros (? & st1 & _ & Hr)%bind_Ret_inv. case_decide as Ez.
  - injection Hr as <- _. by rewrite bool_decide_false by lia.
  - case_decide; [|done]. injection Hr as <- _. by rewrite bool_decide_true.
Qed.

Lemma build_complete c h st :
  build c (new_server c, h) = (Ret tt, st) ->
  (forall r, holds st.1 r = needed c r) /\ shutdownPersistence st.1 = Some (shutdown_of c).
Proof.
  unfold build. intros E.
  apply bind_Ret_inv in E as (privateKey & st1 & E1 & E). apply on_snd_inv in E1 as [E1 _].
  apply bind_Ret_inv in E as (subnet & st1' & E1' & E). injection E1' as _ <-.
  apply bind_Ret_inv in E as ([] & st2 & E2 & E). apply assign_Ret_inv in E2 as (hasDB & st2' & E2 & ->).
  apply on_snd_inv in E2 as [E2' E2]. apply openDatabase_Ret in E2. rewrite E2', E1 in E. clear E2' E1.
  apply bind_Ret_inv in E as (memRepo & st3 & E3 & E). injection E3 as E3 <-.
  apply bind_Ret_inv in E as ([] & st4 & E4 & E). apply assign_Ret_inv in E4 as (au & st4' & E4 & ->).
  apply on_snd_inv in E4 as [E4' E4]. apply setupAudit_Ret in E4. rewrite E4' in E. clear E4'.
  apply bind_Ret_inv in E as ([] & st5 & E5 & E). injection E5 as <-.
  apply bind_Ret_inv in E as ([] & st6 & E6 & E). apply assign_Ret_inv in E6 as (u & st6' & E6 & ->).
  injection E6 as _ <-.
  apply bind_Ret_inv in E as ([] & st7 & E7 & E). apply map_err_Ret_inv, assign_Ret_inv in E7 as (u7 & st7' & E7 & ->).
  apply on_snd_inv in E7 as [E7 _]. rewrite E7 in E. clear E7.
  apply bind_Ret_inv in E as ([] & st8 & E8 & E). apply map_err_Ret_inv, assign_Ret_inv in E8 as (u8 & st8' & E8 & ->).
  apply on_snd_inv in E8 as [E8 _]. rewrite E8 in E. clear E8.
  apply assign_Ret_inv in E as (f & st9 & E9 & ->).
  match type of E9 with setupFilePersistence _ _ ?st0 = _ =>
    pose proof (setupFilePersistence_same c memRepo st0) as Hsame end.
  rewrite E9 in Hsame. destruct Hsame as [_ [m Hm]]. apply setupFilePersistence_Ret in E9.
  cbn [fst snd] in *. rewrite Hm. split.
  - intros r. destruct r; cbn [holds needed]; [exact E2| |done..]. cbn. rewrite E4.
    by destruct (decide (AuditFile c <> "")); [rewrite bool_decide_true|rewrite bool_decide_false].
  - cbn. rewrite E9, <-E3. unfold shutdown_of, newMetricsStorage. cbn. f_equal. subst hasDB.
    destruct (decide (DatabaseDSN c <> "")) as [Hd|Hd];
      [rewrite bool_decide_true by done|rewrite bool_decide_false by done]; cbn;
      repeat case_decide; try done; naive_solver.
Qed.

(** ** What building does to the metrics *)

(** A computation that leaves a part of its state alone, however it ends. *)
Definition frame {St B A} (part : St -> B) (m : M St A) : Prop := forall st, part (m st).2 = part st.

Lemma frame_bind {St B A C} (part : St -> B) (m : M St A) (f : A -> M St C) :
  frame part m -> (forall a, frame part (f a)) -> frame part (m ≫= f).
Proof.
  intros Hm Hf st. unfold mbind, St_bind. specialize (Hm st).
  destruct (m st) as [[a|e|p] st']; cbn in *; [|done..]. by rewrite Hf.
Qed.

Lemma frame_map_err {St B A} (part : St -> B) w (m : M St A) : frame part m -> frame part (map_err w m).
Proof. intros Hm st. specialize (Hm st). unfold map_err. by destruct (m st) as [[]?]. Qed.

Lemma frame_step {St B A} (part : St -> B) (m : M St A) st r st' :
  frame part m -> m st = (r, st') -> part st' = part st.
Proof. intros Hm E. specialize (Hm st). by rewrite E in Hm. Qed.

(** The metrics in memory and the files. *)
Definition metrics_of (h : Host) : MemStorage.t * FS := (host_mem h, host_fs h).

Lemma ReadFile_frame path : frame id (ReadFile path).
Proof. intros fs. unfold ReadFile. by destruct (read_fault fs path), (files fs !! path). Qed.

Lemma on_files_frame {A} (m : M FS A) : frame id m -> frame metrics_of (on_files m).
Proof. intros Hm h. specialize (Hm (host_fs h)). unfold on_files. destruct (m (host_fs h)). cbn in *. by subst. Qed.

Lemma on_audit_state_frame {A} (m : M AuditState A) : frame metrics_of (on_audit_state m).
Proof. intros h. unfold on_audit_state. by destruct (m (host_audit h)). Qed.

Lemma loadPrivateKey_frame path : frame metrics_of (on_files (loadPrivateKey (PK := PK) (SK := SK) path)).
Proof.
  apply on_files_frame. unfold loadPrivateKey. case_decide; [by intros ?|].
  apply frame_bind; [apply frame_map_err|by intros ? ?]. unfold LoadPrivateKey.
  apply frame_bind; [apply frame_map_err, ReadFile_frame|]. intros data fs.
  repeat (case_match; try done); unfold map_err, lift_outcome; by destruct (ParsePKCS1PrivateKey _).
Qed.

Lemma openDatabase_frame c : frame metrics_of (openDatabase c).
Proof. unfold openDatabase. intros h. repeat case_match; done. Qed.

Lemma setupAudit_frame c : frame metrics_of (setupAudit c).
Proof.
  unfold setupAudit. case_decide; [by intros ?|]. apply frame_bind.
  - case_decide; [|by intros ?]. repeat (apply frame_bind; [by apply on_audit_state_frame || by intros ?|intros ?]).
    by intros ?.
  - intros [a cl] h. done.
Qed.

Lemma Listen_frame r addr : frame metrics_of (Listen r addr).
Proof. intros h. unfold Listen. run. by destruct (listen_error _ _). Qed.

Lemma New_Ret c h s h' : New c h = (Ret s, h') -> build c (new_server c, h) = (Ret tt, (s, h')).
Proof.
  unfold New. destruct (build c (new_server c, h)) as [[[]|e|p] [s0 h0]] eqn:Hb.
  - by intros [= -> ->].
  - by destruct (Close _) as [[] []].
  - done.
Qed.

(** A server that was built started from what [Load] returned. *)
Lemma build_loads c h s h' :
  build c (new_server c, h) = (Ret tt, (s, h')) -> DatabaseDSN c = "" -> FileStoragePath c <> "" ->
  if Restore c
  then FileStore.Load (FileStore.NewFileStore (FileStoragePath c)) (metrics_of h) = (Ret tt, metrics_of h')
  else metrics_of h' = metrics_of h.
Proof.
  unfold build. intros E Hd Hp.
  apply bind_Ret_inv in E as (privateKey & st1 & E1 & E). apply on_snd_inv in E1 as [_ E1].
  apply (frame_step metrics_of) in E1; [|apply loadPrivateKey_frame].
  apply bind_Ret_inv in E as (subnet & st1' & E1' & E). injection E1' as _ <-.
  apply bind_Ret_inv in E as ([] & st2 & E2 & E). apply assign_Ret_inv in E2 as (hasDB & st2' & E2 & ->).
  apply on_snd_inv in E2 as [_ E2]. pose proof (openDatabase_Ret _ _ _ _ E2) as Hdb.
  rewrite Hd in Hdb. cbn in Hdb. subst hasDB.
  apply (frame_step metrics_of) in E2; [|apply openDatabase_frame].
  apply bind_Ret_inv in E as (memRepo & st3 & E3 & E). injection E3 as <- <-.
  apply bind_Ret_inv in E as ([] & st4 & E4 & E). apply assign_Ret_inv in E4 as (au & st4' & E4 & ->).
  apply on_snd_inv in E4 as [_ E4]. apply (frame_step metrics_of) in E4; [|apply setupAudit_frame].
  apply bind_Ret_inv in E as ([] & st5 & E5 & E). injection E5 as <-.
  apply bind_Ret_inv in E as ([] & st6 & E6 & E). apply assign_Ret_inv in E6 as (u & st6' & E6 & ->).
  injection E6 as _ <-.
  apply bind_Ret_inv in E as ([] & st7 & E7 & E). apply map_err_Ret_inv, assign_Ret_inv in E7 as (u7 & st7' & E7 & ->).
  apply on_snd_inv in E7 as [_ E7]. apply (frame_step metrics_of) in E7; [|apply Listen_frame].
  apply bind_Ret_inv in E as ([] & st8 & E8 & E). apply map_err_Ret_inv, assign_Ret_inv in E8 as (u8 & st8' & E8 & ->).
  apply on_snd_inv in E8 as [_ E8]. apply (frame_step metrics_of) in E8; [|apply Listen_frame].
  apply assign_Ret_inv in E as (f & st9 & E9 & Est). cbn [fst snd] in *.
  assert (Hm : metrics_of st8'.2 = metrics_of h) by congruence.
  assert (Hh' : metrics_of h' = metrics_of st9.2) by (by injection Est as _ ->).
  rewrite Hh', <-Hm. clear - E9 Hp. unfold setupFilePersistence in E9.
  rewrite decide_False in E9 by (by intros [[=]|?]).
  apply bind_Ret_inv in E9 as ([] & [s1 h1] & EL & E9).
  assert (metrics_of st9.2 = metrics_of h1) as -> by (revert E9; repeat case_decide; run; by intros [= _ <-]).
  destruct (Restore c); [|by injection EL as _ <-].
  unfold on_snd, on_persist in EL. cbn [fst snd] in EL. unfold metrics_of.
  destruct (FileStore.Load _ _) as [r p]. injection EL as -> _ <-. by destruct p.
Qed.

(** ** Closing *)

Lemma Save_no_panic (f : FileStore.t) ctx (st : MemStorage.t * FS) p : (FileStore.Save f ctx st).1 <> Panic p.
Proof.
  unfold FileStore.Save, snapshot, storage_snapshotter. run. destruct st as [m fs]. cbn.
  unfold MemStorage.Snapshot. run. unfold MetricsJson.Marshal_metrics.
  destruct (MetricsJson.json_of_metrics _); cbn; [|done]. unfold WriteFile.
  by destruct (write_fault_at fs _) as [[]|].
Qed.

Lemma run_shutdown_no_panic f h p : (run_shutdown f h).1 <> Panic p.
Proof.
  destruct f as [|store periodic]; [done|]. unfold run_shutdown, map_err, on_persist.
  pose proof (Save_no_panic store Background (host_mem h, host_fs h) p) as Hp.
  destruct (FileStore.Save _ _ _) as [[]?]; naive_solver.
Qed.

Lemma run_shutdown_opens f : opens_nothing (run_shutdown f).
Proof.
  intros h. destruct f as [|store periodic]; [done|]. unfold run_shutdown, map_err.
  rewrite <-(on_persist_opens (FileStore.Save store Background) h).
  by destruct (on_persist _ h) as [[]?].
Qed.

(** The shutdown function runs once; its result is kept. *)
Lemma stopPersistence_run s h f :
  persistenceOnce s = false -> shutdownPersistence s = Some f ->
  exists err h', stopPersistence (s, h) = (Ret err, (set_persistence true err s, h')) /\
    h' = (run_shutdown f h).2 /\
    err = match (run_shutdown f h).1 with Fail e => Some e | _ => None end.
Proof.
  intros Ho Hf. unfold stopPersistence. unfold mbind at 1, St_bind at 1. cbn [gets fst]. rewrite Ho.
  unfold mbind at 1, St_bind at 1. cbn [on_fst modify fst snd]. rewrite Hf.
  unfold mbind at 1, St_bind at 1, attempt, on_snd. cbn [fst snd].
  pose proof (run_shutdown_no_panic f h) as Hp. destruct (run_shutdown f h) as [[[]|e|p] h'].
  - by exists None, h'.
  - by exists (Some e), h'.
  - by destruct (Hp p).
Qed.

Lemma run_cleanup_run c h :
  exists h', run_cleanup c h = (Ret tt, h') /\ host_fs h' = host_fs h /\
    host_open h' = match c with CleanupFile => host_open h ∖ {[RAuditFile]} | CleanupNothing => host_open h end.
Proof.
  destruct c; [by exists h|]. unfold run_cleanup, on_audit_state. run.
  assert (Hn : forall p, (FileObserver.Close (host_audit h)).1 <> Panic p).
  { intros p. destruct (host_audit h) as [o w]. unfold FileObserver.Close. run.
    destruct (FileObserver.file o); run; [|done]. by destruct (aw_close_fault w). }
  destruct (FileObserver.Close (host_audit h)) as [[[]|e|p] a]; cbn; [by eexists|by eexists|by destruct (Hn p)].
Qed.

Definition release_if (b : bool) (r : resource) (o : gset resource) : gset resource :=
  if b then o ∖ {[r]} else o.

Lemma elem_of_release_if b r o r' : r' ∈ release_if b r o <-> r' ∈ o /\ ~ (b = true /\ r' = r).
Proof. destruct b; cbn; [rewrite elem_of_difference, elem_of_singleton|]; tauto || naive_solver. Qed.

Lemma when_release b r (s : Server) h :
  when b (on_snd (release r)) (s, h) = (Ret tt, (s, set_host_open (release_if b r (host_open h)) h)).
Proof. by destruct b, h. Qed.

(** The first [Close] of a server with a shutdown function. *)
Lemma Close_run s h f :
  owned (s, h) -> shutdownPersistence s = Some f ->
  exists s' h', Close (s, h) = (Ret tt, (s', h')) /\ host_open h' = ∅ /\ closeOnce s' = true /\
    host_fs h' = host_fs (run_shutdown f h).2.
Proof.
  intros (Ho & Hcl & Hon) Hf. cbn [fst snd] in *. unfold Close. unfold mbind at 1, St_bind at 1. cbn [gets fst].
  rewrite Hcl. unfold mbind at 1, St_bind at 1. cbn [on_fst modify fst snd].
  destruct (stopPersistence_run (set_closeOnce true s) h f Hon Hf) as (err & h1 & E1 & Eh & _).
  rewrite (bind_Ret _ _ _ _ _ E1), (bind_Ret _ _ _ _ _ (when_release _ _ _ _)).
  rewrite (bind_Ret _ _ _ _ _ (when_release _ _ _ _)).
  set (h2 := set_host_open _ (set_host_open _ _)). set (s' := set_persistence true err _).
  assert (exists h3, (match cleanupAudit s with
      | Some c => on_snd (run_cleanup c) | None => mret tt end : Build unit) (s', h2) = (Ret tt, (s', h3)) /\
      host_fs h3 = host_fs h2 /\ host_open h3 = release_if (holds s RAuditFile) RAuditFile (host_open h2))
    as (h3 & E3 & F3 & O3).
  { destruct (cleanupAudit s) as [c|] eqn:Ec; cbn; rewrite Ec; [|by exists h2].
    destruct (run_cleanup_run c h2) as (h3 & E3 & F3 & O3). exists h3. unfold on_snd. cbn [fst snd]. rewrite E3.
    split; [done|]. split; [done|]. rewrite O3. by destruct c. }
  rewrite (bind_Ret _ _ _ _ _ E3), when_release. do 2 eexists. split; [done|]. split; [|split; [done|]].
  - cbn. rewrite O3. cbn. rewrite Eh, (run_shutdown_opens f h).
    apply set_eq. intros r. rewrite elem_of_empty, !elem_of_release_if, Ho. destruct r; cbn; tauto.
  - cbn. rewrite F3. cbn. by rewrite Eh.
Qed.

Lemma Close_again st : closeOnce st.1 = true -> Close st = (Ret tt, st).
Proof. intros Hc. unfold Close. unfold mbind, St_bind. cbn [gets]. by rewrite Hc. Qed.

(** A nil shutdown function makes [Close] panic before it releases anything. *)
Lemma Close_nil_func s h :
  owned (s, h) -> shutdownPersistence s = None ->
  exists s', Close (s, h) = (Panic "runtime error: invalid memory address or nil pointer dereference", (s', h)).
Proof.
  intros (_ & Hcl & Hon) Hf. cbn [fst snd] in *. unfold Close. unfold mbind at 1, St_bind at 1. cbn [gets fst].
  rewrite Hcl. unfold mbind at 1, St_bind at 1. cbn [on_fst modify fst snd].
  eexists. apply bind_Panic. unfold stopPersistence. unfold mbind at 1, St_bind at 1. cbn [gets fst].
  change (persistenceOnce (set_closeOnce true s)) with (persistenceOnce s). rewrite Hon.
  unfold mbind at 1, St_bind at 1. cbn [on_fst modify fst snd].
  change (shutdownPersistence (set_closeOnce true s)) with (shutdownPersistence s). by rewrite Hf.
Qed.

(** ** Theorems *)

(** C20: A server is built whole or not at all: on success exactly the
    resources of its configuration are open, [Close] releases every one of them
    and runs the shutdown save once, and closing again does nothing; when [New]
    returns an error, nothing is left open. *)
Theorem new_releases c h :
  host_open h = ∅ ->
  match New c h with
  | (Ret s, h') =>
      (forall r, r ∈ host_open h' <-> needed c r = true) /\
      exists s'' h'', Close (s, h') = (Ret tt, (s'', h'')) /\ host_open h'' = ∅ /\
        host_fs h'' = host_fs (run_shutdown (shutdown_of c) h').2 /\
        Close (s'', h'') = (Ret tt, (s'', h''))
  | (Fail _, h') => host_open h' = ∅
  | (Panic _, _) => True
  end.
Proof.
  intros Hh. pose proof (build_owned c h Hh) as Ho. unfold New.
  destruct (build c (new_server c, h)) as [[[]|e|p] [s h1]] eqn:Hb; cbn [snd] in Ho; [| |done].
  - destruct (build_complete c h (s, h1) Hb) as [Hn Hf]. cbn [fst] in *. split.
    + intros r. rewrite <-Hn. apply Ho.
    + destruct (Close_run s h1 _ Ho Hf) as (s'' & h'' & E & Hopen & Hcl & Hfs).
      exists s'', h''. split_and!; try done. by apply Close_again.
  - destruct (shutdownPersistence s) as [f|] eqn:Hf.
    + destruct (Close_run s h1 f Ho Hf) as (s'' & h'' & -> & Hopen & _). done.
    + destruct (Close_nil_func s h1 Ho Hf) as [s'' ->]. done.
Qed.

(** A configuration of its own: no database, keys, audit, subnet or certificates;
    metrics in a file that is read on start; both addresses free. *)
Record file_only (c : ServerConfig) : Prop := {
  fo_key : CryptoKey c = "";
  fo_subnet : ServerConfig.TrustedSubnet c = "";
  fo_dsn : DatabaseDSN c = "";
  fo_audit_file : AuditFile c = "";
  fo_audit_url : AuditURL c = "";
  fo_cert : GRPCTLSCert c = "";
  fo_cert_key : GRPCTLSKey c = "";
  fo_http : listen_error ∅ (HTTPAddr c) = None;
  fo_grpc : listen_error {[RHTTPListener]} (GRPCAddr c) = None;
  fo_path : FileStoragePath c <> "";
  fo_restore : Restore c = true;
}.

(** Such a server is built up to its persistence without a failure. *)
Lemma build_file_only c fs m au lg : file_only c -> exists s lg',
  shutdownPersistence s = Some ShutdownNothing /\
  build c (new_server c, MkHost fs m au ∅ lg)
  = assign (setupFilePersistence c true) (fun f => set_shutdownPersistence (Some f)) (set_shutdownPersistence None)
      (s, MkHost fs m au {[RHTTPListener; RGRPCListener]} lg').
Proof.
  intros [Hk Hs Hd Haf Hau Hc Hgk L1 L2 Hp Hr]. unfold build.
  rewrite (bind_Ret _ _ _ None (new_server c, MkHost fs m au ∅ lg))
    by (unfold on_snd, on_files, loadPrivateKey; rewrite Hk; done).
  rewrite (bind_Ret _ _ _ None (new_server c, MkHost fs m au ∅ lg))
    by (unfold lift_outcome, parseTrustedSubnet; rewrite Hs; done).
  set (lg' := lg ++ [MkEntry DebugLevel "database disabled" []]). set (s0 := set_db false (new_server c)).
  rewrite (bind_Ret _ _ _ tt (s0, MkHost fs m au ∅ lg'))
    by (unfold assign, on_snd, openDatabase; rewrite Hd; done).
  rewrite (bind_Ret _ _ _ true (s0, MkHost fs m au ∅ lg')) by done.
  rewrite (bind_Ret _ _ _ tt (set_audit_fields None (Some CleanupNothing) s0, MkHost fs m au ∅ lg'))
    by (unfold assign, on_snd, setupAudit; rewrite Haf, Hau; done).
  set (s1 := set_audit_fields _ _ s0). unfold mbind at 1, St_bind at 1. cbn [on_fst modify fst snd].
  set (s2 := set_httpServer _ s1).
  rewrite (bind_Ret _ _ _ tt (set_grpcServer true s2, MkHost fs m au ∅ lg'))
    by (unfold assign, lift_outcome, newGRPCServer; rewrite Hc, Hgk; done).
  set (s3 := set_grpcServer true s2).
  rewrite (bind_Ret _ _ _ tt (set_httpListener true s3, MkHost fs m au {[RHTTPListener]} lg')).
  2: { unfold map_err, assign, on_snd, Listen. run. rewrite L1. cbn. by rewrite (right_id_L ∅ (∪)). }
  set (s4 := set_httpListener true s3).
  rewrite (bind_Ret _ _ _ tt (set_grpcListener true s4, MkHost fs m au {[RHTTPListener; RGRPCListener]} lg')).
  2: { unfold map_err, assign, on_snd, Listen. run. rewrite L2. cbn. by rewrite (comm_L (∪)). }
  by exists (set_grpcListener true s4), lg'.
Qed.

(** C25: A metrics file that cannot be restored does not make [New] return an
    error: the assignment of the failed [setupFilePersistence] leaves a nil
    shutdown function, the deferred [Close] calls it, and the program dies with a
    nil pointer panic while both listeners are still open. *)
Theorem restore_failure_panics c h e :
  file_only c -> host_open h = ∅ ->
  (FileStore.Load (FileStore.NewFileStore (FileStoragePath c)) (host_mem h, host_fs h)).1 = Fail e ->
  exists h', New c h = (Panic "runtime error: invalid memory address or nil pointer dereference", h') /\
    host_open h' = {[RHTTPListener; RGRPCListener]}.
Proof.
  intros Hc Hh Hl. pose proof (build_owned c h Hh) as Ho.
  destruct h as [fs m au op lg]. cbn in Hh, Hl. subst op.
  destruct (FileStore.Load _ (m, fs)) as [r p'] eqn:HL. cbn in Hl. subst r.
  destruct (build_file_only c fs m au lg Hc) as (s & lg' & _ & Hb). unfold New.
  assert (Hf : build c (new_server c, MkHost fs m au ∅ lg)
      = (Fail e, (set_shutdownPersistence None s, MkHost p'.2 p'.1 au {[RHTTPListener; RGRPCListener]} lg'))).
  { rewrite Hb. unfold assign, setupFilePersistence.
    rewrite decide_False by (intros [?|?]; [done|by apply (fo_path c Hc)]). rewrite (fo_restore c Hc).
    unfold mbind, St_bind, on_snd, on_persist. cbn [fst snd host_mem host_fs]. by rewrite HL. }
  rewrite Hf in *. destruct (Close_nil_func _ _ Ho eq_refl) as [s'' ->]. by eexists.
Qed.

(** C21: Metrics survive a restart, when they are kept in a file and no database is
    configured.  However the memory and the file evolved while the server ran, as long
    as the metric names are UTF-8 and the file can be read: closing a server that
    [New] built saves the metrics, if their gauges are finite and the file can be
    written, and every later [New] that succeeds with the same configuration (with
    an empty memory) starts with exactly these metrics, or with none if [Restore] is off;
    such a [New] does succeed when nothing but the file is configured and both ports are
    free.  With a NaN or infinite gauge the file keeps its former contents. *)
Theorem restart_restores `{!FloatTextLaws} `{!JsonTextLaws} c h s h1 (m : MemStorage.t) fs au lg :
  DatabaseDSN c = "" -> FileStoragePath c <> "" -> host_open h = ∅ -> New c h = (Ret s, h1) ->
  FileStore.names_ok m -> read_fault fs (FileStoragePath c) = None ->
  exists s' h2, Close (s, set_host_persist (m, fs) h1) = (Ret tt, (s', h2)) /\
    let again := New c (MkHost (host_fs h2) MemStorage.NewMemStorage au ∅ lg) in
    (FileStore.finite_gauges m -> write_fault_at fs (FileStoragePath c) = None ->
       (forall s2 h3, again = (Ret s2, h3) ->
          host_mem h3 = if Restore c then m else MemStorage.NewMemStorage) /\
       (file_only c -> 0 <= StoreIntervalInSec c -> exists s2 h3, again = (Ret s2, h3))) /\
    (~ FileStore.finite_gauges m -> host_fs h2 = fs).
Proof.
  intros Hd Hp Hh Hnew Hn Hr. pose proof (build_owned c h Hh) as Ho. apply New_Ret in Hnew as Hb.
  rewrite Hb in Ho. destruct (build_complete c h (s, h1) Hb) as [_ Hf]. cbn [fst snd] in *.
  destruct (Close_run s (set_host_persist (m, fs) h1) _ (owned_host s h1 _ eq_refl Ho) Hf)
    as (s' & h2 & E & _ & _ & Hfs).
  exists s', h2. split; [done|]. cbn zeta. unfold shutdown_of in Hfs.
  rewrite decide_False in Hfs by (rewrite Hd; naive_solver).
  set (f := FileStore.NewFileStore (FileStoragePath c)) in *.
  destruct (FileStore.Save_outcome f Background m fs Hn Hr) as (r & fs' & Hs & Hok & Hsucc & Hinf).
  assert (Hfs2 : host_fs h2 = fs').
  { rewrite Hfs. unfold run_shutdown, map_err, on_persist. cbn [set_host_persist host_mem host_fs fst snd].
    rewrite Hs. by destruct r. }
  rewrite Hfs2. split; [|by intros Hi; apply Hinf in Hi as [_ ->]].
  intros Hg Hw. destruct (Hok (Hsucc Hg Hw)) as [_ HL%FileStore.restores_empty]. split.
  - intros s2 h3 Hnew2. apply New_Ret, build_loads in Hnew2; [|done..]. fold f in Hnew2.
    change (metrics_of (MkHost fs' MemStorage.NewMemStorage au ∅ lg)) with (MemStorage.NewMemStorage, fs') in Hnew2.
    destruct (Restore c); [rewrite HL in Hnew2|]; by injection Hnew2.
  - intros Hc Hi. destruct (build_file_only c fs' MemStorage.NewMemStorage au lg Hc) as (s3 & lg' & _ & Hb2).
    unfold New. rewrite Hb2. unfold assign, setupFilePersistence.
    rewrite decide_False by naive_solver. rewrite (fo_restore c Hc).
    unfold mbind, St_bind, on_snd, on_persist. cbn [fst snd host_mem host_fs]. fold f. rewrite HL.
    cbn [fst snd]. destruct (decide (StoreIntervalInSec c = 0)); [by eexists _, _|].
    rewrite decide_True by lia. by eexists _, _.
Qed.
End Setup.

(** ** A host without a database, for evaluation *)

#[local] Instance no_keys : KeyFormats N N := {|
  pem_Decode := fun _ => None;
  ParsePKIXPublicKey := fun _ => Ret OtherKey;
  ParsePKCS1PublicKey := fun _ => Fail (ErrNew "asn1");
  ParsePKCS8PrivateKey := fun _ => Ret OtherKey;
  ParsePKCS1PrivateKey := fun _ => Fail (ErrNew "asn1");
|}.
#[local] Instance no_database : SqlDriver := {|
  sql_Open := fun _ => None;
  db_Ping := fun _ => Some (ErrNet "connection refused");
|}.
#[local] Instance no_migrations : Migrate := {|
  WithInstance := None;
  Getwd := inl "/";
  NewWithDatabaseInstance := fun _ _ => None;
  Up := UpErrNoChange;
|}.
#[local] Instance no_certificates : ServerTLS := fun _ _ => Some ErrNotExist.
#[local] Instance free_ports : Network := fun _ _ => None.
#[local] Instance sample_urls : RemoteObserver.URLs := RemoteObserver.any_url.

Definition sample_host (fs : FS) : Host :=
  MkHost fs (MemStorage.Mk ∅ ∅) (FileObserver.Mk None None, FileObserver.sample_world) ∅ [].

Definition file_config : ServerConfig :=
  set_Restore true (set_FileStoragePath "metrics-db.json" defaultServerConfig).

Definition broken_file : FS := set_file "metrics-db.json" "not json" FileStore.empty_fs.

Lemma new_releases_witness :
  match New (PK := N) file_config (sample_host FileStore.empty_fs) with
  | (Ret s, h') => exists s'' h'', Close (s, h') = (Ret tt, (s'', h'')) /\ host_open h'' = ∅
  | _ => False
  end.
Proof.
  pose proof (new_releases (PK := N) file_config (sample_host FileStore.empty_fs) eq_refl) as Hc.
  destruct (New (PK := N) file_config (sample_host FileStore.empty_fs)) as [[s|e|p] h'] eqn:E.
  - destruct Hc as [_ (s'' & h'' & Hc & Ho & _)]. eauto.
  - vm_compute in E. discriminate E.
  - vm_compute in E. discriminate E.
Defined.

Lemma file_config_alone : file_only file_config.
Proof. split; try reflexivity. discriminate. Qed.

Lemma restore_failure_panics_witness : exists h',
  New (PK := N) file_config (sample_host broken_file)
    = (Panic "runtime error: invalid memory address or nil pointer dereference", h') /\
  host_open h' = {[RHTTPListener; RGRPCListener]}.
Proof. eapply restore_failure_panics; [exact file_config_alone|reflexivity|reflexivity]. Defined.

Lemma restart_restores_witness : exists s h1 s' h2 s2 h3,
  New (PK := N) file_config (sample_host FileStore.empty_fs) = (Ret s, h1) /\
  Close (s, set_host_persist (FileStore.sample_store, FileStore.empty_fs) h1) = (Ret tt, (s', h2)) /\
  New (PK := N) file_config (sample_host (host_fs h2)) = (Ret s2, h3) /\ host_mem h3 = FileStore.sample_store.
Proof.
  destruct (New (PK := N) file_config (sample_host FileStore.empty_fs)) as [[s|e|p] h1] eqn:E.
  2, 3: vm_compute in E; discriminate E.
  destruct (restart_restores (PK := N) file_config (sample_host FileStore.empty_fs) s h1 FileStore.sample_store
    FileStore.empty_fs (host_audit (sample_host FileStore.empty_fs)) [] eq_refl) as (s' & h2 & H1 & H2 & _).
  - discriminate.
  - reflexivity.
  - exact E.
  - exact FileStore.sample_store_names.
  - reflexivity.
  - destruct (H2 FileStore.sample_store_finite eq_refl) as [Hsame Hsucc].
    assert (Hi : 0 <= StoreIntervalInSec file_config) by (apply (bool_decide_unpack _); vm_compute; exact I).
    destruct (Hsucc file_config_alone Hi) as (s2 & h3 & H3).
    exists s, h1, s', h2, s2, h3. split; [reflexivity|]. split; [exact H1|]. split; [exact H3|exact (Hsame _ _ H3)].
Defined.
