(* ===== verification/ServerRuntime.v ===== *)
(** * The server's goroutines: [internal/server/server.go], [grpc.go], [persistence.go]

    The two transports, the requests they serve, the periodic saver and the
    goroutine of [Run], interleaved in any order.  A step is one action on shared
    state: a channel, a context, the in-memory storage, the metrics file.  The
    storage is known by the number of updates it has taken, a snapshot and the
    file by how many of them they hold (any number once a save has failed); [acked]
    counts the updates a client was told of.  A save that succeeds is one step: that
    two saves at once can also mix their bytes is not modelled. *)

From S2P Require Import Prelude GoError GoNum GoContext.
Local Open Scope Z_scope.

Module Server.

(** The ticker of [startPeriodicSave]: the interval is an [int64] product, and
    [time.NewTicker] panics when it is not positive. *)
Definition periodic_ticker (storeIntervalInSec : Z) : outcome error Z :=
  let interval := wrap64 (storeIntervalInSec * Second) in
  if decide (interval <= 0) then Panic "non-positive interval for NewTicker" else Ret interval.

Example periodic_ticker_overflows :
  periodic_ticker 300 = Ret (300 * Second) /\
  periodic_ticker 9223372037 = Panic "non-positive interval for NewTicker".
Proof. split; vm_compute; reflexivity. Qed.

(** ** States *)

Inductive side : Type := HTTP | GRPC.

#[global] Instance side_eq_dec : EqDecision side.
Proof. solve_decision. Defined.

Definition other (x : side) : side := match x with HTTP => GRPC | GRPC => HTTP end.

(** An update on its way: decoded, applied to the storage, its snapshot taken by
    a synchronous save, ready to be answered. *)
Inductive request : Type := RFresh | RApplied | RSnapped (n : Z) | RReady.

(** Where [serveHTTP] or [serveGRPC] is: in the [select]; in it with the error of
    [Serve] in [errCh]; in [Shutdown] or [GracefulStop], with what [errCh] will
    give then; returned. *)
Inductive phase : Type :=
| PServing
| PBroken (e : error)
| PDraining (e : option error)
| PEnded (r : option error).

Record transport : Type := MkTransport {
  tr_phase : phase;
  tr_requests : list request;
}.

(** The goroutine of [startPeriodicSave]; [SvNone] when there is none. *)
Inductive saver : Type := SvNone | SvIdle | SvSnapped (n : Z) | SvExited.

(** The goroutine of [Run]: waiting for the first transport, for the other one
    with the result of the first, for the saver, writing its own snapshot, done. *)
Inductive main_state : Type :=
| MFirst
| MSecond (x : side) (r : option error)
| MStopping (serveErr : option error)
| MSaving (serveErr : option error) (n : Z)
| MReturned (r : option error).

(** How the configuration persists metrics. *)
Inductive mode : Type := NoFile | SyncSave | PeriodicSave.

#[global] Instance mode_eq_dec : EqDecision mode.
Proof. solve_decision. Defined.

Record state : Type := MkState {
  signalled : bool;
  http : transport;
  grpc : transport;
  main : main_state;
  periodic : saver;
  applied : Z;
  saved : Z;
  acked : Z;
}.

Definition get_tr (x : side) (s : state) : transport := match x with HTTP => http s | GRPC => grpc s end.
Definition set_tr (x : side) (t : transport) (s : state) : state :=
  match x with
  | HTTP => MkState (signalled s) t (grpc s) (main s) (periodic s) (applied s) (saved s) (acked s)
  | GRPC => MkState (signalled s) (http s) t (main s) (periodic s) (applied s) (saved s) (acked s)
  end.
Definition set_main (m : main_state) (s : state) : state :=
  MkState (signalled s) (http s) (grpc s) m (periodic s) (applied s) (saved s) (acked s).
Definition set_periodic (v : saver) (s : state) : state :=
  MkState (signalled s) (http s) (grpc s) (main s) v (applied s) (saved s) (acked s).
Definition set_counts (a f k : Z) (s : state) : state :=
  MkState (signalled s) (http s) (grpc s) (main s) (periodic s) a f k.
Definition set_signal (s : state) : state :=
  MkState true (http s) (grpc s) (main s) (periodic s) (applied s) (saved s) (acked s).

(** [runCtx] is done: the signal came, or [serveTransports] cancelled it. *)
Definition run_done (s : state) : Prop := signalled s = true \/ main s <> MFirst.

(** [close(stopCh)] has happened. *)
Definition stop_closed (s : state) : Prop :=
  match main s with MFirst | MSecond _ _ => False | _ => True end.

(** ** Steps *)

Section Steps.
Context (persistence : mode).

(** A request can reach a transport until its graceful shutdown starts, and also
    after [Serve] failed, on a connection that is still open. *)
Definition accepts (p : phase) : Prop :=
  match p with PServing | PBroken _ | PEnded (Some _) => True | _ => False end.

(** One request on its way through [MetricsService]: the update, the save when it
    is synchronous, the answer.  A refused update and a failed save answer with an
    error, which tells the client nothing was stored.  A failed save may leave anything
    in the file, [os.WriteFile] truncates it first. *)
Inductive request_step (x : side) : state -> state -> Prop :=
| request_arrives s p l : get_tr x s = MkTransport p l -> accepts p ->
    request_step x s (set_tr x (MkTransport p (l ++ [RFresh])) s)
| request_refused s p l1 l2 : get_tr x s = MkTransport p (l1 ++ RFresh :: l2) ->
    request_step x s (set_tr x (MkTransport p (l1 ++ l2)) s)
| request_applied s p l1 l2 : get_tr x s = MkTransport p (l1 ++ RFresh :: l2) ->
    request_step x s (set_counts (applied s + 1) (saved s) (acked s)
                       (set_tr x (MkTransport p (l1 ++ RApplied :: l2)) s))
| request_not_saved s p l1 l2 : persistence <> SyncSave -> get_tr x s = MkTransport p (l1 ++ RApplied :: l2) ->
    request_step x s (set_tr x (MkTransport p (l1 ++ RReady :: l2)) s)
| request_snapshots s p l1 l2 : persistence = SyncSave -> get_tr x s = MkTransport p (l1 ++ RApplied :: l2) ->
    request_step x s (set_tr x (MkTransport p (l1 ++ RSnapped (applied s) :: l2)) s)
| request_saves s p l1 l2 n : get_tr x s = MkTransport p (l1 ++ RSnapped n :: l2) ->
    request_step x s (set_counts (applied s) n (acked s) (set_tr x (MkTransport p (l1 ++ RReady :: l2)) s))
| request_save_fails s p l1 l2 n f : get_tr x s = MkTransport p (l1 ++ RSnapped n :: l2) ->
    request_step x s (set_counts (applied s) f (acked s) (set_tr x (MkTransport p (l1 ++ l2)) s))
| request_answered s p l1 l2 : get_tr x s = MkTransport p (l1 ++ RReady :: l2) ->
    request_step x s (set_counts (applied s) (saved s) (acked s + 1) (set_tr x (MkTransport p (l1 ++ l2)) s)).

Definition serve_error (x : side) (e : error) : error :=
  ErrWrap (match x with HTTP => "serve HTTP" | GRPC => "serve gRPC" end) e.
Definition shutdown_error (x : side) (e : error) : error :=
  ErrWrap (match x with HTTP => "shutdown HTTP server" | GRPC => "shutdown gRPC server" end) e.

(** [serveHTTP], [serveGRPC] and [stopGRPC].  The graceful shutdown succeeds when
    no request is left; after [shutdownTimeout] it is given up, and requests may
    still be running. *)
Inductive transport_step (x : side) : state -> state -> Prop :=
| serve_breaks s l e : get_tr x s = MkTransport PServing l ->
    transport_step x s (set_tr x (MkTransport (PBroken e) l) s)
| serve_returns s l e : get_tr x s = MkTransport (PBroken e) l ->
    transport_step x s (set_tr x (MkTransport (PEnded (Some (serve_error x e))) l) s)
| shutdown_starts s l : get_tr x s = MkTransport PServing l -> run_done s ->
    transport_step x s (set_tr x (MkTransport (PDraining None) l) s)
| shutdown_after_error s l e : get_tr x s = MkTransport (PBroken e) l -> run_done s ->
    transport_step x s (set_tr x (MkTransport (PDraining (Some e)) l) s)
| shutdown_drained s e : get_tr x s = MkTransport (PDraining e) [] ->
    transport_step x s (set_tr x (MkTransport (PEnded (serve_error x <$> e)) []) s)
| shutdown_forced s l e e' : get_tr x s = MkTransport (PDraining e) l ->
    (x = GRPC -> e' = ErrContextDeadlineExceeded) ->
    transport_step x s (set_tr x (MkTransport (PEnded (Some (serve_error x (shutdown_error x e')))) l) s).

(** The goroutine of [startPeriodicSave]; a failed save is logged, and may leave
    anything in the file. *)
Inductive startPeriodicSave : state -> state -> Prop :=
| saver_ticks s : periodic s = SvIdle -> startPeriodicSave s (set_periodic (SvSnapped (applied s)) s)
| saver_writes s n : periodic s = SvSnapped n ->
    startPeriodicSave s (set_counts (applied s) n (acked s) (set_periodic SvIdle s))
| saver_write_fails s n f : periodic s = SvSnapped n ->
    startPeriodicSave s (set_counts (applied s) f (acked s) (set_periodic SvIdle s))
| saver_stops s : periodic s = SvIdle -> stop_closed s -> startPeriodicSave s (set_periodic SvExited s).

Definition saver_gone (s : state) : Prop := periodic s = SvNone \/ periodic s = SvExited.

(** [serveTransports]: the first result cancels the context of both transports,
    the second one ends the wait. *)
Inductive serveTransports : state -> state -> Prop :=
| run_first s x r l : main s = MFirst -> get_tr x s = MkTransport (PEnded r) l ->
    serveTransports s (set_main (MSecond x r) s)
| run_second s x r r' l : main s = MSecond x r -> get_tr (other x) s = MkTransport (PEnded r') l ->
    serveTransports s (set_main (MStopping (Join [r; r'])) s).

(** [stopPersistence] and the end of [Run]: the saver is stopped and waited for,
    the last save is made, the errors are joined. *)
Inductive stopPersistence : state -> state -> Prop :=
| run_nothing_to_save s e : main s = MStopping e -> persistence = NoFile ->
    stopPersistence s (set_main (MReturned (Join [e; None])) s)
| run_snapshots s e : main s = MStopping e -> persistence <> NoFile -> saver_gone s ->
    stopPersistence s (set_main (MSaving e (applied s)) s)
| run_saves s e n : main s = MSaving e n ->
    stopPersistence s (set_counts (applied s) n (acked s) (set_main (MReturned (Join [e; None])) s))
| run_save_fails s e n f e' : main s = MSaving e n ->
    stopPersistence s (set_counts (applied s) f (acked s)
      (set_main (MReturned (Join [e; Some (ErrWrap "save metrics on shutdown" e')])) s)).

(** [Run] *)
Definition Run (s s' : state) : Prop := serveTransports s s' \/ stopPersistence s s'.

(** The goroutines of the transports. *)
Definition serveHTTP : state -> state -> Prop := transport_step HTTP.
Definition serveGRPC : state -> state -> Prop := transport_step GRPC.

(** What the program does by itself, once the signal came. *)
Definition work (s s' : state) : Prop :=
  (serveHTTP s s' \/ serveGRPC s s') \/ startPeriodicSave s s' \/ Run s s'.

Definition step (s s' : state) : Prop :=
  work s s' \/ (exists x, request_step x s s') \/ s' = set_signal s.

(** [Run] starts with both transports serving what [New] restored. *)
Definition initial (restored : Z) : state :=
  MkState false (MkTransport PServing []) (MkTransport PServing []) MFirst
    (match persistence with PeriodicSave => SvIdle | _ => SvNone end) restored restored restored.

Definition reachable (s : state) : Prop := exists n, 0 <= n /\ rtc step (initial n) s.

(** ** Invariant *)

(** Updates a client may still be told of. *)
Definition unanswered (l : list request) : Z :=
  foldr (fun r n => n + match r with RFresh => 0 | _ => 1 end) 0 l.

(** The transport ended well: nothing is left of it. *)
Definition ended_well (t : transport) : Prop := t = MkTransport (PEnded None) [].

Definition main_ok (s : state) : Prop :=
  match main s with
  | MFirst => True
  | MSecond x r => r = None -> ended_well (get_tr x s)
  | MStopping r => r = None -> ended_well (http s) /\ ended_well (grpc s)
  | MSaving r n => saver_gone s /\ persistence <> NoFile /\
      (r = None -> ended_well (http s) /\ ended_well (grpc s) /\ n = applied s)
  | MReturned r => (r = None -> ended_well (http s) /\ ended_well (grpc s) /\
      (persistence <> NoFile -> saver_gone s /\ saved s = applied s))
  end.

Definition tr_ok (t : transport) : Prop := tr_phase t = PEnded None -> tr_requests t = [].

Record inv (s : state) : Prop := MkInv {
  inv_acked : acked s + unanswered (tr_requests (http s)) + unanswered (tr_requests (grpc s)) <= applied s;
  inv_http : tr_ok (http s);
  inv_grpc : tr_ok (grpc s);
  inv_main : main_ok s;
  inv_saver : periodic s <> SvNone -> persistence = PeriodicSave;
}.

Lemma unanswered_app l1 l2 : unanswered (l1 ++ l2) = unanswered l1 + unanswered l2.
Proof. unfold unanswered. induction l1 as [|r l1 IH]; cbn; [done|]. rewrite IH. lia. Qed.

Lemma unanswered_cons r l :
  unanswered (r :: l) = unanswered l + match r with RFresh => 0 | _ => 1 end.
Proof. done. Qed.

Lemma ended_well_empty t p l1 r l2 : t = MkTransport p (l1 ++ r :: l2) -> ~ ended_well t.
Proof. intros -> [= _ E]. by destruct l1. Qed.

(** A step elsewhere keeps what the goroutine of [Run] knows. *)
Lemma main_ok_frame s s' :
  main s' = main s ->
  (forall y, ended_well (get_tr y s) -> get_tr y s' = get_tr y s) ->
  (ended_well (http s) -> ended_well (grpc s) -> saver_gone s ->
     applied s' = applied s /\ saved s' = saved s) ->
  (saver_gone s -> saver_gone s') ->
  main_ok s -> main_ok s'.
Proof.
  unfold main_ok. intros -> Htr Hc Hs.
  assert (Hb : ended_well (http s) /\ ended_well (grpc s) -> ended_well (http s') /\ ended_well (grpc s')).
  { intros [Eh Eg]. pose proof (Htr HTTP Eh) as Th. pose proof (Htr GRPC Eg) as Tg. cbn in Th, Tg.
    by rewrite Th, Tg. }
  destruct (main s) as [|x r|r|r n|r]; [done| | | |].
  - intros Hm Hr. rewrite Htr; auto.
  - intros Hm Hr. auto.
  - intros (Hg & Hp & Hm). split_and!; [auto|done|]. intros Hr. destruct (Hm Hr) as (Eh & Eg & En).
    destruct (Hb (conj Eh Eg)). destruct (Hc Eh Eg Hg) as [-> _]. done.
  - intros Hm Hr. destruct (Hm Hr) as (Eh & Eg & Hp). destruct (Hb (conj Eh Eg)). split_and!; [done..|].
    intros Hn. destruct (Hp Hn) as [Hg E]. destruct (Hc Eh Eg Hg) as [-> ->]. auto.
Qed.

Lemma get_set_tr x y t s : get_tr y (set_tr x t s) = if decide (y = x) then t else get_tr y s.
Proof. by destruct x, y. Qed.

Lemma request_step_inv x s s' : request_step x s s' -> inv s -> inv s'.
Proof.
  intros Hst [Ha Hh Hg Hm Hs].
  assert (Hnot : ~ ended_well (get_tr x s)).
  { destruct Hst as [s p l E Hp|s p l1 l2 E|s p l1 l2 E|s p l1 l2 _ E|s p l1 l2 _ E|s p l1 l2 n E|s p l1 l2 n f E|s p l1 l2 E];
      try (by eapply ended_well_empty). rewrite E. by intros [= -> _]. }
  assert (Hother : forall t, tr_phase t = tr_phase (get_tr x s) ->
    (tr_phase (get_tr x s) = PEnded None -> False)).
  { intros _ _. destruct x; intros Ep; [specialize (Hh Ep)|specialize (Hg Ep)]; apply Hnot; unfold ended_well; cbn in *;
      by destruct (http s), (grpc s); cbn in *; subst. }
  assert (Hframe : forall t a f k, tr_phase t = tr_phase (get_tr x s) ->
    k + unanswered (tr_requests t) <= a - applied s + acked s + unanswered (tr_requests (get_tr x s)) ->
    inv (set_counts a f k (set_tr x t s))).
  { intros t a f k Ep Hcount. split.
    - destruct x; cbn in *; lia.
    - destruct x; cbn in *; [|done]. intros E. rewrite Ep in E. by destruct (Hother t Ep E).
    - destruct x; cbn in *; [done|]. intros E. rewrite Ep in E. by destruct (Hother t Ep E).
    - apply (main_ok_frame s); [by destruct x| | | |done].
      + intros y Hy. assert (y <> x) by congruence. by destruct x, y.
      + intros Eh Eg. destruct x; done.
      + by destruct x.
    - by destruct x. }
  assert (Hsame : forall t, set_tr x t s = set_counts (applied s) (saved s) (acked s) (set_tr x t s)) by by destruct x.
  destruct Hst as [s p l E Hp|s p l1 l2 E|s p l1 l2 E|s p l1 l2 _ E|s p l1 l2 _ E|s p l1 l2 n E|s p l1 l2 n f E|s p l1 l2 E];
    (apply Hframe || (rewrite Hsame; apply Hframe)); rewrite E; try done;
    cbn [tr_requests]; rewrite ?unanswered_app, ?unanswered_cons; cbn; lia.
Qed.

Lemma transport_step_inv x s s' : transport_step x s s' -> inv s -> inv s'.
Proof.
  intros Hst [Ha Hh Hg Hm Hs].
  assert (Hnot : ~ ended_well (get_tr x s)) by (destruct Hst as [s ? ? E|s ? ? E|s ? E ?|s ? ? E ?|s ? E|s ? ? ? E ?]; by rewrite E).
  assert (Hframe : forall t, unanswered (tr_requests t) = unanswered (tr_requests (get_tr x s)) -> tr_ok t ->
    inv (set_tr x t s)).
  { intros t Hc Ht. split.
    - destruct x; cbn in *; lia.
    - by destruct x.
    - by destruct x.
    - apply (main_ok_frame s); [by destruct x| | | |done].
      + intros y Hy. rewrite get_set_tr, decide_False by congruence. done.
      + by destruct x.
      + by destruct x.
    - by destruct x. }
  destruct Hst as [s l e E|s l e E|s l E Hd|s l e E Hd|s e E|s l e e' E He]; apply Hframe; rewrite ?E; done.
Qed.

Lemma saver_step_inv s s' : startPeriodicSave s s' -> inv s -> inv s'.
Proof.
  intros Hst [Ha Hh Hg Hm Hs].
  assert (Hp : persistence = PeriodicSave) by (apply Hs; destruct Hst; congruence).
  assert (Hnot : ~ saver_gone s) by (intros [G|G]; destruct Hst; congruence).
  assert (Hframe : forall v f, inv (set_counts (applied s) f (acked s) (set_periodic v s))).
  { intros v f. split; [done..| |done]. apply (main_ok_frame s); done. }
  destruct Hst; try apply Hframe; exact (Hframe _ (saved s)).
Qed.

Lemma join_None r r' : Join [r; r'] = None -> r = None /\ r' = None.
Proof. intros [? [? _]%Forall_cons]%Join_None%Forall_cons. done. Qed.

Lemma Run_inv s s' : Run s s' -> inv s -> inv s'.
Proof.
  intros Hst [Ha Hh Hg Hm Hs].
  assert (Hwell : forall x l, get_tr x s = MkTransport (PEnded None) l -> ended_well (get_tr x s)).
  { intros x l E. unfold ended_well. rewrite E.
    destruct x; cbn in E; [specialize (Hh)|specialize (Hg)]; unfold tr_ok in *; rewrite E in *; cbn in *;
      [by rewrite Hh|by rewrite Hg]. }
  destruct Hst as [Hst|Hst];
    [destruct Hst as [s x r l Em E|s x r r' l Em E]
    |destruct Hst as [s e Em En|s e Em Ep Hgone|s e n Em|s e n f e' Em]];
    (split; [done..| |done]); unfold main_ok in *; cbn [set_main main set_counts]; rewrite Em in Hm.
  - intros ->. by apply Hwell in E; destruct x.
  - intros [-> ->]%join_None. specialize (Hm eq_refl). pose proof (Hwell _ _ E). by destruct x.
  - intros [-> _]%join_None. destruct (Hm eq_refl). done.
  - split_and!; [done|done|]. intros ->. destruct (Hm eq_refl). done.
  - destruct Hm as (Hgone & _ & Hm). intros [-> _]%join_None. destruct (Hm eq_refl) as (? & ? & ->). done.
  - by intros [_ ?]%join_None.
Qed.

Lemma initial_inv n : 0 <= n -> inv (initial n).
Proof. intros Hn. split; cbn; [lia|done..|]. by destruct persistence. Qed.

Lemma step_inv s s' : inv s -> step s s' -> inv s'.
Proof.
  intros Hi [[[Ht|Ht]|[Hs|Hr]]|[[x Hq]| ->]].
  - by eapply transport_step_inv.
  - by eapply transport_step_inv.
  - by eapply saver_step_inv.
  - by eapply Run_inv.
  - by eapply request_step_inv.
  - destruct Hi. by split.
Qed.

Lemma reachable_inv s : reachable s -> inv s.
Proof. intros (n & Hn & Hr). eapply rtc_invariant; [exact step_inv|exact Hr|by apply initial_inv]. Qed.

(** C18: When [Run] returns without an error and metrics are kept in a file,
    both transports have drained, no request is left behind, and the file holds
    every update the storage has taken, so every update any client was told of. *)
Theorem clean_stop_saves_all s :
  reachable s -> main s = MReturned None ->
  tr_requests (http s) = [] /\ tr_requests (grpc s) = [] /\
  (persistence <> NoFile -> saved s = applied s /\ acked s <= saved s).
Proof.
  intros Hr Hm. destruct (reachable_inv s Hr) as [Ha _ _ Hmain _]. unfold main_ok in Hmain. rewrite Hm in Hmain.
  destruct (Hmain eq_refl) as (Eh & Eg & Hsave). rewrite Eh, Eg in *. split_and!; [done..|].
  intros Hp. destruct (Hsave Hp) as [_ E]. cbn in Ha. lia.
Qed.

(** ** Stopping *)

Definition returns (s : state) : Prop := exists s' r, rtc work s s' /\ main s' = MReturned r.

Lemma transport_work x s s' : transport_step x s s' -> work s s'.
Proof. left. destruct x; [by left|by right]. Qed.

Lemma returns_step s s' : work s s' -> returns s' -> returns s.
Proof. intros Hw (s2 & r & Hr & Hm). exists s2, r. split; [by eapply rtc_l|done]. Qed.

Lemma returns_steps s s' : rtc work s s' -> returns s' -> returns s.
Proof. intros Hw (s2 & r & Hr & Hm). exists s2, r. split; [by etransitivity|done]. Qed.

(** Once the context is done a transport ends: at the latest its shutdown times out. *)
Lemma transport_ends s x :
  run_done s -> exists s' r l, rtc work s s' /\ get_tr x s' = MkTransport (PEnded r) l /\ main s' = main s.
Proof.
  intros Hd.
  assert (Hforced : forall s l e, get_tr x s = MkTransport (PDraining e) l ->
    exists s' r l, rtc work s s' /\ get_tr x s' = MkTransport (PEnded r) l /\ main s' = main s).
  { intros s1 l e E. eexists _, _, _. split; [apply rtc_once, (transport_work x); eapply shutdown_forced; [exact E|done]|].
    by destruct x. }
  destruct (get_tr x s) as [[|e|e|r] l] eqn:E.
  - destruct (Hforced (set_tr x (MkTransport (PDraining None) l) s) l None) as (s' & r & l' & Hw & Ht & Hm);
      [by destruct x|].
    exists s', r, l'. split; [|split; [done|by rewrite Hm; destruct x]]. eapply rtc_l; [|exact Hw].
    apply (transport_work x). by apply shutdown_starts.
  - eexists _, _, _. split; [apply rtc_once, (transport_work x); eapply serve_returns; exact E|]. by destruct x.
  - by eapply Hforced.
  - by exists s, r, l.
Qed.

Lemma saving_returns s e n : main s = MSaving e n -> returns s.
Proof. intros Hm. eapply returns_step; [right; right; right; by eapply run_saves|]. by eexists _, _. Qed.

Lemma stopping_returns s e : main s = MStopping e -> returns s.
Proof.
  intros Hm. destruct (decide (persistence = NoFile)) as [Hp|Hp].
  { eapply returns_step; [right; right; right; by eapply run_nothing_to_save|]. by eexists _, _. }
  assert (Hgone : forall s, main s = MStopping e -> saver_gone s -> returns s).
  { intros s1 Hm1 Hg. eapply returns_step; [right; right; right; by eapply run_snapshots|]. by eapply saving_returns. }
  assert (Hidle : forall s, main s = MStopping e -> periodic s = SvIdle -> returns s).
  { intros s1 Hm1 Hi. eapply returns_step; [right; left; apply saver_stops; [done|by unfold stop_closed; rewrite Hm1]|].
    apply Hgone; [done|by right]. }
  destruct (periodic s) as [| |n|] eqn:Es.
  - apply Hgone; [done|by left].
  - by apply Hidle.
  - eapply returns_step; [right; left; by apply (saver_writes _ n)|]. by apply Hidle.
  - apply Hgone; [done|by right].
Qed.

Lemma second_returns s x r : main s = MSecond x r -> returns s.
Proof.
  intros Hm. destruct (transport_ends s (other x)) as (s' & r' & l & Hw & Ht & Hm'); [right; by rewrite Hm|].
  eapply returns_steps; [exact Hw|]. eapply returns_step; [right; right; left; eapply run_second; [by rewrite Hm'|exact Ht]|].
  by eapply stopping_returns.
Qed.

(** C22: The server can always stop: from every reachable state in which the
    signal has come, the program's own steps lead [Run] to return, with no help
    from clients and also when requests hang, because the shutdown of each
    transport is bounded by a timeout. *)
Theorem stop_possible s :
  reachable s -> signalled s = true ->
  exists s' r, rtc work s s' /\ main s' = MReturned r.
Proof.
  intros _ Hsig. change (returns s). destruct (main s) as [|x r|r|r n|r] eqn:Hm.
  - destruct (transport_ends s HTTP) as (s' & r & l & Hw & Ht & Hm'); [by left|].
    eapply returns_steps; [exact Hw|].
    eapply returns_step; [right; right; left; eapply run_first; [by rewrite Hm'|exact Ht]|]. by eapply second_returns.
  - by eapply second_returns.
  - by eapply stopping_returns.
  - by eapply saving_returns.
  - exists s, r. by split.
Qed.

(** A transport that cannot drain makes [Run] return an error. *)
Lemma requests_left_is_error s r :
  reachable s -> main s = MReturned r -> tr_requests (http s) <> [] -> r <> None.
Proof. intros Hr Hm Hl ->. by destruct (clean_stop_saves_all s Hr Hm). Qed.
End Steps.

(** ** Two synchronous saves at once *)

(** C24: With a store interval of 0 every update is saved before it is answered,
    but nothing orders the saves: of two requests that run at once, the one with
    the older snapshot can write last, and an update its client was told of is
    then in the storage but not in the file. *)
Theorem sync_saves_race :
  exists s, reachable SyncSave s /\ main s = MFirst /\
    tr_requests (http s) = [] /\ tr_requests (grpc s) = [] /\
    acked s = 2 /\ applied s = 2 /\ saved s = 1.
Proof.
  assert (Hq : forall s s', request_step SyncSave HTTP s s' -> step SyncSave s s') by (intros; right; left; by exists HTTP).
  set (st l a f k := set_counts a f k (set_tr HTTP (MkTransport PServing l) (initial SyncSave 0))).
  exists (st [] 2 1 2). split; [|done]. exists 0. split; [done|].
  eapply rtc_l; [exact (Hq _ _ (request_arrives SyncSave HTTP (st [] 0 0 0) PServing [] eq_refl I))|].
  eapply rtc_l; [exact (Hq _ _ (request_arrives SyncSave HTTP (st [RFresh] 0 0 0) PServing [RFresh] eq_refl I))|].
  eapply rtc_l; [exact (Hq _ _ (request_applied SyncSave HTTP (st [RFresh; RFresh] 0 0 0) PServing [] [RFresh] eq_refl))|].
  eapply rtc_l; [exact (Hq _ _ (request_snapshots SyncSave HTTP (st [RApplied; RFresh] 1 0 0) PServing [] [RFresh] eq_refl eq_refl))|].
  eapply rtc_l; [exact (Hq _ _ (request_applied SyncSave HTTP (st [RSnapped 1; RFresh] 1 0 0) PServing [RSnapped 1] [] eq_refl))|].
  eapply rtc_l; [exact (Hq _ _ (request_snapshots SyncSave HTTP (st [RSnapped 1; RApplied] 2 0 0) PServing [RSnapped 1] [] eq_refl eq_refl))|].
  eapply rtc_l; [exact (Hq _ _ (request_saves SyncSave HTTP (st [RSnapped 1; RSnapped 2] 2 0 0) PServing [RSnapped 1] [] 2 eq_refl))|].
  eapply rtc_l; [exact (Hq _ _ (request_saves SyncSave HTTP (st [RSnapped 1; RReady] 2 2 0) PServing [] [RReady] 1 eq_refl))|].
  eapply rtc_l; [exact (Hq _ _ (request_answered SyncSave HTTP (st [RReady; RReady] 2 1 0) PServing [] [RReady] eq_refl))|].
  eapply rtc_l; [exact (Hq _ _ (request_answered SyncSave HTTP (st [RReady] 2 1 1) PServing [] [] eq_refl))|].
  apply rtc_refl.
Qed.

(** A transport with no request, before and after. *)
Abbreviation quiet := (MkTransport PServing []).
Abbreviation ended := (MkTransport (PEnded None) []).

Tactic Notation "take_step" uconstr(c) := eapply rtc_l; [refine c|].

(** One update, answered; then the signal. *)
Lemma one_update_then_stop :
  reachable PeriodicSave (MkState true ended ended
    (MReturned None) SvExited 1 1 1).
Proof.
  exists 0. split; [done|].
  take_step (or_intror (or_introl (ex_intro _ HTTP (request_arrives PeriodicSave HTTP
    (MkState false quiet quiet (MFirst) SvIdle 0 0 0) PServing [] eq_refl I)))).
  take_step (or_intror (or_introl (ex_intro _ HTTP (request_applied PeriodicSave HTTP
    (MkState false (MkTransport PServing [RFresh]) quiet (MFirst) SvIdle 0 0 0) PServing [] [] eq_refl)))).
  take_step (or_intror (or_introl (ex_intro _ HTTP (request_not_saved PeriodicSave HTTP
    (MkState false (MkTransport PServing [RApplied]) quiet (MFirst) SvIdle 1 0 0) PServing [] [] ltac:(discriminate) eq_refl)))).
  take_step (or_intror (or_introl (ex_intro _ HTTP (request_answered PeriodicSave HTTP
    (MkState false (MkTransport PServing [RReady]) quiet (MFirst) SvIdle 1 0 0) PServing [] [] eq_refl)))).
  take_step (or_intror (or_intror eq_refl)).
  take_step (or_introl (or_introl (or_introl (shutdown_starts HTTP
    (MkState true quiet quiet (MFirst) SvIdle 1 0 1) [] eq_refl (or_introl eq_refl))))).
  take_step (or_introl (or_introl (or_introl (shutdown_drained HTTP
    (MkState true (MkTransport (PDraining None) []) quiet (MFirst) SvIdle 1 0 1) None eq_refl)))).
  take_step (or_introl (or_introl (or_intror (shutdown_starts GRPC
    (MkState true ended quiet (MFirst) SvIdle 1 0 1) [] eq_refl (or_introl eq_refl))))).
  take_step (or_introl (or_introl (or_intror (shutdown_drained GRPC
    (MkState true ended (MkTransport (PDraining None) []) (MFirst) SvIdle 1 0 1) None eq_refl)))).
  take_step (or_introl (or_intror (or_intror (or_introl (run_first
    (MkState true ended ended (MFirst) SvIdle 1 0 1) GRPC None [] eq_refl eq_refl))))).
  take_step (or_introl (or_intror (or_intror (or_introl (run_second
    (MkState true ended ended (MSecond GRPC None) SvIdle 1 0 1) GRPC None None [] eq_refl eq_refl))))).
  take_step (or_introl (or_intror (or_introl (saver_stops
    (MkState true ended ended (MStopping None) SvIdle 1 0 1) eq_refl I)))).
  take_step (or_introl (or_intror (or_intror (or_intror (run_snapshots PeriodicSave
    (MkState true ended ended (MStopping None) SvExited 1 0 1) None eq_refl ltac:(discriminate) (or_intror eq_refl)))))).
  take_step (or_introl (or_intror (or_intror (or_intror (run_saves PeriodicSave
    (MkState true ended ended (MSaving None 1) SvExited 1 0 1) None 1 eq_refl))))).
  apply rtc_refl.
Qed.

Lemma clean_stop_saves_all_witness : exists s, main s = MReturned None /\ saved s = 1 /\ acked s <= saved s.
Proof.
  destruct (clean_stop_saves_all PeriodicSave _ one_update_then_stop eq_refl) as (_ & _ & Hs).
  destruct Hs as [Hs Ha]; [discriminate|]. eexists. split; [|split; [exact Hs|exact Ha]]. reflexivity.
Defined.

Lemma signalled_at_once : reachable NoFile (set_signal (initial NoFile 5)).
Proof. exists 5. split; [done|]. apply rtc_once. by right; right. Qed.

Lemma stop_possible_witness : exists s' r, rtc (work NoFile) (set_signal (initial NoFile 5)) s' /\ main s' = MReturned r.
Proof. exact (stop_possible NoFile _ signalled_at_once eq_refl). Defined.
End Server.
