(* ===== verification/Pool.v ===== *)
(** * The object pool: [pkg/pool/pool.go]

    A typed layer over [sync.Pool].  Objects live in a heap; the pool holds some
    of them, callers hold others.  [sync.Pool] may return any object it holds, or
    none and have a new one made, and it may drop objects at any time. *)

From S2P Require Import Prelude GoError.
From stdpp Require Import gmap.

Section Pool.
Context {T H : Type} `{!EqDecision T}.

(** [Resetter] *)
Class Resetter := Reset : T -> M H unit.

(** The pool: the function that makes an object, and the objects in it. *)
Record Pool : Type := MkPool {
  newObject : M H T;
  stored : list T;
}.

(** [New] *)
Definition New (make : option (M H T)) : outcome error Pool :=
  match make with
  | None => Fail (ErrNew "new object function is nil")
  | Some f => Ret (MkPool f [])
  end.

(** [Get]: [pick] is the stored object [sync.Pool] chooses, if any. *)
Definition Get (pick : option nat) : M (Pool * H) T := fun st =>
  match pick ≫= (fun i => stored st.1 !! i) with
  | Some object =>
      (Ret object, (MkPool (newObject st.1) (delete (default 0%nat pick) (stored st.1)), st.2))
  | None => on_snd (newObject st.1) st
  end.

(** [Put] *)
Definition Put `{!Resetter} (object : T) : M (Pool * H) unit :=
  _ ← on_snd (Reset object);
  on_fst (modify (fun p => MkPool (newObject p) (stored p ++ [object]))).

(** ** Callers that use the pool as intended *)

(** [held] are the objects callers have and have not put back. *)
Record state : Type := MkState {
  pool : Pool;
  heap : H;
  held : list T;
}.

Section Discipline.
Context `{!Resetter} (clean : T -> H -> Prop).

(** What resetting and making an object promise, and that touching one object
    leaves the others clean. *)
Class PoolLaws := {
  Reset_clean x h h' : Reset x h = (Ret tt, h') -> clean x h';
  Reset_frame x y h r h' : Reset x h = (r, h') -> y <> x -> clean y h -> clean y h';
}.

(** A caller gets an object, changes one it holds, puts one it holds back; the
    runtime drops one. *)
Inductive pool_step : state -> state -> Prop :=
| step_get s pick x p' h' : Get pick (pool s, heap s) = (Ret x, (p', h')) ->
    (forall y, y ∈ stored p' -> clean y (heap s) -> clean y h') -> x ∉ stored p' -> x ∉ held s ->
    pool_step s (MkState p' h' (x :: held s))
| step_use s x h' : x ∈ held s -> (forall y, y <> x -> clean y (heap s) -> clean y h') ->
    pool_step s (MkState (pool s) h' (held s))
| step_put s x l1 l2 p' h' : held s = l1 ++ x :: l2 -> Put x (pool s, heap s) = (Ret tt, (p', h')) ->
    pool_step s (MkState p' h' (l1 ++ l2))
| step_drop s i : pool_step s (MkState (MkPool (newObject (pool s)) (delete i (stored (pool s)))) (heap s) (held s)).

(** No object is in two places, and what is stored is clean. *)
Definition pool_ok (s : state) : Prop :=
  NoDup (stored (pool s) ++ held s) /\ forall x, x ∈ stored (pool s) -> clean x (heap s).

Lemma delete_sublist (l : list T) i : delete i l `sublist_of` l.
Proof. revert i. induction l as [|x l IH]; intros [|i]; cbn; [done..|by apply sublist_cons|by apply sublist_skip]. Qed.

Lemma NoDup_middle (l1 l2 : list T) x : NoDup (l1 ++ x :: l2) <-> NoDup (x :: l1 ++ l2).
Proof. by rewrite Permutation_middle. Qed.

Lemma get_stored pick p h x p' h' :
  Get pick (p, h) = (Ret x, (p', h')) ->
  (stored p ≡ₚ x :: stored p' /\ h' = h) \/ (p' = p /\ newObject p h = (Ret x, h')).
Proof.
  unfold Get. cbn. destruct pick as [i|]; cbn.
  - destruct (stored p !! i) as [y|] eqn:E.
    + intros [= <- <- <-]. left. split; [|done]. cbn. by apply delete_Permutation.
    + unfold on_snd. cbn. destruct (newObject p h) as [r h1]. intros [= -> <- <-]. by right.
  - unfold on_snd. cbn. destruct (newObject p h) as [r h1]. intros [= -> <- <-]. by right.
Qed.

Lemma pool_step_ok `{!PoolLaws} s s' : pool_ok s -> pool_step s s' -> pool_ok s'.
Proof.
  intros [Hnd Hclean] Hst. destruct Hst as [s pick x p' h' Hg Hf Hx1 Hx2|s x h' Hx Hf|s x l1 l2 p' h' Hh Hp|s i].
  - apply get_stored in Hg as [[Hperm ->]|[-> Hn]]; cbn.
    + split.
      * apply NoDup_middle. rewrite Hperm in Hnd. exact Hnd.
      * intros y Hy. apply Hclean. rewrite Hperm. by right.
    + split.
      * apply NoDup_middle, NoDup_cons. split; [|done]. rewrite elem_of_app. tauto.
      * intros y Hy. apply Hf, Hclean; done.
  - split; [done|]. cbn. intros y Hy. apply Hf; [|by apply Hclean]. intros ->.
    apply NoDup_app in Hnd as (_ & Hd & _). by apply (Hd x).
  - unfold Put in Hp. apply bind_Ret_inv in Hp as ([] & [p1 h1] & Hr & Hm). injection Hm as <- <-.
    unfold on_snd in Hr. cbn in Hr. destruct (Reset x (heap s)) as [r h2] eqn:Er. injection Hr as -> <- <-.
    split; cbn.
    + rewrite Hh, app_assoc in Hnd. apply NoDup_middle in Hnd.
      rewrite <-app_assoc. apply NoDup_middle. by rewrite app_assoc.
    + intros y [Hy|Hy]%elem_of_app.
      * eapply Reset_frame; [exact Er| |by apply Hclean]. intros ->. rewrite Hh in Hnd.
        apply NoDup_app in Hnd as (_ & Hd & _). apply (Hd x Hy). set_solver.
      * apply list_elem_of_singleton in Hy as ->. by eapply Reset_clean.
  - split; cbn.
    + eapply sublist_NoDup; [exact Hnd|]. apply sublist_app; [apply delete_sublist|done].
    + intros y Hy. apply Hclean. by eapply list_elem_of_delete_inv.
Qed.

(** As long as every object is put back by the caller that got it, the pool
    only ever holds objects that have been reset and not touched since: an
    object [Get] returns was made new or is clean. *)
Theorem pool_gives_clean `{!PoolLaws} make p h0 s pick x p' h' :
  New make = Ret p -> rtc pool_step (MkState p h0 []) s ->
  Get pick (pool s, heap s) = (Ret x, (p', h')) ->
  (exists h1, newObject (pool s) (heap s) = (Ret x, h1)) \/ (x ∈ stored (pool s) /\ clean x h').
Proof.
  intros Hnew Hr Hg. destruct make as [f|]; [|done]. injection Hnew as <-.
  assert (Hok : pool_ok s).
  { eapply rtc_invariant; [intros a b; apply pool_step_ok|exact Hr|]. split; [constructor|]. by intros y ?%elem_of_nil. }
  destruct Hok as [_ Hclean]. apply get_stored in Hg as [[Hperm ->]|[-> Hn]]; [right|left; eauto].
  assert (x ∈ stored (pool s)) by (rewrite Hperm; by left). auto.
Qed.
End Discipline.
End Pool.

(** ** Counters in a heap, for evaluation *)

#[local] Instance counter_reset : Resetter (T := nat) (H := gmap nat Z) := fun x h => (Ret tt, <[x := 0%Z]> h).

Definition zeroed (x : nat) (h : gmap nat Z) : Prop := h !! x = Some 0%Z.

#[local] Instance counter_laws : PoolLaws (T := nat) zeroed.
Proof.
  split; unfold zeroed, Reset, counter_reset.
  - intros x h h' [= <-]. apply lookup_insert_eq.
  - intros x y h r h' [= _ <-] Hxy Hy. by rewrite lookup_insert_ne.
Qed.

(** A new counter starts at 7; one is enough here. *)
Definition new_counter : M (gmap nat Z) nat := fun h => (Ret 3%nat, <[3%nat := 7%Z]> h).

(** Got, put back, and got again. *)
Lemma one_round :
  rtc (pool_step zeroed) (MkState (MkPool new_counter []) ∅ [])
    (MkState (MkPool new_counter [3%nat]) {[3%nat := 0%Z]} []).
Proof.
  eapply rtc_l.
  { apply (step_get zeroed (MkState (MkPool new_counter []) ∅ []) None 3%nat (MkPool new_counter []) {[3%nat := 7%Z]});
      [reflexivity|done|apply not_elem_of_nil|apply not_elem_of_nil]. }
  eapply rtc_l; [|apply rtc_refl].
  by apply (step_put zeroed (MkState (MkPool new_counter []) {[3%nat := 7%Z]} [3%nat]) 3%nat [] []
    (MkPool new_counter [3%nat]) {[3%nat := 0%Z]}).
Qed.

Lemma pool_gives_clean_witness : exists p',
  Get (Some 0%nat) (MkPool new_counter [3%nat], {[3%nat := 0%Z]}) = (Ret 3%nat, (p', {[3%nat := 0%Z]})) /\
  ((exists h1, new_counter {[3%nat := 0%Z]} = (Ret 3%nat, h1)) \/
   (3%nat ∈ [3%nat] /\ zeroed 3%nat {[3%nat := 0%Z]})).
Proof.
  eexists. split; [reflexivity|].
  exact (pool_gives_clean zeroed (Some new_counter) (MkPool new_counter []) ∅ _ (Some 0%nat) _ _ _
    eq_refl one_round eq_refl).
Defined.
