(* ===== verification/Noosexit.v ===== *)
(** * The [noosexit] analyser: [cmd/staticlint/noosexit/analyzer.go]

    Syntax trees as far as the analyser looks at them, the traversal of
    [ast.Inspect], and the diagnostics.  An identifier carries the key under which
    the type checker recorded its use. *)

From S2P Require Import Prelude GoString.
Local Open Scope string_scope.

(** [ast.Node]: calls, selectors and identifiers; any other node is its children
    in the order of the traversal.  A call carries its position. *)
#[warnings="-register-all"]
Inductive Node : Type :=
| CallExpr (pos : nat) (Fun : Node) (Args : list Node)
| SelectorExpr (X : Node) (Sel : string)
| Ident (use : nat) (Name : string)
| OtherNode (children : list Node).

Inductive Decl : Type :=
| FuncDecl (Recv : option Node) (Name : string) (Body : option Node)
| OtherDecl.

(** [types.Object] in [TypesInfo.Uses]: a package name and the path it stands for. *)
Inductive Object : Type := PkgName (Path : string) | OtherObject.

Abbreviation Uses := (nat -> option Object).

(** [analysis.Pass]: the package, its files and what the type checker found. *)
Record Pass : Type := MkPass {
  Pkg_Name : string;
  Pkg_Path : string;
  Files : list (list Decl);
  TypesInfo_Uses : Uses;
}.

Definition isUserMainPackage (pass : Pass) : bool :=
  bool_decide (Pkg_Name pass = "main") && negb (HasSuffix (Pkg_Path pass) ".test").

Definition mainFuncDecl (decl : Decl) : option Node :=
  match decl with
  | FuncDecl _ name (Some body) => if decide (name = "main") then Some body else None
  | _ => None
  end.

Definition isOSExitCall (info : Uses) (Fun : Node) : bool :=
  match Fun with
  | SelectorExpr (Ident use _) sel =>
      if decide (sel = "Exit") then
        match info use with
        | Some (PkgName path) => bool_decide (path = "os")
        | _ => false
        end
      else false
  | _ => false
  end.

(** [ast.Inspect] with the callback of [reportOSExitCalls], which always goes on:
    the positions reported, in pre-order. *)
Fixpoint reportOSExitCalls (info : Uses) (node : Node) : list nat :=
  match node with
  | CallExpr pos f args =>
      (if isOSExitCall info f then [pos] else [])
      ++ reportOSExitCalls info f ++ flat_map (reportOSExitCalls info) args
  | SelectorExpr x _ => reportOSExitCalls info x
  | Ident _ _ => []
  | OtherNode children => flat_map (reportOSExitCalls info) children
  end.

Definition inspectFile (pass : Pass) (file : list Decl) : list nat :=
  flat_map (fun decl =>
    match mainFuncDecl decl with
    | Some body => reportOSExitCalls (TypesInfo_Uses pass) body
    | None => []
    end) file.

(** [run]: the positions of the diagnostics. *)
Definition run (pass : Pass) : list nat :=
  if negb (isUserMainPackage pass) then [] else flat_map (inspectFile pass) (Files pass).

(** ** What it reports *)

(** [n] occurs in [m], at any depth: also in closures, arguments and callees. *)
Inductive occurs (n : Node) : Node -> Prop :=
| occurs_here : occurs n n
| occurs_fun pos f args : occurs n f -> occurs n (CallExpr pos f args)
| occurs_arg pos f args a : a ∈ args -> occurs n a -> occurs n (CallExpr pos f args)
| occurs_x x sel : occurs n x -> occurs n (SelectorExpr x sel)
| occurs_child children c : c ∈ children -> occurs n c -> occurs n (OtherNode children).

Lemma Node_nested_ind (P : Node -> Prop) :
  (forall pos f args, P f -> Forall P args -> P (CallExpr pos f args)) ->
  (forall x sel, P x -> P (SelectorExpr x sel)) ->
  (forall use name, P (Ident use name)) ->
  (forall children, Forall P children -> P (OtherNode children)) ->
  forall n, P n.
Proof.
  intros Hc Hs Hi Ho. fix IH 1. intros [pos f args|x sel|use name|children].
  - apply Hc; [apply IH|]. induction args as [|a args IHargs]; constructor; [apply IH|exact IHargs].
  - apply Hs, IH.
  - apply Hi.
  - apply Ho. induction children as [|c children IHc]; constructor; [apply IH|exact IHc].
Qed.

Lemma elem_of_flat_map {A B} (f : A -> list B) l y : y ∈ flat_map f l <-> exists x, x ∈ l /\ y ∈ f x.
Proof.
  induction l as [|x l IH]; cbn; [split; [by intros ?%elem_of_nil|by intros (? & ?%elem_of_nil & _)]|].
  rewrite elem_of_app, IH. setoid_rewrite elem_of_cons. naive_solver.
Qed.

(** The callee names [Exit] of the package [os]. *)
Definition calls_os_exit (info : Uses) (f : Node) : Prop :=
  exists use name, f = SelectorExpr (Ident use name) "Exit" /\ info use = Some (PkgName "os").

Lemma isOSExitCall_spec info f : isOSExitCall info f = true <-> calls_os_exit info f.
Proof.
  unfold calls_os_exit. split.
  - destruct f as [|[|use name|use name|] sel| |]; cbn; try done; case_decide as Hs; try done.
    destruct (info use) as [[path|]|] eqn:E; try done. intros ->%bool_decide_eq_true. subst sel.
    by eexists _, _.
  - intros (use & name & -> & E). cbn. by rewrite E.
Qed.

Lemma reported_iff info pos node :
  pos ∈ reportOSExitCalls info node <->
  exists f args, occurs (CallExpr pos f args) node /\ calls_os_exit info f.
Proof.
  induction node as [q f args IHf IHargs|x sel IH|use name|children IH] using Node_nested_ind; cbn.
  - rewrite !elem_of_app, IHf, elem_of_flat_map. split.
    + intros [Hq|[(f' & args' & Ho & Hc)|(a & Ha & Hp)]].
      * destruct (isOSExitCall info f) eqn:E; [|by apply elem_of_nil in Hq].
        apply list_elem_of_singleton in Hq as ->. exists f, args. split; [constructor|by apply isOSExitCall_spec].
      * exists f', args'. split; [by apply occurs_fun|done].
      * rewrite Forall_forall in IHargs. apply (IHargs a Ha) in Hp as (f' & args' & Ho & Hc).
        exists f', args'. split; [by eapply occurs_arg|done].
    + intros (f' & args' & Ho & Hc). inversion Ho as [|? ? ? Hf|? ? ? a Ha Hao| |]; subst.
      * left. apply isOSExitCall_spec in Hc as ->. by left.
      * right; left. eauto.
      * right; right. exists a. split; [done|]. rewrite Forall_forall in IHargs. apply (IHargs a Ha). eauto.
  - rewrite IH. split; intros (f' & args' & Ho & Hc); exists f', args'; split; try done; [by constructor|].
    by inversion Ho.
  - split; [by intros ?%elem_of_nil|]. intros (f' & args' & Ho & _). inversion Ho.
  - rewrite elem_of_flat_map. rewrite Forall_forall in IH. split.
    + intros (c & Hc & Hp). apply (IH c Hc) in Hp as (f' & args' & Ho & Hx).
      exists f', args'. split; [by eapply occurs_child|done].
    + intros (f' & args' & Ho & Hx). inversion Ho as [| | | |? c Hc Hco]; subst.
      exists c. split; [done|]. apply (IH c Hc). eauto.
Qed.

(** C40: The analyser reports a call exactly when it occurs, at any depth, in
    the body of a function or method called [main] of a user's package [main],
    and its callee is [Exit] selected from an identifier that stands for the
    package [os], under whatever name it was imported. *)
Theorem noosexit_reports pass pos :
  pos ∈ run pass <->
  Pkg_Name pass = "main" /\ HasSuffix (Pkg_Path pass) ".test" = false /\
  exists file recv body f args,
    file ∈ Files pass /\ FuncDecl recv "main" (Some body) ∈ file /\
    occurs (CallExpr pos f args) body /\ calls_os_exit (TypesInfo_Uses pass) f.
Proof.
  assert (Hfile : forall file, pos ∈ inspectFile pass file <-> exists recv body f args,
    FuncDecl recv "main" (Some body) ∈ file /\
    occurs (CallExpr pos f args) body /\ calls_os_exit (TypesInfo_Uses pass) f).
  { intros file. unfold inspectFile. rewrite elem_of_flat_map. split.
    - intros (decl & Hd & Hp). destruct decl as [recv name [body|]|]; cbn in Hp; try (by apply elem_of_nil in Hp).
      case_decide as Hn; [|by apply elem_of_nil in Hp]. subst name.
      apply reported_iff in Hp as (f & args & Ho & Hc). by exists recv, body, f, args.
    - intros (recv & body & f & args & Hd & Ho & Hc). eexists. split; [exact Hd|]. cbn.
      rewrite decide_True by done. apply reported_iff. eauto. }
  unfold run, isUserMainPackage.
  destruct (decide (Pkg_Name pass = "main")) as [Hn|Hn];
    [rewrite bool_decide_true by done|rewrite bool_decide_false by done; cbn;
     split; [by intros ?%elem_of_nil|tauto]].
  destruct (HasSuffix (Pkg_Path pass) ".test"); cbn; [split; [by intros ?%elem_of_nil|by intros (_ & [=] & _)]|].
  rewrite elem_of_flat_map. setoid_rewrite Hfile. split.
  - intros (file & Hin & recv & body & f & args & H). split_and!; [done..|]. by exists file, recv, body, f, args.
  - intros (_ & _ & file & recv & body & f & args & Hin & H). exists file. split; [done|]. by exists recv, body, f, args.
Qed.

(** ** What it does not see *)

Definition imports_os : Uses := fun use => if decide (use = 0%nat) then Some (PkgName "os") else None.

Definition pass_with (body : Node) : Pass :=
  MkPass "main" "example.com/cmd" [[FuncDecl None "main" (Some body)]] imports_os.

(** [os.Exit(1)] in a deferred closure, with [os] imported as [o]. *)
Example reports_in_closure :
  run (pass_with (OtherNode [CallExpr 1 (OtherNode [CallExpr 2 (SelectorExpr (Ident 0 "o") "Exit") []]) []])) = [2%nat].
Proof. reflexivity. Qed.

(** [(os.Exit)(1)]: the parentheses hide the selector. *)
Example misses_parentheses :
  run (pass_with (CallExpr 1 (OtherNode [SelectorExpr (Ident 0 "os") "Exit"]) [])) = [].
Proof. reflexivity. Qed.

(** [Exit(1)] after a dot import is an identifier, not a selector. *)
Example misses_dot_import : run (pass_with (CallExpr 1 (Ident 5 "Exit") [])) = [].
Proof. reflexivity. Qed.
