(* ===== verification/Commands.v ===== *)
(** * The commands: the [main] packages of [cmd], [internal/buildinfo], [internal/logger]

    What the programs do around the components: the lines they print, the
    logger, the sender of the agent and its closing, the exit.  [Run] of the agent
    and of the server is a transition system of its own (AgentRuntime.v,
    ServerRuntime.v); here it is the error it returns. *)

From S2P Require Import Prelude GoError GoString GoText GoNum GoJson GoMap FileStore AesGcm Encryption Http HTTPSender GoFlag AgentConfig AgentRuntime NetIP Log ServerConfig Storage MemStorage Service AuditTrail Retry Protocol Grpc ServerSetup GoAst ResetGen.
Local Open Scope Z_scope.
Local Open Scope string_scope.

(** A writer that may fail: what it took, and the fault of its n-th write. *)
Record Writer : Type := MkWriter {
  written : string;
  writes : nat;
  write_error : nat -> option error;
}.

Definition Write (s : string) : M Writer unit := fun w =>
  match write_error w (writes w) with
  | Some e => (Fail e, MkWriter (written w) (S (writes w)) (write_error w))
  | None => (Ret tt, MkWriter (written w +:+ s) (S (writes w)) (write_error w))
  end.

(** ** [buildinfo.go] *)
Module BuildInfo.

Definition value (v : string) : string := if decide (v = "") then "N/A" else v.

Definition Print (version date commit : string) : M Writer unit :=
  _ ← Write ("Build version: " +:+ value version +:+ nl);
  _ ← Write ("Build date: " +:+ value date +:+ nl);
  Write ("Build commit: " +:+ value commit +:+ nl).

Lemma print_text version date commit w :
  (forall n, write_error w n = None) ->
  exists w', Print version date commit w = (Ret tt, w') /\
    written w' = written w +:+ "Build version: " +:+ value version +:+ nl
      +:+ "Build date: " +:+ value date +:+ nl +:+ "Build commit: " +:+ value commit +:+ nl.
Proof.
  intros Hw. unfold Print, Write. run. rewrite !Hw. cbn. rewrite !Hw. cbn. rewrite !Hw.
  eexists. split; [done|]. cbn. by rewrite !string_app_assoc.
Qed.
End BuildInfo.

(** ** [logger.go] *)

(** [zap.ParseAtomicLevel] and [Config.Build]. *)
Class Zap := {
  ParseAtomicLevel : string -> option error;
  Build : string -> option error;
}.

Module Logger.
Definition defaultLevel : string := "info".

(** [New]: the level of the logger; [os.Getenv] does not tell unset from empty. *)
Definition New `{Zap} (lookupEnv : lookupEnvFunc) : outcome error string :=
  let levelName := default "" (lookupEnv "LOG_LEVEL") in
  let levelName := if decide (levelName = "") then defaultLevel else levelName in
  match ParseAtomicLevel levelName with
  | Some err => Fail (ErrWrap ("parse LOG_LEVEL " +:+ Quote levelName) err)
  | None =>
      match Build levelName with
      | Some err => Fail err
      | None => Ret levelName
      end
  end.
End Logger.

(** ** The connection of the gRPC sender: [sender.go] *)

(** What the agent's process has: the files, the log, the connections it holds open. *)
Record AgentHost : Type := MkAgentHost {
  agent_files : FS;
  agent_log : list entry;
  open_conns : Z;
}.

Definition on_agent_files {A} (m : M FS A) : M AgentHost A := fun h =>
  let '(r, fs) := m (agent_files h) in (r, MkAgentHost fs (agent_log h) (open_conns h)).
Definition agent_logs (es : list entry) : M AgentHost unit :=
  modify (fun h => MkAgentHost (agent_files h) (agent_log h ++ es) (open_conns h)).
Definition count_conns (n : Z) : M AgentHost unit :=
  modify (fun h => MkAgentHost (agent_files h) (agent_log h) (open_conns h + n)).

(** [credentials.NewClientTLSFromFile], [grpc.NewClient], [ClientConn.Close]: what
    they may fail with. *)
Class GrpcDial := {
  NewClientTLSFromFile : string -> option error;
  NewClient_error : string -> option error;
  ClientConn_Close_error : option error;
}.

Inductive transport_credentials : Type := Insecure | ClientTLS (ca : string).

Record ClientConn : Type := MkClientConn { conn_target : string; conn_creds : transport_credentials }.

Section Dial.
Context `{GrpcDial}.

Definition NewClient (target : string) (creds : transport_credentials) : M AgentHost ClientConn :=
  match NewClient_error target with
  | Some err => throw err
  | None => _ ← count_conns 1; mret (MkClientConn target creds)
  end.

(** The connection is gone also when [Close] reports an error. *)
#[export] Instance ClientConn_Close : GRPCSender.Closer ClientConn AgentHost := fun _ =>
  _ ← count_conns (-1);
  match ClientConn_Close_error with Some err => throw err | None => mret tt end.

Definition newTransportCredentials (tlsCAPath : string) : outcome error transport_credentials :=
  if decide (tlsCAPath = "") then Ret Insecure
  else
    match NewClientTLSFromFile tlsCAPath with
    | Some err => Fail (ErrWrap ("load gRPC TLS CA certificate " +:+ Quote tlsCAPath) err)
    | None => Ret (ClientTLS tlsCAPath)
    end.

Definition NewGRPCSender `{NetInterfaces} (serverAddr tlsCAPath : string) : M AgentHost (GRPCSender.t ClientConn) :=
  if decide (serverAddr = "") then throw (ErrNew "server address must not be empty")
  else
    transportCredentials ← lift_outcome (newTransportCredentials tlsCAPath);
    conn ← map_err (ErrWrap "create gRPC client") (NewClient serverAddr transportCredentials);
    mret (GRPCSender.newGRPCSender (Some conn) LocalIP).
End Dial.

(** How a process ends: [main] returns, or [log.Fatal] is called. *)
Inductive exit : Type := Returns | Fatal (e : error).

(** ** [cmd/agent/main.go] *)
Module AgentMain.
Import AgentConfig.

Section Run.
Context {PK SK : Type} `{!KeyFormats PK SK} `{JsonText} `{Zap} `{GrpcDial} `{NetInterfaces}.

Inductive sender : Type :=
| SenderGRPC (s : GRPCSender.t ClientConn)
| SenderHTTP (s : HTTPSender.t PK).

Definition newMetricsSender (cfg : AgentConfig) : M AgentHost sender :=
  if decide (Transport cfg = TransportGRPC) then
    s ← NewGRPCSender (ServerAddr cfg) (GRPCTLSCA cfg);
    mret (SenderGRPC s)
  else if decide (Transport cfg = TransportHTTP) then
    s ← on_agent_files (HTTPSender.NewHTTPSender (SK := SK) (ServerAddr cfg) (Key cfg) (CryptoKey cfg));
    mret (SenderHTTP s)
  else throw (ErrNew ("unsupported transport " +:+ Quote (Transport cfg))).

(** The function [newMetricsSender] returns with the sender. *)
Definition closeSender (s : sender) : M AgentHost unit :=
  match s with SenderGRPC s => GRPCSender.Close s | SenderHTTP _ => mret tt end.

Definition logAgentStart (cfg : AgentConfig) : M AgentHost unit :=
  _ ← agent_logs [MkEntry InfoLevel "(^_^) running Agent"
    [FString "transport" (Transport cfg); FString "address" (ServerAddr cfg);
     FBool "grpcTLS" (bool_decide (Transport cfg = TransportGRPC /\ GRPCTLSCA cfg <> ""))]];
  when (bool_decide (Transport cfg = TransportGRPC /\ GRPCTLSCA cfg = ""))
    (agent_logs [MkEntry WarnLevel "(о_0) gRPC transport is running without TLS"
       [FString "address" (ServerAddr cfg)]]).

(** The deferred function of [run]: it closes the sender however the body ends, and
    joins an error of closing to the one being returned. *)
Definition defer_closeSender (s : sender) (body : M AgentHost unit) : M AgentHost unit := fun h =>
  let '(r, h1) := body h in
  let '(c, h2) := closeSender s h1 in
  (match c, r with
   | Panic p, _ | _, Panic p => Panic p
   | Ret _, _ => r
   | Fail closeErr, _ =>
       let err := match r with Fail err => Some err | _ => None end in
       match Join [err; Some (ErrWrap "close metrics sender" closeErr)] with
       | Some err => Fail err
       | None => r
       end
   end, h2).

(** [runAgent] is [Agent.Run] with the sender it reports through. *)
Definition run (runAgent : Agent.t -> sender -> M AgentHost unit) (args : list string)
    (lookupEnv : lookupEnvFunc) : M AgentHost unit :=
  cfg ← on_agent_files (parseAgentConfig args lookupEnv);
  _ ← lift_outcome (Logger.New lookupEnv);
  s ← newMetricsSender cfg;
  defer_closeSender s
    (a ← lift_outcome (Agent.New Agent.a_service cfg);
     _ ← logAgentStart cfg;
     runAgent a s).

Definition banner : string := "
   _____          __         .__                 _____                         __
  /     \   _____/  |________|__| ____   ______ /  _  \    ____   ____   _____/  |_
 /  \ /  \_/ __ \   __\_  __ \  |/ ___\ /  ___//  /_\  \  / ___\_/ __ \ /    \   __\
/    Y    \  ___/|  |  |  | \/  \  \___ \___ \/    |    \/ /_/  >  ___/|   |  \  |
\____|__  /\___  >__|  |__|  |__|\___  >____  >____|__  /\___  / \___  >___|  /__|
        \/     \/                    \/     \/        \//_____/      \/     \/

".

Definition printBanner : M Writer unit := Write banner.

(** [main]: how the process ends.  The context that [signal.NotifyContext] cancels
    is part of [runAgent]; asking for help is no failure. *)
Definition main (version date commit : string) (runAgent : Agent.t -> sender -> M AgentHost unit)
    (args : list string) (lookupEnv : lookupEnvFunc) : M (Writer * AgentHost) exit :=
  printed ← on_fst (attempt (_ ← BuildInfo.Print version date commit; printBanner));
  match printed with
  | inr err => mret (Fatal err)
  | inl _ =>
      ran ← on_snd (attempt (run runAgent args lookupEnv));
      match ran with
      | inl _ => mret Returns
      | inr err => if Is err ErrHelp then mret Returns else mret (Fatal err)
      end
  end.

(** ** What [run] leaves behind *)

Lemma ClientConn_Close_conns (c : ClientConn) h :
  open_conns (GRPCSender.closer_Close c h).2 = open_conns h - 1.
Proof.
  unfold GRPCSender.closer_Close, ClientConn_Close, mbind, St_bind. cbn.
  destruct ClientConn_Close_error; cbn; lia.
Qed.

Lemma closeSender_conns s h :
  open_conns (closeSender s h).2 = open_conns h - match s with
    | SenderGRPC s => if GRPCSender.closer s then 1 else 0 | SenderHTTP _ => 0 end.
Proof. destruct s as [[[c|] ip d]|s]; [apply ClientConn_Close_conns|cbn; lia..]. Qed.

(** Connections are counted by nothing but dialling and closing. *)
Definition keeps_conns {A} (m : M AgentHost A) : Prop := forall h, open_conns (m h).2 = open_conns h.

Lemma keeps_bind {A B} (m : M AgentHost A) (f : A -> M AgentHost B) :
  keeps_conns m -> (forall a, keeps_conns (f a)) -> keeps_conns (m ≫= f).
Proof.
  intros Hm Hf h. specialize (Hm h). unfold mbind, St_bind.
  destruct (m h) as [[a|e|p] h1]; cbn in *; [|done..]. by rewrite Hf.
Qed.

Lemma keeps_files {A} (m : M FS A) : keeps_conns (on_agent_files m).
Proof. intros h. unfold on_agent_files. by destruct (m (agent_files h)). Qed.

Lemma keeps_lift {A} (o : outcome error A) : keeps_conns (lift_outcome o).
Proof. by destruct o. Qed.

Lemma keeps_logAgentStart cfg : keeps_conns (logAgentStart cfg).
Proof. apply keeps_bind; [done|]. intros _ h. by destruct (bool_decide _). Qed.

(** A sender that was made holds one connection if it closes one, a sender that was
    not holds none. *)
Lemma newMetricsSender_conns cfg h :
  let '(r, h1) := newMetricsSender cfg h in
  match r with
  | Ret s => open_conns (closeSender s h1).2 = open_conns h
  | _ => open_conns h1 = open_conns h
  end.
Proof.
  unfold newMetricsSender. case_decide; [|case_decide; [|done]].
  - unfold NewGRPCSender, map_err, NewClient. case_decide; [done|].
    destruct (newTransportCredentials _) as [creds|e|p]; [|done..]. cbn.
    unfold mbind, St_bind, lift_outcome, mret, St_ret. destruct (NewClient_error _); [done|]. cbn.
    rewrite ClientConn_Close_conns. cbn. lia.
  - unfold mbind, St_bind. unfold on_agent_files.
    destruct (HTTPSender.NewHTTPSender _ _ _ _) as [[s|e|p] fs]; cbn; done.
Qed.

(** [run] leaks no connection: however it ends, refused configuration, failing
    logger, agent that fails or panics, every connection it opened is closed. *)
Theorem run_closes_sender runAgent args lookupEnv :
  (forall a s, keeps_conns (runAgent a s)) -> keeps_conns (run runAgent args lookupEnv).
Proof.
  intros Hrun. apply keeps_bind; [apply keeps_files|]. intros cfg.
  apply keeps_bind; [apply keeps_lift|]. intros _ h.
  pose proof (newMetricsSender_conns cfg h) as Hs. unfold mbind at 1, St_bind at 1.
  destruct (newMetricsSender cfg h) as [[s|e|p] h1]; [|done..]. rewrite <-Hs, !closeSender_conns.
  unfold defer_closeSender. set (body := lift_outcome _ ≫= _).
  assert (Hb : keeps_conns body).
  { apply keeps_bind; [apply keeps_lift|]. intros a. apply keeps_bind; [apply keeps_logAgentStart|auto]. }
  specialize (Hb h1). destruct (body h1) as [r h2]. pose proof (closeSender_conns s h2) as Hc.
  destruct (closeSender s h2) as [c h3]. cbn in *. lia.
Qed.

(** The error of a body that failed is not lost when closing fails too. *)
Lemma defer_keeps_error s body h err h1 :
  body h = (Fail err, h1) -> (forall p, (closeSender s h1).1 <> Panic p) ->
  exists e h2, defer_closeSender s body h = (Fail e, h2) /\ forall target, Is err target = true -> Is e target = true.
Proof.
  intros E Hp. unfold defer_closeSender. rewrite E. destruct (closeSender s h1) as [[[]|ce|p] h2].
  - eauto.
  - eexists _, h2. split; [reflexivity|]. intros t Ht.
    rewrite (Join_Is [Some err; Some (ErrWrap "close metrics sender" ce)]) by reflexivity. cbn [existsb]. by rewrite Ht.
  - by destruct (Hp p).
Qed.
End Run.
End AgentMain.

(** ** [cmd/server/main.go] *)
Module ServerMain.

Section Run.
Context {PK SK : Type} `{!KeyFormats PK SK} `{MapRange} `{FloatText} `{JsonText} `{RemoteObserver.URLs}
  `{SqlDriver} `{Migrate} `{ServerTLS} `{Network} `{Zap} `{URLText}.

(** [defer app.Close(); return app.Run(ctx)] *)
Definition run_then_close (runServer : M (Server (SK := SK) * Host) unit) (app : Server (SK := SK)) : M Host unit := fun h =>
  match runServer (app, h) with
  | (r, st) =>
      match Close st with
      | (Panic p, (_, h')) => (Panic p, h')
      | (_, (_, h')) => (r, h')
      end
  end.

Definition run (runServer : M (Server (SK := SK) * Host) unit) (args : list string) (lookupEnv : lookupEnvFunc) :
    M Host unit :=
  cfg ← on_files (ServerConfig.parseServerConfig args lookupEnv);
  _ ← lift_outcome (Logger.New lookupEnv);
  app ← New (PK := PK) cfg;
  run_then_close runServer app.
Definition banner : string := "
   _____          __         .__                _________
  /     \   _____/  |________|__| ____   ______/   _____/ ______________  __ ___________
 /  \ /  \_/ __ \   __\_  __ \  |/ ___\ /  ___/\_____  \_/ __ \_  __ \  \/ // __ \_  __ \
/    Y    \  ___/|  |  |  | \/  \  \___ \___ \ /        \  ___/|  | \/\   /\  ___/|  | \/
\____|__  /\___  >__|  |__|  |__|\___  >____  >_______  /\___  >__|    \_/  \___  >__|
        \/     \/                    \/     \/        \/     \/                 \/

".

Definition printBanner : M Writer unit := Write banner.

Definition main (version date commit : string) (runServer : M (Server (SK := SK) * Host) unit)
    (args : list string) (lookupEnv : lookupEnvFunc) : M (Writer * Host) exit :=
  printed ← on_fst (attempt (_ ← BuildInfo.Print version date commit; printBanner));
  match printed with
  | inr err => mret (Fatal err)
  | inl _ =>
      ran ← on_snd (attempt (run runServer args lookupEnv));
      match ran with
      | inl _ => mret Returns
      | inr err => if Is err ErrHelp then mret Returns else mret (Fatal err)
      end
  end.
End Run.
End ServerMain.

(** ** [cmd/reset/main.go] *)
Module ResetMain.

(** What the command prints about the files it wrote. *)
Definition report (generatedFiles : list string) : string :=
  match generatedFiles with
  | [] => "reset: ¯＼_(ツ)_/¯ no structures with // generate:reset found" +:+ nl
  | _ =>
      "reset: (" +:+ "*_*" +:+ ") generated " +:+ FormatInt (Z.of_nat (List.length generatedFiles)) +:+ " file(s)" +:+ nl
      +:+ String.concat "" (map (fun file => "reset: wrote " +:+ file +:+ nl) generatedFiles)
  end.

(** [main]; writing to standard output is not checked. *)
Definition main `{GoSyntax} `{MapRange} (tree : Entry + error) : M FS (exit * string) :=
  generated ← attempt (ResetGen.Generate "." tree);
  match generated with
  | inr err => mret (Fatal err, "")
  | inl generatedFiles => mret (Returns, report generatedFiles)
  end.
End ResetMain.

(** ** [cmd/staticlint/main.go] *)
Module StaticLint.

(** The suites of [staticcheck]: the names of their analysers. *)
Class Suites := { staticcheck_Analyzers : list string; simple_Analyzers : list string }.

(** The analysers that are run, by package. *)
Definition analyzers `{Suites} : list string :=
  [ "asmdecl"; "assign"; "atomic"; "bools"; "buildtag"; "cgocall"; "composite"; "copylock"; "defers";
    "directive"; "errorsas"; "framepointer"; "httpresponse"; "ifaceassert"; "loopclosure"; "lostcancel";
    "nilfunc"; "printf"; "shift"; "sigchanyzer"; "slog"; "stdmethods"; "stringintconv"; "structtag";
    "testinggoroutine"; "tests"; "timeformat"; "unmarshal"; "unreachable"; "unsafeptr"; "unusedresult";
    "waitgroup";
    "bodyclose"; "nilerr";
    "noosexit" ]%list
  ++ staticcheck_Analyzers ++ simple_Analyzers.

(** Nothing of the suites is left out, and the project's own analyser runs. *)
Lemma analyzers_complete `{Suites} name :
  name ∈ staticcheck_Analyzers \/ name ∈ simple_Analyzers \/ name = "noosexit" -> name ∈ analyzers.
Proof. unfold analyzers. rewrite !elem_of_app, !elem_of_cons. tauto. Qed.
End StaticLint.
